(* ===== verification/_CoqProject ===== *)
-Q . S2P
Prelude.v
GoStrings.v
Regex.v
Naming.v
Json.v
Visit.v
Api.v
Field.v
Substitute.v
Generator.v
Template.v
Parameters.v
Processor.v
Webhook.v
Storage.v
Discovery.v
Meta.v
Cluster.v
Request.v
RequestLogic.v
RequestProps.v
RequestRun.v
Controllers.v
GoHeap.v
DeepCopy.v
Codec.v
Wire.v
WebhookAlpha.v
OpenApi.v
OpenApiCore.v
OpenApiMeta.v
OpenApiVirt.v
OpenApiCdi.v
Manager.v
Client.v
ApiServer.v
OpenApiAll.v
TypedClient.v
Security.v
Fake.v
FakeProps.v
