(* ===== verification/Prelude.v ===== *)
(** * virt-template: a verification development

    virt-template adds templates for KubeVirt virtual machines to Kubernetes.
    A VirtualMachineTemplate holds a virtual machine with parameter references
    (${NAME} in a string, ${{NAME}} for a whole non-string value) and a list
    of parameters; a VirtualMachineTemplateRequest asks for a template to be
    made from an existing machine.  The program consists of

    - the template engine (staging/src/kubevirt.io/virt-template-engine), which
      turns a template into a virtual machine;
    - the controllers (internal/controller): one makes templates from requests
      by snapshotting the machine and cloning its volumes, one marks templates
      as ready, one waits for the APIs the first one needs;
    - the validating webhooks (internal/webhook), which admit templates;
    - the aggregated API server (internal/apiserver), with the subresources
      process and create of a template;
    - the API types (api/core) with their generated deep copies, the OpenAPI
      schemas and typed clients (staging/src/kubevirt.io/virt-template-client-go)
      and two commands, the manager (cmd/main.go) and the API server
      (cmd/apiserver).

    The engine is called by the webhooks and by the API server; the request
    controller creates templates the engine processes later.

    ** Files

    Shared:
    - Prelude: outcomes of Go calls ([res]: a value, an error, a panic), the
      state monad [st], strings, byte classes, tactics;
    - GoStrings, Regex, Json: what the program uses of strings, strconv,
      regexp and encoding/json.  Regex is a backtracking matcher with the
      leftmost-first choice of Go for the expressions that occur; Json is the
      decoder with its escapes, number syntax and nesting limit, and the
      encoder, which escapes characters and replaces bytes that are not UTF-8;
    - Field: paths and errors of k8s.io/apimachinery validation/field;
    - Meta: conditions, finalizers and owner references, from the vendored
      api/meta and controllerutil;
    - GoHeap: memory with pointers, slices and maps, a monad of programs over
      it, and what it means for a copy to share nothing with its original;
    - Codec: JSON forms of Go structs as combinators with a round trip law
      each.

    Engine:
    - Api: the types Parameter, VirtualMachineTemplateSpec, RawExtension;
    - Visit: visit.go, over Go values with their static types, addressability
      and interfaces, so that reflection can fail or panic as it does in Go;
    - Substitute, Template: template.go (substitution in one string; values,
      decoding, namespaces, whole objects);
    - Generator: generator/expressionvalue.go with the random source as the
      class [RandSource];
    - Parameters: parameters.go; the order of iteration over a map is the class
      [MapOrder], over which the theorems quantify;
    - Processor: processor.go; the conversion of an unstructured object to the
      VirtualMachine struct is the class [Converter].

    Controllers:
    - Naming: internal/apimachinery/naming.go;
    - Cluster: the objects of the cluster, the client, and the environment
      [env]: before every call the rest of the cluster takes an arbitrary step,
      and a call may fail, before or after it took effect;
    - Request: virtualmachinetemplaterequest_controller.go, one definition per
      function, in the state monad [ctl] whose state is the request in memory,
      the cluster and the log of writes;
    - RequestLogic: a Hoare logic for [ctl] and the specification of every
      operation; RequestProps: the theorems; RequestRun: a concrete run;
    - Controllers: virtualmachinetemplate_controller.go, EnqueueRequestByUID
      and vmtr_availability_controller.go.

    Servers:
    - Webhook: internal/webhook/v1beta1;
    - Storage: internal/apiserver/storage; the engine is used through the class
      [TemplateProcessor], whose law Processor discharges;
    - WebhookAlpha: internal/webhook/v1alpha1, which converts a template
      through its JSON text and validates the result;
    - Discovery: internal/apiserver/filter.go and the groups of apiserver.go;
    - ApiServer: [Run] of apiserver.go, cmd/apiserver/main.go, the storages and
      openapi.go, with what k8s.io/apiserver makes of them: the routes of a
      group, the attributes of a request, the authorizer.

    Types, clients and processes:
    - DeepCopy: the functions of the four zz_generated.deepcopy.go, over GoHeap;
      copying a value of another project is the class [Externals];
    - Wire: the JSON form of every API object, all fields, both versions;
    - OpenApi: the schemas of the template API in openapi_generated.go and when
      a document has the shape of a schema; OpenApiCore, OpenApiMeta,
      OpenApiVirt, OpenApiCdi: the other definitions of that file, one per
      generated function; OpenApiAll: [GetOpenAPIDefinitions] and the builder
      of kube-openapi (builder3) that makes a document of them;
    - Client: the clientset and the requests of its expansions; TypedClient:
      the requests of every generated operation of the typed clients, from the
      generic client of client-go;
    - Fake, FakeProps: the fake clientset over the object tracker, the watchers
      and the reaction chain of client-go;
    - Security: the markers above the handlers, config/rbac/role.yaml,
      role_apiserver.yaml and the admission policy of requests
      (config/admission);
    - Manager: the options, steps and reads of cmd/main.go, and internal/scheme.

    ** What is proved

    Engine.  The reflective visitor is the structural transformation of the
    JSON tree of an object.  Substitution succeeds exactly when all references
    are defined, and under stated conditions on values and text it is the
    simultaneous replacement of all references.  Merging and validating
    parameters are characterised for every order of iteration.  The expression
    generator terminates on every input without the symbol class, returns
    strings of the right length over the right alphabet, and its alphabets are
    sorted sets.  A validated template never fails to process because of an
    undefined parameter.

    Request controller.  For every environment a reconciliation never panics
    and writes only what belongs to its request; for a request the admission
    policy let its author create, it does nothing its author may not do
    ([Reconcile_no_escalation]), and every call is one its cluster role grants
    ([manager_role_fits]); it always leaves Ready and
    Progressing set and consistent and sends the status; finished requests are
    only looked at for their time to live; the finalizer is removed only after
    the snapshot was deleted.  The volumes, labels, name parameter and unique
    identifiers of the created template are specified.  A concrete run goes
    from the request to the finished template.

    Other controllers.  The template controller converges in one step; the
    availability controller starts the request controller exactly when the
    groups are there and keeps pending requests eligible; changed objects lead
    back to their request.

    Servers.  The answer of the subresources is determined for every state of
    affairs; values of the user win; an admitted template stays processable;
    the create subresource creates at most one machine and answers once;
    discovery answers never contain hidden resources for every interleaving of
    concurrent requests.  Both webhooks give the same answer for the same
    template.  The API server, for every order of its maps, runs with exactly
    the routes of the two subresources in the two versions, discovery without
    their parent, and an authorizer that leaves every request of a client for
    a subresource to the cluster.

    Types, clients and processes.  A deep copy has the content of its original
    and no write through the one is seen through the other.  Every API object
    survives the way through its JSON text, which has the shape its schema
    publishes; the schemas of the two versions are the same up to their names.
    Texts are UTF-8 here, as the API server requires.  The OpenAPI document is
    built without an error for all types but four, every reference in it leads
    to a schema, and it holds just what its routes need ([openapi_document]).
    The clients send their requests to the routes of the server, or nothing;
    every operation of a typed client sends one request whose attributes, as a
    server reads them, are those of the operation.  In every reachable state
    the fake clientset behaves as a map from names to objects with watchers.
    The manager refuses TLS options it does not know, runs its steps in order
    and stops at the first that fails; the reads of the request controller are
    answered, except those of snapshot contents in one case
    ([request_controller_reads]).

    Some theorems record behaviour that differs from the documentation or the
    intent: values and generated text are scanned again
    ([substituteParameters_rescans_values], [GenerateValue_rescans_output]),
    colliding keys ([visitMap_collision_order]), named string types
    ([visitValue_named_string_panics]), a foreign snapshot that is deleted
    ([deleteSnapshot_ignores_label]), digits in the character classes
    ([getAlphabetFromRanges_classes]), the namespace of created machines
    ([create_handler_ignores_namespace]), a data volume of another namespace
    with the label of a request ([foreign_datavolume_blocks]) and four OpenAPI
    definitions that refer to undefined types ([incomplete_types_fail]).

    ** Bounds

    [generate_loop] (the loop of GenerateValue) takes the number of iterations
    as fuel and panics with a text of its own when it is used up;
    [GenerateValue_terminates] shows that one more than the number of opening
    brackets is enough.  [parse_value] of the JSON decoder takes twice the
    length of the text, which [Unmarshal_print] shows to be enough for every
    printed tree.  [wait_loop] of the availability controller takes the number
    of rounds looked at; its theorem holds for every number.  [conforms]
    follows references to a depth; [schema_depth] is enough for all schemas of
    the template API, as [objects_conform] shows.  [buildDefinitionRecursively]
    takes a depth of calls; one more than the number of definitions is enough,
    as [openapi_document] shows.  The channel of a fake watcher holds 100
    events, as in client-go; a call that would fill it panics, and the theorems
    ask for room.  The decoder's limit of
    nesting bounds the raw JSON of a template in [objects_roundtrip]
    ([raw_height]).  Printing a number takes 20 digits, enough for 64 bits.
    Lengths in generator expressions are checked as 64-bit integers; hashes are 32-bit
    with explicit wrap-around.

    ** Not modelled

    Logging; the parsing of command line flags; certificates, HTTP and the
    handling of signals; delegated authentication and authorization, which are
    parameters of the API server; in openapi_generated.go descriptions, default
    values, hints for merging, and the second form of Quantity and IntOrString
    for documents of version 2; the roles for users, leader election and
    metrics, which no code of the program depends on; the patch libraries
    behind the fake clients, which are a parameter.  The installer of the
    generic API server is modelled for storages with the interfaces that occur
    (connecting, scope, singular name).  Objects of other projects (virtual
    machines, snapshots, data volumes) have the fields the controllers read or
    write and an opaque rest; copying and encoding the rest are parameters
    with laws.  Values of the engine are immutable: that Process changes a
    typed object of its argument in place is not visible.

    ** Plan

    Next: Process on shared typed objects over GoHeap, the compaction of the
    JSON text of raw extensions, and default values in the schemas. *)

From Stdlib Require Import Ascii ZArith Lia.
From stdpp Require Import prelude strings gmap.

#[global] Arguments String.append !_ _ / : simpl nomatch.

(** ** Outcomes

    A Go call returns a value, returns an error, or panics.  [E] is the error
    type of the component: [error] for the [error] interface, a [*field.Error]
    for the functions that return one. *)
Inductive res (E A : Type) : Type :=
| Ok (a : A)
| Err (e : E)
| Panic (why : string).
Arguments Ok {E A} a.
Arguments Err {E A} e.
Arguments Panic {E A} why.

(** Errors built with [errors.New] / [fmt.Errorf] carry their text;
    [EWrap p e] is the text of [fmt.Errorf(p + ": %w", e)] (or [%v]), and
    [EForeign] an error produced by code whose texts are not modelled (the
    JSON decoder, the API machinery). *)
Inductive error : Type :=
| EMsg (text : string)
| EWrap (prefix : string) (inner : error)
| EForeign (origin : string).

(** [err.Error()]. *)
Fixpoint Error (e : error) : string :=
  match e with
  | EMsg text => text
  | EWrap prefix inner => String.append prefix (String.append ": " (Error inner))
  | EForeign origin => origin
  end.

#[export] Instance error_eq_dec : EqDecision error.
Proof. solve_decision. Defined.

#[export] Instance res_ret E : MRet (res E) := λ A a, Ok a.
#[export] Instance res_bind E : MBind (res E) := λ A B f m,
  match m with Ok a => f a | Err e => Err e | Panic w => Panic w end.
#[export] Instance res_fmap E : FMap (res E) := λ A B f m,
  match m with Ok a => Ok (f a) | Err e => Err e | Panic w => Panic w end.

(** Change of the error type, [return nil, wrap(err)]. *)
Definition map_err {E E' A} (f : E → E') (m : res E A) : res E' A :=
  match m with Ok a => Ok a | Err e => Err (f e) | Panic w => Panic w end.

Definition is_ok {E A} (m : res E A) : bool :=
  match m with Ok _ => true | _ => false end.

(** Stateful calls: a state is threaded through calls that may fail. *)
Definition st (S E A : Type) : Type := S → res E (A * S).
#[export] Instance st_ret S E : MRet (st S E) := λ A a s, Ok (a, s).
#[export] Instance st_bind S E : MBind (st S E) := λ A B f m s,
  match m s with
  | Ok (a, s') => f a s'
  | Err e => Err e
  | Panic w => Panic w
  end.
Definition st_fail {S E A} (e : E) : st S E A := λ _, Err e.
Definition st_panic {S E A} (w : string) : st S E A := λ _, Panic w.
Definition st_lift {S E A} (m : res E A) : st S E A :=
  λ s, match m with Ok a => Ok (a, s) | Err e => Err e | Panic w => Panic w end.

(** ** Inversion of monadic code *)

Lemma bind_Ok {E A B} (m : res E A) (f : A → res E B) (b : B) :
  (m ≫= f) = Ok b ↔ ∃ a, m = Ok a ∧ f a = Ok b.
Proof. destruct m; simpl; naive_solver. Qed.

Lemma bind_Err {E A B} (m : res E A) (f : A → res E B) (e : E) :
  (m ≫= f) = Err e ↔ m = Err e ∨ ∃ a, m = Ok a ∧ f a = Err e.
Proof. destruct m; simpl; naive_solver. Qed.

Lemma st_bind_Ok {S E A B} (m : st S E A) (f : A → st S E B) s b s' :
  (m ≫= f) s = Ok (b, s') ↔ ∃ a s1, m s = Ok (a, s1) ∧ f a s1 = Ok (b, s').
Proof.
  unfold mbind, st_bind. destruct (m s) as [[a s1]| |]; naive_solver.
Qed.

Lemma map_err_Ok {E E' A} (f : E → E') (m : res E A) a :
  map_err f m = Ok a ↔ m = Ok a.
Proof. destruct m; simpl; naive_solver. Qed.

(** ** Bytes and strings

    A Go string is a sequence of bytes: [string] over [ascii], one [ascii] a
    byte.  [+:+] is concatenation. *)
Definition byte_in (lo hi c : ascii) : bool :=
  (N_of_ascii lo <=? N_of_ascii c)%N && (N_of_ascii c <=? N_of_ascii hi)%N.
Definition is_lower (c : ascii) : bool := byte_in "a" "z" c.
Definition is_upper (c : ascii) : bool := byte_in "A" "Z" c.
Definition is_digit (c : ascii) : bool := byte_in "0" "9" c.
Definition is_alnum (c : ascii) : bool := is_lower c || is_upper c || is_digit c.
Definition is_word (c : ascii) : bool := is_alnum c || (c =? "_")%char.

Fixpoint str_forall (p : ascii → bool) (s : string) : bool :=
  match s with
  | EmptyString => true
  | String c s' => p c && str_forall p s'
  end.
Fixpoint str_exists (p : ascii → bool) (s : string) : bool :=
  match s with
  | EmptyString => false
  | String c s' => p c || str_exists p s'
  end.

(** [str_take n s] is [s[:n]] and [str_drop n s] is [s[n:]], for
    [n <= len(s)]. *)
Fixpoint str_take (n : nat) (s : string) : string :=
  match n, s with
  | S n', String c s' => String c (str_take n' s')
  | _, _ => EmptyString
  end.
Fixpoint str_drop (n : nat) (s : string) : string :=
  match n, s with
  | O, _ => s
  | S n', String _ s' => str_drop n' s'
  | S _, EmptyString => EmptyString
  end.

Fixpoint str_concat (l : list string) : string :=
  match l with [] => EmptyString | s :: l' => s +:+ str_concat l' end.

Lemma str_app_nil_r s : s +:+ "" = s.
Proof. induction s as [|c s IH]; simpl; [done|by rewrite IH]. Qed.
Lemma str_app_assoc a b c : (a +:+ b) +:+ c = a +:+ (b +:+ c).
Proof. induction a as [|x a IH]; simpl; [done|by rewrite IH]. Qed.
Lemma str_length_app a b :
  String.length (a +:+ b) = String.length a + String.length b.
Proof. induction a as [|c a IH]; simpl; [done|by rewrite IH]. Qed.
Lemma str_app_inv_l a b c : a +:+ b = a +:+ c → b = c.
Proof. induction a as [|x a IH]; simpl; [done|by intros [= ?%IH]]. Qed.
Lemma str_app_length_inj a b c d :
  String.length a = String.length c → a +:+ b = c +:+ d → a = c ∧ b = d.
Proof.
  revert c. induction a as [|x a IH]; intros [|y c]; simpl; try done.
  intros [= Hl] [= -> H]. by destruct (IH c Hl H) as [-> ->].
Qed.
Lemma str_app_cut a b c d :
  a +:+ b = c +:+ d → String.length a ≤ String.length c →
  ∃ x, c = a +:+ x ∧ b = x +:+ d.
Proof.
  revert c. induction a as [|y a IH]; intros c; simpl; [by eauto|].
  destruct c as [|z c]; simpl; [lia|]. intros [= -> H] Hl.
  destruct (IH c H) as (x & -> & ->); [lia|]. by exists x.
Qed.

Lemma str_app_inv_r a b c : a +:+ c = b +:+ c → a = b.
Proof.
  intros H. assert (String.length a = String.length b) as Hl.
  { apply (f_equal String.length) in H. rewrite !str_length_app in H. lia. }
  by destruct (str_app_length_inj _ _ _ _ Hl H).
Qed.

Lemma str_forall_app p a b :
  str_forall p (a +:+ b) = str_forall p a && str_forall p b.
Proof. induction a as [|c a IH]; simpl; [done|by rewrite IH, andb_assoc]. Qed.
Lemma str_exists_app p a b :
  str_exists p (a +:+ b) = str_exists p a || str_exists p b.
Proof. induction a as [|c a IH]; simpl; [done|by rewrite IH, orb_assoc]. Qed.
Lemma str_forall_impl (p q : ascii → bool) s :
  (∀ c, p c = true → q c = true) →
  str_forall p s = true → str_forall q s = true.
Proof.
  intros H. induction s as [|c s IH]; simpl; [done|].
  rewrite !andb_true_iff. naive_solver.
Qed.
Lemma str_exists_forall_neg p s :
  str_exists p s = negb (str_forall (λ c, negb (p c)) s).
Proof.
  induction s as [|c s IH]; simpl; [done|].
  by rewrite IH, negb_andb, negb_involutive.
Qed.

Lemma str_take_drop n s : str_take n s +:+ str_drop n s = s.
Proof.
  revert s. induction n as [|n IH]; intros [|c s]; simpl; try done.
  by rewrite IH.
Qed.
Lemma str_length_take n s : String.length (str_take n s) = n `min` String.length s.
Proof.
  revert s. induction n as [|n IH]; intros [|c s]; simpl; try done.
  by rewrite IH.
Qed.
Lemma str_take_app a b : str_take (String.length a) (a +:+ b) = a.
Proof. induction a as [|c a IH]; simpl; [by destruct b|by rewrite IH]. Qed.
Lemma str_drop_app a b : str_drop (String.length a) (a +:+ b) = b.
Proof. induction a as [|c a IH]; simpl; [done|by rewrite IH]. Qed.
Lemma str_take_all n s : String.length s ≤ n → str_take n s = s.
Proof.
  revert s. induction n as [|n IH]; intros [|c s]; simpl; try done; [lia|].
  intros H. by rewrite IH by lia.
Qed.
Lemma str_forall_take p n s : str_forall p s = true → str_forall p (str_take n s) = true.
Proof.
  rewrite <- (str_take_drop n s) at 1. rewrite str_forall_app, andb_true_iff. by intros [? _].
Qed.
Lemma str_concat_app l k : str_concat (l ++ k) = str_concat l +:+ str_concat k.
Proof. induction l as [|s l IH]; simpl; [done|by rewrite IH, str_app_assoc]. Qed.

(** ** Automation *)

Create Rewrite HintDb gostr.
#[export] Hint Rewrite str_app_nil_r str_app_assoc str_length_app
  str_forall_app str_exists_app : gostr.

(** [str_norm] normalises concatenations, lengths and byte predicates. *)
Ltac str_norm := autorewrite with gostr in *.

(** [bool_hyps] turns boolean conjunctions in hypotheses into separate facts. *)
Ltac bool_hyps :=
  repeat match goal with
  | H : _ && _ = true |- _ => apply andb_true_iff in H as [? ?]
  | H : _ || _ = false |- _ => apply orb_false_iff in H as [? ?]
  | H : negb _ = true |- _ => apply negb_true_iff in H
  | H : negb _ = false |- _ => apply negb_false_iff in H
  | H : Ascii.eqb _ _ = true |- _ => apply Ascii.eqb_eq in H
  | H : Ascii.eqb _ _ = false |- _ => apply Ascii.eqb_neq in H
  | H : String.eqb _ _ = true |- _ => apply String.eqb_eq in H
  | H : String.eqb _ _ = false |- _ => apply String.eqb_neq in H
  end.

(** [res_inv] peels the binds off a hypothesis [m = Ok v]. *)
Ltac res_inv :=
  repeat match goal with
  | H : mbind _ _ = Ok _ |- _ => apply bind_Ok in H as (? & ? & H)
  | H : mbind _ _ _ = Ok (_, _) |- _ => apply st_bind_Ok in H as (? & ? & ? & H)
  | H : mret _ = Ok _ |- _ => injection H as H
  | H : Ok _ = Ok _ |- _ => injection H as H
  | H : Err _ = Ok _ |- _ => discriminate H
  | H : Panic _ = Ok _ |- _ => discriminate H
  end; simplify_eq/=.

(** A property of every byte holds if it holds of the 256 of them:
    [byte_cases c] leaves the goals that computation does not close. *)
Ltac byte_cases c := destruct c as [[] [] [] [] [] [] [] []]; vm_compute; try done.
