(* ===== verification/GoStrings.v ===== *)
(** * The parts of Go's [strings], [strconv] and [fmt] the program uses

    Executable definitions over byte strings, with the facts the components
    share.  [Cut] is the search every other function is built on: it splits a
    string around the first occurrence of a separator. *)

From Stdlib Require Import Ascii ZArith Lia.
From stdpp Require Import prelude strings.
From S2P Require Import Prelude.

(** ** Package strings *)

(** The rest of [s] after the prefix [p], if [p] is a prefix of [s]. *)
Fixpoint strip_prefix (p s : string) : option string :=
  match p, s with
  | EmptyString, _ => Some s
  | String a p', String b s' => if (a =? b)%char then strip_prefix p' s' else None
  | String _ _, EmptyString => None
  end.

Definition HasPrefix (s p : string) : bool :=
  match strip_prefix p s with Some _ => true | None => false end.

(** [strings.Cut] around the first occurrence of [sep]. *)
Fixpoint Cut (s sep : string) : option (string * string) :=
  match strip_prefix sep s with
  | Some after => Some (EmptyString, after)
  | None =>
      match s with
      | EmptyString => None
      | String c s' =>
          match Cut s' sep with
          | Some (before, after) => Some (String c before, after)
          | None => None
          end
      end
  end.

Definition Contains (s sub : string) : bool :=
  match Cut s sub with Some _ => true | None => false end.

Definition Index (s sub : string) : Z :=
  match Cut s sub with Some (before, _) => Z.of_nat (String.length before) | None => -1 end.

(** [strings.LastIndex(s, string(c))] for a one-byte separator. *)
Fixpoint LastIndexByte (s : string) (c : ascii) : Z :=
  match s with
  | EmptyString => -1
  | String d s' =>
      let i := LastIndexByte s' c in
      if (i =? -1)%Z then (if (d =? c)%char then 0 else -1)%Z else (i + 1)%Z
  end.

(** [strings.Replace(s, old, new, 1)]. *)
Definition Replace1 (s old new : string) : string :=
  match Cut s old with
  | Some (before, after) => before +:+ new +:+ after
  | None => s
  end.

(** [strings.TrimRight(s, string(c))]. *)
Fixpoint TrimRightByte (s : string) (c : ascii) : string :=
  match s with
  | EmptyString => EmptyString
  | String d s' =>
      match TrimRightByte s' c with
      | EmptyString => if (d =? c)%char then EmptyString else String d EmptyString
      | t => String d t
      end
  end.

(** [strings.Join]. *)
Fixpoint Join (l : list string) (sep : string) : string :=
  match l with
  | [] => EmptyString
  | [s] => s
  | s :: l' => s +:+ sep +:+ Join l' sep
  end.

(** ** Package strconv *)

Definition digit_val (c : ascii) : Z := Z.of_N (N_of_ascii c) - 48.

Fixpoint digits_val (acc : Z) (s : string) : Z :=
  match s with
  | EmptyString => acc
  | String c s' => digits_val (10 * acc + digit_val c) s'
  end.

Definition max_int : Z := 2 ^ 63 - 1.

(** [strconv.Atoi] on 64-bit platforms: an optional sign, then decimal digits
    only, within the range of [int]. *)
Definition Atoi (s : string) : res error Z :=
  let '(neg, body) :=
    match s with
    | String c s' => if (c =? "-")%char then (true, s')
                     else if (c =? "+")%char then (false, s') else (false, s)
    | EmptyString => (false, s)
    end in
  match body with
  | EmptyString => Err (EForeign "strconv.Atoi: invalid syntax")
  | _ =>
      if str_forall is_digit body then
        let v := digits_val 0 body in
        if neg then
          if (v <=? max_int + 1)%Z then Ok (- v)%Z
          else Err (EForeign "strconv.Atoi: value out of range")
        else
          if (v <=? max_int)%Z then Ok v
          else Err (EForeign "strconv.Atoi: value out of range")
      else Err (EForeign "strconv.Atoi: invalid syntax")
  end.

(** ** Package fmt *)

Definition hex_digit (d : Z) : ascii :=
  ascii_of_N (Z.to_N (if (d <? 10)%Z then 48 + d else 87 + d)).

(** The [n] low hexadecimal digits of [v], most significant first. *)
Fixpoint hex_digits (n : nat) (v : Z) : string :=
  match n with
  | O => EmptyString
  | S n' => hex_digits n' (v / 16) +:+ String (hex_digit (v mod 16)) EmptyString
  end.

(** [fmt.Sprintf("%08x", v)] for a [uint32]. *)
Definition Sprintf08x (v : Z) : string := hex_digits 8 v.

(** ** Facts: prefixes and first occurrences *)

Lemma strip_prefix_Some p s r : strip_prefix p s = Some r ↔ s = p +:+ r.
Proof.
  revert s. induction p as [|a p IH]; intros s; simpl; [naive_solver|].
  destruct s as [|b s]; [naive_solver|].
  destruct (Ascii.eqb_spec a b) as [->|Hne].
  - rewrite IH. naive_solver.
  - split; [done|]. by intros [= Heq _].
Qed.

Lemma strip_prefix_app p r : strip_prefix p (p +:+ r) = Some r.
Proof. by apply strip_prefix_Some. Qed.

Lemma strip_prefix_None p s : strip_prefix p s = None ↔ ∀ r, s ≠ p +:+ r.
Proof.
  destruct (strip_prefix p s) as [r|] eqn:E.
  - apply strip_prefix_Some in E as ->. split; [done|intros H; by destruct (H r)].
  - split; [|done]. intros _ r ->. by rewrite strip_prefix_app in E.
Qed.

Lemma strip_prefix_ne a b p s : a ≠ b → strip_prefix (String a p) (String b s) = None.
Proof. intros H. simpl. by apply Ascii.eqb_neq in H as ->. Qed.

Lemma HasPrefix_spec s p : HasPrefix s p = true ↔ ∃ r, s = p +:+ r.
Proof.
  unfold HasPrefix. destruct (strip_prefix p s) as [r|] eqn:E.
  - apply strip_prefix_Some in E as ->. naive_solver.
  - split; [done|]. intros [r ->]. by rewrite strip_prefix_app in E.
Qed.

(** [Cut] returns a decomposition around [sep] ... *)
Lemma Cut_Some s sep a b : Cut s sep = Some (a, b) → s = a +:+ sep +:+ b.
Proof.
  revert a. induction s as [|c s IH]; intros a; simpl;
    destruct (strip_prefix sep _) as [r|] eqn:E.
  - apply strip_prefix_Some in E. intros [= <- <-]. by simpl.
  - done.
  - apply strip_prefix_Some in E. intros [= <- <-]. by simpl.
  - destruct (Cut s sep) as [[a' b']|]; [|done].
    intros [= <- <-]. simpl. by rewrite <- (IH a').
Qed.

(** ... the leftmost one. *)
Lemma Cut_first s sep a b a' b' :
  Cut s sep = Some (a, b) → s = a' +:+ sep +:+ b' →
  String.length a ≤ String.length a'.
Proof.
  revert a a'. induction s as [|c s IH]; intros a a'; simpl;
    destruct (strip_prefix sep _) as [r|] eqn:E.
  - intros [= <- <-]. simpl. lia.
  - done.
  - intros [= <- <-]. simpl. lia.
  - destruct (Cut s sep) as [[a1 b1]|]; [|done]. intros [= <- <-] Heq.
    destruct a' as [|d a']; simpl in *.
    { rewrite Heq, strip_prefix_app in E. done. }
    injection Heq as -> Heq. specialize (IH _ a' eq_refl Heq). lia.
Qed.

Lemma Cut_None s sep : Cut s sep = None ↔ ∀ a b, s ≠ a +:+ sep +:+ b.
Proof.
  split.
  - induction s as [|c s IH]; simpl; destruct (strip_prefix sep _) as [r|] eqn:E;
      try done; rewrite strip_prefix_None in E.
    + intros _ [|d a] b; [apply E|done].
    + destruct (Cut s sep) as [[? ?]|]; [done|]. intros H a b.
      destruct a as [|d a]; [apply E|]. intros [= -> ->]. by eapply IH.
  - intros H. destruct (Cut s sep) as [[a b]|] eqn:E; [|done].
    apply Cut_Some in E. by destruct (H a b).
Qed.

(** Cutting where the first occurrence is known to be. *)
Lemma Cut_at a sep b :
  (∀ a' b', a +:+ sep +:+ b = a' +:+ sep +:+ b' → String.length a ≤ String.length a') →
  Cut (a +:+ sep +:+ b) sep = Some (a, b).
Proof.
  intros H. destruct (Cut (a +:+ sep +:+ b) sep) as [[a1 b1]|] eqn:E.
  - pose proof (Cut_Some _ _ _ _ E) as Heq.
    pose proof (Cut_first _ _ _ _ _ _ E eq_refl).
    specialize (H a1 b1 Heq). assert (String.length a = String.length a1) as Hl by lia.
    destruct (str_app_length_inj _ _ _ _ Hl Heq) as [-> Heq2].
    by apply str_app_inv_l in Heq2 as ->.
  - rewrite Cut_None in E. by destruct (E a b).
Qed.

(** A separator whose first byte does not occur in [a] is found right after
    [a]. *)
Lemma Cut_fresh a c sep b :
  str_exists (λ d, (d =? c)%char) a = false →
  Cut (a +:+ String c sep +:+ b) (String c sep) = Some (a, b).
Proof.
  intros Ha. apply Cut_at. intros a' b' Heq.
  destruct (decide (String.length a ≤ String.length a')) as [|Hlt]; [done|].
  symmetry in Heq. apply str_app_cut in Heq as (x & -> & Heq); [|lia].
  destruct x as [|d x]; simpl in *.
  - rewrite str_length_app in Hlt. simpl in Hlt. lia.
  - injection Heq as <- Heq. rewrite str_exists_app in Ha. simpl in Ha.
    rewrite Ascii.eqb_refl, !orb_true_r in Ha. done.
Qed.

(** ** Facts: trimming and rendering *)

Lemma TrimRightByte_prefix s c : ∃ t, s = TrimRightByte s c +:+ t ∧
  str_forall (λ d, (d =? c)%char) t = true.
Proof.
  induction s as [|d s (t & IH & Ht)]; simpl; [by exists EmptyString|].
  destruct (TrimRightByte s c) as [|e u] eqn:E.
  - destruct (Ascii.eqb_spec d c) as [->|].
    + exists (String c t). simpl in *. subst t. by rewrite Ascii.eqb_refl.
    + exists t. simpl in *. by subst t.
  - exists t. split; [|done]. rewrite IH at 1. done.
Qed.

(** The last byte of a trimmed string is not the cut byte. *)
Lemma TrimRightByte_last s c t d :
  TrimRightByte s c = t +:+ String d EmptyString → d ≠ c.
Proof.
  revert t. induction s as [|e s IH]; intros t; simpl.
  - by destruct t.
  - destruct (TrimRightByte s c) as [|x u] eqn:E.
    + destruct (Ascii.eqb_spec e c); [by destruct t|].
      destruct t as [|y [|? ?]]; [by intros [= <-]|done..].
    + destruct t as [|y t]; [done|]. intros [= -> H]. by apply (IH t).
Qed.

Lemma TrimRightByte_length s c : String.length (TrimRightByte s c) ≤ String.length s.
Proof.
  destruct (TrimRightByte_prefix s c) as (t & Heq & _).
  rewrite Heq at 2. rewrite str_length_app. lia.
Qed.

Lemma TrimRightByte_forall p s c :
  str_forall p s = true → str_forall p (TrimRightByte s c) = true.
Proof.
  destruct (TrimRightByte_prefix s c) as (t & Heq & _).
  rewrite Heq at 1. rewrite str_forall_app. intros H. by bool_hyps.
Qed.

Definition is_hex (c : ascii) : bool := is_digit c || byte_in "a" "f" c.

Lemma hex_digit_is_hex d : (0 ≤ d < 16)%Z → is_hex (hex_digit d) = true.
Proof.
  intros H. assert (d ∈ (Z.of_nat <$> seq 0 16)) as Hin.
  { apply list_elem_of_fmap. exists (Z.to_nat d).
    split; [lia|]. apply elem_of_seq. lia. }
  revert Hin. clear H. revert d.
  apply (Forall_forall (λ d, is_hex (hex_digit d) = true)). vm_compute. repeat constructor.
Qed.

Lemma hex_digits_spec n v :
  String.length (hex_digits n v) = n ∧ str_forall is_hex (hex_digits n v) = true.
Proof.
  revert v. induction n as [|n IH]; intros v; simpl; [done|].
  destruct (IH (v / 16)%Z) as [Hl Hf]. rewrite str_length_app, str_forall_app, Hf, Hl.
  simpl. split; [lia|]. rewrite hex_digit_is_hex; [done|].
  apply Z.mod_pos_bound. lia.
Qed.

(** Distinct [uint32] values have distinct renderings. *)
Lemma hex_digit_inj d e : (0 ≤ d < 16)%Z → (0 ≤ e < 16)%Z →
  hex_digit d = hex_digit e → d = e.
Proof.
  intros Hd He. unfold hex_digit. intros H.
  apply (f_equal N_of_ascii) in H.
  destruct (Z.ltb_spec d 10), (Z.ltb_spec e 10);
    rewrite !N_ascii_embedding in H by lia; lia.
Qed.

Lemma hex_digits_inj n v w :
  (0 ≤ v < 16 ^ Z.of_nat n)%Z → (0 ≤ w < 16 ^ Z.of_nat n)%Z →
  hex_digits n v = hex_digits n w → v = w.
Proof.
  revert v w. induction n as [|n IH]; intros v w Hv Hw; [simpl in *; lia|].
  rewrite Nat2Z.inj_succ, Z.pow_succ_r in Hv, Hw by lia. simpl. intros H.
  apply str_app_length_inj in H as [Hhi [= Hlo]].
  2: by rewrite !(proj1 (hex_digits_spec _ _)).
  apply hex_digit_inj in Hlo; [|apply Z.mod_pos_bound; lia..].
  apply IH in Hhi; [|split; [apply Z.div_pos|apply Z.div_lt_upper_bound]; lia..].
  rewrite (Z.div_mod v 16), (Z.div_mod w 16) by lia. by rewrite Hhi, Hlo.
Qed.

(** ** Facts: numbers *)

Lemma digit_val_range c : is_digit c = true → (0 ≤ digit_val c ≤ 9)%Z.
Proof.
  unfold is_digit, byte_in, digit_val. intros H. bool_hyps.
  rewrite !N.leb_le in *. change (N_of_ascii "0") with 48%N in *.
  change (N_of_ascii "9") with 57%N in *. lia.
Qed.

Lemma digits_val_nonneg acc s :
  (0 ≤ acc)%Z → str_forall is_digit s = true → (0 ≤ digits_val acc s)%Z.
Proof.
  revert acc. induction s as [|c s IH]; intros acc Ha; simpl; [done|].
  intros H. bool_hyps. apply IH; [|done]. pose proof (digit_val_range c ltac:(done)). lia.
Qed.
