(* ===== verification/Regex.v ===== *)
(** * Package regexp: leftmost-first matching

    The program's patterns are literals, byte classes, greedy repetitions of a
    class, sequences, ordered alternatives, optional parts, groups and the two
    text anchors.  [run r at0 s] lists the ways [r] matches a prefix of [s] in
    the order of preference of Go's engine (the order a backtracking matcher
    tries them): the match Go reports is the first of the list at the leftmost
    position where the list is not empty.  Classes are ASCII, so matching byte
    by byte agrees with matching rune by rune. *)

From Stdlib Require Import Ascii ZArith Lia.
From stdpp Require Import prelude strings.
From S2P Require Import Prelude GoStrings.

Inductive regex : Type :=
| RLit (lit : string)
| RByte (p : ascii → bool)
| RPlus (p : ascii → bool)
| RStar (p : ascii → bool)
| RSeq (r1 r2 : regex)
| RAlt (r1 r2 : regex)
| ROpt (r : regex)
| RGroup (n : nat) (r : regex)
| RBegin
| REnd.

(** Captured groups, by number. *)
Abbreviation captures := (list (nat * string)).

(** The prefixes of [s] whose bytes are all in [p], the longest first. *)
Fixpoint prefixes (p : ascii → bool) (s : string) : list (string * string) :=
  match s with
  | EmptyString => [(EmptyString, EmptyString)]
  | String c s' =>
      if p c then ((λ '(a, b), (String c a, b)) <$> prefixes p s') ++ [(EmptyString, s)]
      else [(EmptyString, s)]
  end.

Definition str_is_empty (s : string) : bool :=
  match s with EmptyString => true | _ => false end.

(** Each result is (consumed text, rest of the text, captures); [at0] says
    whether the position is the beginning of the text. *)
Fixpoint run (r : regex) (at0 : bool) (s : string) : list (string * string * captures) :=
  match r with
  | RLit l => match strip_prefix l s with Some rest => [(l, rest, [])] | None => [] end
  | RByte p =>
      match s with
      | String c s' => if p c then [(String c EmptyString, s', [])] else []
      | EmptyString => []
      end
  | RPlus p =>
      match s with
      | String c s' => if p c then (λ '(a, b), (String c a, b, [])) <$> prefixes p s' else []
      | EmptyString => []
      end
  | RStar p => (λ '(a, b), (a, b, [])) <$> prefixes p s
  | RSeq r1 r2 =>
      '(a, b, k1) ← run r1 at0 s;
      (λ '(c, d, k2), (a +:+ c, d, k1 ++ k2)) <$> run r2 (at0 && str_is_empty a) b
  | RAlt r1 r2 => run r1 at0 s ++ run r2 at0 s
  | ROpt r => run r at0 s ++ [(EmptyString, s, [])]
  | RGroup n r => (λ '(a, b, k), (a, b, (n, a) :: k)) <$> run r at0 s
  | RBegin => if at0 then [(EmptyString, s, [])] else []
  | REnd => if str_is_empty s then [(EmptyString, s, [])] else []
  end.

(** The text before the match, the matched text, its captures, and the text
    after it. *)
Record found : Type := Found {
  f_before : string;
  f_match : string;
  f_caps : captures;
  f_after : string;
}.

(** The leftmost match in [s]. *)
Fixpoint search (r : regex) (at0 : bool) (s : string) : option found :=
  match run r at0 s with
  | (m, rest, k) :: _ => Some (Found EmptyString m k rest)
  | [] =>
      match s with
      | EmptyString => None
      | String c s' =>
          match search r false s' with
          | Some (Found b m k a) => Some (Found (String c b) m k a)
          | None => None
          end
      end
  end.

(** [re.MatchString(s)]. *)
Definition MatchString (r : regex) (s : string) : bool :=
  match search r true s with Some _ => true | None => false end.

(** [re.FindStringSubmatch(s)]: the match, or nil. *)
Definition FindStringSubmatch (r : regex) (s : string) : option found := search r true s.

(** [re.FindAllStringSubmatch(s, -1)]: successive non-overlapping matches,
    each searched after the end of the one before.  None of the program's
    patterns that are used this way matches the empty text, so each step
    consumes a byte and [length s] steps are enough ([find_all_tail]). *)
Fixpoint find_all (n : nat) (r : regex) (at0 : bool) (s : string) : list found :=
  match n with
  | O => []
  | S n' =>
      match search r at0 s with
      | None => []
      | Some f => f :: find_all n' r false (f_after f)
      end
  end.
Definition FindAllStringSubmatch (r : regex) (s : string) : list found :=
  find_all (String.length s) r true s.

(** [match[n]]: the text of group [n], empty when the group took no part. *)
Fixpoint group (n : nat) (k : captures) : string :=
  match k with
  | [] => EmptyString
  | (m, t) :: k' => if (m =? n)%nat then t else group n k'
  end.

(** The longest prefix of [s] in [p], and the rest. *)
Fixpoint span (p : ascii → bool) (s : string) : string * string :=
  match s with
  | EmptyString => (EmptyString, EmptyString)
  | String c s' =>
      if p c then let '(a, b) := span p s' in (String c a, b) else (EmptyString, s)
  end.

(** ** Results are decompositions of the text *)

Lemma prefixes_sound p s a b :
  (a, b) ∈ prefixes p s → s = a +:+ b ∧ str_forall p a = true.
Proof.
  revert a b. induction s as [|c s IH]; intros a b; simpl.
  - rewrite list_elem_of_singleton. by intros [= -> ->].
  - destruct (p c) eqn:Hc.
    + rewrite elem_of_app, list_elem_of_fmap, list_elem_of_singleton.
      intros [([a' b'] & [= -> ->] & H)|[= -> ->]]; [|done].
      apply IH in H as [-> Ha]. simpl. by rewrite Hc, Ha.
    + rewrite list_elem_of_singleton. by intros [= -> ->].
Qed.

Lemma run_sound r at0 s a b k : (a, b, k) ∈ run r at0 s → s = a +:+ b.
Proof.
  revert at0 s a b k.
  induction r as [l|p|p|p|r1 IH1 r2 IH2|r1 IH1 r2 IH2|r IH|n r IH| |]; intros at0 s a b k; simpl.
  - case_match eqn:E; rewrite ?list_elem_of_singleton; [|by rewrite elem_of_nil].
    intros [= -> -> ->]. by apply strip_prefix_Some.
  - destruct s as [|c s]; [by rewrite elem_of_nil|].
    case_match; rewrite ?list_elem_of_singleton, ?elem_of_nil; naive_solver.
  - destruct s as [|c s]; [by rewrite elem_of_nil|].
    case_match; [|by rewrite elem_of_nil]. rewrite list_elem_of_fmap.
    intros ([a' b'] & [= -> -> ->] & Hin). by apply prefixes_sound in Hin as [-> _].
  - rewrite list_elem_of_fmap. intros ([a' b'] & [= -> -> ->] & H).
    by apply prefixes_sound in H as [-> _].
  - rewrite list_elem_of_bind. intros ([[a1 b1] k1] & H2 & H1).
    apply list_elem_of_fmap in H2 as ([[c d] k2] & [= -> -> ->] & H2).
    apply IH1 in H1 as ->. apply IH2 in H2 as ->. by rewrite str_app_assoc.
  - rewrite elem_of_app. naive_solver.
  - rewrite elem_of_app, list_elem_of_singleton. intros [H|[= -> -> ->]]; eauto.
  - rewrite list_elem_of_fmap. intros ([[a' b'] k'] & [= -> -> ->] & H). eauto.
  - case_match; rewrite ?list_elem_of_singleton, ?elem_of_nil; naive_solver.
  - case_match; rewrite ?list_elem_of_singleton, ?elem_of_nil; naive_solver.
Qed.

Lemma search_Some r at0 s f :
  search r at0 s = Some f →
  s = f_before f +:+ f_match f +:+ f_after f ∧
  head (run r (at0 && str_is_empty (f_before f)) (f_match f +:+ f_after f))
    = Some (f_match f, f_after f, f_caps f).
Proof.
  revert at0 f. induction s as [|c s IH]; intros at0 f; simpl.
  - destruct (run r at0 EmptyString) as [|[[m rest] k] l] eqn:E; [done|].
    intros [= <-]; simpl. assert (EmptyString = m +:+ rest) as Heq.
    { apply (run_sound r at0 _ _ _ k). rewrite E. apply list_elem_of_here. }
    by rewrite <- Heq, andb_true_r, E.
  - destruct (run r at0 (String c s)) as [|[[m rest] k] l] eqn:E.
    + destruct (search r false s) as [[b m k a]|] eqn:Es; [|done].
      intros [= <-]; simpl. destruct (IH _ _ Es) as [-> Hh]. simpl in *.
      rewrite andb_false_r. by rewrite ?andb_false_l in Hh.
    + intros [= <-]; simpl. assert (String c s = m +:+ rest) as Heq.
      { apply (run_sound r at0 _ _ _ k). rewrite E. apply list_elem_of_here. }
      by rewrite <- Heq, andb_true_r, E.
Qed.

(** No earlier position has a match ... *)
Lemma search_leftmost r at0 s f b rest :
  search r at0 s = Some f → s = b +:+ rest →
  String.length b < String.length (f_before f) →
  run r (at0 && str_is_empty b) rest = [].
Proof.
  revert at0 f b. induction s as [|c s IH]; intros at0 f b; simpl.
  - destruct (run r at0 EmptyString) as [|[[m t] k] l]; [done|]. intros [= <-]. simpl. lia.
  - destruct (run r at0 (String c s)) as [|[[m t] k] l] eqn:E; [|intros [= <-]; simpl; lia].
    destruct (search r false s) as [[b1 m k a]|] eqn:Es; [|done].
    intros [= <-] Heq Hl. simpl in *. destruct b as [|d b]; simpl in *.
    + by rewrite <- Heq, andb_true_r.
    + injection Heq as -> Heq. rewrite andb_false_r.
      rewrite <- (andb_false_l (str_is_empty b)). eapply IH; [done|done|]. simpl. lia.
Qed.

(** ... and no position has one when the search fails. *)
Lemma search_None r at0 s b rest :
  search r at0 s = None → s = b +:+ rest → run r (at0 && str_is_empty b) rest = [].
Proof.
  revert at0 b. induction s as [|c s IH]; intros at0 b; simpl.
  - destruct (run r at0 EmptyString) as [|[[m t] k] l] eqn:E; [|done].
    intros _. destruct b; [|done]. simpl. intros <-. by rewrite andb_true_r.
  - destruct (run r at0 (String c s)) as [|[[m t] k] l] eqn:E; [|done].
    destruct (search r false s) as [[b1 m k a]|] eqn:Es; [done|].
    intros _ Heq. destruct b as [|d b]; simpl in *.
    + by rewrite <- Heq, andb_true_r.
    + injection Heq as -> Heq. rewrite andb_false_r.
      rewrite <- (andb_false_l (str_is_empty b)). by eapply IH.
Qed.

Lemma search_hit r at0 s : run r at0 s ≠ [] → search r at0 s ≠ None.
Proof. destruct s; simpl; by destruct (run r at0 _) as [|[[? ?] ?] ?]. Qed.

(** ** A class between delimiters

    [open (class+) close] where [close] starts with a byte outside the class:
    the repetition can only stop at the end of the longest run of the class,
    so there is at most one match at a position. *)

Lemma span_spec p s a b :
  span p s = (a, b) → s = a +:+ b ∧ str_forall p a = true ∧
  (b = EmptyString ∨ ∃ c b', b = String c b' ∧ p c = false).
Proof.
  revert a b. induction s as [|c s IH]; intros a b; simpl.
  - intros [= <- <-]. auto.
  - destruct (p c) eqn:Hc.
    + destruct (span p s) as [a' b'] eqn:E. intros [= <- <-].
      destruct (IH _ _ eq_refl) as (-> & Ha & Hb). simpl. rewrite Hc, Ha. auto.
    + intros [= <- <-]. simpl. naive_solver.
Qed.

(** A run of the class followed by a byte outside it is what [span] finds. *)
Lemma span_app p a c b : str_forall p a = true → p c = false →
  span p (a +:+ String c b) = (a, String c b).
Proof.
  intros Ha Hc. induction a as [|d a IH]; simpl; [by rewrite Hc|].
  simpl in Ha. bool_hyps. rewrite H. by rewrite IH.
Qed.

(** All prefixes but the longest are followed by a byte of the class. *)
Lemma prefixes_span p s a b :
  span p s = (a, b) → ∃ l, prefixes p s = (a, b) :: l ∧
  Forall (λ x, ∃ c t, x.2 = String c t ∧ p c = true) l.
Proof.
  revert a b. induction s as [|c s IH]; intros a b; simpl.
  - intros [= <- <-]. by exists [].
  - destruct (p c) eqn:Hc.
    + destruct (span p s) as [a' b'] eqn:E. intros [= <- <-].
      destruct (IH _ _ eq_refl) as (l & -> & Hl). simpl. eexists; split; [done|].
      apply Forall_app; split.
      * apply Forall_fmap. eapply Forall_impl; [exact Hl|]. by intros [? ?].
      * apply Forall_singleton. simpl. eauto.
    + intros [= <- <-]. by exists [].
Qed.

Section delimited.
#[local] Arguments strip_prefix : simpl never.
Context (op : string) (p : ascii → bool) (c : ascii) (cl : string).
Hypothesis (Hc : p c = false).

Definition rdelim (n : nat) : regex :=
  RSeq (RLit op) (RSeq (RGroup n (RPlus p)) (RLit (String c cl))).

(** What [rdelim] matches at a position, as a function. *)
Definition delim_at (n : nat) (s : string) : list (string * string * captures) :=
  match strip_prefix op s with
  | None => []
  | Some t =>
      let '(k, t') := span p t in
      if str_is_empty k then []
      else match strip_prefix (String c cl) t' with
           | Some r => [(op +:+ k +:+ String c cl, r, [(n, k)])]
           | None => []
           end
  end.

Lemma plus_close s n :
  ('(a, b, k1) ← run (RGroup n (RPlus p)) false s;
   (λ '(x, d, k2), (a +:+ x, d, k1 ++ k2)) <$> run (RLit (String c cl)) false b) =
  let '(k, t') := span p s in
  if str_is_empty k then []
  else match strip_prefix (String c cl) t' with
       | Some r => [(k +:+ String c cl, r, [(n, k)])]
       | None => []
       end.
Proof.
  destruct s as [|d s]; [done|]. cbn [run span]. destruct (p d) eqn:Hd; [|done].
  destruct (span p s) as [k t'] eqn:E.
  destruct (prefixes_span p s k t' E) as (l & -> & Hl).
  assert (∀ l', Forall (λ x : string * string, ∃ c t, x.2 = String c t ∧ p c = true) l' →
    ('(a, b, k1) ← (λ '(a, b, k), (a, b, (n, a) :: k)) <$> ((λ '(a, b), (String d a, b, [])) <$> l');
     (λ '(x, d, k2), (a +:+ x, d, k1 ++ k2)) <$>
       match strip_prefix (String c cl) b with Some rest => [(String c cl, rest, [])] | None => [] end)
    = ([] : list (string * string * captures))) as Hnil.
  { induction 1 as [|[a b] l' (e & t & Hb & He) _ IH]; [done|]. simpl in Hb.
    rewrite !fmap_cons, bind_cons, IH, Hb, strip_prefix_ne by congruence. done. }
  rewrite !fmap_cons, bind_cons, (Hnil l Hl), app_nil_r. simpl.
  by destruct (strip_prefix (String c cl) t').
Qed.

Lemma run_rdelim n at0 s : run (rdelim n) at0 s = delim_at n s.
Proof.
  unfold rdelim, delim_at. cbn [run]. destruct (strip_prefix op s) as [t|]; [|done].
  rewrite bind_cons. cbn [mbind list_bind]. rewrite app_nil_r.
  pose proof (plus_close t n) as H. cbn [run] in H. rewrite H.
  destruct (span p t) as [k t']. destruct (str_is_empty k); [done|].
  by destruct (strip_prefix (String c cl) t').
Qed.

Lemma delim_at_inv n s m rest k l :
  delim_at n s = (m, rest, k) :: l →
  ∃ key, s = op +:+ key +:+ String c cl +:+ rest ∧ key ≠ EmptyString ∧
    str_forall p key = true ∧ m = op +:+ key +:+ String c cl ∧ k = [(n, key)] ∧ l = [].
Proof.
  unfold delim_at. destruct (strip_prefix op s) as [t|] eqn:Ho; [|done].
  apply strip_prefix_Some in Ho as ->.
  destruct (span p t) as [key t'] eqn:Es. apply span_spec in Es as (-> & Hk & _).
  destruct key as [|d key]; [done|]. cbn [str_is_empty].
  destruct (strip_prefix (String c cl) t') as [r|] eqn:Hr; [|done].
  apply strip_prefix_Some in Hr as ->. intros [= <- <- <- <-]. eauto 10.
Qed.

Lemma delim_at_hit n key rest :
  key ≠ EmptyString → str_forall p key = true →
  delim_at n (op +:+ key +:+ String c cl +:+ rest)
    = [(op +:+ key +:+ String c cl, rest, [(n, key)])].
Proof.
  intros Hne Hk. unfold delim_at. rewrite strip_prefix_app.
  change (String c cl +:+ rest) with (String c (cl +:+ rest)).
  rewrite (span_app p key c) by done. destruct key as [|d key]; [done|]. cbn [str_is_empty].
  change (String c (cl +:+ rest)) with (String c cl +:+ rest). by rewrite strip_prefix_app.
Qed.
End delimited.
