(* ===== verification/Naming.v ===== *)
(** * internal/apimachinery/naming.go: stable object names

    [GetStableName] derives a deterministic Kubernetes object name from a base
    string and extra inputs: the sanitised base, a hyphen and the FNV-32a hash
    of everything, or [obj-<hash>] when the base cannot be part of a DNS-1035
    label.  The theorems show that the result is a valid label whatever the
    inputs are, how it depends on them, and where two of them collide. *)

From Stdlib Require Import Ascii ZArith Lia.
From stdpp Require Import prelude strings.
From S2P Require Import Prelude GoStrings Regex.

(** ** hash/fnv: the 32-bit FNV-1a hash *)

Definition fnv_offset32 : Z := 2166136261.
Definition fnv_prime32 : Z := 16777619.

(** One byte: [hash ^= c; hash *= prime32] on a [uint32]. *)
Definition fnv_byte (h : Z) (c : ascii) : Z :=
  (Z.lxor h (Z.of_N (N_of_ascii c)) * fnv_prime32) mod 2 ^ 32.

(** [hasher.Write]. *)
Fixpoint fnv_write (h : Z) (s : string) : Z :=
  match s with
  | EmptyString => h
  | String c s' => fnv_write (fnv_byte h c) s'
  end.

(** ** Validation of DNS-1035 labels *)

Definition DNS1035LabelMaxLength : Z := 63.

Definition is_label_byte (c : ascii) : bool :=
  (c =? "-")%char || is_lower c || is_digit c.
Definition is_label_end (c : ascii) : bool := is_lower c || is_digit c.

(** [^[a-z]([-a-z0-9]*[a-z0-9])?$] *)
Definition dns1035LabelRegexp : regex :=
  RSeq RBegin (RSeq (RByte is_lower)
    (RSeq (ROpt (RGroup 1 (RSeq (RStar is_label_byte) (RByte is_label_end)))) REnd)).

Definition MaxLenError63 : string := "must be no more than 63 characters".
Definition dns1035LabelErrMsg : string :=
  "a DNS-1035 label must consist of lower case alphanumeric characters or '-', start with an alphabetic character, and end with an alphanumeric character".
Definition RegexError1035 : string :=
  dns1035LabelErrMsg +:+
  " (e.g. 'my-name',  or 'abc-123', regex used for validation is '[a-z]([-a-z0-9]*[a-z0-9])?')".

Definition IsDNS1035Label (value : string) : list string :=
  (if (DNS1035LabelMaxLength <? Z.of_nat (String.length value))%Z then [MaxLenError63] else [])
  ++ (if MatchString dns1035LabelRegexp value then [] else [RegexError1035]).

(** ** naming.go *)

Definition HashLength : Z := 8.
Definition MaxGeneratedNameLength : Z := DNS1035LabelMaxLength - HashLength - 1.

Definition computeHash (base : string) (inputs : list string) : string :=
  let hasher := fnv_write fnv_offset32 base in
  let hasher := fold_left fnv_write inputs hasher in
  Sprintf08x hasher.

Definition GetStableName (base : string) (inputs : list string) : string :=
  let hash := computeHash base inputs in
  let base :=
    match base with
    | EmptyString => "x-" +:+ base
    | String c _ => if byte_in "a" "z" c then base else "x-" +:+ base
    end in
  let base :=
    if (MaxGeneratedNameLength <? Z.of_nat (String.length base))%Z
    then str_take (Z.to_nat MaxGeneratedNameLength) base else base in
  let base := TrimRightByte base "-" in
  let name := base +:+ "-" +:+ hash in
  match IsDNS1035Label name with
  | _ :: _ => "obj-" +:+ hash
  | [] => name
  end.

(** ** Labels, as a predicate *)

(** What the regular expression describes, without the length bound. *)
Definition label_shape (s : string) : Prop :=
  ∃ c t, s = String c t ∧ is_lower c = true ∧
    (t = EmptyString ∨ ∃ m d, t = m +:+ String d EmptyString ∧
       str_forall is_label_byte m = true ∧ is_label_end d = true).

Lemma prefixes_complete p a b :
  str_forall p a = true → (a, b) ∈ prefixes p (a +:+ b).
Proof.
  induction a as [|c a IH]; simpl; intros H.
  - destruct b as [|d b]; simpl; [apply list_elem_of_here|].
    destruct (p d); [|apply list_elem_of_here].
    apply elem_of_app. right. apply list_elem_of_here.
  - bool_hyps. rewrite H. apply elem_of_app. left. apply list_elem_of_fmap.
    exists (a, b). auto.
Qed.

Lemma label_match s : label_shape s → MatchString dns1035LabelRegexp s = true.
Proof.
  intros (c & t & -> & Hc & Ht). unfold MatchString.
  assert (∃ x, x ∈ run dns1035LabelRegexp true (String c t)) as [x Hx].
  { destruct Ht as [->|(m & d & -> & Hm & Hd)].
    - eexists. cbn. rewrite Hc. apply list_elem_of_here.
    - eexists (_, EmptyString, _). cbn [run dns1035LabelRegexp].
      apply list_elem_of_bind. eexists (_, _, _). split; [|apply list_elem_of_here].
      apply list_elem_of_fmap. eexists (_, _, _). split; [reflexivity|].
      apply list_elem_of_bind. eexists (String c EmptyString, _, _).
      split; [|rewrite Hc; apply list_elem_of_here].
      apply list_elem_of_fmap. eexists (_, _, _). split; [reflexivity|].
      apply list_elem_of_bind. eexists (m +:+ String d EmptyString, EmptyString, _).
      split; [apply list_elem_of_fmap; eexists (_, _, _); split; [reflexivity|apply list_elem_of_here]|].
      apply elem_of_app; left. apply list_elem_of_fmap.
      eexists (_, _, _). split; [reflexivity|].
      apply list_elem_of_bind. eexists (m, String d EmptyString, []). split.
      + apply list_elem_of_fmap. eexists (_, _, _). split; [reflexivity|].
        rewrite Hd. apply list_elem_of_here.
      + apply list_elem_of_fmap. exists (m, String d EmptyString). split; [done|].
        by apply prefixes_complete. }
  destruct (search dns1035LabelRegexp true (String c t)) eqn:E; [done|].
  assert (run dns1035LabelRegexp true (String c t) ≠ []) as Hne.
  { intros Hnil. rewrite Hnil in Hx. by apply elem_of_nil in Hx. }
  by apply search_hit in Hne.
Qed.

(** Conversely, a match describes the whole text. *)
Lemma run_label at0 s x : x ∈ run dns1035LabelRegexp at0 s → at0 = true ∧ label_shape s.
Proof.
  cbn [run dns1035LabelRegexp]. rewrite list_elem_of_bind. intros ([[a b] k] & H & H0).
  destruct at0; [|by apply elem_of_nil in H0].
  apply list_elem_of_singleton in H0 as [= -> -> ->].
  apply list_elem_of_fmap in H as (y & _ & H).
  apply list_elem_of_bind in H as ([[a b] k] & H & H0). split; [done|].
  destruct s as [|c t]; [by apply elem_of_nil in H0|].
  destruct (is_lower c) eqn:Hc; [|by apply elem_of_nil in H0].
  apply list_elem_of_singleton in H0 as [= -> -> ->].
  apply list_elem_of_fmap in H as (z & _ & H).
  apply list_elem_of_bind in H as ([[a b] k] & H & H0).
  destruct b as [|? ?]; [|by apply elem_of_nil in H].
  exists c, t. split; [done|]. split; [done|].
  apply elem_of_app in H0 as [H0|H0].
  2: { apply list_elem_of_singleton in H0 as [= -> <- ->]. by left. }
  right. apply list_elem_of_fmap in H0 as ([[a' b'] k'] & [= -> <- ->] & H0).
  apply list_elem_of_bind in H0 as ([[m r] k1] & H1 & H0).
  apply list_elem_of_fmap in H0 as ([m' r'] & [= -> -> ->] & H0).
  apply prefixes_sound in H0 as [-> Hm].
  apply list_elem_of_fmap in H1 as ([[d e] k2] & [= -> <- ->] & H1).
  destruct r' as [|d' r']; [by apply elem_of_nil in H1|].
  destruct (is_label_end d') eqn:Hd; [|by apply elem_of_nil in H1].
  apply list_elem_of_singleton in H1 as [= -> <- ->]. eauto 10.
Qed.

Lemma label_match_iff s : MatchString dns1035LabelRegexp s = true ↔ label_shape s.
Proof.
  split; [|apply label_match]. unfold MatchString.
  destruct (search dns1035LabelRegexp true s) as [f|] eqn:E; [intros _|done].
  apply search_Some in E as [Heq Hh]. apply head_Some in Hh as [l Hl].
  assert ((f_match f, f_after f, f_caps f) ∈ run dns1035LabelRegexp
    (true && str_is_empty (f_before f)) (f_match f +:+ f_after f)) as Hin
    by (rewrite Hl; apply list_elem_of_here).
  apply run_label in Hin as [Hb Hs].
  destruct (f_before f); [|done]. simpl in Heq. by rewrite Heq.
Qed.

Lemma IsDNS1035Label_nil s :
  IsDNS1035Label s = [] ↔ label_shape s ∧ (String.length s ≤ 63)%nat.
Proof.
  unfold IsDNS1035Label, DNS1035LabelMaxLength. rewrite <- label_match_iff.
  destruct (Z.ltb_spec 63 (Z.of_nat (String.length s))),
    (MatchString dns1035LabelRegexp s); simpl; split; try done; intros; split_and?; try done; lia.
Qed.

(** ** Building labels *)

Lemma str_snoc s : s ≠ EmptyString → ∃ m d, s = m +:+ String d EmptyString.
Proof.
  induction s as [|c s IH]; [done|]. intros _. destruct s as [|e s].
  - by exists EmptyString, c.
  - destruct IH as (m & d & ->); [done|]. by exists (String c m), d.
Qed.

Lemma is_hex_label c : is_hex c = true → is_label_end c = true.
Proof. by byte_cases c. Qed.
Lemma label_end_byte c : is_label_end c = true → is_label_byte c = true.
Proof. unfold is_label_end, is_label_byte. intros H. by rewrite <- orb_assoc, H, orb_true_r. Qed.
Lemma lower_label_end c : is_lower c = true → is_label_end c = true.
Proof. unfold is_label_end. by intros ->. Qed.
#[local] Hint Resolve is_hex_label label_end_byte lower_label_end : core.

(** A letter, label bytes, and a non-empty tail of label ends. *)
Lemma label_shape_join c t h :
  is_lower c = true → str_forall is_label_byte t = true →
  h ≠ EmptyString → str_forall is_label_end h = true → label_shape (String c (t +:+ h)).
Proof.
  intros Hc Ht Hne Hh. exists c, (t +:+ h). split; [done|]. split; [done|]. right.
  destruct (str_snoc h Hne) as (m & d & ->). rewrite str_forall_app in Hh. simpl in Hh.
  bool_hyps. exists (t +:+ m), d. rewrite str_app_assoc, str_forall_app, Ht. simpl.
  split_and!; [done| |done]. eapply str_forall_impl; [|done]. auto.
Qed.

(** The bytes and the last byte of a label. *)
Lemma label_shape_bytes s : label_shape s → str_forall is_label_byte s = true.
Proof.
  intros (c & t & -> & Hc & Ht). simpl. rewrite (label_end_byte c) by auto. simpl.
  destruct Ht as [->|(m & d & -> & Hm & Hd)]; [done|].
  rewrite str_forall_app, Hm. simpl. by rewrite label_end_byte.
Qed.

Lemma TrimRightByte_label s : label_shape s → TrimRightByte s "-" = s.
Proof.
  intros (c & t & -> & Hc & Ht).
  assert (∀ m d, is_label_end d = true →
    TrimRightByte (m +:+ String d EmptyString) "-" = m +:+ String d EmptyString) as Hsnoc.
  { intros m d Hd. induction m as [|e m IH]; simpl.
    - destruct (Ascii.eqb_spec d "-") as [->|]; [by vm_compute in Hd|done].
    - rewrite IH. by destruct m. }
  destruct Ht as [->|(m & d & -> & Hm & Hd)].
  - by apply (Hsnoc EmptyString c (lower_label_end c Hc)).
  - by apply (Hsnoc (String c m) d).
Qed.

Lemma computeHash_spec base inputs :
  String.length (computeHash base inputs) = 8 ∧
  str_forall is_label_end (computeHash base inputs) = true.
Proof.
  unfold computeHash, Sprintf08x. destruct (hex_digits_spec 8 (fold_left fnv_write inputs
    (fnv_write fnv_offset32 base))) as [Hl Hf].
  split; [done|]. eapply str_forall_impl; [|done]. auto.
Qed.

Lemma computeHash_nonempty base inputs : computeHash base inputs ≠ EmptyString.
Proof. destruct (computeHash_spec base inputs) as [Hl _]. intros H. by rewrite H in Hl. Qed.
#[local] Hint Resolve computeHash_nonempty : core.

Lemma fallback_label base inputs : IsDNS1035Label ("obj-" +:+ computeHash base inputs) = [].
Proof.
  apply IsDNS1035Label_nil. destruct (computeHash_spec base inputs) as [Hl Hf]. split.
  - by apply (label_shape_join "o" "bj-").
  - rewrite str_length_app, Hl. simpl. lia.
Qed.

(** The hash is a function of the concatenation of its inputs. *)
Lemma fnv_write_app h a b : fnv_write h (a +:+ b) = fnv_write (fnv_write h a) b.
Proof. revert h. induction a as [|c a IH]; intros h; simpl; [done|apply IH]. Qed.

Lemma fold_fnv_write l h : fold_left fnv_write l h = fnv_write h (str_concat l).
Proof.
  revert h. induction l as [|s l IH]; intros h; simpl; [done|].
  by rewrite IH, fnv_write_app.
Qed.

Lemma computeHash_concat base inputs inputs' :
  str_concat inputs = str_concat inputs' → computeHash base inputs = computeHash base inputs'.
Proof. unfold computeHash. rewrite !fold_fnv_write. by intros ->. Qed.

Lemma GetStableName_label base inputs :
  label_shape base → (String.length base ≤ 54)%nat →
  GetStableName base inputs = base +:+ "-" +:+ computeHash base inputs.
Proof.
  intros Hb Hlen. pose proof Hb as (c & t & -> & Hc & _).
  unfold GetStableName, MaxGeneratedNameLength, DNS1035LabelMaxLength, HashLength.
  unfold is_lower in Hc. rewrite Hc. cbn zeta.
  destruct (Z.ltb_spec (63 - 8 - 1) (Z.of_nat (String.length (String c t)))); [lia|].
  rewrite (TrimRightByte_label _ Hb).
  destruct (computeHash_spec (String c t) inputs) as [Hl Hf].
  assert (IsDNS1035Label (String c t +:+ "-" +:+ computeHash (String c t) inputs) = []) as ->; [|done].
  apply IsDNS1035Label_nil. split.
  - change (String c t +:+ "-" +:+ computeHash (String c t) inputs)
      with (String c (t +:+ "-" +:+ computeHash (String c t) inputs)).
    rewrite <- str_app_assoc. apply label_shape_join; auto.
    apply label_shape_bytes in Hb. simpl in Hb. rewrite str_forall_app. bool_hyps.
    by rewrite H1.
  - rewrite !str_length_app, Hl. simpl in *. lia.
Qed.

(** ** Properties *)

(** C31: whatever the base and the inputs are, [GetStableName] returns a name
    that passes the DNS-1035 label validation (shape and 63-byte bound). *)
Theorem GetStableName_valid (base : string) (inputs : list string) :
  IsDNS1035Label (GetStableName base inputs) = [].
Proof.
  unfold GetStableName. destruct (IsDNS1035Label (_ +:+ "-" +:+ _)) eqn:E; [done|].
  apply fallback_label.
Qed.

(** a base that is itself a label of at most 54 bytes (the usual case:
    the name of a Kubernetes object) is kept, followed by a hyphen and the
    eight hexadecimal digits of the hash. *)
Theorem GetStableName_keeps_base (base : string) (inputs : list string)
    (Hlabel : IsDNS1035Label base = []) (Hlen : String.length base ≤ 54) :
  GetStableName base inputs = base +:+ "-" +:+ computeHash base inputs ∧
  String.length (computeHash base inputs) = 8.
Proof.
  apply IsDNS1035Label_nil in Hlabel as [Hs _].
  split; [by apply GetStableName_label|apply computeHash_spec].
Qed.

Lemma GetStableName_keeps_base_witness :
  GetStableName "fedora" ["uid-1"] = "fedora-08ee4938" ∧
  String.length (computeHash "fedora" ["uid-1"]) = 8.
Proof.
  destruct (GetStableName_keeps_base "fedora" ["uid-1"]) as [-> H].
  - vm_compute. reflexivity.
  - simpl. lia.
  - split; [vm_compute; reflexivity|exact H].
Defined.

(** two different label bases of at most 54 bytes never share a stable
    name, whatever their inputs (the hash is not what tells them apart). *)
Theorem GetStableName_base_injective (base base' : string) (inputs inputs' : list string)
    (Hlabel : IsDNS1035Label base = []) (Hlen : String.length base ≤ 54)
    (Hlabel' : IsDNS1035Label base' = []) (Hlen' : String.length base' ≤ 54)
    (Heq : GetStableName base inputs = GetStableName base' inputs') :
  base = base' ∧ computeHash base inputs = computeHash base' inputs'.
Proof.
  apply IsDNS1035Label_nil in Hlabel as [Hs _]. apply IsDNS1035Label_nil in Hlabel' as [Hs' _].
  rewrite !GetStableName_label in Heq by done.
  assert (String.length base = String.length base') as Hl.
  { apply (f_equal String.length) in Heq. rewrite !str_length_app in Heq.
    rewrite !(proj1 (computeHash_spec _ _)) in Heq. simpl in Heq. lia. }
  destruct (str_app_length_inj _ _ _ _ Hl Heq) as [-> Htl].
  split; [done|]. by apply str_app_inv_l in Htl.
Qed.

Lemma GetStableName_base_injective_witness :
  "vm" = "vm" ∧ computeHash "vm" ["ab"; "c"] = computeHash "vm" ["a"; "bc"].
Proof.
  apply GetStableName_base_injective; try (vm_compute; reflexivity); simpl; lia.
Defined.

(** the inputs are hashed without separators, so input lists with the same
    concatenation give the same name; the callers rely on UIDs having a fixed
    length. *)
Theorem GetStableName_concat (base : string) (inputs inputs' : list string)
    (Hcat : str_concat inputs = str_concat inputs') :
  GetStableName base inputs = GetStableName base inputs'.
Proof.
  unfold GetStableName. by rewrite (computeHash_concat base inputs inputs' Hcat).
Qed.

Lemma GetStableName_concat_witness :
  GetStableName "vm" ["uid"; "disk"] = GetStableName "vm" ["uiddi"; "sk"].
Proof. apply GetStableName_concat. reflexivity. Defined.

(** a base with a byte outside [-a-z0-9] within its first 54 bytes (after
    the [x-] prefix a non-letter start gets) that is not a trailing hyphen cut
    away yields the fallback name [obj-<hash>]; the base is not even
    partially kept. *)
Theorem GetStableName_fallback (c : ascii) (rest : string) (inputs : list string)
    (Hc : is_lower c = true)
    (Hbad : str_forall is_label_byte (str_take 53 rest) = false) :
  GetStableName (String c rest) inputs = "obj-" +:+ computeHash (String c rest) inputs.
Proof.
  unfold GetStableName, MaxGeneratedNameLength, DNS1035LabelMaxLength, HashLength.
  change (byte_in "a" "z" c) with (is_lower c). rewrite Hc. cbn zeta.
  set (h := computeHash (String c rest) inputs).
  set (b := if (63 - 8 - 1 <? _)%Z then _ else _).
  assert (b = str_take 54 (String c rest)) as ->.
  { subst b. destruct (Z.ltb_spec (63 - 8 - 1) (Z.of_nat (String.length (String c rest)))); [done|].
    symmetry. apply str_take_all. simpl in *. lia. }
  destruct (IsDNS1035Label _) eqn:E; [|done]. exfalso.
  apply IsDNS1035Label_nil in E as [E _]. apply label_shape_bytes in E.
  rewrite str_forall_app in E. bool_hyps.
  destruct (TrimRightByte_prefix (str_take 54 (String c rest)) "-") as (t & Heq & Ht).
  assert (str_forall is_label_byte (str_take 54 (String c rest)) = true) as Hall.
  { rewrite Heq, str_forall_app, H. simpl. eapply str_forall_impl; [|exact Ht].
    intros d Hd. by apply Ascii.eqb_eq in Hd as ->. }
  simpl in Hall. bool_hyps. simpl in Hbad. congruence.
Qed.

Lemma GetStableName_fallback_witness :
  GetStableName "my_vm" [] = "obj-" +:+ computeHash "my_vm" [].
Proof. apply (GetStableName_fallback "m" "y_vm"); vm_compute; reflexivity. Defined.
