(* ===== verification/Json.v ===== *)
(** * encoding/json: values and [json.Unmarshal] into [any]

    The template engine decodes the embedded virtual machine and the values of
    non-string references with [encoding/json].  This file has the tree such
    a value is decoded to, the decoder, and a printer with the round trip
    theorem that ties the two together.  Objects are association lists: their
    order stands for the order in which Go iterates over the map. *)

From Stdlib Require Import Ascii ZArith Lia.
From stdpp Require Import prelude strings sets.
From S2P Require Import Prelude GoStrings Regex.

Inductive json : Type :=
| JNull
| JBool (b : bool)
| JNum (lit : string)
| JStr (s : string)
| JArr (l : list json)
| JObj (kvs : list (string * json)).

Fixpoint json_ind' (P : json → Prop)
    (Hnull : P JNull) (Hbool : ∀ b, P (JBool b)) (Hnum : ∀ s, P (JNum s)) (Hstr : ∀ s, P (JStr s))
    (Harr : ∀ l, Forall P l → P (JArr l))
    (Hobj : ∀ kvs, Forall (λ kv, P kv.2) kvs → P (JObj kvs)) (j : json) : P j :=
  let rec := json_ind' P Hnull Hbool Hnum Hstr Harr Hobj in
  match j with
  | JNull => Hnull
  | JBool b => Hbool b
  | JNum s => Hnum s
  | JStr s => Hstr s
  | JArr l => Harr l ((fix go l : Forall P l :=
      match l with [] => Forall_nil_2 _ | x :: l' => Forall_cons_2 _ _ _ (rec x) (go l') end) l)
  | JObj kvs => Hobj kvs ((fix go l : Forall (λ kv, P kv.2) l :=
      match l with [] => Forall_nil_2 _ | kv :: l' => Forall_cons_2 _ kv _ (rec kv.2) (go l') end) kvs)
  end.

#[export] Instance json_eq_dec : EqDecision json.
Proof.
  refine (fix go x y := let _ : EqDecision json := @go in
    match x, y with
    | JNull, JNull => left eq_refl
    | JBool a, JBool b => cast_if (decide (a = b))
    | JNum a, JNum b => cast_if (decide (a = b))
    | JStr a, JStr b => cast_if (decide (a = b))
    | JArr a, JArr b => cast_if (decide (a = b))
    | JObj a, JObj b => cast_if (decide (a = b))
    | _, _ => right _
    end); abstract congruence.
Defined.

(** ** Association lists as maps *)

Section assoc.
Context {A : Type}.

Fixpoint assoc_get (k : string) (kvs : list (string * A)) : option A :=
  match kvs with
  | [] => None
  | (k', v) :: kvs' => if (k =? k')%string then Some v else assoc_get k kvs'
  end.

(** [m[k] = v]. *)
Fixpoint assoc_set (k : string) (v : A) (kvs : list (string * A)) : list (string * A) :=
  match kvs with
  | [] => [(k, v)]
  | (k', v') :: kvs' => if (k =? k')%string then (k, v) :: kvs' else (k', v') :: assoc_set k v kvs'
  end.

(** [delete(m, k)]. *)
Fixpoint assoc_delete (k : string) (kvs : list (string * A)) : list (string * A) :=
  match kvs with
  | [] => []
  | (k', v') :: kvs' => if (k =? k')%string then assoc_delete k kvs' else (k', v') :: assoc_delete k kvs'
  end.

Lemma assoc_set_fresh k v kvs : k ∉ kvs.*1 → assoc_set k v kvs = kvs ++ [(k, v)].
Proof.
  induction kvs as [|[k' v'] kvs IH]; simpl; [done|]. rewrite not_elem_of_cons. intros [Hne Hk].
  destruct (String.eqb_spec k k'); [done|]. by rewrite IH.
Qed.

Lemma assoc_get_set k k' v kvs :
  assoc_get k (assoc_set k' v kvs) = if (k =? k')%string then Some v else assoc_get k kvs.
Proof.
  induction kvs as [|[j w] kvs IH]; simpl; [done|].
  destruct (String.eqb_spec k' j) as [->|Hne]; simpl.
  - by destruct (k =? j)%string.
  - destruct (String.eqb_spec k j) as [->|]; [|done]. destruct (String.eqb_spec j k'); [congruence|done].
Qed.

Lemma assoc_get_delete k k' kvs :
  assoc_get k (assoc_delete k' kvs) = if (k =? k')%string then None else assoc_get k kvs.
Proof.
  induction kvs as [|[j w] kvs IH]; simpl; [by destruct (k =? k')%string|].
  destruct (String.eqb_spec k' j) as [->|Hne]; simpl.
  - rewrite IH. by destruct (k =? j)%string.
  - destruct (String.eqb_spec k j) as [->|]; [|done]. destruct (String.eqb_spec j k'); [congruence|done].
Qed.

Lemma assoc_get_None k kvs : assoc_get k kvs = None ↔ k ∉ kvs.*1.
Proof.
  induction kvs as [|[j w] kvs IH]; simpl; [rewrite elem_of_nil; naive_solver|].
  rewrite not_elem_of_cons, <- IH. destruct (String.eqb_spec k j); naive_solver.
Qed.

Lemma assoc_get_elem k v kvs : assoc_get k kvs = Some v → (k, v) ∈ kvs.
Proof.
  induction kvs as [|[j w] kvs IH]; simpl; [done|]. rewrite elem_of_cons.
  destruct (String.eqb_spec k j); naive_solver.
Qed.

Lemma assoc_get_NoDup k v kvs : NoDup kvs.*1 → assoc_get k kvs = Some v ↔ (k, v) ∈ kvs.
Proof.
  intros Hnd. split; [apply assoc_get_elem|]. induction kvs as [|[j w] kvs IH]; simpl.
  - by rewrite elem_of_nil.
  - simpl in Hnd. apply NoDup_cons in Hnd as [Hj Hnd]. rewrite elem_of_cons. intros [[= -> ->]|Hin].
    + by rewrite String.eqb_refl.
    + destruct (String.eqb_spec k j) as [->|]; [|auto]. exfalso. apply Hj.
      apply list_elem_of_fmap. by exists (j, v).
Qed.
Lemma assoc_set_keys k v kvs j : j ∈ (assoc_set k v kvs).*1 ↔ j = k ∨ j ∈ kvs.*1.
Proof.
  induction kvs as [|[k' v'] kvs IH]; simpl; [set_solver|].
  destruct (String.eqb_spec k k') as [->|]; simpl; rewrite !elem_of_cons; [tauto|]. rewrite IH. tauto.
Qed.

Lemma assoc_set_NoDup k v kvs : NoDup kvs.*1 → NoDup (assoc_set k v kvs).*1.
Proof.
  induction kvs as [|[k' v'] kvs IH]; simpl; [intros _; apply NoDup_singleton|].
  intros [Hk Hnd]%NoDup_cons. destruct (String.eqb_spec k k') as [->|]; simpl; apply NoDup_cons; [done|].
  split; [|auto]. rewrite assoc_set_keys. naive_solver.
Qed.

Lemma assoc_delete_keys k kvs j : j ∈ (assoc_delete k kvs).*1 ↔ j ≠ k ∧ j ∈ kvs.*1.
Proof.
  induction kvs as [|[k' v'] kvs IH]; simpl; [set_solver|].
  destruct (String.eqb_spec k k') as [->|]; simpl; rewrite ?elem_of_cons, IH; naive_solver.
Qed.

Lemma assoc_delete_NoDup k kvs : NoDup kvs.*1 → NoDup (assoc_delete k kvs).*1.
Proof.
  induction kvs as [|[k' v'] kvs IH]; simpl; [done|]. intros [Hk Hnd]%NoDup_cons.
  destruct (k =? k')%string; [auto|]. simpl. apply NoDup_cons. split; [|auto].
  rewrite assoc_delete_keys. tauto.
Qed.

(** Maps with the same lookups have the same entries. *)
Lemma assoc_perm l l' :
  NoDup l.*1 → NoDup l'.*1 → (∀ k, assoc_get k l = assoc_get k l') → l ≡ₚ l'.
Proof.
  intros Hl Hl' Hg. apply NoDup_Permutation; [by eapply NoDup_fmap_1|by eapply NoDup_fmap_1|].
  intros [k v]. by rewrite <- (assoc_get_NoDup k v l), <- (assoc_get_NoDup k v l'), Hg.
Qed.

Lemma assoc_get_sets k us m :
  NoDup us.*1 →
  assoc_get k (fold_left (λ m '(k', v'), assoc_set k' v' m) us m) =
  match assoc_get k us with Some v => Some v | None => assoc_get k m end.
Proof.
  revert m. induction us as [|[j v] us IH]; intros m; [done|]. simpl. intros [Hj Hnd]%NoDup_cons.
  rewrite IH by done. rewrite assoc_get_set. destruct (String.eqb_spec k j) as [->|]; [|done].
  apply assoc_get_None in Hj. by rewrite Hj.
Qed.

Lemma sets_NoDup us m : NoDup m.*1 → NoDup (fold_left (λ m '(k', v'), assoc_set k' v' m) us m).*1.
Proof. revert m. induction us as [|[j v] us IH]; intros m; [done|]. simpl. auto using assoc_set_NoDup. Qed.

Lemma deletes_NoDup ks m : NoDup m.*1 → NoDup (fold_left (λ m k, assoc_delete k m) ks m).*1.
Proof. revert m. induction ks as [|j ks IH]; intros m; [done|]. simpl. auto using assoc_delete_NoDup. Qed.

Lemma assoc_get_deletes k ks m :
  assoc_get k (fold_left (λ m k, assoc_delete k m) ks m) =
  if decide (k ∈ ks) then None else assoc_get k m.
Proof.
  revert m. induction ks as [|j ks IH]; intros m; simpl; [done|]. rewrite IH, assoc_get_delete.
  destruct (String.eqb_spec k j) as [->|Hne].
  - rewrite (decide_True (P := j ∈ j :: ks)) by (by left). by case_decide.
  - destruct (decide (k ∈ ks)); [rewrite decide_True by (by right); done|].
    rewrite decide_False; [done|]. rewrite elem_of_cons. naive_solver.
Qed.
End assoc.

(** ** Strings *)

Definition byte_val (c : ascii) : Z := Z.of_N (N_of_ascii c).
Definition byte_of (z : Z) : ascii := ascii_of_N (Z.to_N (z mod 256)).

(** The UTF-8 encoding of a code point, as [utf8.AppendRune]. *)
Definition utf8_encode (r : Z) : string :=
  (if r <? 128 then String (byte_of r) EmptyString
   else if r <? 2048 then String (byte_of (192 + r / 64)) (String (byte_of (128 + r mod 64)) EmptyString)
   else if r <? 65536
   then String (byte_of (224 + r / 4096)) (String (byte_of (128 + (r / 64) mod 64))
          (String (byte_of (128 + r mod 64)) EmptyString))
   else String (byte_of (240 + r / 262144)) (String (byte_of (128 + (r / 4096) mod 64))
          (String (byte_of (128 + (r / 64) mod 64)) (String (byte_of (128 + r mod 64)) EmptyString))))%Z.

Definition rune_error : string := utf8_encode 65533.

Definition is_cont (c : ascii) : bool := ((128 <=? byte_val c) && (byte_val c <? 192))%Z.
Definition between (lo hi : Z) (c : ascii) : bool := ((lo <=? byte_val c) && (byte_val c <=? hi))%Z.

(** The length of the valid UTF-8 sequence a string starts with, as
    [utf8.DecodeRune]; [None] for an invalid first byte. *)
Definition utf8_size (s : string) : option nat :=
  match s with
  | EmptyString => None
  | String a s1 =>
      if between 0 127 a then Some 1
      else match s1 with
      | EmptyString => None
      | String b s2 =>
          if between 194 223 a && is_cont b then Some 2
          else match s2 with
          | EmptyString => None
          | String c s3 =>
              if ((between 224 224 a && between 160 191 b) || (between 225 236 a && is_cont b) ||
                  (between 237 237 a && between 128 159 b) || (between 238 239 a && is_cont b))
                 && is_cont c then Some 3
              else match s3 with
              | EmptyString => None
              | String d _ =>
                  if ((between 240 240 a && between 144 191 b) || (between 241 243 a && is_cont b) ||
                      (between 244 244 a && between 128 143 b)) && is_cont c && is_cont d
                  then Some 4 else None
              end
          end
      end
  end.

Definition hex_val (c : ascii) : option Z :=
  let v := byte_val c in
  if is_digit c then Some (v - 48)%Z
  else if byte_in "a" "f" c then Some (v - 87)%Z
  else if byte_in "A" "F" c then Some (v - 55)%Z
  else None.

(** [getu4] on the text after a backslash and [u]. *)
Definition getu4 (s : string) : option Z :=
  match s with
  | String a (String b (String c (String d _))) =>
      a' ← hex_val a; b' ← hex_val b; c' ← hex_val c; d' ← hex_val d;
      Some (a' * 4096 + b' * 256 + c' * 16 + d')%Z
  | _ => None
  end.

Definition is_surrogate (r : Z) : bool := ((55296 <=? r) && (r <? 57344))%Z.

(** [utf16.DecodeRune] of a valid pair. *)
Definition decode_pair (r1 r2 : Z) : option Z :=
  if ((55296 <=? r1) && (r1 <? 56320) && (56320 <=? r2) && (r2 <? 57344))%Z
  then Some ((r1 - 55296) * 1024 + (r2 - 56320) + 65536)%Z else None.

(** What an escape sequence after a backslash stands for, with the number of
    bytes it takes after the backslash. *)
Definition unescape (s : string) : option (string * nat) :=
  match s with
  | EmptyString => None
  | String e s' =>
      if (e =? "034")%char || (e =? "\")%char || (e =? "/")%char then Some (String e EmptyString, 1)
      else if (e =? "b")%char then Some (String "008" EmptyString, 1)
      else if (e =? "f")%char then Some (String "012" EmptyString, 1)
      else if (e =? "n")%char then Some (String "010" EmptyString, 1)
      else if (e =? "r")%char then Some (String "013" EmptyString, 1)
      else if (e =? "t")%char then Some (String "009" EmptyString, 1)
      else if (e =? "u")%char then
        r ← getu4 s';
        if is_surrogate r then
          match str_drop 4 s' with
          | String x (String y s'') =>
              if (x =? "\")%char && (y =? "u")%char then
                match r2 ← getu4 s''; decode_pair r r2 with
                | Some p => Some (utf8_encode p, 11)
                | None => Some (rune_error, 5)
                end
              else Some (rune_error, 5)
          | _ => Some (rune_error, 5)
          end
        else Some (utf8_encode r, 5)
      else None
  end.

(** The text of a string literal after its opening quote: the decoded content
    and the rest after the closing quote.  The first [skip] bytes belong to a
    sequence that is already decoded. *)
Fixpoint unquote (skip : nat) (s : string) : option (string * string) :=
  match s with
  | EmptyString => None
  | String c s' =>
      match skip with
      | S skip' => unquote skip' s'
      | O =>
          if (c =? "034")%char then Some (EmptyString, s')
          else if (c =? "\")%char then
            '(out, n) ← unescape s';
            '(t, rest) ← unquote n s';
            Some (out +:+ t, rest)
          else if (byte_val c <? 32)%Z then None
          else
            match utf8_size s with
            | Some n =>
                '(t, rest) ← unquote (n - 1) s';
                Some (str_take n s +:+ t, rest)
            | None =>
                '(t, rest) ← unquote 0 s';
                Some (rune_error +:+ t, rest)
            end
      end
  end.

(** ** Numbers *)

(** An optional minus sign and an integer without leading zeros: the literal
    and the rest. *)
Definition scan_int (s : string) : option (string * string) :=
  let '(sign, s1) := match s with
    | String c s' => if (c =? "-")%char then ("-", s') else (EmptyString, s)
    | EmptyString => (EmptyString, s)
    end in
  match s1 with
  | EmptyString => None
  | String c s' =>
      if (c =? "0")%char then Some (sign +:+ "0", s')
      else if is_digit c then let '(ds, r) := span is_digit s1 in Some (sign +:+ ds, r)
      else None
  end.

(** An optional fraction. *)
Definition scan_frac (s : string) : option (string * string) :=
  match s with
  | String c s' =>
      if (c =? ".")%char then
        match span is_digit s' with
        | (EmptyString, _) => None
        | (ds, r) => Some ("." +:+ ds, r)
        end
      else Some (EmptyString, s)
  | EmptyString => Some (EmptyString, s)
  end.

(** An optional exponent. *)
Definition scan_exp (s : string) : option (string * string) :=
  match s with
  | String c s' =>
      if (c =? "e")%char || (c =? "E")%char then
        let '(sign, s2) := match s' with
          | String d s'' =>
              if (d =? "+")%char || (d =? "-")%char then (String d EmptyString, s'') else (EmptyString, s')
          | EmptyString => (EmptyString, s')
          end in
        match span is_digit s2 with
        | (EmptyString, _) => None
        | (ds, r) => Some (String c (sign +:+ ds), r)
        end
      else Some (EmptyString, s)
  | EmptyString => Some (EmptyString, s)
  end.

(** The magnitude of a number literal as [mantissa * 10 ^ exponent]. *)
Definition magnitude (int frac exp : string) : Z * Z :=
  let int := match int with String c s => if (c =? "-")%char then s else int | EmptyString => int end in
  let frac := str_drop 1 frac in
  let e := match str_drop 1 exp with
    | String c ds => if (c =? "-")%char then (- digits_val 0 ds)%Z
                     else if (c =? "+")%char then digits_val 0 ds else digits_val 0 (String c ds)
    | EmptyString => 0%Z
    end in
  (digits_val 0 (int +:+ frac), e - Z.of_nat (String.length frac))%Z.

(** [strconv.ParseFloat] reports a range error from [2^1024 - 2^970] on. *)
Definition overflows_float64 (int frac exp : string) : bool :=
  let '(m, e) := magnitude int frac exp in
  let digits := Z.of_nat (String.length int + String.length frac) in
  let lim := (2 ^ 1024 - 2 ^ 970)%Z in
  if (m =? 0)%Z then false
  else if (e >? 310)%Z then true
  else if (0 <=? e)%Z then (lim <=? m * 10 ^ e)%Z
  else if (digits + e <? 0)%Z then false
  else (lim * 10 ^ (- e) <=? m)%Z.

Definition scan_number (s : string) : option (string * string) :=
  '(int, s1) ← scan_int s;
  '(frac, s2) ← scan_frac s1;
  '(exp, s3) ← scan_exp s2;
  if overflows_float64 int frac exp then None else Some (int +:+ frac +:+ exp, s3).

(** ** Values *)

Definition is_ws (c : ascii) : bool :=
  (c =? " ")%char || (c =? "009")%char || (c =? "010")%char || (c =? "013")%char.

Fixpoint skip_ws (s : string) : string :=
  match s with
  | String c s' => if is_ws c then skip_ws s' else s
  | EmptyString => s
  end.

(** [c] after optional white space. *)
Definition expect (c : ascii) (s : string) : option string :=
  match skip_ws s with
  | String d s' => if (d =? c)%char then Some s' else None
  | EmptyString => None
  end.

Definition maxNestingDepth : Z := 10000.

(** A value and the rest of the text; the elements of an array after its
    opening bracket or a comma; the members of an object likewise.  A later
    member replaces an earlier one of the same name. *)
Fixpoint parse_value (fuel : nat) (depth : Z) (s : string) {struct fuel} : option (json * string) :=
  match fuel with
  | O => None
  | S fuel' =>
      match skip_ws s with
      | EmptyString => None
      | String c s' =>
          if (c =? "034")%char then '(t, r) ← unquote 0 s'; Some (JStr t, r)
          else if (c =? "[")%char then
            if (maxNestingDepth <=? depth)%Z then None
            else match expect "]" s' with
            | Some r => Some (JArr [], r)
            | None => '(l, r) ← parse_elems fuel' (depth + 1) s'; Some (JArr l, r)
            end
          else if (c =? "{")%char then
            if (maxNestingDepth <=? depth)%Z then None
            else match expect "}" s' with
            | Some r => Some (JObj [], r)
            | None => '(l, r) ← parse_members fuel' (depth + 1) [] s'; Some (JObj l, r)
            end
          else
            match strip_prefix "true" (String c s'), strip_prefix "false" (String c s'),
                  strip_prefix "null" (String c s') with
            | Some r, _, _ => Some (JBool true, r)
            | _, Some r, _ => Some (JBool false, r)
            | _, _, Some r => Some (JNull, r)
            | _, _, _ => '(n, r) ← scan_number (String c s'); Some (JNum n, r)
            end
      end
  end
with parse_elems (fuel : nat) (depth : Z) (s : string) {struct fuel} : option (list json * string) :=
  match fuel with
  | O => None
  | S fuel' =>
      '(v, r) ← parse_value fuel' depth s;
      match expect "," r with
      | Some r' => '(l, r'') ← parse_elems fuel' depth r'; Some (v :: l, r'')
      | None => r' ← expect "]" r; Some ([v], r')
      end
  end
with parse_members (fuel : nat) (depth : Z) (acc : list (string * json)) (s : string) {struct fuel}
    : option (list (string * json) * string) :=
  match fuel with
  | O => None
  | S fuel' =>
      s1 ← expect "034" s;
      '(k, s2) ← unquote 0 s1;
      s3 ← expect ":" s2;
      '(v, r) ← parse_value fuel' depth s3;
      let acc' := assoc_set k v acc in
      match expect "," r with
      | Some r' => parse_members fuel' depth acc' r'
      | None => r' ← expect "}" r; Some (acc', r')
      end
  end.

Definition json_error : error := EForeign "encoding/json".

Definition parse_fuel (s : string) : nat := 2 * String.length s + 2.

(** [var v any; json.Unmarshal(s, &v)]. *)
Definition Unmarshal (s : string) : res error json :=
  match parse_value (parse_fuel s) 0 s with
  | Some (v, r) => if str_is_empty (skip_ws r) then Ok v else Err json_error
  | None => Err json_error
  end.

(** [var m map[string]any; json.Unmarshal(s, &m)]: [null] gives the nil map. *)
Definition Unmarshal_map (s : string) : res error (option (list (string * json))) :=
  v ← Unmarshal s;
  match v with
  | JObj kvs => Ok (Some kvs)
  | JNull => Ok None
  | _ => Err json_error
  end.

(** ** [json.Marshal]

    The encoder, with its escapes of control and HTML characters, of the line
    separators of JavaScript, and of bytes that are not UTF-8, which become
    the replacement character; the decoder inverts it on trees whose strings
    are UTF-8. *)

Definition escape_byte (c : ascii) : string :=
  let n := byte_val c in
  if (c =? "034")%char || (c =? "\")%char then String "\" (String c EmptyString)
  else if (n =? 8)%Z then "\b" else if (n =? 12)%Z then "\f" else if (n =? 10)%Z then "\n"
  else if (n =? 13)%Z then "\r" else if (n =? 9)%Z then "\t"
  else if (n <? 32)%Z || (c =? "<")%char || (c =? ">")%char || (c =? "&")%char
  then "\u00" +:+ hex_digits 2 n
  else String c EmptyString.

(** A multi-byte sequence is copied, but for U+2028 and U+2029. *)
Definition escape_rune (x : string) : string :=
  if (x =? utf8_encode 8232)%string then "\u2028"
  else if (x =? utf8_encode 8233)%string then "\u2029"
  else x.

(** The first [skip] bytes belong to a sequence that is already written. *)
Fixpoint escape_from (skip : nat) (s : string) : string :=
  match s with
  | EmptyString => EmptyString
  | String c s' =>
      match skip with
      | S skip' => escape_from skip' s'
      | O =>
          if (byte_val c <? 128)%Z then escape_byte c +:+ escape_from 0 s'
          else match utf8_size s with
               | Some n => escape_rune (str_take n s) +:+ escape_from (n - 1) s'
               | None => "\ufffd" +:+ escape_from 0 s'
               end
      end
  end.
Definition escape (s : string) : string := escape_from 0 s.

Definition quote (s : string) : string := String "034" (escape s +:+ String "034" EmptyString).

(** [utf8.ValidString]; the first [skip] bytes belong to a sequence that is
    already checked. *)
Fixpoint valid_from (skip : nat) (s : string) : bool :=
  match s with
  | EmptyString => (skip =? 0)%nat
  | String c s' =>
      match skip with
      | S skip' => valid_from skip' s'
      | O => match utf8_size s with Some n => valid_from (n - 1) s' | None => false end
      end
  end.
Definition valid_utf8 (s : string) : bool := valid_from 0 s.
Arguments valid_utf8 _ : simpl never.

Fixpoint print (j : json) : string :=
  match j with
  | JNull => "null"
  | JBool b => if b then "true" else "false"
  | JNum lit => lit
  | JStr s => quote s
  | JArr l => "[" +:+ Join (print <$> l) "," +:+ "]"
  | JObj kvs => "{" +:+ Join ((λ kv, quote kv.1 +:+ ":" +:+ print kv.2) <$> kvs) "," +:+ "}"
  end.

Definition is_ascii (c : ascii) : bool := (byte_val c <? 128)%Z.

Fixpoint height (j : json) : Z :=
  match j with
  | JArr l => 1 + foldr Z.max 0%Z (height <$> l)
  | JObj kvs => 1 + foldr Z.max 0%Z ((λ kv, height kv.2) <$> kvs)
  | _ => 0
  end%Z.

(** Number literals are number literals, strings are UTF-8 and the keys of an
    object are distinct. *)
Fixpoint json_ok (j : json) : Prop :=
  match j with
  | JNull | JBool _ => True
  | JNum lit => scan_number lit = Some (lit, EmptyString)
  | JStr s => valid_utf8 s = true
  | JArr l => foldr and True (json_ok <$> l)
  | JObj kvs => NoDup kvs.*1 ∧ foldr and True ((λ kv, valid_utf8 kv.1 = true ∧ json_ok kv.2) <$> kvs)
  end.

(** What may follow a value inside an array, an object or at the end. *)
Definition delimiter (r : string) : Prop :=
  r = EmptyString ∨ ∃ c r', r = String c r' ∧ (c = "," ∨ c = "]" ∨ c = "}")%char.

Lemma unquote_skip_app x s : unquote (String.length x) (x +:+ s) = unquote 0 s.
Proof. induction x as [|c x IH]; simpl; [by destruct s|done]. Qed.

Lemma unquote_escape_byte c s :
  is_ascii c = true →
  unquote 0 (escape_byte c +:+ s) = ('(t, rest) ← unquote 0 s; Some (String c t, rest)).
Proof.
  intros Hc. destruct c as [[] [] [] [] [] [] [] []]; try done; by vm_compute escape_byte.
Qed.

(** *** UTF-8 *)

Lemma byte_val_range c : (0 ≤ byte_val c < 256)%Z.
Proof. unfold byte_val. pose proof (N_ascii_bounded c). lia. Qed.

(** A sequence of UTF-8: a string that is one, whatever follows. *)
Definition utf8_seq (x : string) : Prop := x ≠ EmptyString ∧ ∀ t, utf8_size (x +:+ t) = Some (String.length x).

Lemma utf8_size_seq s n : utf8_size s = Some n → ∃ x t, s = x +:+ t ∧ String.length x = n ∧ utf8_seq x.
Proof.
  assert (∀ x t, utf8_size (x +:+ t) = Some (String.length x) → x ≠ EmptyString →
    (∀ t', utf8_size (x +:+ t') = utf8_size (x +:+ t)) → ∃ x' t', x +:+ t = x' +:+ t' ∧ String.length x' = String.length x ∧ utf8_seq x') as Hgen.
  { intros x t Hsz Hne Hall. exists x, t. split; [done|]. split; [done|]. split; [done|]. intros t'. by rewrite Hall. }
  destruct s as [|a s1]; [done|]. cbn [utf8_size]. destruct (between 0 127 a) eqn:Ha.
  { intros [= <-]. apply (Hgen (String a EmptyString) s1); [cbn; by rewrite Ha|done|]. intros t'. cbn. by rewrite Ha. }
  destruct s1 as [|b s2]; [done|]. destruct (between 194 223 a && is_cont b) eqn:Hb.
  { intros [= <-]. apply (Hgen (String a (String b EmptyString)) s2); [cbn; by rewrite Ha, Hb|done|]. intros t'. cbn. by rewrite Ha, Hb. }
  destruct s2 as [|c s3]; [done|].
  destruct ((_ || _) && is_cont c) eqn:Hc.
  { intros [= <-]. apply (Hgen (String a (String b (String c EmptyString))) s3); [cbn; by rewrite Ha, Hb, Hc|done|].
    intros t'. cbn. by rewrite Ha, Hb, Hc. }
  destruct s3 as [|d s4]; [done|]. destruct ((_ || _) && _ && is_cont d) eqn:Hd; [|done].
  intros [= <-]. apply (Hgen (String a (String b (String c (String d EmptyString)))) s4); [cbn; by rewrite Ha, Hb, Hc, Hd|done|].
  intros t'. cbn. by rewrite Ha, Hb, Hc, Hd.
Qed.

Lemma valid_skip x s : valid_from (String.length x) (x +:+ s) = valid_from 0 s.
Proof. induction x as [|c x IH]; [by destruct s|done]. Qed.
Lemma escape_skip x s : escape_from (String.length x) (x +:+ s) = escape_from 0 s.
Proof. induction x as [|c x IH]; [by destruct s|done]. Qed.

(** A valid string is made of sequences. *)
Lemma valid_utf8_ind (P : string → Prop) :
  P EmptyString → (∀ x s, utf8_seq x → valid_utf8 s = true → P s → P (x +:+ s)) → ∀ s, valid_utf8 s = true → P s.
Proof.
  intros H0 Hx s. remember (String.length s) as n eqn:Hn. revert s Hn. induction (lt_wf n) as [n _ IH]. intros s -> Hs.
  destruct s as [|a s']; [done|]. unfold valid_utf8 in Hs. cbn [valid_from] in Hs.
  destruct (utf8_size (String a s')) as [n|] eqn:Hsz; [|done].
  destruct (utf8_size_seq _ _ Hsz) as (x & t & Heq & Hlen & Hseq). destruct x as [|c x]; [by destruct Hseq|].
  injection Heq as -> ->. subst n. cbn [String.length] in Hs. rewrite Nat.sub_succ, Nat.sub_0_r, valid_skip in Hs.
  apply (Hx (String c x) t); [done|done|]. apply (IH (String.length t)); [|done|done].
  cbn [String.length]. rewrite str_length_app. lia.
Qed.

Lemma ascii_valid s : str_forall is_ascii s = true → valid_utf8 s = true.
Proof.
  unfold valid_utf8. induction s as [|c s IH]; [done|]. cbn [str_forall valid_from]. intros H. bool_hyps.
  assert (between 0 127 c = true) as Hb.
  { unfold is_ascii, between in *. pose proof (byte_val_range c). lia. }
  cbn [utf8_size]. rewrite Hb. by apply IH.
Qed.

(** The first byte of a longer sequence is not ASCII. *)
Lemma utf8_seq_cases c x : utf8_seq (String c x) →
  (x = EmptyString ∧ is_ascii c = true) ∨ (x ≠ EmptyString ∧ is_ascii c = false).
Proof.
  intros [_ Hseq]. specialize (Hseq EmptyString). rewrite str_app_nil_r in Hseq.
  cbn [utf8_size String.length] in Hseq. destruct (between 0 127 c) eqn:Hb.
  - left. injection Hseq as Hseq. destruct x; [|done]. split; [done|]. unfold between, is_ascii in *. lia.
  - right. split; [|unfold between, is_ascii in *; pose proof (byte_val_range c); lia]. by destruct x.
Qed.

Lemma str_take_app_length x t : str_take (String.length x) (x +:+ t) = x.
Proof. induction x as [|c x IH]; [by destruct t|]. cbn. by rewrite IH. Qed.

Lemma escape_seq c x s : utf8_seq (String c x) →
  escape (String c x +:+ s) = (if is_ascii c then escape_byte c else escape_rune (String c x)) +:+ escape s.
Proof.
  intros Hseq. unfold escape. cbn [String.append escape_from]. unfold is_ascii at 1.
  destruct (utf8_seq_cases c x Hseq) as [[-> Hc]|[Hx Hc]]; unfold is_ascii in Hc; rewrite Hc; [done|].
  destruct Hseq as [_ Hseq]. change (String c (x +:+ s)) with (String c x +:+ s). rewrite Hseq, str_take_app_length.
  cbn [String.length]. by rewrite Nat.sub_succ, Nat.sub_0_r, escape_skip.
Qed.

Lemma unquote_rune c x s : utf8_seq (String c x) → is_ascii c = false →
  unquote 0 (escape_rune (String c x) +:+ s) = ('(t, rest) ← unquote 0 s; Some (String c x +:+ t, rest)).
Proof.
  intros Hseq Hc. unfold escape_rune. destruct (String.eqb_spec (String c x) (utf8_encode 8232)) as [->|_]; [by vm_compute utf8_encode|].
  destruct (String.eqb_spec (String c x) (utf8_encode 8233)) as [->|_]; [by vm_compute utf8_encode|].
  cbn [String.append unquote]. assert ((c =? "034")%char = false ∧ (c =? "\")%char = false ∧ (byte_val c <? 32)%Z = false) as (-> & -> & ->).
  { unfold is_ascii in Hc. split_and!; [apply Ascii.eqb_neq; by intros ->|apply Ascii.eqb_neq; by intros ->|lia]. }
  change (String c (x +:+ s)) with (String c x +:+ s). rewrite (proj2 Hseq), str_take_app_length.
  cbn [String.length]. by rewrite Nat.sub_succ, Nat.sub_0_r, unquote_skip_app.
Qed.

(** A string with each byte that is not UTF-8 replaced. *)
Fixpoint to_valid_from (skip : nat) (s : string) : string :=
  match s with
  | EmptyString => EmptyString
  | String c s' =>
      match skip with
      | S skip' => to_valid_from skip' s'
      | O => match utf8_size s with
             | Some n => str_take n s +:+ to_valid_from (n - 1) s'
             | None => rune_error +:+ to_valid_from 0 s'
             end
      end
  end.
Definition to_valid (s : string) : string := to_valid_from 0 s.

Lemma to_valid_skip x s : to_valid_from (String.length x) (x +:+ s) = to_valid_from 0 s.
Proof. induction x as [|c x IH]; [by destruct s|done]. Qed.

Lemma to_valid_seq x s : utf8_seq x → to_valid (x +:+ s) = x +:+ to_valid s.
Proof.
  intros [Hne Hseq]. destruct x as [|c x]; [done|]. unfold to_valid. cbn [String.append to_valid_from].
  change (String c (x +:+ s)) with (String c x +:+ s). rewrite Hseq, str_take_app_length.
  cbn [String.length]. by rewrite Nat.sub_succ, Nat.sub_0_r, to_valid_skip.
Qed.

Lemma to_valid_id s : valid_utf8 s = true → to_valid s = s.
Proof. revert s. apply valid_utf8_ind; [done|]. intros x s Hseq _ IH. by rewrite to_valid_seq, IH. Qed.

(** Every string is made of sequences and bytes that start none. *)
Lemma utf8_ind (P : string → Prop) :
  P EmptyString → (∀ x s, utf8_seq x → P s → P (x +:+ s)) →
  (∀ c s, utf8_size (String c s) = None → P s → P (String c s)) → ∀ s, P s.
Proof.
  intros H0 Hx Hc s. remember (String.length s) as n eqn:Hn. revert s Hn. induction (lt_wf n) as [n _ IH]. intros s ->.
  destruct s as [|a s']; [done|]. destruct (utf8_size (String a s')) as [n|] eqn:Hsz.
  - destruct (utf8_size_seq _ _ Hsz) as (x & t & Heq & _ & Hseq). rewrite Heq in *. apply Hx; [done|].
    apply (IH (String.length t)); [|done]. rewrite str_length_app. destruct x; [by destruct Hseq|]. cbn. lia.
  - apply Hc; [done|]. apply (IH (String.length s')); [cbn; lia|done].
Qed.

(** What decoding an encoded string gives: the string, with the replacement
    character for each byte that is not UTF-8. *)
Lemma unquote_escape_any s rest : unquote 0 (escape s +:+ String "034" rest) = Some (to_valid s, rest).
Proof.
  revert s. apply utf8_ind; [done|..].
  - intros x s Hseq IH. rewrite to_valid_seq by done.
    destruct x as [|c x]; [by destruct Hseq|]. rewrite escape_seq, str_app_assoc by done.
    destruct (utf8_seq_cases c x Hseq) as [[-> Hc]|[_ Hc]]; rewrite Hc.
    + by rewrite unquote_escape_byte, IH.
    + by rewrite unquote_rune, IH.
  - intros c s Hsz IH. assert (is_ascii c = false) as Hc.
    { cbn [utf8_size] in Hsz. destruct (between 0 127 c) eqn:Hb; [done|]. unfold between, is_ascii in *.
      pose proof (byte_val_range c). lia. }
    unfold escape, to_valid. cbn [escape_from to_valid_from]. unfold is_ascii in Hc. rewrite Hc, Hsz.
    fold (escape s) (to_valid s). rewrite str_app_assoc.
    set (tail := escape s +:+ _) in *.
    change (unquote 0 ("\ufffd" +:+ tail)) with ('(t, r) ← unquote 0 tail; Some (rune_error +:+ t, r)). by rewrite IH.
Qed.

Lemma unquote_escape s rest :
  valid_utf8 s = true → unquote 0 (escape s +:+ String "034" rest) = Some (s, rest).
Proof. intros Hs. by rewrite unquote_escape_any, to_valid_id. Qed.

Lemma delimiter_not (p : ascii → bool) r :
  p ","%char = false → p "]"%char = false → p "}"%char = false → delimiter r →
  r = EmptyString ∨ ∃ c r', r = String c r' ∧ p c = false.
Proof. intros H1 H2 H3 [->|(c & r' & -> & [->|[->| ->]])]; eauto 6. Qed.

Lemma span_delimiter s a b r :
  span is_digit s = (a, b) → delimiter r → span is_digit (s +:+ r) = (a, b +:+ r).
Proof.
  intros Hs Hr. apply (delimiter_not is_digit) in Hr; [|done..].
  revert a b Hs. induction s as [|c s IH]; intros a b; simpl.
  - intros [= <- <-]. destruct Hr as [->|(c & r' & -> & Hc)]; simpl; [done|by rewrite Hc].
  - destruct (is_digit c); [|by intros [= <- <-]].
    destruct (span is_digit s) as [a' b']. intros [= <- <-]. by rewrite (IH a' b').
Qed.

Lemma scan_int_delimiter s i b r :
  scan_int s = Some (i, b) → delimiter r → scan_int (s +:+ r) = Some (i, b +:+ r).
Proof.
  intros Hs Hr. unfold scan_int in *.
  destruct s as [|c s]; [done|]. cbn [String.append].
  destruct (c =? "-")%char.
  - destruct s as [|d s]; [done|]. cbn [String.append]. destruct (d =? "0")%char; [by injection Hs as <- <-|].
    destruct (is_digit d); [|done].
    destruct (span is_digit (String d s)) as [ds b'] eqn:E. injection Hs as <- <-.
    pose proof (span_delimiter _ _ _ r E Hr) as E2. cbn [String.append] in E2. by rewrite E2.
  - destruct (c =? "0")%char; [by injection Hs as <- <-|]. destruct (is_digit c); [|done].
    destruct (span is_digit (String c s)) as [ds b'] eqn:E. injection Hs as <- <-.
    pose proof (span_delimiter _ _ _ r E Hr) as E2. cbn [String.append] in E2. by rewrite E2.
Qed.

Lemma scan_frac_delimiter s i b r :
  scan_frac s = Some (i, b) → delimiter r → scan_frac (s +:+ r) = Some (i, b +:+ r).
Proof.
  intros Hs Hr. destruct s as [|c s]; simpl in *.
  - injection Hs as <- <-. apply (delimiter_not (λ c, (c =? ".")%char)) in Hr as [->|(c & r' & -> & Hc)]; [done| |done..].
    simpl. by rewrite Hc.
  - destruct (c =? ".")%char; [|by injection Hs as <- <-].
    destruct (span is_digit s) as [ds b'] eqn:E. rewrite (span_delimiter _ _ _ r E Hr).
    destruct ds; [done|]. by injection Hs as <- <-.
Qed.

Lemma scan_exp_delimiter s i b r :
  scan_exp s = Some (i, b) → delimiter r → scan_exp (s +:+ r) = Some (i, b +:+ r).
Proof.
  intros Hs Hr. destruct s as [|c s]; simpl in *.
  - injection Hs as <- <-.
    apply (delimiter_not (λ c, (c =? "e")%char || (c =? "E")%char)) in Hr as [->|(c & r' & -> & Hc)]; [done| |done..].
    simpl. by rewrite Hc.
  - destruct (_ || _); [|by injection Hs as <- <-].
    destruct s as [|d s].
    { done. }
    cbn [String.append]. destruct (_ || _).
    + destruct (span is_digit s) as [ds b'] eqn:E. rewrite (span_delimiter _ _ _ r E Hr).
      destruct ds; [done|]. by injection Hs as <- <-.
    + destruct (span is_digit (String d s)) as [ds b'] eqn:E.
      pose proof (span_delimiter _ _ _ r E Hr) as E2. cbn [String.append] in E2. rewrite E2.
      destruct ds; [done|]. by injection Hs as <- <-.
Qed.

Lemma scan_number_delimiter lit r :
  scan_number lit = Some (lit, EmptyString) → delimiter r → scan_number (lit +:+ r) = Some (lit, r).
Proof.
  intros Hs Hr. unfold scan_number, mbind, option_bind in *.
  destruct (scan_int lit) as [[i s1]|] eqn:E1; [|done].
  destruct (scan_frac s1) as [[f s2]|] eqn:E2; [|done].
  destruct (scan_exp s2) as [[e s3]|] eqn:E3; [|done].
  rewrite (scan_int_delimiter _ _ _ _ E1 Hr), (scan_frac_delimiter _ _ _ _ E2 Hr),
    (scan_exp_delimiter _ _ _ _ E3 Hr).
  destruct (overflows_float64 i f e); [done|]. by injection Hs as -> ->.
Qed.

(** The first byte of a number is a digit or a minus sign. *)
Definition is_number_start (c : ascii) : bool := is_digit c || (c =? "-")%char.

Lemma scan_number_start lit r p : scan_number lit = Some p →
  ∃ c lit', lit +:+ r = String c lit' ∧ is_number_start c = true.
Proof.
  destruct lit as [|c lit]; [done|]. intros H. exists c, (lit +:+ r). split; [done|].
  unfold is_number_start. unfold scan_number, scan_int in H.
  destruct (c =? "-")%char eqn:E; [by rewrite orb_true_r|]. rewrite orb_false_r.
  destruct (Ascii.eqb_spec c "0") as [->|]; [done|]. by destruct (is_digit c).
Qed.

Lemma Join_cons s l sep :
  Join (s :: l) sep = s +:+ match l with [] => EmptyString | _ => sep +:+ Join l sep end.
Proof. destruct l; simpl; [by rewrite str_app_nil_r|done]. Qed.

(** The decoder on printed text. *)
Definition prints (j : json) : Prop := ∀ fuel depth r,
  json_ok j → delimiter r → (depth + height j ≤ maxNestingDepth)%Z →
  2 * String.length (print j) + 1 ≤ fuel →
  parse_value fuel depth (print j +:+ r) = Some (j, r).

Lemma prints_number lit : prints (JNum lit).
Proof.
  intros fuel depth r Hok Hr _ Hf. destruct fuel as [|fuel]; [lia|]. simpl in Hok.
  destruct (scan_number_start lit r _ Hok) as (c & s' & Heq & Hc).
  pose proof (scan_number_delimiter _ _ Hok Hr) as Hs. cbn [print parse_value].
  rewrite Heq in Hs |- *. clear -Hs Hc.
  assert (is_ws c = false ∧ (c =? "034")%char = false ∧ (c =? "[")%char = false ∧ (c =? "{")%char = false ∧
    (c =? "t")%char = false ∧ (c =? "f")%char = false ∧ (c =? "n")%char = false) as (H1&H2&H3&H4&H5&H6&H7).
  { clear Hs. revert Hc. by byte_cases c. }
  cbn [skip_ws]. rewrite H1. cbv iota. rewrite H2, H3, H4. cbn [strip_prefix].
  assert (∀ d, (c =? d)%char = (d =? c)%char) as Hsym by (intros d; apply Ascii.eqb_sym).
  rewrite <- !Hsym, H5, H6, H7. by rewrite Hs.
Qed.

(** The text of the elements up to the closing bracket. *)
Definition elems_text (l : list json) : string := Join (print <$> l) "," +:+ "]".

Lemma str_app_close a c r : a +:+ String c r = (a +:+ String c EmptyString) +:+ r.
Proof. by rewrite str_app_assoc. Qed.

Lemma expect_here c s : is_ws c = false → expect c (String c s) = Some s.
Proof. intros Hc. unfold expect. simpl. rewrite Hc. by rewrite Ascii.eqb_refl. Qed.

Lemma print_start j r : json_ok j →
  ∃ c s, print j +:+ r = String c s ∧ is_ws c = false ∧ (c =? "]")%char = false ∧ (c =? "}")%char = false.
Proof.
  destruct j as [|[]|lit|s|l|kvs]; simpl; intros Hok; try by eexists _, _.
  destruct (scan_number_start lit r _ Hok) as (c & s' & -> & Hc). eexists _, _. split; [done|].
  revert Hc. by byte_cases c.
Qed.

Lemma expect_not_print c j r : (c = "]" ∨ c = "}")%char → json_ok j → expect c (print j +:+ r) = None.
Proof.
  intros Hc Hok. destruct (print_start j r Hok) as (d & s & -> & Hw & H1 & H2).
  unfold expect. simpl. rewrite Hw. by destruct Hc as [-> | ->]; rewrite ?H1, ?H2.
Qed.

Lemma parse_elems_print fuel depth j l r :
  Forall prints (j :: l) → Forall json_ok (j :: l) →
  (∀ x, x ∈ j :: l → depth + height x ≤ maxNestingDepth)%Z →
  2 * String.length (elems_text (j :: l)) ≤ fuel →
  parse_elems fuel depth (elems_text (j :: l) +:+ r) = Some (j :: l, r).
Proof.
  revert fuel j. induction l as [|j2 l IH]; intros fuel j Hp Hok Hd Hf;
    apply Forall_cons in Hp as [Hp Hps]; apply Forall_cons in Hok as [Hok Hoks];
    unfold elems_text in *; rewrite fmap_cons, Join_cons in *; (destruct fuel as [|fuel]; [rewrite !str_length_app in Hf; simpl in Hf; lia|]);
    cbn [parse_elems]; rewrite !str_length_app in Hf; cbn [String.length String.append] in Hf.
  - cbn [fmap list_fmap] in Hf |- *. rewrite !str_app_assoc. cbn [String.append].
    rewrite Hp; [|done|right; eauto 6|apply Hd; left|simpl in Hf; lia].
    cbn [mbind option_bind]. by rewrite expect_here.
  - rewrite fmap_cons in *. rewrite !str_app_assoc. cbn [String.append].
    rewrite Hp; [|done|right; eauto 6|apply Hd; left|lia]. cbn [mbind option_bind]. rewrite expect_here by done.
    rewrite str_app_close, <- fmap_cons.
    rewrite IH; [done|done|done|intros x Hx; apply Hd; by right|].
    rewrite str_length_app, fmap_cons. cbn [String.length] in Hf |- *. lia.
Qed.

Definition member_text (kv : string * json) : string := quote kv.1 +:+ ":" +:+ print kv.2.
Definition members_text (l : list (string * json)) : string := Join (member_text <$> l) "," +:+ "}".

Lemma parse_members_print fuel depth acc kv l r :
  Forall (λ kv, prints kv.2) (kv :: l) →
  Forall (λ kv, valid_utf8 kv.1 = true ∧ json_ok kv.2) (kv :: l) →
  NoDup (acc ++ kv :: l).*1 →
  (∀ x, x ∈ kv :: l → depth + height x.2 ≤ maxNestingDepth)%Z →
  2 * String.length (members_text (kv :: l)) ≤ fuel →
  parse_members fuel depth acc (members_text (kv :: l) +:+ r) = Some (acc ++ kv :: l, r).
Proof.
  revert fuel acc kv. induction l as [|kv2 l IH]; intros fuel acc [k v] Hp Hok Hnd Hd Hf;
    apply Forall_cons in Hp as [Hp Hps]; apply Forall_cons in Hok as [[Hk Hok] Hoks]; simpl in Hk, Hok, Hp;
    (assert (k ∉ acc.*1) as Hfresh by
      (intros Hin; rewrite fmap_app in Hnd; apply NoDup_app in Hnd as (_ & Hnd & _); apply (Hnd k Hin); left));
    unfold members_text in *; rewrite fmap_cons, Join_cons in *;
    (destruct fuel as [|fuel]; [rewrite !str_length_app in Hf; simpl in Hf; lia|]); unfold member_text at 1; unfold member_text at 1 in Hf;
    unfold quote in *; cbn [parse_members fst snd] in *;
    rewrite !str_length_app in Hf; cbn [String.length String.append] in Hf; rewrite !str_length_app in Hf;
    cbn [String.append]; rewrite expect_here by done; cbn [mbind option_bind];
    rewrite !str_app_assoc; cbn [String.append]; rewrite unquote_escape by done; cbn [mbind option_bind];
    rewrite expect_here by done; cbn [mbind option_bind]; rewrite ?str_app_assoc.
  - cbn [fmap list_fmap String.append] in Hf |- *.
    rewrite Hp; [|done|right; eauto 6|apply (Hd (k, v)); left|simpl in Hf; lia].
    cbn [mbind option_bind]. simpl. by rewrite assoc_set_fresh.
  - rewrite fmap_cons in *. cbn [String.append].
    rewrite Hp; [|done|right; eauto 6|apply (Hd (k, v)); left|simpl in Hf; lia].
    cbn [mbind option_bind]. rewrite expect_here by done. rewrite assoc_set_fresh by done.
    rewrite str_app_close, <- fmap_cons.
    rewrite IH; [by rewrite <- app_assoc|done|done|by rewrite <- app_assoc|intros x Hx; apply Hd; by right|].
    rewrite str_length_app, fmap_cons. cbn [String.length] in Hf |- *. lia.
Qed.

Lemma foldr_and {A} (P : A → Prop) l : foldr and True (P <$> l) ↔ Forall P l.
Proof. induction l as [|x l IH]; simpl; [done|]. by rewrite Forall_cons, IH. Qed.

Lemma foldr_max {A} (f : A → Z) l x : x ∈ l → (f x ≤ foldr Z.max 0 (f <$> l))%Z.
Proof. induction l as [|y l IH]; [by rewrite elem_of_nil|]. rewrite fmap_cons. cbn [foldr].
  intros [->|H%IH]%elem_of_cons; lia.
Qed.

Lemma print_parses j : prints j.
Proof.
  induction j as [| [] | lit | s | l IH | kvs IH] using json_ind'.
  1-3, 5: intros [|fuel] depth r Hok Hr Hd Hf; [lia|].
  1-3: done.
  - simpl. rewrite str_app_assoc. simpl in Hok. cbn [String.append].
    by rewrite unquote_escape.
  - apply prints_number.
  - intros [|fuel] depth r Hok Hr Hd Hf; [lia|]. simpl in Hok. rewrite foldr_and in Hok.
    destruct l as [|j l]; [cbn in Hd |- *|].
    { destruct (Z.leb_spec maxNestingDepth depth); [lia|]. done. }
    assert (0 ≤ foldr Z.max 0 (height <$> j :: l))%Z as Hp by (clear; induction (height <$> j :: l); simpl; lia).
    assert (∀ x, x ∈ j :: l → (depth + 1 + height x ≤ maxNestingDepth)%Z) as Hx.
    { intros x Hx. pose proof (foldr_max height _ x Hx). cbn [height] in Hd. lia. }
    cbn [print height] in *. fold (elems_text (j :: l)) in *. cbn [String.append]. cbn [parse_value skip_ws].
    change (is_ws "[") with false. cbv iota. change ("[" =? "034")%char with false. change ("[" =? "[")%char with true.
    cbv iota. destruct (Z.leb_spec maxNestingDepth depth); [lia|].
    assert (expect "]" (elems_text (j :: l) +:+ r) = None) as ->.
    { unfold elems_text. rewrite fmap_cons, Join_cons, !str_app_assoc. apply expect_not_print; [by left|].
      by apply Forall_cons in Hok as [? _]. }
    rewrite parse_elems_print; [done..|]. simpl in Hf. lia.
  - intros [|fuel] depth r Hok Hr Hd Hf; [lia|]. simpl in Hok. destruct Hok as [Hnd Hok].
    rewrite foldr_and in Hok. destruct kvs as [|kv l]; [cbn in Hd |- *|].
    { destruct (Z.leb_spec maxNestingDepth depth); [lia|]. done. }
    cbn [height] in Hd.
    assert (∀ x, x ∈ kv :: l → (depth + 1 + height x.2 ≤ maxNestingDepth)%Z) as Hx.
    { intros x Hx. pose proof (foldr_max (λ kv : string * json, height kv.2) _ x Hx) as Hm.
      cbv beta in Hm. lia. }
    assert (0 ≤ foldr Z.max 0 ((λ kv : string * json, height kv.2) <$> kv :: l))%Z as Hp
      by (clear; induction ((λ kv : string * json, height kv.2) <$> kv :: l); simpl; lia).
    cbn [print] in *. fold member_text in *.
    fold (members_text (kv :: l)) in *. cbn [String.append]. cbn [parse_value skip_ws].
    change (is_ws "{") with false. cbv iota. change ("{" =? "034")%char with false.
    change ("{" =? "[")%char with false. change ("{" =? "{")%char with true. cbv iota.
    destruct (Z.leb_spec maxNestingDepth depth); [lia|].
    assert (expect "}" (members_text (kv :: l) +:+ r) = None) as ->.
    { unfold members_text. rewrite fmap_cons, Join_cons, !str_app_assoc. done. }
    rewrite parse_members_print; [done..|]. simpl in Hf. lia.
Qed.

(** round trip of the JSON decoder: printing a tree (with UTF-8 strings,
    proper number literals, distinct keys and a nesting within the decoder's
    limit) and decoding the text gives the tree back. *)
Theorem Unmarshal_print j :
  json_ok j → (height j ≤ maxNestingDepth)%Z → Unmarshal (print j) = Ok j.
Proof.
  intros Hok Hd. unfold Unmarshal, parse_fuel. rewrite <- (str_app_nil_r (print j)) at 2.
  rewrite print_parses; [done|done|by left|lia|lia].
Qed.

Lemma Unmarshal_print_witness :
  let j := JObj [("kind", JStr "VM"); ("spec", JObj [("cores", JNum "4"); ("disks", JArr [JNull; JBool true])])] in
  json_ok j ∧ Unmarshal (print j) = Ok j.
Proof.
  assert (json_ok (JObj [("kind", JStr "VM");
    ("spec", JObj [("cores", JNum "4"); ("disks", JArr [JNull; JBool true])])])) as Hok.
  { vm_compute. repeat split; repeat constructor; rewrite ?elem_of_cons, ?elem_of_nil; naive_solver. }
  split; [exact Hok|]. apply (Unmarshal_print _ Hok). vm_compute. discriminate.
Defined.
