(* ===== verification/Visit.v ===== *)
(** * visit.go: visiting the strings of a Go value by reflection

    [visitValue] walks a value with package reflect and replaces every string
    it can reach by what a transformer makes of it.  Values carry their Go
    type, and a [reflect.Value] its flags, because what the code may set, and
    where it panics, depends on both.  On decoded JSON, the values the
    template engine works on, the walk is the structural transformation
    [transform] of the tree. *)

From Stdlib Require Import Ascii ZArith Lia.
From stdpp Require Import prelude strings pretty.
From S2P Require Import Prelude GoStrings Json.

(** ** Go types and values *)

Inductive gtype : Type :=
| TString
| TBool
| TFloat64
| TOther (name : string)
| TAny
| TPtr (t : gtype)
| TSlice (t : gtype)
| TArray (n : nat) (t : gtype)
| TMap (k v : gtype)
| TStruct (name : string)
| TNamed (name : string) (under : gtype).

#[export] Instance gtype_eq_dec : EqDecision gtype.
Proof. solve_decision. Defined.

Fixpoint underlying (t : gtype) : gtype :=
  match t with TNamed _ u => underlying u | _ => t end.

(** Defined types; the predeclared ones are among them. *)
Definition is_defined (t : gtype) : bool :=
  match t with TString | TBool | TFloat64 | TOther _ | TStruct _ | TNamed _ _ => true | _ => false end.

Definition is_interface (t : gtype) : bool := bool_decide (underlying t = TAny).

(** [Type.AssignableTo]; the only interface is the empty one. *)
Definition AssignableTo (v t : gtype) : bool :=
  bool_decide (v = t) || is_interface t ||
  (bool_decide (underlying v = underlying t) && (negb (is_defined v) || negb (is_defined t))).

(** [Type.String]. *)
Fixpoint type_string (t : gtype) : string :=
  match t with
  | TString => "string"
  | TBool => "bool"
  | TFloat64 => "float64"
  | TAny => "interface {}"
  | TPtr u => "*" +:+ type_string u
  | TSlice u => "[]" +:+ type_string u
  | TArray n u => "[" +:+ pretty n +:+ "]" +:+ type_string u
  | TMap k v => "map[" +:+ type_string k +:+ "]" +:+ type_string v
  | TOther name | TStruct name | TNamed name _ => name
  end.

(** Values.  [VNil t] is the nil pointer, interface, slice, map, channel or
    function of type [t]; [VScalar] is a value of a kind that holds no
    strings.  The fields of a struct say whether they are exported. *)
Inductive gval : Type :=
| VString (t : gtype) (s : string)
| VScalar (t : gtype) (repr : string)
| VNil (t : gtype)
| VPtr (t : gtype) (v : gval)
| VIface (t : gtype) (v : gval)
| VSeq (t : gtype) (vs : list gval)
| VMap (t : gtype) (kvs : list (gval * gval))
| VStruct (t : gtype) (fs : list (bool * gval)).

#[export] Instance gval_eq_dec : EqDecision gval.
Proof.
  refine (fix go x y := let _ : EqDecision gval := @go in
    match x, y with
    | VString t a, VString t' b => cast_if_and (decide (t = t')) (decide (a = b))
    | VScalar t a, VScalar t' b => cast_if_and (decide (t = t')) (decide (a = b))
    | VNil t, VNil t' => cast_if (decide (t = t'))
    | VPtr t a, VPtr t' b => cast_if_and (decide (t = t')) (decide (a = b))
    | VIface t a, VIface t' b => cast_if_and (decide (t = t')) (decide (a = b))
    | VSeq t a, VSeq t' b => cast_if_and (decide (t = t')) (decide (a = b))
    | VMap t a, VMap t' b => cast_if_and (decide (t = t')) (decide (a = b))
    | VStruct t a, VStruct t' b => cast_if_and (decide (t = t')) (decide (a = b))
    | _, _ => right _
    end); abstract congruence.
Defined.

Definition type_of (v : gval) : gtype :=
  match v with
  | VString t _ | VScalar t _ | VNil t | VPtr t _ | VIface t _ | VSeq t _ | VMap t _ | VStruct t _ => t
  end.

Definition elem_type (t : gtype) : gtype :=
  match underlying t with
  | TPtr u | TSlice u | TArray _ u | TMap _ u => u
  | u => u
  end.

Definition key_type (t : gtype) : gtype :=
  match underlying t with TMap k _ => k | u => u end.

Definition is_array (t : gtype) : bool :=
  match underlying t with TArray _ _ => true | _ => false end.

(** Pointers and interfaces, nil ones included. *)
Definition is_ref_kind (v : gval) : bool :=
  match underlying (type_of v) with TPtr _ | TAny => true | _ => false end.

(** The flags of a [reflect.Value]. *)
Record flags : Type := Flags {
  addressable : bool;
  readonly : bool; (* obtained through an unexported field *)
}.
Definition CanSet (fl : flags) : bool := addressable fl && negb (readonly fl).
Definition CanInterface (fl : flags) : bool := negb (readonly fl).

(** [reflect.ValueOf(existing.Interface())]: the dynamic value of an
    interface; [None] is the invalid value of a nil interface. *)
Definition resolve (v : gval) : option gval :=
  match v with
  | VIface _ x => Some x
  | VNil t => if is_interface t then None else Some v
  | _ => Some v
  end.

(** A value as it is stored in a variable of type [t] it is assignable to. *)
Definition retype (t : gtype) (v : gval) : gval :=
  match v with
  | VString _ s => VString t s
  | VScalar _ r => VScalar t r
  | VNil _ => VNil t
  | VPtr _ x => VPtr t x
  | VIface _ x => VIface t x
  | VSeq _ vs => VSeq t vs
  | VMap _ kvs => VMap t kvs
  | VStruct _ fs => VStruct t fs
  end.

Definition store (t : gtype) (v : gval) : gval :=
  if is_interface t
  then match v with VIface _ x => VIface t x
       | VNil u => if is_interface u then VNil t else VIface t v
       | _ => VIface t v end
  else retype t v.

(** [dst.Set(v)] for a settable destination of type [t]; it panics when the
    value is not assignable. *)
Definition Set_value {S} (t : gtype) (v : gval) : st S error gval :=
  if AssignableTo (type_of v) t then mret (store t v)
  else st_panic "reflect.Set: value is not assignable to the type of the destination".

(** Decoded JSON as a Go value: [any] and the concrete value in it. *)
Fixpoint go_value (j : json) : gval :=
  let to_any j := match j with JNull => VNil TAny | _ => VIface TAny (go_value j) end in
  match j with
  | JNull => VNil TAny
  | JBool b => VScalar TBool (if b then "true" else "false")
  | JNum lit => VScalar TFloat64 lit
  | JStr s => VString TString s
  | JArr l => VSeq (TSlice TAny) (to_any <$> l)
  | JObj kvs => VMap (TMap TString TAny) ((λ kv, (VString TString kv.1, to_any kv.2)) <$> kvs)
  end.
Definition any_value (j : json) : gval :=
  match j with JNull => VNil TAny | _ => VIface TAny (go_value j) end.

(** ** Loops *)

Section loops.
Context {S E A B : Type} (f : A → st S E B).

Fixpoint st_mapM (l : list A) : st S E (list B) :=
  match l with
  | [] => mret []
  | x :: l' => y ← f x; ys ← st_mapM l'; mret (y :: ys)
  end.
End loops.

(** ** Maps keyed by values *)

Fixpoint vmap_set (k v : gval) (kvs : list (gval * gval)) : list (gval * gval) :=
  match kvs with
  | [] => [(k, v)]
  | (k', v') :: kvs' => if decide (k = k') then (k, v) :: kvs' else (k', v') :: vmap_set k v kvs'
  end.

Definition vmap_delete (k : gval) (kvs : list (gval * gval)) : list (gval * gval) :=
  filter (λ kv, kv.1 ≠ k) kvs.

(** Values that cannot be keys of a Go map. *)
Definition hashable (v : gval) : bool :=
  match v with VMap _ _ => false | VSeq t _ => is_array t | VNil t => is_interface t || is_ref_kind v | _ => true end.

(** ** visit.go *)

Definition not_settable (s : string) : error := EMsg ("unable to set String value '" +:+ s +:+ "'").
Definition non_string_value (s : string) : error :=
  EMsg ("attempted to set String field to non-string value '" +:+ s +:+ "'").
Definition nil_value (t : gtype) : error :=
  EMsg ("cannot assign nil value to target type " +:+ type_string t).
Definition not_assignable (v t : gtype) : error :=
  EMsg ("substituted value type " +:+ type_string v +:+ " is not assignable to target type " +:+ type_string t).

Definition readonly_panic : string := "using value obtained using unexported field".

Section visit.
Context {S : Type} (tf : string → st S error (string * bool)).

(** [visitUnsettableValues] for an element, key or map value.  The copy that
    is visited is the concrete value stored in a fresh variable of type
    [typeOf]; when that is an interface, visiting it is visiting its element. *)
Definition visitUnsettableValues (visitValue : flags → gval → st S error gval)
    (typeOf : gtype) (fl : flags) (existing : gval) : st S error gval :=
  let visit_copy (v : gval) : st S error gval :=
    if readonly fl then st_panic readonly_panic
    else if is_interface typeOf
    then x ← visitValue (Flags false false) v; mret (VIface typeOf x)
    else visitValue (Flags true false) v in
  let visit_concrete (v : gval) : st S error gval :=
    match v with
    | VString _ s =>
        '(s', asString) ← tf s;
        if (asString : bool) then mret (VString TString s')
        else
          match Unmarshal s' with
          | Ok data =>
              if bool_decide (data = JNull) then st_fail (nil_value typeOf)
              else if AssignableTo (type_of (go_value data)) typeOf then mret (go_value data)
              else st_fail (not_assignable (type_of (go_value data)) typeOf)
          | _ => mret (VString TString s')
          end
    | _ => visit_copy v
    end in
  if CanInterface fl then
    match existing with
    | VIface _ x => visit_concrete x
    | VNil t => if is_interface t then mret (VNil typeOf) else visit_copy existing
    | _ => visit_concrete existing
    end
  else visit_concrete existing.

(** The body of the loop of [visitSliceArray]. *)
Definition visit_element (visitValue : flags → gval → st S error gval)
    (elementType : gtype) (elem_fl : flags) (v : gval) : st S error gval :=
  newVal ← visitUnsettableValues visitValue elementType elem_fl v;
  if CanSet elem_fl then Set_value elementType newVal
  else st_panic "reflect.Set: destination cannot be set".

Definition visitSliceArray (visitValue : flags → gval → st S error gval)
    (fl : flags) (t : gtype) (vs : list gval) : st S error gval :=
  let elem_fl := Flags (if is_array t then addressable fl else true) (readonly fl) in
  vs' ← st_mapM (visit_element visitValue (elem_type t) elem_fl) vs;
  mret (VSeq t vs').

Definition visitStruct (visitValue : flags → gval → st S error gval)
    (fl : flags) (t : gtype) (fs : list (bool * gval)) : st S error gval :=
  fs' ← st_mapM (λ f : bool * gval,
    let '(exported, v) := f in
    let field_fl := Flags (addressable fl) (readonly fl || negb exported) in
    if negb (is_ref_kind v) && negb (CanSet field_fl) then mret (exported, v)
    else v' ← visitValue field_fl v; mret (exported, v')) fs;
  mret (VStruct t fs').

(** One key of the first loop of [visitMap]: the old key, the new key and the
    new value. *)
Definition visit_entry (visitValue : flags → gval → st S error gval)
    (fl : flags) (t : gtype) (kv : gval * gval) : st S error (gval * gval * gval) :=
  let '(oldKey, oldValue) := kv in
  let elem_fl := Flags false (readonly fl) in
  newKey ← visitUnsettableValues visitValue (key_type t) elem_fl oldKey;
  newValue ← visitUnsettableValues visitValue (elem_type t) elem_fl oldValue;
  if negb (hashable (default (VNil TAny) (resolve newKey))) then st_panic "hash of unhashable type"
  else if readonly fl then st_panic readonly_panic
  else mret (oldKey, newKey, newValue).

(** [updates] as the loop leaves it, with the keys as dynamic values. *)
Definition map_updates (entries : list (gval * gval * gval)) : list (gval * gval) :=
  fold_left (λ acc '(_, newKey, newValue),
    vmap_set (default (VNil TAny) (resolve newKey)) newValue acc) entries [].

Definition map_deletes (entries : list (gval * gval * gval)) : list gval :=
  omap (λ '(oldKey, newKey, _), if decide (resolve oldKey = resolve newKey) then None else Some oldKey) entries.

(** The second loop over [updates]. *)
Fixpoint set_updates (t : gtype) (updates kvs : list (gval * gval)) : st S error (list (gval * gval)) :=
  match updates with
  | [] => mret kvs
  | (k, v) :: updates' =>
      if decide (k = VNil TAny) then st_panic "reflect.SetMapIndex: invalid key"
      else
        k' ← Set_value (key_type t) k;
        v' ← Set_value (elem_type t) v;
        set_updates t updates' (vmap_set k' v' kvs)
  end.

Definition visitMap (visitValue : flags → gval → st S error gval)
    (fl : flags) (t : gtype) (kvs : list (gval * gval)) : st S error gval :=
  entries ← st_mapM (visit_entry visitValue fl t) kvs;
  let kvs1 := fold_left (λ m k, vmap_delete k m) (map_deletes entries) kvs in
  kvs2 ← set_updates t (map_updates entries) kvs1;
  mret (VMap t kvs2).

(** [visitValue] with [visitNonNilValue]: the visited value as it is
    afterwards. *)
Fixpoint visitValue (fl : flags) (v : gval) {struct v} : st S error gval :=
  match v with
  | VNil _ => mret v
  | VPtr t x => x' ← visitValue (Flags true (readonly fl)) x; mret (VPtr t x')
  | VIface t x => x' ← visitValue (Flags false (readonly fl)) x; mret (VIface t x')
  | VSeq t vs => visitSliceArray visitValue fl t vs
  | VStruct t fs => visitStruct visitValue fl t fs
  | VMap t kvs => visitMap visitValue fl t kvs
  | VString t s =>
      if negb (CanSet fl) then st_fail (not_settable s)
      else
        '(s', asString) ← tf s;
        if (asString : bool) then mret (VString t s') else st_fail (non_string_value s')
  | VScalar _ _ => mret v
  end.
End visit.

(** ** Specification: transforming a JSON tree *)

Section transform.
Context {S : Type} (tf : string → st S error (string * bool)).

(** A string value: a non-string replacement is decoded, and kept as text
    when it is not JSON. *)
Definition transform_string (s : string) : st S error json :=
  '(s', asString) ← tf s;
  if (asString : bool) then mret (JStr s')
  else match Unmarshal s' with
  | Ok JNull => st_fail (nil_value TAny)
  | Ok data => mret data
  | _ => mret (JStr s')
  end.

(** A key stays a string. *)
Definition transform_key (k : string) : st S error string :=
  '(k', asString) ← tf k;
  if (asString : bool) then mret k'
  else match Unmarshal k' with
  | Ok JNull => st_fail (nil_value TString)
  | Ok (JStr d) => mret d
  | Ok data => st_fail (not_assignable (type_of (go_value data)) TString)
  | _ => mret k'
  end.

(** An object from the old key, new key and new value of each entry: renamed
    keys are deleted first, then all entries are set. *)
Definition updates (entries : list (string * string * json)) : list (string * json) :=
  fold_left (λ m '(_, k', v'), assoc_set k' v' m) entries [].
Definition deletes (entries : list (string * string * json)) : list string :=
  omap (λ '(k, k', _), if decide (k = k') then None else Some k) entries.
Definition rebuild (kvs : list (string * json)) (entries : list (string * string * json))
    : list (string * json) :=
  fold_left (λ m '(k', v'), assoc_set k' v' m) (updates entries)
    (fold_left (λ m k, assoc_delete k m) (deletes entries) kvs).

Definition transform_entry (rec : json → st S error json) (kv : string * json)
    : st S error (string * string * json) :=
  k' ← transform_key kv.1; v' ← rec kv.2; mret (kv.1, k', v').

Fixpoint transform (j : json) : st S error json :=
  match j with
  | JStr s => transform_string s
  | JArr l => l' ← st_mapM transform l; mret (JArr l')
  | JObj kvs => entries ← st_mapM (transform_entry transform) kvs; mret (JObj (rebuild kvs entries))
  | _ => mret j
  end.
End transform.

(** ** The visitor on JSON values is [transform] *)

Lemma go_value_arr l : go_value (JArr l) = VSeq (TSlice TAny) (any_value <$> l).
Proof. done. Qed.
Lemma go_value_obj kvs :
  go_value (JObj kvs) = VMap (TMap TString TAny) ((λ kv, (VString TString kv.1, any_value kv.2)) <$> kvs).
Proof. done. Qed.

Lemma store_any_value j : store TAny (any_value j) = any_value j.
Proof. by destruct j. Qed.
Lemma store_go_value j : store TAny (go_value j) = any_value j.
Proof. by destruct j. Qed.

Section st_laws.
Context {S E : Type}.

Lemma st_bind_eq {A B} (m : st S E A) (f : A → st S E B) s :
  (m ≫= f) s = match m s with Ok (a, s') => f a s' | Err e => Err e | Panic w => Panic w end.
Proof. done. Qed.

Lemma st_mapM_cons {A B} (f : A → st S E B) x l s :
  st_mapM f (x :: l) s = (y ← f x; ys ← st_mapM f l; mret (y :: ys)) s.
Proof. done. Qed.

(** Outcomes that agree up to a relation on their results. *)
Definition agree {A A'} (R : A' → A → Prop) (m' : res E (A' * S)) (m : res E (A * S)) : Prop :=
  match m with
  | Ok (x, s) => ∃ x', m' = Ok (x', s) ∧ R x' x
  | Err e => m' = Err e
  | Panic w => m' = Panic w
  end.

Lemma st_mapM_agree {A A' B B'} (f : A' → st S E B') (g : A → st S E B) (h : A → A') (R : B' → B → Prop) l :
  Forall (λ x, ∀ s, agree R (f (h x) s) (g x s)) l →
  ∀ s, agree (Forall2 R) (st_mapM f (h <$> l) s) (st_mapM g l s).
Proof.
  induction 1 as [|x l Hx _ IH]; intros s.
  - simpl. exists []. by split.
  - rewrite fmap_cons, !st_mapM_cons, !st_bind_eq. specialize (Hx s). unfold agree in *.
    destruct (g x s) as [[y s1]|e|w]; [|by rewrite Hx..]. destruct Hx as (y' & -> & Hy).
    rewrite !st_bind_eq. specialize (IH s1).
    destruct (st_mapM g l s1) as [[ys s2]|e|w]; [|by rewrite IH..]. destruct IH as (ys' & -> & Hys).
    exists (y' :: ys'). split; [done|by constructor].
Qed.
End st_laws.

Lemma Forall2_fmap_eq {A B} (f : B → A) l' l : Forall2 (λ y' y, y' = f y) l' l → l' = f <$> l.
Proof. induction 1 as [|y' y l' l -> _ IH]; [done|]. by rewrite fmap_cons, IH. Qed.

(** Map entries at both levels. *)
Definition entry_rel (e' : gval * gval * gval) (e : string * string * json) : Prop :=
  e'.1.1 = VString TString e.1.1 ∧ e'.1.2 = VString TString e.1.2 ∧ store TAny e'.2 = any_value e.2.
Definition update_rel (u' : gval * gval) (u : string * json) : Prop :=
  u'.1 = VString TString u.1 ∧ store TAny u'.2 = any_value u.2.
Definition go_entries (kvs : list (string * json)) : list (gval * gval) :=
  (λ kv, (VString TString kv.1, any_value kv.2)) <$> kvs.

Lemma vmap_set_rel k v' v l' l :
  store TAny v' = any_value v → Forall2 update_rel l' l →
  Forall2 update_rel (vmap_set (VString TString k) v' l') (assoc_set k v l).
Proof.
  intros Hv. induction 1 as [|[k' w'] [j w] l' l [Hk Hw] Hl IH]; simpl in *.
  - by repeat constructor.
  - subst k'. destruct (decide (VString TString k = VString TString j)) as [[= ->]|Hne].
    + rewrite String.eqb_refl. by repeat constructor.
    + destruct (String.eqb_spec k j) as [->|_]; [done|]. by repeat constructor.
Qed.

Lemma map_updates_rel es' es : Forall2 entry_rel es' es → Forall2 update_rel (map_updates es') (updates es).
Proof.
  unfold map_updates, updates. assert (Forall2 update_rel [] []) as H0 by constructor. revert H0.
  generalize (@nil (gval * gval)) as l'. generalize (@nil (string * json)) as l. intros l l' Hl He.
  revert l l' Hl. induction He as [|[[ok nk] nv] [[k k'] v] es' es (H1 & H2 & H3) _ IH]; intros l l' Hl; [done|].
  simpl in *. subst. apply IH. by apply vmap_set_rel.
Qed.

Lemma map_deletes_rel es' es : Forall2 entry_rel es' es → map_deletes es' = VString TString <$> deletes es.
Proof.
  induction 1 as [|[[ok nk] nv] [[k k'] v] es' es (H1 & H2 & H3) _ IH]; [done|]. simpl in *. subst.
  simpl. rewrite IH. destruct (decide (k = k')) as [->|Hne].
  - by rewrite decide_True by done.
  - rewrite decide_False by congruence. done.
Qed.

Lemma vmap_delete_go k kvs :
  vmap_delete (VString TString k) (go_entries kvs) = go_entries (assoc_delete k kvs).
Proof.
  unfold vmap_delete, go_entries. induction kvs as [|[j v] kvs IH]; [done|].
  rewrite fmap_cons, filter_cons. simpl. destruct (String.eqb_spec k j) as [->|Hne].
  - rewrite decide_False by (intros H; by apply H). done.
  - rewrite decide_True by congruence. rewrite fmap_cons. by rewrite IH.
Qed.

Lemma vmap_set_go k v kvs :
  vmap_set (VString TString k) (any_value v) (go_entries kvs) = go_entries (assoc_set k v kvs).
Proof.
  unfold go_entries. induction kvs as [|[j w] kvs IH]; [done|]. rewrite fmap_cons. simpl.
  destruct (decide (VString TString k = VString TString j)) as [[= ->]|Hne].
  - by rewrite String.eqb_refl.
  - destruct (String.eqb_spec k j) as [->|_]; [done|]. rewrite fmap_cons. simpl. by rewrite IH.
Qed.

Lemma Set_value_any {S} v (s : S) : Set_value TAny v s = Ok (store TAny v, s).
Proof. unfold Set_value, AssignableTo. by rewrite orb_true_r. Qed.

Lemma Set_value_string {S} k (s : S) :
  Set_value (key_type (TMap TString TAny)) (VString TString k) s = Ok (VString TString k, s).
Proof. done. Qed.

Lemma set_updates_go {S} us' us kvs (s : S) :
  Forall2 update_rel us' us →
  set_updates (TMap TString TAny) us' (go_entries kvs) s =
  Ok (go_entries (fold_left (λ m '(k', v'), assoc_set k' v' m) us kvs), s).
Proof.
  intros H. revert kvs. induction H as [|[k' v'] [k v] us' us [Hk Hv] _ IH]; intros kvs; [done|].
  simpl in Hk, Hv. subst k'. cbn [set_updates fold_left]. rewrite decide_False by done.
  rewrite !st_bind_eq, Set_value_string, st_bind_eq.
  change (elem_type (TMap TString TAny)) with TAny. rewrite Set_value_any, Hv, vmap_set_go. apply IH.
Qed.

Lemma delete_go ks kvs :
  fold_left (λ m k, vmap_delete k m) (VString TString <$> ks) (go_entries kvs) =
  go_entries (fold_left (λ m k, assoc_delete k m) ks kvs).
Proof.
  revert kvs. induction ks as [|k ks IH]; intros kvs; [done|]. rewrite fmap_cons. simpl.
  by rewrite vmap_delete_go.
Qed.

Section refinement.
Context {S : Type} (tf : string → st S error (string * bool)).

(** The key of an entry. *)
Lemma visit_key k a (s : S) :
  visitUnsettableValues tf (visitValue tf) TString (Flags a false) (VString TString k) s =
  (k' ← transform_key tf k; mret (VString TString k')) s.
Proof.
  unfold visitUnsettableValues, transform_key. cbn [CanInterface readonly negb]. rewrite !st_bind_eq.
  destruct (tf k s) as [[[k' []] s1]|e|w]; [done| |done..].
  destruct (Unmarshal k') as [[]|e|w]; done.
Qed.

(** What the copy of a value is before it is stored. *)
Definition copied (j j' : json) : gval :=
  match j with JStr _ => go_value j' | _ => any_value j' end.

Lemma store_copied j j' : store TAny (copied j j') = any_value j'.
Proof. destruct j; apply store_any_value || apply store_go_value. Qed.

(** [visitValue] on a container agrees with [transform]. *)
Definition visits (j : json) : Prop := ∀ a (s : S),
  visitUnsettableValues tf (visitValue tf) TAny (Flags a false) (any_value j) s =
  (j' ← transform tf j; mret (copied j j')) s.

Lemma visits_string t : visits (JStr t).
Proof.
  intros a s. unfold visitUnsettableValues, any_value. cbn [CanInterface readonly negb transform go_value].
  unfold transform_string. rewrite !st_bind_eq.
  destruct (tf t s) as [[[t' []] s1]|e|w]; [done| |done..].
  destruct (Unmarshal t') as [[]|e|w]; done.
Qed.

Lemma visit_array l : Forall visits l → ∀ fl (s : S), readonly fl = false →
  visitValue tf fl (go_value (JArr l)) s = (j' ← transform tf (JArr l); mret (go_value j')) s.
Proof.
  intros Hl fl s Hfl. rewrite go_value_arr. cbn [visitValue transform]. unfold visitSliceArray.
  rewrite !st_bind_eq, Hfl. cbn [is_array underlying elem_type].
  pose proof (st_mapM_agree (visit_element tf (visitValue tf) TAny (Flags true false)) (transform tf)
    any_value (λ y' y, y' = any_value y) l) as Hm. unfold agree in Hm at 2.
  assert (Forall (λ x, ∀ s, agree (λ y' y, y' = any_value y)
    (visit_element tf (visitValue tf) TAny (Flags true false) (any_value x) s) (transform tf x s)) l) as Hx.
  { eapply Forall_impl; [exact Hl|]. intros x Hx s0. unfold visit_element.
    rewrite st_bind_eq, Hx, !st_bind_eq. unfold agree.
    destruct (transform tf x s0) as [[x' s1]|e|w]; [|done..]. cbn [mret st_ret CanSet addressable readonly andb negb].
    rewrite Set_value_any, store_copied. eauto. }
  specialize (Hm Hx s). destruct (st_mapM (transform tf) l s) as [[l' s1]|e|w]; [|by rewrite Hm..].
  destruct Hm as (ys & -> & ->%Forall2_fmap_eq). done.
Qed.

Lemma visit_object kvs : Forall (λ kv, visits kv.2) kvs → ∀ fl (s : S), readonly fl = false →
  visitValue tf fl (go_value (JObj kvs)) s = (j' ← transform tf (JObj kvs); mret (go_value j')) s.
Proof.
  intros Hl fl s Hfl. rewrite go_value_obj. cbn [visitValue transform]. unfold visitMap. rewrite !st_bind_eq.
  pose proof (st_mapM_agree (visit_entry tf (visitValue tf) fl (TMap TString TAny))
    (transform_entry tf (transform tf)) (λ kv, (VString TString kv.1, any_value kv.2)) entry_rel kvs) as Hm.
  unfold agree in Hm at 2.
  assert (Forall (λ x, ∀ s, agree entry_rel (visit_entry tf (visitValue tf) fl (TMap TString TAny)
    (VString TString x.1, any_value x.2) s) (transform_entry tf (transform tf) x s)) kvs) as Hx.
  { eapply Forall_impl; [exact Hl|]. intros [k x] Hx s0. cbn [snd] in Hx. unfold visit_entry, transform_entry. simpl fst; simpl snd.
    rewrite Hfl. change (key_type _) with TString. change (elem_type _) with TAny.
    rewrite !st_bind_eq, visit_key, st_bind_eq. unfold agree.
    destruct (transform_key tf k s0) as [[k' s1]|e|w]; [|done..]. cbn [mret st_ret].
    rewrite !st_bind_eq, Hx, st_bind_eq.
    destruct (transform tf x s1) as [[x' s2]|e|w]; [|done..]. cbn [mret st_ret].
    eexists. split; [done|]. split_and!; [done..|apply store_copied]. }
  specialize (Hm Hx s). destruct (st_mapM (transform_entry tf (transform tf)) kvs s) as [[es s1]|e|w]; [|by rewrite Hm..].
  destruct Hm as (es' & -> & Hes). cbn [mret st_ret].
  rewrite (map_deletes_rel _ _ Hes). fold (go_entries kvs). rewrite delete_go.
  rewrite st_bind_eq, (set_updates_go _ _ _ _ (map_updates_rel _ _ Hes)). done.
Qed.

Lemma visit_any_container a v (s : S) :
  match v with VString _ _ => False | _ => True end →
  visitUnsettableValues tf (visitValue tf) TAny (Flags a false) (VIface TAny v) s =
  (x ← visitValue tf (Flags false false) v; mret (VIface TAny x)) s.
Proof. by destruct v. Qed.

Lemma visits_all j : visits j.
Proof.
  induction j as [|b|lit|t|l IH|kvs IH] using json_ind'; try done; [apply visits_string|..]; intros a s;
    unfold any_value; rewrite visit_any_container, !st_bind_eq by done.
  - rewrite (visit_array l IH), st_bind_eq by done. cbn [transform]. rewrite !st_bind_eq.
    by destruct (st_mapM (transform tf) l s) as [[l' s1]|e|w].
  - rewrite (visit_object kvs IH), st_bind_eq by done. cbn [transform]. rewrite !st_bind_eq.
    by destruct (st_mapM (transform_entry tf (transform tf)) kvs s) as [[l' s1]|e|w].
Qed.

(** An [*unstructured.Unstructured]: a pointer to a struct with the decoded
    object, or with the nil map. *)
Definition unstructured_value (o : option (list (string * json))) : gval :=
  VPtr (TPtr (TStruct "unstructured.Unstructured"))
    (VStruct (TStruct "unstructured.Unstructured")
      [(true, match o with Some kvs => go_value (JObj kvs) | None => VNil (TMap TString TAny) end)]).

Definition transform_object (o : option (list (string * json))) : st S error (option (list (string * json))) :=
  match o with
  | None => mret None
  | Some kvs =>
      entries ← st_mapM (transform_entry tf (transform tf)) kvs;
      mret (Some (rebuild kvs entries))
  end.

Lemma visit_unstructured o (s : S) :
  visitValue tf (Flags false false) (unstructured_value o) s =
  (o' ← transform_object o; mret (unstructured_value o')) s.
Proof.
  unfold unstructured_value. destruct o as [kvs|]; [|done].
  cbn [visitValue]. unfold visitStruct. rewrite !st_bind_eq, st_mapM_cons, st_bind_eq.
  cbn [addressable readonly orb negb CanSet andb]. rewrite andb_false_r.
  rewrite st_bind_eq, visit_object; [|apply Forall_true; intros; apply visits_all|done].
  cbn [transform transform_object]. rewrite !st_bind_eq.
  by destruct (st_mapM (transform_entry tf (transform tf)) kvs s) as [[es s1]|e|w].
Qed.

(** C12: on the values the engine processes, a pointer to an unstructured
    object, the reflective visitor is the structural transformation of the
    JSON tree: strings are replaced in place, keys renamed, everything else
    is kept; errors are the transformer's or those of a non-string value that
    does not fit, and the visitor never panics of its own. *)
Theorem visitValue_refines_transform (o : option (list (string * json))) (s : S) :
  visitValue tf (Flags false false) (unstructured_value o) s =
  (o' ← transform_object o; mret (unstructured_value o')) s.
Proof. apply visit_unstructured. Qed.
End refinement.

(** ** Renaming keys *)

Definition new_entries (es : list (string * string * json)) : list (string * json) :=
  (λ e, (e.1.2, e.2)) <$> es.

Lemma updates_NoDup_gen (es : list (string * string * json)) (m : list (string * json)) :
  NoDup m.*1 → NoDup (fold_left (λ m '(_, k', v'), assoc_set k' v' m) es m).*1.
Proof. revert m. induction es as [|[[k k'] v] es IH]; intros m; [done|]. simpl. auto using assoc_set_NoDup. Qed.

Lemma updates_NoDup es : NoDup (updates es).*1.
Proof. apply updates_NoDup_gen. constructor. Qed.

Lemma updates_keys_gen (es : list (string * string * json)) (m : list (string * json)) k :
  k ∈ (fold_left (λ m '(_, k', v'), assoc_set k' v' m) es m).*1 ↔
  k ∈ m.*1 ∨ k ∈ (new_entries es).*1.
Proof.
  revert m. induction es as [|[[j k'] v] es IH]; intros m.
  - simpl. rewrite elem_of_nil. tauto.
  - unfold new_entries in *. rewrite !fmap_cons. cbn [fold_left fst snd].
    rewrite IH, assoc_set_keys, elem_of_cons. tauto.
Qed.

Lemma updates_keys es k : k ∈ (updates es).*1 ↔ k ∈ (new_entries es).*1.
Proof. unfold updates. rewrite updates_keys_gen. cbn. rewrite elem_of_nil. tauto. Qed.

(** Distinct new keys: the updates are the new entries. *)
Lemma updates_distinct_gen es m :
  NoDup (m ++ new_entries es).*1 →
  fold_left (λ m '(_, k', v'), assoc_set k' v' m) es m = m ++ new_entries es.
Proof.
  revert m. induction es as [|[[j k'] v] es IH]; intros m; [by rewrite app_nil_r|].
  unfold new_entries in *. rewrite fmap_cons. simpl. intros Hnd. rewrite assoc_set_fresh.
  - rewrite IH; by rewrite <- app_assoc.
  - intros Hin. rewrite fmap_app in Hnd. apply NoDup_app in Hnd as (_ & Hnd & _). apply (Hnd _ Hin). left.
Qed.

Lemma updates_distinct es : NoDup (new_entries es).*1 → updates es = new_entries es.
Proof. intros H. unfold updates. by rewrite updates_distinct_gen. Qed.

(** The rebuilt object has exactly the updates. *)
Lemma rebuild_get kvs (es : list (string * string * json)) k :
  (λ e, e.1.1) <$> es = kvs.*1 → assoc_get k (rebuild kvs es) = assoc_get k (updates es).
Proof.
  intros Hk. unfold rebuild. rewrite assoc_get_sets, assoc_get_deletes by apply updates_NoDup.
  destruct (assoc_get k (updates es)) eqn:E; [done|]. case_decide as Hd; [done|].
  apply assoc_get_None. rewrite <- Hk. intros ([[j k'] v] & -> & Hin)%list_elem_of_fmap.
  simpl in *. apply assoc_get_None in E. rewrite updates_keys in E. apply Hd.
  apply list_elem_of_omap. exists (j, k', v). split; [done|].
  destruct (decide (j = k')) as [->|]; [|done]. exfalso. apply E.
  apply list_elem_of_fmap. exists (k', v). split; [done|]. apply list_elem_of_fmap. by exists (k', k', v).
Qed.

Lemma rebuild_NoDup kvs es : NoDup kvs.*1 → NoDup (rebuild kvs es).*1.
Proof. intros H. unfold rebuild. by apply sets_NoDup, deletes_NoDup. Qed.

Lemma rebuild_distinct kvs es :
  (λ e, e.1.1) <$> es = kvs.*1 → NoDup kvs.*1 → NoDup (new_entries es).*1 →
  rebuild kvs es ≡ₚ new_entries es.
Proof.
  intros Hk Hnd Hnew. apply assoc_perm; [by apply rebuild_NoDup|done|].
  intros k. by rewrite rebuild_get, updates_distinct.
Qed.

(** renaming keys of a map: deleting the renamed keys before setting the
    new ones leaves exactly the transformed entries, also when a new key
    equals another old key, as long as the new keys are distinct. *)
Theorem visitMap_renames kvs es :
  (λ e, e.1.1) <$> es = kvs.*1 → NoDup kvs.*1 → NoDup (new_entries es).*1 →
  rebuild kvs es ≡ₚ new_entries es.
Proof. apply rebuild_distinct. Qed.

Lemma visitMap_renames_witness :
  rebuild [("a", JNum "1"); ("b", JNum "2")] [("a", "b", JNum "1"); ("b", "a", JNum "2")]
  ≡ₚ [("b", JNum "1"); ("a", JNum "2")].
Proof.
  apply (visitMap_renames [("a", JNum "1"); ("b", JNum "2")] [("a", "b", JNum "1"); ("b", "a", JNum "2")]);
    [reflexivity|..]; apply (bool_decide_unpack _); reflexivity.
Defined.

(** The transformer that replaces its input by a fixed string. *)
Definition const_tf (s : string) : string → st unit error (string * bool) := λ _, mret (s, true).

(** two keys that become equal: one entry silently replaces the other,
    and which one depends on the order in which Go happens to iterate over
    the map. *)
Theorem visitMap_collision_order :
  transform (const_tf "x") (JObj [("a", JNum "1"); ("b", JNum "2")]) tt = Ok (JObj [("x", JNum "2")], tt) ∧
  transform (const_tf "x") (JObj [("b", JNum "2"); ("a", JNum "1")]) tt = Ok (JObj [("x", JNum "1")], tt).
Proof. by vm_compute. Qed.

(** typed objects: a slice element of a named string type makes the
    visitor panic, even when the transformer leaves the string unchanged,
    because the replacement has type [string], which is not assignable to the
    named type. *)
Theorem visitValue_named_string_panics {S} (tf : string → st S error (string * bool))
    name fl s s' (st0 st1 : S) vs :
  tf s st0 = Ok ((s', true), st1) → readonly fl = false →
  visitValue tf fl (VSeq (TSlice (TNamed name TString)) (VString (TNamed name TString) s :: vs)) st0 =
  Panic "reflect.Set: value is not assignable to the type of the destination".
Proof.
  intros Htf Hfl. cbn [visitValue]. unfold visitSliceArray. rewrite st_bind_eq, st_mapM_cons, st_bind_eq.
  cbn [is_array underlying elem_type]. unfold visit_element. rewrite st_bind_eq, Hfl.
  unfold visitUnsettableValues. cbn [CanInterface readonly negb]. by rewrite st_bind_eq, Htf.
Qed.

Lemma visitValue_named_string_panics_witness :
  visitValue (const_tf "ReadWriteOnce") (Flags true false)
    (VSeq (TSlice (TNamed "v1.PersistentVolumeAccessMode" TString))
      [VString (TNamed "v1.PersistentVolumeAccessMode" TString) "ReadWriteOnce"]) tt =
  Panic "reflect.Set: value is not assignable to the type of the destination".
Proof.
  apply (visitValue_named_string_panics (const_tf "ReadWriteOnce") "v1.PersistentVolumeAccessMode"
    (Flags true false) "ReadWriteOnce" "ReadWriteOnce" tt tt []); reflexivity.
Defined.
