(* ===== verification/Api.v ===== *)
(** * api/core: resource types and constants

    The fields of the template API the engine and the controllers read or
    write. *)

From Stdlib Require Import Ascii ZArith.
From stdpp Require Import prelude strings.
From S2P Require Import Prelude Json Visit.

(** ** api/core/v1beta1/virtualmachinetemplate_types.go *)

(** [type Parameter struct] ([Parameter] is a keyword of Rocq). *)
Record Param : Type := mkParam {
  P_Name : string;
  P_DisplayName : string;
  P_Description : string;
  P_Value : string;
  P_Generate : string;
  P_From : string;
  P_Required : bool;
}.

#[export] Instance Param_eq_dec : EqDecision Param.
Proof. solve_decision. Defined.

(** The assignment [p.Value = v]. *)
Definition set_Value (v : string) (p : Param) : Param :=
  mkParam (P_Name p) (P_DisplayName p) (P_Description p) v
    (P_Generate p) (P_From p) (P_Required p).

(** A parameter with only a name and a value. *)
Definition value_param (name value : string) : Param :=
  mkParam name "" "" value "" "" false.

(** [runtime.Object]: an unstructured object (a decoded JSON object or the
    nil map), or a typed one, a Go pointer to a struct. *)
Inductive runtime_object : Type :=
| OUnstructured (o : option (list (string * json)))
| OTyped (v : gval).

(** [runtime.RawExtension]; [Raw] is empty when it is nil. *)
Record RawExtension : Type := mkRaw {
  Raw : string;
  RE_Object : option runtime_object;
}.

(** [type VirtualMachineTemplateSpec struct]. *)
Record VirtualMachineTemplateSpec : Type := mkSpec {
  VirtualMachine : option RawExtension;
  Parameters : list Param;
  Message : string;
}.

(** [type VirtualMachineTemplate struct], as the webhooks and the API server
    see it: the group and kind of its type, its name and its spec. *)
Record TemplateObject : Type := mkTemplateObject {
  TO_Group : string;
  TO_Kind : string;
  TO_Namespace : string;
  TO_Name : string;
  TO_Spec : VirtualMachineTemplateSpec;
}.

(** The assignment [tpl.Spec.Parameters = ps]. *)
Definition with_parameters (ps : list Param) (spec : VirtualMachineTemplateSpec) : VirtualMachineTemplateSpec :=
  mkSpec (VirtualMachine spec) ps (Message spec).
