(* ===== verification/Field.v ===== *)
(** * k8s.io/apimachinery/pkg/util/validation/field: paths and errors

    The template engine and the webhooks report errors of this package.  A
    bad value is kept as a value, since only its presence in the error is of
    interest here. *)

From Stdlib Require Import Ascii ZArith.
From stdpp Require Import prelude strings pretty.
From S2P Require Import Prelude Json Visit Api.

(** ** Paths *)

(** A path, innermost element first. *)
Inductive path_elem : Type :=
| PName (name : string)
| PIndex (index : string).
Definition path : Type := list path_elem.

Definition NewPath (names : list string) : path := reverse (PName <$> names).
Definition Child (p : path) (name : string) : path := PName name :: p.
Definition PathIndex (p : path) (i : nat) : path := PIndex (pretty i) :: p.

Fixpoint path_string (p : path) : string :=
  match p with
  | [] => EmptyString
  | PName name :: p' =>
      match p' with
      | [] => name
      | _ => path_string p' +:+ "." +:+ name
      end
  | PIndex i :: p' => path_string p' +:+ "[" +:+ i +:+ "]"
  end.

Example path_string_example :
  path_string (Child (PathIndex (NewPath ["spec"; "parameters"]) 3) "name") = "spec.parameters[3].name".
Proof. by vm_compute. Qed.

(** ** Errors *)

Inductive ErrorType : Type :=
| ErrorTypeInvalid
| ErrorTypeRequired
| ErrorTypeDuplicate
| ErrorTypeInternal.

Inductive bad_value : Type :=
| BadString (s : string)
| BadRaw (raw : option RawExtension)
| BadBytes (s : string)
| BadParameters (ps : list Param)
| BadObject (v : gval)
| BadNone.

(** [type Error struct]; [Field] is the text of the path. *)
Record field_error : Type := mkFieldError {
  FE_Type : ErrorType;
  FE_Field : string;
  FE_BadValue : bad_value;
  FE_Detail : string;
}.

Definition Invalid (p : path) (v : bad_value) (detail : string) : field_error :=
  mkFieldError ErrorTypeInvalid (path_string p) v detail.
Definition Required (p : path) (detail : string) : field_error :=
  mkFieldError ErrorTypeRequired (path_string p) (BadString EmptyString) detail.
Definition Duplicate (p : path) (v : bad_value) : field_error :=
  mkFieldError ErrorTypeDuplicate (path_string p) v EmptyString.
Definition InternalError (p : path) (e : error) : field_error :=
  mkFieldError ErrorTypeInternal (path_string p) BadNone (Error e).
