(* ===== verification/Substitute.v ===== *)
(** * template.go: parameter references in one string

    [substituteParameters] replaces the references of a string,
    [collectReferencedParameters] lists them.  The specification splits a
    string into literal text and references ([segments]) and replaces all
    references at once ([expand]); the theorems relate the code's repeated
    [strings.Replace] to it. *)

From Stdlib Require Import Ascii ZArith Lia.
From stdpp Require Import prelude strings gmap.
From S2P Require Import Prelude GoStrings Regex Api.

(** ** The code *)

(** [\$\{([a-zA-Z0-9_]+)\}] *)
Definition stringParamExpr : regex := rdelim "${" is_word "}" "" 1.

(** [^\$\{\{([a-zA-Z0-9_]+)\}\}$] *)
Definition nonStringParamExpr : regex :=
  RSeq RBegin (RSeq (rdelim "${{" is_word "}" "}" 1) REnd).

Definition undefined_parameter (key : string) : error :=
  EMsg ("found parameter '" +:+ key +:+ "' but it was not defined").

(** The loop over [stringParamExpr.FindAllStringSubmatch(out, -1)]. *)
Fixpoint substitute_loop (out : string) (matches : list found)
    (params : gmap string Param) : res error (string * bool) :=
  match matches with
  | [] => Ok (out, true)
  | f :: matches' =>
      match params !! group 1 (f_caps f) with
      | Some param => substitute_loop (Replace1 out (f_match f) (P_Value param)) matches' params
      | None => Err (undefined_parameter (group 1 (f_caps f)))
      end
  end.

Definition substituteParameters (in_ : string) (params : gmap string Param)
    : res error (string * bool) :=
  match FindStringSubmatch nonStringParamExpr in_ with
  | Some f =>
      match params !! group 1 (f_caps f) with
      | Some param => Ok (Replace1 in_ (f_match f) (P_Value param), false)
      | None => Err (undefined_parameter (group 1 (f_caps f)))
      end
  | None => substitute_loop in_ (FindAllStringSubmatch stringParamExpr in_) params
  end.

Definition collectReferencedParameters (in_ : string) : gset string :=
  let params :=
    match FindStringSubmatch nonStringParamExpr in_ with
    | Some f => {[ group 1 (f_caps f) ]}
    | None => ∅
    end in
  fold_left (λ acc f, {[ group 1 (f_caps f) ]} ∪ acc)
    (FindAllStringSubmatch stringParamExpr in_) params.

(** ** Specification *)

(** Parameter names that can be referenced: [[a-zA-Z0-9_]+]. *)
Definition is_key (k : string) : Prop := k ≠ EmptyString ∧ str_forall is_word k = true.

Definition ref (k : string) : string := "${" +:+ k +:+ "}".
Definition ref2 (k : string) : string := "${{" +:+ k +:+ "}}".

(** The literal text before each reference with the name referenced, and the
    text after the last reference. *)
Definition tokens (fs : list found) : list (string * string) :=
  (λ f, (f_before f, group 1 (f_caps f))) <$> fs.
Definition segments (in_ : string) : list (string * string) * string :=
  let fs := FindAllStringSubmatch stringParamExpr in_ in
  (tokens fs, match last fs with Some f => f_after f | None => in_ end).

(** Replace every reference [k] by [g k]. *)
Definition render (g : string → string) (toks : list (string * string)) (tail : string) : string :=
  str_concat ((λ '(b, k), b +:+ g k) <$> toks) +:+ tail.

Definition value_of (params : gmap string Param) (k : string) : string :=
  match params !! k with Some p => P_Value p | None => EmptyString end.

Definition expand (params : gmap string Param) (in_ : string) : string :=
  let '(toks, tail) := segments in_ in render (value_of params) toks tail.

(** Text in which no reference can start, even when more text follows: every
    dollar sign is followed by a byte other than an opening brace. *)
Fixpoint safe_text (s : string) : bool :=
  match s with
  | EmptyString => true
  | String c s' =>
      (if (c =? "$")%char
       then match s' with EmptyString => false | String d _ => negb (d =? "{")%char end
       else true) && safe_text s'
  end.

Definition no_dollar (s : string) : bool := negb (str_exists (λ c, (c =? "$")%char) s).

(** ** References as occurrences

    [stringParamExpr] finds exactly the occurrences of [ref k]; they cannot
    overlap, because a dollar sign only starts a reference. *)

Lemma run_stringParamExpr at0 s :
  run stringParamExpr at0 s = delim_at "${" is_word "}" "" 1 s.
Proof. by apply run_rdelim. Qed.

Lemma search_ref at0 s f :
  search stringParamExpr at0 s = Some f →
  ∃ k, is_key k ∧ f_caps f = [(1, k)] ∧ f_match f = ref k ∧
    s = f_before f +:+ ref k +:+ f_after f.
Proof.
  intros (Heq & Hh)%search_Some. rewrite run_stringParamExpr in Hh.
  apply head_Some in Hh as [l Hl].
  apply delim_at_inv in Hl as (k & _ & Hne & Hk & Hm & Hc & _).
  exists k. unfold ref. rewrite <- Hm. by split_and!.
Qed.

Lemma run_ref_hit at0 k b :
  is_key k → run stringParamExpr at0 (ref k +:+ b) ≠ [].
Proof.
  intros [Hne Hk]. rewrite run_stringParamExpr.
  pose proof (delim_at_hit "${" is_word "}" "" eq_refl 1 k b Hne Hk) as H.
  unfold ref. rewrite !str_app_assoc, H. done.
Qed.

Lemma search_ref_None at0 s a k b :
  search stringParamExpr at0 s = None → is_key k → s ≠ a +:+ ref k +:+ b.
Proof.
  intros Hs Hk ->. eapply run_ref_hit; [done|]. by eapply (search_None _ at0).
Qed.

Lemma search_ref_first at0 s f a k b :
  search stringParamExpr at0 s = Some f → is_key k → s = a +:+ ref k +:+ b →
  String.length (f_before f) ≤ String.length a.
Proof.
  intros Hs Hk Heq. destruct (decide (String.length (f_before f) ≤ String.length a)) as [|Hlt]; [done|].
  exfalso. eapply run_ref_hit; [done|]. eapply search_leftmost; [done..|lia].
Qed.

Lemma word_not_dollar c : is_word c = true → (c =? "$")%char = false.
Proof. by byte_cases c. Qed.

Lemma key_no_dollar k : str_forall is_word k = true → str_exists (λ c, (c =? "$")%char) k = false.
Proof.
  intros H. rewrite str_exists_forall_neg. apply negb_false_iff.
  eapply str_forall_impl; [|exact H]. intros c Hc. by rewrite word_not_dollar.
Qed.

(** Two occurrences are equal or disjoint. *)
Lemma ref_disjoint before k after a k' b :
  is_key k → before +:+ ref k +:+ after = a +:+ ref k' +:+ b →
  String.length before < String.length a →
  ∃ x, after = x +:+ ref k' +:+ b ∧ a = before +:+ ref k +:+ x.
Proof.
  intros [_ Hk] Heq Hlt. apply str_app_cut in Heq as (x & -> & Heq); [|lia].
  rewrite str_length_app in Hlt. destruct x as [|c x]; [simpl in Hlt; lia|].
  unfold ref in Heq at 1. simpl in Heq. injection Heq as <- Heq.
  destruct (decide (String.length (String "{" (k +:+ "}")) ≤ String.length x)) as [Hle|Hgt].
  - change (String "{" ((k +:+ "}") +:+ after)) with (String "{" (k +:+ "}") +:+ after) in Heq.
    apply str_app_cut in Heq as (y & -> & ->); [|done].
    exists y. split; [done|]. unfold ref. simpl. by rewrite !str_app_assoc.
  - exfalso. change (String "{" ((k +:+ "}") +:+ after)) with (String "{" (k +:+ "}") +:+ after) in Heq.
    symmetry in Heq. apply str_app_cut in Heq as (y & Hy & Heq); [|lia].
    assert (str_exists (λ c, (c =? "$")%char) (String "{" (k +:+ "}")) = false) as Hno.
    { simpl. by rewrite str_exists_app, key_no_dollar. }
    rewrite Hy, str_exists_app in Hno. bool_hyps.
    destruct y as [|d y].
    + apply (f_equal String.length) in Hy. rewrite str_length_app in Hy. simpl in *. lia.
    + unfold ref in Heq. simpl in Heq. injection Heq as <- _. done.
Qed.

(** ** All references of a string *)

#[local] Arguments tokens : simpl never.
#[local] Arguments render : simpl never.

Definition tail_of (s : string) (fs : list found) : string :=
  match last fs with Some f => f_after f | None => s end.

#[local] Arguments tail_of : simpl never.

Lemma tail_of_cons s f fs : tail_of s (f :: fs) = tail_of (f_after f) fs.
Proof.
  unfold tail_of. destruct fs as [|g fs]; [done|]. rewrite last_cons_cons.
  by destruct (last (g :: fs)) eqn:E; [|by apply last_None in E].
Qed.

Lemma segments_eq s :
  segments s = (tokens (FindAllStringSubmatch stringParamExpr s),
                tail_of s (FindAllStringSubmatch stringParamExpr s)).
Proof. done. Qed.

Lemma ref_length k : is_key k → 4 ≤ String.length (ref k).
Proof.
  intros [Hne _]. unfold ref. rewrite !str_length_app. simpl.
  destruct k; [done|]. simpl. lia.
Qed.

Lemma render_cons g b k toks tail :
  render g ((b, k) :: toks) tail = b +:+ g k +:+ render g toks tail.
Proof. unfold render. rewrite fmap_cons. simpl. by rewrite !str_app_assoc. Qed.

Lemma tokens_cons f fs : tokens (f :: fs) = (f_before f, group 1 (f_caps f)) :: tokens fs.
Proof. done. Qed.

Lemma find_all_ref n at0 s :
  String.length s ≤ n →
  let fs := find_all n stringParamExpr at0 s in
  render ref (tokens fs) (tail_of s fs) = s ∧
  Forall (λ f, is_key (group 1 (f_caps f)) ∧ f_match f = ref (group 1 (f_caps f))) fs ∧
  search stringParamExpr false (tail_of s fs) = None.
Proof.
  revert at0 s. induction n as [|n IH]; intros at0 s Hlen; simpl.
  - destruct s; [|simpl in Hlen; lia]. done.
  - destruct (search stringParamExpr at0 s) as [f|] eqn:E; simpl.
    + pose proof (search_ref _ _ _ E) as (k & Hk & Hc & Hm & Heq).
      destruct (IH false (f_after f)) as (Hr & Hf & Ht).
      { pose proof (ref_length k Hk). rewrite Heq in Hlen. rewrite !str_length_app in Hlen. lia. }
      rewrite tail_of_cons. split_and!; [|constructor; [rewrite Hc; by simpl|done]|done].
      rewrite tokens_cons, render_cons, Hc, Hr. by symmetry.
    + split_and!; [done|constructor|]. unfold tail_of. simpl.
      destruct (search stringParamExpr false s) as [f|] eqn:E'; [|done].
      apply search_ref in E' as (k & Hk & _ & _ & Heq). by eapply search_ref_None in E.
Qed.

Lemma find_all_keys n at0 s k :
  String.length s ≤ n →
  (∃ f, f ∈ find_all n stringParamExpr at0 s ∧ group 1 (f_caps f) = k) ↔
  is_key k ∧ ∃ a b, s = a +:+ ref k +:+ b.
Proof.
  revert at0 s. induction n as [|n IH]; intros at0 s Hlen; simpl.
  - destruct s; [|simpl in Hlen; lia]. split.
    + intros (f & Hf & _). by apply elem_of_nil in Hf.
    + intros (_ & [|? ?] & b & H); done.
  - destruct (search stringParamExpr at0 s) as [f|] eqn:E; simpl.
    + pose proof (search_ref _ _ _ E) as (k0 & Hk0 & Hc & Hm & Heq).
      assert (String.length (f_after f) ≤ n) as Hlen'.
      { pose proof (ref_length k0 Hk0). rewrite Heq in Hlen. rewrite !str_length_app in Hlen. lia. }
      specialize (IH false (f_after f) Hlen'). split.
      * intros (g & [->|Hg]%elem_of_cons & <-).
        { rewrite Hc. simpl. split; [done|]. by exists (f_before f), (f_after f). }
        assert (∃ f0, f0 ∈ find_all n stringParamExpr false (f_after f) ∧
          group 1 (f_caps f0) = group 1 (f_caps g)) as (Hk & a & b & Ha)%IH by eauto.
        split; [done|]. exists (f_before f +:+ ref k0 +:+ a), b.
        rewrite Heq, Ha at 1. by rewrite (str_app_assoc (f_before f)), (str_app_assoc (ref k0)).
      * intros (Hk & a & b & Hab).
        pose proof (search_ref_first _ _ _ _ _ _ E Hk Hab) as Hle.
        destruct (decide (String.length (f_before f) = String.length a)) as [Hl|Hl].
        { rewrite Heq in Hab. destruct (str_app_length_inj _ _ _ _ Hl Hab) as [_ Hr].
          exists f. split; [apply list_elem_of_here|]. rewrite Hc. simpl.
          unfold ref in Hr. simpl in Hr. injection Hr as Hr. rewrite !str_app_assoc in Hr.
          simpl in Hr. destruct Hk0 as [_ Hk0], Hk as [_ Hk].
          assert (span is_word (k0 +:+ String "}" (f_after f)) = span is_word (k +:+ String "}" b)) as Hs
            by (f_equal; exact Hr).
          rewrite !span_app in Hs by done. by injection Hs. }
        rewrite Heq in Hab. apply ref_disjoint in Hab as (x & Hx & _); [|done|lia].
        destruct IH as [_ IH]. destruct IH as (g & Hg & Hgk); [split; [done|by exists x, b]|].
        exists g. split; [by right|done].
    + split; [intros (g & Hg & _); by apply elem_of_nil in Hg|].
      intros (Hk & a & b & Hab). by destruct (search_ref_None _ _ a k b E Hk).
Qed.

(** ** The exact-match syntax [${{KEY}}] *)

Lemma run_nonString at0 s :
  run nonStringParamExpr at0 s =
  if at0 then
    match delim_at "${{" is_word "}" "}" 1 s with
    | [(m, rest, k)] => if str_is_empty rest then [(m, rest, k)] else []
    | _ => []
    end
  else [].
Proof.
  unfold nonStringParamExpr. cbn [run]. destruct at0; [|done]. rewrite bind_cons.
  cbn [mbind list_bind]. rewrite app_nil_r. rewrite run_rdelim by done.
  destruct (delim_at "${{" is_word "}" "}" 1 s) as [|[[m rest] k] l] eqn:E; [done|].
  pose proof E as (_ & _ & _ & _ & _ & _ & ->)%delim_at_inv.
  rewrite bind_cons. cbn [mbind list_bind]. rewrite app_nil_r.
  destruct (str_is_empty rest); simpl; [|done]. by rewrite app_nil_r, str_app_nil_r.
Qed.

Lemma nonString_Some s f :
  FindStringSubmatch nonStringParamExpr s = Some f ↔
  ∃ k, is_key k ∧ s = ref2 k ∧ f = Found EmptyString (ref2 k) [(1, k)] EmptyString.
Proof.
  unfold FindStringSubmatch. split.
  - intros (Heq & Hh)%search_Some. rewrite run_nonString in Hh.
    destruct (str_is_empty (f_before f)) eqn:Hb; [|done]. cbn [andb] in Hh.
    destruct (f_before f) eqn:Hbf; [|done].
    destruct (delim_at _ _ _ _ _ _) as [|[[m rest] k] l] eqn:E; [done|].
    pose proof E as (key & Hs & Hne & Hk & -> & -> & ->)%delim_at_inv.
    destruct rest; [|done]. simpl in Hh. injection Hh as Hm Ha Hc.
    exists key. split; [done|]. simpl in Heq.
    destruct f as [fb fm fk fa]; cbn in *. subst fb fm fk fa.
    split; [by rewrite Heq, str_app_nil_r|done].
  - intros (k & [Hne Hk] & -> & ->).
    pose proof (delim_at_hit "${{" is_word "}" "}" eq_refl 1 k EmptyString Hne Hk) as Hd.
    rewrite str_app_nil_r in Hd. unfold search, ref2. fold search.
    change (String "$" (String "{" (String "{" (k +:+ "}}")))) with ("${{" +:+ k +:+ "}}").
    assert (run nonStringParamExpr true ("${{" +:+ k +:+ "}}") =
      [("${{" +:+ k +:+ "}}", EmptyString, [(1, k)])]) as Hrun.
    { rewrite run_nonString, Hd. done. }
    simpl in Hrun |- *. by rewrite Hrun.
Qed.

Lemma nonString_ref2 k : is_key k →
  FindStringSubmatch nonStringParamExpr (ref2 k)
    = Some (Found EmptyString (ref2 k) [(1, k)] EmptyString).
Proof. intros Hk. apply nonString_Some. eauto. Qed.

Lemma elem_of_fold_union (fs : list found) (acc : gset string) k :
  k ∈ fold_left (λ acc f, {[ group 1 (f_caps f) ]} ∪ acc) fs acc ↔
  k ∈ acc ∨ ∃ f, f ∈ fs ∧ group 1 (f_caps f) = k.
Proof.
  revert acc. induction fs as [|f fs IH]; intros acc; simpl; [set_solver|].
  rewrite IH. set_solver.
Qed.

Lemma elem_of_collect in_ k :
  k ∈ collectReferencedParameters in_ ↔
  (∃ f, FindStringSubmatch nonStringParamExpr in_ = Some f ∧ group 1 (f_caps f) = k) ∨
  ∃ f, f ∈ FindAllStringSubmatch stringParamExpr in_ ∧ group 1 (f_caps f) = k.
Proof.
  unfold collectReferencedParameters. rewrite elem_of_fold_union.
  destruct (FindStringSubmatch nonStringParamExpr in_) as [f|]; set_solver.
Qed.

Lemma Replace1_self s v : Replace1 s s v = v.
Proof.
  unfold Replace1. assert (Cut s s = Some (EmptyString, EmptyString)) as ->.
  { destruct s; simpl; [done|].
    pose proof (strip_prefix_app (String a s) EmptyString) as H. rewrite str_app_nil_r in H.
    simpl in H. by rewrite H. }
  simpl. apply str_app_nil_r.
Qed.

(** [${{k}}] contains no [${k'}]: after the first brace comes a second. *)
Lemma ref2_no_ref k k' a b : is_key k → is_key k' → ref2 k ≠ a +:+ ref k' +:+ b.
Proof.
  intros [_ Hk] [Hne Hk']. destruct a as [|c a].
  - unfold ref2, ref. simpl. destruct k' as [|d k']; [done|]. simpl in Hk'. bool_hyps.
    intros [= <- _]. by vm_compute in H.
  - intros Heq. unfold ref2 in Heq. simpl in Heq. injection Heq as <- Heq.
    assert (str_exists (λ c, (c =? "$")%char) (String "{" (String "{" (k +:+ "}}"))) = false) as Hno.
    { simpl. by rewrite str_exists_app, key_no_dollar. }
    rewrite Heq, !str_exists_app in Hno. by apply orb_false_iff in Hno as [_ Hno].
Qed.

(** ** The loop *)

Lemma substitute_loop_cases out fs params :
  match substitute_loop out fs params with
  | Ok (_, b) => b = true ∧ Forall (λ f, is_Some (params !! group 1 (f_caps f))) fs
  | Err e => ∃ f, f ∈ fs ∧ params !! group 1 (f_caps f) = None ∧
               e = undefined_parameter (group 1 (f_caps f))
  | Panic _ => False
  end.
Proof.
  revert out. induction fs as [|f fs IH]; intros out; simpl; [by split|].
  destruct (params !! group 1 (f_caps f)) as [p|] eqn:Hp.
  - specialize (IH (Replace1 out (f_match f) (P_Value p))).
    destruct (substitute_loop _ fs params) as [[o b]|e|w].
    + destruct IH as [-> IH]. split; [done|]. constructor; eauto.
    + destruct IH as (g & Hg & Hn & ->). exists g. split; [by right|done].
    + done.
  - exists f. split; [by left|done].
Qed.

(** No reference can start in safe text, whatever follows it. *)
Lemma safe_text_open d x a b :
  safe_text d = true → d +:+ x = a +:+ "${" +:+ b → String.length d ≤ String.length a.
Proof.
  revert a. induction d as [|c d IH]; intros a Hd Heq; simpl in *; [lia|].
  apply andb_true_iff in Hd as [Hc Hd]. destruct a as [|e a]; simpl in *.
  - injection Heq as -> Heq. simpl in Hc. destruct d as [|e d]; [done|].
    simpl in Heq. injection Heq as -> _. done.
  - injection Heq as -> Heq. specialize (IH a Hd Heq). lia.
Qed.

Lemma safe_text_app a b : safe_text a = true → safe_text b = true → safe_text (a +:+ b) = true.
Proof.
  induction a as [|c a IH]; simpl; [done|]. intros Ha Hb. apply andb_true_iff in Ha as [Hc Ha].
  rewrite IH by done. rewrite andb_true_r. destruct (c =? "$")%char; [|done].
  by destruct a.
Qed.

Lemma no_dollar_safe s : no_dollar s = true → safe_text s = true.
Proof.
  unfold no_dollar. induction s as [|c s IH]; simpl; [done|].
  rewrite negb_orb. intros H. bool_hyps. rewrite IH by by rewrite H0.
  destruct (Ascii.eqb_spec c "$"); done.
Qed.

(** The next reference after safe text is where [strings.Replace] acts. *)
Lemma Replace1_next d k v rest :
  safe_text d = true → Replace1 (d +:+ ref k +:+ rest) (ref k) v = d +:+ v +:+ rest.
Proof.
  intros Hd. unfold Replace1. rewrite Cut_at; [done|]. intros a b Heq.
  eapply (safe_text_open d); [done|]. rewrite Heq. unfold ref. by rewrite str_app_assoc.
Qed.

Lemma substitute_loop_expand params d fs tail :
  safe_text d = true →
  Forall (λ f, safe_text (f_before f) = true ∧ f_match f = ref (group 1 (f_caps f)) ∧
    ∃ p, params !! group 1 (f_caps f) = Some p ∧ no_dollar (P_Value p) = true) fs →
  substitute_loop (d +:+ render ref (tokens fs) tail) fs params
    = Ok (d +:+ render (value_of params) (tokens fs) tail, true).
Proof.
  intros Hd Hfs. revert d Hd. induction Hfs as [|f fs (Hb & Hm & p & Hp & Hv) _ IH]; intros d Hd.
  - done.
  - cbn [substitute_loop]. rewrite Hp, Hm, !tokens_cons, !render_cons.
    rewrite <- (str_app_assoc d (f_before f)).
    rewrite Replace1_next by by apply safe_text_app.
    unfold value_of at 1. rewrite Hp.
    rewrite <- (str_app_assoc (d +:+ f_before f) (P_Value p)).
    rewrite IH; [by rewrite !str_app_assoc|].
    apply safe_text_app; [by apply safe_text_app|by apply no_dollar_safe].
Qed.

Lemma FindAll_ref in_ :
  render ref (segments in_).1 (segments in_).2 = in_ ∧
  Forall (λ f, is_key (group 1 (f_caps f)) ∧ f_match f = ref (group 1 (f_caps f)))
    (FindAllStringSubmatch stringParamExpr in_) ∧
  search stringParamExpr false (segments in_).2 = None.
Proof. rewrite segments_eq. by apply find_all_ref. Qed.

Lemma collect_spec in_ k :
  k ∈ collectReferencedParameters in_ ↔
  is_key k ∧ (in_ = ref2 k ∨ ∃ a b, in_ = a +:+ ref k +:+ b).
Proof.
  rewrite elem_of_collect. unfold FindAllStringSubmatch.
  rewrite find_all_keys by done. split.
  - intros [(f & (k' & Hk & -> & ->)%nonString_Some & <-)|[Hk Hab]]; [|by auto].
    simpl. auto.
  - intros [Hk [->|Hab]]; [left|by right].
    eexists. split; [by apply nonString_ref2|done].
Qed.

Lemma collect_ref2 k k' : is_key k → k' ∈ collectReferencedParameters (ref2 k) ↔ k' = k.
Proof.
  intros Hk. rewrite collect_spec. split.
  - intros [Hk' [Heq|(a & b & Hab)]]; [|by destruct (ref2_no_ref k k' a b)].
    unfold ref2 in Heq. simpl in Heq. injection Heq as Heq. symmetry. by apply str_app_inv_r in Heq.
  - intros ->. auto.
Qed.

Lemma substituteParameters_cases in_ params :
  match substituteParameters in_ params with
  | Ok _ => collectReferencedParameters in_ ⊆ dom params
  | Err e => ∃ k, k ∈ collectReferencedParameters in_ ∧ params !! k = None ∧
               e = undefined_parameter k
  | Panic _ => False
  end.
Proof.
  unfold substituteParameters.
  destruct (FindStringSubmatch nonStringParamExpr in_) as [f|] eqn:Hf.
  - pose proof Hf as (k & Hk & -> & ->)%nonString_Some. simpl.
    destruct (params !! k) as [p|] eqn:Hp.
    + intros k' ->%collect_ref2; [|done]. by apply elem_of_dom_2 in Hp.
    + exists k. split_and!; [by apply collect_ref2|done|done].
  - pose proof (substitute_loop_cases in_ (FindAllStringSubmatch stringParamExpr in_) params) as Hl.
    destruct (substitute_loop _ _ _) as [[o b]|e|w]; [|..|done].
    + destruct Hl as [_ Hl]. intros k. rewrite elem_of_collect, Hf.
      intros [(? & ? & _)|(f & Hin & <-)]; [done|]. rewrite Forall_forall in Hl.
      apply elem_of_dom. by apply Hl.
    + destruct Hl as (f & Hin & Hn & ->). exists (group 1 (f_caps f)).
      rewrite elem_of_collect. split_and!; [right; by exists f|done|done].
Qed.

(** Without references nothing changes. *)
Lemma substituteParameters_none in_ params :
  (∀ k, is_key k → in_ ≠ ref2 k) → (∀ k a b, is_key k → in_ ≠ a +:+ ref k +:+ b) →
  substituteParameters in_ params = Ok (in_, true).
Proof.
  intros H2 H1. unfold substituteParameters.
  destruct (FindStringSubmatch nonStringParamExpr in_) as [f|] eqn:Hf.
  { apply nonString_Some in Hf as (k & Hk & -> & _). by destruct (H2 k). }
  destruct (FindAllStringSubmatch stringParamExpr in_) as [|f fs] eqn:E; [done|].
  destruct (proj1 (find_all_keys (String.length in_) true in_ (group 1 (f_caps f)) (le_n _)))
    as (Hk & a & b & Hab); [|by destruct (H1 _ a b Hk)].
  exists f. split; [|done]. unfold FindAllStringSubmatch in E. rewrite E. by left.
Qed.

Lemma no_dollar_spec s : no_dollar s = true ↔ str_exists (λ c, (c =? "$")%char) s = false.
Proof. unfold no_dollar. apply negb_true_iff. Qed.

(** [${{k}}] surrounded by text without dollar signs is not a reference. *)
Lemma embedded_ref2 k before after k' a b :
  is_key k → is_key k' → no_dollar before = true → no_dollar after = true →
  before +:+ ref2 k +:+ after ≠ a +:+ ref k' +:+ b.
Proof.
  intros [_ Hk] [Hne Hk'] Hb Ha%no_dollar_spec Heq.
  assert (String.length before ≤ String.length a) as Hle.
  { eapply safe_text_open; [by apply no_dollar_safe|]. rewrite Heq.
    unfold ref. by rewrite str_app_assoc. }
  apply str_app_cut in Heq as (x & -> & Heq); [|done]. unfold ref2 in Heq.
  destruct x as [|c x].
  - unfold ref in Heq. simpl in Heq. destruct k' as [|d k']; [done|]. simpl in Heq, Hk'.
    injection Heq as <- _. bool_hyps. by vm_compute in H.
  - simpl in Heq. injection Heq as <- Heq.
    apply (f_equal (str_exists (λ c, (c =? "$")%char))) in Heq. revert Heq.
    rewrite (str_exists_app _ x). simpl. rewrite orb_true_r.
    rewrite !str_exists_app, key_no_dollar, Ha by done. done.
Qed.

Lemma substituteParameters_ref2 k p params :
  is_key k → params !! k = Some p → substituteParameters (ref2 k) params = Ok (P_Value p, false).
Proof.
  intros Hk Hp. unfold substituteParameters. rewrite nonString_ref2 by done. simpl.
  by rewrite Hp, Replace1_self.
Qed.

(** Values that cannot introduce a new reference. *)
Definition plain_values (params : gmap string Param) : Prop :=
  map_Forall (λ _ p, no_dollar (P_Value p) = true) params.
(** Strings whose literal text does not interfere with the references. *)
Definition plain_text (in_ : string) : Prop :=
  Forall (λ t, safe_text t.1 = true) (segments in_).1.

Lemma substituteParameters_string in_ params :
  (∀ k, is_key k → in_ ≠ ref2 k) → collectReferencedParameters in_ ⊆ dom params →
  plain_values params → plain_text in_ →
  substituteParameters in_ params = Ok (expand params in_, true).
Proof.
  intros Hns Hdef Hv Ht. unfold substituteParameters, expand.
  destruct (FindStringSubmatch nonStringParamExpr in_) as [f|] eqn:Hf.
  { apply nonString_Some in Hf as (k & Hk & -> & _). by destruct (Hns k). }
  unfold plain_text in Ht. rewrite segments_eq in *. cbn [fst] in Ht.
  destruct (find_all_ref (String.length in_) true in_) as (Hr & Hfs & _); [done|].
  fold (FindAllStringSubmatch stringParamExpr in_) in Hr, Hfs.
  rewrite <- Hr at 1. apply (substitute_loop_expand params EmptyString); [done|].
  unfold tokens in Ht. rewrite Forall_fmap in Ht. rewrite Forall_forall in *.
  intros f Hin. destruct (Hfs f Hin) as [_ Hm]. split_and!; [by apply Ht|done|].
  assert (group 1 (f_caps f) ∈ dom params) as [p Hp]%elem_of_dom.
  { apply Hdef, elem_of_collect. eauto. }
  exists p. split; [done|]. by apply (Hv _ _ Hp).
Qed.

Lemma render_safe params toks tail :
  Forall (λ t, safe_text t.1 = true) toks → plain_values params →
  ∃ d, safe_text d = true ∧ render (value_of params) toks tail = d +:+ tail.
Proof.
  intros Ht Hv. induction Ht as [|[b k] toks Hb _ (d & Hd & IH)]; [by exists EmptyString|].
  rewrite render_cons, IH. exists (b +:+ value_of params k +:+ d).
  rewrite !str_app_assoc. split; [|done].
  apply safe_text_app; [done|]. apply safe_text_app; [|done].
  unfold value_of. destruct (params !! k) as [p|] eqn:Hp; [|done].
  apply no_dollar_safe. by apply (Hv _ _ Hp).
Qed.

Lemma expand_closed in_ params :
  plain_values params → plain_text in_ → MatchString stringParamExpr (expand params in_) = false.
Proof.
  intros Hv Ht. unfold expand. destruct (FindAll_ref in_) as (_ & _ & Htl).
  unfold plain_text in Ht. destruct (segments in_) as [toks tail]. simpl in *.
  destruct (render_safe params toks tail Ht Hv) as (d & Hd & ->).
  unfold MatchString. destruct (search stringParamExpr true (d +:+ tail)) as [f|] eqn:E; [|done].
  apply search_ref in E as (k & Hk & _ & _ & Heq). exfalso.
  assert (String.length d ≤ String.length (f_before f)) as Hle.
  { eapply safe_text_open; [done|]. rewrite Heq. unfold ref. by rewrite str_app_assoc. }
  apply str_app_cut in Heq as (x & _ & Hx); [|done].
  by destruct (search_ref_None _ _ x k (f_after f) Htl Hk).
Qed.

(** ** Properties *)

(** the references of a string are the names [k] of letters, digits and
    underscores for which [${k}] occurs anywhere in it, and the [k] for which
    the whole string is [${{k}}]. *)
Theorem collectReferencedParameters_spec (in_ k : string) :
  k ∈ collectReferencedParameters in_ ↔
  is_key k ∧ (in_ = ref2 k ∨ ∃ a b, in_ = a +:+ ref k +:+ b).
Proof. apply collect_spec. Qed.

(** C40: substitution in a string succeeds exactly when every parameter the
    string references is defined; otherwise it returns the error that names a
    referenced parameter that is not defined.  It never panics. *)
Theorem substituteParameters_total (in_ : string) (params : gmap string Param) :
  match substituteParameters in_ params with
  | Ok _ => collectReferencedParameters in_ ⊆ dom params
  | Err e => ∃ k, k ∈ collectReferencedParameters in_ ∧ params !! k = None ∧
               e = undefined_parameter k
  | Panic _ => False
  end.
Proof. apply substituteParameters_cases. Qed.

(** a string that is exactly [${{k}}] becomes the value of [k], marked as
    a non-string value; the same text with other text around it (free of
    dollar signs) is not a reference and is returned unchanged, as a string. *)
Theorem substituteParameters_nonstring (k before after : string) (p : Param)
    (params : gmap string Param) (Hk : is_key k) (Hp : params !! k = Some p)
    (Hbefore : no_dollar before = true) (Hafter : no_dollar after = true)
    (Hctx : before +:+ after ≠ EmptyString) :
  substituteParameters (ref2 k) params = Ok (P_Value p, false) ∧
  substituteParameters (before +:+ ref2 k +:+ after) params
    = Ok (before +:+ ref2 k +:+ after, true).
Proof.
  split; [by apply substituteParameters_ref2|].
  apply substituteParameters_none; [|intros; by apply embedded_ref2].
  intros k' Hk' Heq. destruct before as [|c before]; simpl in *.
  - unfold ref2 in Heq. simpl in Heq. injection Heq as Heq. rewrite str_app_assoc in Heq.
    simpl in Heq. destruct Hk as [_ Hk], Hk' as [_ Hk'].
    apply (f_equal (span is_word)) in Heq. rewrite !span_app in Heq by done.
    by injection Heq as _ ->.
  - unfold ref2 in Heq. simpl in Heq. injection Heq as -> _. done.
Qed.

Lemma substituteParameters_nonstring_witness :
  substituteParameters (ref2 "N") {[ "N" := value_param "N" "5" ]} = Ok ("5", false) ∧
  substituteParameters ("a-" +:+ ref2 "N" +:+ "-b") {[ "N" := value_param "N" "5" ]}
    = Ok ("a-" +:+ ref2 "N" +:+ "-b", true).
Proof.
  by apply (substituteParameters_nonstring "N" "a-" "-b" (value_param "N" "5")).
Defined.

(** C11: when no defined value contains a dollar sign and no stray [${] or
    final dollar sign occurs in the literal text before a reference, the
    code's successive [strings.Replace] calls compute the simultaneous
    replacement of all references, and no [${k}] reference is left in the
    result. *)
Theorem substituteParameters_expand (in_ : string) (params : gmap string Param)
    (Hns : ∀ k, is_key k → in_ ≠ ref2 k)
    (Hdef : collectReferencedParameters in_ ⊆ dom params)
    (Hvals : plain_values params) (Htext : plain_text in_) :
  substituteParameters in_ params = Ok (expand params in_, true) ∧
  MatchString stringParamExpr (expand params in_) = false.
Proof.
  split; [by apply substituteParameters_string|]. by apply expand_closed.
Qed.

Lemma substituteParameters_expand_witness :
  substituteParameters "vm-${A}-$x-${B}" {[ "A" := value_param "A" "1"; "B" := value_param "B" "2" ]}
    = Ok ("vm-1-$x-2", true) ∧
  MatchString stringParamExpr "vm-1-$x-2" = false.
Proof.
  apply (substituteParameters_expand "vm-${A}-$x-${B}").
  - intros k _. done.
  - vm_compute collectReferencedParameters. set_solver.
  - intros k p Hp. apply lookup_insert_Some in Hp as [[<- <-]|[_ Hp]]; [done|].
    by apply lookup_singleton_Some in Hp as [<- <-].
  - repeat constructor.
Defined.

(** the restriction to values without references is needed: a value that
    contains a reference is itself rescanned, so the reference the template
    wrote stays in the result and the one the value brought in is replaced. *)
Theorem substituteParameters_rescans_values :
  let params := {[ "A" := value_param "A" "${B}"; "B" := value_param "B" "x" ]} in
  substituteParameters "${A}-${B}" params = Ok ("x-${B}", true) ∧
  expand params "${A}-${B}" = "${B}-x".
Proof. vm_compute. by split. Qed.
