(* ===== verification/Generator.v ===== *)
(** * template/generator: random values from expressions

    [ExpressionValue.GenerateValue] replaces each expression of the form
    [[ranges]{length}] of its input by random characters of the ranges.  The
    source of randomness, [crypto/rand.Int], is an interface: a call returns
    a number below its bound, or an error. *)

From Stdlib Require Import Ascii ZArith Lia.
From stdpp Require Import prelude strings sorting pretty.
From S2P Require Import Prelude GoStrings Regex.

(** ** Interfaces *)

(** [rand.Int(rand.Reader, n)] with [R] the state of the reader; the
    documented contract is that the result is in [0, n). *)
Class RandSource (R : Type) := {
  rand_Int : Z → st R error Z;
  rand_Int_range n r v r' : (0 < n)%Z → rand_Int n r = Ok (v, r') → (0 ≤ v < n)%Z;
  rand_Int_total n r why : rand_Int n r ≠ Panic why;
}.

(** [type Generator interface]. *)
Record Generator (R : Type) := {
  GenerateValue : string → st R error string;
}.
Arguments GenerateValue {R} _ _ _.

(** ** Constants and patterns *)

Definition letterCharacters : string := "abcdefghijklmnopqrstuvwxyzABCDEFGHIJKLMNOPQRSTUVWXYZ".
Definition digitCharacters : string := "0123456789".
Definition alphanumericCharacters : string := letterCharacters +:+ digitCharacters.
Definition symbolCharacters : string :=
  "!" +:+ String "034" "#$%&'()*+,-./:;<=>?@[\]^_`{|}~".

Definition minLength : Z := 1.
Definition maxLength : Z := 255.

(** [[a-zA-Z0-9\-\\]] *)
Definition is_range_byte (c : ascii) : bool :=
  is_alnum c || (c =? "-")%char || (c =? "\")%char.

(** [\[([a-zA-Z0-9\-\\]+)\](\{(\w+)\})] *)
Definition exprPattern : regex :=
  RSeq (rdelim "[" is_range_byte "]" "" 1) (RGroup 2 (rdelim "{" is_word "}" "" 3)).

(** [.]: any character but a newline. *)
Definition is_any (c : ascii) : bool := negb (c =? "010")%char.

(** [(\\w)|(\\d)|(\\a)|(\\A)|(.-.)|([a-zA-Z0-9]+)] *)
Definition rangePattern : regex :=
  RAlt (RGroup 1 (RLit "\w")) (RAlt (RGroup 2 (RLit "\d"))
  (RAlt (RGroup 3 (RLit "\a")) (RAlt (RGroup 4 (RLit "\A"))
  (RAlt (RGroup 5 (RSeq (RByte is_any) (RSeq (RLit "-") (RByte is_any))))
        (RGroup 6 (RPlus is_alnum)))))).

(** ** expressionvalue.go *)

(** The slice [s[lo:hi]]; out of range it panics. *)
Definition slice {E} (s : string) (lo hi : Z) : res E string :=
  if ((0 <=? lo) && (lo <=? hi) && (hi <=? Z.of_nat (String.length s)))%Z
  then Ok (str_take (Z.to_nat (hi - lo)) (str_drop (Z.to_nat lo) s))
  else Panic "slice bounds out of range".

Definition extractRangesAndLength (expr : string) : res error (string * Z) :=
  let lengthStart := LastIndexByte expr "{" in
  ranges ← slice expr 1 (lengthStart - 1);
  if negb (MatchString rangePattern ranges)
  then Err (EMsg ("malformed ranges syntax: " +:+ ranges))
  else
    digits ← slice expr (lengthStart + 1) (Z.of_nat (String.length expr) - 1);
    length ← map_err (EWrap "malformed length syntax") (Atoi digits);
    if ((length <? minLength) || (length >? maxLength))%Z
    then Err (EMsg ("range must be within [1-255] characters: " +:+ pretty length))
    else Ok (ranges, length).

(** Characters as runes: the program only has ASCII here. *)
Definition chars (s : string) : list ascii := String.list_ascii_of_string s.
Definition unchars (l : list ascii) : string := String.string_of_list_ascii l.

Definition ascii_le (a b : ascii) : Prop := (N_of_ascii a ≤ N_of_ascii b)%N.
#[export] Instance ascii_le_dec : RelDecision ascii_le.
Proof. unfold ascii_le. solve_decision. Defined.

(** [slices.Compact]: drop equal neighbours. *)
Fixpoint Compact (l : list ascii) : list ascii :=
  match l with
  | [] => []
  | a :: l' =>
      match l' with
      | [] => [a]
      | b :: _ => if (a =? b)%char then Compact l' else a :: Compact l'
      end
  end.

Definition removeDuplicates (in_ : string) : string :=
  let out := merge_sort ascii_le (chars in_) in
  unchars (Compact out).

Definition subAlphabet (from to : ascii) : res error string :=
  let left := Index alphanumericCharacters (String from EmptyString) in
  let right := Index alphanumericCharacters (String to EmptyString) in
  if (left =? -1)%Z
  then Err (EMsg ("invalid start character in range: " +:+ String from EmptyString))
  else if (right =? -1)%Z
  then Err (EMsg ("invalid end character in range: " +:+ String to EmptyString))
  else if (left >? right)%Z
  then Err (EMsg ("invalid range specified: " +:+ String from EmptyString +:+ "-" +:+
                  String to EmptyString))
  else slice alphanumericCharacters left (right + 1).

(** The characters one match of [rangePattern] stands for. *)
Definition range_characters (rangeStr : string) : res error string :=
  if (rangeStr =? "\w")%string then Ok (letterCharacters +:+ digitCharacters +:+ "_")
  else if (rangeStr =? "\d")%string then Ok digitCharacters
  else if (rangeStr =? "\a")%string then Ok (letterCharacters +:+ digitCharacters)
  else if (rangeStr =? "\A")%string then Ok symbolCharacters
  else
    match rangeStr with
    | String f (String d (String t EmptyString)) =>
        if (d =? "-")%char then subAlphabet f t else Ok rangeStr
    | _ => Ok rangeStr
    end.

Fixpoint alphabet_loop (b : string) (matches : list found) : res error string :=
  match matches with
  | [] => Ok b
  | m :: matches' =>
      cs ← range_characters (f_match m);
      alphabet_loop (b +:+ cs) matches'
  end.

Definition getAlphabetFromRanges (ranges : string) : res error string :=
  match FindAllStringSubmatch rangePattern ranges with
  | [] => Err (EMsg ("malformed ranges syntax: " +:+ ranges))
  | matches =>
      b ← alphabet_loop EmptyString matches;
      Ok (removeDuplicates b)
  end.

(** [s[i]] for an index within the string. *)
Definition str_at (s : string) (i : Z) : option ascii := String.get (Z.to_nat i) s.

Section expression_value.
Context {R : Type} `{RandSource R}.

(** [for range length { ... }]. *)
Fixpoint generate_chars (n : nat) (alphabet : string) : st R error string :=
  match n with
  | O => mret EmptyString
  | S n' =>
      idx ← rand_Int (Z.of_nat (String.length alphabet));
      match str_at alphabet idx with
      | None => st_panic "index out of range"
      | Some c => rest ← generate_chars n' alphabet; mret (String c rest)
      end
  end.

Definition replaceWithGeneratedValue (in_ expr alphabet : string) (length : Z)
    : st R error string :=
  if (Z.of_nat (String.length alphabet) <? 1)%Z
  then st_fail (EMsg ("alphabet cannot be empty: " +:+ expr))
  else
    val ← generate_chars (Z.to_nat length) alphabet;
    mret (Replace1 in_ expr val).

(** One iteration of the loop of [GenerateValue], given the expression found. *)
Definition generate_step (s expr : string) : st R error string :=
  '(ranges, length) ← st_lift (extractRangesAndLength expr);
  alphabet ← st_lift (getAlphabetFromRanges ranges);
  replaceWithGeneratedValue s expr alphabet length.

Definition out_of_fuel : string := "GenerateValue: more iterations than the bound".

(** [for { idx := exprPattern.FindStringIndex(s); ... }] with a bound on the
    number of iterations. *)
Fixpoint generate_loop (fuel : nat) (s : string) : st R error string :=
  match fuel with
  | O => st_panic out_of_fuel
  | S fuel' =>
      match search exprPattern true s with
      | None => mret s
      | Some f => s' ← generate_step s (f_match f); generate_loop fuel' s'
      end
  end.

(** [type ExpressionValue struct], as an implementation of [Generator]. *)
Definition ExpressionValue (fuel : nat) : Generator R :=
  {| GenerateValue := generate_loop fuel |}.
End expression_value.

(** ** Expressions *)

Definition expr_text (r w : string) : string := "[" +:+ r +:+ "]{" +:+ w +:+ "}".
Definition is_expr (r w : string) : Prop :=
  (r ≠ EmptyString ∧ str_forall is_range_byte r = true) ∧
  (w ≠ EmptyString ∧ str_forall is_word w = true).

Lemma expr_text_eq r w : expr_text r w = ("[" +:+ r +:+ "]") +:+ ("{" +:+ w +:+ "}").
Proof. unfold expr_text. simpl. by rewrite !str_app_assoc. Qed.

Lemma run_exprPattern at0 s :
  run exprPattern at0 s =
  match delim_at "[" is_range_byte "]" "" 1 s with
  | [(m1, r1, k1)] =>
      match delim_at "{" is_word "}" "" 3 r1 with
      | [(m2, r2, k2)] => [(m1 +:+ m2, r2, k1 ++ (2, m2) :: k2)]
      | _ => []
      end
  | _ => []
  end.
Proof.
  unfold exprPattern. cbn [run]. rewrite run_rdelim by done.
  destruct (delim_at "[" is_range_byte "]" "" 1 s) as [|[[m1 r1] k1] l1] eqn:E1; [done|].
  pose proof E1 as (_ & _ & _ & _ & _ & _ & ->)%delim_at_inv.
  rewrite bind_cons. cbn [mbind list_bind]. rewrite app_nil_r, run_rdelim by done.
  destruct (delim_at "{" is_word "}" "" 3 r1) as [|[[m2 r2] k2] l2] eqn:E2; [done|].
  by pose proof E2 as (_ & _ & _ & _ & _ & _ & ->)%delim_at_inv.
Qed.

Lemma search_expr at0 s f :
  search exprPattern at0 s = Some f →
  ∃ r w, is_expr r w ∧ f_match f = expr_text r w ∧
    s = f_before f +:+ expr_text r w +:+ f_after f.
Proof.
  intros (Heq & Hh)%search_Some. rewrite run_exprPattern in Hh.
  destruct (delim_at "[" _ _ _ _ _) as [|[[m1 r1] k1] l1] eqn:E1; [done|].
  pose proof E1 as (r & _ & Hr & Hrf & -> & -> & ->)%delim_at_inv.
  destruct (delim_at "{" _ _ _ _ _) as [|[[m2 r2] k2] l2] eqn:E2; [done|].
  pose proof E2 as (w & _ & Hw & Hwf & -> & -> & ->)%delim_at_inv.
  simpl in Hh. injection Hh as Hm _ _. exists r, w.
  assert (f_match f = expr_text r w) as Hf by (by rewrite expr_text_eq, <- Hm).
  rewrite <- Hf. by split_and!.
Qed.

Lemma run_expr_hit at0 r w b : is_expr r w → run exprPattern at0 (expr_text r w +:+ b) ≠ [].
Proof.
  intros [[Hr Hrf] [Hw Hwf]]. rewrite run_exprPattern.
  pose proof (delim_at_hit "[" is_range_byte "]" "" eq_refl 1 r ("{" +:+ w +:+ "}" +:+ b) Hr Hrf) as H1.
  pose proof (delim_at_hit "{" is_word "}" "" eq_refl 3 w b Hw Hwf) as H2.
  unfold expr_text. simpl in *. rewrite !str_app_assoc. simpl. rewrite !str_app_assoc. simpl.
  rewrite H1, H2. done.
Qed.

Lemma search_expr_None at0 s a r w b :
  search exprPattern at0 s = None → is_expr r w → s ≠ a +:+ expr_text r w +:+ b.
Proof.
  intros Hs He ->. eapply run_expr_hit; [done|]. by eapply (search_None _ at0).
Qed.

(** [strings.Replace] replaces the occurrence that was matched. *)
Lemma Replace1_expr at0 s f v :
  search exprPattern at0 s = Some f →
  Replace1 s (f_match f) v = f_before f +:+ v +:+ f_after f.
Proof.
  intros Hs. pose proof (search_expr _ _ _ Hs) as (r & w & He & Hm & Heq).
  unfold Replace1. rewrite Hm, Heq. rewrite Cut_at; [done|]. intros a b Hab.
  destruct (decide (String.length (f_before f) ≤ String.length a)) as [|Hlt]; [done|].
  exfalso. apply (run_expr_hit (at0 && str_is_empty a) r w b He).
  apply (search_leftmost exprPattern at0 s f a); [done|by rewrite Heq|lia].
Qed.

(** No opening bracket, no expression. *)
Definition has_bracket (s : string) : bool := str_exists (λ c, (c =? "[")%char) s.

Lemma search_no_bracket at0 s : has_bracket s = false → search exprPattern at0 s = None.
Proof.
  intros Hb. destruct (search exprPattern at0 s) as [f|] eqn:E; [|done].
  apply search_expr in E as (r & w & _ & _ & Heq). exfalso.
  unfold has_bracket in Hb. rewrite Heq, str_exists_app in Hb.
  apply orb_false_iff in Hb as [_ Hb]. done.
Qed.

(** ** Ranges and length of an expression *)

Lemma LastIndexByte_app a c b :
  str_exists (λ d, (d =? c)%char) b = false →
  LastIndexByte (a +:+ String c b) c = Z.of_nat (String.length a).
Proof.
  intros Hb. assert (LastIndexByte b c = -1)%Z as Hm.
  { induction b as [|d b IH]; simpl in *; [done|]. bool_hyps. rewrite IH by done.
    destruct (Ascii.eqb_spec d c); done. }
  induction a as [|d a IH]; simpl.
  - rewrite Hm, Ascii.eqb_refl. done.
  - rewrite IH. destruct (Z.eqb_spec (Z.of_nat (String.length a)) (-1)); [exfalso|]; lia.
Qed.

Lemma slice_mid {E} a b c :
  @slice E (a +:+ b +:+ c) (Z.of_nat (String.length a))
    (Z.of_nat (String.length a) + Z.of_nat (String.length b)) = Ok b.
Proof.
  unfold slice. rewrite !str_length_app.
  replace (_ && _) with true.
  - replace (_ + _ - _)%Z with (Z.of_nat (String.length b)) by lia.
    by rewrite !Nat2Z.id, str_drop_app, str_take_app.
  - symmetry. rewrite !andb_true_iff, !Z.leb_le. lia.
Qed.

Lemma word_no_brace w : str_forall is_word w = true → str_exists (λ c, (c =? "{")%char) w = false.
Proof.
  intros Hw. rewrite str_exists_forall_neg. apply negb_false_iff.
  eapply str_forall_impl; [|exact Hw]. intros c. by byte_cases c.
Qed.

(** On a matched expression no slice is out of range; the function checks the
    ranges and parses the length. *)
Lemma extract_expr r w :
  is_expr r w →
  extractRangesAndLength (expr_text r w) =
  if negb (MatchString rangePattern r) then Err (EMsg ("malformed ranges syntax: " +:+ r))
  else
    n ← map_err (EWrap "malformed length syntax") (Atoi w);
    if ((n <? minLength) || (n >? maxLength))%Z
    then Err (EMsg ("range must be within [1-255] characters: " +:+ pretty n))
    else Ok (r, n).
Proof.
  intros [[_ _] [_ Hw]]. unfold extractRangesAndLength.
  assert (LastIndexByte (expr_text r w) "{" = Z.of_nat (String.length r) + 2)%Z as ->.
  { rewrite expr_text_eq. change ("{" +:+ w +:+ "}") with (String "{" (w +:+ "}")).
    rewrite LastIndexByte_app; [|by rewrite str_exists_app, word_no_brace].
    rewrite !str_length_app. simpl. lia. }
  assert (slice (E := error) (expr_text r w) 1 (Z.of_nat (String.length r) + 2 - 1) = Ok r) as ->.
  { pose proof (@slice_mid error "[" r ("]{" +:+ w +:+ "}")) as H. rewrite <- H. f_equal; simpl; lia. }
  cbn [mbind res_bind]. destruct (MatchString rangePattern r); [|done]. cbn [negb].
  assert (slice (E := error) (expr_text r w) (Z.of_nat (String.length r) + 2 + 1)
    (Z.of_nat (String.length (expr_text r w)) - 1) = Ok w) as ->; [|done].
  pose proof (@slice_mid error ("[" +:+ r +:+ "]{") w "}") as H. rewrite <- H.
  unfold expr_text. f_equal; [by rewrite !str_app_assoc|..]; rewrite !str_length_app; simpl; lia.
Qed.

Lemma Atoi_word w n : Atoi w = Ok n → str_forall is_word w = true →
  str_forall is_digit w = true ∧ n = digits_val 0 w.
Proof.
  destruct w as [|c w]; [done|]. unfold Atoi. intros Ha Hw. simpl in Hw. bool_hyps.
  assert ((c =? "-")%char = false ∧ (c =? "+")%char = false) as [E1 E2].
  { clear -H. revert H. byte_cases c. }
  rewrite E1, E2 in Ha. destruct (str_forall is_digit (String c w)) eqn:E; [|done].
  destruct (_ <=? _)%Z; [|done]. by injection Ha as <-.
Qed.

Lemma extract_expr_Ok r w r' n :
  is_expr r w → extractRangesAndLength (expr_text r w) = Ok (r', n) →
  r' = r ∧ MatchString rangePattern r = true ∧ (minLength ≤ n ≤ maxLength)%Z ∧
  str_forall is_digit w = true ∧ n = digits_val 0 w.
Proof.
  intros He. rewrite extract_expr by done.
  destruct (MatchString rangePattern r); [|done]. cbn [negb]. intros H. res_inv.
  apply map_err_Ok in H0. destruct He as [_ [_ Hw]].
  apply Atoi_word in H0 as [Hd ->]; [|done].
  destruct (_ || _) eqn:Hb; [done|]. injection H as <- <-.
  apply orb_false_iff in Hb as [H1%Z.ltb_ge H2]. rewrite Z.gtb_ltb in H2. apply Z.ltb_ge in H2.
  split_and!; done || lia.
Qed.

(** ** Alphabets *)

(** Every byte an alphabet can contain. *)
Definition is_alphabet_byte (c : ascii) : bool :=
  is_word c || str_exists (λ d, (d =? c)%char) symbolCharacters.

Lemma str_exists_elem c s : str_exists (λ d, (d =? c)%char) s = true ↔ c ∈ chars s.
Proof.
  induction s as [|d s IH]; simpl; [by rewrite elem_of_nil|].
  rewrite orb_true_iff, elem_of_cons, IH, Ascii.eqb_eq. naive_solver.
Qed.

Lemma str_forall_elem p s : str_forall p s = true ↔ ∀ c, c ∈ chars s → p c = true.
Proof.
  induction s as [|d s IH]; simpl.
  - split; [intros _ c Hc; by apply elem_of_nil in Hc|done].
  - rewrite andb_true_iff, IH. setoid_rewrite elem_of_cons. naive_solver.
Qed.

Lemma chars_unchars l : chars (unchars l) = l.
Proof. apply String.list_ascii_of_string_of_list_ascii. Qed.
Lemma chars_length s : length (chars s) = String.length s.
Proof. induction s; simpl; [done|by f_equal]. Qed.

#[local] Instance ascii_le_total : Total ascii_le.
Proof. intros a b. unfold ascii_le. lia. Qed.
#[local] Instance ascii_le_trans : Transitive ascii_le.
Proof. intros a b c. unfold ascii_le. lia. Qed.

Lemma Compact_elem l c : c ∈ Compact l ↔ c ∈ l.
Proof.
  induction l as [|a l IH]; [done|]. simpl. destruct l as [|b l]; [done|].
  destruct (Ascii.eqb_spec a b) as [->|].
  - rewrite IH, !elem_of_cons. naive_solver.
  - rewrite elem_of_cons, IH, !elem_of_cons. done.
Qed.

Definition ascii_lt (a b : ascii) : Prop := (N_of_ascii a < N_of_ascii b)%N.

Lemma Compact_sorted l : Sorted ascii_le l → StronglySorted ascii_lt (Compact l).
Proof.
  intros Hs. apply Sorted_StronglySorted in Hs; [|apply _].
  induction Hs as [|a l Hs IH Ha]; [constructor|]. simpl.
  destruct l as [|b l]; [repeat constructor|].
  destruct (Ascii.eqb_spec a b) as [->|Hne]; [done|].
  constructor; [done|]. rewrite Forall_forall in *. intros c Hc. rewrite Compact_elem in Hc.
  pose proof (Ha c Hc) as Hac. unfold ascii_le, ascii_lt in *.
  apply StronglySorted_inv in Hs as [_ Hb]. rewrite Forall_forall in Hb.
  assert (N_of_ascii a ≤ N_of_ascii b)%N as Hab by (apply Ha; left).
  assert (N_of_ascii a ≠ N_of_ascii b) as Hne'.
  { intros H. apply Hne. by rewrite <- (ascii_N_embedding a), H, ascii_N_embedding. }
  apply elem_of_cons in Hc as [->|Hc]; [lia|]. specialize (Hb c Hc). unfold ascii_le in Hb. lia.
Qed.

Lemma removeDuplicates_elem s c : c ∈ chars (removeDuplicates s) ↔ c ∈ chars s.
Proof.
  unfold removeDuplicates. rewrite chars_unchars, Compact_elem.
  by rewrite merge_sort_Permutation.
Qed.

Lemma removeDuplicates_sorted s : StronglySorted ascii_lt (chars (removeDuplicates s)).
Proof.
  unfold removeDuplicates. rewrite chars_unchars. apply Compact_sorted, Sorted_merge_sort, _.
Qed.

Lemma removeDuplicates_forall p s : str_forall p (removeDuplicates s) = str_forall p s.
Proof.
  apply eq_true_iff_eq. rewrite !str_forall_elem.
  split; intros H c Hc; apply H; by apply removeDuplicates_elem.
Qed.

Lemma removeDuplicates_nonempty s : s ≠ EmptyString → removeDuplicates s ≠ EmptyString.
Proof.
  destruct s as [|c s]; [done|]. intros _ H.
  assert (c ∈ chars (removeDuplicates (String c s))) as Hc by (apply removeDuplicates_elem; left).
  rewrite H in Hc. by apply elem_of_nil in Hc.
Qed.

Lemma slice_elem {E} s lo hi t c : @slice E s lo hi = Ok t → c ∈ chars t → c ∈ chars s.
Proof.
  unfold slice. case_match; [|done]. intros [= <-].
  rewrite <- !str_exists_elem. intros Hc.
  rewrite <- (str_take_drop (Z.to_nat lo) s), str_exists_app.
  rewrite <- (str_take_drop (Z.to_nat (hi - lo)) (str_drop (Z.to_nat lo) s)), str_exists_app.
  by rewrite Hc, orb_true_r.
Qed.

Lemma alnum_characters c : c ∈ chars alphanumericCharacters → is_alnum c = true.
Proof.
  revert c. apply (Forall_forall (λ c, is_alnum c = true)). repeat constructor.
Qed.

Lemma Index_byte_range s c : Index s (String c EmptyString) = (-1)%Z ∨
  (0 ≤ Index s (String c EmptyString) < Z.of_nat (String.length s))%Z.
Proof.
  unfold Index. destruct (Cut s _) as [[a b]|] eqn:E; [right|by left].
  apply Cut_Some in E as ->. rewrite !str_length_app. simpl. lia.
Qed.

Lemma subAlphabet_Ok from to a :
  subAlphabet from to = Ok a → a ≠ EmptyString ∧ str_forall is_alnum a = true.
Proof.
  unfold subAlphabet. repeat case_match; try done. intros Hs.
  split; [|apply str_forall_elem; intros c Hc; by eapply alnum_characters, slice_elem].
  apply Z.eqb_neq in H, H0. rewrite Z.gtb_ltb in H1. apply Z.ltb_ge in H1.
  destruct (Index_byte_range alphanumericCharacters from) as [|Hf]; [done|].
  destruct (Index_byte_range alphanumericCharacters to) as [|Ht]; [done|].
  intros ->. unfold slice in Hs. case_match; [|done].
  injection Hs as Hs. apply (f_equal String.length) in Hs. rewrite str_length_take in Hs.
  assert (String.length (str_drop (Z.to_nat (Index alphanumericCharacters (String from EmptyString)))
    alphanumericCharacters) = String.length alphanumericCharacters -
    Z.to_nat (Index alphanumericCharacters (String from EmptyString))) as Hd.
  { pose proof (str_take_drop (Z.to_nat (Index alphanumericCharacters (String from EmptyString)))
      alphanumericCharacters) as Htd. apply (f_equal String.length) in Htd.
    rewrite str_length_app, str_length_take in Htd. lia. }
  rewrite Hd in Hs. cbn [String.length] in Hs. lia.
Qed.

Lemma subAlphabet_no_panic from to why : subAlphabet from to ≠ Panic why.
Proof.
  unfold subAlphabet. repeat case_match; try done.
  apply Z.eqb_neq in H, H0. rewrite Z.gtb_ltb in H1. apply Z.ltb_ge in H1.
  destruct (Index_byte_range alphanumericCharacters from) as [|Hf]; [done|].
  destruct (Index_byte_range alphanumericCharacters to) as [|Ht]; [done|].
  unfold slice. case_match eqn:Hb; [done|]. exfalso.
  assert (true = false) as Hc; [|done]. rewrite <- Hb. symmetry.
  rewrite !andb_true_iff, !Z.leb_le. lia.
Qed.

(** The texts a range match can be. *)
Lemma range_match_cases at0 s a b k :
  (a, b, k) ∈ run rangePattern at0 s →
  a = "\w" ∨ a = "\d" ∨ a = "\a" ∨ a = "\A" ∨
  (∃ x y, a = String x (String "-" (String y EmptyString))) ∨
  (a ≠ EmptyString ∧ str_forall is_alnum a = true).
Proof.
  assert (∀ l x, x ∈ run (RLit l) at0 s → x.1.1 = l) as Hlit.
  { intros l x. simpl. case_match; rewrite ?list_elem_of_singleton, ?elem_of_nil; [by intros ->|done]. }
  unfold rangePattern. cbn [run]. rewrite !elem_of_app, !list_elem_of_fmap.
  intros [(x & Hx & H)|[(x & Hx & H)|[(x & Hx & H)|[(x & Hx & H)|[(x & Hx & H)|(x & Hx & H)]]]]];
    destruct x as [[a1 b1] k1]; injection Hx as -> -> ->.
  - left. by apply Hlit in H.
  - right; left. by apply Hlit in H.
  - do 2 right; left. by apply Hlit in H.
  - do 3 right; left. by apply Hlit in H.
  - do 4 right; left. apply list_elem_of_bind in H as ([[a2 b2] k2] & H & H2).
    apply list_elem_of_fmap in H as ([[a3 b3] k3] & [= -> -> ->] & H).
    apply list_elem_of_bind in H as ([[a4 b4] k4] & H & H4).
    apply list_elem_of_fmap in H as ([[a5 b5] k5] & [= -> -> ->] & H).
    destruct s as [|x s]; [by apply elem_of_nil in H2|].
    destruct (is_any x); [|by apply elem_of_nil in H2].
    apply list_elem_of_singleton in H2 as [= -> -> ->].
    destruct (strip_prefix "-" s) as [s'|]; [|by apply elem_of_nil in H4].
    apply list_elem_of_singleton in H4 as [= -> -> ->].
    destruct s' as [|y s']; [by apply elem_of_nil in H|].
    destruct (is_any y); [|by apply elem_of_nil in H].
    apply list_elem_of_singleton in H as [= -> -> ->]. by exists x, y.
  - do 5 right. destruct s as [|x s]; [by apply elem_of_nil in H|].
    destruct (is_alnum x) eqn:Hx; [|by apply elem_of_nil in H].
    apply list_elem_of_fmap in H as ([a2 b2] & [= -> -> ->] & H).
    apply prefixes_sound in H as [_ H]. simpl. by rewrite Hx, H.
Qed.

Lemma FindAll_elem r n at0 s f :
  f ∈ find_all n r at0 s →
  ∃ at1 a b, s = a +:+ f_match f +:+ b ∧
    (f_match f, f_after f, f_caps f) ∈ run r at1 (f_match f +:+ f_after f).
Proof.
  revert at0 s. induction n as [|n IH]; intros at0 s; simpl; [by rewrite elem_of_nil|].
  destruct (search r at0 s) as [g|] eqn:E; [|by rewrite elem_of_nil].
  apply search_Some in E as [Heq Hh]. rewrite elem_of_cons. intros [->|Hf].
  - eexists _, (f_before g), (f_after g). split; [done|].
    apply head_Some in Hh as [l ->]. by left.
  - apply IH in Hf as (at1 & a & b & Ha & Hin).
    exists at1, (f_before g +:+ f_match g +:+ a), b. split; [|done].
    by rewrite Heq, Ha, !str_app_assoc.
Qed.

(** The characters of one range: never empty, always printable; without [\A]
    letters, digits and underscores only. *)
Lemma range_characters_Ok at0 s a b k cs :
  (a, b, k) ∈ run rangePattern at0 s → range_characters a = Ok cs →
  cs ≠ EmptyString ∧ str_forall is_alphabet_byte cs = true ∧
  (a ≠ "\A" → str_forall is_word cs = true).
Proof.
  assert (∀ t, str_forall is_alnum t = true → str_forall is_alphabet_byte t = true ∧
    (a ≠ "\A" → str_forall is_word t = true)) as Haln.
  { intros t Ht. split; [|intros _]; eapply str_forall_impl; try exact Ht; intros c;
      unfold is_alphabet_byte, is_word; by intros ->. }
  intros [->|[->|[->|[->|[(x & y & ->)|[Hne Ha]]]]]]%range_match_cases.
  1-4: intros [= <-]; vm_compute; by split_and!.
  - intros Hc. assert (subAlphabet x y = Ok cs) as [Hn Hs]%subAlphabet_Ok; [|by auto].
    unfold range_characters in Hc.
    destruct (String.eqb_spec (String x (String "-" (String y EmptyString))) "\w") as [|_]; [done|].
    destruct (String.eqb_spec (String x (String "-" (String y EmptyString))) "\d") as [|_]; [done|].
    destruct (String.eqb_spec (String x (String "-" (String y EmptyString))) "\a") as [|_]; [done|].
    destruct (String.eqb_spec (String x (String "-" (String y EmptyString))) "\A") as [|_]; [done|].
    done.
  - intros Hc. assert (cs = a) as ->; [|by auto].
    unfold range_characters in Hc.
    destruct (String.eqb_spec a "\w") as [->|_]; [done|].
    destruct (String.eqb_spec a "\d") as [->|_]; [done|].
    destruct (String.eqb_spec a "\a") as [->|_]; [done|].
    destruct (String.eqb_spec a "\A") as [->|_]; [done|].
    destruct a as [|x [|y [|z [|w a]]]]; try (by injection Hc as <-).
    destruct (Ascii.eqb_spec y "-") as [->|_]; [|by injection Hc as <-].
    simpl in Ha. rewrite andb_false_r in Ha. done.
Qed.

Lemma range_characters_no_panic a why : range_characters a ≠ Panic why.
Proof.
  unfold range_characters. repeat (case_match; try done). apply subAlphabet_no_panic.
Qed.

(** ** Escapes

    Only the class [\A] yields characters that can form a new expression.
    [escape_ok] says that every backslash starts one of the other classes. *)
Fixpoint escape_ok (s : string) : bool :=
  match s with
  | EmptyString => true
  | String c s' =>
      (if (c =? "\")%char
       then match s' with
            | EmptyString => false
            | String d _ => (d =? "w")%char || (d =? "d")%char || (d =? "a")%char
            end
       else true) && escape_ok s'
  end.

Lemma escape_ok_suffix a b : escape_ok (a +:+ b) = true → escape_ok b = true.
Proof. induction a as [|c a IH]; simpl; [done|]. intros [_ H]%andb_true_iff. auto. Qed.

Lemma escape_ok_prefix a c b :
  (c =? "w")%char || (c =? "d")%char || (c =? "a")%char = false →
  escape_ok (a +:+ String c b) = true → escape_ok a = true.
Proof.
  intros Hc. induction a as [|d a IH]; [done|].
  change (String d a +:+ String c b) with (String d (a +:+ String c b)).
  cbn [escape_ok]. intros [Hd H]%andb_true_iff. rewrite IH, andb_true_r by done.
  destruct (d =? "\")%char; [|done]. destruct a as [|e a]; [|done].
  simpl in Hd. congruence.
Qed.

Lemma escape_ok_app a b : escape_ok a = true → escape_ok b = true → escape_ok (a +:+ b) = true.
Proof.
  induction a as [|c a IH]; [done|]. change (String c a +:+ b) with (String c (a +:+ b)).
  cbn [escape_ok]. intros [Hc Ha]%andb_true_iff Hb. rewrite IH, andb_true_r by done.
  destruct (c =? "\")%char; [|done]. by destruct a.
Qed.

Lemma word_escape_ok s : str_forall is_word s = true → escape_ok s = true.
Proof.
  induction s as [|c s IH]; [done|]. simpl. intros H. bool_hyps. rewrite IH by done.
  rewrite andb_true_r. destruct (Ascii.eqb_spec c "\") as [->|]; [by vm_compute in H|done].
Qed.

Lemma alphabet_loop_Ok p b fs al :
  Forall (λ f, ∀ cs, range_characters (f_match f) = Ok cs →
    cs ≠ EmptyString ∧ str_forall p cs = true) fs →
  alphabet_loop b fs = Ok al →
  ∃ cs, al = b +:+ cs ∧ str_forall p cs = true ∧ (fs ≠ [] → cs ≠ EmptyString).
Proof.
  intros Hfs. revert b. induction Hfs as [|f fs Hf _ IH]; intros b; simpl; intros H; res_inv.
  - exists EmptyString. by rewrite str_app_nil_r.
  - destruct (Hf _ H0) as [Hne Hp]. apply IH in H as (cs & -> & Hcs & _).
    eexists. rewrite str_app_assoc. split; [done|]. rewrite str_forall_app, Hp, Hcs.
    split; [done|]. intros _. destruct x; [done|]. done.
Qed.

Lemma getAlphabet_Ok ranges al :
  getAlphabetFromRanges ranges = Ok al →
  al ≠ EmptyString ∧ str_forall is_alphabet_byte al = true ∧
  (escape_ok ranges = true → str_forall is_word al = true) ∧
  StronglySorted ascii_lt (chars al).
Proof.
  unfold getAlphabetFromRanges.
  destruct (FindAllStringSubmatch rangePattern ranges) as [|f fs] eqn:E; [done|].
  intros H. res_inv. rewrite !removeDuplicates_forall.
  assert (∀ p, (∀ g cs, g ∈ f :: fs → range_characters (f_match g) = Ok cs →
    cs ≠ EmptyString ∧ str_forall p cs = true) → ∃ cs, x = EmptyString +:+ cs ∧
    str_forall p cs = true ∧ (f :: fs ≠ [] → cs ≠ EmptyString)) as Hp.
  { intros p Hp. eapply alphabet_loop_Ok; [|exact H0]. apply Forall_forall. naive_solver. }
  assert (∀ g, g ∈ f :: fs → ∃ at1 a b, ranges = a +:+ f_match g +:+ b ∧
    (f_match g, f_after g, f_caps g) ∈ run rangePattern at1 (f_match g +:+ f_after g)) as Hin.
  { intros g Hg. rewrite <- E in Hg. by eapply FindAll_elem. }
  split_and!; [| | |apply removeDuplicates_sorted].
  - destruct (Hp (λ _, true)) as (cs & -> & _ & Hcs).
    + intros g cs (at1 & a & b & _ & Hr)%Hin Hg.
      destruct (range_characters_Ok _ _ _ _ _ _ Hr Hg) as (Hne & Ha & _).
      split; [done|]. by eapply str_forall_impl; [|exact Ha].
    + apply removeDuplicates_nonempty. by apply Hcs.
  - destruct (Hp is_alphabet_byte) as (cs & -> & Hcs & _); [|done].
    intros g cs (at1 & a & b & _ & Hr)%Hin Hg.
    by destruct (range_characters_Ok _ _ _ _ _ _ Hr Hg) as (Hne & Ha & _).
  - intros Hesc. destruct (Hp is_word) as (cs & -> & Hcs & _); [|done].
    intros g cs (at1 & a & b & Heq & Hr)%Hin Hg.
    destruct (range_characters_Ok _ _ _ _ _ _ Hr Hg) as (Hne & _ & Hw).
    split; [done|]. apply Hw. intros HA. rewrite Heq, HA in Hesc.
    apply escape_ok_suffix in Hesc. done.
Qed.

Lemma alphabet_loop_no_panic b fs why : alphabet_loop b fs ≠ Panic why.
Proof.
  revert b. induction fs as [|f fs IH]; intros b; simpl; [done|].
  destruct (range_characters (f_match f)) eqn:E; simpl; [apply IH|done|].
  by apply range_characters_no_panic in E.
Qed.

Lemma getAlphabet_no_panic ranges why : getAlphabetFromRanges ranges ≠ Panic why.
Proof.
  unfold getAlphabetFromRanges.
  destruct (FindAllStringSubmatch rangePattern ranges) as [|f fs]; [done|].
  destruct (alphabet_loop EmptyString (f :: fs)) eqn:E; simpl; [done..|].
  by apply alphabet_loop_no_panic in E.
Qed.

Lemma extract_no_panic r w why :
  is_expr r w → extractRangesAndLength (expr_text r w) ≠ Panic why.
Proof.
  intros He. rewrite extract_expr by done. destruct (negb _); [done|].
  assert (∀ y, Atoi w ≠ Panic y) as Ha.
  { intros y. unfold Atoi. repeat (case_match; try done). }
  destruct (Atoi w) eqn:E; simpl; [by case_match|done|]. by destruct (Ha why0).
Qed.

(** ** Generation *)

Lemma span_unique p a c b a' c' b' :
  str_forall p a = true → p c = false → str_forall p a' = true → p c' = false →
  a +:+ String c b = a' +:+ String c' b' → a = a' ∧ String c b = String c' b'.
Proof.
  intros Ha Hc Ha' Hc' Heq. pose proof (span_app p a c b Ha Hc) as H1.
  rewrite Heq, span_app in H1 by done. by injection H1 as -> -> ->.
Qed.

Lemma expr_text_inj r w r' w' b b' :
  is_expr r w → is_expr r' w' → expr_text r w +:+ b = expr_text r' w' +:+ b' →
  r = r' ∧ w = w' ∧ b = b'.
Proof.
  intros [[_ Hr] [_ Hw]] [[_ Hr'] [_ Hw']]. rewrite !expr_text_eq, !str_app_assoc.
  simpl. rewrite ?str_app_assoc. simpl. intros [= Heq].
  apply (span_unique is_range_byte) in Heq as [-> [= Heq]]; [|done..].
  rewrite ?str_app_assoc in Heq. simpl in Heq.
  by apply (span_unique is_word) in Heq as [-> [= ->]].
Qed.

Section generation.
Context {R : Type} `{RandSource R}.

Lemma str_at_Some s i : (0 ≤ i < Z.of_nat (String.length s))%Z → ∃ c, str_at s i = Some c ∧ c ∈ chars s.
Proof.
  unfold str_at. intros Hi. assert (Z.to_nat i < String.length s) as Hn by lia.
  revert Hn. generalize (Z.to_nat i) as n. clear. induction s as [|c s IH]; intros n; simpl; [lia|].
  destruct n as [|n]; simpl.
  - intros _. exists c. split; [done|left].
  - intros Hn. destruct (IH n) as (d & -> & Hd); [lia|]. exists d. split; [done|by right].
Qed.

Lemma generate_chars_spec n alphabet (r : R) :
  alphabet ≠ EmptyString →
  match generate_chars n alphabet r with
  | Ok (v, _) => String.length v = n ∧ ∀ c, c ∈ chars v → c ∈ chars alphabet
  | Err _ => True
  | Panic _ => False
  end.
Proof.
  intros Hne. revert r. induction n as [|n IH]; intros r; simpl.
  - split; [done|]. intros c Hc. by apply elem_of_nil in Hc.
  - unfold mbind, st_bind.
    destruct (rand_Int (Z.of_nat (String.length alphabet)) r) as [[i r1]|e|why] eqn:E; [|done|].
    2: by apply rand_Int_total in E.
    apply rand_Int_range in E; [|destruct alphabet; simpl; [done|lia]].
    destruct (str_at_Some alphabet i E) as (c & -> & Hc). specialize (IH r1).
    destruct (generate_chars n alphabet r1) as [[v r2]|e|why]; [|done|done].
    destruct IH as [Hl Hv]. simpl. split; [by rewrite Hl|].
    intros d [->|Hd]%elem_of_cons; auto.
Qed.

(** One iteration: the matched expression is replaced by characters of its
    alphabet. *)
Lemma generate_step_spec at0 s f (r0 : R) :
  search exprPattern at0 s = Some f →
  match generate_step s (f_match f) r0 with
  | Ok (s', _) => ∃ r w al v, f_match f = expr_text r w ∧ is_expr r w ∧
      extractRangesAndLength (expr_text r w) = Ok (r, Z.of_nat (String.length v)) ∧
      getAlphabetFromRanges r = Ok al ∧ (∀ c, c ∈ chars v → c ∈ chars al) ∧
      s' = f_before f +:+ v +:+ f_after f
  | Err _ => True
  | Panic _ => False
  end.
Proof.
  intros Hs. pose proof (search_expr _ _ _ Hs) as (r & w & He & Hm & _).
  unfold generate_step, st_lift, mbind, st_bind, replaceWithGeneratedValue. rewrite Hm.
  destruct (extractRangesAndLength (expr_text r w)) as [[r' n]|e|why] eqn:Hx; [|done|].
  2: by apply extract_no_panic in Hx.
  pose proof (extract_expr_Ok _ _ _ _ He Hx) as (-> & _ & Hn & _ & _).
  destruct (getAlphabetFromRanges r) as [al|e|why] eqn:Ha; [|done|].
  2: by apply getAlphabet_no_panic in Ha.
  pose proof (getAlphabet_Ok _ _ Ha) as (Hne & _ & _ & _).
  destruct (_ <? 1)%Z; [done|]. unfold mbind, st_bind.
  pose proof (generate_chars_spec (Z.to_nat n) al r0 Hne) as Hg.
  destruct (generate_chars (Z.to_nat n) al r0) as [[v r1]|e|why]; [|done|done].
  destruct Hg as [Hl Hv]. simpl. exists r, w, al, v. unfold minLength in Hn.
  rewrite Hl, Z2Nat.id by lia. split_and!; try done.
  rewrite <- Hm. by eapply Replace1_expr.
Qed.

(** ** Termination

    Each iteration removes the opening bracket of the expression it replaces,
    and characters other than those of [\A] bring no new one. *)
Fixpoint brackets (s : string) : nat :=
  match s with
  | EmptyString => 0
  | String c s' => (if (c =? "[")%char then 1 else 0) + brackets s'
  end.

Lemma brackets_app a b : brackets (a +:+ b) = brackets a + brackets b.
Proof. induction a as [|c a IH]; simpl; [done|]. rewrite IH. lia. Qed.

Lemma brackets_forall p s :
  (∀ c, p c = true → (c =? "[")%char = false) → str_forall p s = true → brackets s = 0.
Proof.
  intros Hp. induction s as [|c s IH]; simpl; [done|]. intros Hs. bool_hyps.
  rewrite IH by done. by rewrite Hp.
Qed.

Lemma brackets_word s : str_forall is_word s = true → brackets s = 0.
Proof. apply brackets_forall. intros c. by byte_cases c. Qed.

Lemma brackets_expr r w : is_expr r w → brackets (expr_text r w) = 1.
Proof.
  intros [[_ Hr] [_ Hw]]. unfold expr_text. rewrite !brackets_app. simpl.
  rewrite (brackets_word w) by done. rewrite (brackets_forall is_range_byte r); [done| |done].
  intros c. by byte_cases c.
Qed.

Lemma generate_step_progress s f r0 s' r1 :
  search exprPattern true s = Some f → escape_ok s = true →
  generate_step s (f_match f) r0 = Ok (s', r1) →
  escape_ok s' = true ∧ brackets s' < brackets s.
Proof.
  intros Hs Hok Hg. pose proof (search_expr _ _ _ Hs) as (r & w & He & Hm & Heq).
  pose proof (generate_step_spec _ _ _ r0 Hs) as Hst. rewrite Hg in Hst.
  destruct Hst as (r2 & w2 & al & v & Hm2 & He2 & Hx & Ha & Hv & ->).
  rewrite Hm2 in Hm. rewrite Heq in Hok |- *. rewrite <- Hm in *. clear r w Hm He.
  assert (escape_ok (r2 +:+ "]{" +:+ w2 +:+ "}" +:+ f_after f) = true) as Hrest.
  { apply (escape_ok_suffix (f_before f +:+ "[")). rewrite !str_app_assoc.
    unfold expr_text in Hok. by rewrite !str_app_assoc in Hok. }
  assert (escape_ok r2 = true) as Hr2 by by eapply (escape_ok_prefix _ "]").
  assert (str_forall is_word v = true) as Hw.
  { apply str_forall_elem. intros c Hc%Hv. apply getAlphabet_Ok in Ha as (_ & _ & Ha & _).
    specialize (Ha Hr2). rewrite str_forall_elem in Ha. auto. }
  split.
  - assert (escape_ok (f_before f) = true) as Hb.
    { unfold expr_text in Hok. simpl in Hok. rewrite ?str_app_assoc in Hok.
      by eapply (escape_ok_prefix _ "["); [|exact Hok]. }
    apply escape_ok_app; [done|].
    apply escape_ok_app; [by apply word_escape_ok|].
    by do 2 apply escape_ok_suffix in Hok.
  - rewrite !brackets_app, brackets_expr by done. rewrite (brackets_word v) by done. lia.
Qed.

Lemma generate_loop_bound fuel s r :
  escape_ok s = true → brackets s < fuel →
  generate_loop fuel s r = generate_loop (S (brackets s)) s r ∧
  match generate_loop fuel s r with
  | Ok (out, _) => MatchString exprPattern out = false
  | Err _ => True
  | Panic _ => False
  end.
Proof.
  revert s r. induction fuel as [fuel IH] using lt_wf_ind. intros s r Hok Hlt.
  destruct fuel as [|fuel]; [lia|]. cbn [generate_loop].
  destruct (search exprPattern true s) as [f|] eqn:Hs.
  2: { simpl. unfold MatchString. by rewrite Hs. }
  unfold mbind, st_bind. pose proof (generate_step_spec _ _ _ r Hs) as Hst.
  destruct (generate_step s (f_match f) r) as [[s' r1]|e|why] eqn:Hg; [|done|done].
  destruct (generate_step_progress _ _ _ _ _ Hs Hok Hg) as [Hok' Hlt'].
  destruct (IH fuel ltac:(lia) s' r1 Hok' ltac:(lia)) as [-> Hm].
  destruct (IH (brackets s) ltac:(lia) s' r1 Hok' ltac:(lia)) as [-> _]. done.
Qed.

(** Errors come from the expression or from the random source. *)
Lemma generate_chars_Err n alphabet (r0 : R) e :
  generate_chars n alphabet r0 = Err e → ∃ m r1, rand_Int m r1 = Err e.
Proof.
  revert r0. induction n as [|n IH]; intros r0; simpl; [done|].
  unfold mbind, st_bind. destruct (rand_Int _ r0) as [[i r1]|e'|why] eqn:E; [|naive_solver|done].
  destruct (str_at alphabet i); [|done].
  destruct (generate_chars n alphabet r1) as [[v r2]|e'|why] eqn:E2; [done| |done].
  intros [= ->]. eauto.
Qed.

Lemma generate_step_Err at0 s f (r0 : R) r w e :
  search exprPattern at0 s = Some f → f_match f = expr_text r w → is_expr r w →
  generate_step s (f_match f) r0 = Err e →
  extractRangesAndLength (expr_text r w) = Err e ∨ getAlphabetFromRanges r = Err e ∨
  ∃ m r1, rand_Int m r1 = Err e.
Proof.
  intros Hs -> He. unfold generate_step, st_lift, mbind, st_bind, replaceWithGeneratedValue.
  destruct (extractRangesAndLength (expr_text r w)) as [[r' n]|e'|why] eqn:Hx; [|naive_solver|done].
  pose proof (extract_expr_Ok _ _ _ _ He Hx) as (-> & _ & Hn & _ & _).
  destruct (getAlphabetFromRanges r) as [al|e'|why] eqn:Ha; [|naive_solver|done].
  destruct (_ <? 1)%Z eqn:E.
  { pose proof (getAlphabet_Ok _ _ Ha) as (Hne & _). destruct al; [done|]. simpl in E.
    apply Z.ltb_lt in E. lia. }
  unfold mbind, st_bind. destruct (generate_chars _ _ _) as [[v r1]|e'|why] eqn:Hg; [done| |done].
  intros [= ->]. apply generate_chars_Err in Hg. eauto.
Qed.

(** The first expression of [before ++ expr ++ after] is [expr] when [before]
    has no bracket. *)
Lemma search_expr_first at0 before after r w :
  is_expr r w → has_bracket before = false →
  ∃ f, search exprPattern at0 (before +:+ expr_text r w +:+ after) = Some f ∧
    f_before f = before ∧ f_match f = expr_text r w ∧ f_after f = after.
Proof.
  intros He Hb. destruct (search exprPattern at0 (before +:+ expr_text r w +:+ after)) as [f|] eqn:Hs.
  2: { exfalso. by eapply search_expr_None in Hs. }
  exists f. split; [done|]. pose proof (search_expr _ _ _ Hs) as (r2 & w2 & He2 & Hm & Heq).
  assert (f_before f = before) as Hbf.
  { destruct (decide (String.length (f_before f) < String.length before)) as [Hlt|Hge].
    - exfalso. symmetry in Heq. apply str_app_cut in Heq as (d & -> & Hd); [|lia].
      unfold has_bracket in Hb. rewrite str_exists_app in Hb. apply orb_false_iff in Hb as [_ Hb].
      destruct d as [|c d]; [by rewrite str_app_nil_r in Hlt; lia|].
      unfold expr_text in Hd. simpl in Hd. injection Hd as <- _. done.
    - destruct (decide (String.length (f_before f) = String.length before)) as [Hl|Hl].
      + by apply str_app_length_inj in Heq as [-> _].
      + exfalso. apply (run_expr_hit (at0 && str_is_empty before) r w after He).
        apply (search_leftmost exprPattern at0 (before +:+ expr_text r w +:+ after) f before); [done|done|lia]. }
  rewrite Hbf in Heq. apply str_app_inv_l in Heq. rewrite Hm. split; [done|].
  by apply expr_text_inj in Heq as (-> & -> & ->).
Qed.

(** An input with one expression, free of [\A]. *)
Lemma generate_loop_single fuel before after r w (r0 : R) :
  is_expr r w → escape_ok r = true → has_bracket before = false → has_bracket after = false →
  match generate_loop (S (S fuel)) (before +:+ expr_text r w +:+ after) r0 with
  | Ok (out, _) => ∃ v al, out = before +:+ v +:+ after ∧
      Z.of_nat (String.length v) = digits_val 0 w ∧ (1 ≤ String.length v ≤ 255) ∧
      getAlphabetFromRanges r = Ok al ∧ (∀ c, c ∈ chars v → c ∈ chars al)
  | Err e => extractRangesAndLength (expr_text r w) = Err e ∨ getAlphabetFromRanges r = Err e ∨
      ∃ m r1, rand_Int m r1 = Err e
  | Panic _ => False
  end.
Proof.
  intros He Hesc Hb Ha. destruct (search_expr_first true before after r w He Hb) as (f & Hs & <- & Hm & <-).
  cbn [generate_loop]. rewrite Hs. unfold mbind, st_bind.
  pose proof (generate_step_spec _ _ _ r0 Hs) as Hst.
  destruct (generate_step _ (f_match f) r0) as [[s' r1]|e|why] eqn:Hg; [|by eapply generate_step_Err|done].
  destruct Hst as (r2 & w2 & al & v & Hm2 & He2 & Hx & Hal & Hv & ->).
  assert (expr_text r w +:+ "" = expr_text r2 w2 +:+ "") as Heq by (by rewrite <- Hm, <- Hm2).
  apply expr_text_inj in Heq as (<- & <- & _); [|done..].
  pose proof (extract_expr_Ok _ _ _ _ He Hx) as (_ & _ & Hn & _ & Hl).
  rewrite search_no_bracket; [exists v, al; unfold minLength, maxLength in Hn; split_and!; try done; lia|].
  unfold has_bracket in *. rewrite !str_exists_app, Hb, Ha, orb_false_r. simpl.
  pose proof (getAlphabet_Ok _ _ Hal) as (_ & _ & Hw & _). specialize (Hw Hesc).
  rewrite str_exists_forall_neg. apply negb_false_iff, str_forall_elem. intros c Hc%Hv.
  rewrite str_forall_elem in Hw. specialize (Hw c Hc). revert Hw. by byte_cases c.
Qed.


End generation.

(** ** Concrete random sources *)

(** A source that draws the indices of [script] in turn, over and over; an
    index that is not below the bound is drawn as 0. *)
Definition scripted_Int (script : list Z) (n : Z) (r : nat) : res error (Z * nat) :=
  let i := default 0%Z (script !! (r mod length script)) in
  Ok (if ((0 <=? i) && (i <? n))%Z then i else 0%Z, S r mod length script).

Definition scripted (script : list Z) : RandSource nat.
Proof.
  refine {| rand_Int := scripted_Int script |}.
  - unfold scripted_Int. intros n r v r' Hn [= <- <-]. destruct (_ && _) eqn:E; [|lia].
    apply andb_true_iff in E as [?%Z.leb_le ?%Z.ltb_lt]. lia.
  - done.
Defined.



(** The alphabet of [[\A\a]] has 94 characters; these are the positions of
    the nine characters of [[\A\a]{9}] in it. *)
Definition regenerating : list Z := [58; 59; 32; 59; 64; 60; 90; 24; 92]%Z.

Definition regenerated : string := expr_text "\A\a" "9".

Lemma regenerates_itself fuel :
  generate_loop (H := scripted regenerating) fuel regenerated 0 = Panic out_of_fuel.
Proof.
  induction fuel as [|fuel IH]; [done|].
  assert (generate_loop (H := scripted regenerating) (S fuel) regenerated 0 =
    generate_loop (H := scripted regenerating) fuel regenerated 0) as ->; [|done].
  cbn [generate_loop]. destruct (search exprPattern true regenerated) as [f|] eqn:E; [|done].
  assert (generate_step (H := scripted regenerating) regenerated (f_match f) 0 = Ok (regenerated, 0)) as Hs.
  { vm_compute in E. injection E as <-. vm_compute. done. }
  unfold mbind, st_bind. by rewrite Hs.
Qed.

(** the loop of [GenerateValue] scans its own output again.  With the
    class [\A] the generated text can contain a new expression, so there is a
    random source for which the valid input [[\A\a]{9}] reproduces itself
    and the loop never ends, and one for which the valid input [[\A]{6}]
    draws a malformed expression and fails. *)
Theorem GenerateValue_rescans_output :
  (∀ fuel, GenerateValue (@ExpressionValue nat (scripted regenerating) fuel) regenerated 0
           = Panic out_of_fuel) ∧
  (∀ fuel, GenerateValue (@ExpressionValue nat (scripted [22; 12; 24; 28; 26; 30]%Z) (S (S fuel)))
             (expr_text "\A" "6") 0 = Err (EMsg "malformed ranges syntax: -")).
Proof. split; [apply regenerates_itself|]. intros fuel. by vm_compute. Qed.

(** ** Ranges of characters *)

(** The position of a character in the order lower case, upper case, digits. *)
Definition rank (c : ascii) : N :=
  let n := N_of_ascii c in
  if is_lower c then n - 97 else if is_upper c then n - 65 + 26 else n - 48 + 52.

Definition in_range (from to c : ascii) : bool :=
  is_alnum c && (rank from <=? rank c)%N && (rank c <=? rank to)%N.

Definition all_bytes : list ascii := ascii_of_nat <$> seq 0 256.

Lemma all_bytes_elem c : c ∈ all_bytes.
Proof.
  unfold all_bytes. apply list_elem_of_fmap. exists (nat_of_ascii c).
  rewrite ascii_nat_embedding. split; [done|]. apply elem_of_seq.
  pose proof (nat_ascii_bounded c). lia.
Qed.

Lemma Index_alphanumeric c :
  Index alphanumericCharacters (String c EmptyString) = if is_alnum c then Z.of_N (rank c) else (-1)%Z.
Proof.
  assert (forallb (λ c, Z.eqb (Index alphanumericCharacters (String c EmptyString))
    (if is_alnum c then Z.of_N (rank c) else (-1)%Z)) all_bytes = true) as H by (vm_compute; reflexivity).
  rewrite forallb_forall in H. apply Z.eqb_eq, H, list_elem_of_In, all_bytes_elem.
Qed.

(** The characters at the positions [lo] to [hi], for each [lo] and [hi]. *)
Definition rank_between (lo hi : N) (c : ascii) : bool := ((lo <=? rank c) && (rank c <=? hi))%N.

Lemma alphanumeric_slice lo hi : (lo ≤ hi)%N → (hi < 62)%N →
  slice (E := error) alphanumericCharacters (Z.of_N lo) (Z.of_N hi + 1) =
  Ok (unchars (List.filter (rank_between lo hi) (chars alphanumericCharacters))).
Proof.
  intros Hlo Hhi.
  assert (forallb (λ i, forallb (λ j, (j <? i) ||
    match slice (E := error) alphanumericCharacters (Z.of_N (N.of_nat i)) (Z.of_N (N.of_nat j) + 1) with
    | Ok t => String.eqb t (unchars (List.filter (rank_between (N.of_nat i) (N.of_nat j))
        (chars alphanumericCharacters)))
    | _ => false
    end) (seq 0 62)) (seq 0 62) = true) as H by (vm_compute; reflexivity).
  rewrite forallb_forall in H. specialize (H (N.to_nat lo)). rewrite forallb_forall in H.
  specialize (λ A, H A (N.to_nat hi)). rewrite !N2Nat.id, !in_seq in H.
  specialize (H ltac:(lia) ltac:(lia)). apply orb_true_iff in H as [H|H].
  { apply Nat.ltb_lt in H. lia. }
  destruct (slice _ _ _); [|done..]. by apply String.eqb_eq in H as ->.
Qed.

Lemma rank_bound c : is_alnum c = true → (rank c < 62)%N.
Proof. by byte_cases c. Qed.

Lemma alphanumeric_elem c : c ∈ chars alphanumericCharacters ↔ is_alnum c = true.
Proof. split; [apply alnum_characters|]. rewrite <- str_exists_elem. by byte_cases c. Qed.

(** [subAlphabet] for every pair of bytes: with both letters or digits,
    and the first not after the second in the order lower case, upper case,
    digits, it returns exactly the characters from the first to the second;
    in every other case it returns an error. *)
Theorem subAlphabet_spec from to :
  match subAlphabet from to with
  | Ok a => is_alnum from = true ∧ is_alnum to = true ∧ (rank from ≤ rank to)%N ∧
      ∀ c, c ∈ chars a ↔ in_range from to c = true
  | Err _ => is_alnum from = false ∨ is_alnum to = false ∨ (rank to < rank from)%N
  | Panic _ => False
  end.
Proof.
  unfold subAlphabet. rewrite !Index_alphanumeric.
  destruct (is_alnum from) eqn:Hf; [|by left].
  destruct (is_alnum to) eqn:Ht; [|destruct (Z.eqb_spec (Z.of_N (rank from)) (-1)); [lia|right; by left]].
  destruct (Z.eqb_spec (Z.of_N (rank from)) (-1)), (Z.eqb_spec (Z.of_N (rank to)) (-1)); [lia..|].
  rewrite Z.gtb_ltb. destruct (Z.ltb_spec (Z.of_N (rank to)) (Z.of_N (rank from))); [right; right; lia|].
  rewrite alphanumeric_slice by (try apply rank_bound; done || lia).
  split_and!; [done..|lia|]. intros c. rewrite chars_unchars, list_elem_of_In, filter_In, <- list_elem_of_In.
  rewrite alphanumeric_elem. unfold in_range, rank_between. rewrite !andb_true_iff. tauto.
Qed.

(** ** Alphabets *)

Lemma chars_app a b : chars (a +:+ b) = chars a ++ chars b.
Proof. induction a as [|c a IH]; simpl; [done|by f_equal]. Qed.

Lemma alphabet_loop_elem b fs al c :
  alphabet_loop b fs = Ok al →
  c ∈ chars al ↔ c ∈ chars b ∨ ∃ f cs, f ∈ fs ∧ range_characters (f_match f) = Ok cs ∧ c ∈ chars cs.
Proof.
  revert b. induction fs as [|f fs IH]; intros b; simpl; intros H; res_inv.
  - split; [auto|]. intros [|(f & cs & Hf & _)]; [done|]. by apply elem_of_nil in Hf.
  - rewrite (IH _ H), chars_app, elem_of_app. split.
    + intros [[Hc|Hc]|(g & cs & Hg & Hcs & Hc)]; [by left|..]; right.
      * exists f, x. split; [by left|done].
      * exists g, cs. split; [by right|done].
    + intros [Hc|(g & cs & [->|Hg]%elem_of_cons & Hcs & Hc)]; [by do 2 left|left; right|right; eauto].
      rewrite Hcs in H0. by injection H0 as <-.
Qed.

(** the alphabet of an expression's ranges: it is never empty, strictly
    sorted (so free of duplicates), and contains exactly the characters the
    matches of the range pattern stand for. *)
Theorem getAlphabetFromRanges_spec ranges al :
  getAlphabetFromRanges ranges = Ok al →
  al ≠ EmptyString ∧ StronglySorted ascii_lt (chars al) ∧
  ∀ c, c ∈ chars al ↔ ∃ f cs, f ∈ FindAllStringSubmatch rangePattern ranges ∧
    range_characters (f_match f) = Ok cs ∧ c ∈ chars cs.
Proof.
  intros H. pose proof (getAlphabet_Ok _ _ H) as (Hne & _ & _ & Hs). split_and!; [done..|].
  intros c. unfold getAlphabetFromRanges in H.
  destruct (FindAllStringSubmatch rangePattern ranges) as [|f fs]; [done|]. res_inv.
  rewrite removeDuplicates_elem, (alphabet_loop_elem EmptyString (f :: fs) x c H0).
  cbn [chars String.list_ascii_of_string]. rewrite elem_of_nil. naive_solver.
Qed.

Lemma getAlphabetFromRanges_spec_witness :
  getAlphabetFromRanges "b-dac0" = Ok "0abcd" ∧ StronglySorted ascii_lt (chars "0abcd").
Proof.
  split; [reflexivity|]. apply (getAlphabetFromRanges_spec "b-dac0"). reflexivity.
Defined.

(** the character classes: [\w] stands for letters, digits and the
    underscore and [\a] for letters and digits (the comment of
    [ExpressionValue] leaves the digits out of both), [\d] for the digits and
    [\A] for the symbols; a dash between two ranges only binds the
    characters next to it. *)
Theorem getAlphabetFromRanges_classes :
  getAlphabetFromRanges "\w" = Ok "0123456789ABCDEFGHIJKLMNOPQRSTUVWXYZ_abcdefghijklmnopqrstuvwxyz" ∧
  getAlphabetFromRanges "\a" = Ok "0123456789ABCDEFGHIJKLMNOPQRSTUVWXYZabcdefghijklmnopqrstuvwxyz" ∧
  getAlphabetFromRanges "\d" = Ok digitCharacters ∧
  getAlphabetFromRanges "\A" = Ok symbolCharacters ∧
  getAlphabetFromRanges "A-F0-9" = Ok "0123456789ABCDEF" ∧
  getAlphabetFromRanges "abc-z" = Ok "abcz".
Proof. by vm_compute. Qed.
