(* ===== verification/Template.v ===== *)
(** * template.go: parameter values and objects

    Values of the parameters ([generateParameterValues]), the object of a
    template ([getVirtualMachineObject], [removeHardcodedNamespace]) and the
    visits over it: substituting all parameters and collecting all
    references. *)

From Stdlib Require Import Ascii ZArith Lia.
From stdpp Require Import prelude strings gmap pretty.
From S2P Require Import Prelude GoStrings Regex Json Visit Api Field Substitute Generator.

(** ** Parameter values *)

Section values.
Context {R : Type}.

Definition parameters_path (i : nat) : path := PathIndex (NewPath ["spec"; "parameters"]) i.

(** [st] with field errors. *)
Definition generate_value (g : Generator R) (p : path) (from : string) : st R field_error string :=
  λ r, map_err (λ e, Invalid (Child p "from") (BadString from) (Error e)) (GenerateValue g from r).

(** The value of one parameter, after the checks of its name. *)
Definition parameter_value (generators : gmap string (Generator R)) (p : path) (param : Param)
    : st R field_error Param :=
  newParam ←
    (if (P_Value param =? EmptyString)%string && negb (P_Generate param =? EmptyString)%string then
       match generators !! P_Generate param with
       | None => st_fail (Invalid (Child p "generate") (BadString (P_Generate param))
           ("unknown generator name '" +:+ P_Generate param +:+ "' for parameter '" +:+ P_Name param +:+ "'"))
       | Some g =>
           if (P_From param =? EmptyString)%string
           then st_fail (Invalid (Child p "from") (BadString (P_From param))
             ("from cannot be empty for parameter '" +:+ P_Name param +:+ "' using generator '" +:+
              P_Generate param +:+ "'"))
           else v ← generate_value g p (P_From param); mret (set_Value v param)
       end
     else mret param);
  if (P_Value newParam =? EmptyString)%string && P_Required newParam
  then st_fail (Required (Child p "value")
    ("parameter '" +:+ P_Name param +:+ "' is required and a value must be specified"))
  else mret newParam.

(** The loop, from index [i] on, with the names seen so far. *)
Fixpoint generate_values (generators : gmap string (Generator R)) (i : nat) (visited : gset string)
    (params : gmap string Param) (parameters : list Param) : st R field_error (gmap string Param) :=
  match parameters with
  | [] => mret params
  | param :: parameters' =>
      let p := parameters_path i in
      if (P_Name param =? EmptyString)%string
      then st_fail (Invalid (Child p "name") (BadString (P_Name param)) "parameter name is empty")
      else if bool_decide (P_Name param ∈ visited)
      then st_fail (Duplicate (Child p "name") (BadString (P_Name param)))
      else
        newParam ← parameter_value generators p param;
        generate_values generators (S i) ({[P_Name param]} ∪ visited)
          (<[P_Name newParam := newParam]> params) parameters'
  end.

Definition generateParameterValues (parameters : list Param) (generators : gmap string (Generator R))
    : st R field_error (gmap string Param) :=
  generate_values generators 0 ∅ ∅ parameters.
End values.

(** ** Objects *)

Definition decode (raw : string) : res error runtime_object :=
  obj ← Unmarshal_map raw; Ok (OUnstructured obj).

Definition vm_path : path := NewPath ["spec"; "virtualMachine"].

(** [DeepCopyObject] copies the value. *)
Definition getVirtualMachineObject (tplSpec : VirtualMachineTemplateSpec)
    : res field_error runtime_object :=
  match VirtualMachine tplSpec with
  | None => Err (Invalid vm_path (BadRaw None) "virtualMachine is required and cannot be empty")
  | Some ext =>
      if (Raw ext =? EmptyString)%string then
        match RE_Object ext with
        | None => Err (Invalid vm_path (BadRaw (Some ext)) "virtualMachine is required and cannot be empty")
        | Some obj => Ok obj
        end
      else
        match decode (Raw ext) with
        | Ok obj => Ok obj
        | Err e => Err (Invalid (Child vm_path "raw") (BadBytes (Raw ext))
            ("error decoding virtualMachine: " +:+ Error e))
        | Panic w => Panic w
        end
  end.

(** *** Namespaces of unstructured objects *)

(** [NestedFieldNoCopy]: [Ok None] is "not found". *)
Fixpoint NestedFieldNoCopy (val : json) (fields : list string) : res error (option json) :=
  match fields with
  | [] => Ok (Some val)
  | f :: fields' =>
      match val with
      | JNull => Ok None
      | JObj m => match assoc_get f m with None => Ok None | Some v => NestedFieldNoCopy v fields' end
      | _ => Err (EForeign "accessor error")
      end
  end.

Definition getNestedString (obj : option (list (string * json))) (fields : list string) : string :=
  match NestedFieldNoCopy (match obj with Some m => JObj m | None => JObj [] end) fields with
  | Ok (Some (JStr s)) => s
  | _ => EmptyString
  end.

Fixpoint RemoveNestedField (obj : list (string * json)) (fields : list string) : list (string * json) :=
  match fields with
  | [] => obj
  | [f] => assoc_delete f obj
  | f :: fields' =>
      match assoc_get f obj with
      | Some (JObj m) => assoc_set f (JObj (RemoveNestedField m fields')) obj
      | _ => obj
      end
  end.

(** *** Namespaces of typed objects

    A typed object is a pointer to a struct whose second field is its
    [ObjectMeta] (after [TypeMeta]); the namespace is the third field of that. *)
Definition TObjectMeta : gtype := TStruct "v1.ObjectMeta".

Definition typed_namespace (v : gval) : option string :=
  match v with
  | VPtr _ (VStruct _ (_ :: (_, VStruct t (_ :: _ :: (_, VString _ ns) :: _)) :: _)) =>
      if bool_decide (t = TObjectMeta) then Some ns else None
  | _ => None
  end.

Definition typed_set_namespace (ns : string) (v : gval) : gval :=
  match v with
  | VPtr pt (VStruct st (tm :: (e, VStruct t (name :: gen :: (e', VString ts _) :: rest)) :: fs)) =>
      if bool_decide (t = TObjectMeta)
      then VPtr pt (VStruct st (tm :: (e, VStruct t (name :: gen :: (e', VString ts ns) :: rest)) :: fs))
      else v
  | _ => v
  end.

Definition errNotObject : error := EMsg "object does not implement the Object interfaces".

Definition removeHardcodedNamespace (obj : runtime_object) : res error runtime_object :=
  let hardcoded ns := negb (ns =? EmptyString)%string && negb (MatchString stringParamExpr ns) in
  match obj with
  | OUnstructured o =>
      if hardcoded (getNestedString o ["metadata"; "namespace"])
      then Ok (OUnstructured ((λ m, RemoveNestedField m ["metadata"; "namespace"]) <$> o))
      else Ok obj
  | OTyped v =>
      match typed_namespace v with
      | None => Err errNotObject
      | Some ns => if hardcoded ns then Ok (OTyped (typed_set_namespace EmptyString v)) else Ok obj
      end
  end.

(** ** Visits over the object *)

(** [reflect.ValueOf(obj)] and the object after the visit. *)
Definition object_value (obj : runtime_object) : gval :=
  match obj with OUnstructured o => unstructured_value o | OTyped v => v end.

(** The JSON tree of an unstructured object that was visited. *)
Fixpoint value_json (v : gval) : json :=
  match v with
  | VString _ s => JStr s
  | VScalar t r => if bool_decide (t = TBool) then JBool (r =? "true")%string else JNum r
  | VSeq _ vs => JArr (value_json <$> vs)
  | VMap _ kvs => JObj ((λ kv, (match kv.1 with VString _ k => k | _ => EmptyString end, value_json kv.2)) <$> kvs)
  | VIface _ x | VPtr _ x => value_json x
  | VNil _ | VStruct _ _ => JNull
  end.

Definition value_object (obj : runtime_object) (v : gval) : runtime_object :=
  match obj with
  | OTyped _ => OTyped v
  | OUnstructured _ =>
      match v with
      | VPtr _ (VStruct _ [(_, VMap t kvs)]) =>
          match value_json (VMap t kvs) with JObj m => OUnstructured (Some m) | _ => OUnstructured None end
      | _ => OUnstructured None
      end
  end.

Definition visit_object_with {S} (tf : string → st S error (string * bool)) (obj : runtime_object)
    : st S error runtime_object :=
  v ← visitValue tf (Flags false false) (object_value obj); mret (value_object obj v).

(** The transformer of [substituteAllParameters]; it has no state. *)
Definition substitute_tf (params : gmap string Param) (in_ : string) : st unit error (string * bool) :=
  st_lift (substituteParameters in_ params).

Definition substituteAllParameters (obj : runtime_object) (params : gmap string Param)
    : res error runtime_object :=
  match visit_object_with (substitute_tf params) obj tt with
  | Ok (obj', _) => Ok obj'
  | Err e => Err e
  | Panic w => Panic w
  end.

(** The transformer of [collectAllReferencedParameters]; its state is the set
    [params] the closure adds to. *)
Definition collect_tf (in_ : string) : st (gset string) error (string * bool) :=
  λ params, Ok ((in_, true), collectReferencedParameters in_ ∪ params).

(** The object as the visit leaves it, with the references. *)
Definition collectAllReferencedParameters (obj : runtime_object)
    : res error (runtime_object * gset string) :=
  visit_object_with collect_tf obj ∅.

(** ** Parameter values: what the loop ensures *)

(** The value a parameter ends up with. *)
Definition value_rule {R} (generators : gmap string (Generator R)) (p : Param) (v : string) : Prop :=
  (P_Value p ≠ EmptyString → v = P_Value p) ∧
  (P_Value p = EmptyString → P_Generate p = EmptyString → v = EmptyString) ∧
  (P_Value p = EmptyString → P_Generate p ≠ EmptyString → P_From p ≠ EmptyString ∧
     ∃ g r1 r2, generators !! P_Generate p = Some g ∧ GenerateValue g (P_From p) r1 = Ok (v, r2)) ∧
  (P_Required p = true → v ≠ EmptyString).

(** The fields an error about a parameter can name. *)
Definition parameter_error (i : nat) (e : field_error) : Prop :=
  ∃ f, f ∈ ["name"; "generate"; "from"; "value"] ∧ FE_Field e = path_string (Child (parameters_path i) f).

Lemma set_Value_same p : set_Value (P_Value p) p = p.
Proof. by destruct p. Qed.

Lemma parameter_value_spec {R} (generators : gmap string (Generator R)) i p (r : R) :
  match parameter_value generators (parameters_path i) p r with
  | Ok (p', _) => ∃ v, p' = set_Value v p ∧ value_rule generators p v
  | Err e => parameter_error i e
  | Panic _ => ∃ g r1 w, generators !! P_Generate p = Some g ∧ GenerateValue g (P_From p) r1 = Panic w
  end.
Proof.
  unfold parameter_value, value_rule. rewrite st_bind_eq.
  assert (∀ v, P_Required (set_Value v p) = P_Required p ∧ P_Value (set_Value v p) = v) as Hset by done.
  destruct (String.eqb_spec (P_Value p) EmptyString) as [Hv|Hv]; cbn [andb];
    [destruct (String.eqb_spec (P_Generate p) EmptyString) as [Hg|Hg]; cbn [negb]|].
  - cbn [mret st_ret]. rewrite Hv. cbn. destruct (P_Required p) eqn:Hreq.
    + exists "value". split; [set_solver|done].
    + exists EmptyString. split; [by rewrite <- Hv, set_Value_same|]. naive_solver.
  - destruct (generators !! P_Generate p) as [g|] eqn:Hgen; [|exists "generate"; split; [set_solver|done]].
    destruct (String.eqb_spec (P_From p) EmptyString) as [Hf|Hf]; [exists "from"; split; [set_solver|done]|].
    rewrite st_bind_eq. unfold generate_value, map_err.
    destruct (GenerateValue g (P_From p) r) as [[v r']|e|w] eqn:E; [|exists "from"; split; [set_solver|done]|eauto].
    cbn [mret st_ret]. destruct (Hset v) as [-> ->].
    destruct (String.eqb_spec v EmptyString) as [->|Hne]; cbn [andb].
    + destruct (P_Required p) eqn:Hreq; [exists "value"; split; [set_solver|done]|].
      exists EmptyString. split; [done|]. naive_solver.
    + exists v. split; [done|]. naive_solver.
  - cbn [mret st_ret]. destruct (String.eqb_spec (P_Value p) EmptyString); [done|]. cbn [andb].
    exists (P_Value p). split; [by rewrite set_Value_same|]. naive_solver.
Qed.

(** The state of the loop before index [i]: the names of the parameters done. *)
Record loop_inv {R} (generators : gmap string (Generator R)) (done : list Param)
    (visited : gset string) (params : gmap string Param) : Prop := {
  inv_visited : visited = list_to_set (P_Name <$> done);
  inv_dom : dom params = visited;
  inv_nodup : NoDup (P_Name <$> done);
  inv_value p : p ∈ done → P_Name p ≠ EmptyString ∧
    ∃ v, params !! P_Name p = Some (set_Value v p) ∧ value_rule generators p v;
}.

Lemma loop_inv_step {R} (generators : gmap string (Generator R)) done visited params p v :
  loop_inv generators done visited params →
  P_Name p ≠ EmptyString → P_Name p ∉ visited → value_rule generators p v →
  loop_inv generators (done ++ [p]) ({[P_Name p]} ∪ visited) (<[P_Name p := set_Value v p]> params).
Proof.
  intros [Hvis Hdom Hnd Hval] Hne Hfresh Hv. constructor.
  - rewrite fmap_app, list_to_set_app_L, Hvis. simpl. set_solver.
  - rewrite dom_insert_L, Hdom. done.
  - rewrite fmap_app. apply NoDup_app. split_and!; [done| |apply NoDup_singleton].
    intros n Hn Hn2. apply list_elem_of_singleton in Hn2 as ->. apply Hfresh. rewrite Hvis.
    by apply elem_of_list_to_set.
  - intros q [Hq| ->%list_elem_of_singleton]%elem_of_app.
    + destruct (Hval q Hq) as (Hqn & w & Hw & Hr). split; [done|]. exists w. split; [|done].
      rewrite lookup_insert_ne; [done|]. intros Heq. apply Hfresh. rewrite <- Hdom.
      apply elem_of_dom. rewrite Heq. eauto.
    + split; [done|]. exists v. split; [|done]. by rewrite lookup_insert_eq.
Qed.

Lemma generate_values_spec {R} (generators : gmap string (Generator R)) done todo visited params (r : R) :
  loop_inv generators done visited params →
  match generate_values generators (length done) visited params todo r with
  | Ok (params', _) => loop_inv generators (done ++ todo) (dom params') params'
  | Err e => ∃ i p, (done ++ todo) !! i = Some p ∧ parameter_error i e
  | Panic _ => ∃ p g r1 w, p ∈ todo ∧ generators !! P_Generate p = Some g ∧ GenerateValue g (P_From p) r1 = Panic w
  end.
Proof.
  revert done visited params r. induction todo as [|p todo IH]; intros done visited params r Hinv; simpl.
  { rewrite app_nil_r. by rewrite (inv_dom _ _ _ _ Hinv). }
  assert ((done ++ p :: todo) !! length done = Some p) as Hlook by (by rewrite list_lookup_middle).
  destruct (String.eqb_spec (P_Name p) EmptyString) as [Hn|Hn].
  { exists (length done), p. split; [done|]. exists "name". split; [set_solver|done]. }
  case_bool_decide as Hvis.
  { exists (length done), p. split; [done|]. exists "name". split; [set_solver|done]. }
  rewrite st_bind_eq. pose proof (parameter_value_spec generators (length done) p r) as Hp.
  destruct (parameter_value _ _ p r) as [[p' r1]|e|w]; [|by eauto|].
  2: { destruct Hp as (g & r1 & w1 & Hg & HG). exists p, g, r1, w1. split; [by left|done]. }
  destruct Hp as (v & -> & Hv). specialize (IH (done ++ [p]) _ _ r1 (loop_inv_step _ _ _ _ _ _ Hinv Hn Hvis Hv)).
  rewrite <- app_assoc, length_app, Nat.add_1_r in IH. simpl in IH.
  change (P_Name (set_Value v p)) with (P_Name p).
  destruct (generate_values _ _ _ _ todo r1) as [[params' r2]|e|w]; [done|done|].
  destruct IH as (q & g & r3 & w3 & Hq & HG). exists q, g, r3, w3. split; [by right|done].
Qed.

Lemma generateParameterValues_inv {R} (generators : gmap string (Generator R)) ps (r : R) :
  match generateParameterValues ps generators r with
  | Ok (params, _) => loop_inv generators ps (dom params) params
  | Err e => ∃ i p, ps !! i = Some p ∧ parameter_error i e
  | Panic _ => ∃ p g r1 w, p ∈ ps ∧ generators !! P_Generate p = Some g ∧ GenerateValue g (P_From p) r1 = Panic w
  end.
Proof.
  apply (generate_values_spec generators [] ps ∅ ∅ r). constructor; [done|by rewrite dom_empty_L|constructor|].
  intros p Hp. by apply elem_of_nil in Hp.
Qed.

(** C17: [generateParameterValues]: on success the names are distinct and not
    empty and the map has exactly one entry per parameter, equal to it but
    for the value: a value that is set is kept, an empty value with a
    generator is the generator's output for [from], a required value is not
    empty.  An error names the field of an existing parameter; the function
    panics only if a generator does. *)
Theorem generateParameterValues_spec {R} (ps : list Param) (generators : gmap string (Generator R)) (r : R) :
  match generateParameterValues ps generators r with
  | Ok (params, _) =>
      NoDup (P_Name <$> ps) ∧ dom params = list_to_set (P_Name <$> ps) ∧
      ∀ p, p ∈ ps → P_Name p ≠ EmptyString ∧
        ∃ v, params !! P_Name p = Some (set_Value v p) ∧ value_rule generators p v
  | Err e => ∃ i p, ps !! i = Some p ∧ parameter_error i e
  | Panic _ => ∃ p g r1 w, p ∈ ps ∧ generators !! P_Generate p = Some g ∧ GenerateValue g (P_From p) r1 = Panic w
  end.
Proof.
  pose proof (generateParameterValues_inv generators ps r) as H.
  destruct (generateParameterValues ps generators r) as [[params r']|e|w]; [|done..].
  destruct H as [H1 H2 H3 H4]. split_and!; done.
Qed.

(** ** Visits of unstructured objects *)

Lemma value_json_go j : value_json (go_value j) = j ∧ value_json (any_value j) = j.
Proof.
  induction j as [|[]|lit|s|l IH|kvs IH] using json_ind'; try done.
  - assert (value_json (go_value (JArr l)) = JArr l) as H; [|by split].
    rewrite go_value_arr. cbn [value_json]. f_equal. rewrite <- list_fmap_compose.
    induction IH as [|x l [_ Hx] _ IH]; [done|]. rewrite fmap_cons. cbn. by rewrite Hx, IH.
  - assert (value_json (go_value (JObj kvs)) = JObj kvs) as H; [|by split].
    rewrite go_value_obj. cbn [value_json]. f_equal. rewrite <- list_fmap_compose.
    induction IH as [|[k x] l [_ Hx] _ IH]; [done|]. rewrite fmap_cons. cbn in *. by rewrite Hx, IH.
Qed.

Lemma value_object_unstructured o0 o :
  value_object (OUnstructured o0) (unstructured_value o) = OUnstructured o.
Proof.
  destruct o as [kvs|]; [|done]. unfold value_object, unstructured_value.
  change (go_value (JObj kvs)) with (VMap (TMap TString TAny) (go_entries kvs)) at 1. cbv iota.
  change (VMap (TMap TString TAny) (go_entries kvs)) with (go_value (JObj kvs)).
  by rewrite (proj1 (value_json_go (JObj kvs))).
Qed.

Lemma visit_object_with_unstructured {S} (tf : string → st S error (string * bool)) o s :
  visit_object_with tf (OUnstructured o) s = (o' ← transform_object tf o; mret (OUnstructured o')) s.
Proof.
  unfold visit_object_with. cbn [object_value]. rewrite !st_bind_eq, visit_unstructured, st_bind_eq.
  destruct (transform_object tf o s) as [[o' s']|e|w]; [|done..]. cbn [mret st_ret].
  by rewrite value_object_unstructured.
Qed.

(** *** Collecting references *)

(** Keys are distinct, at every level. *)
Fixpoint wf_json (j : json) : Prop :=
  match j with
  | JArr l => foldr and True (wf_json <$> l)
  | JObj kvs => NoDup kvs.*1 ∧ foldr and True ((λ kv, wf_json kv.2) <$> kvs)
  | _ => True
  end.

(** The references of all strings and keys of a tree. *)
Fixpoint refs_of (j : json) : gset string :=
  match j with
  | JStr s => collectReferencedParameters s
  | JArr l => ⋃ (refs_of <$> l)
  | JObj kvs => ⋃ ((λ kv, collectReferencedParameters kv.1 ∪ refs_of kv.2) <$> kvs)
  | _ => ∅
  end.
Definition refs_of_object (o : option (list (string * json))) : gset string :=
  match o with Some kvs => refs_of (JObj kvs) | None => ∅ end.

Lemma assoc_set_same {A} k (v : A) kvs : assoc_get k kvs = Some v → assoc_set k v kvs = kvs.
Proof.
  induction kvs as [|[j w] kvs IH]; simpl; [done|]. destruct (String.eqb_spec k j) as [->|].
  - by intros [= ->].
  - intros H. by rewrite IH.
Qed.

Definition same_entries (kvs : list (string * json)) : list (string * string * json) :=
  (λ kv, (kv.1, kv.1, kv.2)) <$> kvs.

Lemma rebuild_same kvs : NoDup kvs.*1 → rebuild kvs (same_entries kvs) = kvs.
Proof.
  intros Hnd. unfold rebuild. assert (deletes (same_entries kvs) = []) as ->.
  { clear Hnd. induction kvs as [|[k v] kvs IH]; [done|]. simpl. by rewrite decide_True. }
  assert (new_entries (same_entries kvs) = kvs) as Hnew.
  { unfold new_entries, same_entries. rewrite <- list_fmap_compose. clear.
    induction kvs as [|[k v] kvs IH]; [done|]. rewrite fmap_cons. by rewrite IH. }
  rewrite updates_distinct; rewrite Hnew; [|done]. simpl.
  assert (∀ us, (∀ kv, kv ∈ us → assoc_get kv.1 kvs = Some kv.2) →
    fold_left (λ m '(k', v'), assoc_set k' v' m) us kvs = kvs) as Hsame.
  { clear. induction us as [|[k v] us IH]; intros H; [done|]. simpl.
    rewrite assoc_set_same by (apply (H (k, v)); left). apply IH. intros kv Hkv. apply H. by right. }
  apply Hsame. intros [k v] Hin. by apply assoc_get_NoDup.
Qed.

(** Collecting adds the references of the tree and leaves it as it is. *)
Definition collects (j : json) : Prop := ∀ s,
  match transform collect_tf j s with
  | Ok (j', s') => s' = refs_of j ∪ s ∧ (wf_json j → j' = j)
  | _ => False
  end.

Lemma st_mapM_collects l s :
  Forall collects l →
  match st_mapM (transform collect_tf) l s with
  | Ok (l', s') => s' = ⋃ (refs_of <$> l) ∪ s ∧ (Forall wf_json l → l' = l)
  | _ => False
  end.
Proof.
  intros Hl. revert s. induction Hl as [|x l Hx _ IH]; intros s; [simpl; split; [set_solver|done]|].
  rewrite st_mapM_cons, st_bind_eq. specialize (Hx s).
  destruct (transform collect_tf x s) as [[x' s1]|e|w]; [|done..]. destruct Hx as [-> Hx].
  rewrite st_bind_eq. specialize (IH (refs_of x ∪ s)).
  destruct (st_mapM (transform collect_tf) l _) as [[l' s2]|e|w]; [|done..]. destruct IH as [-> IH].
  cbn [mret st_ret]. split; [rewrite fmap_cons; simpl; set_solver|].
  intros [H1 H2]%Forall_cons. by rewrite Hx, IH.
Qed.

Lemma entries_collects kvs s :
  Forall (λ kv, collects kv.2) kvs →
  match st_mapM (transform_entry collect_tf (transform collect_tf)) kvs s with
  | Ok (es, s') => s' = refs_of (JObj kvs) ∪ s ∧ (Forall (λ kv, wf_json kv.2) kvs → es = same_entries kvs)
  | _ => False
  end.
Proof.
  intros Hl. revert s. induction Hl as [|[k x] l Hx _ IH]; intros s; [simpl; split; [set_solver|done]|].
  rewrite st_mapM_cons, st_bind_eq. unfold transform_entry at 1, transform_key. cbn [fst snd] in *.
  rewrite !st_bind_eq. unfold collect_tf at 1. cbv iota beta. cbn [mret st_ret]. rewrite st_bind_eq.
  specialize (Hx (collectReferencedParameters k ∪ s)).
  destruct (transform collect_tf x _) as [[x' s1]|e|w]; [|done..]. destruct Hx as [-> Hx].
  cbn [mret st_ret]. rewrite st_bind_eq. specialize (IH (refs_of x ∪ (collectReferencedParameters k ∪ s))).
  destruct (st_mapM _ l _) as [[es s2]|e|w]; [|done..]. destruct IH as [-> IH].
  cbn [mret st_ret]. split; [cbn [refs_of]; rewrite fmap_cons; simpl; set_solver|].
  intros [H1 H2]%Forall_cons. unfold same_entries in *. rewrite fmap_cons. cbn in *. by rewrite Hx, IH.
Qed.

Lemma collects_all j : collects j.
Proof.
  induction j as [|b|lit|t|l IH|kvs IH] using json_ind'; intros s; cbn [transform].
  1-3: cbn; split; [set_solver|done].
  - unfold transform_string. rewrite st_bind_eq. cbn. split; [set_solver|done].
  - rewrite st_bind_eq. pose proof (st_mapM_collects l s IH) as H.
    destruct (st_mapM _ l s) as [[l' s']|e|w]; [|done..]. destruct H as [-> H]. cbn [mret st_ret].
    split; [done|]. cbn [wf_json]. rewrite foldr_and. intros Hw. by rewrite H.
  - rewrite st_bind_eq. pose proof (entries_collects kvs s IH) as H.
    destruct (st_mapM _ kvs s) as [[l' s']|e|w]; [|done..]. destruct H as [-> H]. cbn [mret st_ret].
    split; [done|]. cbn [wf_json]. rewrite foldr_and. intros [Hnd Hw]. by rewrite H, rebuild_same.
Qed.

Lemma collectAll_unstructured o :
  ∃ o', collectAllReferencedParameters (OUnstructured o) = Ok (OUnstructured o', refs_of_object o) ∧
    (match o with Some kvs => wf_json (JObj kvs) | None => True end → o' = o).
Proof.
  unfold collectAllReferencedParameters. rewrite visit_object_with_unstructured, st_bind_eq.
  destruct o as [kvs|]; [|by exists None].
  cbn [transform_object]. rewrite st_bind_eq.
  pose proof (entries_collects kvs ∅ ltac:(apply Forall_true; intros; apply collects_all)) as H.
  destruct (st_mapM _ kvs ∅) as [[es s']|e|w]; [|done..]. destruct H as [-> H]. cbn [mret st_ret].
  eexists. split; [rewrite union_empty_r_L; done|]. cbn [wf_json]. rewrite foldr_and. intros [Hnd Hw].
  by rewrite H, rebuild_same.
Qed.

(** [collectAllReferencedParameters] on an unstructured object always
    succeeds: it returns the references of every string value and every key,
    at any depth, and leaves the object as it was. *)
Theorem collectAllReferencedParameters_spec kvs :
  wf_json (JObj kvs) →
  collectAllReferencedParameters (OUnstructured (Some kvs)) =
  Ok (OUnstructured (Some kvs), refs_of (JObj kvs)).
Proof. intros Hw. destruct (collectAll_unstructured (Some kvs)) as (o' & -> & Ho). by rewrite Ho. Qed.

Lemma collectAllReferencedParameters_spec_witness :
  let kvs := [("metadata", JObj [("name", JStr "${NAME}")]); ("n", JStr "${{CPU}}")] in
  wf_json (JObj kvs) ∧
  collectAllReferencedParameters (OUnstructured (Some kvs)) = Ok (OUnstructured (Some kvs), refs_of (JObj kvs)).
Proof.
  assert (wf_json (JObj [("metadata", JObj [("name", JStr "${NAME}")]); ("n", JStr "${{CPU}}")])) as Hw.
  { repeat split; apply (bool_decide_unpack _); reflexivity. }
  split; [exact Hw|]. apply (collectAllReferencedParameters_spec _ Hw).
Defined.

(** *** Substituting parameters *)

(** Errors of a non-string value that does not fit where it is used. *)
Definition type_error (e : error) : Prop := (∃ t, e = nil_value t) ∨ ∃ v t, e = not_assignable v t.

(** The outcome of substituting in something with the references [refs]. *)
Definition subst_outcome {A} (params : gmap string Param) (refs : gset string) (m : res error A) : Prop :=
  match m with
  | Ok _ => refs ⊆ dom params
  | Err e => (∃ k, k ∈ refs ∧ params !! k = None ∧ e = undefined_parameter k) ∨ type_error e
  | Panic _ => False
  end.

Lemma subst_outcome_mono {A B} params refs refs' (m : res error A) (m' : res error B) :
  subst_outcome params refs m → refs ⊆ refs' →
  match m with Ok _ => subst_outcome params refs' m' | Err e => m' = Err e | Panic w => m' = Panic w end →
  subst_outcome params refs' m'.
Proof.
  intros Hm Hr. destruct m as [a|e|w]; [done| |done]. intros ->. simpl in *.
  destruct Hm as [(k & Hk & H)|H]; [left; exists k; split; [set_solver|done]|by right].
Qed.

Section substitute_all.
Context (params : gmap string Param).

Lemma substitute_tf_eq s u :
  substitute_tf params s u = match substituteParameters s params with
    | Ok a => Ok (a, u) | Err e => Err e | Panic w => Panic w end.
Proof. unfold substitute_tf, st_lift. by destruct (substituteParameters s params). Qed.

Lemma transform_string_outcome s u :
  subst_outcome params (collectReferencedParameters s) (transform_string (substitute_tf params) s u).
Proof.
  unfold transform_string. rewrite st_bind_eq, substitute_tf_eq.
  pose proof (substituteParameters_cases s params) as H.
  destruct (substituteParameters s params) as [[s' []]|e|w]; cbn; [done| |by left|done].
  destruct (Unmarshal s') as [[]|e|w]; cbn; try done. right; left. by eexists.
Qed.

Lemma transform_key_outcome s u :
  subst_outcome params (collectReferencedParameters s) (transform_key (substitute_tf params) s u).
Proof.
  unfold transform_key. rewrite st_bind_eq, substitute_tf_eq.
  pose proof (substituteParameters_cases s params) as H.
  destruct (substituteParameters s params) as [[s' []]|e|w]; cbn; [done| |by left|done].
  destruct (Unmarshal s') as [[]|e|w]; cbn; try done; right; ((by left; eexists) || (right; eauto)).
Qed.

Definition substitutes (j : json) : Prop := ∀ u,
  subst_outcome params (refs_of j) (transform (substitute_tf params) j u).

Lemma st_mapM_outcome {A B} (f : A → st unit error B) (refs : A → gset string) l u :
  Forall (λ x, ∀ u, subst_outcome params (refs x) (f x u)) l →
  subst_outcome params (⋃ (refs <$> l)) (st_mapM f l u).
Proof.
  intros Hl. revert u. induction Hl as [|x l Hx _ IH]; intros u; [simpl; set_solver|].
  rewrite st_mapM_cons, fmap_cons. cbn [union_list foldr]. rewrite st_bind_eq.
  eapply subst_outcome_mono; [apply (Hx u)|set_solver|]. pose proof (Hx u) as Hxu.
  destruct (f x u) as [[y u']|e|w]; [|done..]. rewrite st_bind_eq.
  eapply subst_outcome_mono; [apply (IH u')|set_solver|]. pose proof (IH u') as Hl'.
  destruct (st_mapM f l u') as [[ys u2]|e|w]; [|done..]. simpl in *. set_solver.
Qed.

Lemma transform_entry_outcome kv u :
  substitutes kv.2 →
  subst_outcome params (collectReferencedParameters kv.1 ∪ refs_of kv.2)
    (transform_entry (substitute_tf params) (transform (substitute_tf params)) kv u).
Proof.
  intros Hv. unfold transform_entry. rewrite st_bind_eq.
  eapply subst_outcome_mono; [apply (transform_key_outcome kv.1 u)|set_solver|].
  pose proof (transform_key_outcome kv.1 u) as Hk.
  destruct (transform_key _ kv.1 u) as [[k' u1]|e|w]; [|done..]. rewrite st_bind_eq.
  eapply subst_outcome_mono; [apply (Hv u1)|set_solver|]. specialize (Hv u1).
  destruct (transform _ kv.2 u1) as [[v' u2]|e|w]; [|done..]. simpl in *. set_solver.
Qed.

Lemma entries_outcome kvs u :
  Forall (λ kv, substitutes kv.2) kvs →
  subst_outcome params (refs_of (JObj kvs))
    (st_mapM (transform_entry (substitute_tf params) (transform (substitute_tf params))) kvs u).
Proof.
  intros Hl. apply (st_mapM_outcome _ (λ kv, collectReferencedParameters kv.1 ∪ refs_of kv.2)).
  eapply Forall_impl; [exact Hl|]. intros kv Hkv u0. by apply transform_entry_outcome.
Qed.

Lemma substitutes_all j : substitutes j.
Proof.
  induction j as [|b|lit|t|l IH|kvs IH] using json_ind'; intros u; cbn [transform].
  1-3: simpl; set_solver.
  - apply transform_string_outcome.
  - rewrite st_bind_eq. pose proof (st_mapM_outcome (transform (substitute_tf params)) refs_of l u IH) as H.
    by destruct (st_mapM _ l u) as [[l' s']|e|w].
  - rewrite st_bind_eq. pose proof (entries_outcome kvs u IH) as H.
    by destruct (st_mapM _ kvs u) as [[l' s']|e|w].
Qed.

Lemma substituteAll_outcome o :
  subst_outcome params (refs_of_object o) (substituteAllParameters (OUnstructured o) params).
Proof.
  unfold substituteAllParameters. rewrite visit_object_with_unstructured, st_bind_eq.
  destruct o as [kvs|]; [|simpl; set_solver]. cbn [transform_object]. rewrite st_bind_eq.
  pose proof (entries_outcome kvs tt ltac:(apply Forall_true; intros; apply substitutes_all)) as H.
  by destruct (st_mapM _ kvs tt) as [[es s']|e|w].
Qed.

(** [substituteAllParameters] on an unstructured object: it succeeds only
    if every parameter referenced anywhere in the object is defined; an error
    names a referenced parameter that is not defined, or says that a
    non-string value does not fit where it is used.  It never panics. *)
Theorem substituteAllParameters_outcome o :
  match substituteAllParameters (OUnstructured o) params with
  | Ok _ => refs_of_object o ⊆ dom params
  | Err e => (∃ k, k ∈ refs_of_object o ∧ params !! k = None ∧ e = undefined_parameter k) ∨ type_error e
  | Panic _ => False
  end.
Proof. apply substituteAll_outcome. Qed.
End substitute_all.

(** *** Substitution of plain objects *)

(** Strings that are not [${{k}}] references and whose text does not interfere
    with their references. *)
Definition plain_string (s : string) : Prop := (∀ k, is_key k → s ≠ ref2 k) ∧ plain_text s.

Fixpoint plain_json (j : json) : Prop :=
  match j with
  | JStr s => plain_string s
  | JArr l => foldr and True (plain_json <$> l)
  | JObj kvs => foldr and True ((λ kv, plain_string kv.1 ∧ plain_json kv.2) <$> kvs)
  | _ => True
  end.

(** All references replaced at once. *)
Fixpoint expand_json (params : gmap string Param) (j : json) : json :=
  match j with
  | JStr s => JStr (expand params s)
  | JArr l => JArr (expand_json params <$> l)
  | JObj kvs => JObj (rebuild kvs ((λ kv, (kv.1, expand params kv.1, expand_json params kv.2)) <$> kvs))
  | _ => j
  end.

Section plain.
Context (params : gmap string Param) (Hvals : plain_values params).

Lemma st_mapM_pure {S E A B} (f : A → st S E B) (g : A → B) l s :
  Forall (λ x, ∀ s, f x s = Ok (g x, s)) l → st_mapM f l s = Ok (g <$> l, s).
Proof.
  induction 1 as [|x l Hx _ IH]; [done|]. rewrite st_mapM_cons, st_bind_eq, Hx, st_bind_eq, IH. done.
Qed.

Lemma tf_plain s u : plain_string s → collectReferencedParameters s ⊆ dom params →
  substitute_tf params s u = Ok ((expand params s, true), u).
Proof.
  intros [Hk Ht] Hd. rewrite substitute_tf_eq. by rewrite substituteParameters_string.
Qed.

Lemma transform_plain j u : plain_json j → refs_of j ⊆ dom params →
  transform (substitute_tf params) j u = Ok (expand_json params j, u).
Proof.
  revert u. induction j as [|b|lit|t|l IH|kvs IH] using json_ind'; intros u Hp Hd; try done; cbn [transform].
  - unfold transform_string. by rewrite st_bind_eq, tf_plain.
  - rewrite st_bind_eq. cbn [plain_json refs_of] in *. rewrite foldr_and in Hp.
    rewrite (st_mapM_pure _ (expand_json params)); [done|].
    rewrite Forall_forall in *. intros x Hx u0. apply IH; [done|by apply Hp|].
    intros k Hk. apply Hd, elem_of_union_list. exists (refs_of x). split; [|done].
    apply list_elem_of_fmap. eauto.
  - rewrite st_bind_eq. cbn [plain_json refs_of] in *. rewrite foldr_and in Hp.
    rewrite (st_mapM_pure _ (λ kv, (kv.1, expand params kv.1, expand_json params kv.2))); [done|].
    rewrite Forall_forall in *. intros [k x] Hx u0. destruct (Hp _ Hx) as [Hp1 Hp2].
    assert (collectReferencedParameters k ∪ refs_of x ⊆ dom params) as Hkx.
    { intros j Hj. apply Hd, elem_of_union_list. exists (collectReferencedParameters k ∪ refs_of x).
      split; [|done]. apply list_elem_of_fmap. by exists (k, x). }
    unfold transform_entry, transform_key. cbn [fst snd] in *. rewrite !st_bind_eq.
    rewrite tf_plain by (done || set_solver). cbn [mret st_ret]. rewrite st_bind_eq.
    rewrite (IH _ Hx) by (done || set_solver). done.
Qed.

End plain.


(** ** Namespaces *)

Definition ns_of (o : option (list (string * json))) : string := getNestedString o ["metadata"; "namespace"].

(** What is kept of an object: every other top-level field and every other
    field of its metadata. *)
Definition same_but_namespace (m m' : list (string * json)) : Prop :=
  (∀ k, k ≠ "metadata" → assoc_get k m' = assoc_get k m) ∧
  match assoc_get "metadata" m, assoc_get "metadata" m' with
  | Some (JObj n), Some (JObj n') => ∀ k, k ≠ "namespace" → assoc_get k n' = assoc_get k n
  | a, b => a = b
  end.

Lemma RemoveNestedField_namespace m :
  ns_of (Some m) ≠ EmptyString →
  let m' := RemoveNestedField m ["metadata"; "namespace"] in
  ns_of (Some m') = EmptyString ∧ same_but_namespace m m'.
Proof.
  unfold ns_of, getNestedString, same_but_namespace. cbn [NestedFieldNoCopy RemoveNestedField].
  destruct (assoc_get "metadata" m) as [[| | | | |n]|]; try done. intros _. cbv zeta.
  rewrite assoc_get_set, String.eqb_refl, assoc_get_delete, String.eqb_refl.
  split; [done|]. split.
  - intros k Hk. rewrite assoc_get_set. by destruct (String.eqb_spec k "metadata").
  - intros k Hk. rewrite assoc_get_delete. by destruct (String.eqb_spec k "namespace").
Qed.

Lemma same_but_namespace_refl m : same_but_namespace m m.
Proof. split; [done|]. by destruct (assoc_get "metadata" m) as [[]|]. Qed.

(** [removeHardcodedNamespace] on an unstructured object never fails:
    afterwards the namespace is empty or contains a parameter reference, and
    nothing but the namespace has changed; a namespace with a reference is
    kept. *)
Theorem removeHardcodedNamespace_spec m :
  ∃ m', removeHardcodedNamespace (OUnstructured (Some m)) = Ok (OUnstructured (Some m')) ∧
    (ns_of (Some m') = EmptyString ∨ MatchString stringParamExpr (ns_of (Some m')) = true) ∧
    same_but_namespace m m' ∧
    (MatchString stringParamExpr (ns_of (Some m)) = true → m' = m).
Proof.
  unfold removeHardcodedNamespace. fold (ns_of (Some m)).
  destruct (String.eqb_spec (ns_of (Some m)) EmptyString) as [Hns|Hns]; cbn [negb andb].
  - exists m. split_and!; [done|by left|apply same_but_namespace_refl|done].
  - destruct (MatchString stringParamExpr (ns_of (Some m))) eqn:Hm; cbn [negb].
    + exists m. split_and!; [done|by right|apply same_but_namespace_refl|done].
    + destruct (RemoveNestedField_namespace m Hns) as [H1 H2]. eexists. split; [done|].
      split_and!; [by left|done|done].
Qed.

(** ** Decoding *)

Lemma assoc_set_Forall {A} (P : A → Prop) k v kvs :
  P v → Forall (λ kv, P kv.2) kvs → Forall (λ kv, P kv.2) (assoc_set k v kvs).
Proof.
  intros Hv. induction 1 as [|[j w] kvs Hw H IH]; simpl; [by repeat constructor|].
  destruct (k =? j)%string; by constructor.
Qed.

(** Every tree the decoder returns has distinct keys. *)
Lemma parse_wf fuel : ∀ depth s,
  (∀ j r, parse_value fuel depth s = Some (j, r) → wf_json j) ∧
  (∀ l r, parse_elems fuel depth s = Some (l, r) → Forall wf_json l) ∧
  (∀ acc l r, NoDup acc.*1 → Forall (λ kv, wf_json kv.2) acc →
    parse_members fuel depth acc s = Some (l, r) → NoDup l.*1 ∧ Forall (λ kv, wf_json kv.2) l).
Proof.
  induction fuel as [|fuel IH]; intros depth s; [done|]. split_and!.
  - intros j r. cbn [parse_value]. destruct (skip_ws s) as [|c s']; [done|]. cbv zeta iota.
    destruct (c =? "034")%char.
    { destruct (unquote 0 s') as [[t r']|]; [|done]. by intros [= <- <-]. }
    destruct (c =? "[")%char.
    { destruct (maxNestingDepth <=? depth)%Z; [done|]. destruct (expect "]" s'); [by intros [= <- <-]|].
      destruct (parse_elems fuel (depth + 1) s') as [[l r']|] eqn:E; [|done]. intros [= <- <-].
      apply (IH (depth + 1)%Z s') in E. by apply foldr_and. }
    destruct (c =? "{")%char.
    { destruct (maxNestingDepth <=? depth)%Z; [done|]. destruct (expect "}" s'); [intros [= <- <-]; split; [constructor|done]|].
      destruct (parse_members fuel (depth + 1) [] s') as [[l r']|] eqn:E; [|done]. intros [= <- <-].
      eapply (IH (depth + 1)%Z s') in E as [H1 H2]; [|constructor|constructor].
      split; [done|]. by apply foldr_and. }
    destruct (strip_prefix "true" (String c s')); [by intros [= <- <-]|].
    destruct (strip_prefix "false" (String c s')); [by intros [= <- <-]|].
    destruct (strip_prefix "null" (String c s')); [by intros [= <- <-]|].
    destruct (scan_number (String c s')) as [[n r']|]; [|done]. by intros [= <- <-].
  - intros l r. cbn [parse_elems]. intros H.
    destruct (parse_value fuel depth s) as [[v r1]|] eqn:E; [|done]. cbn [mbind option_bind] in H.
    apply (IH depth s) in E. destruct (expect "," r1) as [r2|].
    + destruct (parse_elems fuel depth r2) as [[l' r3]|] eqn:E2; [|done]. injection H as <- <-.
      apply (IH depth r2) in E2. by constructor.
    + destruct (expect "]" r1) as [r2|]; [|done]. injection H as <- <-. by repeat constructor.
  - intros acc l r Hnd Hacc. cbn [parse_members]. intros H.
    destruct (expect "034" s) as [s1|]; [|done]. cbn [mbind option_bind] in H.
    destruct (unquote 0 s1) as [[k s2]|]; [|done]. cbn [mbind option_bind] in H.
    destruct (expect ":" s2) as [s3|]; [|done]. cbn [mbind option_bind] in H.
    destruct (parse_value fuel depth s3) as [[v r1]|] eqn:E; [|done]. cbn [mbind option_bind] in H.
    apply (IH depth s3) in E.
    assert (NoDup (assoc_set k v acc).*1) as Hnd' by (by apply assoc_set_NoDup).
    assert (Forall (λ kv, wf_json kv.2) (assoc_set k v acc)) as Hacc' by (by apply assoc_set_Forall).
    destruct (expect "," r1) as [r2|]; [by apply (IH depth r2) in H|].
    destruct (expect "}" r1) as [r2|]; [|done]. cbn in H. by injection H as <- <-.
Qed.

Lemma Unmarshal_wf s j : Unmarshal s = Ok j → wf_json j.
Proof.
  unfold Unmarshal. destruct (parse_value (parse_fuel s) 0 s) as [[v r]|] eqn:E; [|done].
  apply (parse_wf _ 0%Z s) in E. destruct (str_is_empty (skip_ws r)); [|done]. by intros [= <-].
Qed.
