(* ===== verification/Parameters.v ===== *)
(** * parameters.go: overriding and validating parameters

    [MergeParameters] overrides template parameters with the values of a
    request, [ValidateParameterReferences] checks that references and
    definitions match.  Go leaves the order of iteration over a map open; it
    is an interface here, and the theorems hold for every order. *)

From Stdlib Require Import Ascii ZArith Lia.
From stdpp Require Import prelude strings gmap pretty.
From S2P Require Import Prelude Json Visit Api Field Substitute Template.

(** ** Iteration over maps *)

Class MapOrder := {
  range_map : ∀ {A : Type}, gmap string A → list (string * A);
  range_map_perm {A : Type} (m : gmap string A) : range_map m ≡ₚ map_to_list m;
}.

Definition list_order : MapOrder :=
  {| range_map A m := map_to_list m; range_map_perm A m := Permutation_refl _ |}.
Definition reverse_order : MapOrder.
Proof.
  refine {| range_map A m := reverse (map_to_list m) |}. intros A m. by rewrite reverse_Permutation.
Defined.

(** ** parameters.go *)

(** The inner loop: the first parameter named [k] gets the value [v];
    [None] when there is none. *)
Fixpoint set_first (k v : string) (ps : list Param) : option (list Param) :=
  match ps with
  | [] => None
  | p :: ps' =>
      if (P_Name p =? k)%string then Some (set_Value v p :: ps')
      else ps'' ← set_first k v ps'; Some (p :: ps'')
  end.

Definition not_in_template (k : string) : error := EMsg ("parameter " +:+ k +:+ " not found in template").

Fixpoint merge_loop (newTplParams : list Param) (params : list (string * string)) : res error (list Param) :=
  match params with
  | [] => Ok newTplParams
  | (k, v) :: params' =>
      match set_first k v newTplParams with
      | Some ps => merge_loop ps params'
      | None => Err (not_in_template k)
      end
  end.

Section parameters.
Context `{MapOrder}.

Definition MergeParameters (tplParams : list Param) (params : gmap string string) : res error (list Param) :=
  merge_loop tplParams (range_map params).

(** [definedParams[param.Name] = i] for each parameter. *)
Fixpoint defined_params (i : nat) (ps : list Param) (m : gmap string nat) : gmap string nat :=
  match ps with
  | [] => m
  | p :: ps' => defined_params (S i) ps' (<[P_Name p := i]> m)
  end.

Definition unused_warning (param : string) (i : nat) : string :=
  path_string (Child (parameters_path i) "name") +:+ ": " +:+ param +:+ " is defined but never referenced".

Definition undefined_error (param : string) : field_error :=
  Invalid vm_path (BadString param) ("references undefined parameter " +:+ param).

Definition ValidateParameterReferences (spec : VirtualMachineTemplateSpec)
    : res unit (list string * list field_error) :=
  match getVirtualMachineObject spec with
  | Err err => Ok ([], [err])
  | Panic w => Panic w
  | Ok obj =>
      match collectAllReferencedParameters obj with
      | Panic w => Panic w
      | Err cErr =>
          Ok ([], [Invalid vm_path (BadRaw (VirtualMachine spec))
            ("failed to collect parameter references: " +:+ Error cErr)])
      | Ok (_, objParams) =>
          let referencedParams := objParams ∪ collectReferencedParameters (Message spec) in
          let definedParams := defined_params 0 (Parameters spec) ∅ in
          let warnings := omap (λ '(param, i),
            if decide (param ∈ referencedParams) then None else Some (unused_warning param i))
            (range_map definedParams) in
          let errs := omap (λ '(param, _),
            if decide (is_Some (definedParams !! param)) then None else Some (undefined_error param))
            (range_map (set_to_map (λ k, (k, tt)) referencedParams : gmap string unit)) in
          Ok (warnings, errs)
      end
  end.
End parameters.

(** ** Merging *)

(** The reference: every first parameter of a name gets the value given for
    that name. *)
Fixpoint merge_ref (params : gmap string string) (ps : list Param) : list Param :=
  match ps with
  | [] => []
  | p :: ps' =>
      match params !! P_Name p with
      | Some v => set_Value v p :: merge_ref (delete (P_Name p) params) ps'
      | None => p :: merge_ref params ps'
      end
  end.

Lemma merge_ref_empty ps : merge_ref ∅ ps = ps.
Proof. induction ps as [|p ps IH]; [done|]. simpl. rewrite lookup_empty. by rewrite IH. Qed.

Lemma merge_ref_names m ps : P_Name <$> merge_ref m ps = P_Name <$> ps.
Proof.
  revert m. induction ps as [|p ps IH]; intros m; [done|]. simpl.
  destruct (m !! P_Name p); simpl; by rewrite IH.
Qed.

Lemma set_first_merge k v m ps :
  m !! k = None →
  set_first k v (merge_ref m ps) =
  if decide (k ∈ P_Name <$> ps) then Some (merge_ref (<[k := v]> m) ps) else None.
Proof.
  revert m. induction ps as [|p ps IH]; intros m Hm; simpl; [done|].
  destruct (String.eqb_spec (P_Name p) k) as [Heq|Hne].
  - rewrite Heq in *. rewrite Hm. simpl. rewrite Heq, String.eqb_refl, lookup_insert_eq, delete_insert_id by done.
    by rewrite decide_True by (by left).
  - rewrite lookup_insert_ne by done.
    destruct (m !! P_Name p) as [w|] eqn:Ew; simpl.
    + destruct (String.eqb_spec (P_Name p) k) as [|_]; [done|].
      rewrite IH by (by rewrite lookup_delete_ne). rewrite delete_insert_ne by done.
      destruct (decide (k ∈ P_Name <$> ps)) as [Hin|Hnin].
      * rewrite decide_True by (by right). done.
      * rewrite decide_False; [done|]. rewrite elem_of_cons. naive_solver.
    + destruct (String.eqb_spec (P_Name p) k) as [|_]; [done|]. rewrite IH by done.
      destruct (decide (k ∈ P_Name <$> ps)) as [Hin|Hnin].
      * rewrite decide_True by (by right). done.
      * rewrite decide_False; [done|]. rewrite elem_of_cons. naive_solver.
Qed.

Lemma merge_loop_spec m kvs ps :
  NoDup kvs.*1 → (∀ k, k ∈ kvs.*1 → m !! k = None) →
  match merge_loop (merge_ref m ps) kvs with
  | Ok l => l = merge_ref (list_to_map kvs ∪ m) ps ∧ ∀ k, k ∈ kvs.*1 → k ∈ P_Name <$> ps
  | Err e => ∃ k, k ∈ kvs.*1 ∧ k ∉ P_Name <$> ps ∧ e = not_in_template k
  | Panic _ => False
  end.
Proof.
  revert m. induction kvs as [|[k v] kvs IH]; intros m Hnd Hm; simpl.
  { rewrite (left_id_L ∅ (∪)). split; [done|]. intros k Hk. by apply elem_of_nil in Hk. }
  simpl in Hnd. apply NoDup_cons in Hnd as [Hk Hnd].
  rewrite set_first_merge by (apply Hm; left).
  destruct (decide (k ∈ P_Name <$> ps)) as [Hin|Hnin]; [|exists k; split; [by left|done]].
  assert (∀ j, j ∈ kvs.*1 → <[k:=v]> m !! j = None) as Hm'.
  { intros j Hj. rewrite lookup_insert_ne by (intros ->; done). apply Hm. by right. }
  specialize (IH (<[k:=v]> m) Hnd Hm'). destruct (merge_loop _ kvs) as [l|e|w]; [| |done].
  - destruct IH as [-> IH]. split.
    + f_equal. rewrite <- insert_union_l. symmetry. apply insert_union_r. by apply not_elem_of_list_to_map_1.
    + intros j [->|Hj]%elem_of_cons; auto.
  - destruct IH as (j & Hj & H). exists j. split; [by right|done].
Qed.

Lemma range_map_NoDup `{MapOrder} {A} (m : gmap string A) : NoDup (range_map m).*1.
Proof. rewrite range_map_perm. apply NoDup_fst_map_to_list. Qed.

Lemma range_map_keys `{MapOrder} {A} (m : gmap string A) k : k ∈ (range_map m).*1 ↔ k ∈ dom m.
Proof.
  rewrite range_map_perm, elem_of_dom, list_elem_of_fmap. split.
  - intros ([j x] & -> & Hin). apply elem_of_map_to_list in Hin. eauto.
  - intros [x Hx]. exists (k, x). split; [done|]. by apply elem_of_map_to_list.
Qed.

Lemma range_map_to_map `{MapOrder} {A} (m : gmap string A) : list_to_map (range_map m) = m.
Proof.
  rewrite <- (list_to_map_to_list m) at 2. apply list_to_map_proper; [apply range_map_NoDup|apply range_map_perm].
Qed.

Lemma Merge_cases `{MapOrder} (tplParams : list Param) (params : gmap string string) :
  match MergeParameters tplParams params with
  | Ok l => l = merge_ref params tplParams ∧ ∀ k, k ∈ dom params → k ∈ P_Name <$> tplParams
  | Err e => ∃ k, k ∈ dom params ∧ k ∉ P_Name <$> tplParams ∧ e = not_in_template k
  | Panic _ => False
  end.
Proof.
  unfold MergeParameters.
  pose proof (merge_loop_spec ∅ (range_map params) tplParams (range_map_NoDup params)
    ltac:(intros; apply lookup_empty)) as Hm.
  rewrite merge_ref_empty in Hm. rewrite range_map_to_map, (right_id_L ∅ (∪)) in Hm.
  destruct (merge_loop tplParams (range_map params)) as [l|e|w]; [| |done].
  - destruct Hm as [-> Hm]. split; [done|]. intros k Hk. by apply Hm, range_map_keys.
  - destruct Hm as (k & Hk & Hm). exists k. split; [by apply range_map_keys|done].
Qed.

Lemma merge_names `{MapOrder} tplParams params ps :
  MergeParameters tplParams params = Ok ps → P_Name <$> ps = P_Name <$> tplParams.
Proof. intros Hm. pose proof (Merge_cases tplParams params) as H'. rewrite Hm in H'. destruct H' as [-> _]. apply merge_ref_names. Qed.

(** The value of a parameter after merging. *)
Lemma merge_ref_elem params ps p :
  p ∈ merge_ref params ps → ∃ q, q ∈ ps ∧ (p = q ∨ ∃ v, params !! P_Name q = Some v ∧ p = set_Value v q).
Proof.
  revert params. induction ps as [|q ps IH]; intros params; [by intros ?%elem_of_nil|]. simpl.
  destruct (params !! P_Name q) as [v|] eqn:Hv; intros [->|Hp]%elem_of_cons.
  - exists q. split; [left|right; eauto].
  - apply IH in Hp as (q' & Hq' & Hp). exists q'. split; [by right|]. destruct Hp as [->|(v' & Hv' & ->)]; [by left|].
    right. exists v'. apply lookup_delete_Some in Hv' as [_ Hv']. done.
  - exists q. split; [left|by left].
  - apply IH in Hp as (q' & Hq' & Hp). exists q'. split; [by right|done].
Qed.

(** A given name is the name of a merged parameter with the given value. *)
Lemma merge_ref_value params ps k v :
  params !! k = Some v → k ∈ P_Name <$> ps → ∃ p, p ∈ merge_ref params ps ∧ P_Name p = k ∧ P_Value p = v.
Proof.
  revert params. induction ps as [|q ps IH]; intros params Hk Hin; [by apply elem_of_nil in Hin|]. simpl.
  csimpl in Hin. destruct (decide (k = P_Name q)) as [->|Hne].
  - rewrite Hk. exists (set_Value v q). split; [left|done].
  - apply elem_of_cons in Hin as [|Hin]; [done|].
    destruct (params !! P_Name q) as [v'|] eqn:Hv.
    + destruct (IH (delete (P_Name q) params)) as (p & Hp & H); [by rewrite lookup_delete_ne|done|].
      exists p. split; [by right|done].
    + destruct (IH params Hk Hin) as (p & Hp & H). exists p. split; [by right|done].
Qed.

(** C16: [MergeParameters], for every order of iteration over the map: it
    succeeds exactly when every name given exists in the template, and then
    replaces the value of the first parameter of each such name and nothing
    else; otherwise the error names a parameter that does not exist. *)
Theorem MergeParameters_spec `{MapOrder} (tplParams : list Param) (params : gmap string string) :
  match MergeParameters tplParams params with
  | Ok l => l = merge_ref params tplParams ∧ ∀ k, k ∈ dom params → k ∈ P_Name <$> tplParams
  | Err e => ∃ k, k ∈ dom params ∧ k ∉ P_Name <$> tplParams ∧ e = not_in_template k
  | Panic _ => False
  end.
Proof. apply Merge_cases. Qed.

(** ** Validation *)

(** The index recorded for a name is that of a parameter of that name. *)
Lemma defined_params_spec i ps m k :
  match defined_params i ps m !! k with
  | Some j => (∃ n p, j = i + n ∧ ps !! n = Some p ∧ P_Name p = k) ∨ (m !! k = Some j ∧ k ∉ P_Name <$> ps)
  | None => m !! k = None ∧ k ∉ P_Name <$> ps
  end.
Proof.
  revert i m. induction ps as [|p ps IH]; intros i m; simpl.
  { destruct (m !! k); [right|]; split; try done; apply not_elem_of_nil. }
  specialize (IH (S i) (<[P_Name p := i]> m)).
  destruct (defined_params (S i) ps (<[P_Name p:=i]> m) !! k) as [j|].
  - destruct IH as [(n & q & -> & Hn & Hq)|[Hm Hk]].
    + left. exists (S n), q. split_and!; [lia|done|done].
    + destruct (decide (P_Name p = k)) as [<-|Hne].
      * left. rewrite lookup_insert_eq in Hm. injection Hm as <-. exists 0, p. split_and!; [lia|done|done].
      * right. rewrite lookup_insert_ne in Hm by done. split; [done|].
        rewrite not_elem_of_cons. split; [congruence|done].
  - destruct IH as [Hm Hk]. destruct (decide (P_Name p = k)) as [<-|Hne].
    + by rewrite lookup_insert_eq in Hm.
    + rewrite lookup_insert_ne in Hm by done. split; [done|]. rewrite not_elem_of_cons. split; [congruence|done].
Qed.

Lemma defined_params_dom ps k : is_Some (defined_params 0 ps ∅ !! k) ↔ k ∈ P_Name <$> ps.
Proof.
  pose proof (defined_params_spec 0 ps ∅ k) as H. destruct (defined_params 0 ps ∅ !! k) as [j|].
  - split; [intros _|eauto]. destruct H as [(n & p & _ & Hn & <-)|[Hm _]]; [|by rewrite lookup_empty in Hm].
    apply list_elem_of_fmap. exists p. split; [done|]. by eapply list_elem_of_lookup_2.
  - destruct H as [_ H]. split; [by intros [? ?]|done].
Qed.

(** All references of a template: those of its object and its message. *)
Definition template_refs (spec : VirtualMachineTemplateSpec) (o : option (list (string * json))) : gset string :=
  refs_of_object o ∪ collectReferencedParameters (Message spec).

Lemma range_set_elem `{MapOrder} (X : gset string) k u :
  (k, u) ∈ range_map (set_to_map (λ k, (k, tt)) X : gmap string unit) ↔ k ∈ X.
Proof.
  rewrite range_map_perm, elem_of_map_to_list. destruct u. rewrite lookup_set_to_map by naive_solver.
  naive_solver.
Qed.

Lemma validate_errors `{MapOrder} spec o warnings errs :
  getVirtualMachineObject spec = Ok (OUnstructured o) →
  ValidateParameterReferences spec = Ok (warnings, errs) →
  ∀ e, e ∈ errs ↔ ∃ k, k ∈ template_refs spec o ∧ k ∉ P_Name <$> Parameters spec ∧ e = undefined_error k.
Proof.
  intros Hobj. unfold ValidateParameterReferences. rewrite Hobj.
  destruct (collectAll_unstructured o) as (o' & -> & _). cbv zeta. intros [= _ <-] e.
  rewrite list_elem_of_omap. split.
  - intros ([k u] & Hin & Hk). apply range_set_elem in Hin. case_decide as Hd; [done|]. injection Hk as <-.
    exists k. split_and!; [done| |done]. by rewrite <- defined_params_dom.
  - intros (k & Hin & Hk & ->). exists (k, tt). split; [by apply range_set_elem|].
    rewrite decide_False; [done|]. by rewrite defined_params_dom.
Qed.

(** The parameters a template references and does not define. *)
Definition undefined_refs (spec : VirtualMachineTemplateSpec) (o : option (list (string * json))) : gset string :=
  template_refs spec o ∖ list_to_set (P_Name <$> Parameters spec).

Lemma undefined_refs_elem spec o k :
  k ∈ undefined_refs spec o ↔ k ∈ template_refs spec o ∧ k ∉ P_Name <$> Parameters spec.
Proof. unfold undefined_refs. by rewrite elem_of_difference, elem_of_list_to_set. Qed.

Lemma undefined_refs_empty spec o :
  undefined_refs spec o = ∅ ↔ ∀ k, k ∈ template_refs spec o → k ∈ P_Name <$> Parameters spec.
Proof.
  rewrite elem_of_equiv_empty_L. setoid_rewrite undefined_refs_elem. split.
  - intros He k Hk. destruct (decide (k ∈ P_Name <$> Parameters spec)) as [|Hn]; [done|]. by destruct (He k).
  - intros Hall k [Hk Hn]. by apply Hn, Hall.
Qed.

Lemma validate_undefined `{MapOrder} spec o warnings errs :
  getVirtualMachineObject spec = Ok (OUnstructured o) →
  ValidateParameterReferences spec = Ok (warnings, errs) →
  (errs = [] ↔ undefined_refs spec o = ∅) ∧
  ∀ fe, fe ∈ errs ↔ ∃ k, k ∈ undefined_refs spec o ∧ fe = undefined_error k.
Proof.
  intros Hobj Hv. pose proof (validate_errors spec o warnings errs Hobj Hv) as He.
  assert (∀ fe, fe ∈ errs ↔ ∃ k, k ∈ undefined_refs spec o ∧ fe = undefined_error k) as He'.
  { intros fe. rewrite He. setoid_rewrite undefined_refs_elem. naive_solver. }
  split; [|done]. split.
  - intros ->. apply elem_of_equiv_empty_L. intros k Hk.
    assert (undefined_error k ∈ @nil field_error) as Hin by (apply He'; eauto). by apply elem_of_nil in Hin.
  - intros Hu. destruct errs as [|e errs]; [done|]. destruct (proj1 (He' e) ltac:(left)) as (k & Hk & _).
    rewrite Hu in Hk. by apply not_elem_of_empty in Hk.
Qed.

Lemma validate_warnings `{MapOrder} spec o warnings errs :
  getVirtualMachineObject spec = Ok (OUnstructured o) →
  ValidateParameterReferences spec = Ok (warnings, errs) →
  ∀ w, w ∈ warnings ↔ ∃ k i, defined_params 0 (Parameters spec) ∅ !! k = Some i ∧
    k ∉ template_refs spec o ∧ w = unused_warning k i.
Proof.
  intros Hobj. unfold ValidateParameterReferences. rewrite Hobj.
  destruct (collectAll_unstructured o) as (o' & -> & _). cbv zeta. intros [= <- _] w.
  rewrite list_elem_of_omap. split.
  - intros ([k i] & Hin & Hk). rewrite range_map_perm, elem_of_map_to_list in Hin.
    case_decide as Hd; [done|]. injection Hk as <-. eauto 6.
  - intros (k & i & Hin & Hk & ->). exists (k, i).
    split; [by rewrite range_map_perm, elem_of_map_to_list|]. by rewrite decide_False.
Qed.

Lemma validate_total `{MapOrder} spec o :
  getVirtualMachineObject spec = Ok (OUnstructured o) → is_ok (ValidateParameterReferences spec) = true.
Proof.
  intros Hobj. unfold ValidateParameterReferences. rewrite Hobj.
  by destruct (collectAll_unstructured o) as (o' & -> & _).
Qed.


(** A template with one unused parameter and one undefined reference. *)
Definition sample_spec : VirtualMachineTemplateSpec := {|
  VirtualMachine := Some (mkRaw (print (JObj [("name", JStr "vm-${NAME}-${X}")])) None);
  Parameters := [value_param "NAME" "a"; value_param "UNUSED" "b"];
  Message := "use ${NAME}";
|}.

