(* ===== verification/Processor.v ===== *)
(** * processor.go: from a template to a virtual machine

    [Process] generates the parameter values, takes the object of the
    template, drops a hard-coded namespace, substitutes the parameters,
    converts the object to a [VirtualMachine] and substitutes the message.
    The conversion of an unstructured object to the Go struct is the API
    machinery's; it is an interface here. *)

From Stdlib Require Import Ascii ZArith Lia.
From stdpp Require Import prelude strings gmap pretty.
From S2P Require Import Prelude Regex Json Visit Api Field Substitute Generator Template Parameters.

Definition TVirtualMachine : gtype := TPtr (TStruct "v1.VirtualMachine").

(** [vm.SetGroupVersionKind]: the first field of a typed object is its
    [TypeMeta], with the fields [Kind] and [APIVersion]. *)
Definition typed_set_gvk (kind apiVersion : string) (v : gval) : gval :=
  match v with
  | VPtr pt (VStruct st ((e, VStruct t ((e1, VString t1 _) :: (e2, VString t2 _) :: rest)) :: fs)) =>
      VPtr pt (VStruct st ((e, VStruct t ((e1, VString t1 kind) :: (e2, VString t2 apiVersion) :: rest)) :: fs))
  | _ => v
  end.
Definition typed_gvk (v : gval) : option (string * string) :=
  match v with
  | VPtr _ (VStruct _ ((_, VStruct _ ((_, VString _ kind) :: (_, VString _ apiVersion) :: _)) :: _)) =>
      Some (kind, apiVersion)
  | _ => None
  end.

(** [runtime.DefaultUnstructuredConverter.FromUnstructuredWithValidation] into
    a [*VirtualMachine]: the struct it fills in, or an error. *)
Class Converter := {
  FromUnstructured : option (list (string * json)) → res error gval;
  FromUnstructured_no_panic o w : FromUnstructured o ≠ Panic w;
  FromUnstructured_type o v : FromUnstructured o = Ok v → type_of v = TVirtualMachine;
  FromUnstructured_gvk o v : FromUnstructured o = Ok v → is_Some (typed_gvk v);
}.

(** [type processor struct]. *)
Record processor (R : Type) : Type := mkProcessor { generators : gmap string (Generator R) }.
Arguments mkProcessor {R} _.
Arguments generators {R} _.

Section process.
Context {R : Type} `{RandSource R} `{Converter}.

(** [GetDefaultProcessor] with the package's [once] and [defaultProcessor] as
    state: the first call creates the processor, later calls return it.  The
    bound on the iterations of the expression generator is a parameter. *)
Definition GetDefaultProcessor (fuel : nat) (default : option (processor R))
    : processor R * option (processor R) :=
  match default with
  | Some p => (p, default)
  | None => let p := mkProcessor {[ "expression" := ExpressionValue fuel ]} in (p, Some p)
  end.

(** The conversion to a [VirtualMachine]. *)
Definition convert_object (obj : runtime_object) : res field_error gval :=
  match obj with
  | OUnstructured o =>
      map_err (λ e, Invalid vm_path (BadObject (unstructured_value o))
        ("failed to convert unstructured object to VirtualMachine: " +:+ Error e)) (FromUnstructured o)
  | OTyped v =>
      if bool_decide (type_of v = TVirtualMachine) then Ok v
      else Err (Invalid vm_path (BadObject v)
        ("unable to convert into VirtualMachine: object is " +:+ type_string (type_of v)))
  end.

Definition Process (p : processor R) (spec : VirtualMachineTemplateSpec) : st R field_error (gval * string) :=
  params ← generateParameterValues (Parameters spec) (generators p);
  obj ← st_lift (getVirtualMachineObject spec);
  obj ← st_lift (map_err (λ e, InternalError vm_path (EWrap "error removing hardcoded namespace" e))
                  (removeHardcodedNamespace obj));
  obj ← st_lift (map_err (λ e, Invalid (NewPath ["spec"; "parameters"]) (BadParameters (Parameters spec))
                    ("error processing template: " +:+ Error e))
                  (substituteAllParameters obj params));
  vm ← st_lift (convert_object obj);
  let vm := typed_set_gvk "VirtualMachine" "kubevirt.io/v1" vm in
  '(msg, _) ← st_lift (map_err (λ e, Invalid (NewPath ["spec"; "message"]) (BadString (Message spec))
                    ("error processing message: " +:+ Error e))
                  (substituteParameters (Message spec) params));
  mret (vm, msg).
End process.

(** ** The references of an object without its namespace *)

Lemma refs_of_obj_elem kvs x :
  x ∈ refs_of (JObj kvs) ↔ ∃ k v, (k, v) ∈ kvs ∧ (x ∈ collectReferencedParameters k ∨ x ∈ refs_of v).
Proof.
  cbn [refs_of]. rewrite elem_of_union_list. split.
  - intros (X & ([k v] & -> & Hin)%list_elem_of_fmap & Hx). exists k, v. split; [done|]. by apply elem_of_union.
  - intros (k & v & Hin & Hx). exists (collectReferencedParameters k ∪ refs_of v).
    split; [|by apply elem_of_union]. apply list_elem_of_fmap. by exists (k, v).
Qed.

Lemma assoc_delete_subset {A} k (kvs : list (string * A)) kv : kv ∈ assoc_delete k kvs → kv ∈ kvs.
Proof.
  induction kvs as [|[j v] kvs IH]; simpl; [done|]. rewrite elem_of_cons.
  destruct (k =? j)%string; [auto|]. rewrite elem_of_cons. naive_solver.
Qed.

Lemma assoc_set_elem {A} k (v : A) kvs kv : kv ∈ assoc_set k v kvs → kv = (k, v) ∨ kv ∈ kvs.
Proof.
  induction kvs as [|[j w] kvs IH]; simpl; [rewrite list_elem_of_singleton; auto|].
  destruct (k =? j)%string; rewrite !elem_of_cons; naive_solver.
Qed.

Lemma RemoveNestedField_refs m :
  refs_of (JObj (RemoveNestedField m ["metadata"; "namespace"])) ⊆ refs_of (JObj m).
Proof.
  intros x. cbn [RemoveNestedField]. destruct (assoc_get "metadata" m) as [[| | | | |n]|] eqn:E; try done.
  rewrite !refs_of_obj_elem. intros (k & v & Hin & Hx). apply assoc_set_elem in Hin as [[= -> ->]|Hin]; [|by eauto].
  apply assoc_get_elem in E. exists "metadata", (JObj n). split; [done|].
  destruct Hx as [Hx|Hx]; [by left|right]. revert Hx. rewrite !refs_of_obj_elem.
  intros (k & v & Hin%assoc_delete_subset & Hx). eauto.
Qed.

Lemma removeHardcodedNamespace_refs o :
  ∃ o', removeHardcodedNamespace (OUnstructured o) = Ok (OUnstructured o') ∧
    refs_of_object o' ⊆ refs_of_object o.
Proof.
  unfold removeHardcodedNamespace. destruct (_ && _); [|by eexists].
  eexists. split; [done|]. destruct o as [m|]; [|done]. apply RemoveNestedField_refs.
Qed.

(** ** Properties of [Process] *)

Lemma st_lift_eq {S E A} (m : res E A) (s : S) :
  st_lift m s = match m with Ok a => Ok (a, s) | Err e => Err e | Panic w => Panic w end.
Proof. by destruct m. Qed.

Lemma typed_set_gvk_spec kind apiVersion v :
  is_Some (typed_gvk v) → typed_gvk (typed_set_gvk kind apiVersion v) = Some (kind, apiVersion) ∧
  type_of (typed_set_gvk kind apiVersion v) = type_of v.
Proof. intros [x Hx]. unfold typed_gvk in Hx. by repeat (case_match; try done). Qed.

(** The errors [Process] can return on a template that was validated: a
    parameter without a usable value, a non-string value that does not fit,
    or an object that is not a virtual machine. *)
Definition processing_error (spec : VirtualMachineTemplateSpec) (e : field_error) : Prop :=
  (∃ i p, Parameters spec !! i = Some p ∧ parameter_error i e) ∨
  (∃ e', type_error e' ∧ e = Invalid (NewPath ["spec"; "parameters"]) (BadParameters (Parameters spec))
      ("error processing template: " +:+ Error e')) ∨
  (∃ v d, e = Invalid vm_path (BadObject v) ("failed to convert unstructured object to VirtualMachine: " +:+ d)).

(** The generators come to an end, without a panic, on what the parameters
    ask of them. *)
Definition total_generators {R} (gs : gmap string (Generator R)) (ps : list Param) : Prop :=
  ∀ q g r w, q ∈ ps → gs !! P_Generate q = Some g → GenerateValue g (P_From q) r ≠ Panic w.

Section properties.
Context {R : Type} `{RandSource R} `{Converter} `{MapOrder}.

Lemma Process_outcome (p : processor R) spec o (r : R) :
  total_generators (generators p) (Parameters spec) →
  getVirtualMachineObject spec = Ok (OUnstructured o) →
  (∀ k, k ∈ template_refs spec o → k ∈ P_Name <$> Parameters spec) →
  match Process p spec r with
  | Ok ((vm, msg), _) =>
      type_of vm = TVirtualMachine ∧ typed_gvk vm = Some ("VirtualMachine", "kubevirt.io/v1") ∧
      ∃ params, dom params = list_to_set (P_Name <$> Parameters spec) ∧
        (∀ q, q ∈ Parameters spec → ∃ v, params !! P_Name q = Some (set_Value v q) ∧ value_rule (generators p) q v) ∧
        (∃ o1 o2 v, removeHardcodedNamespace (OUnstructured o) = Ok (OUnstructured o1) ∧
          substituteAllParameters (OUnstructured o1) params = Ok (OUnstructured o2) ∧
          FromUnstructured o2 = Ok v ∧ vm = typed_set_gvk "VirtualMachine" "kubevirt.io/v1" v) ∧
        ∃ b, substituteParameters (Message spec) params = Ok (msg, b)
  | Err e => processing_error spec e
  | Panic _ => False
  end.
Proof.
  intros Htot Hobj Hrefs. unfold Process. rewrite st_bind_eq.
  pose proof (generateParameterValues_inv (generators p) (Parameters spec) r) as Hg.
  destruct (generateParameterValues (Parameters spec) (generators p) r) as [[params r1]|e|w].
  2: by left.
  2: { destruct Hg as (q & g & r1 & w1 & Hq & Hg & HG). by apply (Htot _ _ _ _ Hq Hg) in HG. }
  destruct Hg as [Hdom _ _ Hval].
  assert (template_refs spec o ⊆ dom params) as Hdef.
  { intros k Hk. rewrite Hdom. by apply elem_of_list_to_set, Hrefs. }
  rewrite !st_bind_eq, st_lift_eq, Hobj, st_bind_eq, st_lift_eq.
  destruct (removeHardcodedNamespace_refs o) as (o1 & Hns & Ho1). rewrite Hns. cbn [map_err].
  rewrite st_bind_eq, st_lift_eq. pose proof (substituteAll_outcome params o1) as Hs. unfold template_refs in Hdef.
  destruct (substituteAllParameters (OUnstructured o1) params) as [obj2|e|w] eqn:E; cbn [map_err]; [| |done].
  2: { destruct Hs as [(k & Hk & Hn & _)|Ht]; [|by right; left; eauto].
       exfalso. apply not_elem_of_dom in Hn. apply Hn, Hdef. set_solver. }
  assert (∃ o2, obj2 = OUnstructured o2) as [o2 ->].
  { unfold substituteAllParameters in E. rewrite visit_object_with_unstructured, st_bind_eq in E.
    destruct (transform_object _ o1 tt) as [[o2 u]|e|w]; [|done..]. cbn in E. injection E as <-. eauto. }
  rewrite st_bind_eq, st_lift_eq. cbn [convert_object].
  destruct (FromUnstructured o2) as [vm|e|w] eqn:Ef; cbn [map_err]; [| |by apply FromUnstructured_no_panic in Ef].
  2: { right; right. eauto. }
  rewrite st_bind_eq, st_lift_eq. pose proof (substituteParameters_cases (Message spec) params) as Hm.
  destruct (substituteParameters (Message spec) params) as [[msg b]|e|w] eqn:Em; cbn [map_err]; [| |done].
  - pose proof (FromUnstructured_gvk _ _ Ef) as Hk. pose proof (FromUnstructured_type _ _ Ef) as Hty.
    destruct (typed_set_gvk_spec "VirtualMachine" "kubevirt.io/v1" vm Hk) as [Hgvk Htype].
    cbn. split_and!; [by rewrite Htype|done|]. exists params. split_and!; [done| | |by exists b].
    + intros q Hq. by destruct (Hval q Hq) as [_ ?].
    + by exists o1, o2, vm.
  - exfalso. destruct Hm as (k & Hk & Hn & _). apply not_elem_of_dom in Hn. apply Hn, Hdef. set_solver.
Qed.

(** C7: validation is sound for processing: a template that
    [ValidateParameterReferences] accepts without errors never fails in
    [Process] because of an undefined parameter, neither in the object nor in
    the message; [Process] returns the conversion of the object, without a
    hard-coded namespace and with every parameter substituted, with the right
    kind and version, and the substituted message, both with the same values
    of the parameters; or it reports a parameter without a usable value, a
    non-string value that does not fit or an object that is not a virtual
    machine.  It does not panic. *)
Theorem Process_after_validation (p : processor R) spec o warnings (r : R) :
  total_generators (generators p) (Parameters spec) →
  getVirtualMachineObject spec = Ok (OUnstructured o) →
  ValidateParameterReferences spec = Ok (warnings, []) →
  match Process p spec r with
  | Ok ((vm, msg), _) =>
      type_of vm = TVirtualMachine ∧ typed_gvk vm = Some ("VirtualMachine", "kubevirt.io/v1") ∧
      ∃ params, dom params = list_to_set (P_Name <$> Parameters spec) ∧
        (∀ q, q ∈ Parameters spec → ∃ v, params !! P_Name q = Some (set_Value v q) ∧ value_rule (generators p) q v) ∧
        (∃ o1 o2 v, removeHardcodedNamespace (OUnstructured o) = Ok (OUnstructured o1) ∧
          substituteAllParameters (OUnstructured o1) params = Ok (OUnstructured o2) ∧
          FromUnstructured o2 = Ok v ∧ vm = typed_set_gvk "VirtualMachine" "kubevirt.io/v1" v) ∧
        ∃ b, substituteParameters (Message spec) params = Ok (msg, b)
  | Err e => processing_error spec e
  | Panic _ => False
  end.
Proof.
  intros Htot Hobj Hval. apply (Process_outcome p spec o r Htot Hobj). intros k Hk.
  destruct (decide (k ∈ P_Name <$> Parameters spec)) as [|Hn]; [done|]. exfalso.
  assert (undefined_error k ∈ @nil field_error) as Hin by (apply (validate_errors _ _ _ _ Hobj Hval); eauto).
  by apply elem_of_nil in Hin.
Qed.

(** conversely, processing an unstructured object succeeds only if every
    parameter it references outside a removed namespace, and every one the
    message references, is defined by the template. *)
Theorem Process_success_defined (p : processor R) spec o vm msg (r r' : R) :
  getVirtualMachineObject spec = Ok (OUnstructured o) →
  Process p spec r = Ok ((vm, msg), r') →
  ∃ o1, removeHardcodedNamespace (OUnstructured o) = Ok (OUnstructured o1) ∧
    ∀ k, k ∈ refs_of_object o1 ∪ collectReferencedParameters (Message spec) → k ∈ P_Name <$> Parameters spec.
Proof.
  intros Hobj. unfold Process. rewrite st_bind_eq.
  pose proof (generateParameterValues_inv (generators p) (Parameters spec) r) as Hg.
  destruct (generateParameterValues (Parameters spec) (generators p) r) as [[params r1]|e|w]; [|done..].
  destruct Hg as [Hdom _ _ _]. rewrite !st_bind_eq, st_lift_eq, Hobj, st_bind_eq, st_lift_eq.
  destruct (removeHardcodedNamespace_refs o) as (o1 & -> & Ho1). cbn [map_err].
  rewrite st_bind_eq, st_lift_eq. pose proof (substituteAll_outcome params o1) as Hs.
  destruct (substituteAllParameters (OUnstructured o1) params) as [obj2|e|w]; cbn [map_err]; [|done..].
  rewrite st_bind_eq, st_lift_eq. destruct (convert_object obj2) as [vm0|e|w]; [|done..].
  rewrite st_bind_eq, st_lift_eq. pose proof (substituteParameters_cases (Message spec) params) as Hm.
  destruct (substituteParameters (Message spec) params) as [[msg0 b]|e|w]; cbn [map_err]; [|done..].
  intros _. exists o1. split; [done|]. simpl in Hs. intros k [Hk|Hk]%elem_of_union;
    (assert (k ∈ dom params) as Hd by set_solver); rewrite Hdom in Hd; by apply elem_of_list_to_set in Hd.
Qed.
End properties.

(** The default processor comes to an end on parameters without the symbol
    class, once the bound is above their numbers of brackets. *)
Lemma default_processor_total {R} `{RandSource R} fuel ps :
  (∀ q, q ∈ ps → escape_ok (P_From q) = true ∧ brackets (P_From q) < fuel) →
  total_generators (generators (GetDefaultProcessor fuel None).1) ps.
Proof.
  intros Hps q g r w Hq Hg. cbn in Hg. apply lookup_singleton_Some in Hg as [_ <-].
  destruct (Hps q Hq) as [He Hb]. pose proof (generate_loop_bound fuel (P_From q) r He Hb) as [_ Hr].
  intros HG. cbn in HG. by rewrite HG in Hr.
Qed.

(** ** A concrete instance *)

(** A converter that keeps the object's JSON text as the body of the struct. *)
Definition sample_vm (o : option (list (string * json))) : gval :=
  VPtr TVirtualMachine (VStruct (TStruct "v1.VirtualMachine")
    [(true, VStruct (TStruct "v1.TypeMeta") [(true, VString TString EmptyString); (true, VString TString EmptyString)]);
     (true, unstructured_value o)]).

Definition sample_converter : Converter.
Proof. refine {| FromUnstructured o := Ok (sample_vm o) |}; naive_solver. Defined.

Definition valid_spec : VirtualMachineTemplateSpec := {|
  VirtualMachine := Some (mkRaw (print (JObj [("name", JStr "vm-${NAME}")])) None);
  Parameters := [value_param "NAME" "a"];
  Message := "use ${NAME}";
|}.

Lemma Process_after_validation_witness :
  let p := mkProcessor {[ "expression" := {| GenerateValue from := λ r : nat, Ok (from, r) |} ]} in
  match @Process nat sample_converter p valid_spec 0 with
  | Ok ((vm, msg), _) => typed_gvk vm = Some ("VirtualMachine", "kubevirt.io/v1") ∧ msg = "use a"
  | _ => False
  end.
Proof.
  intros p. pose proof (@Process_after_validation nat sample_converter list_order p valid_spec
    (Some [("name", JStr "vm-${NAME}")]) [] 0) as H.
  assert (total_generators (generators p) (Parameters valid_spec)) as Ht.
  { intros q g r w _ Hg. unfold p in Hg. cbn [generators] in Hg. apply lookup_singleton_Some in Hg as [_ <-]. done. }
  specialize (H Ht eq_refl ltac:(vm_compute; reflexivity)).
  destruct (@Process nat sample_converter p valid_spec 0) as [[[vm msg] r']|e|w] eqn:E;
    [|vm_compute in E; discriminate..].
  split; [exact (proj1 (proj2 H))|]. vm_compute in E. injection E as _ <- _. reflexivity.
Defined.

Lemma Process_success_defined_witness :
  "NAME" ∈ collectReferencedParameters (Message valid_spec) ∧ "NAME" ∈ P_Name <$> Parameters valid_spec.
Proof.
  split; [by apply (bool_decide_unpack _)|].
  destruct (@Process nat sample_converter (mkProcessor ∅) valid_spec 0) as [[[vm msg] r']|e|w] eqn:E;
    [|vm_compute in E; discriminate..].
  destruct (@Process_success_defined nat sample_converter (mkProcessor ∅) valid_spec
    (Some [("name", JStr "vm-${NAME}")]) vm msg 0 r' eq_refl E) as (o1 & _ & H).
  apply H, elem_of_union. right. by apply (bool_decide_unpack _).
Defined.
