(* ===== verification/Webhook.v ===== *)
(** * internal/webhook: admission of templates

    The validating webhook of v1beta1.  A template is denied when a parameter
    it references is not defined; otherwise it is processed once, unless a
    required parameter has neither a value nor a generator.  Warnings are
    returned in every case. *)

From Stdlib Require Import Ascii ZArith Lia.
From stdpp Require Import prelude strings gmap pretty.
From S2P Require Import Prelude GoStrings Regex Json Visit Api Field Substitute Generator Template Parameters Processor.

(** [%q] on a string of ASCII characters; other bytes are kept (Go keeps
    them when they form printable characters). *)
Definition quote_byte (c : ascii) : string :=
  let n := N_of_ascii c in
  if (c =? "034")%char || (c =? "\")%char then String "\" (String c EmptyString)
  else if (n =? 7)%N then "\a" else if (n =? 8)%N then "\b" else if (n =? 12)%N then "\f"
  else if (n =? 10)%N then "\n" else if (n =? 13)%N then "\r" else if (n =? 9)%N then "\t"
  else if (n =? 11)%N then "\v"
  else if (n <? 32)%N || (n =? 127)%N then "\x" +:+ hex_digits 2 (Z.of_N n)
  else String c EmptyString.

Fixpoint quote_bytes (s : string) : string :=
  match s with
  | EmptyString => EmptyString
  | String c s' => quote_byte c +:+ quote_bytes s'
  end.

Definition Quote (s : string) : string :=
  String "034" (quote_bytes s +:+ String "034" EmptyString).

(** The object of an admission request: a template or something else, of
    which only the name of the type matters. *)
Inductive admission_object : Type :=
| ATemplate (tpl : TemplateObject)
| AOther (type : string).

Inductive webhook_error : Type :=
| WrongType (text : string)
| Aggregate (errs : list field_error)
| ProcessingFailed (e : field_error).

(** The answer of a validator: warnings, and the reason to deny if any. *)
Definition verdict : Type := list string * option webhook_error.

(** [ErrorList.ToAggregate]: the first error of each text. *)
Fixpoint aggregate_loop (text : field_error → string) (seen : list string) (errs : list field_error)
    : list field_error :=
  match errs with
  | [] => []
  | e :: errs' =>
      if decide (text e ∈ seen) then aggregate_loop text seen errs'
      else e :: aggregate_loop text (text e :: seen) errs'
  end.
Definition ToAggregate (text : field_error → string) (errs : list field_error) : option webhook_error :=
  match errs with [] => None | _ => Some (Aggregate (aggregate_loop text [] errs)) end.

Section validator.
Context {R : Type} `{RandSource R} `{Converter} `{MapOrder}.
(** The default processor, and the text of a field error (its [Error] method
    renders the bad value). *)
Context (defaultProcessor : processor R) (field_text : field_error → string).

(** A required parameter for which processing is not attempted. *)
Definition unfilled (param : Param) : bool :=
  P_Required param && (P_Value param =? EmptyString)%string && (P_Generate param =? EmptyString)%string.

Definition skipped_warning (param : Param) : string :=
  "processing validation skipped: required parameter " +:+ Quote (P_Name param) +:+
  " has neither value nor generator".

Definition ValidateProcessing (spec : VirtualMachineTemplateSpec) : st R unit verdict := λ r,
  match omap (λ p, if unfilled p then Some (skipped_warning p) else None) (Parameters spec) with
  | [] =>
      match Process defaultProcessor spec r with
      | Ok (_, r') => Ok (([], None), r')
      | Err err => Ok (([], Some (ProcessingFailed err)), r)
      | Panic w => Panic w
      end
  | warnings => Ok ((warnings, None), r)
  end.

Definition ValidateTemplate (spec : VirtualMachineTemplateSpec) : st R unit verdict :=
  '(warnings, errs) ← st_lift (ValidateParameterReferences spec);
  match errs with
  | _ :: _ => mret (warnings, ToAggregate field_text errs)
  | [] =>
      '(processingWarnings, err) ← ValidateProcessing spec;
      mret (warnings ++ processingWarnings, err)
  end.

Definition ValidateCreate (obj : admission_object) : st R unit verdict :=
  match obj with
  | AOther t => mret ([], Some (WrongType ("expected a VirtualMachineTemplate object but got " +:+ t)))
  | ATemplate tpl => ValidateTemplate (TO_Spec tpl)
  end.

Definition ValidateUpdate (oldObj newObj : admission_object) : st R unit verdict :=
  match newObj with
  | AOther t =>
      mret ([], Some (WrongType ("expected a VirtualMachineTemplate object for the newObj but got " +:+ t)))
  | ATemplate tpl => ValidateTemplate (TO_Spec tpl)
  end.

Definition ValidateDelete (obj : admission_object) : st R unit verdict := mret ([], None).

(** ** Properties *)

Lemma omap_unfilled (ps : list Param) w :
  w ∈ omap (λ p, if unfilled p then Some (skipped_warning p) else None) ps ↔
  ∃ p, p ∈ ps ∧ unfilled p = true ∧ w = skipped_warning p.
Proof.
  rewrite list_elem_of_omap. split.
  - intros (p & Hp & Hw). destruct (unfilled p) eqn:Hu; [|done]. exists p. naive_solver.
  - intros (p & Hp & Hu & ->). exists p. by rewrite Hu.
Qed.

(** A required parameter without value and generator cannot get a value. *)
Lemma unfilled_fails (p : processor R) spec q r res :
  q ∈ Parameters spec → unfilled q = true → Process p spec r ≠ Ok res.
Proof.
  intros Hq Hu. unfold Process. rewrite st_bind_eq.
  pose proof (generateParameterValues_inv (generators p) (Parameters spec) r) as Hg.
  destruct (generateParameterValues (Parameters spec) (generators p) r) as [[params r1]|e|w]; [|done..].
  destruct Hg as [_ _ _ Hval]. destruct (Hval q Hq) as (_ & v & _ & _ & Hv & _ & Hreq).
  unfold unfilled in Hu. apply andb_true_iff in Hu as [[Hr Hv0]%andb_true_iff Hg0].
  apply String.eqb_eq in Hv0, Hg0. by specialize (Hreq Hr (Hv Hv0 Hg0)).
Qed.

(** A template that is admitted defines what it references. *)
Lemma admitted_defined spec (r r' : R) ws o k :
  ValidateTemplate spec r = Ok ((ws, None), r') → getVirtualMachineObject spec = Ok (OUnstructured o) →
  k ∈ template_refs spec o → k ∈ P_Name <$> Parameters spec.
Proof.
  unfold ValidateTemplate. rewrite st_bind_eq, st_lift_eq.
  destruct (ValidateParameterReferences spec) as [[warnings errs]|[]|w] eqn:Hval; [|done..].
  intros Hv Hobj Hk. destruct errs as [|e errs]; [|done].
  destruct (decide (k ∈ P_Name <$> Parameters spec)) as [|Hn]; [done|]. exfalso.
  assert (undefined_error k ∈ @nil field_error) as Hin by (apply (validate_errors _ _ _ _ Hobj Hval); eauto).
  by apply elem_of_nil in Hin.
Qed.

(** C38: The trial run of the webhook is exact: it is skipped only
    when some required parameter has neither value nor generator, with one
    warning for each, and then processing could not have succeeded; otherwise
    the template is accepted exactly when processing it succeeds. *)
Theorem ValidateProcessing_spec spec (r : R) :
  match ValidateProcessing spec r with
  | Ok ((ws, None), r') =>
      (∀ w, w ∈ ws ↔ ∃ q, q ∈ Parameters spec ∧ unfilled q = true ∧ w = skipped_warning q) ∧
      if bool_decide (ws = []) then ∃ res, Process defaultProcessor spec r = Ok (res, r')
      else r' = r ∧ ∀ res, Process defaultProcessor spec r ≠ Ok res
  | Ok ((ws, Some e), _) =>
      ws = [] ∧ ∃ fe, e = ProcessingFailed fe ∧ Process defaultProcessor spec r = Err fe
  | Panic w => Process defaultProcessor spec r = Panic w
  | Err _ => False
  end.
Proof.
  unfold ValidateProcessing. pose proof (omap_unfilled (Parameters spec)) as Hw.
  destruct (omap _ (Parameters spec)) as [|w ws].
  - destruct (Process defaultProcessor spec r) as [[res r']|e|w]; [|by eauto|done].
    split; [done|]. rewrite bool_decide_true by done. eauto.
  - split; [done|]. rewrite bool_decide_false by done. split; [done|]. intros res.
    destruct (proj1 (Hw w) ltac:(left)) as (q & Hq & Hu & _). by apply (unfilled_fails _ _ q).
Qed.

(** C9: An admitted template stays usable: whatever values a
    user later gives for its parameters, and with whatever random values,
    processing it does not panic and never fails because of an undefined
    parameter; it yields a virtual machine or an error about a parameter's
    value or about the object's type. *)
Theorem admitted_template_processes tpl obj' (r r' : R) ws o opts ps (p : processor R) :
  ValidateUpdate obj' (ATemplate tpl) r = Ok ((ws, None), r') →
  getVirtualMachineObject (TO_Spec tpl) = Ok (OUnstructured o) →
  MergeParameters (Parameters (TO_Spec tpl)) opts = Ok ps →
  total_generators (generators p) ps →
  ∀ r1 : R, match Process p (with_parameters ps (TO_Spec tpl)) r1 with
            | Ok ((vm, _), _) => type_of vm = TVirtualMachine
            | Err e => processing_error (with_parameters ps (TO_Spec tpl)) e
            | Panic _ => False
            end.
Proof.
  intros Hv Hobj Hm Htot r1. set (spec := TO_Spec tpl) in *. set (spec' := with_parameters ps spec).
  assert (P_Name <$> ps = P_Name <$> Parameters spec) as Hnames by (eapply merge_names; eauto).
  assert (∀ k, k ∈ template_refs spec' o → k ∈ P_Name <$> Parameters spec') as Hdef.
  { intros k Hk. change (Parameters spec') with ps. rewrite Hnames. by eapply admitted_defined. }
  pose proof (Process_outcome p spec' o r1 Htot Hobj Hdef) as Ho.
  destruct (Process p spec' r1) as [[[vm msg] r2]|e|w]; [|done..]. by destruct Ho.
Qed.
End validator.

(** ** A concrete instance *)

Definition sample_object : TemplateObject :=
  mkTemplateObject "template.kubevirt.io" "VirtualMachineTemplate" "default" "web" valid_spec.
Definition plain_processor : processor nat := mkProcessor ∅.

(** The default values pass the trial run; a required parameter without a
    value only gives a warning. *)
Example ValidateCreate_example :
  match @ValidateCreate nat sample_converter list_order plain_processor FE_Detail (ATemplate sample_object) 0 with
  | Ok ((ws, e), _) => ws = [] ∧ e = None
  | _ => False
  end ∧
  match @ValidateTemplate nat sample_converter list_order plain_processor FE_Detail
          (with_parameters [mkParam "NAME" "" "" "" "" "" true] valid_spec) 0 with
  | Ok ((ws, e), _) => ws = [skipped_warning (mkParam "NAME" "" "" "" "" "" true)] ∧ e = None
  | _ => False
  end.
Proof. vm_compute. done. Qed.

Lemma admitted_template_processes_witness :
  match @Process nat sample_converter plain_processor
          (with_parameters [value_param "NAME" "b"] valid_spec) 0 with
  | Ok ((vm, _), _) => type_of vm = TVirtualMachine
  | Err e => processing_error (with_parameters [value_param "NAME" "b"] valid_spec) e
  | Panic _ => False
  end.
Proof.
  apply (@admitted_template_processes nat sample_converter list_order plain_processor FE_Detail sample_object
    (AOther "none") 0 0 [] (Some [("name", JStr "vm-${NAME}")]) {[ "NAME" := "b" ]} [value_param "NAME" "b"]
    plain_processor); [vm_compute; reflexivity..|].
  intros q g r w _ Hg. discriminate Hg.
Defined.
