(* ===== verification/Storage.v ===== *)
(** * internal/apiserver/storage: the process and create subresources

    [ProcessTemplate] serves both subresources: it decodes the options of the
    request, fetches the template, overrides its parameters, validates and
    processes it.  The handlers of v1beta1 and v1alpha1 answer with the result;
    those of create first create the virtual machine.  The engine is used
    through the interface [TemplateProcessor], whose promise Processor.v
    keeps; the YAML decoder, the client and the JSON form of a virtual machine
    are parameters. *)

From Stdlib Require Import Ascii ZArith Lia.
From stdpp Require Import prelude strings gmap pretty.
From S2P Require Import Prelude GoStrings Regex Json Visit Api Field Substitute Generator Template Parameters Processor.

(** ** Errors of the API *)

(** [apierrors.NewBadRequest], [NewInternalError], [NewConflict],
    [NewInvalid]; [PlainError] is any other error. *)
Inductive api_error : Type :=
| BadRequest (msg : string)
| InternalApiError (msg : string)
| ConflictError (group resource name msg : string)
| InvalidError (group kind name : string) (errs : list field_error)
| PlainError (msg : string).

Definition status_code (e : api_error) : Z :=
  match e with
  | BadRequest _ => 400
  | ConflictError _ _ _ _ => 409
  | InvalidError _ _ _ _ => 422
  | InternalApiError _ | PlainError _ => 500
  end.

(** ** Results *)

(** [type ProcessedVirtualMachineTemplate struct]; the reference to the
    template is its namespace and name. *)
Record ProcessedVirtualMachineTemplate : Type := mkProcessed {
  PT_Kind : string;
  PT_APIVersion : string;
  PT_TemplateRef : option (string * string);
  PT_VirtualMachine : gval;
  PT_Message : string;
}.

Definition set_PT_VirtualMachine (vm : gval) (p : ProcessedVirtualMachineTemplate) : ProcessedVirtualMachineTemplate :=
  mkProcessed (PT_Kind p) (PT_APIVersion p) (PT_TemplateRef p) vm (PT_Message p).

(** ** The interface to the engine *)

(** [type Processor interface].  On the templates of its domain a processor
    promises: a template whose references are all defined gives a virtual
    machine, or an error about a value or a type. *)
Class TemplateProcessor (R : Type) := {
  process : VirtualMachineTemplateSpec → st R field_error (gval * string);
  process_domain : VirtualMachineTemplateSpec → Prop;
  process_sound spec o r :
    process_domain spec → getVirtualMachineObject spec = Ok (OUnstructured o) →
    (∀ k, k ∈ template_refs spec o → k ∈ P_Name <$> Parameters spec) →
    match process spec r with
    | Ok ((vm, _), _) => type_of vm = TVirtualMachine
    | Err e => processing_error spec e
    | Panic _ => False
    end;
}.

(** The engine keeps the promise where its generators come to an end. *)
Definition engine_processor {R} `{RandSource R} `{Converter} (p : processor R) : TemplateProcessor R.
Proof.
  refine {| process := Process p; process_domain spec := total_generators (generators p) (Parameters spec) |}.
  intros spec o r Htot Hobj Hrefs. pose proof (Process_outcome p spec o r Htot Hobj Hrefs) as H'.
  destruct (Process p spec r) as [[[vm msg] r']|e|w]; [|done..]. apply H'.
Defined.

(** ** The v1alpha1 form of the result *)

(** The JSON form of a [VirtualMachine]. *)
Class VMCodec := {
  vm_marshal : gval → res error json;
  vm_unmarshal : json → res error gval;
  vm_roundtrip v j : vm_marshal v = Ok j → vm_unmarshal j = Ok v;
}.

(** A member that is left out when its value is empty. *)
Definition omitempty (k v : string) : list (string * json) :=
  if (v =? EmptyString)%string then [] else [(k, JStr v)].

Definition marshal_processed `{VMCodec} (p : ProcessedVirtualMachineTemplate) : res error json :=
  vm ← vm_marshal (PT_VirtualMachine p);
  Ok (JObj (omitempty "kind" (PT_Kind p) ++ omitempty "apiVersion" (PT_APIVersion p) ++
    match PT_TemplateRef p with
    | None => []
    | Some (ns, name) => [("templateRef", JObj (omitempty "namespace" ns ++ omitempty "name" name))]
    end ++ [("virtualMachine", vm)] ++ omitempty "message" (PT_Message p))).

(** The string member [k]: absent and [null] leave the field empty. *)
Definition string_member (k : string) (kvs : list (string * json)) : res error string :=
  match assoc_get k kvs with
  | None | Some JNull => Ok EmptyString
  | Some (JStr s) => Ok s
  | Some _ => Err json_error
  end.

Definition unmarshal_processed `{VMCodec} (j : json) : res error ProcessedVirtualMachineTemplate :=
  match j with
  | JObj kvs =>
      kind ← string_member "kind" kvs;
      apiVersion ← string_member "apiVersion" kvs;
      templateRef ← match assoc_get "templateRef" kvs with
                    | None | Some JNull => Ok None
                    | Some (JObj ref) =>
                        ns ← string_member "namespace" ref;
                        name ← string_member "name" ref;
                        Ok (Some (ns, name))
                    | Some _ => Err json_error
                    end;
      vm ← match assoc_get "virtualMachine" kvs with
           | None => vm_unmarshal JNull
           | Some v => vm_unmarshal v
           end;
      message ← string_member "message" kvs;
      Ok (mkProcessed kind apiVersion templateRef vm message)
  | _ => Err json_error
  end.

Definition SubresourceGroupName : string := "subresources.template.kubevirt.io".
Definition subresourcesv1alpha1_GroupVersion : string := SubresourceGroupName +:+ "/v1alpha1".

(** The two versions have the same fields; the value goes through its JSON
    text. *)
Definition convertProcessedToV1alpha1 `{VMCodec} (in_ : ProcessedVirtualMachineTemplate)
    : res error ProcessedVirtualMachineTemplate :=
  tree ← marshal_processed in_;
  let data := print tree in
  tree' ← Unmarshal data;
  out ← unmarshal_processed tree';
  Ok (mkProcessed (PT_Kind out) subresourcesv1alpha1_GroupVersion (PT_TemplateRef out) (PT_VirtualMachine out)
    (PT_Message out)).

(** ** ProcessTemplate *)

Section storage.
Context {R : Type} `{!MapOrder} `{!TemplateProcessor R}.
(** The YAML or JSON decoder of [ProcessOptions] (its [Parameters]), the
    client's [Get] of a template, and its [Create] of a virtual machine. *)
Context (decode_options : string → res error (gmap string string)).
Context (get_template : string → string → res error TemplateObject).
Context (create_vm : string → gval → res error gval).

(** The warnings sent to the client and the result. *)
Definition ProcessTemplate (body ns id : string) (r : R)
    : list string * res api_error (ProcessedVirtualMachineTemplate * R) :=
  match decode_options body with
  | Err err => ([], Err (BadRequest ("error parsing ProcessOptions: " +:+ Error err)))
  | Panic w => ([], Panic w)
  | Ok opts =>
      match get_template ns id with
      | Err err => ([], Err (InternalApiError (Error (EWrap "error getting VirtualMachineTemplate" err))))
      | Panic w => ([], Panic w)
      | Ok tpl =>
          match MergeParameters (Parameters (TO_Spec tpl)) opts with
          | Err err => ([], Err (ConflictError (TO_Group tpl) (TO_Kind tpl) id (Error err)))
          | Panic w => ([], Panic w)
          | Ok ps =>
              let spec := with_parameters ps (TO_Spec tpl) in
              match ValidateParameterReferences spec with
              | Err _ => ([], Panic "unreachable") (* validation returns its errors as values *)
              | Panic w => ([], Panic w)
              | Ok (warnings, errs) =>
                  (warnings,
                   match errs with
                   | _ :: _ => Err (InvalidError (TO_Group tpl) (TO_Kind tpl) id errs)
                   | [] =>
                       match process spec r with
                       | Ok ((vm, msg), r') => Ok (mkProcessed "" "" (Some (ns, id)) vm msg, r')
                       | Err pErr => Err (InvalidError (TO_Group tpl) (TO_Kind tpl) id [pErr])
                       | Panic w => Panic w
                       end
                   end)
              end
          end
      end
  end.

(** ** The handlers *)

(** What a handler does: the warnings, the virtual machines it asked to be
    created (namespace and object), and its answers. *)
Inductive response : Type :=
| RespError (e : api_error)
| RespObject (code : Z) (obj : ProcessedVirtualMachineTemplate).
Record served : Type := mkServed {
  sv_warnings : list string;
  sv_creates : list (string * gval);
  sv_responses : list response;
}.

Definition plain {A} (m : res error A) : res api_error A := map_err (λ e, PlainError (Error e)) m.

(** The end of a handler: the object, or the error, is sent. *)
Definition respond (warnings : list string) (creates : list (string * gval))
    (m : res api_error ProcessedVirtualMachineTemplate) : res unit served :=
  match m with
  | Ok obj => Ok (mkServed warnings creates [RespObject 200 obj])
  | Err e => Ok (mkServed warnings creates [RespError e])
  | Panic w => Panic w
  end.

(** The handler of /process, with the conversion of the version served. *)
Definition process_handler (convert : ProcessedVirtualMachineTemplate → res error ProcessedVirtualMachineTemplate)
    (ns id body : string) (r : R) : res unit served :=
  let '(warnings, m) := ProcessTemplate body ns id r in
  respond warnings [] ('(processed, _) ← m; plain (convert processed)).

(** The handler of /create. *)
Definition create_handler (convert : ProcessedVirtualMachineTemplate → res error ProcessedVirtualMachineTemplate)
    (ns id body : string) (r : R) : res unit served :=
  let '(warnings, m) := ProcessTemplate body ns id r in
  match m with
  | Ok (processed, _) =>
      let vm := PT_VirtualMachine processed in
      respond warnings [(ns, vm)]
        (vm' ← map_err (λ e, InternalApiError (Error (EWrap "error creating VirtualMachine" e))) (create_vm ns vm);
         plain (convert (set_PT_VirtualMachine vm' processed)))
  | Err e => respond warnings [] (Err e)
  | Panic w => Panic w
  end.

(** [Connect]: without a namespace in the context there is no handler. *)
Definition connect (handler : string → string → string → R → res unit served) (ns : option string) (id : string)
    : res error (string → R → res unit served) :=
  match ns with
  | None => Err (EMsg "missing namespace")
  | Some ns => Ok (handler ns id)
  end.

Definition V1beta1Process_Connect := connect (process_handler Ok).
Definition V1beta1Create_Connect := connect (create_handler Ok).
Definition V1alpha1Process_Connect `{VMCodec} := connect (process_handler convertProcessedToV1alpha1).
Definition V1alpha1Create_Connect `{VMCodec} := connect (create_handler convertProcessedToV1alpha1).
End storage.

(** ** Properties *)

Section properties.
Context {R : Type} `{!MapOrder} `{!TemplateProcessor R}.
Context (decode_options : string → res error (gmap string string)).
Context (get_template : string → string → res error TemplateObject).
Context (create_vm : string → gval → res error gval).

(** The templates the client returns hold an unstructured object (as the API
    server stores them) and are in the domain of the processor, whatever
    values are given; the decoder and the client do not panic. *)
Definition good_client : Prop :=
  (∀ body w, decode_options body ≠ Panic w) ∧ (∀ ns id w, get_template ns id ≠ Panic w) ∧
  ∀ ns id tpl, get_template ns id = Ok tpl →
    (∃ o, getVirtualMachineObject (TO_Spec tpl) = Ok (OUnstructured o)) ∧
    ∀ opts, process_domain (with_parameters (merge_ref opts (Parameters (TO_Spec tpl))) (TO_Spec tpl)).

(** What an answer to a request must be, by the state of affairs. *)
Definition answer_spec (body ns id : string) (m : res api_error (ProcessedVirtualMachineTemplate * R)) : Prop :=
  match decode_options body, get_template ns id with
  | Ok opts, Ok tpl =>
      if decide (dom opts ⊆ list_to_set (P_Name <$> Parameters (TO_Spec tpl))) then
        ∃ o, getVirtualMachineObject (TO_Spec tpl) = Ok (OUnstructured o) ∧
        let undefined := undefined_refs (TO_Spec tpl) o in
        match m with
        | Ok (p, _) =>
            undefined = ∅ ∧ PT_TemplateRef p = Some (ns, id) ∧ type_of (PT_VirtualMachine p) = TVirtualMachine
        | Err e =>
            ∃ errs, e = InvalidError (TO_Group tpl) (TO_Kind tpl) id errs ∧
              if decide (undefined = ∅)
              then ∃ pErr, errs = [pErr] ∧
                processing_error (with_parameters (merge_ref opts (Parameters (TO_Spec tpl))) (TO_Spec tpl)) pErr
              else ∀ fe, fe ∈ errs ↔ ∃ k, k ∈ undefined ∧ fe = undefined_error k
        | Panic _ => False
        end
      else match m with Err e => status_code e = 409%Z | _ => False end
  | Ok _, _ => match m with Err e => status_code e = 500%Z | _ => False end
  | _, _ => match m with Err e => status_code e = 400%Z | _ => False end
  end.

Lemma ProcessTemplate_answer body ns id r :
  good_client → answer_spec body ns id (ProcessTemplate decode_options get_template body ns id r).2.
Proof.
  intros (Hdec & Hget & Htpl). unfold ProcessTemplate, answer_spec.
  destruct (decode_options body) as [opts|e|w] eqn:Ed; [|done|by apply Hdec in Ed].
  destruct (get_template ns id) as [tpl|e|w] eqn:Eg; [|done|by apply Hget in Eg].
  destruct (Htpl ns id tpl Eg) as [(o & Ho) Hdom]. set (spec := TO_Spec tpl) in *.
  pose proof (Merge_cases (Parameters spec) opts) as Hm.
  destruct (MergeParameters (Parameters spec) opts) as [ps|e|w]; [| |done].
  2: { destruct Hm as (k & Hk & Hn & _). rewrite decide_False; [done|]. intros Hsub. apply Hn.
       apply Hsub in Hk. by apply elem_of_list_to_set in Hk. }
  destruct Hm as [-> Hsub]. rewrite decide_True by (intros k Hk; by apply elem_of_list_to_set, Hsub).
  exists o. split; [done|]. set (spec' := with_parameters _ spec).
  assert (getVirtualMachineObject spec' = Ok (OUnstructured o)) as Ho' by done.
  assert (undefined_refs spec' o = undefined_refs spec o) as Hu.
  { unfold undefined_refs. by rewrite (merge_ref_names opts (Parameters spec) : _ <$> Parameters spec' = _). }
  pose proof (validate_total spec' o Ho') as Hv.
  destruct (ValidateParameterReferences spec') as [[warnings errs]|e|w] eqn:Ev; [|done..].
  destruct (validate_undefined spec' o warnings errs Ho' Ev) as [Hnil He]. rewrite Hu in Hnil, He. cbv zeta.
  cbn [snd]. destruct errs as [|e0 errs].
  - assert (undefined_refs spec o = ∅) as Hempty by (by apply Hnil).
    pose proof (process_sound spec' o r (Hdom opts) Ho') as Hp. rewrite <- Hu in Hempty.
    specialize (Hp (proj1 (undefined_refs_empty spec' o) Hempty)). rewrite Hu in Hempty.
    destruct (process spec' r) as [[[vm msg] r']|e|w]; [done| |done].
    eexists. split; [done|]. rewrite decide_True by done. eauto.
  - eexists. split; [done|]. rewrite decide_False; [done|]. by intros Hempty%Hnil.
Qed.
End properties.

(** ** The conversion to v1alpha1 *)

Section conversion.
Context `{VMCodec}.

Definition utf8_text (s : string) : Prop := valid_utf8 s = true.

(** The tree of a result is well formed, and reads back as the result. *)
Lemma marshal_processed_ok kind apiVersion ref vm j message :
  utf8_text kind → utf8_text apiVersion → utf8_text message →
  (∀ ns name, ref = Some (ns, name) → utf8_text ns ∧ utf8_text name) →
  vm_marshal vm = Ok j → json_ok j → (height j < maxNestingDepth)%Z →
  ∃ tree, marshal_processed (mkProcessed kind apiVersion ref vm message) = Ok tree ∧ json_ok tree ∧
    (height tree ≤ maxNestingDepth)%Z ∧ unmarshal_processed tree = Ok (mkProcessed kind apiVersion ref vm message).
Proof.
  intros Hk Ha Hm Href Hj Hok Hh. unfold marshal_processed.
  cbn [PT_VirtualMachine PT_Kind PT_APIVersion PT_TemplateRef PT_Message]. rewrite Hj. eexists. split; [done|].
  apply vm_roundtrip in Hj. unfold utf8_text, maxNestingDepth in *.
  unfold omitempty. destruct ref as [[ns name]|]; [destruct (Href _ _ eq_refl) as [Hns Hname]|];
    repeat match goal with |- context [(?v =? "")%string] => destruct (String.eqb_spec v "") as [?|?]; subst end;
    cbn.
  all: split; [repeat (assumption || exact I || split || reflexivity || by apply (bool_decide_unpack _))|].
  all: split; [lia|by rewrite Hj].
Qed.
End conversion.

(** The conversion of a result to v1alpha1 through its JSON
    text loses nothing: it is the same result with the version changed (for
    texts in UTF-8 and machines the codec can represent within the
    decoder's nesting limit). *)
Theorem convertProcessedToV1alpha1_roundtrip `{VMCodec} p j :
  vm_marshal (PT_VirtualMachine p) = Ok j → json_ok j → (height j < maxNestingDepth)%Z →
  utf8_text (PT_Kind p) → utf8_text (PT_APIVersion p) → utf8_text (PT_Message p) →
  (∀ ns name, PT_TemplateRef p = Some (ns, name) → utf8_text ns ∧ utf8_text name) →
  convertProcessedToV1alpha1 p =
    Ok (mkProcessed (PT_Kind p) subresourcesv1alpha1_GroupVersion (PT_TemplateRef p) (PT_VirtualMachine p) (PT_Message p)).
Proof.
  destruct p as [kind apiVersion ref vm message].
  cbn [PT_VirtualMachine PT_Kind PT_APIVersion PT_TemplateRef PT_Message].
  intros Hj Hok Hh Hk Ha Hm Href.
  destruct (marshal_processed_ok kind apiVersion ref vm j message Hk Ha Hm Href Hj Hok Hh)
    as (tree & Ht & Htok & Hth & Hu).
  unfold convertProcessedToV1alpha1. rewrite Ht. cbn [mbind res_bind]. rewrite (Unmarshal_print tree Htok Hth).
  cbn [mbind res_bind]. by rewrite Hu.
Qed.




(** ** Concrete instances *)

(** A converter that keeps the namespace of the object. *)
Definition namespaced_vm (o : option (list (string * json))) : gval :=
  VPtr TVirtualMachine (VStruct (TStruct "v1.VirtualMachine")
    [(true, VStruct (TStruct "v1.TypeMeta") [(true, VString TString ""); (true, VString TString "")]);
     (true, VStruct TObjectMeta [(true, VString TString (getNestedString o ["metadata"; "name"]));
       (true, VString TString ""); (true, VString TString (getNestedString o ["metadata"; "namespace"]))])]).
Definition namespaced_converter : Converter.
Proof. refine {| FromUnstructured o := Ok (namespaced_vm o) |}; naive_solver. Defined.

Definition sample_template : TemplateObject :=
  mkTemplateObject "template.kubevirt.io" "VirtualMachineTemplate" "default" "web" {|
    VirtualMachine := Some (mkRaw (print (JObj [("metadata", JObj [("name", JStr "vm"); ("namespace", JStr "${NS}")])])) None);
    Parameters := [value_param "NS" "other"];
    Message := "in ${NS}";
  |}.
Definition sample_get (ns id : string) : res error TemplateObject :=
  if (id =? "web")%string then Ok sample_template else Err (EMsg "not found").
Definition sample_options (body : string) : res error (gmap string string) :=
  if (body =? "NS=prod")%string then Ok {[ "NS" := "prod" ]} else if (body =? "")%string then Ok ∅
  else Err (EMsg "bad body").
Definition sample_create (ns : string) (vm : gval) : res error gval := Ok vm.
Definition no_generators : processor nat := mkProcessor ∅.

(** The create subresource always creates the machine in the
    namespace of the request, also when the template's namespace parameter
    resolves to another one, although the API documents that the resolved
    namespace is respected. *)
Theorem create_handler_ignores_namespace :
  match @create_handler nat list_order (@engine_processor nat (scripted []) namespaced_converter no_generators)
          sample_options sample_get sample_create Ok "default" "web" "" 0 with
  | Ok sv => ∃ vm, sv_creates sv = [("default", vm)] ∧ typed_namespace vm = Some "other"
  | _ => False
  end.
Proof. vm_compute. eexists. by split. Qed.

Lemma sample_good_client :
  @good_client nat (@engine_processor nat (scripted []) namespaced_converter no_generators) sample_options sample_get.
Proof.
  split_and!.
  - intros body w. unfold sample_options. by repeat case_match.
  - intros ns id w. unfold sample_get. by case_match.
  - intros ns id tpl. unfold sample_get. destruct (id =? "web")%string; [|done]. intros [= <-]. split.
    + eexists. vm_compute. reflexivity.
    + by intros opts q g r w _ Hg.
Qed.




(** A codec for the machines of [namespaced_vm]. *)
Definition name_marshal (v : gval) : res error json :=
  match v with
  | VPtr _ (VStruct _ [_; (_, VStruct _ [(_, VString _ name); _; (_, VString _ ns)])]) =>
      if decide (v = namespaced_vm (Some [("metadata", JObj [("name", JStr name); ("namespace", JStr ns)])]))
      then Ok (JArr [JStr name; JStr ns]) else Err json_error
  | _ => Err json_error
  end.
Definition name_unmarshal (j : json) : res error gval :=
  match j with
  | JArr [JStr name; JStr ns] =>
      Ok (namespaced_vm (Some [("metadata", JObj [("name", JStr name); ("namespace", JStr ns)])]))
  | _ => Err json_error
  end.
Definition name_codec : VMCodec.
Proof.
  refine {| vm_marshal := name_marshal; vm_unmarshal := name_unmarshal |}.
  intros v j. unfold name_marshal. repeat case_match; try done. intros [= <-]. simpl. by f_equal.
Defined.

Lemma convertProcessedToV1alpha1_roundtrip_witness :
  let vm := namespaced_vm (Some [("metadata", JObj [("name", JStr "a<b"); ("namespace", JStr "n")])]) in
  @convertProcessedToV1alpha1 name_codec (mkProcessed "" "" (Some ("ns", "tpl")) vm "hello") =
  Ok (mkProcessed "" "subresources.template.kubevirt.io/v1alpha1" (Some ("ns", "tpl")) vm "hello").
Proof.
  intros vm. apply (@convertProcessedToV1alpha1_roundtrip name_codec (mkProcessed "" "" (Some ("ns", "tpl")) vm "hello")
    (JArr [JStr "a<b"; JStr "n"])); try reflexivity.
  - vm_compute. auto.
  - intros ns name [= <- <-]. split; reflexivity.
Defined.
