(* ===== verification/Discovery.v ===== *)
(** * internal/apiserver: discovery documents and API groups

    filter.go hides the parent resources, which exist only for their
    subresources, from the list of resources a group version serves: the route
    of the generic server is replaced by one that asks the original handler
    once, filters its answer and keeps it.  apiserver.go collects the group
    versions into groups and the paths that need no authorization. *)

From Stdlib Require Import Ascii ZArith Lia.
From stdpp Require Import prelude strings gmap.
From S2P Require Import Prelude GoStrings Parameters.

Record APIResource : Type := mkResource { AR_Name : string; AR_Other : string }.
#[export] Instance APIResource_eq_dec : EqDecision APIResource.
Proof. solve_decision. Defined.

Record GroupVersion : Type := mkGV { GV_Group : string; GV_Version : string }.
#[export] Instance GroupVersion_eq_dec : EqDecision GroupVersion.
Proof. solve_decision. Defined.

(** [gv.String()]. *)
Definition gv_string (gv : GroupVersion) : string :=
  if (GV_Group gv =? EmptyString)%string then GV_Version gv else GV_Group gv +:+ "/" +:+ GV_Version gv.

Definition APIGroupPrefix : string := "/apis".

(** ** filter.go: parent resources *)

(** The part of a resource's name before its first slash, if it has one. *)
Definition parent (resource : string) : option string :=
  if Contains resource "/" then fst <$> Cut resource "/" else None.

Definition getParentResourceNames `{MapOrder} {A} (resourcesStorage : gmap string A) : list string :=
  let parents : gmap string unit :=
    foldl (λ m kv, match parent kv.1 with Some p => <[p := tt]> m | None => m end) ∅ (range_map resourcesStorage) in
  (range_map parents).*1.

(** ** filter.go: the filtering lister *)

(** [type filteringAPIResourceLister struct]: the mutable part, and what stays
    the same ([orig n] is the answer of the original handler when it is asked
    for the [n]-th time). *)
Record lister : Type := mkLister {
  cached : bool;
  cachedList : list APIResource;
  asked : nat;
}.
Definition new_lister : lister := mkLister false [] 0.

Section lister.
Context (orig : nat → res error (list APIResource)) (resourcesToHide : list string).

(** The loop of [filter]. *)
Definition hide (unfiltered : list APIResource) : list APIResource :=
  filter (λ r, AR_Name r ∉ resourcesToHide) unfiltered.

(** [f.get]: the decoded answer of the original handler. *)
Definition get_resources (f : lister) : res error (list APIResource) * lister :=
  (orig (asked f), mkLister (cached f) (cachedList f) (S (asked f))).

Definition filter_resources (f : lister) (unfiltered : list APIResource) : list APIResource * lister :=
  let filtered := hide unfiltered in (filtered, mkLister true filtered (asked f)).

Definition ListAPIResources (f : lister) : res unit (list APIResource * lister) :=
  if cached f then Ok (cachedList f, f)
  else
    let '(r, f') := get_resources f in
    match r with
    | Err _ => Ok (cachedList f', mkLister true (cachedList f') (asked f'))
    | Panic w => Panic w
    | Ok resources => Ok (filter_resources f' resources)
    end.

(** The answers of [n] calls, one after the other. *)
Fixpoint serve (n : nat) (f : lister) : res unit (list (list APIResource) * lister) :=
  match n with
  | 0 => Ok ([], f)
  | S n' =>
      '(l, f') ← ListAPIResources f;
      '(ls, f'') ← serve n' f';
      Ok (l :: ls, f'')
  end.
End lister.

(** ** filter.go: concurrent requests

    The server handles requests in parallel and the lister has no lock: every
    request is a thread that reads and writes the two fields one at a time (a
    field is read and written as a whole here).  *)

Inductive thread : Type :=
| TStart                                  (* before [if f.cached] *)
| TReturnCached                           (* before [return f.cachedList] *)
| TGet                                    (* before [f.get()] *)
| TFailed                                 (* after an error: before [f.cached = true] *)
| TStore (filtered : list APIResource)    (* before [f.cachedList = filtered] *)
| TMark (filtered : list APIResource)     (* before [f.cached = true] *)
| TDone (answer : list APIResource).

Record shared : Type := mkShared {
  sh_cached : bool;
  sh_list : list APIResource;
  threads : list thread;
}.

(** One step of thread [i]; [ok] tells which answers the original handler may
    give. *)
Inductive step (ok : res error (list APIResource) → Prop) (resourcesToHide : list string) : shared → shared → Prop :=
| step_cached s i : threads s !! i = Some TStart → sh_cached s = true →
    step ok resourcesToHide s (mkShared (sh_cached s) (sh_list s) (<[i := TReturnCached]> (threads s)))
| step_miss s i : threads s !! i = Some TStart → sh_cached s = false →
    step ok resourcesToHide s (mkShared (sh_cached s) (sh_list s) (<[i := TGet]> (threads s)))
| step_return s i : threads s !! i = Some TReturnCached →
    step ok resourcesToHide s (mkShared (sh_cached s) (sh_list s) (<[i := TDone (sh_list s)]> (threads s)))
| step_get s i l : threads s !! i = Some TGet → ok (Ok l) →
    step ok resourcesToHide s (mkShared (sh_cached s) (sh_list s) (<[i := TStore (hide resourcesToHide l)]> (threads s)))
| step_get_error s i e : threads s !! i = Some TGet → ok (Err e) →
    step ok resourcesToHide s (mkShared (sh_cached s) (sh_list s) (<[i := TFailed]> (threads s)))
| step_failed s i : threads s !! i = Some TFailed →
    step ok resourcesToHide s (mkShared true (sh_list s) (<[i := TReturnCached]> (threads s)))
| step_store s i l : threads s !! i = Some (TStore l) →
    step ok resourcesToHide s (mkShared (sh_cached s) l (<[i := TMark l]> (threads s)))
| step_mark s i l : threads s !! i = Some (TMark l) →
    step ok resourcesToHide s (mkShared true (sh_list s) (<[i := TDone l]> (threads s)))
| step_request s :
    step ok resourcesToHide s (mkShared (sh_cached s) (sh_list s) (threads s ++ [TStart])).

(** ** filter.go: replacing the route *)

(** The handlers of the generic server (the resources of a version, the
    versions of a group, a connection to a storage, or any other one), and the
    one that filters. *)
Inductive handler : Type :=
| Original (id : nat)
| ListResources (resources : list APIResource)
| ListVersions (versions : list GroupVersion)
| ConnectTo (gv : GroupVersion) (resource : string)
| Filtering (resourcesToHide : list string) (orig : handler).
Record Route : Type := mkRoute { Rt_Method : string; Rt_Path : string; Rt_Function : handler }.
Record WebService : Type := mkWS { WS_RootPath : string; WS_Routes : list Route; WS_Dynamic : bool }.

(** [path.Join] of path segments (without [.], [..] and slashes in them). *)
Definition path_join (elems : list string) : string := Join (filter (λ e, e ≠ EmptyString) elems) "/".

Definition is_route (method path : string) (rt : Route) : bool :=
  (Rt_Method rt =? method)%string && (Rt_Path rt =? path)%string.

(** The first registered service with the root path, and its position. *)
Fixpoint find_ws (root : string) (i : nat) (container : list WebService) : option (nat * WebService) :=
  match container with
  | [] => None
  | ws :: rest => if (WS_RootPath ws =? root)%string then Some (i, ws) else find_ws root (S i) rest
  end.

Definition RemoveRoute (ws : WebService) (path method : string) : res error WebService :=
  if WS_Dynamic ws
  then Ok (mkWS (WS_RootPath ws) (filter (λ rt, is_route method path rt = false) (WS_Routes ws)) true)
  else Err (EMsg "dynamic routes are not enabled.").

(** [ws.Route(ws.GET("/").To(f))]. *)
Definition AddRoute (ws : WebService) (f : handler) : WebService :=
  mkWS (WS_RootPath ws) (WS_Routes ws ++ [mkRoute "GET" (WS_RootPath ws +:+ "/") f]) (WS_Dynamic ws).

Definition installFilteredAPIVersionHandler (gv : GroupVersion) (resourcesToHide : list string)
    (container : list WebService) : res error (list WebService) :=
  let wsPath := path_join [APIGroupPrefix; GV_Group gv; GV_Version gv] in
  match find_ws wsPath 0 container with
  | None => Err (EMsg ("could not find the APIResource WebService for " +:+ gv_string gv))
  | Some (i, ws) =>
      let routePath := wsPath +:+ "/" in
      match list_find (λ rt, is_route "GET" routePath rt = true) (WS_Routes ws) with
      | None => Err (EMsg ("could not find the APIVersionHandler for " +:+ gv_string gv))
      | Some (_, route) =>
          ws ← RemoveRoute (mkWS (WS_RootPath ws) (WS_Routes ws) true) routePath "GET";
          Ok (<[i := AddRoute ws (Filtering resourcesToHide (Rt_Function route))]> container)
      end
  end.

(** ** apiserver.go *)

(** [APIGroups], in the order in which the map is iterated over. *)
Definition APIGroups (A : Type) : Type := list (GroupVersion * gmap string A).

Definition getAdditionalAlwaysAllowPaths {A} (apiGroups : APIGroups A) : list string :=
  concat ((λ '(gv, _), [APIGroupPrefix +:+ "/" +:+ GV_Group gv; APIGroupPrefix +:+ "/" +:+ gv_string gv]) <$> apiGroups).

(** Per group, the storage of each version. *)
Definition buildAPIGroupInfos {A} (apiGroups : APIGroups A) : gmap string (gmap string (gmap string A)) :=
  foldl (λ result '(gv, storage),
    let gi := default ∅ (result !! GV_Group gv) in
    <[GV_Group gv := <[GV_Version gv := storage]> gi]> result) ∅ apiGroups.

(** The loop of [Run] that hides the parents of every group version. *)
Fixpoint hide_parents `{MapOrder} {A} (apiGroups : APIGroups A) (container : list WebService)
    : res error (list WebService) :=
  match apiGroups with
  | [] => Ok container
  | (gv, storage) :: rest =>
      match getParentResourceNames storage with
      | [] => hide_parents rest container
      | resourcesToHide =>
          container' ← installFilteredAPIVersionHandler gv resourcesToHide container;
          hide_parents rest container'
      end
  end.

(** ** The lister *)

Lemma serve_cached orig hidden n f :
  cached f = true → serve orig hidden n f = Ok (replicate n (cachedList f), f).
Proof.
  intros Hc. induction n as [|n IH]; [done|]. cbn [serve]. unfold ListAPIResources at 1. rewrite Hc.
  cbn [mbind res_bind]. by rewrite IH.
Qed.

(** Calls one after the other: the original handler is asked once, and all
    answers are its filtered answer; also an error is kept, as the empty
    list. *)
Lemma serve_once orig hidden n :
  match orig 0 with
  | Ok l => serve orig hidden (S n) new_lister = Ok (replicate (S n) (hide hidden l), mkLister true (hide hidden l) 1)
  | Err _ => serve orig hidden (S n) new_lister = Ok (replicate (S n) [], mkLister true [] 1)
  | Panic w => serve orig hidden (S n) new_lister = Panic w
  end.
Proof.
  cbn [serve]. unfold ListAPIResources. cbn. destruct (orig 0) as [l|e|w]; cbn; [| |done]; by rewrite serve_cached.
Qed.

Section concurrent.
Context (ok : res error (list APIResource) → Prop) (hidden : list string).

(** The answers that are right: a filtered answer of the original handler,
    or nothing if that may fail. *)
Definition filtered_answer (a : list APIResource) : Prop := ∃ l, ok (Ok l) ∧ a = hide hidden l.
Definition right_answer (a : list APIResource) : Prop :=
  filtered_answer a ∨ (a = [] ∧ ∃ e, ok (Err e)).

(** What holds of a thread, given the list in the cache. *)
Definition thread_ok (kept : list APIResource) (t : thread) : Prop :=
  match t with
  | TStart | TGet => True
  | TReturnCached => right_answer kept
  | TFailed => ∃ e, ok (Err e)
  | TStore l => filtered_answer l
  | TMark l => filtered_answer l ∧ right_answer kept
  | TDone a => right_answer a
  end.

Record lister_inv (s : shared) : Prop := {
  inv_list : sh_list s = [] ∨ filtered_answer (sh_list s);
  inv_cached : sh_cached s = true → right_answer (sh_list s);
  inv_threads : Forall (thread_ok (sh_list s)) (threads s);
}.

(** A thread is not disturbed when a filtered answer enters the cache. *)
Lemma thread_ok_mono kept l t : filtered_answer l → thread_ok kept t → thread_ok l t.
Proof. intros Hl. destruct t; simpl; try done; [by left|]. intros [? _]. split; [done|by left]. Qed.

Lemma lister_inv_step s s' : lister_inv s → step ok hidden s s' → lister_inv s'.
Proof.
  intros [Hl Hc Ht]. rewrite Forall_lookup in Ht.
  assert (∀ i t, thread_ok (sh_list s) t → Forall (thread_ok (sh_list s)) (<[i := t]> (threads s))) as Hput.
  { intros i t Hok. apply Forall_insert; [|done]. by apply Forall_lookup. }
  destruct 1 as [s i Hi Hf|s i Hi Hf|s i Hi|s i l Hi Hok|s i e Hi Hok|s i Hi|s i l Hi|s i l Hi|s];
    try (specialize (Ht _ _ Hi) as Hti; simpl in Hti); constructor; simpl; auto;
    try (apply Hput; simpl; by auto).
  - apply Hput. simpl. eexists. eauto.
  - apply Hput. simpl. eauto.
  - intros _. destruct Hti as [e He]. destruct Hl as [->|Hl]; [right; eauto|by left].
  - apply Hput. simpl. destruct Hti as [e He]. destruct Hl as [->|Hl]; [right; eauto|by left].
  - intros _. by left.
  - apply Forall_insert; [|simpl; split; [done|by left]]. apply Forall_lookup. intros j t Hj.
    by apply (thread_ok_mono (sh_list s)), (Ht j).
  - by destruct Hti.
  - apply Hput. simpl. by left; destruct Hti.
  - apply Forall_app. split; [by apply Forall_lookup|by apply Forall_singleton].
Qed.

Lemma lister_inv_reachable s : rtc (step ok hidden) (mkShared false [] []) s → lister_inv s.
Proof.
  intros Hr. assert (lister_inv (mkShared false [] [])) as H0 by (constructor; simpl; [by left|done|constructor]).
  revert H0. induction Hr as [|s1 s2 s3 H12 _ IH]; [done|]. intros H0. by apply IH, (lister_inv_step s1).
Qed.
End concurrent.

(** C18: Discovery under concurrent requests, for every
    interleaving: an answer never contains a hidden resource, it is the
    filtered list of the original handler, or empty if asking that handler can
    fail; if the handler always gives the same list, all requests get the
    filtered one. *)
Theorem ListAPIResources_concurrent ok hidden s a :
  rtc (step ok hidden) (mkShared false [] []) s → TDone a ∈ threads s →
  ((∃ l, ok (Ok l) ∧ a = hide hidden l) ∨ (a = [] ∧ ∃ e, ok (Err e))) ∧
  (∀ r, r ∈ a → AR_Name r ∉ hidden) ∧
  (∀ l0, (∀ m, ok m → m = Ok l0) → a = hide hidden l0).
Proof.
  intros Hr Ha. pose proof (inv_threads _ _ _ (lister_inv_reachable ok hidden s Hr)) as Ht.
  rewrite Forall_forall in Ht. specialize (Ht _ Ha). simpl in Ht. split_and!; [done| |].
  - intros r Hin. destruct Ht as [(l & _ & ->)|[-> _]]; [|by apply elem_of_nil in Hin].
    by apply list_elem_of_filter in Hin as [? _].
  - intros l0 Hsame. destruct Ht as [(l & Hl & ->)|[_ [e He]]].
    + apply Hsame in Hl. by injection Hl as ->.
    + apply Hsame in He. discriminate.
Qed.

(** ** Parent resources *)

Lemma Cut_byte_first c s a b :
  Cut s (String c EmptyString) = Some (a, b) → str_exists (λ d, (d =? c)%char) a = false.
Proof.
  revert a. induction s as [|d s IH]; intros a; simpl; [done|].
  destruct (Ascii.eqb_spec c d) as [->|Hne]; [by intros [= <- _]|].
  destruct (Cut s (String c EmptyString)) as [[a' b']|]; [|done]. intros [= <- <-]. simpl.
  rewrite (IH a' eq_refl), orb_false_r. apply Ascii.eqb_neq. congruence.
Qed.

Lemma parent_spec resource p :
  parent resource = Some p ↔ ∃ sub, resource = p +:+ "/" +:+ sub ∧ str_exists (λ c, (c =? "/")%char) p = false.
Proof.
  unfold parent, Contains. split.
  - destruct (Cut resource "/") as [[a b]|] eqn:E; simpl; [|done]. intros [= <-].
    exists b. split; [exact (Cut_Some _ _ _ _ E)|by apply Cut_byte_first in E].
  - intros (sub & -> & Hp). pose proof (Cut_fresh p "/" EmptyString sub Hp) as Hc. cbn [String.append] in *.
    by rewrite Hc.
Qed.

Lemma parent_names `{MapOrder} {A} (resourcesStorage : gmap string A) :
  NoDup (getParentResourceNames resourcesStorage) ∧
  ∀ p, p ∈ getParentResourceNames resourcesStorage ↔
    str_exists (λ c, (c =? "/")%char) p = false ∧ ∃ sub, is_Some (resourcesStorage !! (p +:+ "/" +:+ sub)).
Proof.
  unfold getParentResourceNames. set (f := λ (m : gmap string unit) (kv : string * A), _).
  assert (∀ (l : list (string * A)) (m : gmap string unit) p,
    p ∈ dom (foldl f m l) ↔ p ∈ dom m ∨ ∃ kv, kv ∈ l ∧ parent kv.1 = Some p) as Hfold.
  { induction l as [|kv l IH]; intros m p; simpl; [setoid_rewrite elem_of_nil; naive_solver|].
    rewrite IH. unfold f at 1. setoid_rewrite elem_of_cons.
    destruct (parent kv.1) as [q|] eqn:Hq; rewrite ?dom_insert_L; set_solver. }
  split; [apply range_map_NoDup|]. intros p. rewrite range_map_keys, Hfold, dom_empty_L. split.
  - intros [Hp|([k x] & Hk & Hp)]; [by apply not_elem_of_empty in Hp|]. simpl in Hp.
    apply parent_spec in Hp as (sub & -> & Hp). split; [done|]. exists sub. rewrite range_map_perm in Hk.
    apply elem_of_map_to_list in Hk. eauto.
  - intros (Hp & sub & x & Hx). right. exists (p +:+ "/" +:+ sub, x). split.
    + rewrite range_map_perm. by apply elem_of_map_to_list.
    + apply parent_spec. eauto.
Qed.

(** The parent resources of a storage map, for every order of
    iteration: each once, exactly those with a subresource. *)
Theorem getParentResourceNames_spec `{MapOrder} {A} (resourcesStorage : gmap string A) :
  NoDup (getParentResourceNames resourcesStorage) ∧
  ∀ p, p ∈ getParentResourceNames resourcesStorage ↔
    str_exists (λ c, (c =? "/")%char) p = false ∧ ∃ sub, is_Some (resourcesStorage !! (p +:+ "/" +:+ sub)).
Proof. apply parent_names. Qed.

(** ** Routes *)

Lemma find_ws_Some root i container j ws :
  find_ws root i container = Some (j, ws) →
  i ≤ j ∧ container !! (j - i) = Some ws ∧ WS_RootPath ws = root ∧
  ∀ k w, k < j - i → container !! k = Some w → WS_RootPath w ≠ root.
Proof.
  revert i. induction container as [|w container IH]; intros i; simpl; [done|].
  destruct (String.eqb_spec (WS_RootPath w) root) as [Heq|Hne].
  - intros [= -> ->]. split; [lia|]. rewrite Nat.sub_diag. split; [done|]. split; [done|]. lia.
  - intros Hf. apply IH in Hf as (Hij & Hl & Hr & Hall). split; [lia|].
    replace (j - i) with (S (j - S i)) by lia. split; [done|]. split; [done|].
    intros [|k] w' Hk; simpl; [by intros [= <-]|]. apply Hall. lia.
Qed.

Lemma filter_none_left {A} (b : A → bool) (l : list A) : filter (λ x, b x = true) (filter (λ x, b x = false) l) = [].
Proof.
  induction l as [|x l IH]; [done|]. rewrite filter_cons. case_decide as Hx; [|done].
  rewrite filter_cons_False by congruence. done.
Qed.

(** Replacing the route of a group version: it succeeds
    exactly when the service and its route exist; then the first service of
    that path has exactly one route for the list of resources, which filters
    the answer of the handler that was there, and every other route and
    service is as before. *)
Theorem installFilteredAPIVersionHandler_spec gv hidden container :
  let root := path_join [APIGroupPrefix; GV_Group gv; GV_Version gv] in
  match installFilteredAPIVersionHandler gv hidden container with
  | Ok container' => ∃ i ws ws' h,
      container !! i = Some ws ∧ container' = <[i := ws']> container ∧
      (∃ rt, rt ∈ WS_Routes ws ∧ is_route "GET" (root +:+ "/") rt = true ∧ Rt_Function rt = h) ∧
      WS_RootPath ws = root ∧ WS_RootPath ws' = root ∧
      filter (λ rt, is_route "GET" (root +:+ "/") rt = true) (WS_Routes ws') =
        [mkRoute "GET" (root +:+ "/") (Filtering hidden h)] ∧
      filter (λ rt, is_route "GET" (root +:+ "/") rt = false) (WS_Routes ws') =
        filter (λ rt, is_route "GET" (root +:+ "/") rt = false) (WS_Routes ws)
  | Err _ =>
      match find_ws root 0 container with
      | None => True
      | Some (_, ws) => Forall (λ rt, is_route "GET" (root +:+ "/") rt = false) (WS_Routes ws)
      end
  | Panic _ => False
  end.
Proof.
  intros root. unfold installFilteredAPIVersionHandler. fold root.
  destruct (find_ws root 0 container) as [[i ws]|] eqn:Hf; [|done].
  destruct (list_find _ (WS_Routes ws)) as [[j rt]|] eqn:Hrt.
  - cbn [mbind res_bind RemoveRoute WS_Dynamic]. apply find_ws_Some in Hf as (_ & Hi & Hroot & _).
    rewrite Nat.sub_0_r in Hi. apply list_find_Some in Hrt as (Hj & Hget & _).
    eexists i, ws, _, (Rt_Function rt). split; [done|]. split; [done|].
    split; [exists rt; split; [by eapply list_elem_of_lookup_2|done]|].
    cbn [WS_RootPath WS_Routes AddRoute]. rewrite Hroot. split; [done|]. split; [done|].
    assert (is_route "GET" (root +:+ "/") (mkRoute "GET" (root +:+ "/") (Filtering hidden (Rt_Function rt))) = true) as Hnew
      by (unfold is_route; simpl; by rewrite String.eqb_refl).
    split; rewrite filter_app.
    + rewrite (filter_none_left (λ rt, is_route "GET" (root +:+ "/") rt)). by rewrite filter_cons_True.
    + rewrite list_filter_filter_l by done. rewrite filter_cons_False by congruence. by rewrite filter_nil, app_nil_r.
  - apply list_find_None in Hrt. eapply Forall_impl; [done|]. intros rt' Hn. by apply not_true_is_false.
Qed.

(** ** Groups *)

Lemma buildAPIGroupInfos_fold {A} (l : APIGroups A) (m : gmap string (gmap string (gmap string A))) g v :
  NoDup l.*1 →
  (foldl (λ result '(gv, storage),
     <[GV_Group gv := <[GV_Version gv := storage]> (default ∅ (result !! GV_Group gv))]> result) m l !! g
     ≫= λ gi, gi !! v) =
  match list_to_map (M := gmap (string * string) (gmap string A))
    ((λ '(gv, st), ((GV_Group gv, GV_Version gv), st)) <$> l) !! (g, v) with
  | Some st => Some st
  | None => m !! g ≫= λ gi, gi !! v
  end.
Proof.
  revert m. induction l as [|[[g' v'] st] l IH]; intros m Hl; [done|]. csimpl in Hl. apply NoDup_cons in Hl as [Hnew Hl].
  csimpl. rewrite IH by done. destruct (decide ((g', v') = (g, v))) as [[= -> ->]|Hne].
  - rewrite lookup_insert_eq, lookup_insert_eq. csimpl. rewrite lookup_insert_eq.
    rewrite (not_elem_of_list_to_map_1 _ (g, v)); [done|].
    intros ([[g1 v1] st1] & Heq & ([[g2 v2] st2] & [= -> -> ->] & Hin)%list_elem_of_fmap)%list_elem_of_fmap.
    simpl in Heq. injection Heq as -> ->. apply Hnew. apply list_elem_of_fmap. by eexists (_, _).
  - rewrite (lookup_insert_ne _ (g', v')) by done.
    destruct (list_to_map _ !! (g, v)); [done|]. destruct (decide (g' = g)) as [->|Hg].
    + rewrite lookup_insert_eq. csimpl. rewrite lookup_insert_ne by congruence. by destruct (m !! g).
    + by rewrite lookup_insert_ne.
Qed.

(** The groups the server installs, for every order of
    iteration: each group has exactly its versions, each with its own
    storage. *)
Theorem buildAPIGroupInfos_spec {A} (apiGroups : APIGroups A) g v :
  NoDup apiGroups.*1 →
  (buildAPIGroupInfos apiGroups !! g ≫= λ gi, gi !! v) = list_to_map (M := gmap (string * string) (gmap string A))
    ((λ '(gv, st), ((GV_Group gv, GV_Version gv), st)) <$> apiGroups) !! (g, v).
Proof.
  intros Hnd. unfold buildAPIGroupInfos.
  rewrite buildAPIGroupInfos_fold by done. rewrite lookup_empty. simpl. by destruct (list_to_map _ !! _).
Qed.

(** ** The server *)

Definition PluralResourceName : string := "virtualmachinetemplates".
Definition server_storage : gmap string unit :=
  {[ PluralResourceName := tt; PluralResourceName +:+ "/process" := tt; PluralResourceName +:+ "/create" := tt ]}.
(** The API groups of cmd/apiserver/main.go. *)
Definition server_groups : APIGroups unit :=
  [(mkGV "subresources.template.kubevirt.io" "v1alpha1", server_storage);
   (mkGV "subresources.template.kubevirt.io" "v1beta1", server_storage)].

(** In both versions only the templates themselves are hidden from
    discovery, their subresources are not. *)
Lemma server_hides_parent `{MapOrder} : getParentResourceNames server_storage = [PluralResourceName].
Proof.
  assert (NoDup (getParentResourceNames server_storage) ∧ ∀ p, p ∈ getParentResourceNames server_storage ↔ p = PluralResourceName)
    as [Hnd Hp].
  { destruct (parent_names server_storage) as [Hnd Hp]. split; [done|]. intros p. rewrite Hp. split.
    - intros (Hs & sub & x & Hx). unfold server_storage in Hx.
      apply lookup_insert_Some in Hx as [[Heq _]|[_ Hx]]; [|apply lookup_insert_Some in Hx as [[Heq _]|[_ Hx]];
        [|apply lookup_singleton_Some in Hx as [Heq _]]].
      + exfalso. assert (parent PluralResourceName = Some p) as Hpar by (apply parent_spec; eauto).
        by vm_compute in Hpar.
      + assert (parent (PluralResourceName +:+ "/process") = Some p) as Hpar by (apply parent_spec; eauto).
        vm_compute in Hpar. by injection Hpar as <-.
      + assert (parent (PluralResourceName +:+ "/create") = Some p) as Hpar by (apply parent_spec; eauto).
        vm_compute in Hpar. by injection Hpar as <-.
    - intros ->. split; [done|]. exists "process". by eexists. }
  destruct (getParentResourceNames server_storage) as [|p [|q l]]; [|f_equal; apply Hp; left|].
  - pose proof (proj2 (Hp PluralResourceName) eq_refl) as Hin. by apply elem_of_nil in Hin.
  - apply NoDup_cons in Hnd as [Hnot _]. exfalso. apply Hnot.
    rewrite (proj1 (Hp p) ltac:(left)), (proj1 (Hp q) ltac:(right; left)). left.
Qed.

(** ** Concrete instances *)

Definition one_resource : list APIResource := [mkResource "virtualmachinetemplates" ""; mkResource "virtualmachinetemplates/process" ""].
Definition served_state : shared :=
  mkShared true [mkResource "virtualmachinetemplates/process" ""]
    [TDone [mkResource "virtualmachinetemplates/process" ""]; TGet].

Lemma ListAPIResources_concurrent_witness :
  TDone [mkResource "virtualmachinetemplates/process" ""] ∈ threads served_state ∧
  [mkResource "virtualmachinetemplates/process" ""] = hide [PluralResourceName] one_resource.
Proof.
  assert (rtc (step (λ m, m = Ok one_resource) [PluralResourceName]) (mkShared false [] []) served_state) as Hr.
  { eapply rtc_l; [apply step_request|]. eapply rtc_l; [apply step_request|].
    eapply rtc_l; [apply (step_miss _ _ _ 0); reflexivity|].
    eapply rtc_l; [apply (step_miss _ _ _ 1); reflexivity|].
    eapply rtc_l; [apply (step_get _ _ _ 0 one_resource); reflexivity|].
    eapply rtc_l; [apply (step_store _ _ _ 0 (hide [PluralResourceName] one_resource)); reflexivity|].
    eapply rtc_l; [apply (step_mark _ _ _ 0 (hide [PluralResourceName] one_resource)); reflexivity|].
    apply rtc_refl. }
  assert (TDone [mkResource "virtualmachinetemplates/process" ""] ∈ threads served_state) as Hin by left.
  split; [exact Hin|].
  apply (proj2 (proj2 (ListAPIResources_concurrent _ _ _ _ Hr Hin)) one_resource). intros m Hm. exact Hm.
Defined.

Lemma buildAPIGroupInfos_spec_witness :
  (buildAPIGroupInfos server_groups !! "subresources.template.kubevirt.io" ≫= λ gi, gi !! "v1beta1") =
  Some server_storage.
Proof.
  rewrite (buildAPIGroupInfos_spec server_groups "subresources.template.kubevirt.io" "v1beta1");
    [reflexivity|]. by apply (bool_decide_unpack _).
Defined.
