(* ===== verification/Meta.v ===== *)
(** * Object metadata: conditions, finalizers and owner references

    The helpers of [k8s.io/apimachinery] ([meta/conditions.go],
    [meta/v1/controller_ref.go]) and of controller-runtime ([controllerutil])
    that the controllers call on the metadata and the status of objects. *)

From Stdlib Require Import Ascii ZArith Lia.
From stdpp Require Import prelude strings gmap.
From S2P Require Import Prelude GoStrings.

(** ** Conditions *)

Inductive ConditionStatus : Type := ConditionTrue | ConditionFalse | ConditionUnknown.
#[export] Instance ConditionStatus_eq_dec : EqDecision ConditionStatus.
Proof. solve_decision. Defined.

(** [metav1.Condition]; times are in nanoseconds. *)
Record Condition : Type := mkCondition {
  C_Type : string;
  C_Status : ConditionStatus;
  C_ObservedGeneration : Z;
  C_LastTransitionTime : Z;
  C_Reason : string;
  C_Message : string;
}.
#[export] Instance Condition_eq_dec : EqDecision Condition.
Proof. solve_decision. Defined.

Fixpoint FindStatusCondition (conditions : list Condition) (conditionType : string) : option Condition :=
  match conditions with
  | [] => None
  | c :: cs => if (C_Type c =? conditionType)%string then Some c else FindStatusCondition cs conditionType
  end.

Definition RemoveStatusCondition (conditions : list Condition) (conditionType : string) : list Condition :=
  filter (λ c, C_Type c ≠ conditionType) conditions.

(** The existing condition with the fields of the new one; the transition
    time changes with the status. *)
Definition update_condition (now : Z) (old new : Condition) : Condition :=
  mkCondition (C_Type old) (C_Status new) (C_ObservedGeneration new)
    (if decide (C_Status old = C_Status new) then C_LastTransitionTime old
     else if (C_LastTransitionTime new =? 0)%Z then now else C_LastTransitionTime new)
    (C_Reason new) (C_Message new).

Definition new_condition (now : Z) (new : Condition) : Condition :=
  if (C_LastTransitionTime new =? 0)%Z
  then mkCondition (C_Type new) (C_Status new) (C_ObservedGeneration new) now (C_Reason new) (C_Message new)
  else new.

(** [SetStatusCondition] updates the first condition of the type in place or
    appends a new one. *)
Fixpoint SetStatusCondition (now : Z) (conditions : list Condition) (new : Condition) : list Condition :=
  match conditions with
  | [] => [new_condition now new]
  | c :: cs =>
      if (C_Type c =? C_Type new)%string then update_condition now c new :: cs
      else c :: SetStatusCondition now cs new
  end.

Definition IsStatusConditionPresentAndEqual (conditions : list Condition) (conditionType : string)
    (status : ConditionStatus) : bool :=
  match FindStatusCondition conditions conditionType with
  | Some c => bool_decide (C_Status c = status)
  | None => false
  end.
Definition IsStatusConditionTrue (conditions : list Condition) (conditionType : string) : bool :=
  IsStatusConditionPresentAndEqual conditions conditionType ConditionTrue.

(** The status of a condition, if it is there. *)
Definition status_of (conditions : list Condition) (conditionType : string) : option ConditionStatus :=
  C_Status <$> FindStatusCondition conditions conditionType.
Definition reason_of (conditions : list Condition) (conditionType : string) : option string :=
  C_Reason <$> FindStatusCondition conditions conditionType.
Definition message_of (conditions : list Condition) (conditionType : string) : option string :=
  C_Message <$> FindStatusCondition conditions conditionType.

Lemma Find_Set now cs new t :
  FindStatusCondition (SetStatusCondition now cs new) t =
  if (C_Type new =? t)%string then
    Some (match FindStatusCondition cs t with
          | Some c => update_condition now c new
          | None => new_condition now new
          end)
  else FindStatusCondition cs t.
Proof.
  induction cs as [|c cs IH]; simpl.
  - unfold new_condition. destruct (_ =? 0)%Z; simpl; by destruct (C_Type new =? t)%string.
  - destruct (String.eqb_spec (C_Type c) (C_Type new)) as [Heq|Hne]; simpl.
    + rewrite Heq. by destruct (C_Type new =? t)%string.
    + rewrite IH. destruct (String.eqb_spec (C_Type c) t) as [<-|]; [|done].
      destruct (String.eqb_spec (C_Type new) (C_Type c)); [congruence|done].
Qed.

Lemma Find_Set_same now cs new :
  ∃ c, FindStatusCondition (SetStatusCondition now cs new) (C_Type new) = Some c ∧
    C_Status c = C_Status new ∧ C_Reason c = C_Reason new ∧ C_Message c = C_Message new.
Proof.
  rewrite Find_Set, String.eqb_refl. eexists. split; [done|].
  destruct (FindStatusCondition cs (C_Type new)); [done|]. unfold new_condition. by destruct (_ =? 0)%Z.
Qed.

Lemma Find_Set_other now cs new t :
  C_Type new ≠ t → FindStatusCondition (SetStatusCondition now cs new) t = FindStatusCondition cs t.
Proof. intros Hne. rewrite Find_Set. by destruct (String.eqb_spec (C_Type new) t). Qed.

Lemma Find_Remove cs t t' :
  FindStatusCondition (RemoveStatusCondition cs t) t' =
  if (t =? t')%string then None else FindStatusCondition cs t'.
Proof.
  unfold RemoveStatusCondition. induction cs as [|c cs IH]; simpl; [by destruct (t =? t')%string|].
  rewrite filter_cons. destruct (decide (C_Type c ≠ t)) as [Hne|Heq]; simpl.
  - rewrite IH. destruct (String.eqb_spec (C_Type c) t') as [<-|]; [|done].
    destruct (String.eqb_spec t (C_Type c)); [congruence|done].
  - apply dec_stable in Heq. rewrite IH, Heq. by destruct (t =? t')%string.
Qed.

(** ** Object metadata *)

Record OwnerReference : Type := mkOwnerReference {
  OR_Kind : string;
  OR_Name : string;
  OR_UID : string;
  OR_Controller : bool;
}.
#[export] Instance OwnerReference_eq_dec : EqDecision OwnerReference.
Proof. solve_decision. Defined.

Record ObjectMeta : Type := mkObjectMeta {
  Name : string;
  Namespace : string;
  UID : string;
  Generation : Z;
  Labels : gmap string string;
  Annotations : gmap string string;
  Finalizers : list string;
  OwnerReferences : list OwnerReference;
  DeletionTimestamp : option Z;
}.

Definition key : Type := string * string.
Definition object_key (m : ObjectMeta) : key := (Namespace m, Name m).

(** [metav1.ObjectMeta{Namespace: ns, Name: name}]. *)
Definition empty_meta (ns name : string) : ObjectMeta := mkObjectMeta name ns "" 0 ∅ ∅ [] [] None.

Definition set_labels (l : gmap string string) (m : ObjectMeta) : ObjectMeta :=
  mkObjectMeta (Name m) (Namespace m) (UID m) (Generation m) l (Annotations m) (Finalizers m)
    (OwnerReferences m) (DeletionTimestamp m).
Definition set_annotations (a : gmap string string) (m : ObjectMeta) : ObjectMeta :=
  mkObjectMeta (Name m) (Namespace m) (UID m) (Generation m) (Labels m) a (Finalizers m)
    (OwnerReferences m) (DeletionTimestamp m).
Definition set_uid (u : string) (m : ObjectMeta) : ObjectMeta :=
  mkObjectMeta (Name m) (Namespace m) u (Generation m) (Labels m) (Annotations m) (Finalizers m)
    (OwnerReferences m) (DeletionTimestamp m).
Definition set_finalizers (f : list string) (m : ObjectMeta) : ObjectMeta :=
  mkObjectMeta (Name m) (Namespace m) (UID m) (Generation m) (Labels m) (Annotations m) f
    (OwnerReferences m) (DeletionTimestamp m).
Definition set_owners (o : list OwnerReference) (m : ObjectMeta) : ObjectMeta :=
  mkObjectMeta (Name m) (Namespace m) (UID m) (Generation m) (Labels m) (Annotations m) (Finalizers m)
    o (DeletionTimestamp m).
Definition set_deletion (d : option Z) (m : ObjectMeta) : ObjectMeta :=
  mkObjectMeta (Name m) (Namespace m) (UID m) (Generation m) (Labels m) (Annotations m) (Finalizers m)
    (OwnerReferences m) d.

(** ** Finalizers *)

Definition ContainsFinalizer (m : ObjectMeta) (f : string) : bool :=
  existsb (λ e, (e =? f)%string) (Finalizers m).
Definition AddFinalizer (m : ObjectMeta) (f : string) : ObjectMeta :=
  if ContainsFinalizer m f then m else set_finalizers (Finalizers m ++ [f]) m.
Definition RemoveFinalizer (m : ObjectMeta) (f : string) : ObjectMeta :=
  set_finalizers (filter (λ e, e ≠ f) (Finalizers m)) m.

Lemma ContainsFinalizer_elem m f : ContainsFinalizer m f = true ↔ f ∈ Finalizers m.
Proof.
  unfold ContainsFinalizer. rewrite existsb_exists. split.
  - intros (x & Hx & ->%String.eqb_eq). by apply list_elem_of_In.
  - intros Hf. exists f. split; [by apply list_elem_of_In|apply String.eqb_refl].
Qed.

Lemma ContainsFinalizer_Remove m f : ContainsFinalizer (RemoveFinalizer m f) f = false.
Proof.
  apply not_true_is_false. rewrite ContainsFinalizer_elem. unfold RemoveFinalizer. simpl.
  intros [Hf _]%list_elem_of_filter. done.
Qed.

Lemma ContainsFinalizer_Add m f : ContainsFinalizer (AddFinalizer m f) f = true.
Proof.
  unfold AddFinalizer. destruct (ContainsFinalizer m f) eqn:E; [done|].
  apply ContainsFinalizer_elem. simpl. apply elem_of_app. right. by left.
Qed.

(** ** Owner references

    The kinds that own objects here all belong to the group of the template
    API, so a reference names its owner by kind and name. *)

Definition GetControllerOf (m : ObjectMeta) : option OwnerReference :=
  List.find OR_Controller (OwnerReferences m).

Definition IsControlledBy (m owner : ObjectMeta) : bool :=
  match GetControllerOf m with Some r => (OR_UID r =? UID owner)%string | None => false end.

Definition referSameObject (a b : OwnerReference) : bool :=
  (OR_Kind a =? OR_Kind b)%string && (OR_Name a =? OR_Name b)%string.

Fixpoint upsertOwnerRef (ref : OwnerReference) (owners : list OwnerReference) : list OwnerReference :=
  match owners with
  | [] => [ref]
  | r :: rs => if referSameObject r ref then ref :: rs else r :: upsertOwnerRef ref rs
  end.

Definition validateOwner (owner object : ObjectMeta) : res error unit :=
  if (Namespace owner =? EmptyString)%string then Ok tt
  else if (Namespace object =? EmptyString)%string
  then Err (EMsg ("cluster-scoped resource must not have a namespace-scoped owner, owner's namespace " +:+
                  Namespace owner))
  else if (Namespace owner =? Namespace object)%string then Ok tt
  else Err (EMsg ("cross-namespace owner references are disallowed, owner's namespace " +:+ Namespace owner +:+
                  ", obj's namespace " +:+ Namespace object)).

Definition controller_ref (kind : string) (owner : ObjectMeta) : OwnerReference :=
  mkOwnerReference kind (Name owner) (UID owner) true.

Definition SetControllerReference (kind : string) (owner controlled : ObjectMeta) : res error ObjectMeta :=
  _ ← validateOwner owner controlled;
  let ref := controller_ref kind owner in
  match GetControllerOf controlled with
  | Some existing =>
      if referSameObject existing ref
      then Ok (set_owners (upsertOwnerRef ref (OwnerReferences controlled)) controlled)
      else Err (EMsg ("Object " +:+ Namespace controlled +:+ "/" +:+ Name controlled +:+
                      " is already owned by another " +:+ OR_Kind existing +:+ " controller " +:+ OR_Name existing))
  | None => Ok (set_owners (upsertOwnerRef ref (OwnerReferences controlled)) controlled)
  end.

(** The references without the first one to the owner; the first component
    is that reference. *)
Fixpoint take_owner_ref (ref : OwnerReference) (owners : list OwnerReference)
    : option (OwnerReference * list OwnerReference) :=
  match owners with
  | [] => None
  | r :: rs => if referSameObject r ref then Some (r, rs) else '(x, rs') ← take_owner_ref ref rs; Some (x, r :: rs')
  end.

Definition RemoveControllerReference (kind : string) (owner object : ObjectMeta) : res error ObjectMeta :=
  match GetControllerOf object with
  | None => Err (EMsg "object does not have a owner reference with controller equals true")
  | Some _ =>
      match take_owner_ref (controller_ref kind owner) (OwnerReferences object) with
      | None => Err (EMsg "object does not have an controller reference for the owner")
      | Some (r, rs) =>
          if OR_Controller r then Ok (set_owners rs object)
          else Err (EMsg "owner is not the controller reference for the object")
      end
  end.

(** *** Lemmas *)

Lemma referSameObject_refl r : referSameObject r r = true.
Proof. unfold referSameObject. by rewrite !String.eqb_refl. Qed.

(** Setting a controller reference makes the owner the controller. *)
Lemma SetControllerReference_controls kind owner obj obj' :
  SetControllerReference kind owner obj = Ok obj' →
  IsControlledBy obj' owner = true ∧ Namespace obj' = Namespace obj ∧ Name obj' = Name obj ∧
  Labels obj' = Labels obj ∧ UID obj' = UID obj ∧
  (Namespace owner ≠ EmptyString → Namespace owner = Namespace obj).
Proof.
  unfold SetControllerReference. intros H. res_inv.
  assert (Namespace owner ≠ EmptyString → Namespace owner = Namespace obj) as Hns.
  { intros Hne. unfold validateOwner in H0. destruct (String.eqb_spec (Namespace owner) ""); [done|].
    destruct (_ =? _)%string; [done|]. by destruct (String.eqb_spec (Namespace owner) (Namespace obj)). }
  assert (∀ owners, (∀ r, List.find OR_Controller owners = Some r → referSameObject r (controller_ref kind owner) = true) →
    ∃ r, List.find OR_Controller (upsertOwnerRef (controller_ref kind owner) owners) = Some r ∧ OR_UID r = UID owner) as Hfind.
  { clear. induction owners as [|r rs IH]; intros Hr; [by eexists|]. simpl.
    destruct (referSameObject r (controller_ref kind owner)) eqn:E; [by eexists|].
    simpl in Hr |- *. destruct (OR_Controller r) eqn:Ec; [|by apply IH].
    exfalso. specialize (Hr r eq_refl). congruence. }
  assert (∀ r, GetControllerOf obj = Some r → referSameObject r (controller_ref kind owner) = true) as Hr.
  { intros r Hr. rewrite Hr in H. by destruct (referSameObject r _). }
  assert (obj' = set_owners (upsertOwnerRef (controller_ref kind owner) (OwnerReferences obj)) obj) as ->.
  { destruct (GetControllerOf obj) as [r|] eqn:E; [|by injection H as <-].
    rewrite (Hr r eq_refl) in H. by injection H as <-. }
  split_and!; try done. unfold IsControlledBy, GetControllerOf. simpl.
  destruct (Hfind _ Hr) as (r & -> & ->). apply String.eqb_refl.
Qed.
