(* ===== verification/Cluster.v ===== *)
(** * The resources of the cluster and the client the controllers use

    The controllers read and write Kubernetes objects through a client.  The
    cluster is a store of the objects they touch; other actors may change it
    before every call, a call may fail with any error, also after it took
    effect, and a read may miss an object (an informer cache lags behind).
    All of that is the environment, over which the theorems quantify. *)

From Stdlib Require Import Ascii ZArith Lia.
From stdpp Require Import prelude strings gmap.
From S2P Require Import Prelude GoStrings Api Meta.

(** ** Constants of the API *)

Definition GroupName : string := "template.kubevirt.io".
Definition FinalizerSnapshotCleanup : string := GroupName +:+ "/SnapshotCleanup".
Definition LabelRequestUID : string := GroupName +:+ "/RequestUID".
Definition ConditionReady : string := "Ready".
Definition ConditionProgressing : string := "Progressing".
Definition ReasonReconciled : string := "Reconciled".
Definition ReasonReconciling : string := "Reconciling".
Definition ReasonInvalidConfiguration : string := "InvalidConfiguration".
Definition ReasonFailed : string := "Failed".
Definition ReasonWaiting : string := "Waiting".

(** ** Virtual machines

    The fields of a [VirtualMachineSpec] the controller reads or changes; the
    rest is kept as it is. *)

Record Volume : Type := mkVolume {
  Vol_Name : string;
  Vol_DataVolume : option string;
  Vol_Other : string;
}.

(** A data volume template: a PVC to clone from, or another source. *)
Inductive dvt_source : Type :=
| SourcePVC (ns name : string)
| SourceOther (s : string).
Record DataVolumeTemplateSpec : Type := mkDVT {
  DVT_Name : string;
  DVT_Source : dvt_source;
}.

Record Interface : Type := mkInterface { If_MacAddress : string; If_Other : string }.
Record Firmware : Type := mkFirmware { Fw_Serial : string; Fw_UUID : string; Fw_Other : string }.

Record VMISpec : Type := mkVMISpec {
  VMI_Interfaces : list Interface;
  VMI_Firmware : option Firmware;
  VMI_Volumes : list Volume;
  VMI_Other : string;
}.

Record VirtualMachineSpec : Type := mkVMSpec {
  VS_Template : option VMISpec;
  VS_DataVolumeTemplates : list DataVolumeTemplateSpec;
  VS_Other : string;
}.

Record VM : Type := mkVM { VM_Meta : ObjectMeta; VM_Spec : VirtualMachineSpec }.

(** ** Snapshots *)

Record SnapCondition : Type := mkSnapCondition {
  SC_Type : string;
  SC_Status : ConditionStatus;
  SC_Reason : string;
}.

Record SnapshotStatus : Type := mkSnapshotStatus {
  SS_Conditions : list SnapCondition;
  SS_Phase : string;
  SS_ContentName : option string;
}.

Record VirtualMachineSnapshot : Type := mkSnapshot {
  Snap_Meta : ObjectMeta;
  Snap_SourceName : string;
  Snap_Status : option SnapshotStatus;
}.

Record VolumeBackup : Type := mkVolumeBackup {
  VB_VolumeName : string;
  VB_VolumeSnapshotName : option string;
}.

Record VirtualMachineSnapshotContent : Type := mkContent {
  SCt_Meta : ObjectMeta;
  SCt_SourceVM : option VM;
  SCt_VolumeBackups : list VolumeBackup;
  SCt_ReadyToUse : option bool; (* [None] also when there is no status *)
}.

(** ** Data volumes *)

Record DVCondition : Type := mkDVCondition { DVC_Type : string; DVC_Status : ConditionStatus }.

Record DataVolume : Type := mkDV {
  DV_Meta : ObjectMeta;
  DV_SourceSnapshot : option key;
  DV_Conditions : list DVCondition;
  DV_Phase : string;
}.

(** ** Templates and requests *)

(** The object of a template a request creates: a virtual machine with a
    name and a spec. *)
Record VirtualMachineTemplate : Type := mkTemplate {
  Tpl_Meta : ObjectMeta;
  Tpl_VMName : string;
  Tpl_VMSpec : VirtualMachineSpec;
  Tpl_Parameters : list Param;
  Tpl_Message : string;
  Tpl_Conditions : list Condition;
}.

Definition set_tpl_conditions (cs : list Condition) (t : VirtualMachineTemplate) : VirtualMachineTemplate :=
  mkTemplate (Tpl_Meta t) (Tpl_VMName t) (Tpl_VMSpec t) (Tpl_Parameters t) (Tpl_Message t) cs.

Record RequestSpec : Type := mkRequestSpec {
  VMRef_Namespace : string;
  VMRef_Name : string;
  TemplateName : string;
  TemplateLabels : gmap string string;
  TTLSecondsAfterFinished : option Z;
}.

Record RequestStatus : Type := mkRequestStatus {
  Conditions : list Condition;
  TemplateRef : option string;
}.
#[export] Instance RequestStatus_eq_dec : EqDecision RequestStatus.
Proof. solve_decision. Defined.

Record VirtualMachineTemplateRequest : Type := mkRequest {
  Req_Meta : ObjectMeta;
  Req_Spec : RequestSpec;
  Req_Status : RequestStatus;
}.

Definition set_meta (m : ObjectMeta) (r : VirtualMachineTemplateRequest) : VirtualMachineTemplateRequest :=
  mkRequest m (Req_Spec r) (Req_Status r).
Definition set_status (s : RequestStatus) (r : VirtualMachineTemplateRequest) : VirtualMachineTemplateRequest :=
  mkRequest (Req_Meta r) (Req_Spec r) s.
Definition set_conditions (cs : list Condition) (r : VirtualMachineTemplateRequest) : VirtualMachineTemplateRequest :=
  set_status (mkRequestStatus cs (TemplateRef (Req_Status r))) r.
Definition conditions (r : VirtualMachineTemplateRequest) : list Condition := Conditions (Req_Status r).

(** ** The cluster *)

Record world : Type := mkWorld {
  requests : gmap key VirtualMachineTemplateRequest;
  templates : gmap key VirtualMachineTemplate;
  snapshots : gmap key VirtualMachineSnapshot;
  contents : gmap key VirtualMachineSnapshotContent;
  datavolumes : gmap key DataVolume;
}.

Definition with_requests (f : gmap key VirtualMachineTemplateRequest → gmap key VirtualMachineTemplateRequest)
    (w : world) : world :=
  mkWorld (f (requests w)) (templates w) (snapshots w) (contents w) (datavolumes w).
Definition with_templates (f : gmap key VirtualMachineTemplate → gmap key VirtualMachineTemplate)
    (w : world) : world :=
  mkWorld (requests w) (f (templates w)) (snapshots w) (contents w) (datavolumes w).
Definition with_snapshots (f : gmap key VirtualMachineSnapshot → gmap key VirtualMachineSnapshot)
    (w : world) : world :=
  mkWorld (requests w) (templates w) (f (snapshots w)) (contents w) (datavolumes w).
Definition with_datavolumes (f : gmap key DataVolume → gmap key DataVolume) (w : world) : world :=
  mkWorld (requests w) (templates w) (snapshots w) (contents w) (f (datavolumes w)).

(** Errors of the client and of the controller itself. *)
Inductive rerror : Type :=
| NotFound (what : string)
| AlreadyExists (what : string)
| ApiError (text : string)
| LocalError (text : string)
| Joined (a b : rerror).

Fixpoint rerror_text (e : rerror) : string :=
  match e with
  | NotFound what => what +:+ " not found"
  | AlreadyExists what => what +:+ " already exists"
  | ApiError t | LocalError t => t
  | Joined a b => rerror_text a +:+ String "010" (rerror_text b)
  end.

Definition IsNotFound (e : rerror) : bool := match e with NotFound _ => true | _ => false end.
Definition IsAlreadyExists (e : rerror) : bool := match e with AlreadyExists _ => true | _ => false end.

(** The writes the controllers issue. *)
Inductive write : Type :=
| CreateSnapshot (s : VirtualMachineSnapshot)
| DeleteSnapshot (k : key)
| CreateDataVolume (dv : DataVolume)
| PatchDataVolume (old new : DataVolume)
| CreateTemplate (t : VirtualMachineTemplate)
| PatchTemplateStatus (k : key) (cs : list Condition)
| PatchRequestMeta (k : key) (m : ObjectMeta)
| PatchRequestStatus (k : key) (s : RequestStatus)
| DeleteRequest (k : key).

(** What happens around the calls: before the [n]-th call the rest of the
    cluster takes a step; the call fails, having taken effect or not; the
    server assigns an identifier; and the clock shows a time. *)
Record env : Type := mkEnv {
  interfere : nat → world → world;
  fault : nat → option (rerror * bool);
  fresh_uid : nat → string;
  clock : nat → Z;
}.

(** A reconciliation: the request object in memory, the cluster, the number of
    calls so far and the writes issued so far (latest first). *)
Record rstate : Type := mkState {
  tplReq : VirtualMachineTemplateRequest;
  cluster : world;
  calls : nat;
  writes : list write;
}.

(** ** The monad of a reconciliation: errors keep the state *)

Definition ctl (A : Type) : Type := rstate → res rerror A * rstate.
#[export] Instance ctl_ret : MRet ctl := λ A a s, (Ok a, s).
#[export] Instance ctl_bind : MBind ctl := λ A B f m s,
  match m s with
  | (Ok a, s') => f a s'
  | (Err e, s') => (Err e, s')
  | (Panic w, s') => (Panic w, s')
  end.
Definition throw {A} (e : rerror) : ctl A := λ s, (Err e, s).
Definition crash {A} (why : string) : ctl A := λ s, (Panic why, s).
(** [v, err := m]: the error as a value. *)
Definition try {A} (m : ctl A) : ctl (A + rerror) := λ s,
  match m s with
  | (Ok a, s') => (Ok (inl a), s')
  | (Err e, s') => (Ok (inr e), s')
  | (Panic w, s') => (Panic w, s')
  end.
Definition lift_err {A} (m : res error A) : ctl A := λ s,
  match m with Ok a => (Ok a, s) | Err e => (Err (LocalError (Error e)), s) | Panic w => (Panic w, s) end.
Definition get_req : ctl VirtualMachineTemplateRequest := λ s, (Ok (tplReq s), s).
Definition put_req (r : VirtualMachineTemplateRequest) : ctl unit := λ s,
  (Ok tt, mkState r (cluster s) (calls s) (writes s)).

(** [client.IgnoreNotFound]. *)
Definition IgnoreNotFound {A} (d : A) (m : ctl A) : ctl A :=
  r ← try m;
  match r with
  | inl a => mret a
  | inr e => if IsNotFound e then mret d else throw e
  end.

(** ** Calls of the client *)

Section client.
Context (E : env).

(** One call: [op] is its effect on the cluster, [ws] the write it stands for
    (logged whenever it is issued). *)
Definition call {A} (ws : list write) (op : nat → world → res rerror A * world) : ctl A := λ s,
  let n := calls s in
  let w := interfere E n (cluster s) in
  let log := ws ++ writes s in
  match fault E n with
  | Some (e, false) => (Err e, mkState (tplReq s) w (S n) log)
  | Some (e, true) => (Err e, mkState (tplReq s) (snd (op n w)) (S n) log)
  | None => let '(r, w') := op n w in (r, mkState (tplReq s) w' (S n) log)
  end.

(** Time of the next status change. *)
Definition now : ctl Z := λ s, (Ok (clock E (calls s)), s).

Definition key_text (k : key) : string := k.1 +:+ "/" +:+ k.2.

Definition get {A} (store : world → gmap key A) (k : key) : ctl A :=
  call [] (λ _ w, (match store w !! k with Some x => Ok x | None => Err (NotFound (key_text k)) end, w)).

(** [List] with matching labels, in all namespaces. *)
Definition list_datavolumes (label value : string) : ctl (list DataVolume) :=
  call [] (λ _ w, (Ok (filter (λ dv, Labels (DV_Meta dv) !! label = Some value) ((map_to_list (datavolumes w)).*2)), w)).

(** [List] of the requests in all namespaces. *)
Definition list_requests : ctl (list VirtualMachineTemplateRequest) :=
  call [] (λ _ w, (Ok ((map_to_list (requests w)).*2), w)).

Definition create_snapshot (snap : VirtualMachineSnapshot) : ctl VirtualMachineSnapshot :=
  call [CreateSnapshot snap] (λ n w,
    let k := object_key (Snap_Meta snap) in
    match snapshots w !! k with
    | Some _ => (Err (AlreadyExists (key_text k)), w)
    | None =>
        let snap' := mkSnapshot (set_uid (fresh_uid E n) (Snap_Meta snap)) (Snap_SourceName snap) (Snap_Status snap) in
        (Ok snap', with_snapshots (<[k := snap']>) w)
    end).

Definition create_datavolume (dv : DataVolume) : ctl DataVolume :=
  call [CreateDataVolume dv] (λ n w,
    let k := object_key (DV_Meta dv) in
    match datavolumes w !! k with
    | Some _ => (Err (AlreadyExists (key_text k)), w)
    | None =>
        let dv' := mkDV (set_uid (fresh_uid E n) (DV_Meta dv)) (DV_SourceSnapshot dv) (DV_Conditions dv) (DV_Phase dv) in
        (Ok dv', with_datavolumes (<[k := dv']>) w)
    end).

Definition create_template (tpl : VirtualMachineTemplate) : ctl VirtualMachineTemplate :=
  call [CreateTemplate tpl] (λ n w,
    let k := object_key (Tpl_Meta tpl) in
    match templates w !! k with
    | Some _ => (Err (AlreadyExists (key_text k)), w)
    | None =>
        let tpl' := mkTemplate (set_uid (fresh_uid E n) (Tpl_Meta tpl)) (Tpl_VMName tpl) (Tpl_VMSpec tpl)
          (Tpl_Parameters tpl) (Tpl_Message tpl) (Tpl_Conditions tpl) in
        (Ok tpl', with_templates (<[k := tpl']>) w)
    end).

(** Deletion: an object with finalizers is only marked. *)
Definition delete_snapshot (k : key) : ctl unit :=
  call [DeleteSnapshot k] (λ n w,
    match snapshots w !! k with
    | None => (Err (NotFound (key_text k)), w)
    | Some snap =>
        (Ok tt, with_snapshots (λ m,
          if decide (Finalizers (Snap_Meta snap) = []) then delete k m
          else <[k := mkSnapshot (set_deletion (Some (clock E n)) (Snap_Meta snap)) (Snap_SourceName snap)
                        (Snap_Status snap)]> m) w)
    end).

Definition delete_request (k : key) : ctl unit :=
  call [DeleteRequest k] (λ n w,
    match requests w !! k with
    | None => (Err (NotFound (key_text k)), w)
    | Some r =>
        (Ok tt, with_requests (λ m,
          if decide (Finalizers (Req_Meta r) = []) then delete k m
          else <[k := set_meta (set_deletion (Some (clock E n)) (Req_Meta r)) r]> m) w)
    end).

(** A merge patch of the owner references of a data volume: the references
    are replaced, the rest stays as it is on the server. *)
Definition patch_datavolume (old new : DataVolume) : ctl unit :=
  call [PatchDataVolume old new] (λ n w,
    let k := object_key (DV_Meta new) in
    match datavolumes w !! k with
    | None => (Err (NotFound (key_text k)), w)
    | Some dv =>
        (Ok tt, with_datavolumes (<[k := mkDV (set_owners (OwnerReferences (DV_Meta new)) (DV_Meta dv))
          (DV_SourceSnapshot dv) (DV_Conditions dv) (DV_Phase dv)]>) w)
    end).

(** A merge patch of the finalizers of the request; the answer of the server
    becomes the object in memory.  A request that is being deleted goes away
    with its last finalizer. *)
Definition patch_request_meta (new : VirtualMachineTemplateRequest) : ctl unit :=
  let k := object_key (Req_Meta new) in
  r ← call [PatchRequestMeta k (Req_Meta new)] (λ n w,
    match requests w !! k with
    | None => (Err (NotFound (key_text k)), w)
    | Some r =>
        let r' := set_meta (set_finalizers (Finalizers (Req_Meta new)) (Req_Meta r)) r in
        (Ok r', with_requests (λ m,
          if decide (Finalizers (Req_Meta r') = [] ∧ is_Some (DeletionTimestamp (Req_Meta r'))) then delete k m
          else <[k := r']> m) w)
    end);
  put_req r.

(** A merge patch of what changed in the status of a request. *)
Definition merge_request_status (before : RequestStatus) (after : VirtualMachineTemplateRequest) : ctl unit :=
  let k := object_key (Req_Meta after) in
  let s := Req_Status after in
  call [PatchRequestStatus k s] (λ n w,
    match requests w !! k with
    | None => (Err (NotFound (key_text k)), w)
    | Some r =>
        let merged := mkRequestStatus
          (if decide (Conditions before = Conditions s) then Conditions (Req_Status r) else Conditions s)
          (if decide (TemplateRef before = TemplateRef s) then TemplateRef (Req_Status r) else TemplateRef s) in
        (Ok tt, with_requests (<[k := set_status merged r]>) w)
    end).

(** [helper.Patch]: no call when nothing changed. *)
Definition patch_request_status (before : RequestStatus) (after : VirtualMachineTemplateRequest) : ctl unit :=
  if decide (before = Req_Status after) then mret tt else merge_request_status before after.

(** The same for the status of a template. *)
Definition patch_template_status (before after : VirtualMachineTemplate) : ctl unit :=
  let k := object_key (Tpl_Meta after) in
  let cs := Tpl_Conditions after in
  if decide (Tpl_Conditions before = cs) then mret tt
  else
    call [PatchTemplateStatus k cs] (λ n w,
      match templates w !! k with
      | None => (Err (NotFound (key_text k)), w)
      | Some t => (Ok tt, with_templates (<[k := set_tpl_conditions cs t]>) w)
      end).
End client.
