(* ===== verification/Request.v ===== *)
(** * virtualmachinetemplaterequest_controller.go: from a request to a template

    The reconciler of a [VirtualMachineTemplateRequest]: it snapshots the
    source virtual machine, clones the snapshot's volumes into data volumes,
    creates the template, hands the data volumes over to it and deletes the
    snapshot, reporting progress in two conditions. *)

From Stdlib Require Import Ascii ZArith Lia.
From stdpp Require Import prelude strings gmap.
From S2P Require Import Prelude GoStrings Naming Api Meta Cluster.

(** ** Constants *)

Definition second : Z := 1000000000.
Definition requeueAfterSnapshotContentNotReady : Z := 10 * second.

Definition paramNameName : string := "NAME".
Definition paramName : string := "${" +:+ paramNameName +:+ "}".
Definition paramNameSuffix : string := "-" +:+ paramName.

Definition annImmediateBinding : string := "cdi.kubevirt.io/storage.bind.immediate.requested".

Definition snapshotErrorReasons : list string := ["In error state"; "Source does not exist"].

Definition KindRequest : string := "VirtualMachineTemplateRequest".
Definition KindTemplate : string := "VirtualMachineTemplate".

(** ** Names and objects *)

Section objects.
Context (req : VirtualMachineTemplateRequest).
Let name := Name (Req_Meta req).
Let uid := UID (Req_Meta req).

Definition getTemplateName : string :=
  if (TemplateName (Req_Spec req) =? EmptyString)%string then name else TemplateName (Req_Spec req).

Definition getDvName (volumeName : string) : string := GetStableName getTemplateName [uid; volumeName].

Definition emptySnapshot : VirtualMachineSnapshot :=
  mkSnapshot (empty_meta (VMRef_Namespace (Req_Spec req)) (GetStableName name [uid])) EmptyString None.

Definition newSnapshot : VirtualMachineSnapshot :=
  mkSnapshot (set_labels {[ LabelRequestUID := uid ]} (Snap_Meta emptySnapshot)) (VMRef_Name (Req_Spec req)) None.

Definition emptyDv (ns n : string) : DataVolume := mkDV (empty_meta ns n) None [] EmptyString.

Definition newDv (ns n tplReqUID snapNamespace snapName : string) : DataVolume :=
  mkDV (set_labels {[ LabelRequestUID := tplReqUID ]}
         (set_annotations {[ annImmediateBinding := EmptyString ]} (DV_Meta (emptyDv ns n))))
    (Some (snapNamespace, snapName)) [] EmptyString.

Definition empty_vmspec : VirtualMachineSpec := mkVMSpec None [] EmptyString.

Definition emptyTemplate : VirtualMachineTemplate :=
  mkTemplate (empty_meta (Namespace (Req_Meta req)) getTemplateName) EmptyString empty_vmspec [] EmptyString [].

(** The parameter of every template: a name that is generated if not given. *)
Definition name_parameter : Param :=
  mkParam paramNameName EmptyString EmptyString EmptyString "expression" "vm-[a-z0-9]{5}" true.

(** Labels of the user without the reserved ones, and the system label. *)
Definition template_labels : gmap string string :=
  <[ LabelRequestUID := uid ]>
    (filter (λ kv, HasPrefix kv.1 (GroupName +:+ "/") = false) (TemplateLabels (Req_Spec req))).

Definition newTemplate (vmSpec : VirtualMachineSpec) : VirtualMachineTemplate :=
  mkTemplate (set_labels template_labels (Tpl_Meta emptyTemplate)) paramName vmSpec [name_parameter] EmptyString [].
End objects.

(** *** Changes to the virtual machine *)

(** The name of the data volume, empty when no volume has that name. *)
Fixpoint transformVolume (volumes : list Volume) (volName : string) : string * list Volume :=
  match volumes with
  | [] => (EmptyString, [])
  | vol :: vols =>
      if (Vol_Name vol =? volName)%string then
        let dvName := default volName (Vol_DataVolume vol) in
        (dvName, mkVolume volName (Some (dvName +:+ paramNameSuffix)) EmptyString :: vols)
      else let '(d, vols') := transformVolume vols volName in (d, vol :: vols')
  end.

Fixpoint replace_dvt (dvts : list DataVolumeTemplateSpec) (volName : string) (dvtSpec : DataVolumeTemplateSpec)
    : list DataVolumeTemplateSpec :=
  match dvts with
  | [] => [dvtSpec]
  | d :: ds => if (DVT_Name d =? volName)%string then dvtSpec :: ds else d :: replace_dvt ds volName dvtSpec
  end.
Definition transformOrAddDVT (dvts : list DataVolumeTemplateSpec) (volName pvcNamespace pvcName : string)
    : list DataVolumeTemplateSpec :=
  replace_dvt dvts volName (mkDVT (volName +:+ paramNameSuffix) (SourcePVC pvcNamespace pvcName)).

Definition stripUniqueIdentifiers (spec : VirtualMachineSpec) : VirtualMachineSpec :=
  match VS_Template spec with
  | None => spec
  | Some t =>
      mkVMSpec (Some (mkVMISpec ((λ i, mkInterface EmptyString (If_Other i)) <$> VMI_Interfaces t)
        ((λ f, mkFirmware EmptyString EmptyString (Fw_Other f)) <$> VMI_Firmware t)
        (VMI_Volumes t) (VMI_Other t))) (VS_DataVolumeTemplates spec) (VS_Other spec)
  end.

(** Backend storage volumes are not cloned. *)
Fixpoint getBackendStoragePVCName (vols : list VolumeBackup) : string :=
  match vols with
  | [] => EmptyString
  | v :: vs => if Contains (VB_VolumeName v) "persistent-state-for" then VB_VolumeName v
               else getBackendStoragePVCName vs
  end.

(** One volume backup in the loop of [createTemplate]. *)
Definition transform_backup (req : VirtualMachineTemplateRequest) (backend : string)
    (volumes : list Volume) (dvts : list DataVolumeTemplateSpec) (vb : VolumeBackup)
    : list Volume * list DataVolumeTemplateSpec :=
  if (VB_VolumeName vb =? backend)%string then (volumes, dvts)
  else
    let '(dvName, volumes') := transformVolume volumes (VB_VolumeName vb) in
    let dvName := if (dvName =? EmptyString)%string then VB_VolumeName vb else dvName in
    (volumes', transformOrAddDVT dvts dvName (Namespace (Req_Meta req)) (getDvName req (VB_VolumeName vb))).

Definition transform_backups (req : VirtualMachineTemplateRequest) (backend : string) (vbs : list VolumeBackup)
    (volumes : list Volume) (dvts : list DataVolumeTemplateSpec) : list Volume * list DataVolumeTemplateSpec :=
  fold_left (λ acc vb, transform_backup req backend acc.1 acc.2 vb) vbs (volumes, dvts).

(** ** Conditions of the observed objects *)

Fixpoint findSnapshotStatusCondition (cs : list SnapCondition) (condType : string) : option SnapCondition :=
  match cs with
  | [] => None
  | c :: cs' => if (SC_Type c =? condType)%string then Some c else findSnapshotStatusCondition cs' condType
  end.

Definition snapshot_condition (snap : VirtualMachineSnapshot) (condType : string) : option SnapCondition :=
  st ← Snap_Status snap; findSnapshotStatusCondition (SS_Conditions st) condType.

Definition isSnapshotStatusConditionTrue (snap : VirtualMachineSnapshot) (condType : string) : bool * bool :=
  match snapshot_condition snap condType with
  | None => (false, false)
  | Some c => (bool_decide (SC_Status c = ConditionTrue), true)
  end.

Definition isSnapshotProgressing (snap : VirtualMachineSnapshot) : bool :=
  match snapshot_condition snap "Progressing" with
  | None => true
  | Some cond =>
      if bool_decide (SC_Status cond = ConditionTrue) then true
      else
        let phase := match Snap_Status snap with Some st => SS_Phase st | None => EmptyString end in
        let phaseInProgress := (phase =? EmptyString)%string || (phase =? "InProgress")%string in
        let hasErrorReason := bool_decide (SC_Reason cond ∈ snapshotErrorReasons) in
        phaseInProgress && negb hasErrorReason
  end.

Fixpoint isDataVolumeStatusConditionTrue (cs : list DVCondition) (condType : string) : bool * bool :=
  match cs with
  | [] => (false, false)
  | c :: cs' =>
      if (DVC_Type c =? condType)%string then (bool_decide (DVC_Status c = ConditionTrue), true)
      else isDataVolumeStatusConditionTrue cs' condType
  end.

(** The first volume backup without a snapshot name, if any. *)
Fixpoint missing_snapshot_name (vbs : list VolumeBackup) : option string :=
  match vbs with
  | [] => None
  | v :: vs =>
      match VB_VolumeSnapshotName v with
      | None | Some EmptyString => Some (VB_VolumeName v)
      | Some _ => missing_snapshot_name vs
      end
  end.

Definition isSnapshotContentReady (c : VirtualMachineSnapshotContent) : res error bool :=
  match SCt_ReadyToUse c with
  | Some true =>
      match missing_snapshot_name (SCt_VolumeBackups c) with
      | Some v => Err (EMsg ("virtualMachineSnapshotContent " +:+ key_text (object_key (SCt_Meta c)) +:+
                             " is missing a VolumeSnapshotName for volume " +:+ v))
      | None => Ok true
      end
  | _ => Ok false
  end.

Definition shouldReconcile (req : VirtualMachineTemplateRequest) : bool :=
  match FindStatusCondition (conditions req) ConditionProgressing with
  | None => true
  | Some c => negb (bool_decide (C_Status c = ConditionFalse))
  end.

Definition validateRequest (req : VirtualMachineTemplateRequest) : res error unit :=
  if (VMRef_Namespace (Req_Spec req) =? EmptyString)%string
  then Err (EMsg "virtualMachineRef.namespace cannot be empty")
  else if (VMRef_Name (Req_Spec req) =? EmptyString)%string
  then Err (EMsg "virtualMachineRef.name cannot be empty")
  else Ok tt.

(** The label that ties an object to a request; empty when it is missing. *)
Definition request_label (m : ObjectMeta) : string := default EmptyString (Labels m !! LabelRequestUID).

(** ** The reconciler *)

Section reconciler.
Context (E : env).
(** The expand-spec subresource of the virtualization API: it replaces the
    instance type and the preference of a machine by what they stand for. *)
Context (ExpandSpec : string → VM → res rerror VM).

(** *** Conditions of the request *)

Definition set_condition (condType : string) (status : ConditionStatus) (reason message : string) : ctl unit :=
  t ← now E;
  req ← get_req;
  put_req (set_conditions (SetStatusCondition t (conditions req)
    (mkCondition condType status (Generation (Req_Meta req)) 0 reason message)) req).

Definition setReadyCondition (status : ConditionStatus) (reason message : string) : ctl unit :=
  set_condition ConditionReady status reason message.
Definition setProgressingCondition (status : ConditionStatus) (reason : string) : ctl unit :=
  set_condition ConditionProgressing status reason EmptyString.

Definition setTemplateRef (tpl : VirtualMachineTemplate) : ctl unit :=
  req ← get_req;
  put_req (set_status (mkRequestStatus (conditions req) (Some (Name (Tpl_Meta tpl)))) req).

(** Called when the reconciliation is over, with its error if it failed. *)
Definition setStatusConditions (retErr : option rerror) : ctl unit :=
  match retErr with
  | Some e =>
      _ ← setReadyCondition ConditionFalse ReasonFailed (rerror_text e);
      req ← get_req;
      match FindStatusCondition (conditions req) ConditionProgressing with
      | None => setProgressingCondition ConditionTrue ReasonReconciling
      | Some _ => mret tt
      end
  | None =>
      req ← get_req;
      p ← match FindStatusCondition (conditions req) ConditionReady with
          | None =>
              _ ← setReadyCondition ConditionFalse ReasonReconciling EmptyString;
              mret (ConditionTrue, ReasonReconciling)
          | Some cond =>
              if bool_decide (C_Status cond = ConditionTrue) then mret (ConditionFalse, ReasonReconciled)
              else mret (ConditionTrue, ReasonReconciling)
          end;
      req ← get_req;
      match FindStatusCondition (conditions req) ConditionProgressing with
      | None => setProgressingCondition p.1 p.2
      | Some _ => mret tt
      end
  end.

Definition syncSnapshotStatusConditions (snap : VirtualMachineSnapshot) : ctl unit :=
  let failed := (isSnapshotStatusConditionTrue snap "Failure").1 in
  if negb failed && isSnapshotProgressing snap
  then setReadyCondition ConditionFalse ReasonWaiting
         ("Waiting for VirtualMachineSnapshot " +:+ key_text (object_key (Snap_Meta snap)) +:+ " to be ready")
  else
    _ ← setReadyCondition ConditionFalse ReasonFailed
          ("VirtualMachineSnapshot " +:+ key_text (object_key (Snap_Meta snap)) +:+ " failed");
    setProgressingCondition ConditionFalse ReasonFailed.

Definition syncDataVolumeStatusConditions (dv : DataVolume) : ctl unit :=
  let '(running, present) := isDataVolumeStatusConditionTrue (DV_Conditions dv) "Running" in
  let progressing := running || (present && negb (DV_Phase dv =? "Failed")%string) in
  if progressing || negb present then
    _ ← setReadyCondition ConditionFalse ReasonWaiting
          ("Waiting for DataVolume " +:+ key_text (object_key (DV_Meta dv)) +:+ " to be ready");
    setProgressingCondition ConditionTrue ReasonWaiting
  else
    _ ← setReadyCondition ConditionFalse ReasonFailed
          ("DataVolume " +:+ key_text (object_key (DV_Meta dv)) +:+ " failed");
    setProgressingCondition ConditionFalse ReasonFailed.

Definition syncTemplateStatusConditions (tpl : VirtualMachineTemplate) : ctl unit :=
  match FindStatusCondition (Tpl_Conditions tpl) ConditionReady with
  | Some cond =>
      if bool_decide (C_Status cond = ConditionTrue)
      then setReadyCondition ConditionTrue ReasonReconciled (C_Message cond)
      else setReadyCondition ConditionFalse ReasonWaiting
             ("Waiting for VirtualMachineTemplate " +:+ key_text (object_key (Tpl_Meta tpl)) +:+ " to be ready")
  | None => setReadyCondition ConditionFalse ReasonWaiting
             ("Waiting for VirtualMachineTemplate " +:+ key_text (object_key (Tpl_Meta tpl)) +:+ " to be ready")
  end.

(** *** Finalizers, deletion, expiry *)

Definition addFinalizer : ctl unit :=
  req ← get_req;
  if ContainsFinalizer (Req_Meta req) FinalizerSnapshotCleanup then mret tt
  else
    let req' := set_meta (AddFinalizer (Req_Meta req) FinalizerSnapshotCleanup) req in
    _ ← put_req req';
    patch_request_meta E req'.

Definition deleteSnapshot : ctl unit :=
  req ← get_req;
  IgnoreNotFound tt (delete_snapshot E (object_key (Snap_Meta (emptySnapshot req)))).

Definition handleDeletion : ctl unit :=
  req ← get_req;
  if ContainsFinalizer (Req_Meta req) FinalizerSnapshotCleanup then
    _ ← (if is_ok (validateRequest req) then deleteSnapshot else mret tt);
    req ← get_req;
    let req' := set_meta (RemoveFinalizer (Req_Meta req) FinalizerSnapshotCleanup) req in
    _ ← put_req req';
    patch_request_meta E req'
  else mret tt.

(** The result is the time after which to reconcile again, 0 for none. *)
Definition handleTTL : ctl Z :=
  req ← get_req;
  match TTLSecondsAfterFinished (Req_Spec req) with
  | None => mret 0%Z
  | Some secs =>
      match FindStatusCondition (conditions req) ConditionReady with
      | None => mret 0%Z
      | Some readyCond =>
          if negb (bool_decide (C_Status readyCond = ConditionTrue)) then mret 0%Z
          else
            let ttl := (secs * second)%Z in
            let expiresAt := (C_LastTransitionTime readyCond + ttl)%Z in
            t ← now E;
            let remaining := (expiresAt - t)%Z in
            if (0 <? remaining)%Z then mret remaining
            else _ ← delete_request E (object_key (Req_Meta req)); mret 0%Z
      end
  end.

(** *** Templates *)

Definition getTemplate : ctl (option VirtualMachineTemplate) :=
  req ← get_req;
  let k := object_key (Tpl_Meta (emptyTemplate req)) in
  r ← IgnoreNotFound None (tpl ← get E templates k; mret (Some tpl));
  match r with
  | None => mret None
  | Some tpl =>
      if (request_label (Tpl_Meta tpl) =? UID (Req_Meta req))%string then
        _ ← setTemplateRef tpl; mret (Some tpl)
      else
        _ ← setProgressingCondition ConditionFalse ReasonFailed;
        throw (LocalError ("existing VirtualMachineTemplate " +:+ key_text (object_key (Tpl_Meta tpl)) +:+
                           " was not created by this request"))
  end.

Definition getExpandedVM (snapContent : VirtualMachineSnapshotContent) : ctl VM :=
  match SCt_SourceVM snapContent with
  | None =>
      _ ← setProgressingCondition ConditionFalse ReasonFailed;
      throw (LocalError ("virtualMachineSnapshotContent " +:+ key_text (object_key (SCt_Meta snapContent)) +:+
                         " has no source VirtualMachine"))
  | Some vm => call E [] (λ _ w, (ExpandSpec (Namespace (SCt_Meta snapContent)) vm, w))
  end.

Definition createTemplate (snapContent : VirtualMachineSnapshotContent) : ctl VirtualMachineTemplate :=
  req ← get_req;
  vm ← getExpandedVM snapContent;
  match VS_Template (VM_Spec vm) with
  | None =>
      _ ← setProgressingCondition ConditionFalse ReasonFailed;
      throw (LocalError ("source VirtualMachine " +:+ key_text (object_key (VM_Meta vm)) +:+ " has no template spec"))
  | Some _ =>
      let spec := stripUniqueIdentifiers (VM_Spec vm) in
      let vbs := SCt_VolumeBackups snapContent in
      let t := default (mkVMISpec [] None [] EmptyString) (VS_Template spec) in
      let '(volumes, dvts) := transform_backups req (getBackendStoragePVCName vbs) vbs
        (VMI_Volumes t) (VS_DataVolumeTemplates spec) in
      let spec' := mkVMSpec (Some (mkVMISpec (VMI_Interfaces t) (VMI_Firmware t) volumes (VMI_Other t)))
        dvts (VS_Other spec) in
      r ← try (create_template E (newTemplate req spec'));
      match r with
      | inr e =>
          _ ← (if IsAlreadyExists e then
                 _ ← setReadyCondition ConditionFalse ReasonFailed (rerror_text e);
                 setProgressingCondition ConditionFalse ReasonFailed
               else mret tt);
          throw e
      | inl tpl => _ ← setTemplateRef tpl; mret tpl
      end
  end.

(** *** Snapshots and data volumes *)

Definition createSnapshot : ctl VirtualMachineSnapshot :=
  req ← get_req; create_snapshot E (newSnapshot req).

Definition getSnapshotContent (snap : VirtualMachineSnapshot) : ctl VirtualMachineSnapshotContent :=
  match Snap_Status snap with
  | None => crash "nil pointer dereference"
  | Some st =>
      match SS_ContentName st with
      | None | Some EmptyString =>
          _ ← setProgressingCondition ConditionFalse ReasonFailed;
          throw (LocalError ("virtualMachineSnapshot " +:+ key_text (object_key (Snap_Meta snap)) +:+
                             " does not have a VirtualMachineSnapshotContentName"))
      | Some n => get E contents (Namespace (Snap_Meta snap), n)
      end
  end.

(** One volume in the loop of [cloneSnapshotContent]. *)
Definition clone_volume (snapContent : VirtualMachineSnapshotContent) (backend : string) (vol : VolumeBackup)
    : ctl unit :=
  if (VB_VolumeName vol =? backend)%string then mret tt
  else
    req ← get_req;
    let k : key := (Namespace (Req_Meta req), getDvName req (VB_VolumeName vol)) in
    r ← try (get E datavolumes k);
    match r with
    | inl dv =>
        if (request_label (DV_Meta dv) =? UID (Req_Meta req))%string then mret tt
        else
          _ ← setProgressingCondition ConditionFalse ReasonFailed;
          throw (LocalError ("dataVolume " +:+ key_text (object_key (DV_Meta dv)) +:+ " does not belong to this request"))
    | inr e =>
        if negb (IsNotFound e) then throw e
        else
          match VB_VolumeSnapshotName vol with
          | None => crash "nil pointer dereference"
          | Some snapName =>
              let dv := newDv k.1 k.2 (UID (Req_Meta req)) (Namespace (SCt_Meta snapContent)) snapName in
              m ← lift_err (SetControllerReference KindRequest (Req_Meta req) (DV_Meta dv));
              _ ← create_datavolume E (mkDV m (DV_SourceSnapshot dv) (DV_Conditions dv) (DV_Phase dv));
              mret tt
          end
    end.

Fixpoint clone_loop (snapContent : VirtualMachineSnapshotContent) (backend : string) (vols : list VolumeBackup)
    : ctl unit :=
  match vols with
  | [] => mret tt
  | vol :: vols' => _ ← clone_volume snapContent backend vol; clone_loop snapContent backend vols'
  end.

Definition cloneSnapshotContent (snapContent : VirtualMachineSnapshotContent) : ctl unit :=
  let vbs := SCt_VolumeBackups snapContent in
  clone_loop snapContent (getBackendStoragePVCName vbs) vbs.

Fixpoint clone_ready_loop (backend : string) (vols : list VolumeBackup) : ctl bool :=
  match vols with
  | [] => mret true
  | vol :: vols' =>
      if (VB_VolumeName vol =? backend)%string then clone_ready_loop backend vols'
      else
        req ← get_req;
        r ← try (get E datavolumes (Namespace (Req_Meta req), getDvName req (VB_VolumeName vol)));
        match r with
        | inr e => if IsNotFound e then mret false else throw e
        | inl dv =>
            if (isDataVolumeStatusConditionTrue (DV_Conditions dv) "Ready").1 then clone_ready_loop backend vols'
            else _ ← syncDataVolumeStatusConditions dv; mret false
        end
  end.

Definition isSnapshotContentCloneReady (snapContent : VirtualMachineSnapshotContent) : ctl bool :=
  let vbs := SCt_VolumeBackups snapContent in
  clone_ready_loop (getBackendStoragePVCName vbs) vbs.

(** [processRequest]: the template, or the result to return early. *)
Definition processRequest : ctl (VirtualMachineTemplate + Z) :=
  req ← get_req;
  r ← try (get E snapshots (object_key (Snap_Meta (emptySnapshot req))));
  snap ← match r with
         | inl snap => mret snap
         | inr e => if IsNotFound e then createSnapshot else throw e
         end;
  if negb (request_label (Snap_Meta snap) =? UID (Req_Meta req))%string then
    _ ← setProgressingCondition ConditionFalse ReasonFailed;
    throw (LocalError ("virtualMachineSnapshot " +:+ key_text (object_key (Snap_Meta snap)) +:+
                       " does not belong to this request"))
  else if negb (isSnapshotStatusConditionTrue snap "Ready").1 then
    _ ← syncSnapshotStatusConditions snap; mret (inr 0%Z)
  else
    snapContent ← getSnapshotContent snap;
    match isSnapshotContentReady snapContent with
    | Err readyErr =>
        _ ← setReadyCondition ConditionFalse ReasonFailed (Error readyErr);
        _ ← setProgressingCondition ConditionFalse ReasonFailed;
        throw (LocalError (Error readyErr))
    | Ok true =>
        _ ← cloneSnapshotContent snapContent;
        ready ← isSnapshotContentCloneReady snapContent;
        if negb ready then mret (inr 0%Z)
        else tpl ← createTemplate snapContent; mret (inl tpl)
    | _ =>
        _ ← setReadyCondition ConditionFalse ReasonWaiting
              ("Waiting for VirtualMachineSnapshotContent " +:+ key_text (object_key (SCt_Meta snapContent)) +:+
               " to be ready");
        _ ← setProgressingCondition ConditionTrue ReasonWaiting;
        mret (inr requeueAfterSnapshotContentNotReady)
    end.

(** One data volume in the loop of [setDataVolumeOwnerReferences]. *)
Definition set_owner (tpl : VirtualMachineTemplate) (dv : DataVolume) : ctl unit :=
  if IsControlledBy (DV_Meta dv) (Tpl_Meta tpl) then mret tt
  else
    req ← get_req;
    m1 ← lift_err (RemoveControllerReference KindRequest (Req_Meta req) (DV_Meta dv));
    m2 ← lift_err (SetControllerReference KindTemplate (Tpl_Meta tpl) m1);
    patch_datavolume E dv (mkDV m2 (DV_SourceSnapshot dv) (DV_Conditions dv) (DV_Phase dv)).

Fixpoint set_owner_loop (tpl : VirtualMachineTemplate) (dvs : list DataVolume) : ctl unit :=
  match dvs with
  | [] => mret tt
  | dv :: dvs' => _ ← set_owner tpl dv; set_owner_loop tpl dvs'
  end.

Definition setDataVolumeOwnerReferences (tpl : VirtualMachineTemplate) : ctl unit :=
  req ← get_req;
  dvs ← list_datavolumes E LabelRequestUID (UID (Req_Meta req));
  set_owner_loop tpl dvs.

(** *** Reconcile *)

(** The body of [Reconcile] after the deferred function is set up. *)
Definition reconcile_body : ctl Z :=
  req ← get_req;
  _ ← put_req (set_conditions (RemoveStatusCondition (conditions req) ConditionProgressing) req);
  match validateRequest req with
  | Err e =>
      _ ← setReadyCondition ConditionFalse ReasonInvalidConfiguration (Error e);
      _ ← setProgressingCondition ConditionFalse ReasonInvalidConfiguration;
      mret 0%Z
  | _ =>
      found ← getTemplate;
      r ← match found with
          | Some tpl => mret (inl tpl)
          | None => processRequest
          end;
      match r with
      | inr result => mret result
      | inl tpl =>
          _ ← setDataVolumeOwnerReferences tpl;
          _ ← deleteSnapshot;
          _ ← syncTemplateStatusConditions tpl;
          mret 0%Z
      end
  end.

(** [defer func() { setStatusConditions(...); retErr = errors.Join(retErr, helper.Patch(...)) }()]:
    it also runs when the body panics. *)
Definition deferred (before : RequestStatus) (retErr : option rerror) : ctl (option rerror) :=
  _ ← setStatusConditions retErr;
  req ← get_req;
  p ← try (patch_request_status E before req);
  mret (match retErr, p with
        | None, inl _ => None
        | None, inr e => Some e
        | Some e, inl _ => Some e
        | Some e, inr e' => Some (Joined e e')
        end).

Definition with_deferred (before : RequestStatus) (body : ctl Z) : ctl Z := λ s,
  match body s with
  | (Ok z, s') =>
      match deferred before None s' with
      | (Ok None, s'') => (Ok z, s'')
      | (Ok (Some e), s'') => (Err e, s'')
      | (Err e, s'') => (Err e, s'')
      | (Panic w, s'') => (Panic w, s'')
      end
  | (Err e, s') =>
      match deferred before (Some e) s' with
      | (Ok (Some e'), s'') => (Err e', s'')
      | (Ok None, s'') => (Err e, s'')
      | (Err e', s'') => (Err e', s'')
      | (Panic w, s'') => (Panic w, s'')
      end
  | (Panic w, s') => let '(_, s'') := deferred before None s' in (Panic w, s'')
  end.

(** [patch.NewHelper] can fail before anything is done. *)
Definition new_helper : ctl RequestStatus :=
  req ← get_req; call E [] (λ _ w, (Ok (Req_Status req), w)).

(** [Reconcile] once the request is fetched. *)
Definition reconcile_request (req : VirtualMachineTemplateRequest) : ctl Z :=
  if bool_decide (is_Some (DeletionTimestamp (Req_Meta req))) then _ ← handleDeletion; mret 0%Z
  else
    _ ← addFinalizer;
    req ← get_req;
    if negb (shouldReconcile req) then handleTTL
    else
      before ← new_helper;
      with_deferred before reconcile_body.

Definition Reconcile (k : key) : ctl Z :=
  r ← IgnoreNotFound None (req ← get E requests k; mret (Some req));
  match r with
  | None => mret 0%Z
  | Some req => _ ← put_req req; reconcile_request req
  end.
End reconciler.
