(* ===== verification/RequestLogic.v ===== *)
(** * Program logic for the request controller

    Hoare triples for reconciliations and the specifications of the steps of
    [Reconcile]: which writes they issue, that they do not panic, and which
    conditions they leave. *)

From Stdlib Require Import Ascii ZArith Lia.
From stdpp Require Import prelude strings gmap.
From S2P Require Import Prelude GoStrings Naming Api Meta Cluster Request.

(** ** A program logic for reconciliations

    [hoare P m Q X]: from a state with [P], [m] does not panic, returns with
    [Q] or fails with [X]. *)

Definition hoare {A} (P : rstate → Prop) (m : ctl A) (Q : A → rstate → Prop) (X : rerror → rstate → Prop) : Prop :=
  ∀ s, P s →
    match m s with
    | (Ok a, s') => Q a s'
    | (Err e, s') => X e s'
    | (Panic _, _) => False
    end.

Lemma hoare_ret {A} (P : rstate → Prop) (a : A) (Q : A → rstate → Prop) X :
  (∀ s, P s → Q a s) → hoare P (mret a) Q X.
Proof. intros H s Hs. by apply H. Qed.

Lemma hoare_bind {A B} P (m : ctl A) (f : A → ctl B) R Q X :
  hoare P m R X → (∀ a, hoare (R a) (f a) Q X) → hoare P (m ≫= f) Q X.
Proof.
  intros Hm Hf s Hs. unfold mbind, ctl_bind. specialize (Hm s Hs).
  destruct (m s) as [[a|e|w] s']; [by apply Hf|done|done].
Qed.

Lemma hoare_throw {A} (P : rstate → Prop) e (Q : A → rstate → Prop) (X : rerror → rstate → Prop) :
  (∀ s, P s → X e s) → hoare P (throw e) Q X.
Proof. intros H s Hs. by apply H. Qed.

Lemma hoare_try {A} P (m : ctl A) (Q : A → rstate → Prop) (X X' : rerror → rstate → Prop) :
  hoare P m Q X →
  hoare P (try m) (λ r s, match r with inl a => Q a s | inr e => X e s end) X'.
Proof.
  intros Hm s Hs. unfold try. specialize (Hm s Hs). by destruct (m s) as [[a|e|w] s'].
Qed.

Lemma hoare_conseq {A} (P P' : rstate → Prop) (m : ctl A) (Q Q' : A → rstate → Prop) (X X' : rerror → rstate → Prop) :
  hoare P' m Q' X' → (∀ s, P s → P' s) → (∀ a s, Q' a s → Q a s) → (∀ e s, X' e s → X e s) → hoare P m Q X.
Proof.
  intros Hm HP HQ HX s Hs. specialize (Hm s (HP s Hs)). destruct (m s) as [[a|e|w] s']; auto.
Qed.

(** A fact about values only. *)
Lemma hoare_pure {A} (P : rstate → Prop) (φ : Prop) (m : ctl A) Q X :
  (φ → hoare P m Q X) → hoare (λ s, P s ∧ φ) m Q X.
Proof. intros Hm s [Hs Hφ]. exact (Hm Hφ s Hs). Qed.

Lemma hoare_IgnoreNotFound {A} P (d : A) (m : ctl A) (Q : A → rstate → Prop) (X : rerror → rstate → Prop) :
  hoare P m Q X → (∀ e s, X e s → IsNotFound e = true → Q d s) → hoare P (IgnoreNotFound d m) Q X.
Proof.
  intros Hm Hd. eapply hoare_bind; [by apply hoare_try, Hm|]. intros [a|e]; [by apply hoare_ret|].
  destruct (IsNotFound e) eqn:E; [apply hoare_ret; intros; by apply (Hd e)|by apply hoare_throw].
Qed.

Lemma hoare_lift {A} (P : rstate → Prop) (m : res error A) (Q : A → rstate → Prop) (X : rerror → rstate → Prop) :
  (∀ w, m ≠ Panic w) → (∀ a s, m = Ok a → P s → Q a s) → (∀ e s, P s → X e s) → hoare P (lift_err m) Q X.
Proof. intros Hp HQ HX s Hs. unfold lift_err. destruct m as [a|e|w]; [by apply HQ|by apply HX|by destruct (Hp w)]. Qed.

Lemma hoare_get_req (P : rstate → Prop) X :
  hoare P get_req (λ r s, r = tplReq s ∧ P s) X.
Proof. intros s Hs. done. Qed.

(** ** Identity and ownership *)

(** What does not change about a request while it exists: key, UID, spec. *)
Definition rid (r : VirtualMachineTemplateRequest) : key * string * RequestSpec :=
  (object_key (Req_Meta r), UID (Req_Meta r), Req_Spec r).

(** The cluster keeps objects under their own names. *)
Definition keyed (w : world) : Prop :=
  (∀ k t, templates w !! k = Some t → object_key (Tpl_Meta t) = k) ∧
  (∀ k s, snapshots w !! k = Some s → object_key (Snap_Meta s) = k) ∧
  (∀ k c, contents w !! k = Some c → object_key (SCt_Meta c) = k).

Definition req_ident (id : key * string * RequestSpec) (w : world) : Prop :=
  (∀ r, requests w !! id.1.1 = Some r → rid r = id) ∧ keyed w.

(** Other actors do not replace the request by another one of the same name
    or change its spec (which the API declares immutable), and the cluster
    stays keyed. *)
Definition respects_identity (id : key * string * RequestSpec) (E : env) : Prop :=
  ∀ n w, req_ident id w → req_ident id (interfere E n w).

(** The writes a reconciliation of [req] may issue. *)
Definition owned (req : VirtualMachineTemplateRequest) (w : write) : Prop :=
  match w with
  | CreateSnapshot s => s = newSnapshot req
  | DeleteSnapshot k => k = object_key (Snap_Meta (emptySnapshot req))
  | CreateDataVolume dv =>
      request_label (DV_Meta dv) = UID (Req_Meta req) ∧ IsControlledBy (DV_Meta dv) (Req_Meta req) = true ∧
      (∃ vol, object_key (DV_Meta dv) = (Namespace (Req_Meta req), getDvName req vol)) ∧
      ∃ n, DV_SourceSnapshot dv = Some (VMRef_Namespace (Req_Spec req), n)
  | PatchDataVolume old new =>
      Labels (DV_Meta old) !! LabelRequestUID = Some (UID (Req_Meta req)) ∧
      DV_Meta new = set_owners (OwnerReferences (DV_Meta new)) (DV_Meta old) ∧
      (Namespace (Req_Meta req) ≠ EmptyString → Namespace (DV_Meta old) = Namespace (Req_Meta req))
  | CreateTemplate t => ∃ spec, t = newTemplate req spec
  | PatchTemplateStatus _ _ => False
  | PatchRequestMeta k _ | PatchRequestStatus k _ | DeleteRequest k => k = object_key (Req_Meta req)
  end.

Lemma owned_rid r r' w : rid r = rid r' → owned r w → owned r' w.
Proof.
  intros Hid. unfold rid in Hid. injection Hid as Hns Hn Hu Hs.
  destruct w; simpl; unfold newSnapshot, emptySnapshot, newTemplate, emptyTemplate, template_labels, getDvName,
    getTemplateName, IsControlledBy, object_key; rewrite ?Hns, ?Hn, ?Hu, ?Hs; done.
Qed.

Section ownership.
Context (E : env) (ExpandSpec : string → VM → res rerror VM) (Hexp : ∀ ns vm w, ExpandSpec ns vm ≠ Panic w).
Context (req0 : VirtualMachineTemplateRequest) (Hresp : respects_identity (rid req0) E) (log : list write).

(** The request in memory and in the cluster is [req0] and the writes since
    [log] are its own. *)
Definition Inv (s : rstate) : Prop :=
  rid (tplReq s) = rid req0 ∧ req_ident (rid req0) (cluster s) ∧
  ∃ ws, writes s = ws ++ log ∧ Forall (owned req0) ws.
Definition rpred : Type := VirtualMachineTemplateRequest → Prop.
(** ... and the request in memory satisfies [K]. *)
Definition IK (K : rpred) (s : rstate) : Prop := Inv s ∧ K (tplReq s).
Definition InvX (_ : rerror) (s : rstate) : Prop := Inv s.

Lemma IK_Inv (K : rpred) s : IK K s → Inv s.
Proof. by intros [H _]. Qed.

(** A call keeps the request in memory; it keeps the rest if its write is
    owned and its effect keeps the identity of the request. *)
Lemma hoare_call {A} (K : rpred) ws (op : nat → world → res rerror A * world) φ :
  Forall (owned req0) ws →
  (∀ n w, req_ident (rid req0) w → req_ident (rid req0) (op n w).2) →
  (∀ n w a, req_ident (rid req0) w → (op n w).1 = Ok a → φ a) →
  (∀ n w why, (op n w).1 ≠ Panic why) →
  hoare (IK K) (call E ws op) (λ a s, IK K s ∧ φ a) (λ _, IK K).
Proof.
  intros Hws Hop Hφ Hp s [(Hid & Hw & ws0 & Hlog & Hown) HK]. unfold call.
  assert (∀ w', req_ident (rid req0) w' →
    IK K (mkState (tplReq s) w' (S (calls s)) (ws ++ writes s))) as Hinv.
  { intros w' Hw'. split; [|done]. split_and!; [done|done|]. exists (ws ++ ws0). simpl.
    rewrite Hlog. split; [by rewrite app_assoc|]. by apply Forall_app. }
  pose proof (Hresp (calls s) _ Hw) as Hi.
  destruct (fault E (calls s)) as [[e []]|]; [by apply Hinv, Hop|by apply Hinv|].
  pose proof (Hop (calls s) _ Hi) as Ho.
  pose proof (Hφ (calls s) (interfere E (calls s) (cluster s))) as Hf.
  pose proof (Hp (calls s) (interfere E (calls s) (cluster s))) as Hn.
  destruct (op (calls s) (interfere E (calls s) (cluster s))) as [[a|e|why] w'] eqn:Eop; simpl in *.
  - split; [by apply Hinv|]. by apply (Hf a Hi).
  - by apply Hinv.
  - by destruct (Hn why).
Qed.

(** Writes of keyed objects. *)
Lemma req_ident_snapshots id w f : req_ident id w →
  (∀ k s, f (snapshots w) !! k = Some s → snapshots w !! k = Some s ∨ object_key (Snap_Meta s) = k) →
  req_ident id (with_snapshots f w).
Proof. intros [Hr (Ht & Hs & Hc)] Hf. split; [exact Hr|]. split_and!; [exact Ht| |exact Hc]. intros k s [H|H]%Hf; auto. Qed.

Lemma req_ident_templates id w f : req_ident id w →
  (∀ k t, f (templates w) !! k = Some t → templates w !! k = Some t ∨ object_key (Tpl_Meta t) = k) →
  req_ident id (with_templates f w).
Proof. intros [Hr (Ht & Hs & Hc)] Hf. split; [exact Hr|]. split_and!; [|exact Hs|exact Hc]. intros k t [H|H]%Hf; auto. Qed.

Lemma hoare_get {A} (K : rpred) (store : world → gmap key A) k (φ : A → Prop) :
  (∀ w a, req_ident (rid req0) w → store w !! k = Some a → φ a) →
  hoare (IK K) (get E store k) (λ a s, IK K s ∧ φ a) (λ _, IK K).
Proof.
  intros Hφ. apply hoare_call; [constructor|done| |]; intros n w; simpl.
  - intros a Hi. destruct (store w !! k) as [x|] eqn:Ex; [|done]. intros [= <-]. by apply (Hφ w).
  - intros why. by destruct (store w !! k).
Qed.

Lemma hoare_get_any {A} (K : rpred) (store : world → gmap key A) k :
  hoare (IK K) (get E store k) (λ _, IK K) (λ _, IK K).
Proof.
  eapply hoare_conseq; [apply (hoare_get K store k (λ _, True)); done|done|by intros a s [H _]|done].
Qed.

Lemma hoare_req {B} (K : rpred) (f : VirtualMachineTemplateRequest → ctl B) Q X :
  (∀ r, rid r = rid req0 → hoare (λ s, IK K s ∧ r = tplReq s) (f r) Q X) →
  hoare (IK K) (r ← get_req; f r) Q X.
Proof.
  intros Hf s Hs. unfold mbind, ctl_bind, get_req. pose proof Hs as [(Hid & _) _].
  exact (Hf (tplReq s) Hid s (conj Hs eq_refl)).
Qed.

Lemma hoare_drop {A} (K : rpred) r (m : ctl A) Q X :
  hoare (IK K) m Q X → hoare (λ s, IK K s ∧ r = tplReq s) m Q X.
Proof. intros Hm. eapply hoare_conseq; [exact Hm|by intros s [H _]|done|done]. Qed.

Lemma hoare_put (K : rpred) r X :
  rid r = rid req0 → K r → hoare Inv (put_req r) (λ _, IK K) X.
Proof. intros Hr HK s (Hid & Hw & Hlog). done. Qed.

Lemma hoare_modify (K : rpred) (f : VirtualMachineTemplateRequest → VirtualMachineTemplateRequest)
    (K' : rpred) X :
  (∀ r, rid (f r) = rid r) → (∀ r, K r → K' (f r)) →
  hoare (IK K) (r ← get_req; put_req (f r)) (λ _, IK K') X.
Proof.
  intros Hf HK s [(Hid & Hw & Hlog) Hs]. unfold mbind, ctl_bind, get_req, put_req, IK. simpl.
  split; [|by apply HK]. split_and!; [cbn [tplReq]; by rewrite Hf|done|done].
Qed.

(** *** Conditions *)

Definition cond (t : string) (r : VirtualMachineTemplateRequest) : option ConditionStatus :=
  status_of (conditions r) t.
Definition noprog (r : VirtualMachineTemplateRequest) : Prop := cond ConditionProgressing r = None.
(** A Progressing condition comes with Ready being False. *)
Definition settled (r : VirtualMachineTemplateRequest) : Prop :=
  noprog r ∨ cond ConditionReady r = Some ConditionFalse.
Definition not_ready (r : VirtualMachineTemplateRequest) : Prop := cond ConditionReady r = Some ConditionFalse.

Lemma cond_set t0 r ct st gen rs msg t :
  cond t (set_conditions (SetStatusCondition t0 (conditions r) (mkCondition ct st gen 0 rs msg)) r) =
  if (ct =? t)%string then Some st else cond t r.
Proof.
  unfold cond, status_of. simpl. unfold conditions at 1. simpl. rewrite Find_Set. simpl.
  destruct (ct =? t)%string; [|done]. simpl. by destruct (FindStatusCondition (conditions r) t).
Qed.

Lemma hoare_set_condition (K K' : rpred) ct st rs msg X :
  (∀ r r', K r → (∀ t, cond t r' = if (ct =? t)%string then Some st else cond t r) → K' r') →
  hoare (IK K) (set_condition E ct st rs msg) (λ _, IK K') X.
Proof.
  intros HK s [(Hid & Hw & Hlog) Hs]. unfold set_condition, mbind, ctl_bind, now, get_req, put_req, IK. simpl.
  split; [done|]. eapply HK; [exact Hs|]. intros t. apply cond_set.
Qed.

Lemma hoare_ready (K K' : rpred) st rs msg X :
  (∀ r r', K r → cond ConditionReady r' = Some st → cond ConditionProgressing r' = cond ConditionProgressing r → K' r') →
  hoare (IK K) (setReadyCondition E st rs msg) (λ _, IK K') X.
Proof.
  intros HK. apply hoare_set_condition. intros r r' Hr Hc. apply (HK r); [done|by rewrite Hc|by rewrite Hc].
Qed.

Lemma hoare_progressing (K K' : rpred) st rs X :
  (∀ r r', K r → cond ConditionProgressing r' = Some st → cond ConditionReady r' = cond ConditionReady r → K' r') →
  hoare (IK K) (setProgressingCondition E st rs) (λ _, IK K') X.
Proof.
  intros HK. apply hoare_set_condition. intros r r' Hr Hc. apply (HK r); [done|by rewrite Hc|by rewrite Hc].
Qed.

(** [setProgressingCondition] and fail. *)
Lemma hoare_fail {A} (K : rpred) st rs e (Q : A → rstate → Prop) :
  hoare (IK K) (_ ← setProgressingCondition E st rs; throw e) Q InvX.
Proof.
  eapply hoare_bind; [apply (hoare_progressing K (λ _, True)); done|]. intros u.
  apply hoare_throw. intros s. apply IK_Inv.
Qed.
End ownership.

Section reconcile_spec.
Context (E : env) (ExpandSpec : string → VM → res rerror VM) (Hexp : ∀ ns vm w, ExpandSpec ns vm ≠ Panic w).
Context (req0 : VirtualMachineTemplateRequest) (Hresp : respects_identity (rid req0) E) (log : list write).

#[local] Notation IK := (IK req0 log).
#[local] Notation Inv := (Inv req0 log).
#[local] Notation InvX := (InvX req0 log).

(** The owned objects only depend on the identity of the request. *)
Lemma own r w : rid r = rid req0 → owned r w → owned req0 w.
Proof. apply owned_rid. Qed.

Lemma any_InvX (K : rpred) (e : rerror) s : IK K s → InvX e s.
Proof. apply IK_Inv. Qed.

(** *** Writes *)

Lemma create_snapshot_spec (K : rpred) r :
  rid r = rid req0 →
  hoare (IK K) (create_snapshot E (newSnapshot r))
    (λ snap s, IK K s ∧ Namespace (Snap_Meta snap) = VMRef_Namespace (Req_Spec req0)) InvX.
Proof.
  intros Hr. unfold create_snapshot.
  eapply hoare_conseq; [eapply (hoare_call E req0 Hresp log K _ _ (λ snap, Namespace (Snap_Meta snap) = VMRef_Namespace (Req_Spec req0)))
    |done|done|intros e s; apply IK_Inv].
  - apply Forall_singleton. by apply (own r).
  - intros n w Hw. simpl. destruct (snapshots w !! _); [done|]. apply req_ident_snapshots; [done|].
    intros k s [[<- <-]|[_ ?]]%lookup_insert_Some; [by right|by left].
  - intros n w a Hw. simpl. destruct (snapshots w !! _); [done|]. intros [= <-]. simpl.
    unfold rid in Hr. injection Hr as _ _ _ ->. done.
  - intros n w why. simpl. by destruct (snapshots w !! _).
Qed.

Lemma delete_snapshot_spec (K : rpred) r :
  rid r = rid req0 →
  hoare (IK K) (delete_snapshot E (object_key (Snap_Meta (emptySnapshot r)))) (λ _, IK K) (λ _, IK K).
Proof.
  intros Hr. unfold delete_snapshot. eapply hoare_conseq; [eapply (hoare_call E req0 Hresp log K _ _ (λ _, True))|done|by intros a s [H _]|done].
  - apply Forall_singleton. by apply (own r).
  - intros n w Hw. cbn [snd]. set (k := object_key _). destruct (snapshots w !! k) as [snap|] eqn:Es; [|done].
    apply req_ident_snapshots; [done|]. intros k' s. case_decide.
    + intros [_ ?]%lookup_delete_Some. by left.
    + intros [[<- <-]|[_ ?]]%lookup_insert_Some; [|by left]. right. by apply Hw in Es.
  - done.
  - intros n w why. simpl. by destruct (snapshots w !! _).
Qed.

Lemma create_datavolume_spec (K : rpred) dv :
  owned req0 (CreateDataVolume dv) → hoare (IK K) (create_datavolume E dv) (λ _, IK K) (λ _, IK K).
Proof.
  intros Hr. unfold create_datavolume. eapply hoare_conseq; [eapply (hoare_call E req0 Hresp log K _ _ (λ _, True))|done|by intros a s [H _]|done].
  - by apply Forall_singleton.
  - intros n w Hw. simpl. by destruct (datavolumes w !! _).
  - done.
  - intros n w why. simpl. by destruct (datavolumes w !! _).
Qed.

Lemma patch_datavolume_spec (K : rpred) old new :
  owned req0 (PatchDataVolume old new) → hoare (IK K) (patch_datavolume E old new) (λ _, IK K) (λ _, IK K).
Proof.
  intros Hr. unfold patch_datavolume. eapply hoare_conseq; [eapply (hoare_call E req0 Hresp log K _ _ (λ _, True))|done|by intros a s [H _]|done].
  - by apply Forall_singleton.
  - intros n w Hw. simpl. by destruct (datavolumes w !! _).
  - done.
  - intros n w why. simpl. by destruct (datavolumes w !! _).
Qed.

Lemma create_template_spec (K : rpred) t :
  owned req0 (CreateTemplate t) →
  hoare (IK K) (create_template E t) (λ t' s, IK K s ∧ Namespace (Tpl_Meta t') = Namespace (Tpl_Meta t)) (λ _, IK K).
Proof.
  intros Hr. unfold create_template.
  eapply (hoare_call E req0 Hresp log K _ _ (λ t', Namespace (Tpl_Meta t') = Namespace (Tpl_Meta t))).
  - by apply Forall_singleton.
  - intros n w Hw. simpl. destruct (templates w !! _); [done|]. apply req_ident_templates; [done|].
    intros k s [[<- <-]|[_ ?]]%lookup_insert_Some; [by right|by left].
  - intros n w a Hw. simpl. destruct (templates w !! _); [done|]. by intros [= <-].
  - intros n w why. simpl. by destruct (templates w !! _).
Qed.

Lemma req_ident_insert w r k :
  req_ident (rid req0) w → (k = (rid req0).1.1 → rid r = rid req0) → req_ident (rid req0) (with_requests (<[k := r]>) w).
Proof.
  intros [Hw Hk] Hr. split; [|done]. intros r' Hl. simpl in Hl.
  apply lookup_insert_Some in Hl as [[-> <-]|[_ Hl]]; [by apply Hr|by apply Hw].
Qed.
Lemma req_ident_delete w k :
  req_ident (rid req0) w → req_ident (rid req0) (with_requests (delete k) w).
Proof. intros [Hw Hk]. split; [|done]. intros r' Hl. simpl in Hl. apply lookup_delete_Some in Hl as [_ Hl]. by apply Hw. Qed.

Lemma rid_key r : rid r = rid req0 → object_key (Req_Meta r) = (rid req0).1.1.
Proof. by intros <-. Qed.

Lemma delete_request_spec (K : rpred) r :
  rid r = rid req0 → hoare (IK K) (delete_request E (object_key (Req_Meta r))) (λ _, IK K) (λ _, IK K).
Proof.
  intros Hr. unfold delete_request. eapply hoare_conseq; [eapply (hoare_call E req0 Hresp log K _ _ (λ _, True))|done|by intros a s [H _]|done].
  - apply Forall_singleton. by apply (own r).
  - intros n w Hw. simpl. destruct (requests w !! _) as [x|] eqn:Ex; [|done]. simpl.
    case_decide; [by apply req_ident_delete|]. apply req_ident_insert; [done|].
    intros Hk. rewrite Hk in Ex. by apply Hw in Ex.
  - done.
  - intros n w why. simpl. by destruct (requests w !! _).
Qed.

Lemma patch_request_meta_spec (K : rpred) r :
  rid r = rid req0 → hoare (IK K) (patch_request_meta E r) (λ _, Inv) InvX.
Proof.
  intros Hr. unfold patch_request_meta.
  apply (hoare_bind _ _ _ (λ a s, IK K s ∧ rid a = rid req0)).
  - eapply hoare_conseq; [eapply (hoare_call E req0 Hresp log K _ _ (λ a, rid a = rid req0))|done|done|intros e s; apply IK_Inv].
    + apply Forall_singleton. by apply (own r).
    + intros n w Hw. simpl. destruct (requests w !! _) as [x|] eqn:Ex; [|done]. simpl.
      case_decide; [by apply req_ident_delete|]. apply req_ident_insert; [done|].
      intros Hk. rewrite Hk in Ex. by apply Hw in Ex.
    + intros n w a Hw. simpl. destruct (requests w !! _) as [x|] eqn:Ex; [|done]. intros [= <-].
      rewrite rid_key in Ex by done. by apply Hw in Ex.
    + intros n w why. simpl. by destruct (requests w !! _).
  - intros a s [[(Hid & Hw & Hlog) HK] Ha]. done.
Qed.

Lemma patch_request_status_spec (K : rpred) before r :
  rid r = rid req0 → hoare (IK K) (patch_request_status E before r) (λ _, IK K) (λ _, IK K).
Proof.
  intros Hr. unfold patch_request_status, merge_request_status. case_decide; [by apply hoare_ret|].
  eapply hoare_conseq; [eapply (hoare_call E req0 Hresp log K _ _ (λ _, True))|done|by intros a s [H' _]|done].
  - apply Forall_singleton. by apply (own r).
  - intros n w Hw. simpl. destruct (requests w !! _) as [x|] eqn:Ex; [|done]. simpl.
    apply req_ident_insert; [done|]. intros Hk. rewrite Hk in Ex. by apply Hw in Ex.
  - done.
  - intros n w why. simpl. by destruct (requests w !! _).
Qed.

(** *** The steps of a reconciliation *)

Lemma noprog_settled r : noprog r → settled r.
Proof. by left. Qed.

Lemma hoare_weaken {A} (K K' : rpred) (m : ctl A) Q X :
  hoare (IK K') m Q X → (∀ r, K r → K' r) → hoare (IK K) m Q X.
Proof. intros Hm HK. eapply hoare_conseq; [exact Hm|intros s [H1 H2]; split; auto|done|done]. Qed.

Lemma try_keeps {A} (K : rpred) (m : ctl A) X :
  hoare (IK K) m (λ _, IK K) (λ _, IK K) → hoare (IK K) (try m) (λ _, IK K) X.
Proof.
  intros Hm. apply (hoare_conseq _ _ _ _ _ _ _ (hoare_try _ _ _ _ X Hm)); [done| |done].
  by intros [a|e] s.
Qed.

Lemma try_keeps_pure {A} (K : rpred) (m : ctl A) (φ : A → Prop) X :
  hoare (IK K) m (λ a s, IK K s ∧ φ a) (λ _, IK K) →
  hoare (IK K) (try m) (λ o s, IK K s ∧ match o with inl a => φ a | inr _ => True end) X.
Proof.
  intros Hm. apply (hoare_conseq _ _ _ _ _ _ _ (hoare_try _ _ _ _ X Hm)); [done| |done].
  by intros [a|e] s.
Qed.

Lemma deleteSnapshot_spec (K : rpred) : hoare (IK K) (deleteSnapshot E) (λ _, IK K) (λ _, IK K).
Proof.
  apply hoare_req. intros r Hr. apply hoare_drop.
  apply hoare_IgnoreNotFound; [by apply delete_snapshot_spec|done].
Qed.

Lemma setTemplateRef_spec tpl X : hoare (IK noprog) (setTemplateRef tpl) (λ _, IK noprog) X.
Proof. by apply (hoare_modify req0 log noprog (λ r, set_status (mkRequestStatus (conditions r) _) r)). Qed.

(** A template or content the controller works with is where it belongs. *)
Definition own_template (tpl : VirtualMachineTemplate) : Prop :=
  Namespace (Tpl_Meta tpl) = Namespace (Req_Meta req0).
Definition own_content (c : VirtualMachineSnapshotContent) : Prop :=
  Namespace (SCt_Meta c) = VMRef_Namespace (Req_Spec req0).

Lemma getTemplate_spec :
  hoare (IK noprog) (getTemplate E) (λ o s, IK noprog s ∧ from_option own_template True o) InvX.
Proof.
  apply hoare_req. intros r Hr. apply hoare_drop.
  apply (hoare_bind _ _ _ (λ o s, IK noprog s ∧ from_option own_template True o)).
  - eapply hoare_conseq; [apply (hoare_IgnoreNotFound _ _ _ (λ o s, IK noprog s ∧ from_option own_template True o) (λ _, IK noprog))
      |done|done|apply any_InvX].
    + eapply hoare_bind; [apply (hoare_get E req0 Hresp log noprog templates _ own_template)|].
      * intros w tpl Hw Ht. apply Hw in Ht. unfold own_template. unfold rid in Hr. injection Hr as <- _ _ _. by injection Ht.
      * intros tpl. apply hoare_ret. by intros s [H1 H2].
    + done.
  - intros [tpl|]; [|by apply hoare_ret]. apply hoare_pure. intros Ht. cbn [from_option] in Ht.
    destruct (_ =? _)%string; [|by apply hoare_fail].
    eapply hoare_bind; [apply setTemplateRef_spec|]. intros u. by apply hoare_ret.
Qed.

Lemma getSnapshotContent_spec snap :
  is_Some (Snap_Status snap) → Namespace (Snap_Meta snap) = VMRef_Namespace (Req_Spec req0) →
  hoare (IK noprog) (getSnapshotContent E snap) (λ c s, IK noprog s ∧ own_content c) InvX.
Proof.
  intros [st Hst] Hns. unfold getSnapshotContent. rewrite Hst.
  destruct (SS_ContentName st) as [[|c n]|]; [by apply hoare_fail| |by apply hoare_fail].
  eapply hoare_conseq; [apply (hoare_get E req0 Hresp log noprog contents _ own_content)|done|done|apply any_InvX].
  intros w x Hw Hx. apply Hw in Hx. injection Hx as Hx _. unfold own_content. by rewrite Hx.
Qed.

Lemma newDv_owned r ns snapNs snapName vol m :
  rid r = rid req0 → ns = Namespace (Req_Meta r) → snapNs = VMRef_Namespace (Req_Spec req0) →
  SetControllerReference KindRequest (Req_Meta r)
    (DV_Meta (newDv ns (getDvName r vol) (UID (Req_Meta r)) snapNs snapName)) = Ok m →
  owned req0 (CreateDataVolume (mkDV m (Some (snapNs, snapName)) [] EmptyString)).
Proof.
  intros Hr -> -> Hm. apply (own r); [done|].
  apply SetControllerReference_controls in Hm as (Hc & Hns & Hn & Hl & _ & _). simpl in *.
  split_and!; [|done| |].
  - unfold request_label. simpl. rewrite Hl. by rewrite lookup_singleton_eq.
  - exists vol. unfold object_key. simpl. by rewrite Hns, Hn.
  - exists snapName. unfold rid in Hr. by injection Hr as _ _ _ ->.
Qed.

Lemma SetControllerReference_no_panic kind owner obj w : SetControllerReference kind owner obj ≠ Panic w.
Proof.
  unfold SetControllerReference, validateOwner, mbind, res_bind.
  repeat (case_match; try done); simplify_eq.
Qed.

Lemma RemoveControllerReference_no_panic kind owner obj w : RemoveControllerReference kind owner obj ≠ Panic w.
Proof. unfold RemoveControllerReference. repeat (case_match; try done). Qed.

Lemma RemoveControllerReference_meta kind owner obj obj' :
  RemoveControllerReference kind owner obj = Ok obj' → obj' = set_owners (OwnerReferences obj') obj.
Proof. unfold RemoveControllerReference. repeat (case_match; try done). by intros [= <-]. Qed.
Lemma SetControllerReference_meta kind owner obj obj' :
  SetControllerReference kind owner obj = Ok obj' → obj' = set_owners (OwnerReferences obj') obj.
Proof.
  unfold SetControllerReference, mbind, res_bind. repeat (case_match; try done); by intros [= <-].
Qed.

Lemma clone_volume_spec c backend vol :
  own_content c → is_Some (VB_VolumeSnapshotName vol) →
  hoare (IK noprog) (clone_volume E c backend vol) (λ _, IK noprog) InvX.
Proof.
  intros Hown [sn Hsn]. unfold clone_volume. rewrite Hsn. destruct (_ =? backend)%string; [by apply hoare_ret|].
  apply hoare_req. intros r Hr. apply hoare_drop.
  apply (hoare_bind _ _ _ (λ _, IK noprog)).
  { apply try_keeps. by apply hoare_get_any. }
  intros [dv|e].
  - destruct (_ =? _)%string; [by apply hoare_ret|by apply hoare_fail].
  - destruct (negb (IsNotFound e)); [apply hoare_throw; intros s; apply IK_Inv|].
    apply (hoare_bind _ _ _ (λ m s, IK noprog s ∧ owned req0 (CreateDataVolume
      (mkDV m (Some (Namespace (SCt_Meta c), sn)) [] EmptyString)))).
    { apply hoare_lift; [apply SetControllerReference_no_panic| |intros e0 s; apply IK_Inv].
      intros m s Hm Hs. split; [done|]. by eapply (newDv_owned r). }
    intros m. apply (hoare_bind _ _ _ (λ _, IK noprog)).
    + intros s [Hs Hm]. by apply (hoare_conseq _ _ _ _ _ _ _ (create_datavolume_spec noprog _ Hm)
        (λ _ H, H) (λ _ _ H, H) (any_InvX noprog)).
    + intros dv. by apply hoare_ret.
Qed.

Lemma clone_loop_spec c backend vols :
  own_content c → missing_snapshot_name vols = None →
  hoare (IK noprog) (clone_loop E c backend vols) (λ _, IK noprog) InvX.
Proof.
  intros Hown. induction vols as [|vol vols IH]; simpl; [intros _; by apply hoare_ret|].
  destruct (VB_VolumeSnapshotName vol) as [[|x n]|] eqn:Hv; [done| |done]. intros Hm.
  eapply hoare_bind; [apply clone_volume_spec; [done|by rewrite Hv]|]. intros u. by apply IH.
Qed.

Lemma syncDataVolume_spec dv X :
  hoare (IK noprog) (syncDataVolumeStatusConditions E dv) (λ _, IK settled) X.
Proof.
  unfold syncDataVolumeStatusConditions. destruct (isDataVolumeStatusConditionTrue _ _) as [running present].
  destruct (_ || negb present); (eapply hoare_bind; [by apply (hoare_ready _ _ _ _ not_ready)|]; intros u;
    apply hoare_progressing; intros r r' Hr _ Hc; right; by rewrite Hc).
Qed.

Lemma clone_ready_spec backend vols :
  hoare (IK noprog) (clone_ready_loop E backend vols)
    (λ b s, if b then IK noprog s else IK settled s) InvX.
Proof.
  induction vols as [|vol vols IH]; simpl; [by apply hoare_ret|].
  destruct (_ =? backend)%string; [done|]. apply hoare_req. intros r Hr. apply hoare_drop.
  apply (hoare_bind _ _ _ (λ _, IK noprog)).
  { apply try_keeps. by apply hoare_get_any. }
  intros [dv|e].
  - destruct (isDataVolumeStatusConditionTrue _ _).1; [done|].
    eapply hoare_bind; [apply syncDataVolume_spec|]. intros u. by apply hoare_ret.
  - destruct (IsNotFound e); [apply hoare_ret|apply hoare_throw; intros s; apply IK_Inv].
    intros s [H1 H2]. split; [done|by left].
Qed.

Lemma getExpandedVM_spec c : hoare (IK noprog) (getExpandedVM E ExpandSpec c) (λ _, IK noprog) InvX.
Proof.
  unfold getExpandedVM. destruct (SCt_SourceVM c) as [vm|]; [|by apply hoare_fail].
  eapply hoare_conseq; [eapply (hoare_call E req0 Hresp log noprog _ _ (λ _, True))|done|by intros a s [H _]|apply any_InvX].
  - constructor.
  - done.
  - done.
  - intros n w why. simpl. apply Hexp.
Qed.

Lemma createTemplate_spec c :
  hoare (IK noprog) (createTemplate E ExpandSpec c) (λ tpl s, IK noprog s ∧ own_template tpl) InvX.
Proof.
  apply hoare_req. intros r Hr. apply hoare_drop.
  eapply hoare_bind; [apply getExpandedVM_spec|]. intros vm.
  destruct (VS_Template (VM_Spec vm)) as [t|]; [|by apply hoare_fail]. cbv zeta.
  destruct (transform_backups _ _ _ _ _) as [volumes dvts].
  apply (hoare_bind _ _ _ (λ o s, IK noprog s ∧ match o with inl tpl => own_template tpl | inr _ => True end)).
  { apply try_keeps_pure. eapply hoare_conseq; [apply create_template_spec, (own r); [done|by eexists]|done| |done].
    intros tpl s [Hs Ht]. split; [exact Hs|]. unfold own_template. rewrite Ht. unfold rid in Hr. by injection Hr. }
  intros [tpl|e]; apply hoare_pure; intros Ht.
  - eapply hoare_bind; [apply setTemplateRef_spec|]. intros u. by apply hoare_ret.
  - apply (hoare_bind _ _ _ (λ _, IK (λ _, True))).
    + destruct (IsAlreadyExists e); [|apply hoare_ret; by intros s [H _]].
      eapply hoare_bind; [by apply (hoare_ready _ _ _ _ (λ _, True))|]. intros u. by apply hoare_progressing.
    + intros u. apply hoare_throw. intros s. apply IK_Inv.
Qed.

Lemma snapshot_ready_status snap : (isSnapshotStatusConditionTrue snap "Ready").1 = true → is_Some (Snap_Status snap).
Proof.
  unfold isSnapshotStatusConditionTrue, snapshot_condition. by destruct (Snap_Status snap).
Qed.

Lemma syncSnapshot_spec snap X :
  hoare (IK noprog) (syncSnapshotStatusConditions E snap) (λ _, IK settled) X.
Proof.
  unfold syncSnapshotStatusConditions. destruct (_ && _).
  - apply hoare_ready. intros r r' Hr Hc Hp. by right.
  - eapply hoare_bind; [by apply (hoare_ready _ _ _ _ not_ready)|]. intros u.
    apply hoare_progressing. intros r r' Hr _ Hc. right. by rewrite Hc.
Qed.

Lemma processRequest_spec :
  hoare (IK noprog) (processRequest E ExpandSpec)
    (λ r s, match r with inl tpl => IK noprog s ∧ own_template tpl | inr _ => IK settled s end) InvX.
Proof.
  apply hoare_req. intros r Hr. apply hoare_drop.
  set (here := λ snap, Namespace (Snap_Meta snap) = VMRef_Namespace (Req_Spec req0)).
  apply (hoare_bind _ _ _ (λ o s, IK noprog s ∧ match o with inl snap => here snap | inr _ => True end)).
  { apply try_keeps_pure, hoare_get; [done|]. intros w snap Hw Hs. apply Hw in Hs. unfold rid in Hr.
    injection Hr as _ _ _ Hspec. injection Hs as Hs _. unfold here. by rewrite Hs, Hspec. }
  intros x. apply (hoare_bind _ _ _ (λ snap s, IK noprog s ∧ here snap)).
  { destruct x as [snap|e]; [by apply hoare_ret|].
    destruct (IsNotFound e); [|apply hoare_throw; intros s [Hs _]; by apply IK_Inv in Hs].
    apply (hoare_conseq _ (IK noprog) _ _ (λ snap s, IK noprog s ∧ here snap) _ InvX); [|by intros s [H _]|done|done].
    apply hoare_req. intros r' Hr'. apply hoare_drop. by apply create_snapshot_spec. }
  intros snap. apply hoare_pure. intros Hhere. destruct (negb _); [by apply hoare_fail|].
  destruct (isSnapshotStatusConditionTrue snap "Ready").1 eqn:Hready; cbn [negb].
  2: { eapply hoare_bind; [apply syncSnapshot_spec|]. intros u. by apply hoare_ret. }
  eapply hoare_bind; [apply getSnapshotContent_spec; [by apply snapshot_ready_status|done]|]. intros c. apply hoare_pure. intros Hown.
  destruct (isSnapshotContentReady c) as [[]|e|w] eqn:Hc.
  - assert (missing_snapshot_name (SCt_VolumeBackups c) = None) as Hm.
    { unfold isSnapshotContentReady in Hc. repeat (case_match; try done). }
    eapply hoare_bind; [by apply clone_loop_spec|]. intros u.
    eapply hoare_bind; [apply clone_ready_spec|]. intros []; cbn [negb]; [|by apply hoare_ret].
    eapply hoare_bind; [apply createTemplate_spec|]. intros tpl. by apply hoare_ret.
  - eapply hoare_bind; [by apply (hoare_ready _ _ _ _ not_ready)|]. intros u.
    eapply hoare_bind; [by apply (hoare_progressing _ _ _ _ settled); intros r1 r2 H1 _ H2; right; rewrite H2|].
    intros v. by apply hoare_ret.
  - eapply hoare_bind; [by apply (hoare_ready _ _ _ _ (λ _, True))|]. intros u. by apply hoare_fail.
  - exfalso. unfold isSnapshotContentReady in Hc. repeat (case_match; try done).
Qed.

Lemma set_owner_spec tpl dv :
  own_template tpl → Labels (DV_Meta dv) !! LabelRequestUID = Some (UID (Req_Meta req0)) →
  hoare (IK noprog) (set_owner E tpl dv) (λ _, IK noprog) InvX.
Proof.
  intros Hown Hl. unfold set_owner. destruct (IsControlledBy _ _); [by apply hoare_ret|].
  apply hoare_req. intros r Hr. apply hoare_drop.
  apply (hoare_bind _ _ _ (λ m s, IK noprog s ∧ m = set_owners (OwnerReferences m) (DV_Meta dv))).
  { apply hoare_lift; [apply RemoveControllerReference_no_panic| |intros e0 s; apply IK_Inv].
    intros m s Hm Hs. split; [done|]. by eapply RemoveControllerReference_meta. }
  set (here := Namespace (Req_Meta req0) ≠ EmptyString → Namespace (DV_Meta dv) = Namespace (Req_Meta req0)).
  intros m1. apply (hoare_bind _ _ _ (λ m s, IK noprog s ∧ m = set_owners (OwnerReferences m) (DV_Meta dv) ∧ here)).
  { intros s [Hs Hm1]. apply (hoare_lift (IK noprog)); [apply SetControllerReference_no_panic| |intros e0 s0; apply IK_Inv|done].
    intros m s0 Hm Hs0. split; [done|]. pose proof (SetControllerReference_controls _ _ _ _ Hm) as (_ & _ & _ & _ & _ & Hns).
    apply SetControllerReference_meta in Hm. split; [rewrite Hm at 1; by rewrite Hm1|].
    intros Hne. rewrite Hm1 in Hns. unfold own_template in Hown. rewrite Hown in Hns. symmetry. by apply Hns. }
  intros m2 s (Hs & Hm2 & Hns). eapply (hoare_conseq _ (IK noprog)); [apply patch_datavolume_spec|done|done|apply any_InvX|done].
  simpl. done.
Qed.

Lemma setDataVolumeOwnerReferences_spec tpl :
  own_template tpl → hoare (IK noprog) (setDataVolumeOwnerReferences E tpl) (λ _, IK noprog) InvX.
Proof.
  intros Hown. apply hoare_req. intros r Hr. apply hoare_drop.
  apply (hoare_bind _ _ _ (λ dvs s, IK noprog s ∧
    Forall (λ dv, Labels (DV_Meta dv) !! LabelRequestUID = Some (UID (Req_Meta req0))) dvs)).
  - eapply hoare_conseq; [eapply (hoare_call E req0 Hresp log noprog _ _ (λ dvs,
      Forall (λ dv, Labels (DV_Meta dv) !! LabelRequestUID = Some (UID (Req_Meta req0))) dvs))|done|done|apply any_InvX].
    + constructor.
    + done.
    + intros n w a _. simpl. intros [= <-]. apply Forall_forall. intros dv [Hd _]%list_elem_of_filter.
      rewrite Hd. unfold rid in Hr. injection Hr as _ _ -> _. done.
    + done.
  - intros dvs s [Hs Hdvs]. revert s Hs. induction Hdvs as [|dv dvs Hdv _ IH]; [by apply hoare_ret|].
    simpl. eapply hoare_bind; [by apply set_owner_spec|]. intros u. exact IH.
Qed.

Lemma syncTemplate_spec tpl X :
  hoare (IK noprog) (syncTemplateStatusConditions E tpl) (λ _, IK noprog) X.
Proof.
  unfold syncTemplateStatusConditions. unfold noprog.
  destruct (FindStatusCondition _ _) as [c|]; [destruct (bool_decide _)|];
    apply hoare_ready; intros r r' Hr _ Hp; by rewrite Hp.
Qed.

Lemma reconcile_body_spec : hoare Inv (reconcile_body E ExpandSpec) (λ _, IK settled) InvX.
Proof.
  eapply (hoare_conseq _ (IK (λ _, True)) _ _ (λ _, IK settled) _ InvX); [|by intros s Hs|done|done].
  apply hoare_req. intros r Hr.
  apply (hoare_bind _ _ _ (λ _, IK noprog)).
  { intros s [[(Hid & Hw & Hlog) _] ->]. split; [done|]. unfold noprog, cond, status_of, conditions. simpl.
    by rewrite Find_Remove. }
  intros u. assert (hoare (IK noprog) (
      found ← getTemplate E;
      r ← match found with Some tpl => mret (inl tpl) | None => processRequest E ExpandSpec end;
      match r with
      | inr result => mret result
      | inl tpl =>
          _ ← setDataVolumeOwnerReferences E tpl;
          _ ← deleteSnapshot E;
          _ ← syncTemplateStatusConditions E tpl;
          mret 0%Z
      end) (λ _, IK settled) InvX) as Hmain.
  { eapply hoare_bind; [apply getTemplate_spec|]. intros found.
    apply (hoare_bind _ _ _ (λ (r : VirtualMachineTemplate + Z) s,
      match r with inl tpl => IK noprog s ∧ own_template tpl | inr _ => IK settled s end)).
    { destruct found as [tpl|]; [by apply hoare_ret|].
      apply (hoare_conseq _ _ _ _ _ _ _ processRequest_spec); [by intros s [H _]|done|done]. }
    intros [tpl|z]; [|by apply hoare_ret]. apply hoare_pure. intros Hown.
    eapply hoare_bind; [by apply setDataVolumeOwnerReferences_spec|]. intros u1.
    eapply hoare_bind; [eapply hoare_conseq; [apply (deleteSnapshot_spec noprog)|done|done|apply any_InvX]|]. intros u2.
    eapply hoare_bind; [apply syncTemplate_spec|]. intros u3. apply hoare_ret. intros s [H1 H2]. split; [done|by left]. }
  destruct (validateRequest r) as [[]|e|w]; [exact Hmain| |exact Hmain].
  eapply hoare_bind; [by apply (hoare_ready _ _ _ _ not_ready)|]. intros u1.
  eapply hoare_bind; [by apply (hoare_progressing _ _ _ _ settled); intros r1 r2 H1 _ H2; right; rewrite H2|].
  intros v. by apply hoare_ret.
Qed.

(** *** The deferred function *)

(** The status a reconciliation leaves: both conditions are set, and Ready
    being True means that nothing is in progress. *)
Definition reported (r : VirtualMachineTemplateRequest) : Prop :=
  is_Some (cond ConditionReady r) ∧ is_Some (cond ConditionProgressing r) ∧
  (cond ConditionReady r = Some ConditionTrue → cond ConditionProgressing r = Some ConditionFalse).
Definition failed (r : VirtualMachineTemplateRequest) : Prop := reported r ∧ not_ready r.

Lemma find_cond r t : cond t r = None ↔ FindStatusCondition (conditions r) t = None.
Proof. unfold cond, status_of. by destruct (FindStatusCondition (conditions r) t). Qed.

(** Setting Progressing only when it is missing. *)
Lemma set_progressing_if_missing (K K' : rpred) st rs X :
  (∀ r r', K r → noprog r → cond ConditionProgressing r' = Some st → cond ConditionReady r' = cond ConditionReady r → K' r') →
  (∀ r, K r → is_Some (cond ConditionProgressing r) → K' r) →
  hoare (IK K) (req ← get_req;
    match FindStatusCondition (conditions req) ConditionProgressing with
    | None => setProgressingCondition E st rs
    | Some _ => mret tt
    end) (λ _, IK K') X.
Proof.
  intros H1 H2. apply hoare_req. intros r Hr.
  destruct (FindStatusCondition (conditions r) ConditionProgressing) as [c|] eqn:Ec.
  - apply hoare_ret. intros s [[Hi HK] ->]. split; [done|]. apply H2; [done|]. unfold cond, status_of. by rewrite Ec.
  - apply (hoare_conseq _ (IK (λ r, K r ∧ noprog r)) _ _ (λ _, IK K') _ X); [apply hoare_progressing| |done|done].
    + intros r1 r2 [HK Hn]. by apply (H1 r1).
    + intros s [[Hi HK] ->]. split; [done|]. split; [done|]. by apply find_cond.
Qed.

Lemma setStatusConditions_ok X :
  hoare (IK settled) (setStatusConditions E None) (λ _, IK reported) X.
Proof.
  unfold setStatusConditions. apply hoare_req. intros r Hr.
  (* the status to report depends on Ready *)
  apply (hoare_bind _ _ _ (λ p, IK (λ r, settled r ∧ is_Some (cond ConditionReady r) ∧
    (cond ConditionReady r = Some ConditionTrue → p.1 = ConditionFalse)))).
  - destruct (FindStatusCondition (conditions r) ConditionReady) as [c|] eqn:Ec.
    + assert (cond ConditionReady r = Some (C_Status c)) as Hc by (unfold cond, status_of; by rewrite Ec).
      case_bool_decide as Ht; apply hoare_ret; intros s [[Hi HK] ->]; (split; [exact Hi|]); rewrite Hc.
      * split_and!; [done|by eexists|done].
      * split_and!; [done|by eexists|congruence].
    + eapply hoare_bind.
      * eapply (hoare_conseq _ (IK settled)); [apply (hoare_ready _ _ _ settled not_ready); done|by intros s [H _]|intros a s H; exact H|intros e0 s H; exact H].
      * intros u. apply hoare_ret. intros s [Hi HK]. split; [done|]. unfold not_ready in HK. rewrite HK.
        split_and!; [by right|done|done].
  - intros p. apply set_progressing_if_missing.
    + intros r1 r2 (Hs & Hready & Hp) Hn Hprog Heq. unfold reported. rewrite Heq, Hprog. split_and!; [done|done|].
      intros Ht. by rewrite (Hp Ht).
    + intros r1 (Hs & Hready & Hp) Hsome. split_and!; [done|done|]. intros Ht. exfalso.
      destruct Hs as [Hn|Hf]; [by rewrite Hn in Hsome; destruct Hsome|congruence].
Qed.

Lemma setStatusConditions_err e X :
  hoare Inv (setStatusConditions E (Some e)) (λ _, IK failed) X.
Proof.
  eapply (hoare_conseq _ (IK (λ _, True))); [|by intros s Hs|intros a s H; exact H|intros e0 s H; exact H].
  unfold setStatusConditions. eapply hoare_bind; [by apply (hoare_ready _ _ _ _ not_ready)|]. intros u.
  apply set_progressing_if_missing.
  - intros r1 r2 Hn _ Hp Hr. unfold failed, reported, not_ready in *. rewrite Hr, Hp, Hn. done.
  - intros r1 Hn Hp. unfold failed, reported, not_ready in *. rewrite Hn. done.
Qed.

Lemma setStatusConditions_err_True e X :
  hoare (IK (λ _, True)) (setStatusConditions E (Some e)) (λ _, IK failed) X.
Proof. eapply (hoare_conseq _ _ _ _ _ _ _ (setStatusConditions_err e X)); [by intros s [H _]|done|done]. Qed.

(** The status in memory is the one that was patched, unless nothing changed. *)
Definition patched (before : RequestStatus) (s : rstate) : Prop :=
  before = Req_Status (tplReq s) ∨
  head (writes s) = Some (PatchRequestStatus (object_key (Req_Meta (tplReq s))) (Req_Status (tplReq s))).

Lemma deferred_spec (K K' : rpred) before retErr X :
  (∀ X, hoare (IK K) (setStatusConditions E retErr) (λ _, IK K') X) →
  hoare (IK K) (deferred E before retErr)
    (λ e s, IK K' s ∧ patched before s ∧ (is_Some retErr → is_Some e)) X.
Proof.
  intros Hs. eapply hoare_bind; [apply Hs|]. intros u. apply hoare_req. intros r Hr.
  apply (hoare_bind _ _ _ (λ _ s, IK K' s ∧ patched before s)).
  - intros s [Hi ->].
    pose proof (try_keeps K' (patch_request_status E before (tplReq s)) X
      (patch_request_status_spec K' before (tplReq s) Hr) s Hi) as Ht.
    assert (patched before (try (patch_request_status E before (tplReq s)) s).2) as Hp.
    { unfold patched, try, patch_request_status, merge_request_status. case_decide as Hd; [by left|]. right. unfold call.
      destruct (fault E (calls s)) as [[e []]|]; [done|done|].
      by destruct (requests _ !! _). }
    destruct (try (patch_request_status E before (tplReq s)) s) as [[a|e|w] s']; simpl in *; [done| |done].
    unfold try in *. by destruct (patch_request_status E before (tplReq s) s) as [[]].
  - intros p. apply hoare_ret. intros s [H1 H2]. split_and!; [done|done|]. by destruct retErr, p.
Qed.

(** The whole guarded body: whatever happens, the conditions are reported. *)
Lemma with_deferred_spec before :
  hoare Inv (with_deferred E before (reconcile_body E ExpandSpec))
    (λ _ s, IK reported s ∧ patched before s)
    (λ _ s, IK reported s ∧ patched before s).
Proof.
  intros s Hs. unfold with_deferred. pose proof (reconcile_body_spec s Hs) as Hb.
  destruct (reconcile_body E ExpandSpec s) as [[z|e|w] s1]; [| |done].
  - pose proof (deferred_spec settled reported before None (λ _ _, False) setStatusConditions_ok s1 Hb) as Hd.
    destruct (deferred E before None s1) as [[[e|]|e|w] s2]; [by destruct Hd as (? & ? & _)..|done|done].
  - pose proof (deferred_spec (λ _, True) failed before (Some e) (λ _ _, False)
      (λ X, setStatusConditions_err_True e X) s1 (conj Hb I)) as Hd.
    destruct (deferred E before (Some e) s1) as [[[e'|]|e'|w] s2]; [| |done|done];
      destruct Hd as ([Hi [Hr _]] & Hp & _); by split.
Qed.

(** *** The whole handler *)

Lemma addFinalizer_spec : hoare Inv (addFinalizer E) (λ _, Inv) InvX.
Proof.
  eapply (hoare_conseq _ (IK (λ _, True)) _ _ (λ _, Inv) _ InvX); [|by intros s Hs|done|done].
  apply hoare_req. intros r Hr. destruct (ContainsFinalizer _ _); [apply hoare_ret; by intros s [[H _] _]|].
  assert (rid (set_meta (AddFinalizer (Req_Meta r) FinalizerSnapshotCleanup) r) = rid req0) as Hr'.
  { rewrite <- Hr. unfold AddFinalizer. by destruct (ContainsFinalizer _ _). }
  apply (hoare_bind _ _ _ (λ _, IK (λ _, True))).
  - intros s [[Hi _] _]. by apply (hoare_put req0 log (λ _, True) _ (λ _ _, False)).
  - intros u. by apply patch_request_meta_spec.
Qed.

Lemma handleDeletion_spec : hoare Inv (handleDeletion E) (λ _, Inv) InvX.
Proof.
  eapply (hoare_conseq _ (IK (λ _, True)) _ _ (λ _, Inv) _ InvX); [|by intros s Hs|done|done].
  apply hoare_req. intros r Hr. apply hoare_drop.
  destruct (ContainsFinalizer _ _); [|apply hoare_ret; by intros s [H _]].
  apply (hoare_bind _ _ _ (λ _, IK (λ _, True))).
  { destruct (is_ok _); [|by apply hoare_ret].
    eapply hoare_conseq; [apply (deleteSnapshot_spec (λ _, True))|done|done|apply any_InvX]. }
  intros u. apply hoare_req. intros r1 Hr1.
  apply (hoare_bind _ _ _ (λ _, IK (λ _, True))).
  - intros s [[Hi _] _]. by apply (hoare_put req0 log (λ _, True) _ (λ _ _, False)).
  - intros v. by apply patch_request_meta_spec.
Qed.

Lemma handleTTL_inv : hoare Inv (handleTTL E) (λ _, Inv) InvX.
Proof.
  eapply (hoare_conseq _ (IK (λ _, True)) _ _ (λ _, Inv) _ InvX); [|by intros s Hs|done|done].
  apply hoare_req. intros r Hr. apply hoare_drop.
  destruct (TTLSecondsAfterFinished _) as [secs|]; [|apply hoare_ret; by intros s [H _]].
  destruct (FindStatusCondition _ _) as [c|]; [|apply hoare_ret; by intros s [H _]].
  destruct (negb _); [apply hoare_ret; by intros s [H _]|]. cbv zeta.
  apply (hoare_bind _ _ _ (λ _, IK (λ _, True))); [by intros s Hs|]. intros t.
  destruct (_ <? _)%Z; [apply hoare_ret; by intros s [H _]|].
  apply (hoare_bind _ _ _ (λ _, IK (λ _, True))).
  - eapply hoare_conseq; [by apply (delete_request_spec (λ _, True))|done|done|apply any_InvX].
  - intros u. apply hoare_ret. by intros s [H _].
Qed.

(** A request in memory, read from the cluster. *)
Lemma reconcile_request_spec r : hoare Inv (reconcile_request E ExpandSpec r) (λ _, Inv) InvX.
Proof.
  unfold reconcile_request. case_bool_decide as Hdel.
  { eapply hoare_bind; [apply handleDeletion_spec|]. intros u. by apply hoare_ret. }
  eapply hoare_bind; [apply addFinalizer_spec|]. intros u.
  eapply (hoare_conseq _ (IK (λ _, True)) _ _ (λ _, Inv) _ InvX); [|by intros s Hs|done|done].
  apply hoare_req. intros r1 Hr1. apply hoare_drop.
  destruct (negb _).
  { eapply hoare_conseq; [apply handleTTL_inv|by intros s [H _]|done|done]. }
  apply (hoare_bind _ _ _ (λ _, IK (λ _, True))).
  - apply hoare_req. intros r2 Hr2. apply hoare_drop.
    eapply hoare_conseq; [eapply (hoare_call E req0 Hresp log (λ _, True) _ _ (λ _, True))
      |done|by intros a s [H _]|apply any_InvX]; [constructor|done|done|done].
  - intros before. eapply hoare_conseq; [apply with_deferred_spec|by intros s [H _]|by intros a s [[H _] _]|by intros e s [[H _] _]].
Qed.
End reconcile_spec.
