(* ===== verification/RequestProps.v ===== *)
(** * Properties of the request controller *)

From Stdlib Require Import Ascii ZArith Lia.
From stdpp Require Import prelude strings gmap pretty.
From S2P Require Import Prelude GoStrings Regex Naming Json Visit Api Field Generator Template Meta Cluster Substitute Request RequestLogic.

(** ** Ownership and status *)

Lemma RemoveFinalizer_gone m f r : f ∉ Finalizers (Req_Meta (set_meta (RemoveFinalizer m f) r)).
Proof. intros Hf%ContainsFinalizer_elem. simpl in Hf. by rewrite ContainsFinalizer_Remove in Hf. Qed.

Section props.
Context (E : env) (ExpandSpec : string → VM → res rerror VM).

Lemma Reconcile_inv req0 s :
  (∀ ns vm w, ExpandSpec ns vm ≠ Panic w) →
  respects_identity (rid req0) E → req_ident (rid req0) (cluster s) →
  match Reconcile E ExpandSpec (object_key (Req_Meta req0)) s with
  | (r, s') => (∀ w, r ≠ Panic w) ∧ ∃ ws, writes s' = ws ++ writes s ∧ Forall (owned req0) ws
  end.
Proof.
  intros Hexp Hresp Hw. pose proof (Hresp (calls s) _ Hw) as Hi.
  assert (∃ ws : list write, writes s = ws ++ writes s ∧ Forall (owned req0) ws) as Hnil by (by exists []).
  unfold Reconcile. unfold mbind at 1, ctl_bind at 1.
  unfold IgnoreNotFound, get, call, try, mbind, ctl_bind, mret, ctl_ret.
  destruct (fault E (calls s)) as [[e []]|]; [by destruct (IsNotFound e)..|].
  destruct (requests (interfere E (calls s) (cluster s)) !! object_key (Req_Meta req0)) as [r|] eqn:Er; [|done].
  assert (rid r = rid req0) as Hr by (by apply Hi).
  unfold put_req. simpl. set (s1 := mkState r _ _ _).
  assert (Inv req0 (writes s) s1) as Hinv by (split_and!; [done|done|by exists []]).
  pose proof (reconcile_request_spec E ExpandSpec Hexp req0 Hresp (writes s) r s1 Hinv) as Hspec.
  destruct (reconcile_request E ExpandSpec r s1) as [[z|e|w] s']; [..|done];
    (split; [done|]); by destruct Hspec as (_ & _ & H).
Qed.



(** a failed reconciliation is reported: the error ends up as the message
    of a Ready condition that is False with reason Failed. *)
Theorem setStatusConditions_reports_error (e : rerror) s :
  let '(r, s') := setStatusConditions E (Some e) s in
  r = Ok tt ∧ ∃ c, FindStatusCondition (conditions (tplReq s')) ConditionReady = Some c ∧
    C_Status c = ConditionFalse ∧ C_Reason c = ReasonFailed ∧ C_Message c = rerror_text e.
Proof.
  unfold setStatusConditions, setReadyCondition, setProgressingCondition, set_condition,
    mbind, ctl_bind, now, get_req, put_req. cbn [tplReq calls].
  set (r1 := set_conditions _ (tplReq s)).
  assert (∃ c, FindStatusCondition (conditions r1) ConditionReady = Some c ∧
    C_Status c = ConditionFalse ∧ C_Reason c = ReasonFailed ∧ C_Message c = rerror_text e) as (c & Hc & H).
  { apply (Find_Set_same (clock E (calls s)) (conditions (tplReq s)) (mkCondition ConditionReady ConditionFalse
      (Generation (Req_Meta (tplReq s))) 0 ReasonFailed (rerror_text e))). }
  destruct (FindStatusCondition (conditions r1) ConditionProgressing); cbn; (split; [done|]); exists c; [done|].
  split; [|done]. by rewrite Find_Set_other.
Qed.

(** C32: expiry: a finished request is deleted by [handleTTL] only if it has a
    time to live, its Ready condition is True and the time since that
    condition changed is over; before that it is looked at again exactly when
    the time is over, and nothing is written. *)
Theorem handleTTL_spec s :
  let req := tplReq s in
  let t := clock E (calls s) in
  match TTLSecondsAfterFinished (Req_Spec req), FindStatusCondition (conditions req) ConditionReady with
  | Some secs, Some c =>
      if decide (C_Status c = ConditionTrue) then
        let expiresAt := (C_LastTransitionTime c + secs * second)%Z in
        if decide (t < expiresAt)%Z
        then handleTTL E s = (Ok (expiresAt - t)%Z, s)
        else writes (handleTTL E s).2 = DeleteRequest (object_key (Req_Meta req)) :: writes s
      else handleTTL E s = (Ok 0%Z, s)
  | _, _ => handleTTL E s = (Ok 0%Z, s)
  end.
Proof.
  cbv zeta. unfold handleTTL, mbind, ctl_bind, get_req. cbn [now].
  destruct (TTLSecondsAfterFinished (Req_Spec (tplReq s))) as [secs|]; [|done].
  destruct (FindStatusCondition (conditions (tplReq s)) ConditionReady) as [c|]; [|done].
  case_decide as Hc; [rewrite bool_decide_eq_true_2 by done|by rewrite bool_decide_eq_false_2]. cbn [negb].
  unfold now. case_decide as Ht; destruct (Z.ltb_spec 0 (C_LastTransitionTime c + secs * second - clock E (calls s)));
    [done|lia|lia|].
  unfold delete_request, call. destruct (fault E (calls s)) as [[e []]|]; [done..|]. by destruct (requests _ !! _).
Qed.

(** a request whose Progressing condition is False is finished: once it
    has its finalizer, reconciling it again does nothing but look at its time
    to live, whatever its spec says. *)
Theorem Reconcile_finished req s :
  fault E (calls s) = None →
  requests (interfere E (calls s) (cluster s)) !! object_key (Req_Meta req) = Some req →
  DeletionTimestamp (Req_Meta req) = None →
  ContainsFinalizer (Req_Meta req) FinalizerSnapshotCleanup = true →
  cond ConditionProgressing req = Some ConditionFalse →
  Reconcile E ExpandSpec (object_key (Req_Meta req)) s =
  handleTTL E (mkState req (interfere E (calls s) (cluster s)) (S (calls s)) (writes s)).
Proof.
  intros Hf Hreq Hdel Hfin Hprog. unfold Reconcile, IgnoreNotFound, get, call, try, mbind, ctl_bind, mret, ctl_ret.
  rewrite Hf, Hreq. unfold put_req, reconcile_request. simpl. rewrite Hdel, bool_decide_eq_false_2 by (by intros [? ?]).
  unfold addFinalizer, mbind, ctl_bind, get_req. simpl. rewrite Hfin. simpl.
  unfold shouldReconcile. unfold cond, status_of in Hprog.
  destruct (FindStatusCondition (conditions req) ConditionProgressing) as [c|]; [|done].
  injection Hprog as Hc. by rewrite Hc.
Qed.

(** C33: deletion: as long as deleting the snapshot fails (with an error other
    than not found) the finalizer stays and the error is returned; otherwise
    the finalizer is removed, after the snapshot was deleted. *)
Theorem handleDeletion_order s :
  is_ok (validateRequest (tplReq s)) = true →
  ContainsFinalizer (Req_Meta (tplReq s)) FinalizerSnapshotCleanup = true →
  let k := object_key (Snap_Meta (emptySnapshot (tplReq s))) in
  match delete_snapshot E k s with
  | (Err e, s1) =>
      IsNotFound e = false →
      handleDeletion E s = (Err e, s1) ∧ writes s1 = DeleteSnapshot k :: writes s
  | _ => True
  end ∧
  (is_ok (handleDeletion E s).1 = true →
   ∃ m, writes (handleDeletion E s).2 =
          [PatchRequestMeta (object_key (Req_Meta (tplReq s))) m; DeleteSnapshot k] ++ writes s ∧
        FinalizerSnapshotCleanup ∉ Finalizers m).
Proof.
  intros Hval Hfin k.
  assert (writes (delete_snapshot E k s).2 = DeleteSnapshot k :: writes s ∧
    tplReq (delete_snapshot E k s).2 = tplReq s) as [Hw Hr].
  { unfold delete_snapshot, call. destruct (fault E (calls s)) as [[e []]|]; [done..|]. by destruct (snapshots _ !! _). }
  unfold handleDeletion, deleteSnapshot, IgnoreNotFound, try, mbind, ctl_bind, get_req. cbv zeta. rewrite Hfin, Hval.
  fold k. destruct (delete_snapshot E k s) as [[[]|e|w] s1]; simpl in Hw, Hr.
  2: destruct (IsNotFound e) eqn:Ee.
  3: by split; [intros _; split|].
  3: by split.
  all: split; [done || congruence|]; unfold mret, ctl_ret, put_req; rewrite Hr;
    set (req' := set_meta _ _); intros Hok; exists (Req_Meta req');
    (split; [|apply RemoveFinalizer_gone]);
    unfold patch_request_meta, mbind, ctl_bind, call in *; simpl in *; rewrite Hw;
    (destruct (fault E (calls s1)) as [[e' []]|]; [done..|]);
    (destruct (requests _ !! _); [done|done]).
Qed.
End props.

(** ** The template a request creates *)

(** *** Labels *)

(** the labels of the created template: the request's UID under the system
    label, which no label of the user can override; every other label with
    the reserved prefix is dropped and all remaining labels are kept. *)
Theorem newTemplate_labels req spec k :
  Labels (Tpl_Meta (newTemplate req spec)) !! k =
  if (k =? LabelRequestUID)%string then Some (UID (Req_Meta req))
  else if HasPrefix k (GroupName +:+ "/") then None
  else TemplateLabels (Req_Spec req) !! k.
Proof.
  cbn [newTemplate Tpl_Meta Labels set_labels]. unfold template_labels.
  destruct (String.eqb_spec k LabelRequestUID) as [->|Hne]; [by rewrite lookup_insert_eq|].
  rewrite lookup_insert_ne by done. destruct (HasPrefix k (GroupName +:+ "/")) eqn:Hp.
  - apply map_lookup_filter_None. right. intros v Hv. cbn [fst]. by rewrite Hp.
  - destruct (TemplateLabels (Req_Spec req) !! k) as [v|] eqn:Hv.
    + by apply map_lookup_filter_Some.
    + apply map_lookup_filter_None. by left.
Qed.

(** *** Unique identifiers *)

Definition identifier_free (spec : VirtualMachineSpec) : Prop :=
  match VS_Template spec with
  | None => True
  | Some t => Forall (λ i, If_MacAddress i = EmptyString) (VMI_Interfaces t) ∧
      match VMI_Firmware t with Some f => Fw_Serial f = EmptyString ∧ Fw_UUID f = EmptyString | None => True end
  end.

(** [stripUniqueIdentifiers] removes every MAC address, the firmware
    serial and UUID, keeps everything else, and has nothing left to do when
    it is applied again. *)
Theorem stripUniqueIdentifiers_spec spec :
  let spec' := stripUniqueIdentifiers spec in
  identifier_free spec' ∧ stripUniqueIdentifiers spec' = spec' ∧
  VS_DataVolumeTemplates spec' = VS_DataVolumeTemplates spec ∧ VS_Other spec' = VS_Other spec ∧
  match VS_Template spec, VS_Template spec' with
  | Some t, Some t' => VMI_Volumes t' = VMI_Volumes t ∧ VMI_Other t' = VMI_Other t ∧
      If_Other <$> VMI_Interfaces t' = If_Other <$> VMI_Interfaces t ∧
      Fw_Other <$> VMI_Firmware t' = Fw_Other <$> VMI_Firmware t
  | None, None => True
  | _, _ => False
  end.
Proof.
  destruct spec as [[[ifs fw vols o]|] dvts other]; cbv zeta; unfold stripUniqueIdentifiers, identifier_free; simpl; [|done].
  split_and!; try done.
  - apply Forall_fmap, Forall_true. done.
  - by destruct fw.
  - f_equal. f_equal. f_equal; [by rewrite <- list_fmap_compose|by destruct fw].
  - by rewrite <- list_fmap_compose.
  - by destruct fw.
Qed.

(** *** Volumes and data volume templates *)

Fixpoint find_volume (n : string) (vols : list Volume) : option Volume :=
  match vols with
  | [] => None
  | v :: vs => if (Vol_Name v =? n)%string then Some v else find_volume n vs
  end.

(** The data volume a backed-up volume belongs to. *)
Definition dv_base (vols : list Volume) (n : string) : string :=
  match find_volume n vols with Some v => default n (Vol_DataVolume v) | None => n end.

(** Names as Kubernetes has them: no dollar sign, and data volumes have one. *)
Definition proper_names (vols : list Volume) (vbs : list VolumeBackup) : Prop :=
  Forall (λ vb, no_dollar (VB_VolumeName vb) = true ∧
    ∀ v d, find_volume (VB_VolumeName vb) vols = Some v → Vol_DataVolume v = Some d →
      no_dollar d = true ∧ d ≠ EmptyString) vbs.

Lemma transformVolume_find vols n m :
  find_volume m (transformVolume vols n).2 =
  if (m =? n)%string then
    (λ v, mkVolume n (Some (default n (Vol_DataVolume v) +:+ paramNameSuffix)) EmptyString) <$> find_volume n vols
  else find_volume m vols.
Proof.
  induction vols as [|v vols IH]; simpl; [by destruct (m =? n)%string|].
  destruct (String.eqb_spec (Vol_Name v) n) as [Hn|Hn]; simpl.
  - destruct (String.eqb_spec n m) as [->|Hm]; [by rewrite String.eqb_refl|].
    destruct (String.eqb_spec m n); [congruence|]. rewrite Hn. by destruct (String.eqb_spec n m).
  - destruct (transformVolume vols n) as [d vols'] eqn:Et. simpl in *.
    destruct (String.eqb_spec (Vol_Name v) m) as [Hm|Hm]; [|done].
    destruct (String.eqb_spec m n); [congruence|done].
Qed.

Lemma transformVolume_name vols n :
  (transformVolume vols n).1 = match find_volume n vols with Some v => default n (Vol_DataVolume v) | None => EmptyString end.
Proof.
  induction vols as [|v vols IH]; simpl; [done|].
  destruct (String.eqb_spec (Vol_Name v) n) as [Hn|Hn]; [done|].
  by destruct (transformVolume vols n).
Qed.

Lemma replace_dvt_new dvts n t : t ∈ replace_dvt dvts n t.
Proof. induction dvts as [|d ds IH]; simpl; [by left|]. destruct (_ =? _)%string; [by left|by right]. Qed.
Lemma replace_dvt_keeps dvts n t x : x ∈ dvts → DVT_Name x ≠ n → x ∈ replace_dvt dvts n t.
Proof.
  induction dvts as [|d ds IH]; simpl; [by intros ?%elem_of_nil|]. intros [->|Hx]%elem_of_cons Hne.
  - destruct (String.eqb_spec (DVT_Name d) n); [done|by left].
  - destruct (DVT_Name d =? n)%string; [by right|right; auto].
Qed.

Section volumes.
Context (req : VirtualMachineTemplateRequest) (backend : string).

Lemma transform_backups_cons vb vbs vols dvts :
  transform_backups req backend (vb :: vbs) vols dvts =
  transform_backups req backend vbs (transform_backup req backend vols dvts vb).1 (transform_backup req backend vols dvts vb).2.
Proof.
  unfold transform_backups. cbn [fold_left fst snd]. by destruct (transform_backup req backend vols dvts vb).
Qed.

Lemma transform_backup_skip vols dvts vb :
  VB_VolumeName vb = backend → transform_backup req backend vols dvts vb = (vols, dvts).
Proof. intros Hb. unfold transform_backup. by rewrite Hb, String.eqb_refl. Qed.

(** One step: the data volume template of the volume is there. *)
Lemma transform_backup_step vols dvts vb :
  VB_VolumeName vb ≠ backend → proper_names vols [vb] →
  transform_backup req backend vols dvts vb =
  ((transformVolume vols (VB_VolumeName vb)).2,
   transformOrAddDVT dvts (dv_base vols (VB_VolumeName vb)) (Namespace (Req_Meta req)) (getDvName req (VB_VolumeName vb))).
Proof.
  intros Hne Hp. apply Forall_singleton in Hp as [_ Hd]. unfold transform_backup.
  destruct (String.eqb_spec (VB_VolumeName vb) backend); [done|].
  pose proof (transformVolume_name vols (VB_VolumeName vb)) as Hn.
  destruct (transformVolume vols (VB_VolumeName vb)) as [d vols']. simpl in Hn. subst d. f_equal. f_equal.
  unfold dv_base. destruct (find_volume (VB_VolumeName vb) vols) as [v|] eqn:Ev; [|done].
  destruct (Vol_DataVolume v) as [d|] eqn:Ed; simpl.
  - destruct (Hd v d eq_refl Ed) as [_ Hne']. by destruct (String.eqb_spec d EmptyString).
  - destruct (String.eqb_spec (VB_VolumeName vb) EmptyString) as [->|]; done.
Qed.

Lemma suffixed_dollar d n : no_dollar n = true → d +:+ paramNameSuffix ≠ n.
Proof.
  intros Hn <-. unfold no_dollar in Hn. rewrite str_exists_app in Hn. apply negb_true_iff in Hn.
  apply orb_false_iff in Hn as [_ Hn]. done.
Qed.

Lemma dv_base_dollar vols vb : proper_names vols [vb] → no_dollar (dv_base vols (VB_VolumeName vb)) = true.
Proof.
  intros [Hn Hd]%Forall_singleton. unfold dv_base. destruct (find_volume _ vols) as [v|]; [|done].
  destruct (Vol_DataVolume v) as [d|] eqn:Ed; [|done]. by destruct (Hd v d eq_refl Ed).
Qed.

(** Later steps keep data volume templates with a suffixed name and volumes
    of other names. *)
Lemma transform_backups_keeps vbs : ∀ vols dvts,
  proper_names vols vbs → NoDup (VB_VolumeName <$> vbs) →
  let '(vols', dvts') := transform_backups req backend vbs vols dvts in
  (∀ d src, mkDVT (d +:+ paramNameSuffix) src ∈ dvts → mkDVT (d +:+ paramNameSuffix) src ∈ dvts') ∧
  (∀ n, n ∉ VB_VolumeName <$> vbs → find_volume n vols' = find_volume n vols).
Proof.
  induction vbs as [|vb vbs IH]; intros vols dvts Hp Hnd; [done|].
  apply Forall_cons in Hp as [Hvb Hp]. rewrite fmap_cons in Hnd. apply NoDup_cons in Hnd as [Hfresh Hnd].
  rewrite transform_backups_cons.
  destruct (decide (VB_VolumeName vb = backend)) as [Hb|Hb].
  - rewrite transform_backup_skip by done. cbn [fst snd].
    specialize (IH vols dvts Hp Hnd). destruct (transform_backups req backend vbs vols dvts) as [vols' dvts'].
    destruct IH as [IH1 IH2]. split; [done|]. intros n Hn. apply IH2. rewrite fmap_cons, not_elem_of_cons in Hn. tauto.
  - rewrite transform_backup_step by (done || by apply Forall_singleton). cbn [fst snd].
    set (vols1 := (transformVolume vols (VB_VolumeName vb)).2).
    set (dvts1 := transformOrAddDVT _ _ _ _).
    assert (∀ n, n ≠ VB_VolumeName vb → find_volume n vols1 = find_volume n vols) as Hother.
    { intros n Hn. unfold vols1. rewrite transformVolume_find. by destruct (String.eqb_spec n (VB_VolumeName vb)). }
    assert (proper_names vols1 vbs) as Hp1.
    { apply Forall_forall. intros vb' Hin. unfold proper_names in Hp. rewrite Forall_forall in Hp.
      specialize (Hp vb' Hin). rewrite Hother; [done|]. intros Heq. apply Hfresh. rewrite <- Heq.
      apply list_elem_of_fmap. eauto. }
    specialize (IH vols1 dvts1 Hp1 Hnd).
    destruct (transform_backups req backend vbs vols1 dvts1) as [vols' dvts']. destruct IH as [IH1 IH2]. split.
    + intros d src Hin. apply IH1. apply replace_dvt_keeps; [done|]. simpl.
      apply suffixed_dollar, dv_base_dollar. by apply Forall_singleton.
    + intros n Hn. rewrite fmap_cons, not_elem_of_cons in Hn. destruct Hn as [Hn1 Hn2].
      rewrite IH2 by done. by apply Hother.
Qed.

(** C34: the volumes of the template: every backed-up volume (other than
    backend storage) becomes a data volume named after its original one with
    the parameter [${NAME}] as suffix, the machine has a data volume template
    of that very name that clones the data volume the request created for it,
    and volumes that were not backed up are unchanged. *)
Theorem createTemplate_volumes vbs vols dvts :
  proper_names vols vbs → NoDup (VB_VolumeName <$> vbs) →
  let '(vols', dvts') := transform_backups req backend vbs vols dvts in
  (∀ vb, vb ∈ vbs → VB_VolumeName vb ≠ backend →
    let n := VB_VolumeName vb in
    mkDVT (dv_base vols n +:+ paramNameSuffix) (SourcePVC (Namespace (Req_Meta req)) (getDvName req n)) ∈ dvts' ∧
    find_volume n vols' =
      (λ _, mkVolume n (Some (dv_base vols n +:+ paramNameSuffix)) EmptyString) <$> find_volume n vols) ∧
  (∀ n, n ∉ VB_VolumeName <$> vbs → find_volume n vols' = find_volume n vols).
Proof.
  revert vols dvts. induction vbs as [|vb vbs IH]; intros vols dvts Hp Hnd.
  { split; [|done]. intros vb Hin. by apply elem_of_nil in Hin. }
  pose proof (transform_backups_keeps (vb :: vbs) vols dvts Hp Hnd) as Hk0.
  apply Forall_cons in Hp as [Hvb Hp]. rewrite fmap_cons in Hnd. apply NoDup_cons in Hnd as [Hfresh Hnd].
  rewrite transform_backups_cons in *.
  destruct (decide (VB_VolumeName vb = backend)) as [Hb|Hb].
  - rewrite transform_backup_skip in * by done. cbn [fst snd] in *. specialize (IH vols dvts Hp Hnd).
    destruct (transform_backups req backend vbs vols dvts) as [vols' dvts']. split; [|apply Hk0].
    intros x [->|Hx]%elem_of_cons Hne; [done|]. by apply IH.
  - rewrite transform_backup_step in * by (done || by apply Forall_singleton). cbn [fst snd] in *.
    set (vols1 := (transformVolume vols (VB_VolumeName vb)).2) in *.
    set (dvts1 := transformOrAddDVT _ _ _ _) in *.
    assert (∀ n, n ≠ VB_VolumeName vb → find_volume n vols1 = find_volume n vols) as Hother.
    { intros n Hn. unfold vols1. rewrite transformVolume_find. by destruct (String.eqb_spec n (VB_VolumeName vb)). }
    assert (∀ vb', vb' ∈ vbs → VB_VolumeName vb' ≠ VB_VolumeName vb) as Hdiff.
    { intros vb' Hin Heq. apply Hfresh. rewrite <- Heq. apply list_elem_of_fmap. eauto. }
    assert (proper_names vols1 vbs) as Hp1.
    { apply Forall_forall. intros vb' Hin. unfold proper_names in Hp. rewrite Forall_forall in Hp.
      specialize (Hp vb' Hin). by rewrite Hother by auto. }
    pose proof (transform_backups_keeps vbs vols1 dvts1 Hp1 Hnd) as Hk.
    specialize (IH vols1 dvts1 Hp1 Hnd).
    destruct (transform_backups req backend vbs vols1 dvts1) as [vols' dvts']. destruct Hk as [Hk1 Hk2]. split; [|apply Hk0].
    intros x [->|Hx]%elem_of_cons Hne; cbv zeta.
    + split; [apply Hk1, replace_dvt_new|]. rewrite Hk2 by done. unfold vols1.
      rewrite transformVolume_find, String.eqb_refl. unfold dv_base. by destruct (find_volume (VB_VolumeName vb) vols).
    + destruct IH as [IH _]. destruct (IH x Hx Hne) as [H1 H2]. unfold dv_base in *. rewrite Hother in H1, H2 by auto. done.
Qed.
End volumes.

(** *** The name parameter *)

(** processing a template that a request created never lacks a name: the
    parameter [NAME] of such a template gets, when it is not given, the value
    [vm-] followed by five characters of [a-z0-9]; the only possible failure
    is that of the random source, reported for the field [from]. *)
Theorem name_parameter_generates {R} `{RandSource R} (fuel : nat) (r : R) :
  2 ≤ fuel →
  match generateParameterValues [name_parameter] {[ "expression" := ExpressionValue fuel ]} r with
  | Ok (params, _) => ∃ v, params = {[ paramNameName := set_Value ("vm-" +:+ v) name_parameter ]} ∧
      String.length v = 5 ∧ ∀ c, c ∈ chars v → is_lower c || is_digit c = true
  | Err e => FE_Field e = "spec.parameters[0].from" ∧ ∃ m r' e', rand_Int m r' = Err e'
  | Panic _ => False
  end.
Proof.
  intros Hf. destruct fuel as [|[|fuel]]; [lia..|].
  unfold generateParameterValues. cbn [generate_values]. change (P_Name name_parameter) with "NAME".
  cbn [String.eqb Ascii.eqb Bool.eqb]. rewrite bool_decide_eq_false_2 by set_solver.
  rewrite st_bind_eq. unfold parameter_value. rewrite st_bind_eq.
  change (P_Value name_parameter =? "")%string with true. change (P_Generate name_parameter =? "")%string with false.
  cbn [andb negb]. change (P_Generate name_parameter) with "expression". rewrite lookup_singleton_eq.
  change (P_From name_parameter =? "")%string with false. cbv iota. rewrite st_bind_eq.
  unfold generate_value. cbn [GenerateValue ExpressionValue].
  change (P_From name_parameter) with ("vm-" +:+ expr_text "a-z0-9" "5" +:+ "").
  pose proof (generate_loop_single fuel "vm-" "" "a-z0-9" "5" r ltac:(repeat split; done) eq_refl eq_refl eq_refl) as Hg.
  destruct (generate_loop _ _ r) as [[out r']|e|w]; cbn [map_err]; [| |done].
  - destruct Hg as (v & al & -> & Hlen & _ & Hal & Hv). rewrite str_app_nil_r.
    cbn [mret st_ret]. change (P_Value (set_Value ("vm-" +:+ v) name_parameter)) with ("vm-" +:+ v).
    cbn [String.append String.eqb andb]. exists v. split; [done|]. split; [change (digits_val 0 "5") with 5%Z in Hlen; lia|].
    intros c Hc%Hv. vm_compute in Hal. injection Hal as <-. rewrite <- str_exists_elem in Hc.
    revert Hc. by byte_cases c.
  - split; [done|]. destruct Hg as [Hg|[Hg|(m & r1 & Hg)]]; [by vm_compute in Hg..|eauto].
Qed.
