(* ===== verification/RequestRun.v ===== *)
(** * Runs of the request controller

    A complete run of a request in a quiet cluster, from its creation to its
    expiry, a run with a snapshot of another request, and instances of the
    controller's properties on them. *)

From Stdlib Require Import Ascii ZArith Lia.
From stdpp Require Import prelude strings gmap pretty.
From S2P Require Import Prelude GoStrings Regex Naming Json Visit Api Field Generator Template Meta Cluster Substitute Request RequestLogic RequestProps.

(** ** A complete run

    A request for a machine with one disk and a backend storage volume, in a
    quiet cluster; between the reconciliations the other controllers do their
    part: the snapshot becomes ready, the data volume is populated, the
    template is validated. *)

Definition quiet (t : Z) : env := mkEnv (λ _ w, w) (λ _, None) (λ n, "uid-" +:+ pretty n) (λ _, t).

Definition sample_vm_spec : VirtualMachineSpec :=
  mkVMSpec (Some (mkVMISpec [mkInterface "02:00:00:00:00:01" "net"] (Some (mkFirmware "s" "u" "fw"))
    [mkVolume "disk" (Some "web-root") ""; mkVolume "cloudinit" None "userdata"] "")) [mkDVT "web-root" (SourceOther "http")] "".
Definition sample_machine : VM := mkVM (empty_meta "vms" "web") sample_vm_spec.

Definition sample_request : VirtualMachineTemplateRequest :=
  mkRequest (set_uid "1234" (empty_meta "tpls" "golden"))
    (mkRequestSpec "vms" "web" "" {[ "team" := "infra"; LabelRequestUID := "forged" ]} (Some 60%Z))
    (mkRequestStatus [] None).
Definition request_key : key := ("tpls", "golden").

Definition w0 : world := mkWorld {[ request_key := sample_request ]} ∅ ∅ ∅ ∅.

Definition identity_expand (ns : string) (vm : VM) : res rerror VM := Ok vm.

Definition run (t : Z) (w : world) : res rerror Z * rstate :=
  Reconcile (quiet t) identity_expand request_key (mkState sample_request w 0 []).

Definition snap_key : key := object_key (Snap_Meta (emptySnapshot sample_request)).
Definition dv_key : key := ("tpls", getDvName sample_request "disk").
Definition tpl_key : key := ("tpls", "golden").

(** The snapshot controller finishes. *)
Definition snapshot_ready (w : world) : world :=
  mkWorld (requests w) (templates w)
    (alter (λ s, mkSnapshot (Snap_Meta s) (Snap_SourceName s)
      (Some (mkSnapshotStatus [mkSnapCondition "Ready" ConditionTrue ""] "Succeeded" (Some "content")))) snap_key (snapshots w))
    (<[("vms", "content") := mkContent (empty_meta "vms" "content") (Some sample_machine)
      [mkVolumeBackup "disk" (Some "vs-disk"); mkVolumeBackup "persistent-state-for-web" (Some "vs-state")] (Some true)]> (contents w))
    (datavolumes w).
(** The importer populates the data volume. *)
Definition datavolume_ready (w : world) : world :=
  with_datavolumes (alter (λ d, mkDV (DV_Meta d) (DV_SourceSnapshot d) [mkDVCondition "Ready" ConditionTrue] "Succeeded") dv_key) w.
(** The template controller accepts the template. *)
Definition template_ready (w : world) : world :=
  with_templates (alter (λ t, mkTemplate (Tpl_Meta t) (Tpl_VMName t) (Tpl_VMSpec t) (Tpl_Parameters t) (Tpl_Message t)
    [mkCondition ConditionReady ConditionTrue 0 1 ReasonReconciled "ok"]) tpl_key) w.

Definition w1 : world := cluster (run 1 w0).2.
Definition w2 : world := cluster (run 2 (snapshot_ready w1)).2.
Definition w3 : world := cluster (run 3 (datavolume_ready w2)).2.
Definition w4 : world := cluster (run 4 (template_ready w3)).2.

(** The conditions of the request in a cluster. *)
Definition progress (w : world) : option (option ConditionStatus * option ConditionStatus) :=
  (λ r, (cond ConditionReady r, cond ConditionProgressing r)) <$> requests w !! request_key.


(** ** Deleting a snapshot that is not the request's *)

(** The request's UID is not checked when the snapshot is deleted. *)
Definition foreign_snapshot : VirtualMachineSnapshot :=
  mkSnapshot (set_labels {[ LabelRequestUID := "someone-else" ]} (Snap_Meta (emptySnapshot sample_request))) "web" None.
Definition foreign_world (deleted : option Z) : world :=
  mkWorld {[ request_key := set_meta (set_deletion deleted (AddFinalizer (Req_Meta sample_request) FinalizerSnapshotCleanup)) sample_request ]}
    ∅ {[ snap_key := foreign_snapshot ]} ∅ ∅.

(** [processRequest] refuses a snapshot of the expected name that carries
    the UID of another request, but deleting the request deletes that
    snapshot all the same: [deleteSnapshot] does not look at the label. *)
Theorem deleteSnapshot_ignores_label :
  request_label (Snap_Meta foreign_snapshot) ≠ UID (Req_Meta sample_request) ∧
  snapshots (cluster (run 1 (foreign_world None)).2) !! snap_key = Some foreign_snapshot ∧
  (run 1 (foreign_world None)).1 = Err (LocalError ("virtualMachineSnapshot " +:+ key_text snap_key +:+
    " does not belong to this request")) ∧
  snapshots (cluster (run 1 (foreign_world (Some 1%Z))).2) = ∅.
Proof. split_and!; vm_compute; [done|reflexivity..]. Qed.

(** ** Witnesses *)

Lemma quiet_respects t id : respects_identity id (quiet t).
Proof. by intros n w. Qed.
Lemma w0_ident : req_ident (rid sample_request) w0.
Proof.
  split; [|by split_and!]. intros r Hr. unfold w0 in Hr. cbn [requests] in Hr. apply lookup_singleton_Some in Hr as [_ <-]. done.
Qed.



(** A request that has finished. *)
Definition finished_request : VirtualMachineTemplateRequest :=
  set_conditions [mkCondition ConditionReady ConditionFalse 0 1 ReasonFailed "x";
                  mkCondition ConditionProgressing ConditionFalse 0 1 ReasonFailed ""]
    (set_meta (AddFinalizer (Req_Meta sample_request) FinalizerSnapshotCleanup) sample_request).

Lemma Reconcile_finished_witness :
  let w := mkWorld {[ request_key := finished_request ]} ∅ ∅ ∅ ∅ in
  Reconcile (quiet 1) identity_expand request_key (mkState sample_request w 0 []) =
  handleTTL (quiet 1) (mkState finished_request w 1 []).
Proof.
  apply (Reconcile_finished (quiet 1) identity_expand finished_request
    (mkState sample_request (mkWorld {[ request_key := finished_request ]} ∅ ∅ ∅ ∅) 0 [])); reflexivity.
Defined.

Lemma handleDeletion_order_witness :
  let r := set_meta (AddFinalizer (Req_Meta sample_request) FinalizerSnapshotCleanup) sample_request in
  let s := mkState r (mkWorld {[ request_key := r ]} ∅ ∅ ∅ ∅) 0 [] in
  is_ok (handleDeletion (quiet 1) s).1 = true ∧
  ∃ m, writes (handleDeletion (quiet 1) s).2 =
         [PatchRequestMeta request_key m; DeleteSnapshot (object_key (Snap_Meta (emptySnapshot r)))] ++ [] ∧
       FinalizerSnapshotCleanup ∉ Finalizers m.
Proof.
  intros r s. assert (is_ok (handleDeletion (quiet 1) s).1 = true) as Hok by (vm_compute; reflexivity).
  split; [exact Hok|]. exact (proj2 (handleDeletion_order (quiet 1) s eq_refl eq_refl) Hok).
Defined.

Lemma createTemplate_volumes_witness :
  let vols := [mkVolume "disk" (Some "web-root") ""; mkVolume "cloudinit" None "userdata"] in
  let vbs := [mkVolumeBackup "disk" (Some "vs")] in
  let '(vols', dvts') := transform_backups sample_request "" vbs vols [] in
  find_volume "disk" vols' = Some (mkVolume "disk" (Some "web-root-${NAME}") "") ∧
  find_volume "cloudinit" vols' = Some (mkVolume "cloudinit" None "userdata").
Proof.
  intros vols vbs.
  assert (proper_names vols vbs) as Hp.
  { apply Forall_singleton. split; [reflexivity|]. intros v d Hv Hd. injection Hv as <-. injection Hd as <-.
    split; [reflexivity|discriminate]. }
  pose proof (createTemplate_volumes sample_request "" vbs vols [] Hp (NoDup_singleton _)) as H.
  destruct (transform_backups sample_request "" vbs vols []) as [vols' dvts']. destruct H as [H1 H2]. split.
  - destruct (H1 (mkVolumeBackup "disk" (Some "vs")) ltac:(left) ltac:(discriminate)) as [_ H]. exact H.
  - rewrite H2; [reflexivity|]. by apply (bool_decide_unpack _).
Defined.

Lemma name_parameter_generates_witness :
  match @generateParameterValues nat [name_parameter]
    {[ "expression" := @ExpressionValue nat (scripted [0; 11; 35]%Z) 2 ]} 0 with
  | Ok (params, _) => ∃ v, params = {[ paramNameName := set_Value ("vm-" +:+ v) name_parameter ]} ∧
      String.length v = 5 ∧ ∀ c, c ∈ chars v → is_lower c || is_digit c = true
  | _ => False
  end.
Proof.
  pose proof (@name_parameter_generates nat (scripted [0; 11; 35]%Z) 2 0 (le_n 2)) as H.
  destruct (generateParameterValues _ _ _) as [[params r]|e|w]; [exact H| |exact H].
  destruct H as [_ (m & r' & e' & He)]. discriminate He.
Defined.
