(* ===== verification/Controllers.v ===== *)
(** * The other controllers of the manager

    - [TemplateController]: virtualmachinetemplate_controller.go marks every
      template as ready;
    - [EnqueueRequestByUID] of virtualmachinetemplaterequest_controller.go
      maps a changed snapshot or template to the request to reconcile;
    - [Availability]: vmtr_availability_controller.go waits for the API groups
      the request controller needs, reports what is missing on the pending
      requests, and starts the controller once.

    They use the client of Cluster.v, so the theorems hold for every behaviour
    of the rest of the cluster unless they say otherwise. *)

From Stdlib Require Import Ascii ZArith Lia.
From stdpp Require Import prelude strings gmap.
From S2P Require Import Prelude GoStrings Api Meta Cluster Request RequestRun.

(** A cluster in which nobody else acts and no call fails. *)
Definition undisturbed (E : env) : Prop := (∀ n w, interfere E n w = w) ∧ (∀ n, fault E n = None).

(** Every object is stored under its own name. *)
Definition well_keyed (w : world) : Prop :=
  (∀ k r, requests w !! k = Some r → object_key (Req_Meta r) = k) ∧
  (∀ k t, templates w !! k = Some t → object_key (Tpl_Meta t) = k).

(** A call of the client in such a cluster has its plain effect. *)
Lemma call_undisturbed E {A} ws (op : nat → world → res rerror A * world) s :
  undisturbed E →
  call E ws op s = ((op (calls s) (cluster s)).1,
    mkState (tplReq s) (op (calls s) (cluster s)).2 (S (calls s)) (ws ++ writes s)).
Proof.
  intros [Hi Hf]. unfold call. rewrite Hi, Hf. by destruct (op (calls s) (cluster s)).
Qed.

(** ** virtualmachinetemplate_controller.go *)

Module TemplateController.
Section reconciler.
Context (E : env).

Definition ready_condition (tpl : VirtualMachineTemplate) : Condition :=
  mkCondition ConditionReady ConditionTrue (Generation (Tpl_Meta tpl)) 0 ReasonReconciled
    "VirtualMachineTemplate is ready to be processed".

Definition Reconcile (k : key) : ctl unit :=
  r ← IgnoreNotFound None (tpl ← get E templates k; mret (Some tpl));
  match r with
  | None => mret tt
  | Some tpl =>
      before ← call E [] (λ _ w, (Ok tpl, w)); (* patch.NewHelper *)
      t ← now E;
      patch_template_status E before
        (set_tpl_conditions (SetStatusCondition t (Tpl_Conditions tpl) (ready_condition tpl)) tpl)
  end.
End reconciler.
End TemplateController.

(** ** EnqueueRequestByUID *)

Section enqueue.
Context (E : env).

(** [List] with the index on [metadata.uid]. *)
Definition list_requests_by_uid (uid : string) : ctl (list VirtualMachineTemplateRequest) :=
  call E [] (λ _ w, (Ok (filter (λ r, UID (Req_Meta r) = uid) ((map_to_list (requests w)).*2)), w)).

(** The requests to reconcile after a change of the object with metadata
    [obj]. *)
Definition EnqueueRequestByUID (obj : ObjectMeta) : ctl (list key) :=
  match Labels obj !! LabelRequestUID with
  | None => mret []
  | Some requestUID =>
      r ← try (list_requests_by_uid requestUID);
      mret (match r with
            | inl [item] => [object_key (Req_Meta item)]
            | _ => []
            end)
  end.
End enqueue.

(** ** vmtr_availability_controller.go *)

Module Availability.
Definition defaultPollInterval : Z := 60 * second.
Definition cdiGroupVersion : string := "cdi.kubevirt.io/v1beta1".
Definition snapshotGroupVersion : string := "snapshot.kubevirt.io/v1beta1".
Definition requiredGroups : list string := [cdiGroupVersion; snapshotGroupVersion].

(** [isAPIGroupAvailable]: whether discovery answers for a group version. *)
Definition isAPIGroupAvailable (discovery : string → option rerror) (groupVersion : string) : bool :=
  bool_decide (discovery groupVersion = None).

Definition missingGroups (discovery : string → option rerror) : list string :=
  filter (λ g, isAPIGroupAvailable discovery g = false) requiredGroups.

(** How [Start] ends; [Waiting] when the number of rounds looked at is not
    enough for it to end. *)
Inductive outcome : Type :=
| Started
| Cancelled
| Failed (e : rerror)
| Waiting.

(** The kinds of objects and the selector of [ExternalCRDCacheConfig]. *)
Inductive kind : Type := KDataVolume | KSnapshot | KSnapshotContent.
Inductive selector : Type := Exists_label (l : string).
Definition selects (sel : selector) (m : ObjectMeta) : bool :=
  match sel with Exists_label l => bool_decide (is_Some (Labels m !! l)) end.

Definition ExternalCRDCacheConfig (discovery : string → option rerror) : list (kind * selector) * list kind :=
  let uidSelector := Exists_label LabelRequestUID in
  let cdi := if isAPIGroupAvailable discovery cdiGroupVersion then [(KDataVolume, uidSelector)] else [] in
  if isAPIGroupAvailable discovery snapshotGroupVersion
  then (cdi ++ [(KSnapshot, uidSelector)], [KSnapshotContent])
  else (cdi, []).

Section controller.
Context (E : env).

Definition missing_message (missing : list string) : string :=
  "Required CRDs are not yet available: " +:+ Join missing ", ".

(** Whether a request still waits for the controller. *)
Definition pending (req : VirtualMachineTemplateRequest) : bool :=
  negb (bool_decide (is_Some (DeletionTimestamp (Req_Meta req)))) && shouldReconcile req.

Definition set_missing (message : string) (req : VirtualMachineTemplateRequest) : ctl unit :=
  if negb (pending req) then mret tt
  else
    _ ← put_req req;
    _ ← setReadyCondition E ConditionFalse ReasonWaiting message;
    _ ← setProgressingCondition E ConditionTrue ReasonWaiting;
    after ← get_req;
    _ ← try (merge_request_status E (Req_Status req) after); (* a failure is logged *)
    mret tt.

Fixpoint set_missing_loop (message : string) (items : list VirtualMachineTemplateRequest) : ctl unit :=
  match items with
  | [] => mret tt
  | req :: items' => _ ← set_missing message req; set_missing_loop message items'
  end.

Definition setMissingCRDStatus (missing : list string) : ctl unit :=
  r ← try (list_requests E);
  match r with
  | inr _ => mret tt
  | inl items => set_missing_loop (missing_message missing) items
  end.

(** The world outside: what discovery answers in each round, whether the
    context is done when the round's [select] is reached (otherwise the ticker
    fires), and whether adding the informer and setting up the request
    controller succeed. *)
Context (discovery : nat → string → option rerror) (done_ : nat → bool).
Context (informer setup : option rerror).

Definition startController : outcome :=
  match setup with None => Started | Some e => Failed e end.

(** The loop from round [n] on; [fuel] bounds the number of rounds. *)
Fixpoint wait_loop (fuel : nat) (n : nat) : ctl outcome :=
  match fuel with
  | 0 => mret Waiting
  | S fuel' =>
      match missingGroups (discovery n) with
      | [] => mret startController
      | missing =>
          _ ← setMissingCRDStatus missing;
          if done_ n then mret Cancelled else wait_loop fuel' (S n)
      end
  end.

(** Round 0 is the check before the informer is added. *)
Definition Start (fuel : nat) : ctl outcome :=
  match missingGroups (discovery 0) with
  | [] => mret startController
  | _ =>
      match informer with
      | Some e => mret (Failed (LocalError ("failed to add VMTR informer: " +:+ rerror_text e)))
      | None => wait_loop fuel 1
      end
  end.
End controller.
End Availability.

(** ** The template controller *)

(** Setting the same condition again, at whatever time, changes nothing. *)
Lemma SetStatusCondition_idem t t' cs new :
  SetStatusCondition t' (SetStatusCondition t cs new) new = SetStatusCondition t cs new.
Proof.
  induction cs as [|c cs IH]; simpl.
  - unfold new_condition. destruct (Z.eqb_spec (C_LastTransitionTime new) 0); simpl; rewrite String.eqb_refl;
      f_equal; unfold update_condition; simpl; rewrite decide_True by done; by destruct new.
  - destruct (String.eqb_spec (C_Type c) (C_Type new)) as [Heq|Hne]; simpl.
    + rewrite Heq, String.eqb_refl. f_equal. unfold update_condition. simpl. by rewrite decide_True by done.
    + destruct (String.eqb_spec (C_Type c) (C_Type new)); [done|]. by rewrite IH.
Qed.

Lemma set_tpl_conditions_meta cs t : Tpl_Meta (set_tpl_conditions cs t) = Tpl_Meta t.
Proof. done. Qed.

Section template_controller.
Context (E : env).
Import TemplateController.

Lemma TemplateReconcile_undisturbed k s tpl t :
  undisturbed E → well_keyed (cluster s) → templates (cluster s) !! k = Some tpl →
  t = clock E (S (S (calls s))) →
  let tpl' := set_tpl_conditions (SetStatusCondition t (Tpl_Conditions tpl) (ready_condition tpl)) tpl in
  let changed := bool_decide (Tpl_Conditions tpl ≠ Tpl_Conditions tpl') in
  let s' := (Reconcile E k s).2 in
  (Reconcile E k s).1 = Ok tt ∧ cluster s' = with_templates (<[k := tpl']>) (cluster s) ∧
  writes s' = (if changed then [PatchTemplateStatus k (Tpl_Conditions tpl')] else []) ++ writes s.
Proof.
  intros HE [_ Hk] Htpl Ht tpl' changed. subst t. pose proof (Hk k tpl Htpl) as Hkey.
  unfold Reconcile, IgnoreNotFound, try, get, mbind, ctl_bind, mret, ctl_ret, now.
  rewrite (call_undisturbed E) by done. simpl. rewrite Htpl, (call_undisturbed E) by done. simpl.
  fold tpl'. unfold patch_template_status. change (Tpl_Meta tpl') with (Tpl_Meta tpl). rewrite Hkey.
  change (Tpl_Conditions (set_tpl_conditions _ tpl)) with (Tpl_Conditions tpl').
  subst changed. case_decide as Hd.
  - rewrite bool_decide_false by auto. simpl. split; [done|]. split; [|done].
    assert (tpl' = tpl) as ->.
    { clear -Hd. subst tpl'. cbn in Hd. rewrite <- Hd. by destruct tpl. }
    unfold with_templates. rewrite insert_id by done. by destruct (cluster s).
  - rewrite bool_decide_true by done. rewrite (call_undisturbed E) by done. simpl. by rewrite Htpl.
Qed.
End template_controller.

(** C37: The template controller converges: after one
    reconciliation the template has a Ready condition that is True for its
    current generation, nothing else of it has changed, and reconciling again
    (at any later time) writes nothing. *)
Theorem TemplateReconcile_converges E k s tpl :
  undisturbed E → well_keyed (cluster s) → templates (cluster s) !! k = Some tpl →
  let s1 := (TemplateController.Reconcile E k s).2 in
  ∃ tpl' c, templates (cluster s1) !! k = Some tpl' ∧
    tpl' = set_tpl_conditions (Tpl_Conditions tpl') tpl ∧
    FindStatusCondition (Tpl_Conditions tpl') ConditionReady = Some c ∧
    C_Status c = ConditionTrue ∧ C_ObservedGeneration c = Generation (Tpl_Meta tpl) ∧
    (∀ t, t ≠ ConditionReady →
      FindStatusCondition (Tpl_Conditions tpl') t = FindStatusCondition (Tpl_Conditions tpl) t) ∧
    TemplateController.Reconcile E k s1 = (Ok tt, mkState (tplReq s1) (cluster s1) (S (S (calls s1))) (writes s1)).
Proof.
  intros HE Hk Htpl s1.
  pose proof (TemplateReconcile_undisturbed E k s tpl _ HE Hk Htpl eq_refl) as (Hok & Hcl & Hw).
  fold s1 in Hcl, Hw. set (cs' := SetStatusCondition _ _ _) in Hcl, Hw. set (tpl' := set_tpl_conditions cs' tpl) in Hcl, Hw.
  assert (templates (cluster s1) !! k = Some tpl') as Htpl' by (rewrite Hcl; apply lookup_insert_eq).
  destruct Hk as [Hkr Hkt].
  exists tpl'. eexists. split; [done|]. split; [done|]. split; [|split; [|split; [|split]]].
  - unfold tpl', cs'. cbn [Tpl_Conditions set_tpl_conditions]. rewrite Find_Set. cbn [C_Type TemplateController.ready_condition].
    by rewrite String.eqb_refl.
  - by destruct (FindStatusCondition _ _).
  - by destruct (FindStatusCondition _ _).
  - intros t Ht. apply Find_Set_other. cbn. congruence.
  - unfold TemplateController.Reconcile, IgnoreNotFound, try, get, mbind, ctl_bind, mret, ctl_ret, now.
    rewrite (call_undisturbed E) by done. simpl. rewrite Htpl', (call_undisturbed E) by done. simpl.
    unfold patch_template_status. rewrite decide_True; [done|].
    change (TemplateController.ready_condition tpl') with (TemplateController.ready_condition tpl).
    cbn [Tpl_Conditions set_tpl_conditions]. symmetry. apply SetStatusCondition_idem.
Qed.

(** ** Enqueueing *)

Lemma filter_values_unique {A} (P : A → Prop) `{!∀ x, Decision (P x)} (m : gmap key A) k x :
  m !! k = Some x → P x → (∀ j y, m !! j = Some y → P y → j = k) →
  filter P ((map_to_list m).*2) = [x].
Proof.
  intros Hk Hx Hu. apply Permutation_singleton_r. rewrite <- (insert_delete_id m k x Hk).
  rewrite map_to_list_insert by apply lookup_delete_eq. csimpl. rewrite filter_cons_True by done.
  destruct (filter P _) as [|y l] eqn:Ef; [done|]. exfalso.
  assert (y ∈ filter P ((map_to_list (delete k m)).*2)) as Hy by (rewrite Ef; left).
  apply list_elem_of_filter in Hy as [Hp Hy]. apply list_elem_of_fmap in Hy as ([j y'] & -> & Hj).
  apply elem_of_map_to_list, lookup_delete_Some in Hj as [Hne Hj]. by apply Hne, eq_sym, (Hu j y').
Qed.

(** The objects a request creates lead back to it: a change
    of its snapshot or of its template enqueues exactly that request, in
    whatever namespace the object is, as long as no other request has its
    UID. *)
Theorem EnqueueRequestByUID_own E s req m :
  undisturbed E → requests (cluster s) !! object_key (Req_Meta req) = Some req →
  (∀ k r, requests (cluster s) !! k = Some r → UID (Req_Meta r) = UID (Req_Meta req) →
    k = object_key (Req_Meta req)) →
  m = Snap_Meta (newSnapshot req) ∨ (∃ spec, m = Tpl_Meta (newTemplate req spec)) →
  (EnqueueRequestByUID E m s).1 = Ok [object_key (Req_Meta req)] ∧
  writes (EnqueueRequestByUID E m s).2 = writes s.
Proof.
  intros HE Hreq Hu Hm. assert (Labels m !! LabelRequestUID = Some (UID (Req_Meta req))) as Hl.
  { destruct Hm as [->|[spec ->]]; apply lookup_insert_eq. }
  unfold EnqueueRequestByUID. rewrite Hl. unfold list_requests_by_uid, try, mbind, ctl_bind, mret, ctl_ret.
  rewrite (call_undisturbed E) by done. simpl.
  by rewrite (filter_values_unique _ (requests (cluster s)) (object_key (Req_Meta req)) req).
Qed.

(** ** Availability *)

Section availability.
Context (E : env).
Import Availability.

(** The conditions of a request that waits for missing groups. *)
Definition waiting_status (message : string) (cs : list Condition) : Prop :=
  status_of cs ConditionReady = Some ConditionFalse ∧ reason_of cs ConditionReady = Some ReasonWaiting ∧
  message_of cs ConditionReady = Some message ∧
  status_of cs ConditionProgressing = Some ConditionTrue ∧ reason_of cs ConditionProgressing = Some ReasonWaiting.

(** The conditions [set_missing] computes. *)
Definition waiting_conditions (t : Z) (message : string) (req : VirtualMachineTemplateRequest) : list Condition :=
  let g := Generation (Req_Meta req) in
  SetStatusCondition t
    (SetStatusCondition t (conditions req) (mkCondition ConditionReady ConditionFalse g 0 ReasonWaiting message))
    (mkCondition ConditionProgressing ConditionTrue g 0 ReasonWaiting EmptyString).

Lemma waiting_conditions_status t message req : waiting_status message (waiting_conditions t message req).
Proof.
  unfold waiting_status, waiting_conditions, status_of, reason_of, message_of.
  rewrite !(Find_Set_other t (SetStatusCondition _ _ _) _ ConditionReady) by done.
  edestruct (Find_Set_same t (conditions req)
    (mkCondition ConditionReady ConditionFalse (Generation (Req_Meta req)) 0 ReasonWaiting message))
    as (c & Hc & Hs & Hr & Hm). cbn [C_Type] in Hc. rewrite Hc. simpl. rewrite Hs, Hr, Hm.
  edestruct (Find_Set_same t (SetStatusCondition t (conditions req)
      (mkCondition ConditionReady ConditionFalse (Generation (Req_Meta req)) 0 ReasonWaiting message))
    (mkCondition ConditionProgressing ConditionTrue (Generation (Req_Meta req)) 0 ReasonWaiting EmptyString))
    as (c' & Hc' & Hs' & Hr' & _). cbn [C_Type] in Hc'. rewrite Hc'. simpl. by rewrite Hs', Hr'.
Qed.

Lemma waiting_should_reconcile message req :
  waiting_status message (conditions req) → shouldReconcile req = true.
Proof.
  intros (_ & _ & _ & H & _). unfold shouldReconcile. unfold status_of in H.
  destruct (FindStatusCondition _ _) as [c|]; [|done]. simpl in H. injection H as ->. done.
Qed.

(** One request: the state before the patch, in one equation. *)
Lemma set_missing_eq message req s :
  pending req = true →
  set_missing E message req s =
  let req' := set_conditions (waiting_conditions (clock E (calls s)) message req) req in
  (Ok tt, (merge_request_status E (Req_Status req) req' (mkState req' (cluster s) (calls s) (writes s))).2).
Proof.
  intros Hp. unfold set_missing. rewrite Hp. cbn [negb].
  unfold setReadyCondition, setProgressingCondition, set_condition, put_req, get_req, now, mbind, ctl_bind, try,
    mret, ctl_ret. cbn [tplReq calls cluster writes].
  change (conditions (set_conditions ?cs ?r)) with cs.
  set (req' := set_conditions (SetStatusCondition _ (SetStatusCondition _ _ _) _) _).
  change (set_conditions (waiting_conditions (clock E (calls s)) message req) req) with req'. cbv zeta.
  unfold merge_request_status, call. destruct (fault E _) as [[e []]|]; [done..|].
  cbn [calls cluster]. by destruct (requests _ !! _).
Qed.

(** A status patch that reports missing groups. *)
Definition waiting_write (message : string) (w : write) : Prop :=
  ∃ k st, w = PatchRequestStatus k st ∧ waiting_status message (Conditions st).

Lemma merge_request_status_writes before after s :
  writes (merge_request_status E before after s).2 =
  PatchRequestStatus (object_key (Req_Meta after)) (Req_Status after) :: writes s.
Proof.
  unfold merge_request_status, call. destruct (fault E _) as [[e []]|]; [done..|]. by destruct (requests _ !! _).
Qed.

Lemma set_missing_loop_writes message items s :
  ∃ ws s', set_missing_loop E message items s = (Ok tt, s') ∧ writes s' = ws ++ writes s ∧
    Forall (waiting_write message) ws ∧ length ws = length (filter (λ r, pending r = true) items).
Proof.
  revert s. induction items as [|req items IH]; intros s; [by exists [], s|]. rewrite filter_cons. cbn [set_missing_loop].
  unfold mbind, ctl_bind. destruct (decide (pending req = true)) as [Hp|Hp].
  - rewrite (set_missing_eq _ _ _ Hp). cbv zeta. set (s1 := (merge_request_status _ _ _ _).2).
    destruct (IH s1) as (ws & s' & Hr & Hw & Hf & Hn).
    exists (ws ++ [PatchRequestStatus (object_key (Req_Meta req))
      (mkRequestStatus (waiting_conditions (clock E (calls s)) message req) (TemplateRef (Req_Status req)))]), s'.
    split; [done|]. split; [|split].
    + rewrite Hw. unfold s1. rewrite merge_request_status_writes. by rewrite <- app_assoc.
    + apply Forall_app. split; [done|]. apply Forall_singleton. eexists _, _. split; [done|].
      apply waiting_conditions_status.
    + rewrite length_app. simpl. lia.
  - destruct (IH s) as (ws & s' & Hr & Hw). exists ws, s'. split; [|done].
    unfold set_missing. by destruct (pending req).
Qed.

(** In an undisturbed cluster the patch of a stored request replaces its
    conditions. *)
Lemma set_missing_undisturbed message req s :
  undisturbed E → pending req = true → requests (cluster s) !! object_key (Req_Meta req) = Some req →
  requests (cluster (set_missing E message req s).2) =
  <[object_key (Req_Meta req) := set_conditions (waiting_conditions (clock E (calls s)) message req) req]>
    (requests (cluster s)).
Proof.
  intros HE Hp Hreq. rewrite (set_missing_eq _ _ _ Hp). cbv zeta. unfold merge_request_status.
  rewrite (call_undisturbed E) by done. cbn [fst snd cluster calls tplReq Req_Meta set_conditions set_status].
  rewrite Hreq. cbn. f_equal. unfold set_conditions, set_status. f_equal. f_equal.
  - case_decide as Hd; [|done]. by rewrite <- Hd.
  - by case_decide.
Qed.

Lemma set_missing_loop_undisturbed message items s :
  undisturbed E → NoDup ((λ r, object_key (Req_Meta r)) <$> items) →
  (∀ r, r ∈ items → requests (cluster s) !! object_key (Req_Meta r) = Some r) →
  let m := requests (cluster s) in
  let m' := requests (cluster (set_missing_loop E message items s).2) in
  (∀ k, k ∉ (λ r, object_key (Req_Meta r)) <$> items → m' !! k = m !! k) ∧
  ∀ r, r ∈ items →
    if pending r then
      ∃ t, m' !! object_key (Req_Meta r) = Some (set_conditions (waiting_conditions t message r) r)
    else m' !! object_key (Req_Meta r) = Some r.
Proof.
  intros HE. revert s. induction items as [|req items IH]; intros s Hnd Hin.
  { split; [done|]. by intros r Hr%elem_of_nil. }
  csimpl in Hnd. apply NoDup_cons in Hnd as [Hnew Hnd]. cbv zeta.
  cbn [set_missing_loop]. unfold mbind, ctl_bind.
  assert (∃ s1, set_missing E message req s = (Ok tt, s1) ∧
    requests (cluster s1) = (if pending req
      then <[object_key (Req_Meta req) := set_conditions (waiting_conditions (clock E (calls s)) message req) req]>
      else id) (requests (cluster s))) as (s1 & Hs & Hm).
  { destruct (pending req) eqn:Hp.
    - eexists. split; [apply (set_missing_eq _ _ _ Hp)|].
      rewrite <- (set_missing_undisturbed message req s HE Hp (Hin req ltac:(left))).
      by rewrite (set_missing_eq _ _ _ Hp).
    - exists s. unfold set_missing. by rewrite Hp. }
  rewrite Hs. assert (∀ k, k ≠ object_key (Req_Meta req) → requests (cluster s1) !! k = requests (cluster s) !! k) as Hne.
  { intros k Hk. rewrite Hm. destruct (pending req); [|done]. by apply lookup_insert_ne. }
  destruct (IH s1 Hnd) as [IH1 IH2].
  { intros r Hr. rewrite Hne; [apply Hin; by right|]. intros Heq. apply Hnew. rewrite <- Heq.
    apply list_elem_of_fmap. by exists r. }
  split.
  - intros k Hk. csimpl in Hk. apply not_elem_of_cons in Hk as [Hk1 Hk2]. rewrite IH1 by done. by apply Hne.
  - intros r [->|Hr]%elem_of_cons; [|by apply IH2]. rewrite IH1, Hm by done. destruct (pending req).
    + exists (clock E (calls s)). apply lookup_insert_eq.
    + apply Hin. left.
Qed.
End availability.

Lemma setMissing_writes E missing s :
  ∃ s' ws, Availability.setMissingCRDStatus E missing s = (Ok tt, s') ∧ writes s' = ws ++ writes s ∧
    Forall (waiting_write (Availability.missing_message missing)) ws.
Proof.
  unfold Availability.setMissingCRDStatus, list_requests, try, mbind, ctl_bind, call.
  destruct (fault E _) as [[e []]|]; [by eexists _, []..|].
  edestruct set_missing_loop_writes as (ws & s' & Hr & Hw & Hf & _). by exists s', ws.
Qed.

(** Reporting missing groups is best effort: it never
    fails, and whatever else happens in the cluster its only writes are status
    patches with Ready False and Progressing True, both waiting, and a message
    that names the missing groups. *)
Theorem setMissingCRDStatus_writes E missing s :
  ∃ s' ws, Availability.setMissingCRDStatus E missing s = (Ok tt, s') ∧ writes s' = ws ++ writes s ∧
    Forall (waiting_write (Availability.missing_message missing)) ws.
Proof. apply setMissing_writes. Qed.

(** Effect of reporting missing groups in an undisturbed
    cluster: every request that is not being deleted and not finished gets the
    waiting conditions, keeps its metadata and spec and stays eligible for
    reconciliation; all other requests stay as they are. *)
Theorem setMissingCRDStatus_pending E missing s :
  undisturbed E → well_keyed (cluster s) →
  let m' := requests (cluster (Availability.setMissingCRDStatus E missing s).2) in
  ∀ k, match requests (cluster s) !! k with
       | None => m' !! k = None
       | Some r =>
           if Availability.pending r then
             ∃ r', m' !! k = Some r' ∧ Req_Meta r' = Req_Meta r ∧ Req_Spec r' = Req_Spec r ∧
               waiting_status (Availability.missing_message missing) (conditions r') ∧
               Availability.pending r' = true
           else m' !! k = Some r
       end.
Proof.
  intros HE [Hk _]. unfold Availability.setMissingCRDStatus, list_requests, try, mbind, ctl_bind.
  rewrite (call_undisturbed E) by done. cbn [fst snd]. set (items := (map_to_list (requests (cluster s))).*2).
  set (s1 := mkState _ _ _ _). assert (∀ r, r ∈ items ↔ requests (cluster s) !! object_key (Req_Meta r) = Some r) as Hitems.
  { intros r. unfold items. rewrite list_elem_of_fmap. split.
    - intros ([k r'] & -> & Hr%elem_of_map_to_list). simpl. by rewrite (Hk _ _ Hr).
    - intros Hr. exists (object_key (Req_Meta r), r). split; [done|]. by apply elem_of_map_to_list. }
  assert (NoDup ((λ r, object_key (Req_Meta r)) <$> items)) as Hnd.
  { unfold items. rewrite <- list_fmap_compose.
    rewrite (list_fmap_ext _ fst (map_to_list (requests (cluster s)))); [apply NoDup_fst_map_to_list|].
    intros i [k r] Hi%list_elem_of_lookup_2%elem_of_map_to_list. simpl. by apply Hk. }
  destruct (set_missing_loop_undisturbed E (Availability.missing_message missing) items s1 HE Hnd) as [H1 H2].
  { intros r Hr. by apply Hitems. }
  intros k. destruct (requests (cluster s) !! k) as [r|] eqn:Hr.
  - assert (r ∈ items) as Hin by (apply Hitems; by rewrite (Hk k r Hr)).
    specialize (H2 r Hin). rewrite (Hk k r Hr) in H2. destruct (Availability.pending r) eqn:Hp; [|done].
    destruct H2 as [t Ht]. eexists. split; [exact Ht|]. split; [done|]. split; [done|].
    pose proof (waiting_conditions_status t (Availability.missing_message missing) r) as Hw. split; [done|].
    unfold Availability.pending in *. apply andb_true_iff in Hp as [Hd _].
    cbn [Req_Meta set_conditions set_status]. rewrite Hd. by apply (waiting_should_reconcile (Availability.missing_message missing)).
  - rewrite H1; [done|]. intros (r & -> & Hr')%list_elem_of_fmap. apply Hitems in Hr'. simpl in *. congruence.
Qed.

(** *** Starting the request controller *)

Section start.
Context (E : env) (discovery : nat → string → option rerror) (done_ : nat → bool).
Import Availability.

Lemma wait_loop_Started setup fuel n s :
  (wait_loop E discovery done_ setup fuel n s).1 = Ok Started ↔
  setup = None ∧ ∃ m, n ≤ m < n + fuel ∧ missingGroups (discovery m) = [] ∧
    ∀ i, n ≤ i < m → missingGroups (discovery i) ≠ [] ∧ done_ i = false.
Proof.
  revert n s. induction fuel as [|fuel IH]; intros n s; cbn [wait_loop].
  { split; [done|]. intros (_ & m & Hm & _). lia. }
  destruct (missingGroups (discovery n)) as [|g gs] eqn:Hg.
  - split.
    + intros H. split; [|exists n; split; [lia|split; [done|lia]]].
      by destruct setup.
    + by intros [-> _].
  - destruct (setMissing_writes E (g :: gs) s) as (s1 & ws & Hs & _).
    unfold mbind, ctl_bind. rewrite Hs. destruct (done_ n) eqn:Hd.
    + split; [done|]. intros (_ & m & Hm & Hmm & Hall). destruct (decide (m = n)) as [->|]; [congruence|].
      destruct (Hall n ltac:(lia)). congruence.
    + rewrite IH. split; intros (-> & m & Hm & Hmm & Hall); (split; [done|]).
      * exists m. split; [lia|]. split; [done|]. intros i Hi. destruct (decide (i = n)) as [->|]; [by rewrite Hg|].
        apply Hall. lia.
      * assert (m ≠ n) by congruence. exists m. split; [lia|]. split; [done|]. intros i Hi. apply Hall. lia.
Qed.
End start.

Lemma missingGroups_nil d :
  Availability.missingGroups d = [] ↔ ∀ g, g ∈ Availability.requiredGroups → d g = None.
Proof.
  unfold Availability.missingGroups, Availability.isAPIGroupAvailable. split.
  - intros Hf g Hg. destruct (d g) as [e|] eqn:Hd; [|done]. exfalso.
    apply (filter_nil_not_elem_of _ _ _ Hf) in Hg; [done|]. rewrite Hd. by apply bool_decide_false.
  - intros Hall. destruct (filter _ _) as [|g gs] eqn:Hf; [done|]. exfalso.
    assert (g ∈ g :: gs) as Hg by left. rewrite <- Hf in Hg. apply list_elem_of_filter in Hg as [Hn Hg].
    apply Hall in Hg. by rewrite Hg in Hn.
Qed.

Lemma missingGroups_ne d :
  Availability.missingGroups d ≠ [] ↔ ∃ g, g ∈ Availability.requiredGroups ∧ d g ≠ None.
Proof.
  rewrite missingGroups_nil. split.
  - intros Hn. destruct (Exists_dec (λ g, d g ≠ None) Availability.requiredGroups) as [He|He].
    + by apply list.Exists_exists in He.
    + exfalso. apply Hn. intros g Hg. apply dec_stable. intros Hd. apply He, list.Exists_exists. by exists g.
  - intros (g & Hg & Hd) Hall. by apply Hd, Hall.
Qed.

(** C36: The request controller is started exactly when every
    required group was available in some round, was not in any round before,
    and the context was not done in between; a group that appears is therefore
    noticed in the next round, and the controller never runs without the
    groups it needs. *)
Theorem Availability_Start E discovery done_ informer fuel s :
  (Availability.Start E discovery done_ informer None fuel s).1 = Ok Availability.Started ↔
  ∃ n, n ≤ fuel ∧ (∀ g, g ∈ Availability.requiredGroups → discovery n g = None) ∧
    (n ≠ 0 → informer = None) ∧
    ∀ i, i < n → (∃ g, g ∈ Availability.requiredGroups ∧ discovery i g ≠ None) ∧ (i ≠ 0 → done_ i = false).
Proof.
  pose proof missingGroups_nil as Hmiss. pose proof missingGroups_ne as Hmiss'.
  unfold Availability.Start. destruct (Availability.missingGroups (discovery 0)) as [|g0 gs] eqn:H0.
  { split; [|done]. intros _. exists 0. split; [lia|]. split; [by apply Hmiss|]. split; [done|lia]. }
  assert (Availability.missingGroups (discovery 0) ≠ []) as Hne by (rewrite H0; done).
  destruct informer as [e|].
  { split; [done|]. intros (n & _ & Hn & Hi & _). destruct n; [by apply Hmiss in Hn|]. by specialize (Hi ltac:(done)). }
  rewrite wait_loop_Started. split.
  - intros (_ & n & Hn & Hm & Hall). exists n. split; [lia|]. split; [by apply Hmiss|]. split; [done|].
    intros i Hi. destruct (decide (i = 0)) as [->|]; [split; [by apply Hmiss'|done]|].
    destruct (Hall i ltac:(lia)) as [H1 H2]. split; [by apply Hmiss'|done].
  - intros (n & Hn & Hm & _ & Hall). assert (n ≠ 0) by (intros ->; by apply Hne, Hmiss). split; [done|]. exists n.
    split; [lia|]. split; [by apply Hmiss|]. intros i Hi. destruct (Hall i ltac:(lia)) as [H1 H2].
    split; [by apply Hmiss'|]. apply H2. lia.
Qed.

(** The cache configuration never hides what the request controller created:
    data volumes and snapshots carry the label the selectors ask for. *)
Lemma ExternalCRDCacheConfig_sees_own discovery req ns name snapNs snap :
  Forall (λ '(k, sel), Availability.selects sel
      (match k with
       | Availability.KSnapshot => Snap_Meta (newSnapshot req)
       | _ => DV_Meta (newDv ns name (UID (Req_Meta req)) snapNs snap)
       end) = true) (Availability.ExternalCRDCacheConfig discovery).1.
Proof.
  unfold Availability.ExternalCRDCacheConfig.
  destruct (Availability.isAPIGroupAvailable _ _), (Availability.isAPIGroupAvailable _ _); cbn [fst];
    repeat constructor.
Qed.

(** ** Concrete instances *)

Lemma quiet_undisturbed t : undisturbed (quiet t).
Proof. done. Qed.

Lemma TemplateReconcile_converges_witness :
  let s := mkState sample_request w3 0 [] in
  let s1 := (TemplateController.Reconcile (quiet 5) tpl_key s).2 in
  TemplateController.Reconcile (quiet 5) tpl_key s1 =
    (Ok tt, mkState (tplReq s1) (cluster s1) (S (S (calls s1))) (writes s1)).
Proof.
  intros s s1. destruct (templates w3 !! tpl_key) as [tpl|] eqn:Htpl; [|vm_compute in Htpl; discriminate].
  assert (well_keyed w3) as Hw.
  { split.
    - assert (map_Forall (λ k r, object_key (Req_Meta r) = k) (requests w3)) as H by (apply (bool_decide_unpack _); vm_compute; exact I).
      exact H.
    - assert (map_Forall (λ k r, object_key (Tpl_Meta r) = k) (templates w3)) as H by (apply (bool_decide_unpack _); vm_compute; exact I).
      exact H. }
  destruct (TemplateReconcile_converges (quiet 5) tpl_key s tpl (quiet_undisturbed 5) Hw Htpl)
    as (tpl' & c & _ & _ & _ & _ & _ & _ & H).
  exact H.
Defined.

Lemma EnqueueRequestByUID_own_witness :
  (EnqueueRequestByUID (quiet 1) (Snap_Meta (newSnapshot sample_request)) (mkState sample_request w0 0 [])).1 =
  Ok [request_key].
Proof.
  apply (EnqueueRequestByUID_own (quiet 1) (mkState sample_request w0 0 []) sample_request).
  - apply quiet_undisturbed.
  - reflexivity.
  - intros k r Hr _. unfold w0 in Hr. cbn [cluster requests] in Hr. apply lookup_singleton_Some in Hr as [<- _]. reflexivity.
  - left. reflexivity.
Defined.

Lemma setMissingCRDStatus_pending_witness :
  let m' := requests (cluster (Availability.setMissingCRDStatus (quiet 1) ["cdi.kubevirt.io/v1beta1"]
    (mkState sample_request w0 0 [])).2) in
  ∃ r', m' !! request_key = Some r' ∧ Availability.pending r' = true ∧
    message_of (conditions r') ConditionReady =
      Some "Required CRDs are not yet available: cdi.kubevirt.io/v1beta1".
Proof.
  assert (well_keyed w0) as Hw.
  { split; [|by intros k t Ht].
    intros k r Hr. unfold w0 in Hr. cbn [requests] in Hr. apply lookup_singleton_Some in Hr as [<- <-]. reflexivity. }
  pose proof (setMissingCRDStatus_pending (quiet 1) ["cdi.kubevirt.io/v1beta1"] (mkState sample_request w0 0 [])
    (quiet_undisturbed 1) Hw request_key) as H.
  cbn [cluster] in H. change (requests w0 !! request_key) with (Some sample_request) in H.
  destruct H as (r' & Hr & _ & _ & (_ & _ & Hm & _) & Hp). exists r'. split; [exact Hr|]. split; [exact Hp|exact Hm].
Defined.
