(* ===== verification/GoHeap.v ===== *)
(** * Go memory: pointers, slices and maps

    Values as Go shares them: a heap of arrays and maps, references into it,
    and what it means for a value to be a copy that shares no memory with its
    original. The generated deep copies (DeepCopy.v) are programs over this
    heap. *)

From Stdlib Require Import ZArith Lia.
From stdpp Require Import prelude strings gmap fin_maps fin_map_dom.
From S2P Require Import Prelude.

(** A pointer to a [T]: nil, or an element of an array (what [new(T)]
    returns is the only element of its array). *)
Inductive ptr (T : Type) : Type :=
| nil_ptr
| Ptr (l : positive) (i : nat).
Arguments nil_ptr {T}.
Arguments Ptr {T} l i.

(** A slice: nil, or [len] elements of an array from [off] on. *)
Inductive slice (T : Type) : Type :=
| nil_slice
| Slice (l : positive) (off len : nat).
Arguments nil_slice {T}.
Arguments Slice {T} l off len.

(** A [map[string]T]: nil, or a reference to a table. *)
Inductive gomap (T : Type) : Type :=
| nil_map
| GoMap (l : positive).
Arguments nil_map {T}.
Arguments GoMap {T} l.

Section Heap.
Context {cell : Type}.
Local Abbreviation heap := (gmap positive cell).

(** ** Programs over the heap

    [None] is a program that cannot continue: a nil dereference, an index
    out of range, an access at the wrong type. *)
Definition M (A : Type) : Type := heap → option (A * heap).

#[export] Instance M_ret : MRet M := λ A x h, Some (x, h).
#[export] Instance M_bind : MBind M := λ A B f m h,
  match m h with Some (x, h') => f x h' | None => None end.

(** How arrays of a type are stored, and the zero value [new] and [make]
    fill them with. *)
Class Stored (T : Type) := {
  to_cell : list T → cell;
  of_cell : cell → option (list T);
  zero : T;
  of_to_cell : ∀ xs, of_cell (to_cell xs) = Some xs;
}.

(** The array at [l], and its element [i]. *)
Definition array_at `{Stored T} (h : heap) (l : positive) : option (list T) :=
  h !! l ≫= of_cell.

Definition elem_at `{Stored T} (h : heap) (l : positive) (i : nat) : option T :=
  array_at h l ≫= (.!! i).

(** The elements a slice shows. *)
Definition window `{Stored T} (h : heap) (l : positive) (off len : nat) : option (list T) :=
  xs ← array_at h l;
  if decide (off + len ≤ length xs) then Some (take len (drop off xs)) else None.

Definition load `{Stored T} (l : positive) (i : nat) : M T := λ h,
  x ← elem_at h l i; Some (x, h).

Definition store `{Stored T} (l : positive) (i : nat) (x : T) : M () := λ h,
  xs ← array_at (T:=T) h l;
  if decide (i < length xs) then Some ((), <[l := to_cell (<[i := x]> xs)]> h) else None.

Definition alloc `{Stored T} (xs : list T) : M positive := λ h,
  let l := fresh (dom h) in Some (l, <[l := to_cell xs]> h).

(** [make([]T, n)]; [new(T)] is the case [n = 1]. *)
Definition make `{Stored T} (n : nat) : M positive := alloc (replicate n (zero (T:=T))).

(** [make(map[string]T)]: an empty table. *)
Definition make_map `{Stored (gmap string T)} : M positive := alloc [∅ : gmap string T].

(** ** Copying code *)

(** [out := new(T); in.DeepCopyInto(out)], the body of every generated
    [DeepCopy], which also is the code generated for a pointer field; with
    [mret] it is [**out = **in]. *)
Definition copy_ptr `{Stored T} (into : T → M T) (p : ptr T) : M (ptr T) :=
  match p with
  | nil_ptr => mret nil_ptr
  | Ptr l i =>
      out ← make (T:=T) 1;
      v ← load l i;
      v' ← into v;
      _ ← store out 0 v';
      mret (Ptr out 0)
  end.

(** [for i := range *in], with the copy of the element [i] of [*in] into the
    element [i] of [*out], from index
    [i] on with [n] elements to go. *)
Fixpoint copy_elems `{Stored T} (into : T → M T) (l : positive) (off : nat) (out : positive)
    (i n : nat) : M () :=
  match n with
  | 0 => mret ()
  | S n =>
      v ← load l (off + i);
      v' ← into v;
      _ ← store out i v';
      copy_elems into l off out (S i) n
  end.

(** [*out = make([]T, len( *in))] and the loop over the elements; with
    [mret] it is [copy( *out, *in)]. *)
Definition copy_slice `{Stored T} (into : T → M T) (s : slice T) : M (slice T) :=
  match s with
  | nil_slice => mret nil_slice
  | Slice l off len =>
      out ← make (T:=T) len;
      _ ← copy_elems into l off out 0 len;
      mret (Slice out 0 len)
  end.

(** [for key, val := range *in], with the assignment of [val] to [key] in
    [*out]. *)
Fixpoint copy_entries `{Stored (gmap string T)} (out : positive) (kvs : list (string * T)) : M () :=
  match kvs with
  | [] => mret ()
  | (k, v) :: kvs =>
      m ← load (T:=gmap string T) out 0;
      _ ← store out 0 (<[k := v]> m);
      copy_entries out kvs
  end.

(** [*out = make(map[string]T, len( *in))] and the loop over the entries. *)
Definition copy_map `{Stored (gmap string T)} (m : gomap T) : M (gomap T) :=
  match m with
  | nil_map => mret nil_map
  | GoMap l =>
      out ← make_map (T:=T);
      m ← load (T:=gmap string T) l 0;
      _ ← copy_entries out (map_to_list m);
      mret (GoMap out)
  end.

(** An interface value: nil when the pointer is nil. *)
Definition as_interface {T} (p : ptr T) : option (ptr T) :=
  match p with nil_ptr => None | _ => Some p end.

(** ** What a value holds, and the memory it holds it in *)
Class Rep (C A : Type) := {
  read : heap → C → option A;
  reach : heap → C → gset positive;
}.

(** Two heaps agree on a set of locations. *)
Definition agree (s : gset positive) (h h' : heap) : Prop := ∀ l, l ∈ s → h' !! l = h !! l.

(** Reading depends on the reachable memory only, which is allocated. *)
Class RepLaws C A `{Rep C A} : Prop := {
  rep_frame h h' c a :
    read h c = Some a → agree (reach h c) h h' → read h' c = Some a ∧ reach h' c = reach h c;
  rep_dom h c a : read h c = Some a → reach h c ⊆ dom h;
}.

(** [copy] returns a value with the same content, in memory that was not
    allocated before, and changes nothing that was. *)
Class Copier {C A} `{Rep C A} (copy : C → M C) : Prop :=
  copies h c a : read h c = Some a →
    ∃ c' h', copy c h = Some (c', h') ∧ h ⊆ h' ∧ read h' c' = Some a ∧ reach h' c' ## dom h.

(** ** Instances: plain data, pairs, pointers, slices, maps, interfaces *)

(** Data without references. *)
Definition flat_rep (T : Type) : Rep T T := {| read _ x := Some x; reach _ _ := ∅ |}.

#[export] Instance pair_rep `{Rep C A, Rep D B} : Rep (C * D) (A * B) := {|
  read h p := a ← read h p.1; b ← read h p.2; Some (a, b);
  reach h p := reach h p.1 ∪ reach h p.2;
|}.

#[export] Instance ptr_rep `{Stored T, Rep T A} : Rep (ptr T) (option A) := {|
  read h p := match p with
    | nil_ptr => Some None
    | Ptr l i => x ← elem_at h l i; Some <$> read h x
    end;
  reach h p := match p with
    | nil_ptr => ∅
    | Ptr l i => {[l]} ∪ match elem_at h l i with Some x => reach h x | None => ∅ end
    end;
|}.

#[export] Instance slice_rep `{Stored T, Rep T A} : Rep (slice T) (option (list A)) := {|
  read h s := match s with
    | nil_slice => Some None
    | Slice l off len => xs ← window h l off len; Some <$> mapM (read h) xs
    end;
  reach h s := match s with
    | nil_slice => ∅
    | Slice l off len => {[l]} ∪ match window h l off len with Some xs => ⋃ (reach h <$> xs) | None => ∅ end
    end;
|}.

#[export] Instance gomap_rep `{Stored (gmap string T)} : Rep (gomap T) (option (gmap string T)) := {|
  read h m := match m with
    | nil_map => Some None
    | GoMap l => Some <$> elem_at h l 0
    end;
  reach h m := match m with nil_map => ∅ | GoMap l => {[l]} end;
|}.

#[export] Instance option_rep `{Rep C A} : Rep (option C) (option A) := {|
  read h o := match o with None => Some None | Some c => Some <$> read h c end;
  reach h o := match o with None => ∅ | Some c => reach h c end;
|}.

(** A struct is its tuple of fields. *)
Definition struct_rep {S T A} (fields : S → T) `{Rep T A} : Rep S A :=
  {| read h s := read h (fields s); reach h s := reach h (fields s) |}.

(** ** Lemmas *)

Lemma agree_subset s h h' : s ⊆ dom h → h ⊆ h' → agree s h h'.
Proof.
  intros Hs Hsub l Hl. apply Hs in Hl. apply elem_of_dom in Hl as [x Hx].
  rewrite Hx. by eapply lookup_weaken.
Qed.

Lemma agree_union s t h h' : agree (s ∪ t) h h' ↔ agree s h h' ∧ agree t h h'.
Proof. unfold agree. set_solver. Qed.

Lemma agree_trans s h1 h2 h3 : agree s h1 h2 → agree s h2 h3 → agree s h1 h3.
Proof. intros Ha Hb l Hl. by rewrite Hb, Ha. Qed.

Lemma elem_at_agree `{Stored T} (s : gset positive) h h' l i :
  l ∈ s → agree s h h' → elem_at (T:=T) h' l i = elem_at h l i.
Proof. intros Hl Ha. unfold elem_at, array_at. by rewrite Ha. Qed.

Lemma window_agree `{Stored T} (s : gset positive) h h' l off len :
  l ∈ s → agree s h h' → window (T:=T) h' l off len = window h l off len.
Proof. intros Hl Ha. unfold window, array_at. by rewrite Ha. Qed.

Lemma array_at_dom `{Stored T} h l (xs : list T) : array_at h l = Some xs → l ∈ dom h.
Proof. unfold array_at. intros (c & Hc & _)%bind_Some. by apply elem_of_dom. Qed.

Lemma elem_at_dom `{Stored T} h l i (x : T) : elem_at h l i = Some x → l ∈ dom h.
Proof. unfold elem_at. intros (xs & Hxs & _)%bind_Some. by eapply array_at_dom. Qed.

Lemma window_Some `{Stored T} h l off len (xs : list T) :
  window h l off len = Some xs ↔
  ∃ ys, array_at h l = Some ys ∧ off + len ≤ length ys ∧ xs = take len (drop off ys).
Proof.
  unfold window. rewrite bind_Some. split.
  - intros (ys & Hys & Hw). case_decide; simplify_eq. by eexists.
  - intros (ys & Hys & Hle & ->). exists ys. by rewrite decide_True.
Qed.

(** *** The laws of each instance *)
Lemma flat_laws T : @RepLaws T T (flat_rep T).
Proof. split; cbn; intros; simplify_eq; set_solver. Qed.

#[export] Instance pair_laws `{RepLaws C A, RepLaws D B} : RepLaws (C * D) (A * B).
Proof.
  split; cbn.
  - intros h h' [x y] p (a & Ha & (b & Hb & [= <-])%bind_Some)%bind_Some [Hx Hy]%agree_union.
    cbn in *. destruct (rep_frame h h' x a) as [-> ->]; [done..|].
    by destruct (rep_frame h h' y b) as [-> ->].
  - intros h [x y] p (a & Ha & (b & Hb & _)%bind_Some)%bind_Some. cbn in *.
    apply rep_dom in Ha, Hb. set_solver.
Qed.

#[export] Instance ptr_laws `{Stored T, RepLaws T A} : RepLaws (ptr T) (option A).
Proof.
  split; cbn.
  - intros h h' [|l i] o; [naive_solver|].
    intros (x & Hx & (a & Ha & ->)%fmap_Some)%bind_Some. rewrite Hx.
    intros [Hl Hr]%agree_union.
    rewrite (elem_at_agree {[l]} h h'), Hx by (set_solver || done). cbn.
    by destruct (rep_frame h h' x a) as [-> ->].
  - intros h [|l i] o; [set_solver|].
    intros (x & Hx & (a & Ha & ->)%fmap_Some)%bind_Some. rewrite Hx.
    apply rep_dom in Ha. apply elem_at_dom in Hx. set_solver.
Qed.

Lemma mapM_frame `{RepLaws T A} h h' (xs : list T) ys :
  mapM (read h) xs = Some ys → agree (⋃ (reach h <$> xs)) h h' →
  mapM (read h') xs = Some ys ∧ reach h' <$> xs = reach h <$> xs.
Proof.
  rewrite !mapM_Some. intros Hf. induction Hf as [|x y xs ys Hx _ IH]; [done|].
  cbn. intros [Ha Hb]%agree_union. destruct (IH Hb) as [? ->].
  destruct (rep_frame h h' x y) as [? ->]; [done..|]. split; [by constructor|done].
Qed.

Lemma mapM_dom `{RepLaws T A} h (xs : list T) ys :
  mapM (read h) xs = Some ys → ⋃ (reach h <$> xs) ⊆ dom h.
Proof.
  rewrite mapM_Some. intros Hf. induction Hf as [|x y xs ys Hx _ IH]; cbn; [set_solver|].
  apply rep_dom in Hx. set_solver.
Qed.

#[export] Instance slice_laws `{Stored T, RepLaws T A} : RepLaws (slice T) (option (list A)).
Proof.
  split; cbn.
  - intros h h' [|l o n] a; [naive_solver|].
    intros (xs & Hx & (ys & Ha & ->)%fmap_Some)%bind_Some. rewrite Hx.
    intros [Hl Hr]%agree_union.
    rewrite (window_agree {[l]} h h'), Hx by (set_solver || done). cbn.
    by destruct (mapM_frame h h' xs ys) as [-> ->].
  - intros h [|l o n] a; [set_solver|].
    intros (xs & Hx & (ys & Ha & ->)%fmap_Some)%bind_Some. rewrite Hx.
    apply mapM_dom in Ha. apply window_Some in Hx as (? & Hx & _). apply array_at_dom in Hx.
    set_solver.
Qed.

#[export] Instance gomap_laws `{Stored (gmap string T)} : RepLaws (gomap T) (option (gmap string T)).
Proof.
  split; cbn.
  - intros h h' [|l] a; [naive_solver|]. intros Hr Ha.
    by rewrite (elem_at_agree {[l]} h h') by (set_solver || done).
  - intros h [|l] a; [set_solver|]. intros (m & Hm & _)%fmap_Some.
    apply elem_at_dom in Hm. set_solver.
Qed.

#[export] Instance option_laws `{RepLaws C A} : RepLaws (option C) (option A).
Proof.
  split; cbn.
  - intros h h' [c|] o; [|naive_solver]. intros (a & Ha & ->)%fmap_Some Hagree.
    by destruct (rep_frame h h' c a) as [-> ->].
  - intros h [c|] o; [|set_solver]. intros (a & Ha & _)%fmap_Some. by eapply rep_dom.
Qed.

Lemma struct_laws {S T A} (fields : S → T) `{RepLaws T A} : @RepLaws S A (struct_rep fields).
Proof. split; cbn; intros; [by eapply rep_frame | by eapply rep_dom]. Qed.

(** *** Allocation and stores *)
Lemma agree_insert s h l c : l ∉ s → agree s h (<[l := c]> h).
Proof. intros Hl k Hk. apply lookup_insert_ne. set_solver. Qed.

Lemma array_at_insert `{Stored T} h l (xs : list T) :
  array_at (<[l := to_cell xs]> h) l = Some xs.
Proof. unfold array_at. rewrite lookup_insert_eq. cbn. apply of_to_cell. Qed.

Lemma array_at_weaken `{Stored T} h h' l (xs : list T) :
  h ⊆ h' → array_at h l = Some xs → array_at h' l = Some xs.
Proof.
  unfold array_at. intros Hs (c & Hc & Hx)%bind_Some.
  by rewrite (lookup_weaken _ _ _ _ Hc Hs).
Qed.

Lemma elem_at_weaken `{Stored T} h h' l i (x : T) :
  h ⊆ h' → elem_at h l i = Some x → elem_at h' l i = Some x.
Proof.
  unfold elem_at. intros Hs (xs & Hx & Hi)%bind_Some.
  by rewrite (array_at_weaken _ _ _ _ Hs Hx).
Qed.

Lemma alloc_fresh `{Stored T} (xs : list T) h : ∃ l,
  (l ∉ dom h) ∧ alloc xs h = Some (l, <[l := to_cell xs]> h) ∧ h ⊆ (<[l := to_cell xs]> h).
Proof.
  exists (fresh (dom h)). pose proof (is_fresh (dom h)) as Hl.
  split_and!; [done|done|]. by apply insert_subseteq, not_elem_of_dom.
Qed.

Lemma load_eq `{Stored T} h l i (x : T) : elem_at h l i = Some x → load l i h = Some (x, h).
Proof. unfold load. by intros ->. Qed.

Lemma store_eq `{Stored T} h l i (x : T) xs : array_at h l = Some xs → i < length xs →
  store l i x h = Some ((), <[l := to_cell (<[i := x]> xs)]> h).
Proof. unfold store. intros -> Hi. cbn. by rewrite decide_True. Qed.

Lemma read_weaken `{RepLaws C A} h h' c a : h ⊆ h' → read h c = Some a →
  read h' c = Some a ∧ reach h' c = reach h c.
Proof. intros Hs Hr. eapply rep_frame; [done|]. eapply agree_subset; [by eapply rep_dom|done]. Qed.

Lemma mapM_weaken `{RepLaws T A} h h' (xs : list T) ys : h ⊆ h' → mapM (read h) xs = Some ys →
  mapM (read h') xs = Some ys ∧ reach h' <$> xs = reach h <$> xs.
Proof. intros Hs Hr. eapply mapM_frame; [done|]. eapply agree_subset; [by eapply mapM_dom|done]. Qed.

(** *** The copying code copies *)
Lemma flat_copier T : @Copier T T (flat_rep T) mret.
Proof. intros h c a Hc. exists c, h. set_solver. Qed.

Definition copy_pair {C D} (f : C → M C) (g : D → M D) (p : C * D) : M (C * D) :=
  x ← f p.1; y ← g p.2; mret (x, y).

Lemma pair_copier `{RepLaws C A, RepLaws D B} f g : Copier f → Copier g → Copier (copy_pair (C:=C) (D:=D) f g).
Proof.
  intros Hf Hg h [x y] p. cbn. intros (a & Ha & (b & Hb & [= <-])%bind_Some)%bind_Some. cbn in *.
  destruct (Hf h x a Ha) as (x' & h1 & Hx & Hs1 & Hrx & Hdx).
  destruct (read_weaken h h1 y b Hs1 Hb) as [Hb1 _].
  destruct (Hg h1 y b Hb1) as (y' & h2 & Hy & Hs2 & Hry & Hdy).
  destruct (read_weaken h1 h2 x' a Hs2 Hrx) as [Hrx2 Hdx2].
  exists (x', y'), h2. unfold copy_pair. cbn. unfold mbind, M_bind. rewrite Hx, Hy.
  split_and!; [done | by etrans | by rewrite Hrx2, Hry |]. cbn.
  rewrite Hdx2. pose proof (subseteq_dom _ _ Hs1). set_solver.
Qed.

Lemma ptr_copier `{Stored T, RepLaws T A} (into : T → M T) : Copier into → Copier (copy_ptr into).
Proof.
  intros Hc h [|l i] o; cbn.
  { intros [= <-]. exists nil_ptr, h. set_solver. }
  intros (x & Hx & (a & Ha & ->)%fmap_Some)%bind_Some.
  destruct (alloc_fresh [zero (T:=T)] h) as (out & Hout & Hmk & Hs0).
  set (h0 := <[out := _]> h) in *.
  destruct (read_weaken h h0 x a Hs0 Ha) as [Ha0 _].
  destruct (Hc h0 x a Ha0) as (v' & h1 & Hv & Hs1 & Hrv & Hdv).
  assert (Harr : array_at (T:=T) h1 out = Some [zero]).
  { eapply array_at_weaken; [done|]. apply array_at_insert. }
  assert (Hne : out ∉ reach h1 v').
  { intros Hin. apply (Hdv out Hin). subst h0. set_solver. }
  exists (Ptr out 0), (<[out := to_cell [v']]> h1). split_and!.
  - unfold mbind, M_bind. unfold make. cbn [replicate]. rewrite Hmk, (load_eq h0 l i x) by by eapply elem_at_weaken.
    by rewrite Hv, (store_eq h1 out 0 v' [zero]) by (cbn; auto with lia).
  - apply insert_subseteq_r; [by apply not_elem_of_dom | by etrans].
  - unfold elem_at. rewrite array_at_insert. cbn.
    destruct (rep_frame h1 (<[out := to_cell [v']]> h1) v' a) as [-> _]; [done| |done].
    by apply agree_insert.
  - unfold elem_at. rewrite array_at_insert. cbn.
    destruct (rep_frame h1 (<[out := to_cell [v']]> h1) v' a) as [_ ->]; [done|by apply agree_insert|].
    apply subseteq_dom in Hs0. set_solver.
Qed.

(** The loop of [copy_slice]: [vs] are copied, [zs] still zero, the elements
    [xs] of the source still to go. *)
Lemma copy_elems_ok `{Stored T, RepLaws T A} (into : T → M T) `{!Copier into}
    (h0 h : heap) l off out (xs : list T) as_ : ∀ i vs bs zs,
  h0 ⊆ h → out ∈ dom h → out ∉ dom h0 →
  (∀ k x, xs !! k = Some x → elem_at h0 l (off + (i + k)) = Some x) →
  mapM (read h0) xs = Some as_ →
  array_at h out = Some (vs ++ zs) → length vs = i → length zs = length xs →
  mapM (read h) vs = Some bs → ⋃ (reach h <$> vs) ## {[out]} ∪ dom h0 →
  ∃ h' ws, copy_elems into l off out i (length xs) h = Some ((), h') ∧ h0 ⊆ h' ∧
    array_at h' out = Some ws ∧ length ws = i + length xs ∧
    mapM (read h') ws = Some (bs ++ as_) ∧ ⋃ (reach h' <$> ws) ## {[out]} ∪ dom h0.
Proof.
  revert h as_. induction xs as [|x xs IH]; intros h as_ i vs bs zs Hs Hin Hout Hsrc Has Harr Hi Hz Hvs Hdis.
  { destruct zs; [|done]. injection Has as <-. rewrite app_nil_r in Harr.
    exists h, vs. rewrite app_nil_r. split_and!; try done. cbn. lia. }
  destruct zs as [|z zs]; [done|].
  cbn in Has. apply bind_Some in Has as (a & Ha & (as' & Has' & [= <-])%bind_Some).
  destruct (read_weaken h0 h x a Hs Ha) as [Hax _].
  destruct (copies h x a Hax) as (v' & h1 & Hv & Hs1 & Hrv & Hdv).
  set (h2 := <[out := to_cell (vs ++ v' :: zs)]> h1).
  assert (Hag : agree (reach h1 v') h1 h2) by (apply agree_insert; set_solver).
  destruct (rep_frame h1 h2 v' a Hrv Hag) as [Hrv2 Hdv2].
  assert (Hagv : agree (⋃ (reach h <$> vs)) h h2).
  { eapply agree_trans; [eapply agree_subset; [by eapply mapM_dom|done]|].
    apply agree_insert. set_solver. }
  destruct (mapM_frame h h2 vs bs Hvs Hagv) as [Hvs2 Hreach2].
  destruct (IH h2 as' (S i) (vs ++ [v']) (bs ++ [a]) zs) as (h' & ws & Hrun & Hs' & Harr' & Hlen & Hws & Hdis').
  - apply insert_subseteq_r; [by apply not_elem_of_dom | by etrans].
  - subst h2. set_solver.
  - done.
  - intros k y Hk. rewrite <- (Hsrc (S k) y Hk). f_equal. lia.
  - done.
  - subst h2. by rewrite array_at_insert, <- app_assoc.
  - rewrite length_app. cbn. lia.
  - cbn in Hz. lia.
  - apply mapM_Some, Forall2_app; [by apply mapM_Some|by repeat constructor].
  - rewrite fmap_app, union_list_app_L, Hreach2. cbn. rewrite Hdv2.
    apply subseteq_dom in Hs. set_solver.
  - exists h', ws. split_and!; try done.
    + cbn. unfold mbind, M_bind.
      rewrite (load_eq h l (off + i) x)
        by (eapply elem_at_weaken; [done|]; rewrite <- (Hsrc 0 x eq_refl); f_equal; lia).
      rewrite Hv, (store_eq h1 out i v' (vs ++ z :: zs)).
      * by rewrite insert_app_r_alt, Hi, Nat.sub_diag by lia.
      * by eapply array_at_weaken.
      * rewrite length_app. cbn. lia.
    + cbn. lia.
    + by rewrite Hws, <- app_assoc.
Qed.

Lemma slice_copier `{Stored T, RepLaws T A} (into : T → M T) : Copier into → Copier (copy_slice into).
Proof.
  intros Hc h [|l off n] o; cbn.
  { intros [= <-]. exists nil_slice, h. set_solver. }
  intros (xs & Hx & (ys & Ha & ->)%fmap_Some)%bind_Some.
  apply window_Some in Hx as (arr & Harr & Hle & ->).
  assert (Hlen : length (take n (drop off arr)) = n) by (rewrite length_take, length_drop; lia).
  destruct (alloc_fresh (replicate n (zero (T:=T))) h) as (out & Hout & Hmk & Hs0).
  destruct (copy_elems_ok into h (<[out := to_cell (replicate n (zero (T:=T)))]> h) l off out
              (take n (drop off arr)) ys 0 [] [] (replicate n zero))
    as (h' & ws & Hrun & Hs & Hw & Hwl & Hrd & Hdis); try done.
  - rewrite dom_insert. set_solver.
  - intros k x (Hk & Hkn)%lookup_take_Some. rewrite lookup_drop in Hk.
    unfold elem_at. by rewrite Harr.
  - apply array_at_insert.
  - by rewrite length_replicate, Hlen.
  - assert (Hwin : window h' out 0 n = Some ws).
    { apply window_Some. exists ws. split_and!; [done|lia|]. by rewrite drop_0, take_ge by lia. }
    exists (Slice out 0 n), h'. split_and!; [|done| |].
    + unfold mbind, M_bind, make. rewrite Hmk. rewrite Hlen in Hrun. by rewrite Hrun.
    + rewrite Hwin. cbn. by rewrite Hrd.
    + rewrite Hwin. set_solver.
Qed.

Lemma copy_entries_ok `{Stored (gmap string T)} out (kvs : list (string * T)) : ∀ h m,
  NoDup kvs.*1 → array_at h out = Some [m] → ∃ h',
    copy_entries out kvs h = Some ((), h') ∧ array_at h' out = Some [list_to_map kvs ∪ m] ∧
    ∀ l, l ≠ out → h' !! l = h !! l.
Proof.
  induction kvs as [|[k v] kvs IH]; intros h m Hnd Harr.
  { exists h. cbn. by rewrite (left_id_L ∅ (∪)). }
  apply NoDup_cons in Hnd as [Hk Hnd].
  destruct (IH (<[out := to_cell [<[k := v]> m]]> h) (<[k := v]> m)) as (h' & Hrun & Harr' & Hoth).
  { done. } { apply array_at_insert. }
  exists h'. cbn. unfold mbind, M_bind.
  rewrite (load_eq h out 0 m) by (unfold elem_at; by rewrite Harr).
  rewrite (store_eq h out 0 (<[k := v]> m) [m]) by (cbn; auto with lia).
  split_and!; [done| |].
  - rewrite Harr'. by rewrite <- insert_union_r, insert_union_l by by apply not_elem_of_list_to_map_1.
  - intros l Hl. rewrite Hoth by done. by apply lookup_insert_ne.
Qed.

Lemma map_copier `{Stored (gmap string T)} : Copier (copy_map (T:=T)).
Proof.
  intros h [|l] o; cbn.
  { intros [= <-]. exists nil_map, h. set_solver. }
  intros (m & Hm & ->)%fmap_Some.
  destruct (alloc_fresh [∅ : gmap string T] h) as (out & Hout & Hmk & Hs0).
  set (h0 := <[out := _]> h) in *.
  destruct (copy_entries_ok out (map_to_list m) h0 ∅) as (h' & Hrun & Harr & Hoth).
  { apply NoDup_fst_map_to_list. } { apply array_at_insert. }
  rewrite list_to_map_to_list, (right_id_L ∅ (∪)) in Harr.
  exists (GoMap out), h'. split_and!.
  - unfold mbind, M_bind, make_map. rewrite Hmk, (load_eq h0 l 0 m) by by eapply elem_at_weaken.
    by rewrite Hrun.
  - apply map_subseteq_spec. intros k c Hk. assert (k ≠ out).
    { intros ->. apply Hout. by apply elem_of_dom. }
    rewrite Hoth by done. subst h0. by rewrite lookup_insert_ne.
  - unfold elem_at. by rewrite Harr.
  - set_solver.
Qed.

(** [if in.Object != nil { out.Object = in.Object.DeepCopyObject() }]. *)
Definition copy_interface {C} (copy : C → M C) (o : option C) : M (option C) :=
  match o with
  | None => mret None
  | Some c => c' ← copy c; mret (Some c')
  end.

Lemma interface_copier `{RepLaws C A} copy : Copier copy → Copier (copy_interface (C:=C) copy).
Proof.
  intros Hc h [c|] o; cbn; [|intros [= <-]; exists None, h; set_solver].
  intros (a & Ha & ->)%fmap_Some. destruct (Hc h c a Ha) as (c' & h' & Hrun & Hs & Hr & Hd).
  exists (Some c'), h'. unfold mbind, M_bind. rewrite Hrun. cbn. by rewrite Hr.
Qed.

(** A struct is copied when its fields are, in whatever order. *)
Lemma struct_copier {S T A} (fields : S → T) (build : T → S) `{RepLaws T A} copy copyT :
  (∀ t, fields (build t) = t) →
  (∀ s h, copy s h = match copyT (fields s) h with Some (t, h') => Some (build t, h') | None => None end) →
  Copier copyT → @Copier S A (struct_rep fields) copy.
Proof.
  intros Hfb Heq Hc h s a. cbn. intros Ha. destruct (Hc h (fields s) a Ha) as (t & h' & Hrun & Hs & Hr & Hd).
  exists (build t), h'. by rewrite Heq, Hrun, Hfb.
Qed.

(** ** What a copier gives its caller *)

(** Some heap changes only inside [s]. *)
Definition changes_within (s : gset positive) (h h' : heap) : Prop := ∀ l, l ∉ s → h' !! l = h !! l.

(** [c] and [c'] hold the same value and share no memory: no write through
    one is seen through the other. *)
Definition isolated {C A} `{Rep C A} (h : heap) (c c' : C) (a : A) : Prop :=
  read h c = Some a ∧ read h c' = Some a ∧ reach h c ## reach h c' ∧
  (∀ h', changes_within (reach h c') h h' → read h' c = Some a) ∧
  (∀ h', changes_within (reach h c) h h' → read h' c' = Some a).

(** [copy] returns an isolated copy of every value that can be read. *)
Definition deep_copies {C A} `{Rep C A} (copy : C → M C) : Prop :=
  ∀ h c a, read h c = Some a → ∃ c' h', copy c h = Some (c', h') ∧ isolated h' c c' a.

(** The same for a function that returns the copy of an object as an
    interface value: for a nil pointer it returns the nil interface. *)
Definition deep_copies_object {T A} `{Rep (ptr T) (option A)} (copy : ptr T → M (option (ptr T))) : Prop :=
  ∀ h p o, read h p = Some o →
    match o with
    | None => copy p h = Some (None, h)
    | Some _ => ∃ p' h', copy p h = Some (Some p', h') ∧ isolated h' p p' o
    end.

Lemma copier_deep `{RepLaws C A} copy : Copier copy → deep_copies (C:=C) copy.
Proof.
  intros Hc h c a Ha. destruct (Hc h c a Ha) as (c' & h' & Hrun & Hs & Hr & Hd).
  destruct (read_weaken h h' c a Hs Ha) as [Ha' Hreach].
  pose proof (rep_dom h c a Ha) as Hdom.
  exists c', h'. split; [done|]. unfold isolated. rewrite Hreach. split_and!; [done..|set_solver| |].
  - intros h'' Hch. eapply rep_frame; [done|]. intros l Hl. apply Hch. rewrite Hreach in Hl. set_solver.
  - intros h'' Hch. eapply rep_frame; [done|]. intros l Hl. apply Hch. set_solver.
Qed.

Lemma copier_deep_object `{Stored T, RepLaws T A} (into : T → M T) : Copier into →
  deep_copies_object (λ p, c ← copy_ptr into p; mret (as_interface c)).
Proof.
  intros Hc h p o Hr. destruct p as [|l i].
  { cbn in Hr. by simplify_eq. }
  destruct (copier_deep (copy_ptr into) (ptr_copier into Hc) h (Ptr l i) o Hr) as (p' & h' & Hrun & Hiso).
  cbn in Hr. apply bind_Some in Hr as (x & _ & (a & _ & ->)%fmap_Some).
  exists p', h'. split; [|done]. unfold mbind, M_bind. rewrite Hrun.
  destruct p'; [|done]. by destruct Hiso as (_ & ? & _).
Qed.
End Heap.

Arguments M : clear implicits.
#[export] Hint Mode Rep - ! - : typeclass_instances.
