(* ===== verification/DeepCopy.v ===== *)
(** * api/core: generated deep copies

    The functions of the zz_generated.deepcopy.go files of api/core/v1beta1,
    api/core/v1alpha1 and the two subresource packages, over the Go memory of
    GoHeap.v: structs with the pointers, slices and maps of the source, one
    definition per generated function. The files of the two versions are
    equal up to the package name; [V1alpha1] and [Subresourcesv1alpha1]
    are the functions of the older packages.

    The deep copies of the library types the structs embed (ObjectMeta,
    ListMeta, Condition, RawExtension) are modelled from the vendored sources;
    [DeepCopyObject] of the object in a RawExtension, a dynamic call, and the
    deep copy of a KubeVirt VirtualMachine are parameters. *)

From Stdlib Require Import Ascii ZArith Lia.
From stdpp Require Import prelude strings gmap fin_maps fin_map_dom.
From S2P Require Import Prelude Api Meta GoHeap.

(** ** Types *)

(** Fields without references, copied by the assignment of the struct. *)
Record plain (T : Type) : Type := Plain { unplain : T }.
Arguments Plain {T} unplain.
Arguments unplain {T} p.

(** [metav1.Time], immutable: an instant. *)
Record Time : Type := mkTime { instant : Z }.

(** [metav1.TypeMeta]: kind and version. *)
Record TypeMeta : Type := mkTypeMeta { TM_Kind : string; TM_APIVersion : string }.

(** [metav1.FieldsV1]. *)
Record FieldsV1 : Type := mkFieldsV1 { FV_Raw : slice ascii }.

(** [metav1.OwnerReference]. *)
Record OwnerRef : Type := mkOwnerRef {
  OR_APIVersion : string;
  OR_Kind : string;
  OR_Name : string;
  OR_UID : string;
  OR_Controller : ptr bool;
  OR_BlockOwnerDeletion : ptr bool;
}.

(** [metav1.ManagedFieldsEntry]. *)
Record ManagedFieldsEntry : Type := mkManagedFieldsEntry {
  MF_Manager : string;
  MF_Operation : string;
  MF_APIVersion : string;
  MF_Time : ptr Time;
  MF_FieldsType : string;
  MF_FieldsV1 : ptr FieldsV1;
  MF_Subresource : string;
}.

(** [metav1.ObjectMeta]. *)
Record ObjectMeta : Type := mkObjectMeta {
  OM_Name : string;
  OM_GenerateName : string;
  OM_Namespace : string;
  OM_SelfLink : string;
  OM_UID : string;
  OM_ResourceVersion : string;
  OM_Generation : Z;
  OM_CreationTimestamp : Time;
  OM_DeletionTimestamp : ptr Time;
  OM_DeletionGracePeriodSeconds : ptr Z;
  OM_Labels : gomap string;
  OM_Annotations : gomap string;
  OM_OwnerReferences : slice OwnerRef;
  OM_Finalizers : slice string;
  OM_ManagedFields : slice ManagedFieldsEntry;
}.

(** [metav1.ListMeta]. *)
Record ListMeta : Type := mkListMeta {
  LM_SelfLink : string;
  LM_ResourceVersion : string;
  LM_Continue : string;
  LM_RemainingItemCount : ptr Z;
}.

(** [corev1.LocalObjectReference] and [corev1.ObjectReference]. *)
Record LocalObjectReference : Type := mkLocalObjectReference { LR_Name : string }.

Record ObjectReference : Type := mkObjectReference {
  REF_Kind : string; REF_Namespace : string; REF_Name : string; REF_UID : string;
  REF_APIVersion : string; REF_ResourceVersion : string; REF_FieldPath : string;
}.

Section Types.
Context (Obj VM : Type).

(** [runtime.RawExtension]. *)
Record RawExt : Type := mkRawExt { RX_Raw : slice ascii; RX_Object : option Obj }.

(** [type VirtualMachineTemplateSpec struct]. *)
Record TemplateSpec : Type := mkTemplateSpec {
  TS_VirtualMachine : ptr RawExt;
  TS_Parameters : slice Param;
  TS_Message : string;
}.

(** [type VirtualMachineTemplateStatus struct]. *)
Record TemplateStatus : Type := mkTemplateStatus { TST_Conditions : slice Condition }.

(** [type VirtualMachineTemplate struct]. *)
Record Template : Type := mkTemplate {
  T_TypeMeta : TypeMeta;
  T_ObjectMeta : ObjectMeta;
  T_Spec : TemplateSpec;
  T_Status : TemplateStatus;
}.

(** [type VirtualMachineTemplateList struct]. *)
Record TemplateList : Type := mkTemplateList {
  TL_TypeMeta : TypeMeta;
  TL_ListMeta : ListMeta;
  TL_Items : slice Template;
}.

(** [type VirtualMachineReference struct]. *)
Record VMReference : Type := mkVMReference { VR_Namespace : string; VR_Name : string }.

(** [type VirtualMachineTemplateRequestSpec struct]. *)
Record RequestSpecM : Type := mkRequestSpecM {
  RS_VirtualMachineRef : VMReference;
  RS_TemplateName : string;
  RS_TemplateLabels : gomap string;
  RS_TTLSecondsAfterFinished : ptr Z;
}.

(** [type VirtualMachineTemplateRequestStatus struct]. *)
Record RequestStatusM : Type := mkRequestStatusM {
  RST_Conditions : slice Condition;
  RST_TemplateRef : ptr LocalObjectReference;
}.

(** [type VirtualMachineTemplateRequest struct]. *)
Record RequestM : Type := mkRequestM {
  R_TypeMeta : TypeMeta;
  R_ObjectMeta : ObjectMeta;
  R_Spec : RequestSpecM;
  R_Status : RequestStatusM;
}.

(** [type VirtualMachineTemplateRequestList struct]. *)
Record RequestListM : Type := mkRequestListM {
  RL_TypeMeta : TypeMeta;
  RL_ListMeta : ListMeta;
  RL_Items : slice RequestM;
}.

(** The subresource types [ProcessOptions],
    [ProcessedVirtualMachineTemplate] and [VirtualMachineTemplate]. *)
Record ProcessOptionsM : Type := mkProcessOptionsM {
  PO_TypeMeta : TypeMeta;
  PO_ObjectMeta : ObjectMeta;
  PO_Parameters : gomap string;
}.

Record ProcessedM : Type := mkProcessedM {
  PM_TypeMeta : TypeMeta;
  PM_ObjectMeta : ObjectMeta;
  PM_TemplateRef : ptr ObjectReference;
  PM_VirtualMachine : ptr VM;
  PM_Message : string;
}.

Record SubTemplate : Type := mkSubTemplate {
  ST_TypeMeta : TypeMeta;
  ST_ObjectMeta : ObjectMeta;
}.

(** The arrays and tables a program allocates. *)
Inductive cell : Type :=
| CBools (xs : list bool)
| CInts (xs : list Z)
| CTimes (xs : list Time)
| CStrings (xs : list string)
| CBytes (xs : list ascii)
| CMaps (xs : list (gmap string string))
| CFields (xs : list FieldsV1)
| COwners (xs : list OwnerRef)
| CManaged (xs : list ManagedFieldsEntry)
| CConditions (xs : list Condition)
| CParams (xs : list Param)
| CLocalRefs (xs : list LocalObjectReference)
| CRefs (xs : list ObjectReference)
| CVMRefs (xs : list VMReference)
| CRawExts (xs : list RawExt)
| CTemplateSpecs (xs : list TemplateSpec)
| CTemplateStatuses (xs : list TemplateStatus)
| CTemplates (xs : list Template)
| CTemplateLists (xs : list TemplateList)
| CRequestSpecs (xs : list RequestSpecM)
| CRequestStatuses (xs : list RequestStatusM)
| CRequests (xs : list RequestM)
| CRequestLists (xs : list RequestListM)
| COptions (xs : list ProcessOptionsM)
| CProcesseds (xs : list ProcessedM)
| CSubTemplates (xs : list SubTemplate)
| CVMs (xs : list VM).

(** Zero values. *)
Definition no_type : TypeMeta := mkTypeMeta "" "".
Definition no_meta : ObjectMeta :=
  mkObjectMeta "" "" "" "" "" "" 0 (mkTime 0) nil_ptr nil_ptr nil_map nil_map nil_slice nil_slice nil_slice.
Definition no_list_meta : ListMeta := mkListMeta "" "" "" nil_ptr.

#[export] Instance Bools_stored : Stored bool := {|
  to_cell := CBools; of_cell c := match c with CBools xs => Some xs | _ => None end;
  zero := false; of_to_cell _ := eq_refl |}.
#[export] Instance Ints_stored : Stored Z := {|
  to_cell := CInts; of_cell c := match c with CInts xs => Some xs | _ => None end;
  zero := 0%Z; of_to_cell _ := eq_refl |}.
#[export] Instance Times_stored : Stored Time := {|
  to_cell := CTimes; of_cell c := match c with CTimes xs => Some xs | _ => None end;
  zero := (mkTime 0); of_to_cell _ := eq_refl |}.
#[export] Instance Strings_stored : Stored string := {|
  to_cell := CStrings; of_cell c := match c with CStrings xs => Some xs | _ => None end;
  zero := ""; of_to_cell _ := eq_refl |}.
#[export] Instance Bytes_stored : Stored ascii := {|
  to_cell := CBytes; of_cell c := match c with CBytes xs => Some xs | _ => None end;
  zero := Ascii.zero; of_to_cell _ := eq_refl |}.
#[export] Instance Maps_stored : Stored (gmap string string) := {|
  to_cell := CMaps; of_cell c := match c with CMaps xs => Some xs | _ => None end;
  zero := ∅; of_to_cell _ := eq_refl |}.
#[export] Instance Fields_stored : Stored FieldsV1 := {|
  to_cell := CFields; of_cell c := match c with CFields xs => Some xs | _ => None end;
  zero := (mkFieldsV1 nil_slice); of_to_cell _ := eq_refl |}.
#[export] Instance Owners_stored : Stored OwnerRef := {|
  to_cell := COwners; of_cell c := match c with COwners xs => Some xs | _ => None end;
  zero := (mkOwnerRef "" "" "" "" nil_ptr nil_ptr); of_to_cell _ := eq_refl |}.
#[export] Instance Managed_stored : Stored ManagedFieldsEntry := {|
  to_cell := CManaged; of_cell c := match c with CManaged xs => Some xs | _ => None end;
  zero := (mkManagedFieldsEntry "" "" "" nil_ptr "" nil_ptr ""); of_to_cell _ := eq_refl |}.
#[export] Instance Conditions_stored : Stored Condition := {|
  to_cell := CConditions; of_cell c := match c with CConditions xs => Some xs | _ => None end;
  zero := (mkCondition "" ConditionUnknown 0 0 "" ""); of_to_cell _ := eq_refl |}.
#[export] Instance Params_stored : Stored Param := {|
  to_cell := CParams; of_cell c := match c with CParams xs => Some xs | _ => None end;
  zero := (value_param "" ""); of_to_cell _ := eq_refl |}.
#[export] Instance LocalRefs_stored : Stored LocalObjectReference := {|
  to_cell := CLocalRefs; of_cell c := match c with CLocalRefs xs => Some xs | _ => None end;
  zero := (mkLocalObjectReference ""); of_to_cell _ := eq_refl |}.
#[export] Instance Refs_stored : Stored ObjectReference := {|
  to_cell := CRefs; of_cell c := match c with CRefs xs => Some xs | _ => None end;
  zero := (mkObjectReference "" "" "" "" "" "" ""); of_to_cell _ := eq_refl |}.
#[export] Instance VMRefs_stored : Stored VMReference := {|
  to_cell := CVMRefs; of_cell c := match c with CVMRefs xs => Some xs | _ => None end;
  zero := (mkVMReference "" ""); of_to_cell _ := eq_refl |}.
#[export] Instance RawExts_stored : Stored RawExt := {|
  to_cell := CRawExts; of_cell c := match c with CRawExts xs => Some xs | _ => None end;
  zero := (mkRawExt nil_slice None); of_to_cell _ := eq_refl |}.
#[export] Instance TemplateSpecs_stored : Stored TemplateSpec := {|
  to_cell := CTemplateSpecs; of_cell c := match c with CTemplateSpecs xs => Some xs | _ => None end;
  zero := (mkTemplateSpec nil_ptr nil_slice ""); of_to_cell _ := eq_refl |}.
#[export] Instance TemplateStatuses_stored : Stored TemplateStatus := {|
  to_cell := CTemplateStatuses; of_cell c := match c with CTemplateStatuses xs => Some xs | _ => None end;
  zero := (mkTemplateStatus nil_slice); of_to_cell _ := eq_refl |}.
#[export] Instance Templates_stored : Stored Template := {|
  to_cell := CTemplates; of_cell c := match c with CTemplates xs => Some xs | _ => None end;
  zero := (mkTemplate no_type no_meta (mkTemplateSpec nil_ptr nil_slice "") (mkTemplateStatus nil_slice)); of_to_cell _ := eq_refl |}.
#[export] Instance TemplateLists_stored : Stored TemplateList := {|
  to_cell := CTemplateLists; of_cell c := match c with CTemplateLists xs => Some xs | _ => None end;
  zero := (mkTemplateList no_type no_list_meta nil_slice); of_to_cell _ := eq_refl |}.
#[export] Instance RequestSpecs_stored : Stored RequestSpecM := {|
  to_cell := CRequestSpecs; of_cell c := match c with CRequestSpecs xs => Some xs | _ => None end;
  zero := (mkRequestSpecM (mkVMReference "" "") "" nil_map nil_ptr); of_to_cell _ := eq_refl |}.
#[export] Instance RequestStatuses_stored : Stored RequestStatusM := {|
  to_cell := CRequestStatuses; of_cell c := match c with CRequestStatuses xs => Some xs | _ => None end;
  zero := (mkRequestStatusM nil_slice nil_ptr); of_to_cell _ := eq_refl |}.
#[export] Instance Requests_stored : Stored RequestM := {|
  to_cell := CRequests; of_cell c := match c with CRequests xs => Some xs | _ => None end;
  zero := (mkRequestM no_type no_meta (mkRequestSpecM (mkVMReference "" "") "" nil_map nil_ptr) (mkRequestStatusM nil_slice nil_ptr)); of_to_cell _ := eq_refl |}.
#[export] Instance RequestLists_stored : Stored RequestListM := {|
  to_cell := CRequestLists; of_cell c := match c with CRequestLists xs => Some xs | _ => None end;
  zero := (mkRequestListM no_type no_list_meta nil_slice); of_to_cell _ := eq_refl |}.
#[export] Instance Options_stored : Stored ProcessOptionsM := {|
  to_cell := COptions; of_cell c := match c with COptions xs => Some xs | _ => None end;
  zero := (mkProcessOptionsM no_type no_meta nil_map); of_to_cell _ := eq_refl |}.
#[export] Instance Processeds_stored : Stored ProcessedM := {|
  to_cell := CProcesseds; of_cell c := match c with CProcesseds xs => Some xs | _ => None end;
  zero := (mkProcessedM no_type no_meta nil_ptr nil_ptr ""); of_to_cell _ := eq_refl |}.
#[export] Instance SubTemplates_stored : Stored SubTemplate := {|
  to_cell := CSubTemplates; of_cell c := match c with CSubTemplates xs => Some xs | _ => None end;
  zero := (mkSubTemplate no_type no_meta); of_to_cell _ := eq_refl |}.
Definition VMs_stored (vm_zero : VM) : Stored VM := {|
  to_cell := CVMs; of_cell c := match c with CVMs xs => Some xs | _ => None end;
  zero := vm_zero; of_to_cell _ := eq_refl |}.
End Types.

(** ** The parameters of the generated code

    The dynamic type of a [runtime.Object] and the KubeVirt VirtualMachine,
    each with what it holds, the memory it holds it in, and its deep copy. *)
Class Externals (Obj VM AObj AVM : Type) := {
  vm_zero : VM;
  obj_rep : Rep (cell:=cell Obj VM) Obj AObj;
  vm_rep : Rep (cell:=cell Obj VM) VM AVM;
  Object_DeepCopyObject : Obj → M (cell Obj VM) Obj;
  VirtualMachine_DeepCopyInto : VM → M (cell Obj VM) VM;
}.

(** Their contract: a deep copy is a copy. *)
Class ExternalsLaws (Obj VM AObj AVM : Type) `{Externals Obj VM AObj AVM} : Prop := {
  obj_laws : RepLaws (H:=obj_rep) Obj AObj;
  vm_laws : RepLaws (H:=vm_rep) VM AVM;
  Object_copier : Copier (H:=obj_rep) Object_DeepCopyObject;
  VM_copier : Copier (H:=vm_rep) VirtualMachine_DeepCopyInto;
}.

Section DeepCopy.
Context {Obj VM AObj AVM : Type} `{Ext : Externals Obj VM AObj AVM}.
Local Abbreviation prog := (M (cell Obj VM)).
#[local] Existing Instances obj_rep vm_rep.
#[local] Instance the_VMs_stored : Stored (cell:=cell Obj VM) VM := VMs_stored Obj VM vm_zero.

(** *** Library types *)

(** [func (t *Time) DeepCopyInto(out *Time)]: [*out = *t]. *)
Definition Time_DeepCopyInto (t : Time) : prog Time := mret t.

Definition FieldsV1_DeepCopyInto (in_ : FieldsV1) : prog FieldsV1 :=
  raw ← copy_slice mret (FV_Raw in_);
  mret (mkFieldsV1 raw).

Definition OwnerReference_DeepCopyInto (in_ : OwnerRef) : prog OwnerRef :=
  controller ← copy_ptr mret (OR_Controller in_);
  block ← copy_ptr mret (OR_BlockOwnerDeletion in_);
  mret (mkOwnerRef (OR_APIVersion in_) (OR_Kind in_) (OR_Name in_) (OR_UID in_) controller block).

Definition ManagedFieldsEntry_DeepCopyInto (in_ : ManagedFieldsEntry) : prog ManagedFieldsEntry :=
  time ← copy_ptr Time_DeepCopyInto (MF_Time in_);
  fields ← copy_ptr FieldsV1_DeepCopyInto (MF_FieldsV1 in_);
  mret (mkManagedFieldsEntry (MF_Manager in_) (MF_Operation in_) (MF_APIVersion in_) time
          (MF_FieldsType in_) fields (MF_Subresource in_)).

Definition ObjectMeta_DeepCopyInto (in_ : ObjectMeta) : prog ObjectMeta :=
  creation ← Time_DeepCopyInto (OM_CreationTimestamp in_);
  deletion ← copy_ptr Time_DeepCopyInto (OM_DeletionTimestamp in_);
  grace ← copy_ptr mret (OM_DeletionGracePeriodSeconds in_);
  labels ← copy_map (OM_Labels in_);
  annotations ← copy_map (OM_Annotations in_);
  owners ← copy_slice OwnerReference_DeepCopyInto (OM_OwnerReferences in_);
  finalizers ← copy_slice mret (OM_Finalizers in_);
  managed ← copy_slice ManagedFieldsEntry_DeepCopyInto (OM_ManagedFields in_);
  mret (mkObjectMeta (OM_Name in_) (OM_GenerateName in_) (OM_Namespace in_) (OM_SelfLink in_)
          (OM_UID in_) (OM_ResourceVersion in_) (OM_Generation in_) creation deletion grace
          labels annotations owners finalizers managed).

Definition ListMeta_DeepCopyInto (in_ : ListMeta) : prog ListMeta :=
  remaining ← copy_ptr mret (LM_RemainingItemCount in_);
  mret (mkListMeta (LM_SelfLink in_) (LM_ResourceVersion in_) (LM_Continue in_) remaining).

Definition Condition_DeepCopyInto (in_ : Condition) : prog Condition :=
  time ← Time_DeepCopyInto (mkTime (C_LastTransitionTime in_));
  mret (mkCondition (C_Type in_) (C_Status in_) (C_ObservedGeneration in_) (instant time)
          (C_Reason in_) (C_Message in_)).

Definition RawExtension_DeepCopyInto (in_ : RawExt Obj) : prog (RawExt Obj) :=
  raw ← copy_slice mret (RX_Raw Obj in_);
  object ← copy_interface Object_DeepCopyObject (RX_Object Obj in_);
  mret (mkRawExt Obj raw object).
End DeepCopy.

(** ** api/core/v1beta1/zz_generated.deepcopy.go

    [*out = *in] makes every field of [out] the one of [in]; the statements
    after it replace the fields that hold references. *)
Module V1beta1.
Section DeepCopy.
Context {Obj VM AObj AVM : Type} `{Ext : Externals Obj VM AObj AVM}.
Local Abbreviation prog := (M (cell Obj VM)).

Definition Parameter_DeepCopyInto (in_ : Param) : prog Param :=
  mret in_.

Definition Parameter_DeepCopy (in_ : ptr Param) : prog (ptr Param) :=
  copy_ptr Parameter_DeepCopyInto in_.

Definition VirtualMachineReference_DeepCopyInto (in_ : VMReference) : prog VMReference :=
  mret in_.

Definition VirtualMachineReference_DeepCopy (in_ : ptr VMReference) : prog (ptr VMReference) :=
  copy_ptr VirtualMachineReference_DeepCopyInto in_.

Definition VirtualMachineTemplateSpec_DeepCopyInto (in_ : (TemplateSpec Obj)) : prog (TemplateSpec Obj) :=
  vm ← copy_ptr RawExtension_DeepCopyInto (TS_VirtualMachine Obj in_);
  parameters ← copy_slice mret (TS_Parameters Obj in_);
  mret (mkTemplateSpec Obj vm parameters (TS_Message Obj in_)).

Definition VirtualMachineTemplateSpec_DeepCopy (in_ : ptr (TemplateSpec Obj)) : prog (ptr (TemplateSpec Obj)) :=
  copy_ptr VirtualMachineTemplateSpec_DeepCopyInto in_.

Definition VirtualMachineTemplateStatus_DeepCopyInto (in_ : TemplateStatus) : prog TemplateStatus :=
  conditions ← copy_slice Condition_DeepCopyInto (TST_Conditions in_);
  mret (mkTemplateStatus conditions).

Definition VirtualMachineTemplateStatus_DeepCopy (in_ : ptr TemplateStatus) : prog (ptr TemplateStatus) :=
  copy_ptr VirtualMachineTemplateStatus_DeepCopyInto in_.

Definition VirtualMachineTemplate_DeepCopyInto (in_ : (Template Obj)) : prog (Template Obj) :=
  meta ← ObjectMeta_DeepCopyInto (T_ObjectMeta Obj in_);
  spec ← VirtualMachineTemplateSpec_DeepCopyInto (T_Spec Obj in_);
  status ← VirtualMachineTemplateStatus_DeepCopyInto (T_Status Obj in_);
  mret (mkTemplate Obj (T_TypeMeta Obj in_) meta spec status).

Definition VirtualMachineTemplate_DeepCopy (in_ : ptr (Template Obj)) : prog (ptr (Template Obj)) :=
  copy_ptr VirtualMachineTemplate_DeepCopyInto in_.

Definition VirtualMachineTemplate_DeepCopyObject (in_ : ptr (Template Obj)) : prog (option (ptr (Template Obj))) :=
  c ← VirtualMachineTemplate_DeepCopy in_;
  mret (as_interface c).

Definition VirtualMachineTemplateList_DeepCopyInto (in_ : (TemplateList Obj)) : prog (TemplateList Obj) :=
  meta ← ListMeta_DeepCopyInto (TL_ListMeta Obj in_);
  items ← copy_slice VirtualMachineTemplate_DeepCopyInto (TL_Items Obj in_);
  mret (mkTemplateList Obj (TL_TypeMeta Obj in_) meta items).

Definition VirtualMachineTemplateList_DeepCopy (in_ : ptr (TemplateList Obj)) : prog (ptr (TemplateList Obj)) :=
  copy_ptr VirtualMachineTemplateList_DeepCopyInto in_.

Definition VirtualMachineTemplateList_DeepCopyObject (in_ : ptr (TemplateList Obj)) : prog (option (ptr (TemplateList Obj))) :=
  c ← VirtualMachineTemplateList_DeepCopy in_;
  mret (as_interface c).

Definition VirtualMachineTemplateRequestSpec_DeepCopyInto (in_ : RequestSpecM) : prog RequestSpecM :=
  labels ← copy_map (RS_TemplateLabels in_);
  ttl ← copy_ptr mret (RS_TTLSecondsAfterFinished in_);
  mret (mkRequestSpecM (RS_VirtualMachineRef in_) (RS_TemplateName in_) labels ttl).

Definition VirtualMachineTemplateRequestSpec_DeepCopy (in_ : ptr RequestSpecM) : prog (ptr RequestSpecM) :=
  copy_ptr VirtualMachineTemplateRequestSpec_DeepCopyInto in_.

Definition VirtualMachineTemplateRequestStatus_DeepCopyInto (in_ : RequestStatusM) : prog RequestStatusM :=
  conditions ← copy_slice Condition_DeepCopyInto (RST_Conditions in_);
  ref ← copy_ptr mret (RST_TemplateRef in_);
  mret (mkRequestStatusM conditions ref).

Definition VirtualMachineTemplateRequestStatus_DeepCopy (in_ : ptr RequestStatusM) : prog (ptr RequestStatusM) :=
  copy_ptr VirtualMachineTemplateRequestStatus_DeepCopyInto in_.

Definition VirtualMachineTemplateRequest_DeepCopyInto (in_ : RequestM) : prog RequestM :=
  meta ← ObjectMeta_DeepCopyInto (R_ObjectMeta in_);
  spec ← VirtualMachineTemplateRequestSpec_DeepCopyInto (R_Spec in_);
  status ← VirtualMachineTemplateRequestStatus_DeepCopyInto (R_Status in_);
  mret (mkRequestM (R_TypeMeta in_) meta spec status).

Definition VirtualMachineTemplateRequest_DeepCopy (in_ : ptr RequestM) : prog (ptr RequestM) :=
  copy_ptr VirtualMachineTemplateRequest_DeepCopyInto in_.

Definition VirtualMachineTemplateRequest_DeepCopyObject (in_ : ptr RequestM) : prog (option (ptr RequestM)) :=
  c ← VirtualMachineTemplateRequest_DeepCopy in_;
  mret (as_interface c).

Definition VirtualMachineTemplateRequestList_DeepCopyInto (in_ : RequestListM) : prog RequestListM :=
  meta ← ListMeta_DeepCopyInto (RL_ListMeta in_);
  items ← copy_slice VirtualMachineTemplateRequest_DeepCopyInto (RL_Items in_);
  mret (mkRequestListM (RL_TypeMeta in_) meta items).

Definition VirtualMachineTemplateRequestList_DeepCopy (in_ : ptr RequestListM) : prog (ptr RequestListM) :=
  copy_ptr VirtualMachineTemplateRequestList_DeepCopyInto in_.

Definition VirtualMachineTemplateRequestList_DeepCopyObject (in_ : ptr RequestListM) : prog (option (ptr RequestListM)) :=
  c ← VirtualMachineTemplateRequestList_DeepCopy in_;
  mret (as_interface c).
End DeepCopy.
End V1beta1.

(** ** api/core/subresourcesv1beta1/zz_generated.deepcopy.go *)
Module Subresourcesv1beta1.
Section DeepCopy.
Context {Obj VM AObj AVM : Type} `{Ext : Externals Obj VM AObj AVM}.
Local Abbreviation prog := (M (cell Obj VM)).
#[local] Existing Instance the_VMs_stored.

Definition ProcessOptions_DeepCopyInto (in_ : ProcessOptionsM) : prog ProcessOptionsM :=
  meta ← ObjectMeta_DeepCopyInto (PO_ObjectMeta in_);
  parameters ← copy_map (PO_Parameters in_);
  mret (mkProcessOptionsM (PO_TypeMeta in_) meta parameters).

Definition ProcessOptions_DeepCopy (in_ : ptr ProcessOptionsM) : prog (ptr ProcessOptionsM) :=
  copy_ptr ProcessOptions_DeepCopyInto in_.

Definition ProcessOptions_DeepCopyObject (in_ : ptr ProcessOptionsM) : prog (option (ptr ProcessOptionsM)) :=
  c ← ProcessOptions_DeepCopy in_;
  mret (as_interface c).

Definition ProcessedVirtualMachineTemplate_DeepCopyInto (in_ : (ProcessedM VM)) : prog (ProcessedM VM) :=
  meta ← ObjectMeta_DeepCopyInto (PM_ObjectMeta VM in_);
  ref ← copy_ptr mret (PM_TemplateRef VM in_);
  vm ← copy_ptr VirtualMachine_DeepCopyInto (PM_VirtualMachine VM in_);
  mret (mkProcessedM VM (PM_TypeMeta VM in_) meta ref vm (PM_Message VM in_)).

Definition ProcessedVirtualMachineTemplate_DeepCopy (in_ : ptr (ProcessedM VM)) : prog (ptr (ProcessedM VM)) :=
  copy_ptr ProcessedVirtualMachineTemplate_DeepCopyInto in_.

Definition ProcessedVirtualMachineTemplate_DeepCopyObject (in_ : ptr (ProcessedM VM)) : prog (option (ptr (ProcessedM VM))) :=
  c ← ProcessedVirtualMachineTemplate_DeepCopy in_;
  mret (as_interface c).

Definition VirtualMachineTemplate_DeepCopyInto (in_ : SubTemplate) : prog SubTemplate :=
  meta ← ObjectMeta_DeepCopyInto (ST_ObjectMeta in_);
  mret (mkSubTemplate (ST_TypeMeta in_) meta).

Definition VirtualMachineTemplate_DeepCopy (in_ : ptr SubTemplate) : prog (ptr SubTemplate) :=
  copy_ptr VirtualMachineTemplate_DeepCopyInto in_.

Definition VirtualMachineTemplate_DeepCopyObject (in_ : ptr SubTemplate) : prog (option (ptr SubTemplate)) :=
  c ← VirtualMachineTemplate_DeepCopy in_;
  mret (as_interface c).
End DeepCopy.
End Subresourcesv1beta1.

(** ** api/core/v1alpha1/zz_generated.deepcopy.go: the same code for the older version. *)
Module V1alpha1.
Section DeepCopy.
Context {Obj VM AObj AVM : Type} `{Ext : Externals Obj VM AObj AVM}.
Local Abbreviation prog := (M (cell Obj VM)).
Definition Parameter_DeepCopyInto : Param → prog Param := V1beta1.Parameter_DeepCopyInto.
Definition Parameter_DeepCopy : (ptr Param) → prog (ptr Param) := V1beta1.Parameter_DeepCopy.
Definition VirtualMachineReference_DeepCopyInto : VMReference → prog VMReference := V1beta1.VirtualMachineReference_DeepCopyInto.
Definition VirtualMachineReference_DeepCopy : (ptr VMReference) → prog (ptr VMReference) := V1beta1.VirtualMachineReference_DeepCopy.
Definition VirtualMachineTemplateSpec_DeepCopyInto : (TemplateSpec Obj) → prog (TemplateSpec Obj) := V1beta1.VirtualMachineTemplateSpec_DeepCopyInto.
Definition VirtualMachineTemplateSpec_DeepCopy : (ptr (TemplateSpec Obj)) → prog (ptr (TemplateSpec Obj)) := V1beta1.VirtualMachineTemplateSpec_DeepCopy.
Definition VirtualMachineTemplateStatus_DeepCopyInto : TemplateStatus → prog TemplateStatus := V1beta1.VirtualMachineTemplateStatus_DeepCopyInto.
Definition VirtualMachineTemplateStatus_DeepCopy : (ptr TemplateStatus) → prog (ptr TemplateStatus) := V1beta1.VirtualMachineTemplateStatus_DeepCopy.
Definition VirtualMachineTemplate_DeepCopyInto : (Template Obj) → prog (Template Obj) := V1beta1.VirtualMachineTemplate_DeepCopyInto.
Definition VirtualMachineTemplate_DeepCopy : (ptr (Template Obj)) → prog (ptr (Template Obj)) := V1beta1.VirtualMachineTemplate_DeepCopy.
Definition VirtualMachineTemplate_DeepCopyObject : (ptr (Template Obj)) → prog (option (ptr (Template Obj))) := V1beta1.VirtualMachineTemplate_DeepCopyObject.
Definition VirtualMachineTemplateList_DeepCopyInto : (TemplateList Obj) → prog (TemplateList Obj) := V1beta1.VirtualMachineTemplateList_DeepCopyInto.
Definition VirtualMachineTemplateList_DeepCopy : (ptr (TemplateList Obj)) → prog (ptr (TemplateList Obj)) := V1beta1.VirtualMachineTemplateList_DeepCopy.
Definition VirtualMachineTemplateList_DeepCopyObject : (ptr (TemplateList Obj)) → prog (option (ptr (TemplateList Obj))) := V1beta1.VirtualMachineTemplateList_DeepCopyObject.
Definition VirtualMachineTemplateRequestSpec_DeepCopyInto : RequestSpecM → prog RequestSpecM := V1beta1.VirtualMachineTemplateRequestSpec_DeepCopyInto.
Definition VirtualMachineTemplateRequestSpec_DeepCopy : (ptr RequestSpecM) → prog (ptr RequestSpecM) := V1beta1.VirtualMachineTemplateRequestSpec_DeepCopy.
Definition VirtualMachineTemplateRequestStatus_DeepCopyInto : RequestStatusM → prog RequestStatusM := V1beta1.VirtualMachineTemplateRequestStatus_DeepCopyInto.
Definition VirtualMachineTemplateRequestStatus_DeepCopy : (ptr RequestStatusM) → prog (ptr RequestStatusM) := V1beta1.VirtualMachineTemplateRequestStatus_DeepCopy.
Definition VirtualMachineTemplateRequest_DeepCopyInto : RequestM → prog RequestM := V1beta1.VirtualMachineTemplateRequest_DeepCopyInto.
Definition VirtualMachineTemplateRequest_DeepCopy : (ptr RequestM) → prog (ptr RequestM) := V1beta1.VirtualMachineTemplateRequest_DeepCopy.
Definition VirtualMachineTemplateRequest_DeepCopyObject : (ptr RequestM) → prog (option (ptr RequestM)) := V1beta1.VirtualMachineTemplateRequest_DeepCopyObject.
Definition VirtualMachineTemplateRequestList_DeepCopyInto : RequestListM → prog RequestListM := V1beta1.VirtualMachineTemplateRequestList_DeepCopyInto.
Definition VirtualMachineTemplateRequestList_DeepCopy : (ptr RequestListM) → prog (ptr RequestListM) := V1beta1.VirtualMachineTemplateRequestList_DeepCopy.
Definition VirtualMachineTemplateRequestList_DeepCopyObject : (ptr RequestListM) → prog (option (ptr RequestListM)) := V1beta1.VirtualMachineTemplateRequestList_DeepCopyObject.
End DeepCopy.
End V1alpha1.

(** ** api/core/subresourcesv1alpha1/zz_generated.deepcopy.go: the same code for the older version. *)
Module Subresourcesv1alpha1.
Section DeepCopy.
Context {Obj VM AObj AVM : Type} `{Ext : Externals Obj VM AObj AVM}.
Local Abbreviation prog := (M (cell Obj VM)).
Definition ProcessOptions_DeepCopyInto : ProcessOptionsM → prog ProcessOptionsM := Subresourcesv1beta1.ProcessOptions_DeepCopyInto.
Definition ProcessOptions_DeepCopy : (ptr ProcessOptionsM) → prog (ptr ProcessOptionsM) := Subresourcesv1beta1.ProcessOptions_DeepCopy.
Definition ProcessOptions_DeepCopyObject : (ptr ProcessOptionsM) → prog (option (ptr ProcessOptionsM)) := Subresourcesv1beta1.ProcessOptions_DeepCopyObject.
Definition ProcessedVirtualMachineTemplate_DeepCopyInto : (ProcessedM VM) → prog (ProcessedM VM) := Subresourcesv1beta1.ProcessedVirtualMachineTemplate_DeepCopyInto.
Definition ProcessedVirtualMachineTemplate_DeepCopy : (ptr (ProcessedM VM)) → prog (ptr (ProcessedM VM)) := Subresourcesv1beta1.ProcessedVirtualMachineTemplate_DeepCopy.
Definition ProcessedVirtualMachineTemplate_DeepCopyObject : (ptr (ProcessedM VM)) → prog (option (ptr (ProcessedM VM))) := Subresourcesv1beta1.ProcessedVirtualMachineTemplate_DeepCopyObject.
Definition VirtualMachineTemplate_DeepCopyInto : SubTemplate → prog SubTemplate := Subresourcesv1beta1.VirtualMachineTemplate_DeepCopyInto.
Definition VirtualMachineTemplate_DeepCopy : (ptr SubTemplate) → prog (ptr SubTemplate) := Subresourcesv1beta1.VirtualMachineTemplate_DeepCopy.
Definition VirtualMachineTemplate_DeepCopyObject : (ptr SubTemplate) → prog (option (ptr SubTemplate)) := Subresourcesv1beta1.VirtualMachineTemplate_DeepCopyObject.
End DeepCopy.
End Subresourcesv1alpha1.

(** ** What each type holds

    The content of a struct is the tuple of the contents of its fields. *)
Section Content.
Context {Obj VM AObj AVM : Type} `{Ext : Externals Obj VM AObj AVM}.
Local Abbreviation C := (cell Obj VM).
#[local] Existing Instances obj_rep vm_rep the_VMs_stored.

#[export] Instance plain_rep T : Rep (cell:=C) (plain T) T :=
  {| read _ x := Some (unplain x); reach _ _ := ∅ |}.
#[export] Instance bool_rep : Rep (cell:=C) bool bool := flat_rep bool.
#[export] Instance Z_rep : Rep (cell:=C) Z Z := flat_rep Z.
#[export] Instance Time_rep : Rep (cell:=C) Time Time := flat_rep Time.
#[export] Instance string_rep : Rep (cell:=C) string string := flat_rep string.
#[export] Instance ascii_rep : Rep (cell:=C) ascii ascii := flat_rep ascii.
#[export] Instance Condition_rep : Rep (cell:=C) Condition Condition := flat_rep Condition.
#[export] Instance Param_rep : Rep (cell:=C) Param Param := flat_rep Param.
#[export] Instance VMReference_rep : Rep (cell:=C) VMReference VMReference := flat_rep VMReference.
#[export] Instance LocalObjectReference_rep : Rep (cell:=C) LocalObjectReference LocalObjectReference := flat_rep LocalObjectReference.
#[export] Instance ObjectReference_rep : Rep (cell:=C) ObjectReference ObjectReference := flat_rep ObjectReference.

Definition FieldsV1_fields (x : FieldsV1) := FV_Raw x.
#[export] Instance FieldsV1_rep : Rep (cell:=C) FieldsV1 _ := struct_rep FieldsV1_fields.

Definition OwnerRef_fields (x : OwnerRef) := 
  (Plain (OR_APIVersion x, OR_Kind x, OR_Name x, OR_UID x), (OR_Controller x, OR_BlockOwnerDeletion x)).
#[export] Instance OwnerRef_rep : Rep (cell:=C) OwnerRef _ := struct_rep OwnerRef_fields.

Definition ManagedFieldsEntry_fields (x : ManagedFieldsEntry) := 
  (Plain (MF_Manager x, MF_Operation x, MF_APIVersion x, MF_FieldsType x, MF_Subresource x),
   (MF_Time x, MF_FieldsV1 x)).
#[export] Instance ManagedFieldsEntry_rep : Rep (cell:=C) ManagedFieldsEntry _ := struct_rep ManagedFieldsEntry_fields.

Definition ObjectMeta_fields (x : ObjectMeta) := 
  (Plain (OM_Name x, OM_GenerateName x, OM_Namespace x, OM_SelfLink x, OM_UID x, OM_ResourceVersion x,
          OM_Generation x),
   (OM_CreationTimestamp x, (OM_DeletionTimestamp x, (OM_DeletionGracePeriodSeconds x,
   (OM_Labels x, (OM_Annotations x, (OM_OwnerReferences x, (OM_Finalizers x, OM_ManagedFields x)))))))).
#[export] Instance ObjectMeta_rep : Rep (cell:=C) ObjectMeta _ := struct_rep ObjectMeta_fields.

Definition ListMeta_fields (x : ListMeta) := 
  (Plain (LM_SelfLink x, LM_ResourceVersion x, LM_Continue x), LM_RemainingItemCount x).
#[export] Instance ListMeta_rep : Rep (cell:=C) ListMeta _ := struct_rep ListMeta_fields.

Definition RawExt_fields (x : (RawExt Obj)) := (RX_Raw Obj x, RX_Object Obj x).
#[export] Instance RawExt_rep : Rep (cell:=C) (RawExt Obj) _ := struct_rep RawExt_fields.

Definition TemplateSpec_fields (x : (TemplateSpec Obj)) := 
  (TS_VirtualMachine Obj x, (TS_Parameters Obj x, Plain (TS_Message Obj x))).
#[export] Instance TemplateSpec_rep : Rep (cell:=C) (TemplateSpec Obj) _ := struct_rep TemplateSpec_fields.

Definition TemplateStatus_fields (x : TemplateStatus) := TST_Conditions x.
#[export] Instance TemplateStatus_rep : Rep (cell:=C) TemplateStatus _ := struct_rep TemplateStatus_fields.

Definition Template_fields (x : (Template Obj)) := 
  (Plain (T_TypeMeta Obj x), (T_ObjectMeta Obj x, (T_Spec Obj x, T_Status Obj x))).
#[export] Instance Template_rep : Rep (cell:=C) (Template Obj) _ := struct_rep Template_fields.

Definition TemplateList_fields (x : (TemplateList Obj)) := (Plain (TL_TypeMeta Obj x), (TL_ListMeta Obj x, TL_Items Obj x)).
#[export] Instance TemplateList_rep : Rep (cell:=C) (TemplateList Obj) _ := struct_rep TemplateList_fields.

Definition RequestSpecM_fields (x : RequestSpecM) := 
  (Plain (RS_VirtualMachineRef x, RS_TemplateName x), (RS_TemplateLabels x, RS_TTLSecondsAfterFinished x)).
#[export] Instance RequestSpecM_rep : Rep (cell:=C) RequestSpecM _ := struct_rep RequestSpecM_fields.

Definition RequestStatusM_fields (x : RequestStatusM) := (RST_Conditions x, RST_TemplateRef x).
#[export] Instance RequestStatusM_rep : Rep (cell:=C) RequestStatusM _ := struct_rep RequestStatusM_fields.

Definition RequestM_fields (x : RequestM) := (Plain (R_TypeMeta x), (R_ObjectMeta x, (R_Spec x, R_Status x))).
#[export] Instance RequestM_rep : Rep (cell:=C) RequestM _ := struct_rep RequestM_fields.

Definition RequestListM_fields (x : RequestListM) := (Plain (RL_TypeMeta x), (RL_ListMeta x, RL_Items x)).
#[export] Instance RequestListM_rep : Rep (cell:=C) RequestListM _ := struct_rep RequestListM_fields.

Definition ProcessOptionsM_fields (x : ProcessOptionsM) := (Plain (PO_TypeMeta x), (PO_ObjectMeta x, PO_Parameters x)).
#[export] Instance ProcessOptionsM_rep : Rep (cell:=C) ProcessOptionsM _ := struct_rep ProcessOptionsM_fields.

Definition ProcessedM_fields (x : (ProcessedM VM)) := 
  (Plain (PM_TypeMeta VM x, PM_Message VM x), (PM_ObjectMeta VM x, (PM_TemplateRef VM x, PM_VirtualMachine VM x))).
#[export] Instance ProcessedM_rep : Rep (cell:=C) (ProcessedM VM) _ := struct_rep ProcessedM_fields.

Definition SubTemplate_fields (x : SubTemplate) := (Plain (ST_TypeMeta x), ST_ObjectMeta x).
#[export] Instance SubTemplate_rep : Rep (cell:=C) SubTemplate _ := struct_rep SubTemplate_fields.
End Content.

(** ** Every deep copy is a copy *)
Section Correct.
Context {Obj VM AObj AVM : Type} `{Ext : Externals Obj VM AObj AVM, Laws : !ExternalsLaws Obj VM AObj AVM}.
Local Abbreviation C := (cell Obj VM).
#[local] Existing Instances obj_rep vm_rep the_VMs_stored obj_laws vm_laws Object_copier VM_copier.
#[local] Existing Instances pair_copier ptr_copier slice_copier map_copier interface_copier.

#[local] Instance plain_laws T : RepLaws (cell:=C) (plain T) T.
Proof. split; cbn; intros; simplify_eq; set_solver. Qed.
#[local] Instance bool_laws : RepLaws (cell:=C) bool bool := flat_laws bool.
#[local] Instance Z_laws : RepLaws (cell:=C) Z Z := flat_laws Z.
#[local] Instance Time_laws : RepLaws (cell:=C) Time Time := flat_laws Time.
#[local] Instance string_laws : RepLaws (cell:=C) string string := flat_laws string.
#[local] Instance ascii_laws : RepLaws (cell:=C) ascii ascii := flat_laws ascii.
#[local] Instance Condition_laws : RepLaws (cell:=C) Condition Condition := flat_laws Condition.
#[local] Instance Param_laws : RepLaws (cell:=C) Param Param := flat_laws Param.
#[local] Instance VMReference_laws : RepLaws (cell:=C) VMReference VMReference := flat_laws VMReference.
#[local] Instance LocalObjectReference_laws : RepLaws (cell:=C) LocalObjectReference LocalObjectReference := flat_laws LocalObjectReference.
#[local] Instance ObjectReference_laws : RepLaws (cell:=C) ObjectReference ObjectReference := flat_laws ObjectReference.
#[local] Instance FieldsV1_laws : RepLaws (cell:=C) FieldsV1 _ := struct_laws FieldsV1_fields.
#[local] Instance OwnerRef_laws : RepLaws (cell:=C) OwnerRef _ := struct_laws OwnerRef_fields.
#[local] Instance ManagedFieldsEntry_laws : RepLaws (cell:=C) ManagedFieldsEntry _ := struct_laws ManagedFieldsEntry_fields.
#[local] Instance ObjectMeta_laws : RepLaws (cell:=C) ObjectMeta _ := struct_laws ObjectMeta_fields.
#[local] Instance ListMeta_laws : RepLaws (cell:=C) ListMeta _ := struct_laws ListMeta_fields.
#[local] Instance RawExt_laws : RepLaws (cell:=C) (RawExt Obj) _ := struct_laws RawExt_fields.
#[local] Instance TemplateSpec_laws : RepLaws (cell:=C) (TemplateSpec Obj) _ := struct_laws TemplateSpec_fields.
#[local] Instance TemplateStatus_laws : RepLaws (cell:=C) TemplateStatus _ := struct_laws TemplateStatus_fields.
#[local] Instance Template_laws : RepLaws (cell:=C) (Template Obj) _ := struct_laws Template_fields.
#[local] Instance TemplateList_laws : RepLaws (cell:=C) (TemplateList Obj) _ := struct_laws TemplateList_fields.
#[local] Instance RequestSpecM_laws : RepLaws (cell:=C) RequestSpecM _ := struct_laws RequestSpecM_fields.
#[local] Instance RequestStatusM_laws : RepLaws (cell:=C) RequestStatusM _ := struct_laws RequestStatusM_fields.
#[local] Instance RequestM_laws : RepLaws (cell:=C) RequestM _ := struct_laws RequestM_fields.
#[local] Instance RequestListM_laws : RepLaws (cell:=C) RequestListM _ := struct_laws RequestListM_fields.
#[local] Instance ProcessOptionsM_laws : RepLaws (cell:=C) ProcessOptionsM _ := struct_laws ProcessOptionsM_fields.
#[local] Instance ProcessedM_laws : RepLaws (cell:=C) (ProcessedM VM) _ := struct_laws ProcessedM_fields.
#[local] Instance SubTemplate_laws : RepLaws (cell:=C) SubTemplate _ := struct_laws SubTemplate_fields.

#[local] Instance plain_copier T : Copier (cell:=C) (C:=plain T) mret.
Proof. intros h c a Hc. exists c, h. cbn in *. set_solver. Qed.
#[local] Instance bool_copier : Copier (cell:=C) (C:=bool) mret := flat_copier bool.
#[local] Instance Z_copier : Copier (cell:=C) (C:=Z) mret := flat_copier Z.
#[local] Instance Time_copier : Copier (cell:=C) (C:=Time) mret := flat_copier Time.
#[local] Instance string_copier : Copier (cell:=C) (C:=string) mret := flat_copier string.
#[local] Instance ascii_copier : Copier (cell:=C) (C:=ascii) mret := flat_copier ascii.
#[local] Instance Condition_copier : Copier (cell:=C) (C:=Condition) mret := flat_copier Condition.
#[local] Instance Param_copier : Copier (cell:=C) (C:=Param) mret := flat_copier Param.
#[local] Instance VMReference_copier : Copier (cell:=C) (C:=VMReference) mret := flat_copier VMReference.
#[local] Instance LocalObjectReference_copier : Copier (cell:=C) (C:=LocalObjectReference) mret := flat_copier LocalObjectReference.
#[local] Instance ObjectReference_copier : Copier (cell:=C) (C:=ObjectReference) mret := flat_copier ObjectReference.

(** A struct copy is the copy of the tuple of its fields. *)
Tactic Notation "struct_copy" reference(into) reference(fields) uconstr(build) uconstr(copyT) :=
  refine (struct_copier _ build _ copyT _ _ _);
  [ intros; repeat match goal with p : prod _ _ |- _ => destruct p | p : plain _ |- _ => destruct p end; done
  | intros [] ?; unfold into, copy_pair, fields, mbind, M_bind, mret, M_ret; cbn; repeat case_match; simplify_eq; done ].

#[local] Instance Time_DeepCopyInto_copier : Copier (cell:=C) Time_DeepCopyInto := flat_copier Time.

#[local] Instance Condition_DeepCopyInto_copier : Copier (cell:=C) Condition_DeepCopyInto.
Proof. intros h [] a [= <-]. eexists _, h. split; [done|]. cbn. set_solver. Qed.

#[local] Instance FieldsV1_DeepCopyInto_copier : Copier (cell:=C) FieldsV1_DeepCopyInto.
Proof.
  struct_copy FieldsV1_DeepCopyInto FieldsV1_fields mkFieldsV1
    (copy_slice (cell:=C) (T:=ascii) mret).
Qed.

#[local] Instance OwnerReference_DeepCopyInto_copier : Copier (cell:=C) OwnerReference_DeepCopyInto.
Proof.
  struct_copy OwnerReference_DeepCopyInto OwnerRef_fields (λ '(Plain (a, b, c, d), (x, y)), mkOwnerRef a b c d x y)
    (copy_pair (mret (M:=M C)) (copy_pair (copy_ptr (cell:=C) (T:=bool) mret) (copy_ptr (cell:=C) (T:=bool) mret))).
Qed.

#[local] Instance ManagedFieldsEntry_DeepCopyInto_copier : Copier (cell:=C) ManagedFieldsEntry_DeepCopyInto.
Proof.
  struct_copy ManagedFieldsEntry_DeepCopyInto ManagedFieldsEntry_fields (λ '(Plain (a, b, c, d, e), (x, y)), mkManagedFieldsEntry a b c x d y e)
    (copy_pair (mret (M:=M C)) (copy_pair (copy_ptr (cell:=C) Time_DeepCopyInto) (copy_ptr (cell:=C) FieldsV1_DeepCopyInto))).
Qed.

#[local] Instance ObjectMeta_DeepCopyInto_copier : Copier (cell:=C) ObjectMeta_DeepCopyInto.
Proof.
  struct_copy ObjectMeta_DeepCopyInto ObjectMeta_fields (λ '(Plain (a, b, c, d, e, f, g), (i, (j, (k, (l, (m, (n, (o, p)))))))), mkObjectMeta a b c d e f g i j k l m n o p)
    (copy_pair (mret (M:=M C)) (copy_pair Time_DeepCopyInto (copy_pair (copy_ptr (cell:=C) Time_DeepCopyInto) (copy_pair (copy_ptr (cell:=C) (T:=Z) mret) (copy_pair (copy_map (cell:=C)) (copy_pair (copy_map (cell:=C)) (copy_pair (copy_slice (cell:=C) OwnerReference_DeepCopyInto) (copy_pair (copy_slice (cell:=C) (T:=string) mret) (copy_slice (cell:=C) ManagedFieldsEntry_DeepCopyInto))))))))).
Qed.

#[local] Instance ListMeta_DeepCopyInto_copier : Copier (cell:=C) ListMeta_DeepCopyInto.
Proof.
  struct_copy ListMeta_DeepCopyInto ListMeta_fields (λ '(Plain (a, b, c), x), mkListMeta a b c x)
    (copy_pair (mret (M:=M C)) (copy_ptr (cell:=C) (T:=Z) mret)).
Qed.

#[local] Instance RawExtension_DeepCopyInto_copier : Copier (cell:=C) RawExtension_DeepCopyInto.
Proof.
  struct_copy RawExtension_DeepCopyInto RawExt_fields (λ '(x, y), mkRawExt Obj x y)
    (copy_pair (copy_slice (cell:=C) (T:=ascii) mret) (copy_interface Object_DeepCopyObject)).
Qed.

#[local] Instance Parameter_DeepCopyInto_copier : Copier (cell:=C) V1beta1.Parameter_DeepCopyInto := flat_copier Param.
#[local] Instance VirtualMachineReference_DeepCopyInto_copier : Copier (cell:=C) V1beta1.VirtualMachineReference_DeepCopyInto :=
  flat_copier VMReference.

#[local] Instance V1beta1_VirtualMachineTemplateSpec_DeepCopyInto_copier : Copier (cell:=C) V1beta1.VirtualMachineTemplateSpec_DeepCopyInto.
Proof.
  struct_copy V1beta1.VirtualMachineTemplateSpec_DeepCopyInto TemplateSpec_fields (λ '(x, (y, Plain z)), mkTemplateSpec Obj x y z)
    (copy_pair (copy_ptr (cell:=C) RawExtension_DeepCopyInto) (copy_pair (copy_slice (cell:=C) (T:=Param) mret) (mret (M:=M C)))).
Qed.

#[local] Instance V1beta1_VirtualMachineTemplateStatus_DeepCopyInto_copier : Copier (cell:=C) V1beta1.VirtualMachineTemplateStatus_DeepCopyInto.
Proof.
  struct_copy V1beta1.VirtualMachineTemplateStatus_DeepCopyInto TemplateStatus_fields mkTemplateStatus
    (copy_slice (cell:=C) Condition_DeepCopyInto).
Qed.

#[local] Instance V1beta1_VirtualMachineTemplate_DeepCopyInto_copier : Copier (cell:=C) V1beta1.VirtualMachineTemplate_DeepCopyInto.
Proof.
  struct_copy V1beta1.VirtualMachineTemplate_DeepCopyInto Template_fields (λ '(Plain t, (x, (y, z))), mkTemplate Obj t x y z)
    (copy_pair (mret (M:=M C)) (copy_pair ObjectMeta_DeepCopyInto (copy_pair V1beta1.VirtualMachineTemplateSpec_DeepCopyInto V1beta1.VirtualMachineTemplateStatus_DeepCopyInto))).
Qed.

#[local] Instance V1beta1_VirtualMachineTemplateList_DeepCopyInto_copier : Copier (cell:=C) V1beta1.VirtualMachineTemplateList_DeepCopyInto.
Proof.
  struct_copy V1beta1.VirtualMachineTemplateList_DeepCopyInto TemplateList_fields (λ '(Plain t, (x, y)), mkTemplateList Obj t x y)
    (copy_pair (mret (M:=M C)) (copy_pair ListMeta_DeepCopyInto (copy_slice (cell:=C) V1beta1.VirtualMachineTemplate_DeepCopyInto))).
Qed.

#[local] Instance V1beta1_VirtualMachineTemplateRequestSpec_DeepCopyInto_copier : Copier (cell:=C) V1beta1.VirtualMachineTemplateRequestSpec_DeepCopyInto.
Proof.
  struct_copy V1beta1.VirtualMachineTemplateRequestSpec_DeepCopyInto RequestSpecM_fields (λ '(Plain (a, b), (x, y)), mkRequestSpecM a b x y)
    (copy_pair (mret (M:=M C)) (copy_pair (copy_map (cell:=C)) (copy_ptr (cell:=C) (T:=Z) mret))).
Qed.

#[local] Instance V1beta1_VirtualMachineTemplateRequestStatus_DeepCopyInto_copier : Copier (cell:=C) V1beta1.VirtualMachineTemplateRequestStatus_DeepCopyInto.
Proof.
  struct_copy V1beta1.VirtualMachineTemplateRequestStatus_DeepCopyInto RequestStatusM_fields (λ '(x, y), mkRequestStatusM x y)
    (copy_pair (copy_slice (cell:=C) Condition_DeepCopyInto) (copy_ptr (cell:=C) (T:=LocalObjectReference) mret)).
Qed.

#[local] Instance V1beta1_VirtualMachineTemplateRequest_DeepCopyInto_copier : Copier (cell:=C) V1beta1.VirtualMachineTemplateRequest_DeepCopyInto.
Proof.
  struct_copy V1beta1.VirtualMachineTemplateRequest_DeepCopyInto RequestM_fields (λ '(Plain t, (x, (y, z))), mkRequestM t x y z)
    (copy_pair (mret (M:=M C)) (copy_pair ObjectMeta_DeepCopyInto (copy_pair V1beta1.VirtualMachineTemplateRequestSpec_DeepCopyInto V1beta1.VirtualMachineTemplateRequestStatus_DeepCopyInto))).
Qed.

#[local] Instance V1beta1_VirtualMachineTemplateRequestList_DeepCopyInto_copier : Copier (cell:=C) V1beta1.VirtualMachineTemplateRequestList_DeepCopyInto.
Proof.
  struct_copy V1beta1.VirtualMachineTemplateRequestList_DeepCopyInto RequestListM_fields (λ '(Plain t, (x, y)), mkRequestListM t x y)
    (copy_pair (mret (M:=M C)) (copy_pair ListMeta_DeepCopyInto (copy_slice (cell:=C) V1beta1.VirtualMachineTemplateRequest_DeepCopyInto))).
Qed.

#[local] Instance Subresourcesv1beta1_ProcessOptions_DeepCopyInto_copier : Copier (cell:=C) Subresourcesv1beta1.ProcessOptions_DeepCopyInto.
Proof.
  struct_copy Subresourcesv1beta1.ProcessOptions_DeepCopyInto ProcessOptionsM_fields (λ '(Plain t, (x, y)), mkProcessOptionsM t x y)
    (copy_pair (mret (M:=M C)) (copy_pair ObjectMeta_DeepCopyInto (copy_map (cell:=C)))).
Qed.

#[local] Instance Subresourcesv1beta1_ProcessedVirtualMachineTemplate_DeepCopyInto_copier : Copier (cell:=C) Subresourcesv1beta1.ProcessedVirtualMachineTemplate_DeepCopyInto.
Proof.
  struct_copy Subresourcesv1beta1.ProcessedVirtualMachineTemplate_DeepCopyInto ProcessedM_fields (λ '(Plain (t, s), (x, (y, z))), mkProcessedM VM t x y z s)
    (copy_pair (mret (M:=M C)) (copy_pair ObjectMeta_DeepCopyInto (copy_pair (copy_ptr (cell:=C) (T:=ObjectReference) mret) (copy_ptr (cell:=C) VirtualMachine_DeepCopyInto)))).
Qed.

#[local] Instance Subresourcesv1beta1_VirtualMachineTemplate_DeepCopyInto_copier : Copier (cell:=C) Subresourcesv1beta1.VirtualMachineTemplate_DeepCopyInto.
Proof.
  struct_copy Subresourcesv1beta1.VirtualMachineTemplate_DeepCopyInto SubTemplate_fields (λ '(Plain t, x), mkSubTemplate t x)
    (copy_pair (mret (M:=M C)) ObjectMeta_DeepCopyInto).
Qed.

(** C19: [DeepCopy] of every type of the four packages returns a copy with the same
    content that shares no memory with the original: writes through one are
    never seen through the other. *)
Theorem DeepCopy_isolated :
  deep_copies (cell:=C) V1beta1.Parameter_DeepCopy ∧
  deep_copies (cell:=C) V1beta1.VirtualMachineReference_DeepCopy ∧
  deep_copies (cell:=C) V1beta1.VirtualMachineTemplateSpec_DeepCopy ∧
  deep_copies (cell:=C) V1beta1.VirtualMachineTemplateStatus_DeepCopy ∧
  deep_copies (cell:=C) V1beta1.VirtualMachineTemplate_DeepCopy ∧
  deep_copies (cell:=C) V1beta1.VirtualMachineTemplateList_DeepCopy ∧
  deep_copies (cell:=C) V1beta1.VirtualMachineTemplateRequestSpec_DeepCopy ∧
  deep_copies (cell:=C) V1beta1.VirtualMachineTemplateRequestStatus_DeepCopy ∧
  deep_copies (cell:=C) V1beta1.VirtualMachineTemplateRequest_DeepCopy ∧
  deep_copies (cell:=C) V1beta1.VirtualMachineTemplateRequestList_DeepCopy ∧
  deep_copies (cell:=C) V1alpha1.Parameter_DeepCopy ∧
  deep_copies (cell:=C) V1alpha1.VirtualMachineReference_DeepCopy ∧
  deep_copies (cell:=C) V1alpha1.VirtualMachineTemplateSpec_DeepCopy ∧
  deep_copies (cell:=C) V1alpha1.VirtualMachineTemplateStatus_DeepCopy ∧
  deep_copies (cell:=C) V1alpha1.VirtualMachineTemplate_DeepCopy ∧
  deep_copies (cell:=C) V1alpha1.VirtualMachineTemplateList_DeepCopy ∧
  deep_copies (cell:=C) V1alpha1.VirtualMachineTemplateRequestSpec_DeepCopy ∧
  deep_copies (cell:=C) V1alpha1.VirtualMachineTemplateRequestStatus_DeepCopy ∧
  deep_copies (cell:=C) V1alpha1.VirtualMachineTemplateRequest_DeepCopy ∧
  deep_copies (cell:=C) V1alpha1.VirtualMachineTemplateRequestList_DeepCopy ∧
  deep_copies (cell:=C) Subresourcesv1beta1.ProcessOptions_DeepCopy ∧
  deep_copies (cell:=C) Subresourcesv1beta1.ProcessedVirtualMachineTemplate_DeepCopy ∧
  deep_copies (cell:=C) Subresourcesv1beta1.VirtualMachineTemplate_DeepCopy ∧
  deep_copies (cell:=C) Subresourcesv1alpha1.ProcessOptions_DeepCopy ∧
  deep_copies (cell:=C) Subresourcesv1alpha1.ProcessedVirtualMachineTemplate_DeepCopy ∧
  deep_copies (cell:=C) Subresourcesv1alpha1.VirtualMachineTemplate_DeepCopy.
Proof. split_and!; apply copier_deep, _. Qed.

(** [DeepCopyObject] of every API object returns an isolated copy as an
    interface value, and the nil interface for a nil pointer. *)
Theorem DeepCopyObject_isolated :
  deep_copies_object (cell:=C) V1beta1.VirtualMachineTemplate_DeepCopyObject ∧
  deep_copies_object (cell:=C) V1beta1.VirtualMachineTemplateList_DeepCopyObject ∧
  deep_copies_object (cell:=C) V1beta1.VirtualMachineTemplateRequest_DeepCopyObject ∧
  deep_copies_object (cell:=C) V1beta1.VirtualMachineTemplateRequestList_DeepCopyObject ∧
  deep_copies_object (cell:=C) V1alpha1.VirtualMachineTemplate_DeepCopyObject ∧
  deep_copies_object (cell:=C) V1alpha1.VirtualMachineTemplateList_DeepCopyObject ∧
  deep_copies_object (cell:=C) V1alpha1.VirtualMachineTemplateRequest_DeepCopyObject ∧
  deep_copies_object (cell:=C) V1alpha1.VirtualMachineTemplateRequestList_DeepCopyObject ∧
  deep_copies_object (cell:=C) Subresourcesv1beta1.ProcessOptions_DeepCopyObject ∧
  deep_copies_object (cell:=C) Subresourcesv1beta1.ProcessedVirtualMachineTemplate_DeepCopyObject ∧
  deep_copies_object (cell:=C) Subresourcesv1beta1.VirtualMachineTemplate_DeepCopyObject ∧
  deep_copies_object (cell:=C) Subresourcesv1alpha1.ProcessOptions_DeepCopyObject ∧
  deep_copies_object (cell:=C) Subresourcesv1alpha1.ProcessedVirtualMachineTemplate_DeepCopyObject ∧
  deep_copies_object (cell:=C) Subresourcesv1alpha1.VirtualMachineTemplate_DeepCopyObject.
Proof. split_and!; apply copier_deep_object, _. Qed.
End Correct.

(** ** A concrete heap

    Objects are tables of strings (the content of an unstructured object),
    machines are slices of strings. *)
Module Example.
#[export] Instance table_externals : Externals (gomap string) (slice string) (option (gmap string string)) (option (list string)) := {|
  vm_zero := nil_slice;
  obj_rep := gomap_rep;
  vm_rep := slice_rep;
  Object_DeepCopyObject := copy_map;
  VirtualMachine_DeepCopyInto := copy_slice mret;
|}.

#[export] Instance table_laws : ExternalsLaws (gomap string) (slice string) (option (gmap string string)) (option (list string)).
Proof.
  split.
  - apply gomap_laws.
  - apply (slice_laws (H0:=flat_rep string) (H1:=flat_laws string)).
  - apply map_copier.
  - apply (slice_copier (H0:=flat_rep string) (H1:=flat_laws string)), flat_copier.
Qed.

Local Abbreviation Cells := (cell (gomap string) (slice string)).

(** A template with labels, one parameter and a decoded machine. *)
Definition heap0 : gmap positive Cells := {[
  1%positive := CTemplates _ _ [mkTemplate _ (mkTypeMeta "VirtualMachineTemplate" "template.kubevirt.io/v1beta1")
    (mkObjectMeta "small" "" "default" "" "u1" "7" 1 (mkTime 5) nil_ptr nil_ptr (GoMap 2) nil_map nil_slice nil_slice nil_slice)
    (mkTemplateSpec _ (Ptr 3 0) (Slice 4 0 1) "hello") (mkTemplateStatus nil_slice)];
  2%positive := CMaps _ _ [{[ "app" := "web" ]}];
  3%positive := CRawExts _ _ [mkRawExt _ nil_slice (Some (GoMap 5))];
  4%positive := CParams _ _ [value_param "NAME" "vm"; value_param "SPARE" ""];
  5%positive := CMaps _ _ [{[ "kind" := "VirtualMachine" ]}]
]}.

Definition template0 : ptr (Template (gomap string)) := Ptr 1 0.

(** What it holds. *)
Definition content0 := Eval vm_compute in read heap0 template0.

Lemma read_template0 : read heap0 template0 = content0.
Proof. vm_compute. reflexivity. Qed.

Lemma DeepCopy_isolated_witness : ∃ p' h',
  V1beta1.VirtualMachineTemplate_DeepCopy template0 heap0 = Some (p', h') ∧
  read h' template0 = content0 ∧ read h' p' = content0 ∧ reach h' template0 ## reach h' p'.
Proof.
  destruct DeepCopy_isolated as (_ & _ & _ & _ & Hdc & _).
  edestruct (Hdc heap0 template0) as (p' & h' & Hrun & Ha & Hb & Hd & _); [apply read_template0|].
  exact (ex_intro _ p' (ex_intro _ h' (conj Hrun (conj Ha (conj Hb Hd))))).
Defined.

Lemma DeepCopyObject_isolated_witness :
  (V1beta1.VirtualMachineTemplate_DeepCopyObject nil_ptr heap0 = Some (None, heap0)) ∧
  ∃ p' h',
  V1beta1.VirtualMachineTemplate_DeepCopyObject template0 heap0 = Some (Some p', h') ∧
  read h' template0 = content0 ∧ read h' p' = content0 ∧ reach h' template0 ## reach h' p'.
Proof.
  destruct DeepCopyObject_isolated as (Hdc & _). split.
  - exact (Hdc heap0 nil_ptr None eq_refl).
  - destruct (Hdc heap0 template0 _ read_template0) as (p' & h' & Hrun & Ha & Hb & Hd & _).
    exact (ex_intro _ p' (ex_intro _ h' (conj Hrun (conj Ha (conj Hb Hd))))).
Defined.
End Example.
