(* ===== verification/Codec.v ===== *)
(** * encoding/json: structs with tags

    [json.Marshal] and [json.Unmarshal] of Go structs, as codecs between
    values and JSON trees: one combinator per kind of field ([omitempty],
    pointers, slices, maps, embedded structs), and the round trip law each
    combinator keeps.  Keys are compared exactly: the decoder's fallback to a
    comparison that ignores case only concerns members no encoder writes. *)

From Stdlib Require Import Ascii ZArith Lia.
From stdpp Require Import prelude strings gmap sorting.
From S2P Require Import Prelude GoStrings Regex Json.

(** ** Integers *)

Definition digit_char (d : Z) : ascii := ascii_of_N (Z.to_N (48 + d)).

(** The decimal digits of [n], in front of [acc]. *)
Fixpoint decimal (fuel : nat) (n : Z) (acc : string) : string :=
  match fuel with
  | 0 => acc
  | S fuel =>
      let acc := String (digit_char (n mod 10)) acc in
      if (n <? 10)%Z then acc else decimal fuel (n / 10) acc
  end.

(** [strconv.Itoa] on 64-bit integers, which have at most 19 digits. *)
Definition Itoa (z : Z) : string :=
  if (z <? 0)%Z then String "-" (decimal 20 (- z) EmptyString) else decimal 20 z EmptyString.

Lemma digits_val_app a s t : digits_val a (s +:+ t) = digits_val (digits_val a s) t.
Proof. revert a. induction s as [|c s IH]; intros a; [done|apply IH]. Qed.

Lemma str_cons_app c s t : String c (s +:+ t) = String c s +:+ t.
Proof. done. Qed.

Lemma digit_char_spec d : (0 ≤ d < 10)%Z →
  is_digit (digit_char d) = true ∧ digit_val (digit_char d) = d ∧ (digit_char d = "0"%char → d = 0%Z).
Proof.
  intros Hd. assert (d = 0 ∨ d = 1 ∨ d = 2 ∨ d = 3 ∨ d = 4 ∨ d = 5 ∨ d = 6 ∨ d = 7 ∨ d = 8 ∨ d = 9)%Z as Hc by lia.
  repeat (destruct Hc as [->|Hc]; [by split_and!|]). subst. by split_and!.
Qed.

Lemma decimal_spec fuel n : (0 ≤ n < 10 ^ Z.of_nat fuel)%Z → 1 ≤ fuel → ∀ acc, ∃ c s,
  decimal fuel n acc = String c s +:+ acc ∧ str_forall is_digit (String c s) = true ∧
  digits_val 0 (String c s) = n ∧ (c = "0"%char → s = EmptyString).
Proof.
  revert n. induction fuel as [|fuel IH]; intros n Hn Hf acc; [lia|].
  assert (0 ≤ n mod 10 < 10)%Z as Hmod by (apply Z.mod_pos_bound; lia).
  destruct (digit_char_spec _ Hmod) as (Hd & Hv & Hz). cbn [decimal].
  destruct (Z.ltb_spec n 10) as [Hlt|Hge].
  - exists (digit_char (n mod 10)), EmptyString. split_and!; [done| |  |done].
    + cbn. by rewrite Hd.
    + cbn. rewrite Hv. rewrite Z.mod_small; lia.
  - assert (1 ≤ fuel) as Hf'. { destruct fuel; [|lia]. cbn in Hn. lia. }
    assert (0 ≤ n / 10 < 10 ^ Z.of_nat fuel)%Z as Hdiv.
    { split; [apply Z.div_pos; lia|]. apply Z.div_lt_upper_bound; [lia|].
      rewrite Nat2Z.inj_succ, Z.pow_succ_r in Hn by lia. lia. }
    destruct (IH (n / 10)%Z Hdiv Hf' (String (digit_char (n mod 10)) acc)) as (c & s & -> & Hall & Hval & Hzero).
    exists c, (s +:+ String (digit_char (n mod 10)) EmptyString).
    rewrite (str_cons_app c s). split_and!.
    + by rewrite str_app_assoc.
    + rewrite str_forall_app, Hall. cbn. by rewrite Hd.
    + rewrite digits_val_app, Hval. cbn. rewrite Hv. pose proof (Z.div_mod n 10). lia.
    + intros Hc. rewrite (Hzero Hc) in Hval. subst c. change (0 = n / 10)%Z in Hval.
      pose proof (Z.div_str_pos n 10). lia.
Qed.

Definition int64 (z : Z) : Prop := (- 2 ^ 63 ≤ z < 2 ^ 63)%Z.

Lemma span_all p s : str_forall p s = true → span p s = (s, EmptyString).
Proof.
  induction s as [|c s IH]; [done|]. cbn. intros Hp. apply andb_true_iff in Hp as [-> Hp].
  by rewrite IH.
Qed.

(** The shape of a decimal literal. *)
Lemma Itoa_shape z : int64 z → ∃ c s,
  Itoa z = (if (z <? 0)%Z then String "-" (String c s) else String c s) ∧
  str_forall is_digit (String c s) = true ∧ digits_val 0 (String c s) = Z.abs z ∧
  (c = "0"%char → s = EmptyString).
Proof.
  unfold int64, Itoa. intros Hz.
  destruct (decimal_spec 20 (Z.abs z)) with (acc := EmptyString) as (c & s & Heq & Hall & Hv & H0); [lia|lia|].
  exists c, s. rewrite str_app_nil_r in Heq. split; [|done]. destruct (Z.ltb_spec z 0).
  - by rewrite <- Heq, Z.abs_neq by lia.
  - by rewrite <- Heq, Z.abs_eq by lia.
Qed.

Lemma is_digit_not c (d : ascii) : is_digit c = true → is_digit d = false → (c =? d)%char = false.
Proof. intros Hc Hd. destruct (Ascii.eqb_spec c d); [congruence|done]. Qed.

Lemma Itoa_Atoi z : int64 z → Atoi (Itoa z) = Ok z.
Proof.
  intros Hz. destruct (Itoa_shape z Hz) as (c & s & -> & Hall & Hv & _). unfold int64 in Hz.
  assert (is_digit c = true) as Hc by (cbn in Hall; by apply andb_true_iff in Hall as [? _]).
  unfold Atoi. destruct (Z.ltb_spec z 0).
  - change (("-" =? "-")%char) with true. cbv iota. rewrite Hall. cbv zeta. rewrite Hv.
    rewrite (proj2 (Z.leb_le _ _)); [f_equal|]; unfold max_int; lia.
  - rewrite (is_digit_not c "-") by done. rewrite (is_digit_not c "+") by done. cbv iota. rewrite Hall. cbv zeta. rewrite Hv.
    rewrite (proj2 (Z.leb_le _ _)); [f_equal|]; unfold max_int; lia.
Qed.

Lemma Itoa_number z : int64 z → scan_number (Itoa z) = Some (Itoa z, EmptyString).
Proof.
  intros Hz. destruct (Itoa_shape z Hz) as (c & s & -> & Hall & Hv & H0). unfold int64 in Hz.
  assert (is_digit c = true) as Hc by (cbn in Hall; by apply andb_true_iff in Hall as [? _]).
  set (int := if (z <? 0)%Z then String "-" (String c s) else String c s).
  assert (scan_int int = Some (int, EmptyString)) as Hscan.
  { subst int. destruct (z <? 0)%Z; cbv beta delta [scan_int] iota.
    - change (("-" =? "-")%char) with true. cbv iota. destruct (Ascii.eqb_spec c "0").
      + subst c. by rewrite (H0 eq_refl).
      + by rewrite Hc, (span_all _ _ Hall).
    - rewrite (is_digit_not c "-") by done. destruct (Ascii.eqb_spec c "0").
      + subst c. by rewrite (H0 eq_refl).
      + by rewrite Hc, (span_all _ _ Hall). }
  unfold scan_number. rewrite Hscan. cbn [mbind option_bind scan_frac scan_exp].
  assert (magnitude int "" "" = (Z.abs z, 0%Z)) as Hmag.
  { unfold magnitude. rewrite str_app_nil_r. cbn. f_equal. subst int.
    destruct (z <? 0)%Z; [done|]. by rewrite (is_digit_not c "-"). }
  unfold overflows_float64. rewrite Hmag.
  assert ((2 ^ 1024 - 2 ^ 970 <=? Z.abs z * 10 ^ 0)%Z = false) as Hlim.
  { apply Z.leb_gt. assert (2 ^ 64 < 2 ^ 1024 - 2 ^ 970)%Z by (vm_compute; reflexivity). lia. }
  rewrite Hlim. cbn -[Z.eqb]. rewrite str_app_nil_r. by destruct (Z.abs z =? 0)%Z.
Qed.

(** ** Codecs

    [j_ok] and [f_ok] are the values the round trip covers. *)
Record jcodec (A : Type) : Type := mkJ {
  j_enc : A → res error json;
  j_dec : json → res error A;
  j_ok : A → Prop;
}.
Arguments mkJ {A} _ _ _.
Arguments j_enc {A} _ _.
Arguments j_dec {A} _ _.
Arguments j_ok {A} _ _.

(** The members of an object that belong to some fields of a struct. *)
Record fcodec (A : Type) : Type := mkF {
  f_keys : list string;
  f_enc : A → res error (list (string * json));
  f_dec : list (string * json) → res error A;
  f_ok : A → Prop;
}.
Arguments mkF {A} _ _ _ _.
Arguments f_keys {A} _.
Arguments f_enc {A} _ _.
Arguments f_dec {A} _ _.
Arguments f_ok {A} _ _.

Definition utf8_string (s : string) : Prop := valid_utf8 s = true.

(** *** Values; [null] leaves the zero value. *)
Definition jstr : jcodec string := mkJ (λ s, Ok (JStr s))
  (λ j, match j with JStr s => Ok s | JNull => Ok EmptyString | _ => Err json_error end)
  utf8_string.

Definition jbool : jcodec bool := mkJ (λ b, Ok (JBool b))
  (λ j, match j with JBool b => Ok b | JNull => Ok false | _ => Err json_error end)
  (λ _, True).

(** Signed integers of a width; a number with a fraction, an exponent or out
    of range is an error. *)
Definition jint (bits : Z) : jcodec Z := mkJ (λ z, Ok (JNum (Itoa z)))
  (λ j, match j with
        | JNum lit =>
            z ← Atoi lit;
            if bool_decide (- 2 ^ (bits - 1) ≤ z < 2 ^ (bits - 1))%Z then Ok z else Err json_error
        | JNull => Ok 0%Z
        | _ => Err json_error
        end)
  (λ z, - 2 ^ (bits - 1) ≤ z < 2 ^ (bits - 1))%Z.

Definition jlist {A} (c : jcodec A) : jcodec (list A) := mkJ
  (λ l, l' ← mapM (j_enc c) l; Ok (JArr l'))
  (λ j, match j with JArr l => mapM (j_dec c) l | JNull => Ok [] | _ => Err json_error end)
  (Forall (j_ok c)).

(** A [map[string]string]; the encoder sorts the keys. *)
Definition key_le (x y : string * string) : Prop := String.leb x.1 y.1 = true.
#[export] Instance key_le_dec x y : Decision (key_le x y).
Proof. unfold key_le. apply _. Defined.

Definition jmap : jcodec (gmap string string) := mkJ
  (λ m, Ok (JObj (prod_map id JStr <$> merge_sort key_le (map_to_list m))))
  (λ j, match j with
        | JObj kvs => l ← mapM (λ kv, v ← j_dec jstr kv.2; Ok (kv.1, v)) kvs; Ok (list_to_map l)
        | JNull => Ok ∅
        | _ => Err json_error
        end)
  (λ m, ∀ k v, m !! k = Some v → utf8_string k ∧ utf8_string v).

Definition jobj {A} (f : fcodec A) : jcodec A := mkJ
  (λ x, kvs ← f_enc f x; Ok (JObj kvs))
  (λ j, match j with JObj kvs => f_dec f kvs | JNull => f_dec f [] | _ => Err json_error end)
  (f_ok f).

(** *** Fields *)

(** A field with key [k], left out when [omit] says so; an absent member
    leaves the zero value. *)
Definition field {A} (omit : A → bool) (k : string) (c : jcodec A) (zero : A) : fcodec A := mkF [k]
  (λ x, if omit x then Ok [] else j ← j_enc c x; Ok [(k, j)])
  (λ kvs, match assoc_get k kvs with None => Ok zero | Some j => j_dec c j end)
  (j_ok c).

Definition str_empty (s : string) : bool := (s =? EmptyString)%string.

(** Strings, integers and booleans with [omitempty], and strings without. *)
Definition fstr (k : string) : fcodec string := field (λ _, false) k jstr EmptyString.
Definition fstr_omit (k : string) : fcodec string := field str_empty k jstr EmptyString.
Definition fint_omit (k : string) (bits : Z) : fcodec Z := field (Z.eqb 0) k (jint bits) 0%Z.
Definition fbool_omit (k : string) : fcodec bool := field negb k jbool false.
Definition flist_omit {A} (k : string) (c : jcodec A) : fcodec (list A) :=
  field (λ l, bool_decide (l = [])) k (jlist c) [].
Definition fmap_omit (k : string) : fcodec (gmap string string) :=
  field (λ m, bool_decide (m = ∅)) k jmap ∅.

(** A pointer with [omitempty]. *)
Definition fptr {A} (k : string) (c : jcodec A) : fcodec (option A) := mkF [k]
  (λ x, match x with None => Ok [] | Some x => j ← j_enc c x; Ok [(k, j)] end)
  (λ kvs, match assoc_get k kvs with None | Some JNull => Ok None | Some j => x ← j_dec c j; Ok (Some x) end)
  (λ x, match x with None => True | Some x => j_ok c x end).

(** A pointer without it; [strict] asks for a value. *)
Definition fptr_always {A} (strict : bool) (k : string) (c : jcodec A) : fcodec (option A) := mkF [k]
  (λ x, match x with None => Ok [(k, JNull)] | Some x => j ← j_enc c x; Ok [(k, j)] end)
  (λ kvs, match assoc_get k kvs with None | Some JNull => Ok None | Some j => x ← j_dec c j; Ok (Some x) end)
  (λ x, match x with None => strict = false | Some x => j_ok c x end).

(** A field with an additional condition on its value. *)
Definition fsuch {A} (P : A → Prop) (f : fcodec A) : fcodec A :=
  mkF (f_keys f) (f_enc f) (f_dec f) (λ x, P x ∧ f_ok f x).

(** Fields next to each other. *)
Definition fpair {A B} (f : fcodec A) (g : fcodec B) : fcodec (A * B) := mkF (f_keys f ++ f_keys g)
  (λ p, a ← f_enc f p.1; b ← f_enc g p.2; Ok (a ++ b))
  (λ kvs, a ← f_dec f kvs; b ← f_dec g kvs; Ok (a, b))
  (λ p, f_ok f p.1 ∧ f_ok g p.2).

(** A struct as the tuple of its fields. *)
Definition fstruct {S T} (fields : S → T) (build : T → S) (f : fcodec T) : fcodec S := mkF (f_keys f)
  (λ s, f_enc f (fields s))
  (λ kvs, t ← f_dec f kvs; Ok (build t))
  (λ s, f_ok f (fields s)).

Infix "⊕" := fpair (at level 60, right associativity).

(** ** Laws *)

(** Within height [H], every covered value is encoded, as a well-formed tree
    that decodes to it. *)
Class JLaw {A} (c : jcodec A) (H : Z) : Prop :=
  j_law x : j_ok c x → ∃ j, j_enc c x = Ok j ∧ j_dec c j = Ok x ∧ json_ok j ∧ (height j ≤ H)%Z.

(** The encoding is never [null], which a pointer could not tell from nil. *)
Class JNonNull {A} (c : jcodec A) : Prop :=
  j_nonnull x j : j_ok c x → j_enc c x = Ok j → j ≠ JNull.

(** Decoding only looks at the members with its own keys. *)
Class FLaw {A} (f : fcodec A) (H : Z) : Prop :=
  f_law x : NoDup (f_keys f) → f_ok f x → ∃ kvs, f_enc f x = Ok kvs ∧ kvs.*1 `sublist_of` f_keys f ∧
    Forall (λ kv, json_ok kv.2 ∧ (height kv.2 ≤ H)%Z) kvs ∧
    ∀ kvs', (∀ k, k ∈ f_keys f → assoc_get k kvs' = assoc_get k kvs) → f_dec f kvs' = Ok x.

Definition keys_ok (ks : list string) : bool := bool_decide (NoDup ks) && forallb valid_utf8 ks.

#[export] Instance jstr_law H : TCEq (0 <=? H)%Z true → JLaw jstr H.
Proof. intros HH%TCEq_eq%Z.leb_le s Hs. exists (JStr s). by split_and!. Qed.

#[export] Instance jbool_law H : TCEq (0 <=? H)%Z true → JLaw jbool H.
Proof. intros HH%TCEq_eq%Z.leb_le s _. exists (JBool s). by split_and!. Qed.

Lemma int_bits bits z : (1 ≤ bits ≤ 64)%Z → (- 2 ^ (bits - 1) ≤ z < 2 ^ (bits - 1))%Z → int64 z.
Proof.
  intros Hb Hz. unfold int64. assert (2 ^ (bits - 1) ≤ 2 ^ 63)%Z by (apply Z.pow_le_mono_r; lia). lia.
Qed.

#[export] Instance jint_law bits H :
  TCEq (0 <=? H)%Z true → TCEq ((1 <=? bits) && (bits <=? 64))%Z true → JLaw (jint bits) H.
Proof.
  intros HH%TCEq_eq%Z.leb_le Hb%TCEq_eq. rewrite !andb_true_iff, !Z.leb_le in Hb. intros z Hz. cbn in Hz.
  pose proof (int_bits bits z ltac:(lia) Hz) as Hi.
  exists (JNum (Itoa z)). cbn. rewrite Itoa_Atoi by done. cbn. rewrite bool_decide_true by done.
  split_and!; [done..| |lia]. by apply Itoa_number.
Qed.

Lemma jlist_law_max {A} (c : jcodec A) H l : JLaw c H → (0 ≤ H)%Z → Forall (j_ok c) l → ∃ js,
  mapM (j_enc c) l = Ok js ∧ mapM (j_dec c) js = Ok l ∧ foldr and True (json_ok <$> js) ∧
  (foldr Z.max 0 (height <$> js) ≤ H)%Z.
Proof.
  intros Hc HH. induction 1 as [|x l Hx _ (js & He & Hd & Hok & Hh)]; [exists []; by split_and!|].
  destruct (Hc x Hx) as (j & Hje & Hjd & Hjok & Hjh). exists (j :: js). cbn.
  rewrite Hje, Hjd. cbn. rewrite He, Hd. split_and!; [done..|lia].
Qed.

#[export] Instance jlist_law {A} (c : jcodec A) H : JLaw c (H - 1) → TCEq (1 <=? H)%Z true → JLaw (jlist c) H.
Proof.
  intros Hc HH%TCEq_eq%Z.leb_le l Hl.
  destruct (jlist_law_max c (H - 1) l Hc ltac:(lia) Hl) as (js & He & Hd & Hok & Hh).
  exists (JArr js). cbn. rewrite He. cbn. split_and!; [done..|lia].
Qed.

Lemma mapM_strings (l : list (string * string)) :
  mapM (λ kv, v ← j_dec jstr kv.2; Ok (kv.1, v)) (prod_map id JStr <$> l) = Ok l.
Proof. induction l as [|[k v] l IH]; [done|]. cbn in *. by rewrite IH. Qed.

#[export] Instance jmap_law H : TCEq (1 <=? H)%Z true → JLaw jmap H.
Proof.
  intros HH%TCEq_eq%Z.leb_le m Hm. eexists. split; [done|].
  pose proof (merge_sort_Permutation key_le (map_to_list m)) as Hperm.
  set (l := merge_sort key_le (map_to_list m)) in *. clearbody l.
  assert ((prod_map id JStr <$> l).*1 = l.*1) as Hkeys.
  { rewrite <- list_fmap_compose. by apply list_fmap_ext. }
  split_and!.
  - cbn. setoid_rewrite mapM_strings. cbn. f_equal.
    rewrite <- (list_to_map_to_list m) at 1. apply (list_to_map_proper (M:=gmap string)); [|done].
    rewrite Hperm. apply NoDup_fst_map_to_list.
  - cbn. split; [rewrite Hkeys, Hperm; apply NoDup_fst_map_to_list|].
    apply foldr_and, Forall_fmap, Forall_forall. intros [k v] Hkv. cbn.
    apply Hm. apply elem_of_map_to_list. by rewrite <- Hperm.
  - cbn. enough (foldr Z.max 0 ((λ kv : string * json, height kv.2) <$> (prod_map id JStr <$> l)) = 0)%Z by lia.
    clear. induction l as [|[k v] l IH]; [done|]. cbn in *. by rewrite IH.
Qed.

Lemma foldr_max_le {A} (f : A → Z) l H : (0 ≤ H)%Z → Forall (λ x, f x ≤ H)%Z l → (foldr Z.max 0 (f <$> l) ≤ H)%Z.
Proof. intros HH. induction 1; cbn; lia. Qed.

#[export] Instance jobj_law {A} (f : fcodec A) H :
  FLaw f (H - 1) → TCEq ((1 <=? H)%Z && keys_ok (f_keys f)) true → JLaw (jobj f) H.
Proof.
  intros Hf Hk%TCEq_eq x Hx. unfold keys_ok in Hk.
  rewrite !andb_true_iff, Z.leb_le, bool_decide_eq_true, forallb_forall in Hk. destruct Hk as (HH & Hnd & Hutf8).
  destruct (Hf x Hnd Hx) as (kvs & He & Hsub & Hall & Hd).
  exists (JObj kvs). split; [cbn; by rewrite He|]. split; [by apply Hd|]. split.
  - cbn. split; [by eapply sublist_NoDup|]. apply foldr_and, Forall_forall. intros [k v] Hkv.
    split; [|by apply (proj1 (Forall_forall _ _) Hall (k, v))]. apply Hutf8.
    apply list_elem_of_In. eapply elem_of_sublist; [|done]. apply list_elem_of_fmap. by exists (k, v).
  - enough (foldr Z.max 0 ((λ kv : string * json, height kv.2) <$> kvs) ≤ H - 1)%Z by (cbn; lia).
    apply foldr_max_le; [lia|]. eapply Forall_impl; [exact Hall|]. by intros ? [].
Qed.

#[export] Instance field_law {A} omit k (c : jcodec A) zero H :
  JLaw c H → (∀ x, omit x = true → x = zero) → FLaw (field omit k c zero) H.
Proof.
  intros Hc Hz x _ Hx. cbn in Hx. destruct (Hc x Hx) as (j & He & Hd & Hok & Hh). cbn.
  destruct (omit x) eqn:Ho.
  - exists []. split_and!; [done|apply sublist_nil_l|done|]. intros kvs' Heq.
    rewrite (Heq k) by set_solver. cbn. by rewrite (Hz x Ho).
  - exists [(k, j)]. rewrite He. split_and!; [done|done|by repeat constructor|]. intros kvs' Heq.
    rewrite (Heq k) by set_solver. cbn. by rewrite String.eqb_refl.
Qed.

Ltac solve_omit := let H := fresh in intros ? H; unfold str_empty in H;
  (discriminate H || (by apply String.eqb_eq in H) || (by apply Z.eqb_eq in H) || (by apply bool_decide_eq_true in H)
   || (by apply negb_true_iff in H)).

#[export] Instance fstr_law k H : TCEq (0 <=? H)%Z true → FLaw (fstr k) H.
Proof. intros. apply field_law; [apply _|solve_omit]. Qed.
#[export] Instance fstr_omit_law k H : TCEq (0 <=? H)%Z true → FLaw (fstr_omit k) H.
Proof. intros. apply field_law; [apply _|solve_omit]. Qed.
#[export] Instance fint_omit_law k bits H : JLaw (jint bits) H → FLaw (fint_omit k bits) H.
Proof. intros. apply field_law; [apply _|solve_omit]. Qed.
#[export] Instance fbool_omit_law k H : TCEq (0 <=? H)%Z true → FLaw (fbool_omit k) H.
Proof. intros. apply field_law; [apply _|solve_omit]. Qed.
#[export] Instance flist_omit_law {A} k (c : jcodec A) H : JLaw (jlist c) H → FLaw (flist_omit k c) H.
Proof. intros. apply field_law; [apply _|solve_omit]. Qed.
#[export] Instance fmap_omit_law k H : TCEq (1 <=? H)%Z true → FLaw (fmap_omit k) H.
Proof. intros. apply field_law; [apply _|solve_omit]. Qed.


#[export] Instance fptr_law {A} k (c : jcodec A) H : JLaw c H → JNonNull c → FLaw (fptr k c) H.
Proof.
  intros Hc Hn [x|] _ Hx; cbn in *.
  - destruct (Hc x Hx) as (j & He & Hd & Hok & Hh). exists [(k, j)]. rewrite He.
    split_and!; [done|done|by repeat constructor|]. intros kvs' Heq.
    rewrite (Heq k) by set_solver. cbn. rewrite String.eqb_refl. pose proof (Hn x j Hx He).
    destruct j; try done; by rewrite Hd.
  - exists []. split_and!; [done|apply sublist_nil_l|done|]. intros kvs' Heq. by rewrite (Heq k) by set_solver.
Qed.

#[export] Instance fptr_always_law {A} strict k (c : jcodec A) H : TCEq (0 <=? H)%Z true →
  JLaw c H → JNonNull c → FLaw (fptr_always strict k c) H.
Proof.
  intros HH%TCEq_eq%Z.leb_le Hc Hn [x|] _ Hx; cbn in *.
  - destruct (Hc x Hx) as (j & He & Hd & Hok & Hh). exists [(k, j)]. rewrite He.
    split_and!; [done|done|by repeat constructor|]. intros kvs' Heq.
    rewrite (Heq k) by set_solver. cbn. rewrite String.eqb_refl. pose proof (Hn x j Hx He).
    destruct j; try done; by rewrite Hd.
  - exists [(k, JNull)]. split_and!; [done|done|by repeat constructor|]. intros kvs' Heq.
    rewrite (Heq k) by set_solver. cbn. by rewrite String.eqb_refl.
Qed.

#[export] Instance fsuch_law {A} P (f : fcodec A) H : FLaw f H → FLaw (fsuch P f) H.
Proof. intros Hf x Hnd [_ Hx]. by apply Hf. Qed.

Lemma assoc_get_app {A} k (l1 l2 : list (string * A)) :
  assoc_get k (l1 ++ l2) = match assoc_get k l1 with Some v => Some v | None => assoc_get k l2 end.
Proof. induction l1 as [|[j v] l1 IH]; [done|]. cbn. by destruct (k =? j)%string. Qed.

#[export] Instance fpair_law {A B} (f : fcodec A) (g : fcodec B) H : FLaw f H → FLaw g H → FLaw (f ⊕ g) H.
Proof.
  intros Hf Hg [x y] Hnd [Hx Hy]. cbn in *. apply NoDup_app in Hnd as (Hnf & Hdis & Hng).
  destruct (Hf x Hnf Hx) as (a & Hea & Hsa & Hja & Hda).
  destruct (Hg y Hng Hy) as (b & Heb & Hsb & Hjb & Hdb).
  exists (a ++ b). rewrite Hea, Heb. cbn. split_and!.
  - done.
  - rewrite fmap_app. by apply sublist_app.
  - by apply Forall_app.
  - intros kvs' Heq. rewrite Hda, Hdb; [done| |].
    + intros k Hk. rewrite Heq by set_solver. rewrite assoc_get_app.
      rewrite (proj2 (assoc_get_None k a)); [done|]. intros Hin.
      apply (Hdis k); [by eapply elem_of_sublist|done].
    + intros k Hk. rewrite Heq by set_solver. rewrite assoc_get_app. destruct (assoc_get k a) eqn:Ha; [done|].
      apply assoc_get_None. intros Hin. apply (Hdis k); [done|by eapply elem_of_sublist].
Qed.

Lemma fstruct_law {S T} (fields : S → T) (build : T → S) (f : fcodec T) H :
  (∀ s, build (fields s) = s) → FLaw f H → FLaw (fstruct fields build f) H.
Proof.
  intros Hb Hf s Hnd Hs. destruct (Hf (fields s) Hnd Hs) as (kvs & He & Hsub & Hall & Hd).
  exists kvs. split_and!; [done..|]. intros kvs' Heq. cbn. by rewrite (Hd kvs' Heq); cbn; rewrite Hb.
Qed.

Lemma FLaw_mono {A} (f : fcodec A) H H' : FLaw f H → (H ≤ H')%Z → FLaw f H'.
Proof.
  intros Hf HH x Hnd Hx. destruct (Hf x Hnd Hx) as (kvs & He & Hsub & Hall & Hd).
  exists kvs. split_and!; [done..| |done]. eapply Forall_impl; [exact Hall|]. intros ? []. split; [done|lia].
Qed.

#[export] Instance jstr_nonnull : JNonNull jstr.
Proof. by intros x j _ [= <-]. Qed.
#[export] Instance jbool_nonnull : JNonNull jbool.
Proof. by intros x j _ [= <-]. Qed.
#[export] Instance jint_nonnull bits : JNonNull (jint bits).
Proof. by intros x j _ [= <-]. Qed.
#[export] Instance jobj_nonnull {A} (f : fcodec A) : JNonNull (jobj f).
Proof. intros x j _. cbn. by destruct (f_enc f x); intros [= <-]. Qed.

(** ** A whole document *)

(** [json.Marshal] and [json.Unmarshal] of a value through its text. *)
Definition marshal {A} (c : jcodec A) (x : A) : res error string := j ← j_enc c x; Ok (print j).
Definition unmarshal {A} (c : jcodec A) (s : string) : res error A := j ← Unmarshal s; j_dec c j.

Lemma unmarshal_marshal {A} (c : jcodec A) H x : JLaw c H → (H ≤ maxNestingDepth)%Z → j_ok c x →
  ∃ data, marshal c x = Ok data ∧ unmarshal c data = Ok x.
Proof.
  intros Hc HH Hx. destruct (Hc x Hx) as (j & He & Hd & Hok & Hh). exists (print j).
  unfold marshal, unmarshal. rewrite He. split; [done|]. rewrite Unmarshal_print by (done || lia). done.
Qed.
