(* ===== verification/Wire.v ===== *)
(** * api/core: the JSON form of the API objects

    The structs of api/core/v1beta1 (equal, tag for tag, to those of
    api/core/v1alpha1) with every field that is encoded, and their codecs.
    A nil and an empty slice or map are not told apart: [omitempty] drops
    both, and the decoder never builds an empty one. *)

From Stdlib Require Import Ascii ZArith Lia.
From stdpp Require Import prelude strings gmap sorting.
From S2P Require Import Prelude GoStrings Regex Json Visit Api Codec.

(** ** Time and raw documents *)

Definition leap_year (y : Z) : bool :=
  ((y mod 4 =? 0) && (negb (y mod 100 =? 0) || (y mod 400 =? 0)))%Z.

Definition days_in_month (y m : Z) : Z :=
  (if m =? 2 then if leap_year y then 29 else 28
   else if (m =? 4) || (m =? 6) || (m =? 9) || (m =? 11) then 30 else 31)%Z.

(** The number written in [n] decimal digits, and the rest. *)
Definition fixed_number (n : nat) (s : string) : option (Z * string) :=
  let ds := str_take n s in
  if (String.length ds =? n)%nat && str_forall is_digit ds then Some (digits_val 0 ds, str_drop n s) else None.

Definition expect_char (c : ascii) (s : string) : option string :=
  match s with String d s' => if (c =? d)%char then Some s' else None | EmptyString => None end.

(** Texts of RFC 3339 in UTC with whole seconds, what [Time.MarshalJSON]
    writes. *)
Definition rfc3339 (s : string) : bool :=
  str_forall is_ascii s &&
  match
    '(y, s) ← fixed_number 4 s; s ← expect_char "-" s; '(mo, s) ← fixed_number 2 s; s ← expect_char "-" s;
    '(d, s) ← fixed_number 2 s; s ← expect_char "T" s; '(h, s) ← fixed_number 2 s; s ← expect_char ":" s;
    '(mi, s) ← fixed_number 2 s; s ← expect_char ":" s; '(se, s) ← fixed_number 2 s; s ← expect_char "Z" s;
    Some (y, mo, d, h, mi, se, s)
  with
  | Some (y, mo, d, h, mi, se, s) =>
      (1 <=? mo)%Z && (mo <=? 12)%Z && (1 <=? d)%Z && (d <=? days_in_month y mo)%Z && (h <=? 23)%Z &&
      (mi <=? 59)%Z && (se <=? 59)%Z && str_empty s
  | None => false
  end.

(** [metav1.Time] as its text, empty for the zero time, which is encoded as
    [null]. *)
Definition jtime : jcodec string := mkJ
  (λ t, Ok (if str_empty t then JNull else JStr t))
  (λ j, match j with
        | JStr t => if rfc3339 t then Ok t else Err json_error
        | JNull => Ok EmptyString
        | _ => Err json_error
        end)
  (λ t, t = EmptyString ∨ rfc3339 t = true).

(** A time behind a pointer is not the zero time. *)
Definition jtime_set : jcodec string := mkJ (j_enc jtime) (j_dec jtime) (λ t, rfc3339 t = true).

(** How deep an embedded document may be nested, well within the limit of the
    decoder. *)
Definition raw_height : Z := 9000.

Section Wire.
Context (typed_marshal : gval → res error json).
(** Whether the conditions of the published schemas are asked for: required
    fields set, keyed lists without duplicates, documents that are objects. *)
Context (strict : bool).

Definition raw_text_ok (s : string) : Prop :=
  ∃ j, s = print j ∧ json_ok j ∧ j ≠ JNull ∧ (height j ≤ raw_height)%Z ∧
    (strict = true → ∃ kvs, j = JObj kvs).

(** [metav1.FieldsV1]: bytes that are a document of their own. The encoder
    drops white space; the model reprints the document, which decodes to the
    same value. *)
Definition jraw : jcodec string := mkJ
  (λ s, if str_empty s then Ok JNull else Unmarshal s)
  (λ j, Ok (match j with JNull => EmptyString | _ => print j end))
  raw_text_ok.

(** [runtime.RawExtension]: the bytes if there are any, else the object. *)
Definition jrawext : jcodec RawExtension := mkJ
  (λ re, if str_empty (Raw re) then
           match RE_Object re with
           | None | Some (OUnstructured None) => Ok JNull
           | Some (OUnstructured (Some kvs)) => Ok (JObj kvs)
           | Some (OTyped v) => typed_marshal v
           end
         else Unmarshal (Raw re))
  (λ j, Ok (mkRaw (match j with JNull => EmptyString | _ => print j end) None))
  (λ re, raw_text_ok (Raw re) ∧ RE_Object re = None).

(** ** Metadata (k8s.io/apimachinery/pkg/apis/meta/v1) *)

Record WOwnerReference : Type := mkWOwnerReference {
  WO_APIVersion : string; WO_Kind : string; WO_Name : string; WO_UID : string;
  WO_Controller : option bool; WO_BlockOwnerDeletion : option bool;
}.

Record WManagedFields : Type := mkWManagedFields {
  WM_Manager : string; WM_Operation : string; WM_APIVersion : string; WM_Time : option string;
  WM_FieldsType : string; WM_FieldsV1 : option string; WM_Subresource : string;
}.

Record WObjectMeta : Type := mkWObjectMeta {
  W_Name : string; W_GenerateName : string; W_Namespace : string; W_SelfLink : string; W_UID : string;
  W_ResourceVersion : string; W_Generation : Z; W_CreationTimestamp : string;
  W_DeletionTimestamp : option string; W_DeletionGracePeriodSeconds : option Z;
  W_Labels : gmap string string; W_Annotations : gmap string string;
  W_OwnerReferences : list WOwnerReference; W_Finalizers : list string; W_ManagedFields : list WManagedFields;
}.

Record WListMeta : Type := mkWListMeta {
  WL_SelfLink : string; WL_ResourceVersion : string; WL_Continue : string; WL_RemainingItemCount : option Z;
}.

Record WCondition : Type := mkWCondition {
  WC_Type : string; WC_Status : string; WC_ObservedGeneration : Z; WC_LastTransitionTime : string;
  WC_Reason : string; WC_Message : string;
}.

#[export] Instance WOwnerReference_eq_dec : EqDecision WOwnerReference.
Proof. solve_decision. Defined.
#[export] Instance WManagedFields_eq_dec : EqDecision WManagedFields.
Proof. solve_decision. Defined.
#[export] Instance WObjectMeta_eq_dec : EqDecision WObjectMeta.
Proof. solve_decision. Defined.
#[export] Instance WListMeta_eq_dec : EqDecision WListMeta.
Proof. solve_decision. Defined.
#[export] Instance WCondition_eq_dec : EqDecision WCondition.
Proof. solve_decision. Defined.

Definition zero_meta : WObjectMeta := mkWObjectMeta "" "" "" "" "" "" 0 "" None None ∅ ∅ [] [] [].
Definition zero_list_meta : WListMeta := mkWListMeta "" "" "" None.

(** A list with distinct keys, when that is asked for. *)
Definition distinct {A B} (key : A → B) (l : list A) : Prop := strict = true → NoDup (key <$> l).

Definition owner_fields : fcodec WOwnerReference := fstruct
  (λ o, (WO_APIVersion o, (WO_Kind o, (WO_Name o, (WO_UID o, (WO_Controller o, WO_BlockOwnerDeletion o))))))
  (λ '(a, (b, (c, (d, (e, f))))), mkWOwnerReference a b c d e f)
  (fstr "apiVersion" ⊕ fstr "kind" ⊕ fstr "name" ⊕ fstr "uid" ⊕ fptr "controller" jbool ⊕
   fptr "blockOwnerDeletion" jbool).

Definition managed_fields : fcodec WManagedFields := fstruct
  (λ m, (WM_Manager m, (WM_Operation m, (WM_APIVersion m, (WM_Time m, (WM_FieldsType m,
        (WM_FieldsV1 m, WM_Subresource m)))))))
  (λ '(a, (b, (c, (d, (e, (f, g)))))), mkWManagedFields a b c d e f g)
  (fstr_omit "manager" ⊕ fstr_omit "operation" ⊕ fstr_omit "apiVersion" ⊕ fptr "time" jtime_set ⊕
   fstr_omit "fieldsType" ⊕ fptr "fieldsV1" jraw ⊕ fstr_omit "subresource").

Definition meta_fields : fcodec WObjectMeta := fstruct
  (λ m, (W_Name m, (W_GenerateName m, (W_Namespace m, (W_SelfLink m, (W_UID m, (W_ResourceVersion m,
        (W_Generation m, (W_CreationTimestamp m, (W_DeletionTimestamp m, (W_DeletionGracePeriodSeconds m,
        (W_Labels m, (W_Annotations m, (W_OwnerReferences m, (W_Finalizers m, W_ManagedFields m)))))))))))))))
  (λ '(a, (b, (c, (d, (e, (f, (g, (h, (i, (j, (k, (l, (m, (n, o)))))))))))))),
     mkWObjectMeta a b c d e f g h i j k l m n o)
  (fstr_omit "name" ⊕ fstr_omit "generateName" ⊕ fstr_omit "namespace" ⊕ fstr_omit "selfLink" ⊕
   fstr_omit "uid" ⊕ fstr_omit "resourceVersion" ⊕ fint_omit "generation" 64 ⊕
   field str_empty "creationTimestamp" jtime EmptyString ⊕ fptr "deletionTimestamp" jtime_set ⊕
   fptr "deletionGracePeriodSeconds" (jint 64) ⊕ fmap_omit "labels" ⊕ fmap_omit "annotations" ⊕
   fsuch (distinct WO_UID) (flist_omit "ownerReferences" (jobj owner_fields)) ⊕
   fsuch (distinct id) (flist_omit "finalizers" jstr) ⊕
   flist_omit "managedFields" (jobj managed_fields)).

Definition list_meta_fields : fcodec WListMeta := fstruct
  (λ m, (WL_SelfLink m, (WL_ResourceVersion m, (WL_Continue m, WL_RemainingItemCount m))))
  (λ '(a, (b, (c, d))), mkWListMeta a b c d)
  (fstr_omit "selfLink" ⊕ fstr_omit "resourceVersion" ⊕ fstr_omit "continue" ⊕
   fptr "remainingItemCount" (jint 64)).

Definition condition_fields : fcodec WCondition := fstruct
  (λ c, (WC_Type c, (WC_Status c, (WC_ObservedGeneration c, (WC_LastTransitionTime c, (WC_Reason c, WC_Message c))))))
  (λ '(a, (b, (c, (d, (e, f))))), mkWCondition a b c d e f)
  (fstr "type" ⊕ fstr "status" ⊕ fint_omit "observedGeneration" 64 ⊕
   fsuch (λ t, strict = true → rfc3339 t = true) (field (λ _, false) "lastTransitionTime" jtime EmptyString) ⊕ fstr "reason" ⊕ fstr "message").

(** ** Templates (virtualmachinetemplate_types.go) *)

Definition param_fields : fcodec Param := fstruct
  (λ p, (P_Name p, (P_DisplayName p, (P_Description p, (P_Value p, (P_Generate p, (P_From p, P_Required p)))))))
  (λ '(a, (b, (c, (d, (e, (f, g)))))), mkParam a b c d e f g)
  (fstr "name" ⊕ fstr_omit "displayName" ⊕ fstr_omit "description" ⊕ fstr_omit "value" ⊕
   fstr_omit "generate" ⊕ fstr_omit "from" ⊕ fbool_omit "required").

Definition spec_fields : fcodec VirtualMachineTemplateSpec := fstruct
  (λ s, (VirtualMachine s, (Parameters s, Message s)))
  (λ '(a, (b, c)), mkSpec a b c)
  (fptr_always strict "virtualMachine" jrawext ⊕
   flist_omit "parameters" (jobj param_fields) ⊕ fstr_omit "message").

Record WTemplateStatus : Type := mkWTemplateStatus { WTS_Conditions : list WCondition }.
#[export] Instance WTemplateStatus_eq_dec : EqDecision WTemplateStatus.
Proof. solve_decision. Defined.

Definition status_fields : fcodec WTemplateStatus := fstruct WTS_Conditions mkWTemplateStatus
  (fsuch (distinct WC_Type) (flist_omit "conditions" (jobj condition_fields))).

(** [type VirtualMachineTemplate struct]. *)
Record WTemplate : Type := mkWTemplate {
  WT_Kind : string; WT_APIVersion : string; WT_ObjectMeta : WObjectMeta;
  WT_Spec : VirtualMachineTemplateSpec; WT_Status : WTemplateStatus;
}.

Definition template_fields : fcodec WTemplate := fstruct
  (λ t, (WT_Kind t, (WT_APIVersion t, (WT_ObjectMeta t, (WT_Spec t, WT_Status t)))))
  (λ '(a, (b, (c, (d, e)))), mkWTemplate a b c d e)
  (fstr_omit "kind" ⊕ fstr_omit "apiVersion" ⊕
   field (λ m, bool_decide (m = zero_meta)) "metadata" (jobj meta_fields) zero_meta ⊕
   field (λ _, false) "spec" (jobj spec_fields) (mkSpec None [] "") ⊕
   field (λ s, bool_decide (s = mkWTemplateStatus [])) "status" (jobj status_fields) (mkWTemplateStatus [])).

(** [type VirtualMachineTemplateList struct]. *)
Record WTemplateList : Type := mkWTemplateList {
  WTL_Kind : string; WTL_APIVersion : string; WTL_ListMeta : WListMeta; WTL_Items : list WTemplate;
}.

Definition template_list_fields : fcodec WTemplateList := fstruct
  (λ t, (WTL_Kind t, (WTL_APIVersion t, (WTL_ListMeta t, WTL_Items t))))
  (λ '(a, (b, (c, d))), mkWTemplateList a b c d)
  (fstr_omit "kind" ⊕ fstr_omit "apiVersion" ⊕
   field (λ m, bool_decide (m = zero_list_meta)) "metadata" (jobj list_meta_fields) zero_list_meta ⊕
   field (λ _, false) "items" (jlist (jobj template_fields)) []).

(** ** Requests (virtualmachinetemplaterequest_types.go) *)

Record WVirtualMachineReference : Type := mkWVirtualMachineReference { WV_Namespace : string; WV_Name : string }.

(** Both fields are required and carry [omitempty]. *)
Definition vmref_fields : fcodec WVirtualMachineReference := fstruct
  (λ r, (WV_Namespace r, WV_Name r)) (λ '(a, b), mkWVirtualMachineReference a b)
  (fsuch (λ s, strict = true → s ≠ EmptyString) (fstr_omit "namespace") ⊕
   fsuch (λ s, strict = true → s ≠ EmptyString) (fstr_omit "name")).

Record WRequestSpec : Type := mkWRequestSpec {
  WRS_VirtualMachineRef : WVirtualMachineReference; WRS_TemplateName : string;
  WRS_TemplateLabels : gmap string string; WRS_TTLSecondsAfterFinished : option Z;
}.

Definition zero_request_spec : WRequestSpec := mkWRequestSpec (mkWVirtualMachineReference "" "") "" ∅ None.

Definition request_spec_fields : fcodec WRequestSpec := fstruct
  (λ s, (WRS_VirtualMachineRef s, (WRS_TemplateName s, (WRS_TemplateLabels s, WRS_TTLSecondsAfterFinished s))))
  (λ '(a, (b, (c, d))), mkWRequestSpec a b c d)
  (field (λ _, false) "virtualMachineRef" (jobj vmref_fields) (mkWVirtualMachineReference "" "") ⊕
   fstr_omit "templateName" ⊕ fmap_omit "templateLabels" ⊕ fptr "ttlSecondsAfterFinished" (jint 32)).

Record WRequestStatus : Type := mkWRequestStatus {
  WRT_Conditions : list WCondition; WRT_TemplateRef : option string;
}.

(** [corev1.LocalObjectReference], by its name. *)
Definition local_ref_fields : fcodec string := fstr_omit "name".

Definition request_status_fields : fcodec WRequestStatus := fstruct
  (λ s, (WRT_Conditions s, WRT_TemplateRef s)) (λ '(a, b), mkWRequestStatus a b)
  (fsuch (distinct WC_Type) (flist_omit "conditions" (jobj condition_fields)) ⊕ fptr "templateRef" (jobj local_ref_fields)).

(** [type VirtualMachineTemplateRequest struct]. *)
Record WRequest : Type := mkWRequest {
  WR_Kind : string; WR_APIVersion : string; WR_ObjectMeta : WObjectMeta;
  WR_Spec : WRequestSpec; WR_Status : WRequestStatus;
}.

Definition zero_request_status : WRequestStatus := mkWRequestStatus [] None.
#[export] Instance WRequestStatus_eq_dec : EqDecision WRequestStatus.
Proof. solve_decision. Defined.

Definition request_fields : fcodec WRequest := fstruct
  (λ t, (WR_Kind t, (WR_APIVersion t, (WR_ObjectMeta t, (WR_Spec t, WR_Status t)))))
  (λ '(a, (b, (c, (d, e)))), mkWRequest a b c d e)
  (fstr_omit "kind" ⊕ fstr_omit "apiVersion" ⊕
   field (λ m, bool_decide (m = zero_meta)) "metadata" (jobj meta_fields) zero_meta ⊕
   field (λ _, false) "spec" (jobj request_spec_fields) zero_request_spec ⊕
   field (λ s, bool_decide (s = zero_request_status)) "status" (jobj request_status_fields) zero_request_status).

(** [type VirtualMachineTemplateRequestList struct]; its metadata has no
    [omitzero]. *)
Record WRequestList : Type := mkWRequestList {
  WRL_Kind : string; WRL_APIVersion : string; WRL_ListMeta : WListMeta; WRL_Items : list WRequest;
}.

Definition request_list_fields : fcodec WRequestList := fstruct
  (λ t, (WRL_Kind t, (WRL_APIVersion t, (WRL_ListMeta t, WRL_Items t))))
  (λ '(a, (b, (c, d))), mkWRequestList a b c d)
  (fstr_omit "kind" ⊕ fstr_omit "apiVersion" ⊕
   field (λ _, false) "metadata" (jobj list_meta_fields) zero_list_meta ⊕
   field (λ _, false) "items" (jlist (jobj request_fields)) []).
End Wire.

(** ** Round trips *)

#[export] Instance jtime_law H : TCEq (0 <=? H)%Z true → JLaw jtime H.
Proof.
  intros HH%TCEq_eq%Z.leb_le t [->|Ht].
  - by exists JNull.
  - assert (str_empty t = false) as He by (destruct t; [by vm_compute in Ht|done]).
    exists (JStr t). cbn -[str_empty rfc3339]. rewrite He, Ht. split_and!; try done.
    by apply andb_true_iff in Ht as [?%ascii_valid _].
Qed.

#[export] Instance jtime_set_law H : TCEq (0 <=? H)%Z true → JLaw jtime_set H.
Proof. intros HH t Ht. apply (jtime_law H HH t). by right. Qed.

#[export] Instance jtime_set_nonnull : JNonNull jtime_set.
Proof. intros t j Ht. cbn. destruct t; [by vm_compute in Ht|]. by intros [= <-]. Qed.

Lemma print_nonempty j : json_ok j → str_empty (print j) = false.
Proof.
  destruct j as [|[]|lit| | |]; try done. cbn. intros Hs. destruct lit; [|done]. by vm_compute in Hs.
Qed.

Lemma raw_text_unmarshal strict s : raw_text_ok strict s → ∃ j, s = print j ∧ str_empty s = false ∧ Unmarshal s = Ok j ∧
  json_ok j ∧ j ≠ JNull ∧ (height j ≤ raw_height)%Z ∧ (strict = true → ∃ kvs, j = JObj kvs).
Proof.
  intros (j & -> & Hok & Hn & Hh & Hs). exists j. split_and!; try done; [by apply print_nonempty|].
  apply Unmarshal_print; [done|]. unfold raw_height, maxNestingDepth in *. lia.
Qed.

#[export] Instance jraw_law strict H : TCEq (raw_height <=? H)%Z true → JLaw (jraw strict) H.
Proof.
  intros HH%TCEq_eq%Z.leb_le s Hs. destruct (raw_text_unmarshal strict s Hs) as (j & -> & He & Hu & Hok & Hn & Hh & _).
  exists j. cbn -[str_empty]. rewrite He. split_and!; [done|by destruct j|done|lia].
Qed.

#[export] Instance jraw_nonnull strict : JNonNull (jraw strict).
Proof.
  intros s j Hs. destruct (raw_text_unmarshal strict s Hs) as (j' & -> & He & Hu & Hok & Hn & Hh & _).
  cbn -[str_empty]. rewrite He, Hu. by intros [= <-].
Qed.

#[export] Instance jrawext_law tm strict H : TCEq (raw_height <=? H)%Z true → JLaw (jrawext tm strict) H.
Proof.
  intros HH%TCEq_eq%Z.leb_le [s o] [Hs Ho]. cbn in Hs, Ho. subst o.
  destruct (raw_text_unmarshal strict s Hs) as (j & -> & He & Hu & Hok & Hn & Hh & _).
  exists j. cbn -[str_empty]. rewrite He. split_and!; [done|by destruct j|done|lia].
Qed.

#[export] Instance jrawext_nonnull tm strict : JNonNull (jrawext tm strict).
Proof.
  intros [s o] j [Hs _]. cbn in Hs. destruct (raw_text_unmarshal strict s Hs) as (j' & -> & He & Hu & Hok & Hn & Hh & _).
  cbn -[str_empty]. rewrite He, Hu. by intros [= <-].
Qed.

(** The fields of a struct, by the laws of its fields. *)
Ltac struct_law := apply fstruct_law; [by intros []|].

#[export] Instance time_field_law k H : TCEq (0 <=? H)%Z true → FLaw (field str_empty k jtime EmptyString) H.
Proof. intros. apply field_law; [apply _|solve_omit]. Qed.
#[export] Instance always_field_law {A} k (c : jcodec A) zero H : JLaw c H → FLaw (field (λ _, false) k c zero) H.
Proof. intros. by apply field_law. Qed.
#[export] Instance omitzero_field_law {A} `{EqDecision A} k (c : jcodec A) (zero : A) H :
  JLaw c H → FLaw (field (λ x, bool_decide (x = zero)) k c zero) H.
Proof. intros. apply field_law; [done|]. by intros x ?%bool_decide_eq_true. Qed.

(** The law at a concrete height and above. *)
Lemma struct_law_at {A} (f : fcodec A) H0 H : FLaw f H0 → TCEq (H0 <=? H)%Z true → FLaw f H.
Proof. intros Hf HH%TCEq_eq%Z.leb_le. by eapply FLaw_mono. Qed.

Ltac struct_at H0 := intros; apply (struct_law_at _ H0); [struct_law; apply _|done].

#[export] Instance owner_fields_law H : TCEq (0 <=? H)%Z true → FLaw (owner_fields) H.
Proof. struct_at 0%Z. Qed.
#[export] Instance managed_fields_law strict H : TCEq (raw_height <=? H)%Z true → FLaw (managed_fields strict) H.
Proof. struct_at raw_height%Z. Qed.
#[export] Instance meta_fields_law strict H : TCEq ((raw_height + 2) <=? H)%Z true → FLaw (meta_fields strict) H.
Proof. struct_at (raw_height + 2)%Z. Qed.
#[export] Instance list_meta_fields_law H : TCEq (0 <=? H)%Z true → FLaw (list_meta_fields) H.
Proof. struct_at 0%Z. Qed.
#[export] Instance condition_fields_law strict H : TCEq (0 <=? H)%Z true → FLaw (condition_fields strict) H.
Proof. struct_at 0%Z. Qed.
#[export] Instance param_fields_law H : TCEq (0 <=? H)%Z true → FLaw (param_fields) H.
Proof. struct_at 0%Z. Qed.
#[export] Instance spec_fields_law tm strict H : TCEq (raw_height <=? H)%Z true → FLaw (spec_fields tm strict) H.
Proof. struct_at raw_height%Z. Qed.
#[export] Instance status_fields_law strict H : TCEq (2 <=? H)%Z true → FLaw (status_fields strict) H.
Proof. struct_at 2%Z. Qed.
#[export] Instance template_fields_law tm strict H : TCEq ((raw_height + 3) <=? H)%Z true → FLaw (template_fields tm strict) H.
Proof. struct_at (raw_height + 3)%Z. Qed.
#[export] Instance template_list_fields_law tm strict H : TCEq ((raw_height + 5) <=? H)%Z true → FLaw (template_list_fields tm strict) H.
Proof. struct_at (raw_height + 5)%Z. Qed.
#[export] Instance vmref_fields_law strict H : TCEq (0 <=? H)%Z true → FLaw (vmref_fields strict) H.
Proof. struct_at 0%Z. Qed.
#[export] Instance request_spec_fields_law strict H : TCEq (1 <=? H)%Z true → FLaw (request_spec_fields strict) H.
Proof. struct_at 1%Z. Qed.
#[export] Instance request_status_fields_law strict H : TCEq (2 <=? H)%Z true → FLaw (request_status_fields strict) H.
Proof. struct_at 2%Z. Qed.
#[export] Instance request_fields_law strict H : TCEq ((raw_height + 3) <=? H)%Z true → FLaw (request_fields strict) H.
Proof. struct_at (raw_height + 3)%Z. Qed.
#[export] Instance request_list_fields_law strict H : TCEq ((raw_height + 5) <=? H)%Z true → FLaw (request_list_fields strict) H.
Proof. struct_at (raw_height + 5)%Z. Qed.


(** ** A concrete template *)
Definition no_typed (v : gval) : res error json := Err json_error.

Definition wire_template : WTemplate := mkWTemplate "VirtualMachineTemplate" "template.kubevirt.io/v1alpha1"
  (mkWObjectMeta "web" "" "default" "" "u1" "41" 2 "2024-02-29T10:00:00Z" None None {[ "app" := "web" ]} ∅
    [mkWOwnerReference "v1" "ConfigMap" "c" "u0" (Some true) None] ["f"]
    [mkWManagedFields "kubectl" "Update" "v1" (Some "2024-02-29T10:00:00Z") "FieldsV1" (Some (print (JObj []))) ""])
  (mkSpec (Some (mkRaw (print (JObj [("name", JStr "vm-${NAME}")])) None)) [value_param "NAME" "a"] "hello")
  (mkWTemplateStatus [mkWCondition "Ready" "True" 2 "2024-02-29T10:00:01Z" "Reconciled" ""]).

Lemma raw_text_print strict kvs : json_ok (JObj kvs) → (height (JObj kvs) <=? raw_height)%Z = true →
  raw_text_ok strict (print (JObj kvs)).
Proof. intros Hok Hh%Z.leb_le. exists (JObj kvs). split_and!; try done; eauto. Qed.

Lemma empty_document strict : raw_text_ok strict (print (JObj [])).
Proof. apply raw_text_print; [split; [constructor|exact I]|reflexivity]. Qed.

Lemma machine_document strict : raw_text_ok strict (print (JObj [("name", JStr "vm-${NAME}")])).
Proof. apply raw_text_print; [split; [by apply (bool_decide_unpack _)|by repeat split]|reflexivity]. Qed.

Lemma no_labels_ok : j_ok jmap ∅.
Proof. by intros k v ?%lookup_empty_Some. Qed.

Lemma app_labels_ok : j_ok jmap {[ "app" := "web" ]}.
Proof. by intros k v [<- <-]%lookup_singleton_Some. Qed.

Lemma wire_template_ok strict : j_ok (jobj (template_fields no_typed strict)) wire_template.
Proof.
  repeat match goal with
  | |- _ ∧ _ => split
  | |- Forall _ _ => constructor
  | |- True => exact I
  | |- raw_text_ok _ _ => exact (empty_document strict) || exact (machine_document strict)
  | |- ∃ _, _ => exact (empty_document strict) || exact (machine_document strict)
  | |- _ = _ ∨ _ => right
  | |- strict = true → NoDup _ => intros _; by apply (bool_decide_unpack _)
  | |- distinct _ _ _ => intros _; by apply (bool_decide_unpack _)
  | |- strict = true → _ => intros _
  | |- _ = _ => vm_compute; reflexivity
  | |- _ < _ => vm_compute; reflexivity
  | |- (_ ≤ _)%Z => vm_compute; discriminate
  | |- (_ < _)%Z => vm_compute; reflexivity
  | |- ∀ k v, _ !! k = Some v → _ => exact no_labels_ok || exact app_labels_ok
  | |- f_ok _ _ => hnf
  | |- j_ok _ _ => hnf
  end.
Qed.

