(* ===== verification/WebhookAlpha.v ===== *)
(** * internal/webhook/v1alpha1: admission of templates of the older version

    The validator converts the template to v1beta1 through its JSON text and
    asks the v1beta1 validator; [ValidateCreate_agrees] shows that the
    conversion changes no answer. *)

From Stdlib Require Import Ascii ZArith Lia.
From stdpp Require Import prelude strings gmap.
From S2P Require Import Prelude GoStrings Regex Json Visit Api Field Substitute Generator Template Parameters Processor Webhook Codec Wire.

(** ** api/core/v1alpha1: the structs of the older version, field for field
    and tag for tag those of v1beta1. *)
Module V1alpha1Types.
Definition Param : Type := Param.
Definition Spec : Type := VirtualMachineTemplateSpec.
Definition Status : Type := WTemplateStatus.
Definition Template : Type := WTemplate.
Definition TemplateList : Type := WTemplateList.
Definition VirtualMachineReference : Type := WVirtualMachineReference.
Definition RequestSpec : Type := WRequestSpec.
Definition RequestStatus : Type := WRequestStatus.
Definition Request : Type := WRequest.
Definition RequestList : Type := WRequestList.
End V1alpha1Types.

(** [templatev1beta1.GroupVersion.String()]. *)
Definition v1beta1_GroupVersion : string := "template.kubevirt.io/v1beta1".

Definition set_APIVersion (v : string) (t : WTemplate) : WTemplate :=
  mkWTemplate (WT_Kind t) v (WT_ObjectMeta t) (WT_Spec t) (WT_Status t).

(** The JSON forms of a template of either version. *)
Definition v1alpha1_template (tm : gval → res error json) : jcodec V1alpha1Types.Template :=
  jobj (template_fields tm false).
Definition v1beta1_template (tm : gval → res error json) : jcodec WTemplate := jobj (template_fields tm false).

Section alpha.
Context {R : Type} `{RandSource R} `{Converter} `{MapOrder}.
Context (defaultProcessor : processor R) (field_text : field_error → string).
(** [json.Marshal] of a typed object. *)
Context (typed_marshal : gval → res error json).

Definition convertToV1Beta1 (tpl : V1alpha1Types.Template) : res error WTemplate :=
  data ← marshal (v1alpha1_template typed_marshal) tpl;
  out ← unmarshal (v1beta1_template typed_marshal) data;
  Ok (set_APIVersion v1beta1_GroupVersion out).

(** The object of an admission request. *)
Inductive alpha_object : Type :=
| AlphaTemplate (tpl : V1alpha1Types.Template)
| AlphaOther (type : string).

Inductive alpha_error : Type :=
| ConversionFailed (text : string)
| Denied (e : webhook_error).

Definition alpha_verdict : Type := list string * option alpha_error.

(** The answer of the v1beta1 validator, passed on. *)
Definition pass_on (m : st R unit verdict) : st R unit alpha_verdict := λ r,
  match m r with
  | Ok ((ws, e), r') => Ok ((ws, Denied <$> e), r')
  | Err e => Err e
  | Panic w => Panic w
  end.

Definition convert_and_validate (tpl : V1alpha1Types.Template) : st R unit alpha_verdict :=
  match convertToV1Beta1 tpl with
  | Err err =>
      mret ([], Some (ConversionFailed ("failed to convert VirtualMachineTemplate to v1beta1: " +:+ Error err)))
  | Panic w => λ _, Panic w
  | Ok converted => pass_on (ValidateTemplate defaultProcessor field_text (WT_Spec converted))
  end.

Definition Alpha_ValidateCreate (obj : alpha_object) : st R unit alpha_verdict :=
  match obj with
  | AlphaOther t =>
      mret ([], Some (Denied (WrongType ("expected a VirtualMachineTemplate object but got " +:+ t))))
  | AlphaTemplate tpl => convert_and_validate tpl
  end.

Definition Alpha_ValidateUpdate (oldObj newObj : alpha_object) : st R unit alpha_verdict :=
  match newObj with
  | AlphaOther t =>
      mret ([], Some (Denied (WrongType ("expected a VirtualMachineTemplate object for the newObj but got " +:+ t))))
  | AlphaTemplate tpl => convert_and_validate tpl
  end.

Definition Alpha_ValidateDelete (obj : alpha_object) : st R unit alpha_verdict := mret ([], None).

(** ** The conversion *)

(** An embedded document in the form the encoder writes. *)
Definition canonical_raw (re : RawExtension) : RawExtension :=
  match Unmarshal (Raw re) with Ok j => mkRaw (print j) (RE_Object re) | _ => re end.

Definition canonical (t : WTemplate) : WTemplate :=
  mkWTemplate (WT_Kind t) (WT_APIVersion t) (WT_ObjectMeta t)
    (mkSpec (canonical_raw <$> VirtualMachine (WT_Spec t)) (Parameters (WT_Spec t)) (Message (WT_Spec t)))
    (WT_Status t).

(** What an API server sends: a template whose machine, if any, is the bytes
    of a JSON object, and that can be written as JSON. *)
Definition received (t : WTemplate) : Prop :=
  j_ok (v1alpha1_template typed_marshal) (canonical t) ∧
  match VirtualMachine (WT_Spec t) with
  | None => True
  | Some re => RE_Object re = None ∧ ∃ kvs, Unmarshal (Raw re) = Ok (JObj kvs) ∧ json_ok (JObj kvs) ∧
      (height (JObj kvs) ≤ raw_height)%Z
  end.

Lemma Unmarshal_nonempty s j : Unmarshal s = Ok j → str_empty s = false.
Proof. by destruct s. Qed.

(** The embedded document of a received template, before and after. *)
Lemma received_document t re : received t → VirtualMachine (WT_Spec t) = Some re → ∃ kvs,
  str_empty (Raw re) = false ∧ Unmarshal (Raw re) = Ok (JObj kvs) ∧
  canonical_raw re = mkRaw (print (JObj kvs)) None ∧
  str_empty (print (JObj kvs)) = false ∧ Unmarshal (print (JObj kvs)) = Ok (JObj kvs).
Proof.
  intros [_ Hvm] Hre. rewrite Hre in Hvm. destruct Hvm as (Ho & kvs & Hu & Hok & Hh). exists kvs.
  split_and!; [by eapply Unmarshal_nonempty|done| |done|].
  - unfold canonical_raw. by rewrite Hu, Ho.
  - apply Unmarshal_print; [done|]. unfold raw_height, maxNestingDepth in *. lia.
Qed.

(** A received template and its canonical form have the same JSON form. *)
Lemma canonical_encodes t : received t →
  j_enc (v1alpha1_template typed_marshal) t = j_enc (v1alpha1_template typed_marshal) (canonical t).
Proof.
  intros Hr. pose proof (received_document t) as Hdoc.
  destruct t as [kind av meta [[re|] ps msg] status]; [|done].
  destruct (Hdoc re Hr eq_refl) as (kvs & He & Hu & Hc & He' & Hu'). unfold canonical. cbn [WT_Spec VirtualMachine fmap option_fmap option_map].
  rewrite Hc. cbn -[str_empty print Unmarshal]. by rewrite He, Hu, He', Hu'.
Qed.

(** Converting a received template changes its version, and rewrites its
    embedded document in canonical form. *)
Lemma convertToV1Beta1_canonical t : received t →
  convertToV1Beta1 t = Ok (set_APIVersion v1beta1_GroupVersion (canonical t)).
Proof.
  intros Hr. unfold convertToV1Beta1, marshal. rewrite canonical_encodes by done.
  destruct (unmarshal_marshal (v1alpha1_template typed_marshal) (raw_height + 6) (canonical t))
    as (data & Hm & Hu); [apply _|done|apply Hr|].
  unfold marshal in Hm. rewrite Hm. cbn [mbind res_bind].
  change (unmarshal (v1beta1_template typed_marshal) data = Ok (canonical t)) in Hu. by rewrite Hu.
Qed.

(** The validator depends on the decoded object, not on its text. *)
Lemma ValidateTemplate_ext spec spec' kvs : Parameters spec = Parameters spec' → Message spec = Message spec' →
  getVirtualMachineObject spec = Ok (OUnstructured (Some kvs)) →
  getVirtualMachineObject spec' = Ok (OUnstructured (Some kvs)) →
  ∀ r : R, ValidateTemplate defaultProcessor field_text spec r = ValidateTemplate defaultProcessor field_text spec' r.
Proof.
  intros Hps Hmsg Ho Ho' r.
  assert (ValidateParameterReferences spec = ValidateParameterReferences spec') as Hrefs.
  { unfold ValidateParameterReferences. rewrite Ho, Ho', Hps, Hmsg.
    destruct (collectAll_unstructured (Some kvs)) as (o' & -> & _). done. }
  assert (∀ r, Process defaultProcessor spec r = Process defaultProcessor spec' r) as Hproc.
  { intros r0. unfold Process. by rewrite Ho, Ho', Hps, Hmsg. }
  assert (∀ r, ValidateProcessing defaultProcessor spec r = ValidateProcessing defaultProcessor spec' r) as Hval.
  { intros r0. unfold ValidateProcessing. by rewrite Hps, Hproc. }
  unfold ValidateTemplate. rewrite Hrefs. unfold mbind, st_bind, st_lift.
  destruct (ValidateParameterReferences spec') as [[ws []]|[]|]; cbn; try done. by rewrite Hval.
Qed.

Lemma decoded spec re kvs : VirtualMachine spec = Some re → str_empty (Raw re) = false →
  Unmarshal (Raw re) = Ok (JObj kvs) → getVirtualMachineObject spec = Ok (OUnstructured (Some kvs)).
Proof.
  intros Hvm He Hu. unfold getVirtualMachineObject, decode, Unmarshal_map. rewrite Hvm.
  unfold str_empty in He. by rewrite He, Hu.
Qed.

(** C20: The v1alpha1 webhook answers every create and update of a template the way
    the v1beta1 webhook answers it for the same template. *)
Theorem ValidateCreate_agrees t (old : alpha_object) (r : R) : received t →
  Alpha_ValidateCreate (AlphaTemplate t) r = pass_on (ValidateTemplate defaultProcessor field_text (WT_Spec t)) r ∧
  Alpha_ValidateUpdate old (AlphaTemplate t) r = pass_on (ValidateTemplate defaultProcessor field_text (WT_Spec t)) r.
Proof.
  intros Hr. cbn [Alpha_ValidateCreate Alpha_ValidateUpdate]. unfold convert_and_validate.
  rewrite convertToV1Beta1_canonical by done.
  enough (∀ r, ValidateTemplate defaultProcessor field_text (WT_Spec (set_APIVersion v1beta1_GroupVersion (canonical t))) r
          = ValidateTemplate defaultProcessor field_text (WT_Spec t) r) as Heq by (unfold pass_on; by rewrite Heq).
  intros r0. pose proof (received_document t) as Hdoc.
  destruct t as [kind av meta [[re|] ps msg] status]; [|done].
  destruct (Hdoc re Hr eq_refl) as (kvs & He & Hu & Hc & He' & Hu').
  apply (ValidateTemplate_ext _ _ kvs); [done..| |by eapply decoded].
  eapply (decoded _ (canonical_raw re)); [done| |]; by rewrite Hc.
Qed.
End alpha.

(** ** A concrete template, with white space the encoder drops *)
Definition spaced_template : V1alpha1Types.Template :=
  mkWTemplate (WT_Kind wire_template) (WT_APIVersion wire_template) (WT_ObjectMeta wire_template)
    (mkSpec (Some (mkRaw (" " +:+ print (JObj [("name", JStr "vm-${NAME}")]) +:+ "  ") None))
       [value_param "NAME" "a"] "hello") (WT_Status wire_template).

Lemma spaced_template_received : received no_typed spaced_template.
Proof.
  split.
  - assert (canonical spaced_template = wire_template) as -> by (vm_compute; reflexivity).
    exact (wire_template_ok false).
  - split; [done|]. exists [("name", JStr "vm-${NAME}")].
    split; [vm_compute; reflexivity|]. split; [|vm_compute; discriminate].
    split; [by apply (bool_decide_unpack _)|by repeat split].
Qed.

Lemma ValidateCreate_agrees_witness :
  @Alpha_ValidateCreate nat sample_converter list_order plain_processor FE_Detail no_typed
    (AlphaTemplate spaced_template) 0 =
  pass_on (@ValidateTemplate nat sample_converter list_order plain_processor FE_Detail (WT_Spec spaced_template)) 0 ∧
  @Alpha_ValidateUpdate nat sample_converter list_order plain_processor FE_Detail no_typed
    (AlphaOther "none") (AlphaTemplate spaced_template) 0 =
  pass_on (@ValidateTemplate nat sample_converter list_order plain_processor FE_Detail (WT_Spec spaced_template)) 0.
Proof.
  exact (ValidateCreate_agrees plain_processor FE_Detail no_typed spaced_template (AlphaOther "none") 0
           spaced_template_received).
Defined.

(** It is admitted. *)
Example spaced_template_admitted :
  match @Alpha_ValidateCreate nat sample_converter list_order plain_processor FE_Detail no_typed
          (AlphaTemplate spaced_template) 0 with
  | Ok ((ws, e), _) => ws = [] ∧ e = None
  | _ => False
  end.
Proof. vm_compute. done. Qed.
