(* ===== verification/OpenApi.v ===== *)
(** * virt-template-client-go/api: the published OpenAPI schemas

    The definitions of api/openapi_generated.go for the types of the template
    API and for the library types they refer to (descriptions left out), what it means for a JSON document to have the shape of a
    schema, and the theorem that the API objects, encoded as JSON, have the
    shape their schemas publish. *)

From Stdlib Require Import Ascii ZArith Lia.
From stdpp Require Import prelude strings gmap sorting.
From S2P Require Import Prelude GoStrings Regex Json Visit Api Codec Wire.

(** ** Schemas *)

(** The forms of [spec.Schema] the generator uses: a reference, a scalar with
    its type and format, one with an enumeration of its values, a choice of
    scalar types, an array with its [x-kubernetes-list-type] and
    [x-kubernetes-list-map-keys], a map, a struct with its properties and
    the required ones, and a schema that says nothing; each may have a default
    value and other extensions. *)
Inductive schema : Type :=
| ref (name : string)
| scalar (type format : string)
| enumerated (type format : string) (values : list string)
| one_of (types : list string) (format : string)
| anything
| array (list_type : string) (keys : list string) (items : schema)
| map_of (values : schema)
| object (properties : list (string * schema)) (required : list string)
| defaulted (value : json) (s : schema)
| extended (extensions : list (string * json)) (s : schema).

(** The form of a schema, without default and extensions. *)
Fixpoint bare (s : schema) : schema :=
  match s with
  | defaulted _ s | extended _ s => bare s
  | _ => s
  end.

(** [common.OpenAPIDefinition]. *)
Record definition : Type := mkDefinition { d_schema : schema; d_dependencies : list string }.

(** *** Library types *)
Module SchemaLib.
Definition schema_LocalObjectReference : definition := mkDefinition
  (extended [("x-kubernetes-map-type", JStr "atomic")] (object
    [("name", defaulted (JStr "") (scalar "string" ""))]
    []))
  [].

Definition schema_ObjectReference : definition := mkDefinition
  (extended [("x-kubernetes-map-type", JStr "atomic")] (object
    [("kind", scalar "string" "");
     ("namespace", scalar "string" "");
     ("name", scalar "string" "");
     ("uid", scalar "string" "");
     ("apiVersion", scalar "string" "");
     ("resourceVersion", scalar "string" "");
     ("fieldPath", scalar "string" "")]
    []))
  [].

Definition schema_Condition : definition := mkDefinition
  (object
    [("type", defaulted (JStr "") (scalar "string" ""));
     ("status", defaulted (JStr "") (scalar "string" ""));
     ("observedGeneration", scalar "integer" "int64");
     ("lastTransitionTime", ref "k8s.io/apimachinery/pkg/apis/meta/v1.Time");
     ("reason", defaulted (JStr "") (scalar "string" ""));
     ("message", defaulted (JStr "") (scalar "string" ""))]
    ["type"; "status"; "lastTransitionTime"; "reason"; "message"])
  ["k8s.io/apimachinery/pkg/apis/meta/v1.Time"].

Definition schema_FieldsV1 : definition := mkDefinition
  (object [] [])
  [].

Definition schema_ListMeta : definition := mkDefinition
  (object
    [("selfLink", scalar "string" "");
     ("resourceVersion", scalar "string" "");
     ("continue", scalar "string" "");
     ("remainingItemCount", scalar "integer" "int64")]
    [])
  [].

Definition schema_ManagedFieldsEntry : definition := mkDefinition
  (object
    [("manager", scalar "string" "");
     ("operation", scalar "string" "");
     ("apiVersion", scalar "string" "");
     ("time", ref "k8s.io/apimachinery/pkg/apis/meta/v1.Time");
     ("fieldsType", scalar "string" "");
     ("fieldsV1", ref "k8s.io/apimachinery/pkg/apis/meta/v1.FieldsV1");
     ("subresource", scalar "string" "")]
    [])
  ["k8s.io/apimachinery/pkg/apis/meta/v1.FieldsV1"; "k8s.io/apimachinery/pkg/apis/meta/v1.Time"].

Definition schema_ObjectMeta : definition := mkDefinition
  (object
    [("name", scalar "string" "");
     ("generateName", scalar "string" "");
     ("namespace", scalar "string" "");
     ("selfLink", scalar "string" "");
     ("uid", scalar "string" "");
     ("resourceVersion", scalar "string" "");
     ("generation", scalar "integer" "int64");
     ("creationTimestamp", ref "k8s.io/apimachinery/pkg/apis/meta/v1.Time");
     ("deletionTimestamp", ref "k8s.io/apimachinery/pkg/apis/meta/v1.Time");
     ("deletionGracePeriodSeconds", scalar "integer" "int64");
     ("labels", map_of (scalar "string" ""));
     ("annotations", map_of (scalar "string" ""));
     ("ownerReferences", extended [("x-kubernetes-patch-merge-key", JStr "uid"); ("x-kubernetes-patch-strategy", JStr "merge")] (array "map" ["uid"] (ref "k8s.io/apimachinery/pkg/apis/meta/v1.OwnerReference")));
     ("finalizers", extended [("x-kubernetes-patch-strategy", JStr "merge")] (array "set" [] (scalar "string" "")));
     ("managedFields", array "atomic" [] (ref "k8s.io/apimachinery/pkg/apis/meta/v1.ManagedFieldsEntry"))]
    [])
  ["k8s.io/apimachinery/pkg/apis/meta/v1.ManagedFieldsEntry"; "k8s.io/apimachinery/pkg/apis/meta/v1.OwnerReference";
   "k8s.io/apimachinery/pkg/apis/meta/v1.Time"].

Definition schema_OwnerReference : definition := mkDefinition
  (extended [("x-kubernetes-map-type", JStr "atomic")] (object
    [("apiVersion", defaulted (JStr "") (scalar "string" ""));
     ("kind", defaulted (JStr "") (scalar "string" ""));
     ("name", defaulted (JStr "") (scalar "string" ""));
     ("uid", defaulted (JStr "") (scalar "string" ""));
     ("controller", scalar "boolean" "");
     ("blockOwnerDeletion", scalar "boolean" "")]
    ["apiVersion"; "kind"; "name"; "uid"]))
  [].

Definition schema_Time : definition := mkDefinition
  (scalar "string" "date-time")
  [].

Definition schema_RawExtension : definition := mkDefinition
  (object [] [])
  [].

End SchemaLib.

(** *** api/core/subresourcesv1alpha1 *)
Module SchemaSubresourcesv1alpha1.
Definition schema_ProcessOptions : definition := mkDefinition
  (object
    [("kind", scalar "string" "");
     ("apiVersion", scalar "string" "");
     ("metadata", defaulted (JObj []) (ref "k8s.io/apimachinery/pkg/apis/meta/v1.ObjectMeta"));
     ("parameters", map_of (scalar "string" ""))]
    [])
  ["k8s.io/apimachinery/pkg/apis/meta/v1.ObjectMeta"].

Definition schema_ProcessedVirtualMachineTemplate : definition := mkDefinition
  (object
    [("kind", scalar "string" "");
     ("apiVersion", scalar "string" "");
     ("metadata", defaulted (JObj []) (ref "k8s.io/apimachinery/pkg/apis/meta/v1.ObjectMeta"));
     ("templateRef", ref "k8s.io/api/core/v1.ObjectReference");
     ("virtualMachine", ref "kubevirt.io/api/core/v1.VirtualMachine");
     ("message", scalar "string" "")]
    ["virtualMachine"])
  ["k8s.io/api/core/v1.ObjectReference"; "k8s.io/apimachinery/pkg/apis/meta/v1.ObjectMeta"; "kubevirt.io/api/core/v1.VirtualMachine"].

Definition schema_VirtualMachineTemplate : definition := mkDefinition
  (object
    [("kind", scalar "string" "");
     ("apiVersion", scalar "string" "");
     ("metadata", defaulted (JObj []) (ref "k8s.io/apimachinery/pkg/apis/meta/v1.ObjectMeta"))]
    [])
  ["k8s.io/apimachinery/pkg/apis/meta/v1.ObjectMeta"].

End SchemaSubresourcesv1alpha1.

(** *** api/core/subresourcesv1beta1 *)
Module SchemaSubresourcesv1beta1.
Definition schema_ProcessOptions : definition := mkDefinition
  (object
    [("kind", scalar "string" "");
     ("apiVersion", scalar "string" "");
     ("metadata", defaulted (JObj []) (ref "k8s.io/apimachinery/pkg/apis/meta/v1.ObjectMeta"));
     ("parameters", map_of (scalar "string" ""))]
    [])
  ["k8s.io/apimachinery/pkg/apis/meta/v1.ObjectMeta"].

Definition schema_ProcessedVirtualMachineTemplate : definition := mkDefinition
  (object
    [("kind", scalar "string" "");
     ("apiVersion", scalar "string" "");
     ("metadata", defaulted (JObj []) (ref "k8s.io/apimachinery/pkg/apis/meta/v1.ObjectMeta"));
     ("templateRef", ref "k8s.io/api/core/v1.ObjectReference");
     ("virtualMachine", ref "kubevirt.io/api/core/v1.VirtualMachine");
     ("message", scalar "string" "")]
    ["virtualMachine"])
  ["k8s.io/api/core/v1.ObjectReference"; "k8s.io/apimachinery/pkg/apis/meta/v1.ObjectMeta"; "kubevirt.io/api/core/v1.VirtualMachine"].

Definition schema_VirtualMachineTemplate : definition := mkDefinition
  (object
    [("kind", scalar "string" "");
     ("apiVersion", scalar "string" "");
     ("metadata", defaulted (JObj []) (ref "k8s.io/apimachinery/pkg/apis/meta/v1.ObjectMeta"))]
    [])
  ["k8s.io/apimachinery/pkg/apis/meta/v1.ObjectMeta"].

End SchemaSubresourcesv1beta1.

(** *** api/core/v1alpha1 *)
Module Schemav1alpha1.
Definition schema_Parameter : definition := mkDefinition
  (object
    [("name", defaulted (JStr "") (scalar "string" ""));
     ("displayName", scalar "string" "");
     ("description", scalar "string" "");
     ("value", scalar "string" "");
     ("generate", scalar "string" "");
     ("from", scalar "string" "");
     ("required", scalar "boolean" "")]
    ["name"])
  [].

Definition schema_VirtualMachineReference : definition := mkDefinition
  (object
    [("namespace", scalar "string" "");
     ("name", scalar "string" "")]
    ["namespace"; "name"])
  [].

Definition schema_VirtualMachineTemplate : definition := mkDefinition
  (object
    [("kind", scalar "string" "");
     ("apiVersion", scalar "string" "");
     ("metadata", defaulted (JObj []) (ref "k8s.io/apimachinery/pkg/apis/meta/v1.ObjectMeta"));
     ("spec", defaulted (JObj []) (ref "kubevirt.io/virt-template-api/core/v1alpha1.VirtualMachineTemplateSpec"));
     ("status", defaulted (JObj []) (ref "kubevirt.io/virt-template-api/core/v1alpha1.VirtualMachineTemplateStatus"))]
    ["spec"])
  ["k8s.io/apimachinery/pkg/apis/meta/v1.ObjectMeta"; "kubevirt.io/virt-template-api/core/v1alpha1.VirtualMachineTemplateSpec";
   "kubevirt.io/virt-template-api/core/v1alpha1.VirtualMachineTemplateStatus"].

Definition schema_VirtualMachineTemplateList : definition := mkDefinition
  (object
    [("kind", scalar "string" "");
     ("apiVersion", scalar "string" "");
     ("metadata", defaulted (JObj []) (ref "k8s.io/apimachinery/pkg/apis/meta/v1.ListMeta"));
     ("items", array "" [] (ref "kubevirt.io/virt-template-api/core/v1alpha1.VirtualMachineTemplate"))]
    ["items"])
  ["k8s.io/apimachinery/pkg/apis/meta/v1.ListMeta"; "kubevirt.io/virt-template-api/core/v1alpha1.VirtualMachineTemplate"].

Definition schema_VirtualMachineTemplateRequest : definition := mkDefinition
  (object
    [("kind", scalar "string" "");
     ("apiVersion", scalar "string" "");
     ("metadata", defaulted (JObj []) (ref "k8s.io/apimachinery/pkg/apis/meta/v1.ObjectMeta"));
     ("spec", defaulted (JObj []) (ref "kubevirt.io/virt-template-api/core/v1alpha1.VirtualMachineTemplateRequestSpec"));
     ("status", defaulted (JObj []) (ref "kubevirt.io/virt-template-api/core/v1alpha1.VirtualMachineTemplateRequestStatus"))]
    ["spec"])
  ["k8s.io/apimachinery/pkg/apis/meta/v1.ObjectMeta"; "kubevirt.io/virt-template-api/core/v1alpha1.VirtualMachineTemplateRequestSpec";
   "kubevirt.io/virt-template-api/core/v1alpha1.VirtualMachineTemplateRequestStatus"].

Definition schema_VirtualMachineTemplateRequestList : definition := mkDefinition
  (object
    [("kind", scalar "string" "");
     ("apiVersion", scalar "string" "");
     ("metadata", defaulted (JObj []) (ref "k8s.io/apimachinery/pkg/apis/meta/v1.ListMeta"));
     ("items", array "" [] (ref "kubevirt.io/virt-template-api/core/v1alpha1.VirtualMachineTemplateRequest"))]
    ["items"])
  ["k8s.io/apimachinery/pkg/apis/meta/v1.ListMeta"; "kubevirt.io/virt-template-api/core/v1alpha1.VirtualMachineTemplateRequest"].

Definition schema_VirtualMachineTemplateRequestSpec : definition := mkDefinition
  (object
    [("virtualMachineRef", defaulted (JObj []) (ref "kubevirt.io/virt-template-api/core/v1alpha1.VirtualMachineReference"));
     ("templateName", scalar "string" "");
     ("templateLabels", map_of (scalar "string" ""));
     ("ttlSecondsAfterFinished", scalar "integer" "int32")]
    ["virtualMachineRef"])
  ["kubevirt.io/virt-template-api/core/v1alpha1.VirtualMachineReference"].

Definition schema_VirtualMachineTemplateRequestStatus : definition := mkDefinition
  (object
    [("conditions", array "map" ["type"] (ref "k8s.io/apimachinery/pkg/apis/meta/v1.Condition"));
     ("templateRef", ref "k8s.io/api/core/v1.LocalObjectReference")]
    [])
  ["k8s.io/api/core/v1.LocalObjectReference"; "k8s.io/apimachinery/pkg/apis/meta/v1.Condition"].

Definition schema_VirtualMachineTemplateSpec : definition := mkDefinition
  (object
    [("virtualMachine", ref "k8s.io/apimachinery/pkg/runtime.RawExtension");
     ("parameters", array "" [] (ref "kubevirt.io/virt-template-api/core/v1alpha1.Parameter"));
     ("message", scalar "string" "")]
    ["virtualMachine"])
  ["k8s.io/apimachinery/pkg/runtime.RawExtension"; "kubevirt.io/virt-template-api/core/v1alpha1.Parameter"].

Definition schema_VirtualMachineTemplateStatus : definition := mkDefinition
  (object
    [("conditions", array "map" ["type"] (ref "k8s.io/apimachinery/pkg/apis/meta/v1.Condition"))]
    [])
  ["k8s.io/apimachinery/pkg/apis/meta/v1.Condition"].

End Schemav1alpha1.

(** *** api/core/v1beta1 *)
Module Schemav1beta1.
Definition schema_Parameter : definition := mkDefinition
  (object
    [("name", defaulted (JStr "") (scalar "string" ""));
     ("displayName", scalar "string" "");
     ("description", scalar "string" "");
     ("value", scalar "string" "");
     ("generate", scalar "string" "");
     ("from", scalar "string" "");
     ("required", scalar "boolean" "")]
    ["name"])
  [].

Definition schema_VirtualMachineReference : definition := mkDefinition
  (object
    [("namespace", scalar "string" "");
     ("name", scalar "string" "")]
    ["namespace"; "name"])
  [].

Definition schema_VirtualMachineTemplate : definition := mkDefinition
  (object
    [("kind", scalar "string" "");
     ("apiVersion", scalar "string" "");
     ("metadata", defaulted (JObj []) (ref "k8s.io/apimachinery/pkg/apis/meta/v1.ObjectMeta"));
     ("spec", defaulted (JObj []) (ref "kubevirt.io/virt-template-api/core/v1beta1.VirtualMachineTemplateSpec"));
     ("status", defaulted (JObj []) (ref "kubevirt.io/virt-template-api/core/v1beta1.VirtualMachineTemplateStatus"))]
    ["spec"])
  ["k8s.io/apimachinery/pkg/apis/meta/v1.ObjectMeta"; "kubevirt.io/virt-template-api/core/v1beta1.VirtualMachineTemplateSpec";
   "kubevirt.io/virt-template-api/core/v1beta1.VirtualMachineTemplateStatus"].

Definition schema_VirtualMachineTemplateList : definition := mkDefinition
  (object
    [("kind", scalar "string" "");
     ("apiVersion", scalar "string" "");
     ("metadata", defaulted (JObj []) (ref "k8s.io/apimachinery/pkg/apis/meta/v1.ListMeta"));
     ("items", array "" [] (ref "kubevirt.io/virt-template-api/core/v1beta1.VirtualMachineTemplate"))]
    ["items"])
  ["k8s.io/apimachinery/pkg/apis/meta/v1.ListMeta"; "kubevirt.io/virt-template-api/core/v1beta1.VirtualMachineTemplate"].

Definition schema_VirtualMachineTemplateRequest : definition := mkDefinition
  (object
    [("kind", scalar "string" "");
     ("apiVersion", scalar "string" "");
     ("metadata", defaulted (JObj []) (ref "k8s.io/apimachinery/pkg/apis/meta/v1.ObjectMeta"));
     ("spec", defaulted (JObj []) (ref "kubevirt.io/virt-template-api/core/v1beta1.VirtualMachineTemplateRequestSpec"));
     ("status", defaulted (JObj []) (ref "kubevirt.io/virt-template-api/core/v1beta1.VirtualMachineTemplateRequestStatus"))]
    ["spec"])
  ["k8s.io/apimachinery/pkg/apis/meta/v1.ObjectMeta"; "kubevirt.io/virt-template-api/core/v1beta1.VirtualMachineTemplateRequestSpec";
   "kubevirt.io/virt-template-api/core/v1beta1.VirtualMachineTemplateRequestStatus"].

Definition schema_VirtualMachineTemplateRequestList : definition := mkDefinition
  (object
    [("kind", scalar "string" "");
     ("apiVersion", scalar "string" "");
     ("metadata", defaulted (JObj []) (ref "k8s.io/apimachinery/pkg/apis/meta/v1.ListMeta"));
     ("items", array "" [] (ref "kubevirt.io/virt-template-api/core/v1beta1.VirtualMachineTemplateRequest"))]
    ["items"])
  ["k8s.io/apimachinery/pkg/apis/meta/v1.ListMeta"; "kubevirt.io/virt-template-api/core/v1beta1.VirtualMachineTemplateRequest"].

Definition schema_VirtualMachineTemplateRequestSpec : definition := mkDefinition
  (object
    [("virtualMachineRef", defaulted (JObj []) (ref "kubevirt.io/virt-template-api/core/v1beta1.VirtualMachineReference"));
     ("templateName", scalar "string" "");
     ("templateLabels", map_of (scalar "string" ""));
     ("ttlSecondsAfterFinished", scalar "integer" "int32")]
    ["virtualMachineRef"])
  ["kubevirt.io/virt-template-api/core/v1beta1.VirtualMachineReference"].

Definition schema_VirtualMachineTemplateRequestStatus : definition := mkDefinition
  (object
    [("conditions", array "map" ["type"] (ref "k8s.io/apimachinery/pkg/apis/meta/v1.Condition"));
     ("templateRef", ref "k8s.io/api/core/v1.LocalObjectReference")]
    [])
  ["k8s.io/api/core/v1.LocalObjectReference"; "k8s.io/apimachinery/pkg/apis/meta/v1.Condition"].

Definition schema_VirtualMachineTemplateSpec : definition := mkDefinition
  (object
    [("virtualMachine", ref "k8s.io/apimachinery/pkg/runtime.RawExtension");
     ("parameters", array "" [] (ref "kubevirt.io/virt-template-api/core/v1beta1.Parameter"));
     ("message", scalar "string" "")]
    ["virtualMachine"])
  ["k8s.io/apimachinery/pkg/runtime.RawExtension"; "kubevirt.io/virt-template-api/core/v1beta1.Parameter"].

Definition schema_VirtualMachineTemplateStatus : definition := mkDefinition
  (object
    [("conditions", array "map" ["type"] (ref "k8s.io/apimachinery/pkg/apis/meta/v1.Condition"))]
    [])
  ["k8s.io/apimachinery/pkg/apis/meta/v1.Condition"].

End Schemav1beta1.

(** [GetOpenAPIDefinitions], as far as the types above are concerned; every
    other name is looked up in [others]. *)
Definition registry : list (string * definition) :=
  [("k8s.io/api/core/v1.LocalObjectReference", SchemaLib.schema_LocalObjectReference);
   ("k8s.io/api/core/v1.ObjectReference", SchemaLib.schema_ObjectReference);
   ("k8s.io/apimachinery/pkg/apis/meta/v1.Condition", SchemaLib.schema_Condition);
   ("k8s.io/apimachinery/pkg/apis/meta/v1.FieldsV1", SchemaLib.schema_FieldsV1);
   ("k8s.io/apimachinery/pkg/apis/meta/v1.ListMeta", SchemaLib.schema_ListMeta);
   ("k8s.io/apimachinery/pkg/apis/meta/v1.ManagedFieldsEntry", SchemaLib.schema_ManagedFieldsEntry);
   ("k8s.io/apimachinery/pkg/apis/meta/v1.ObjectMeta", SchemaLib.schema_ObjectMeta);
   ("k8s.io/apimachinery/pkg/apis/meta/v1.OwnerReference", SchemaLib.schema_OwnerReference);
   ("k8s.io/apimachinery/pkg/apis/meta/v1.Time", SchemaLib.schema_Time);
   ("k8s.io/apimachinery/pkg/runtime.RawExtension", SchemaLib.schema_RawExtension);
   ("kubevirt.io/virt-template-api/core/subresourcesv1alpha1.ProcessOptions", SchemaSubresourcesv1alpha1.schema_ProcessOptions);
   ("kubevirt.io/virt-template-api/core/subresourcesv1alpha1.ProcessedVirtualMachineTemplate", SchemaSubresourcesv1alpha1.schema_ProcessedVirtualMachineTemplate);
   ("kubevirt.io/virt-template-api/core/subresourcesv1alpha1.VirtualMachineTemplate", SchemaSubresourcesv1alpha1.schema_VirtualMachineTemplate);
   ("kubevirt.io/virt-template-api/core/subresourcesv1beta1.ProcessOptions", SchemaSubresourcesv1beta1.schema_ProcessOptions);
   ("kubevirt.io/virt-template-api/core/subresourcesv1beta1.ProcessedVirtualMachineTemplate", SchemaSubresourcesv1beta1.schema_ProcessedVirtualMachineTemplate);
   ("kubevirt.io/virt-template-api/core/subresourcesv1beta1.VirtualMachineTemplate", SchemaSubresourcesv1beta1.schema_VirtualMachineTemplate);
   ("kubevirt.io/virt-template-api/core/v1alpha1.Parameter", Schemav1alpha1.schema_Parameter);
   ("kubevirt.io/virt-template-api/core/v1alpha1.VirtualMachineReference", Schemav1alpha1.schema_VirtualMachineReference);
   ("kubevirt.io/virt-template-api/core/v1alpha1.VirtualMachineTemplate", Schemav1alpha1.schema_VirtualMachineTemplate);
   ("kubevirt.io/virt-template-api/core/v1alpha1.VirtualMachineTemplateList", Schemav1alpha1.schema_VirtualMachineTemplateList);
   ("kubevirt.io/virt-template-api/core/v1alpha1.VirtualMachineTemplateRequest", Schemav1alpha1.schema_VirtualMachineTemplateRequest);
   ("kubevirt.io/virt-template-api/core/v1alpha1.VirtualMachineTemplateRequestList", Schemav1alpha1.schema_VirtualMachineTemplateRequestList);
   ("kubevirt.io/virt-template-api/core/v1alpha1.VirtualMachineTemplateRequestSpec", Schemav1alpha1.schema_VirtualMachineTemplateRequestSpec);
   ("kubevirt.io/virt-template-api/core/v1alpha1.VirtualMachineTemplateRequestStatus", Schemav1alpha1.schema_VirtualMachineTemplateRequestStatus);
   ("kubevirt.io/virt-template-api/core/v1alpha1.VirtualMachineTemplateSpec", Schemav1alpha1.schema_VirtualMachineTemplateSpec);
   ("kubevirt.io/virt-template-api/core/v1alpha1.VirtualMachineTemplateStatus", Schemav1alpha1.schema_VirtualMachineTemplateStatus);
   ("kubevirt.io/virt-template-api/core/v1beta1.Parameter", Schemav1beta1.schema_Parameter);
   ("kubevirt.io/virt-template-api/core/v1beta1.VirtualMachineReference", Schemav1beta1.schema_VirtualMachineReference);
   ("kubevirt.io/virt-template-api/core/v1beta1.VirtualMachineTemplate", Schemav1beta1.schema_VirtualMachineTemplate);
   ("kubevirt.io/virt-template-api/core/v1beta1.VirtualMachineTemplateList", Schemav1beta1.schema_VirtualMachineTemplateList);
   ("kubevirt.io/virt-template-api/core/v1beta1.VirtualMachineTemplateRequest", Schemav1beta1.schema_VirtualMachineTemplateRequest);
   ("kubevirt.io/virt-template-api/core/v1beta1.VirtualMachineTemplateRequestList", Schemav1beta1.schema_VirtualMachineTemplateRequestList);
   ("kubevirt.io/virt-template-api/core/v1beta1.VirtualMachineTemplateRequestSpec", Schemav1beta1.schema_VirtualMachineTemplateRequestSpec);
   ("kubevirt.io/virt-template-api/core/v1beta1.VirtualMachineTemplateRequestStatus", Schemav1beta1.schema_VirtualMachineTemplateRequestStatus);
   ("kubevirt.io/virt-template-api/core/v1beta1.VirtualMachineTemplateSpec", Schemav1beta1.schema_VirtualMachineTemplateSpec);
   ("kubevirt.io/virt-template-api/core/v1beta1.VirtualMachineTemplateStatus", Schemav1beta1.schema_VirtualMachineTemplateStatus)].
Section Conforms.
Context (others : string → option definition).

Definition lookup_definition (name : string) : option definition :=
  match assoc_get name registry with Some d => Some d | None => others name end.

(** ** Conformance *)

Definition scalar_ok (type format : string) (j : json) : bool :=
  match j with
  | JStr s => (type =? "string")%string && (if (format =? "date-time")%string then rfc3339 s else true)
  | JBool _ => (type =? "boolean")%string
  | JNum lit =>
      (type =? "number")%string ||
      (type =? "integer")%string &&
      match Atoi lit with
      | Ok z => if (format =? "int32")%string then bool_decide (- 2 ^ 31 ≤ z < 2 ^ 31)%Z
                else bool_decide (- 2 ^ 63 ≤ z < 2 ^ 63)%Z
      | _ => false
      end
  | _ => false
  end.

(** The member [k] of an object. *)
Definition member (k : string) (j : json) : option json :=
  match j with JObj kvs => assoc_get k kvs | _ => None end.

(** Lists of type set have no duplicates, lists of type map no two items
    with the same keys. *)
Definition list_ok (list_type : string) (keys : list string) (l : list json) : bool :=
  if (list_type =? "set")%string then bool_decide (NoDup l)
  else if (list_type =? "map")%string then bool_decide (NoDup ((λ j, flip member j <$> keys) <$> l))
  else true.

(** A document of the shape of a schema: every member of a struct is one of
    its properties, the required ones are there.  A struct without properties
    is any object.  References and nesting use up [fuel]; the last case does
    not occur after [bare]. *)
Fixpoint conforms (fuel : nat) (s : schema) (j : json) : bool :=
  match fuel with
  | 0 => false
  | S fuel =>
      match bare s with
      | ref name =>
          match lookup_definition name with Some d => conforms fuel (d_schema d) j | None => false end
      | scalar type format => scalar_ok type format j
      | enumerated type format values =>
          scalar_ok type format j && match j with JStr s => bool_decide (s ∈ values) | _ => false end
      | one_of types format => existsb (λ type, scalar_ok type format j) types
      | anything => true
      | array list_type keys items =>
          match j with JArr l => forallb (conforms fuel items) l && list_ok list_type keys l | _ => false end
      | map_of values =>
          match j with JObj kvs => forallb (λ kv, conforms fuel values kv.2) kvs | _ => false end
      | object properties required =>
          match j with
          | JObj kvs =>
              match properties with
              | [] => true
              | _ => forallb (λ kv, match assoc_get kv.1 properties with
                                    | Some s => conforms fuel s kv.2
                                    | None => false
                                    end) kvs &&
                     forallb (λ k, bool_decide (k ∈ kvs.*1)) required
              end
          | _ => false
          end
      | defaulted _ _ | extended _ _ => false
      end
  end.

(** ** What a codec writes has the shape of a schema *)
Class JConf {A} (c : jcodec A) (s : schema) (fuel : nat) : Prop :=
  j_conf x j : j_ok c x → j_enc c x = Ok j → conforms fuel s j = true.

Class FConf {A} (f : fcodec A) (props : list (string * schema)) (fuel : nat) : Prop :=
  f_conf x kvs : f_ok f x → f_enc f x = Ok kvs →
    Forall (λ kv, ∃ s, assoc_get kv.1 props = Some s ∧ conforms fuel s kv.2 = true) kvs.

(** The member [k] is always written. *)
Class FHas {A} (f : fcodec A) (k : string) : Prop :=
  f_has x kvs : f_ok f x → f_enc f x = Ok kvs → k ∈ kvs.*1.

#[local] Instance defaulted_conf {A} (c : jcodec A) v s n : JConf c s n → JConf c (defaulted v s) n.
Proof. intros Hc x j Hx Hj. destruct n; exact (Hc x j Hx Hj). Qed.
#[local] Instance extended_conf {A} (c : jcodec A) e s n : JConf c s n → JConf c (extended e s) n.
Proof. intros Hc x j Hx Hj. destruct n; exact (Hc x j Hx Hj). Qed.

#[local] Instance jstr_conf n : JConf jstr (scalar "string" "") (S n).
Proof. by intros x j _ [= <-]. Qed.
#[local] Instance jbool_conf n : JConf jbool (scalar "boolean" "") (S n).
Proof. by intros x j _ [= <-]. Qed.
#[local] Instance jint64_conf n : JConf (jint 64) (scalar "integer" "int64") (S n).
Proof.
  intros z j Hz [= <-]. cbn in Hz |- *. rewrite Itoa_Atoi by done. by apply bool_decide_eq_true.
Qed.
#[local] Instance jint32_conf n : JConf (jint 32) (scalar "integer" "int32") (S n).
Proof.
  intros z j Hz [= <-]. cbn in Hz |- *. rewrite Itoa_Atoi by (unfold int64; lia). by apply bool_decide_eq_true.
Qed.

Lemma time_conf n t j : rfc3339 t = true → j_enc jtime t = Ok j → conforms (S n) (scalar "string" "date-time") j = true.
Proof. intros Ht. cbn. destruct t; [by vm_compute in Ht|]. by intros [= <-]. Qed.

#[local] Instance jtime_set_conf n : JConf jtime_set (scalar "string" "date-time") (S n).
Proof. intros t j Ht Hj. exact (time_conf n t j Ht Hj). Qed.

#[local] Instance jmap_conf n : JConf jmap (map_of (scalar "string" "")) (S (S n)).
Proof.
  intros m j _ [= <-]. cbn. apply forallb_forall. intros kv Hkv.
  apply list_elem_of_In, list_elem_of_fmap in Hkv as ([k v] & -> & _). done.
Qed.

#[local] Instance jraw_conf n : JConf (jraw true) (object [] []) (S n).
Proof.
  intros s j Hs. destruct (raw_text_unmarshal true s Hs) as (j' & -> & He & Hu & _ & _ & _ & Ho).
  cbn -[str_empty]. rewrite He, Hu. intros [= <-]. by destruct (Ho eq_refl) as [kvs ->].
Qed.

#[local] Instance jrawext_conf tm n : JConf (jrawext tm true) (object [] []) (S n).
Proof.
  intros [s o] j [Hs _]. cbn in Hs. destruct (raw_text_unmarshal true s Hs) as (j' & -> & He & Hu & _ & _ & _ & Ho).
  cbn -[str_empty]. rewrite He, Hu. intros [= <-]. by destruct (Ho eq_refl) as [kvs ->].
Qed.

Lemma list_conf {A} (c : jcodec A) s n : JConf c s n → ∀ l js, Forall (j_ok c) l → mapM (j_enc c) l = Ok js →
  forallb (conforms n s) js = true.
Proof.
  intros Hc l. induction l as [|x l IH]; intros js Hok; cbn; [by intros [= <-]|].
  apply Forall_cons in Hok as [Hx Hl]. destruct (j_enc c x) as [j| |] eqn:Hj; [|done..]. cbn.
  destruct (mapM (j_enc c) l) as [js'| |] eqn:Hjs; [|done..]. intros [= <-]. cbn.
  by rewrite (Hc x j Hx Hj), (IH js' Hl eq_refl).
Qed.

(** A list without a type, or an atomic one. *)
#[local] Instance jlist_conf {A} (c : jcodec A) lt keys s n :
  TCEq ((lt =? "set") || (lt =? "map"))%string false → JConf c s n → JConf (jlist c) (array lt keys s) (S n).
Proof.
  intros Hlt%TCEq_eq Hc l j Hl. cbn. destruct (mapM (j_enc c) l) as [js| |] eqn:Hjs; [|done..].
  intros [= <-]. rewrite (list_conf c s n Hc l js Hl Hjs). unfold list_ok.
  apply orb_false_iff in Hlt as [-> ->]. done.
Qed.

#[local] Instance ref_conf {A} (c : jcodec A) name d n :
  TCEq (lookup_definition name) (Some d) → JConf c (d_schema d) n → JConf c (ref name) (S n).
Proof. intros Hd%TCEq_eq Hc x j Hx Hj. cbn. rewrite Hd. by eapply Hc. Qed.

Lemma jobj_conf {A} (f : fcodec A) props required n :
  FConf f props n → Forall (FHas f) required → JConf (jobj f) (object props required) (S n).
Proof.
  intros Hf Hr x j Hx. cbn. destruct (f_enc f x) as [kvs| |] eqn:Hk; [|done..]. intros [= <-].
  destruct props as [|p props]; [done|]. apply andb_true_iff. split.
  - apply forallb_forall. intros kv Hkv%list_elem_of_In.
    destruct (proj1 (Forall_forall _ _) (Hf x kvs Hx Hk) kv Hkv) as (s & -> & Hs). done.
  - apply forallb_forall. intros k Hin%list_elem_of_In. apply bool_decide_eq_true.
    by apply (proj1 (Forall_forall _ _) Hr k Hin x kvs).
Qed.

(** *** Fields *)
Lemma one_conf k (j : json) props s n : assoc_get k props = Some s → conforms n s j = true →
  Forall (λ kv : string * json, ∃ s, assoc_get kv.1 props = Some s ∧ conforms n s kv.2 = true) [(k, j)].
Proof. intros Hs Hj. constructor; [by exists s|done]. Qed.

#[local] Instance field_conf {A} omit k (c : jcodec A) z props s n :
  TCEq (assoc_get k props) (Some s) → JConf c s n → FConf (field omit k c z) props n.
Proof.
  intros Hs%TCEq_eq Hc x kvs Hx. cbn. destruct (omit x); [by intros [= <-]|].
  destruct (j_enc c x) as [j| |] eqn:Hj; [|done..]. intros [= <-]. eapply one_conf; [done|by eapply Hc].
Qed.

#[local] Instance fptr_conf {A} k (c : jcodec A) props s n :
  TCEq (assoc_get k props) (Some s) → JConf c s n → FConf (fptr k c) props n.
Proof.
  intros Hs%TCEq_eq Hc [x|] kvs Hx; cbn in *; [|by intros [= <-]].
  destruct (j_enc c x) as [j| |] eqn:Hj; [|done..]. intros [= <-]. eapply one_conf; [done|by eapply Hc].
Qed.

#[local] Instance fptr_always_conf {A} k (c : jcodec A) props s n :
  TCEq (assoc_get k props) (Some s) → JConf c s n → FConf (fptr_always true k c) props n.
Proof.
  intros Hs%TCEq_eq Hc [x|] kvs Hx; cbn in *; [|done].
  destruct (j_enc c x) as [j| |] eqn:Hj; [|done..]. intros [= <-]. eapply one_conf; [done|by eapply Hc].
Qed.

#[local] Instance fpair_conf {A B} (f : fcodec A) (g : fcodec B) props n :
  FConf f props n → FConf g props n → FConf (f ⊕ g) props n.
Proof.
  intros Hf Hg [x y] kvs [Hx Hy]. cbn in *. destruct (f_enc f x) as [a| |] eqn:Ha; [|done..]. cbn.
  destruct (f_enc g y) as [b| |] eqn:Hb; [|done..]. intros [= <-]. apply Forall_app; split; [by eapply Hf|by eapply Hg].
Qed.

#[local] Instance fstruct_conf {S T} (fields : S → T) build (f : fcodec T) props n :
  FConf f props n → FConf (fstruct fields build f) props n.
Proof. intros Hf x kvs Hx Hk. exact (Hf (fields x) kvs Hx Hk). Qed.

#[local] Instance fsuch_conf {A} P (f : fcodec A) props n : FConf f props n → FConf (fsuch P f) props n | 10.
Proof. intros Hf x kvs [_ Hx] Hk. exact (Hf x kvs Hx Hk). Qed.

(** A time that is left out when it is zero, and one that is not. *)
#[local] Instance time_omit_conf k props s n :
  TCEq (assoc_get k props) (Some s) → JConf jtime_set s n → FConf (field str_empty k jtime EmptyString) props n | 0.
Proof.
  intros Hs%TCEq_eq Hc t kvs [->|Ht]; [cbn; by intros [= <-]|]. cbn -[rfc3339 str_empty].
  destruct (str_empty t) eqn:He; [by intros [= <-]|]. intros [= <-]. eapply one_conf; [done|].
  apply (Hc t); [done|]. cbn -[str_empty]. by rewrite He.
Qed.

#[local] Instance time_set_conf k props s n :
  TCEq (assoc_get k props) (Some s) → JConf jtime_set s n →
  FConf (fsuch (λ t, true = true → rfc3339 t = true) (field (λ _, false) k jtime EmptyString)) props n | 0.
Proof.
  intros Hs%TCEq_eq Hc t kvs [Ht _]. specialize (Ht eq_refl). cbn -[rfc3339 str_empty]. intros [= <-].
  eapply one_conf; [done|]. by apply (Hc t).
Qed.

(** A list of type set of strings. *)
Lemma mapM_strs l : mapM (j_enc jstr) l = Ok (JStr <$> l).
Proof. induction l as [|x l IH]; [done|]. cbn in *. by rewrite IH. Qed.

#[local] Instance set_conf k props s n : TCEq (bare <$> assoc_get k props) (Some (array "set" [] s)) → JConf jstr s n →
  FConf (fsuch (distinct true id) (flist_omit k jstr)) props (S n) | 0.
Proof.
  intros (s' & Hs & Hb)%TCEq_eq%fmap_Some Hc l kvs [Hnd Hok]. specialize (Hnd eq_refl). rewrite list_fmap_id in Hnd.
  cbn -[conforms]. case_bool_decide; [by intros [= <-]|]. setoid_rewrite mapM_strs. intros [= <-].
  eapply one_conf; [done|]. cbn. rewrite <- Hb. rewrite (list_conf jstr s n Hc l (JStr <$> l) Hok (mapM_strs l)).
  apply bool_decide_eq_true. apply NoDup_fmap_2; [|done]. by intros ?? [= ->].
Qed.

(** A list of type map, whose items write their key as a string. *)
Class JKey {A} (c : jcodec A) (key : string) (get : A → string) : Prop :=
  j_key x j : j_ok c x → j_enc c x = Ok j → member key j = Some (JStr (get x)).

Lemma keys_distinct {A} (c : jcodec A) key get l js : JKey c key get → Forall (j_ok c) l →
  mapM (j_enc c) l = Ok js → (λ j, flip member j <$> [key]) <$> js = (λ k, [Some (JStr k)]) <$> (get <$> l).
Proof.
  intros Hk Hok. revert js. induction Hok as [|x l Hx _ IH]; intros js; cbn; [by intros [= <-]|].
  destruct (j_enc c x) as [j| |] eqn:Hj; [|done..]. cbn.
  destruct (mapM (j_enc c) l) as [js'| |]; [|done..]. intros [= <-]. cbn. f_equal; [|by apply IH].
  unfold flip. by rewrite (Hk x j Hx Hj).
Qed.

#[local] Instance keyed_conf {A} k (c : jcodec A) key get props s n :
  TCEq (bare <$> assoc_get k props) (Some (array "map" [key] s)) → JConf c s n → JKey c key get →
  FConf (fsuch (distinct true get) (flist_omit k c)) props (S n) | 0.
Proof.
  intros (s' & Hs & Hb)%TCEq_eq%fmap_Some Hc Hk l kvs [Hnd Hok]. specialize (Hnd eq_refl).
  cbn -[conforms]. case_bool_decide; [by intros [= <-]|]. destruct (mapM (j_enc c) l) as [js| |] eqn:Hjs; [|done..].
  intros [= <-]. eapply one_conf; [done|]. cbn. rewrite <- Hb, (list_conf c s n Hc l js Hok Hjs). unfold list_ok. cbn.
  apply bool_decide_eq_true. pose proof (keys_distinct c key get l js Hk Hok Hjs) as Heq. cbn in Heq. rewrite Heq.
  apply NoDup_fmap_2; [|done]. by intros ?? [= ->].
Qed.

(** *** Members that are always there *)
#[local] Instance always_has {A} k (c : jcodec A) z : FHas (field (λ _, false) k c z) k.
Proof. intros x kvs _. cbn. destruct (j_enc c x); intros [= <-]. set_solver. Qed.
#[local] Instance fptr_always_has {A} b k (c : jcodec A) : FHas (fptr_always b k c) k.
Proof. intros [x|] kvs _; cbn; [destruct (j_enc c x)|]; intros [= <-]; set_solver. Qed.
#[local] Instance fpair_has_l {A B} (f : fcodec A) (g : fcodec B) k : FHas f k → FHas (f ⊕ g) k.
Proof.
  intros Hf [x y] kvs [Hx _]. cbn in *. destruct (f_enc f x) as [a| |] eqn:Ha; [|done..]. cbn.
  destruct (f_enc g y); intros [= <-]. rewrite fmap_app. apply elem_of_app. left. by eapply Hf.
Qed.
#[local] Instance fpair_has_r {A B} (f : fcodec A) (g : fcodec B) k : FHas g k → FHas (f ⊕ g) k.
Proof.
  intros Hg [x y] kvs [_ Hy]. cbn in *. destruct (f_enc f x) as [a| |]; [|done..]. cbn.
  destruct (f_enc g y) as [b| |] eqn:Hb; intros [= <-]. rewrite fmap_app. apply elem_of_app. right. by eapply Hg.
Qed.
#[local] Instance fstruct_has {S T} (fields : S → T) build (f : fcodec T) k : FHas f k → FHas (fstruct fields build f) k.
Proof. intros Hf x kvs Hx Hk. exact (Hf (fields x) kvs Hx Hk). Qed.
#[local] Instance fsuch_has {A} P (f : fcodec A) k : FHas f k → FHas (fsuch P f) k | 10.
Proof. intros Hf x kvs [_ Hx] Hk. exact (Hf x kvs Hx Hk). Qed.
#[local] Instance nonempty_has k : FHas (fsuch (λ s, true = true → s ≠ EmptyString) (fstr_omit k)) k | 0.
Proof.
  intros s kvs [Hs _]. specialize (Hs eq_refl). cbn. destruct (str_empty s) eqn:He.
  - by apply String.eqb_eq in He.
  - intros [= <-]. set_solver.
Qed.

(** *** The structs *)
Ltac struct_conf := try apply extended_conf; apply jobj_conf; [apply _|repeat constructor; apply _].

#[local] Instance owner_conf n : JConf (jobj owner_fields) (d_schema SchemaLib.schema_OwnerReference) (S (S n)).
Proof. struct_conf. Qed.
#[local] Instance managed_conf n : JConf (jobj (managed_fields true)) (d_schema SchemaLib.schema_ManagedFieldsEntry) (S (S (S n))).
Proof. struct_conf. Qed.
#[local] Instance condition_conf n : JConf (jobj (condition_fields true)) (d_schema SchemaLib.schema_Condition) (S (S (S n))).
Proof. struct_conf. Qed.
#[local] Instance list_meta_conf n : JConf (jobj list_meta_fields) (d_schema SchemaLib.schema_ListMeta) (S (S n)).
Proof. struct_conf. Qed.
#[local] Instance local_ref_conf n : JConf (jobj local_ref_fields) (d_schema SchemaLib.schema_LocalObjectReference) (S (S n)).
Proof. struct_conf. Qed.

#[local] Instance owner_key : JKey (jobj owner_fields) "uid" WO_UID.
Proof.
  intros o j _. cbn. destruct (WO_Controller o), (WO_BlockOwnerDeletion o); by intros [= <-].
Qed.
#[local] Instance condition_key : JKey (jobj (condition_fields true)) "type" WC_Type.
Proof.
  intros c j _. cbn. destruct (match WC_ObservedGeneration c with 0%Z => true | _ => false end);
    by intros [= <-].
Qed.

#[local] Instance meta_conf n : JConf (jobj (meta_fields true)) (d_schema SchemaLib.schema_ObjectMeta) (S (S (S (S (S (S n)))))).
Proof. struct_conf. Qed.

Section Versions.
Context (tm : gval → res error json).

#[local] Instance param_v1alpha1_conf n : JConf (jobj param_fields) (d_schema Schemav1alpha1.schema_Parameter) (2 + n).
Proof. struct_conf. Qed.
#[local] Instance spec_v1alpha1_conf n : JConf (jobj (spec_fields tm true)) (d_schema Schemav1alpha1.schema_VirtualMachineTemplateSpec) (5 + n).
Proof. struct_conf. Qed.
#[local] Instance status_v1alpha1_conf n : JConf (jobj (status_fields true)) (d_schema Schemav1alpha1.schema_VirtualMachineTemplateStatus) (6 + n).
Proof. struct_conf. Qed.
#[local] Instance template_v1alpha1_conf n : JConf (jobj (template_fields tm true)) (d_schema Schemav1alpha1.schema_VirtualMachineTemplate) (9 + n).
Proof. struct_conf. Qed.
#[local] Instance template_list_v1alpha1_conf n : JConf (jobj (template_list_fields tm true)) (d_schema Schemav1alpha1.schema_VirtualMachineTemplateList) (12 + n).
Proof. struct_conf. Qed.
#[local] Instance vmref_v1alpha1_conf n : JConf (jobj (vmref_fields true)) (d_schema Schemav1alpha1.schema_VirtualMachineReference) (2 + n).
Proof. struct_conf. Qed.
#[local] Instance request_spec_v1alpha1_conf n : JConf (jobj (request_spec_fields true)) (d_schema Schemav1alpha1.schema_VirtualMachineTemplateRequestSpec) (5 + n).
Proof. struct_conf. Qed.
#[local] Instance request_status_v1alpha1_conf n : JConf (jobj (request_status_fields true)) (d_schema Schemav1alpha1.schema_VirtualMachineTemplateRequestStatus) (6 + n).
Proof. struct_conf. Qed.
#[local] Instance request_v1alpha1_conf n : JConf (jobj (request_fields true)) (d_schema Schemav1alpha1.schema_VirtualMachineTemplateRequest) (9 + n).
Proof. struct_conf. Qed.
#[local] Instance request_list_v1alpha1_conf n : JConf (jobj (request_list_fields true)) (d_schema Schemav1alpha1.schema_VirtualMachineTemplateRequestList) (12 + n).
Proof. struct_conf. Qed.
#[local] Instance param_v1beta1_conf n : JConf (jobj param_fields) (d_schema Schemav1beta1.schema_Parameter) (2 + n).
Proof. struct_conf. Qed.
#[local] Instance spec_v1beta1_conf n : JConf (jobj (spec_fields tm true)) (d_schema Schemav1beta1.schema_VirtualMachineTemplateSpec) (5 + n).
Proof. struct_conf. Qed.
#[local] Instance status_v1beta1_conf n : JConf (jobj (status_fields true)) (d_schema Schemav1beta1.schema_VirtualMachineTemplateStatus) (6 + n).
Proof. struct_conf. Qed.
#[local] Instance template_v1beta1_conf n : JConf (jobj (template_fields tm true)) (d_schema Schemav1beta1.schema_VirtualMachineTemplate) (9 + n).
Proof. struct_conf. Qed.
#[local] Instance template_list_v1beta1_conf n : JConf (jobj (template_list_fields tm true)) (d_schema Schemav1beta1.schema_VirtualMachineTemplateList) (12 + n).
Proof. struct_conf. Qed.
#[local] Instance vmref_v1beta1_conf n : JConf (jobj (vmref_fields true)) (d_schema Schemav1beta1.schema_VirtualMachineReference) (2 + n).
Proof. struct_conf. Qed.
#[local] Instance request_spec_v1beta1_conf n : JConf (jobj (request_spec_fields true)) (d_schema Schemav1beta1.schema_VirtualMachineTemplateRequestSpec) (5 + n).
Proof. struct_conf. Qed.
#[local] Instance request_status_v1beta1_conf n : JConf (jobj (request_status_fields true)) (d_schema Schemav1beta1.schema_VirtualMachineTemplateRequestStatus) (6 + n).
Proof. struct_conf. Qed.
#[local] Instance request_v1beta1_conf n : JConf (jobj (request_fields true)) (d_schema Schemav1beta1.schema_VirtualMachineTemplateRequest) (9 + n).
Proof. struct_conf. Qed.
#[local] Instance request_list_v1beta1_conf n : JConf (jobj (request_list_fields true)) (d_schema Schemav1beta1.schema_VirtualMachineTemplateRequestList) (12 + n).
Proof. struct_conf. Qed.

(** The depth of the schemas of the API objects. *)
Definition schema_depth : nat := 13.

End Versions.
End Conforms.

(** ** The registry *)

(** The names a schema refers to. *)
Fixpoint schema_refs (s : schema) : list string :=
  match s with
  | ref name => [name]
  | scalar _ _ | enumerated _ _ _ | one_of _ _ | anything => []
  | array _ _ items => schema_refs items
  | map_of values => schema_refs values
  | object properties _ => concat ((λ p, schema_refs p.2) <$> properties)
  | defaulted _ s | extended _ s => schema_refs s
  end.

(** The schema with its references changed by [f], the [ReferenceCallback]. *)
Fixpoint map_refs (f : string → string) (s : schema) : schema :=
  match s with
  | ref name => ref (f name)
  | scalar _ _ | enumerated _ _ _ | one_of _ _ | anything => s
  | array lt ks items => array lt ks (map_refs f items)
  | map_of values => map_of (map_refs f values)
  | object ps req => object (prod_map id (map_refs f) <$> ps) req
  | defaulted v s => defaulted v (map_refs f s)
  | extended e s => extended e (map_refs f s)
  end.

(** The KubeVirt VirtualMachine, the only type outside the registry. *)
Definition foreign_definitions : list string := ["kubevirt.io/api/core/v1.VirtualMachine"].

(** The registry is closed: every definition declares exactly the
    dependencies its schema refers to, and each of them is registered. *)
Lemma registry_closed :
  forallb (λ '(_, d),
    forallb (λ r, bool_decide (r ∈ d_dependencies d)) (schema_refs (d_schema d)) &&
    forallb (λ r, bool_decide (r ∈ schema_refs (d_schema d)) &&
                  bool_decide (r ∈ registry.*1 ++ foreign_definitions)) (d_dependencies d)) registry = true.
Proof. vm_compute. reflexivity. Qed.

(** A name or schema of v1alpha1 with the version changed to v1beta1. *)
Definition next_version (name : string) : string :=
  let move old new := if String.prefix old name then Some (new +:+ str_drop (String.length old) name) else None in
  match move "kubevirt.io/virt-template-api/core/v1alpha1." "kubevirt.io/virt-template-api/core/v1beta1.",
        move "kubevirt.io/virt-template-api/core/subresourcesv1alpha1."
             "kubevirt.io/virt-template-api/core/subresourcesv1beta1." with
  | Some n, _ => n
  | None, Some n => n
  | None, None => name
  end.

Definition rename_refs : schema → schema := map_refs next_version.

(** The published schemas of the two versions agree: each definition of
    v1alpha1 (resources and subresources) is, up to the version in the names,
    the one of v1beta1, so a document of the one has the shape of the other. *)
Theorem versions_agree name d :
  assoc_get name registry = Some d → next_version name ≠ name →
  ∃ d', assoc_get (next_version name) registry = Some d' ∧ d_schema d' = rename_refs (d_schema d) ∧
    d_dependencies d' = next_version <$> d_dependencies d.
Proof.
  intros Hd Hn. apply assoc_get_elem in Hd.
  assert (Forall (λ '(name, d), next_version name = name ∨
    ∃ d', assoc_get (next_version name) registry = Some d' ∧ d_schema d' = rename_refs (d_schema d) ∧
      d_dependencies d' = next_version <$> d_dependencies d) registry) as Hall.
  { repeat (apply Forall_cons; split;
      [first [left; vm_compute; reflexivity | right; eexists; split; [vm_compute; reflexivity|split; reflexivity]]|]).
    apply Forall_nil. done. }
  by destruct (proj1 (Forall_forall _ _) Hall (name, d) Hd).
Qed.

Lemma versions_agree_witness :
  ∃ d', assoc_get "kubevirt.io/virt-template-api/core/v1beta1.VirtualMachineTemplate" registry = Some d' ∧
    d_schema d' = rename_refs (d_schema Schemav1alpha1.schema_VirtualMachineTemplate) ∧
    d_dependencies d' = next_version <$> d_dependencies Schemav1alpha1.schema_VirtualMachineTemplate.
Proof.
  apply (versions_agree "kubevirt.io/virt-template-api/core/v1alpha1.VirtualMachineTemplate"
           Schemav1alpha1.schema_VirtualMachineTemplate); [vm_compute; reflexivity|vm_compute; discriminate].
Defined.

