(* ===== verification/OpenApiCore.v ===== *)
(** * Published OpenAPI schemas: k8s.io/api/core/v1

    The definitions of api/openapi_generated.go for the core API of Kubernetes, as far
    as they are not in OpenApi: one definition per function of the file, with
    its schema and its dependencies; descriptions are left out. *)

From stdpp Require Import prelude strings.
From S2P Require Import Json OpenApi.

Local Open Scope string_scope.

Definition schema_k8sio_api_core_v1_AWSElasticBlockStoreVolumeSource : definition := mkDefinition
  (object
    [("volumeID", defaulted (JStr "") (scalar "string" ""));
     ("fsType", scalar "string" "");
     ("partition", scalar "integer" "int32");
     ("readOnly", scalar "boolean" "")]
    ["volumeID"])
  [].

Definition schema_k8sio_api_core_v1_Affinity : definition := mkDefinition
  (object
    [("nodeAffinity", ref "k8s.io/api/core/v1.NodeAffinity");
     ("podAffinity", ref "k8s.io/api/core/v1.PodAffinity");
     ("podAntiAffinity", ref "k8s.io/api/core/v1.PodAntiAffinity")]
    [])
  ["k8s.io/api/core/v1.NodeAffinity"; "k8s.io/api/core/v1.PodAffinity"; "k8s.io/api/core/v1.PodAntiAffinity"].

Definition schema_k8sio_api_core_v1_AppArmorProfile : definition := mkDefinition
  (extended [("x-kubernetes-unions", JArr [JObj [("discriminator", JStr "type"); ("fields-to-discriminateBy", JObj [("localhostProfile", JStr "LocalhostProfile")])]])] (object
    [("type", defaulted (JStr "") (enumerated "string" "" ["Localhost"; "RuntimeDefault"; "Unconfined"]));
     ("localhostProfile", scalar "string" "")]
    ["type"]))
  [].

Definition schema_k8sio_api_core_v1_AttachedVolume : definition := mkDefinition
  (object
    [("name", defaulted (JStr "") (scalar "string" ""));
     ("devicePath", defaulted (JStr "") (scalar "string" ""))]
    ["name"; "devicePath"])
  [].

Definition schema_k8sio_api_core_v1_AvoidPods : definition := mkDefinition
  (object
    [("preferAvoidPods", array "atomic" [] (ref "k8s.io/api/core/v1.PreferAvoidPodsEntry"))]
    [])
  ["k8s.io/api/core/v1.PreferAvoidPodsEntry"].

Definition schema_k8sio_api_core_v1_AzureDiskVolumeSource : definition := mkDefinition
  (object
    [("diskName", defaulted (JStr "") (scalar "string" ""));
     ("diskURI", defaulted (JStr "") (scalar "string" ""));
     ("cachingMode", defaulted (JStr "ReadWrite") (enumerated "string" "" ["None"; "ReadOnly"; "ReadWrite"]));
     ("fsType", defaulted (JStr "ext4") (scalar "string" ""));
     ("readOnly", defaulted (JBool false) (scalar "boolean" ""));
     ("kind", defaulted (JStr "Shared") (enumerated "string" "" ["Dedicated"; "Managed"; "Shared"]))]
    ["diskName"; "diskURI"])
  [].

Definition schema_k8sio_api_core_v1_AzureFilePersistentVolumeSource : definition := mkDefinition
  (object
    [("secretName", defaulted (JStr "") (scalar "string" ""));
     ("shareName", defaulted (JStr "") (scalar "string" ""));
     ("readOnly", scalar "boolean" "");
     ("secretNamespace", scalar "string" "")]
    ["secretName"; "shareName"])
  [].

Definition schema_k8sio_api_core_v1_AzureFileVolumeSource : definition := mkDefinition
  (object
    [("secretName", defaulted (JStr "") (scalar "string" ""));
     ("shareName", defaulted (JStr "") (scalar "string" ""));
     ("readOnly", scalar "boolean" "")]
    ["secretName"; "shareName"])
  [].

Definition schema_k8sio_api_core_v1_Binding : definition := mkDefinition
  (object
    [("kind", scalar "string" "");
     ("apiVersion", scalar "string" "");
     ("metadata", defaulted (JObj []) (ref "k8s.io/apimachinery/pkg/apis/meta/v1.ObjectMeta"));
     ("target", defaulted (JObj []) (ref "k8s.io/api/core/v1.ObjectReference"))]
    ["target"])
  ["k8s.io/api/core/v1.ObjectReference"; "k8s.io/apimachinery/pkg/apis/meta/v1.ObjectMeta"].

Definition schema_k8sio_api_core_v1_CSIPersistentVolumeSource : definition := mkDefinition
  (object
    [("driver", defaulted (JStr "") (scalar "string" ""));
     ("volumeHandle", defaulted (JStr "") (scalar "string" ""));
     ("readOnly", scalar "boolean" "");
     ("fsType", scalar "string" "");
     ("volumeAttributes", map_of (scalar "string" ""));
     ("controllerPublishSecretRef", ref "k8s.io/api/core/v1.SecretReference");
     ("nodeStageSecretRef", ref "k8s.io/api/core/v1.SecretReference");
     ("nodePublishSecretRef", ref "k8s.io/api/core/v1.SecretReference");
     ("controllerExpandSecretRef", ref "k8s.io/api/core/v1.SecretReference");
     ("nodeExpandSecretRef", ref "k8s.io/api/core/v1.SecretReference")]
    ["driver"; "volumeHandle"])
  ["k8s.io/api/core/v1.SecretReference"].

Definition schema_k8sio_api_core_v1_CSIVolumeSource : definition := mkDefinition
  (object
    [("driver", defaulted (JStr "") (scalar "string" ""));
     ("readOnly", scalar "boolean" "");
     ("fsType", scalar "string" "");
     ("volumeAttributes", map_of (scalar "string" ""));
     ("nodePublishSecretRef", ref "k8s.io/api/core/v1.LocalObjectReference")]
    ["driver"])
  ["k8s.io/api/core/v1.LocalObjectReference"].

Definition schema_k8sio_api_core_v1_Capabilities : definition := mkDefinition
  (object
    [("add", array "atomic" [] (scalar "string" ""));
     ("drop", array "atomic" [] (scalar "string" ""))]
    [])
  [].

Definition schema_k8sio_api_core_v1_CephFSPersistentVolumeSource : definition := mkDefinition
  (object
    [("monitors", array "atomic" [] (scalar "string" ""));
     ("path", scalar "string" "");
     ("user", scalar "string" "");
     ("secretFile", scalar "string" "");
     ("secretRef", ref "k8s.io/api/core/v1.SecretReference");
     ("readOnly", scalar "boolean" "")]
    ["monitors"])
  ["k8s.io/api/core/v1.SecretReference"].

Definition schema_k8sio_api_core_v1_CephFSVolumeSource : definition := mkDefinition
  (object
    [("monitors", array "atomic" [] (scalar "string" ""));
     ("path", scalar "string" "");
     ("user", scalar "string" "");
     ("secretFile", scalar "string" "");
     ("secretRef", ref "k8s.io/api/core/v1.LocalObjectReference");
     ("readOnly", scalar "boolean" "")]
    ["monitors"])
  ["k8s.io/api/core/v1.LocalObjectReference"].

Definition schema_k8sio_api_core_v1_CinderPersistentVolumeSource : definition := mkDefinition
  (object
    [("volumeID", defaulted (JStr "") (scalar "string" ""));
     ("fsType", scalar "string" "");
     ("readOnly", scalar "boolean" "");
     ("secretRef", ref "k8s.io/api/core/v1.SecretReference")]
    ["volumeID"])
  ["k8s.io/api/core/v1.SecretReference"].

Definition schema_k8sio_api_core_v1_CinderVolumeSource : definition := mkDefinition
  (object
    [("volumeID", defaulted (JStr "") (scalar "string" ""));
     ("fsType", scalar "string" "");
     ("readOnly", scalar "boolean" "");
     ("secretRef", ref "k8s.io/api/core/v1.LocalObjectReference")]
    ["volumeID"])
  ["k8s.io/api/core/v1.LocalObjectReference"].

Definition schema_k8sio_api_core_v1_ClientIPConfig : definition := mkDefinition
  (object
    [("timeoutSeconds", scalar "integer" "int32")]
    [])
  [].

Definition schema_k8sio_api_core_v1_ClusterTrustBundleProjection : definition := mkDefinition
  (object
    [("name", scalar "string" "");
     ("signerName", scalar "string" "");
     ("labelSelector", ref "k8s.io/apimachinery/pkg/apis/meta/v1.LabelSelector");
     ("optional", scalar "boolean" "");
     ("path", defaulted (JStr "") (scalar "string" ""))]
    ["path"])
  ["k8s.io/apimachinery/pkg/apis/meta/v1.LabelSelector"].

Definition schema_k8sio_api_core_v1_ComponentCondition : definition := mkDefinition
  (object
    [("type", defaulted (JStr "") (scalar "string" ""));
     ("status", defaulted (JStr "") (scalar "string" ""));
     ("message", scalar "string" "");
     ("error", scalar "string" "")]
    ["type"; "status"])
  [].

Definition schema_k8sio_api_core_v1_ComponentStatus : definition := mkDefinition
  (object
    [("kind", scalar "string" "");
     ("apiVersion", scalar "string" "");
     ("metadata", defaulted (JObj []) (ref "k8s.io/apimachinery/pkg/apis/meta/v1.ObjectMeta"));
     ("conditions", extended [("x-kubernetes-patch-merge-key", JStr "type"); ("x-kubernetes-patch-strategy", JStr "merge")] (array "map" ["type"] (ref "k8s.io/api/core/v1.ComponentCondition")))]
    [])
  ["k8s.io/api/core/v1.ComponentCondition"; "k8s.io/apimachinery/pkg/apis/meta/v1.ObjectMeta"].

Definition schema_k8sio_api_core_v1_ComponentStatusList : definition := mkDefinition
  (object
    [("kind", scalar "string" "");
     ("apiVersion", scalar "string" "");
     ("metadata", defaulted (JObj []) (ref "k8s.io/apimachinery/pkg/apis/meta/v1.ListMeta"));
     ("items", array "" [] (ref "k8s.io/api/core/v1.ComponentStatus"))]
    ["items"])
  ["k8s.io/api/core/v1.ComponentStatus"; "k8s.io/apimachinery/pkg/apis/meta/v1.ListMeta"].

Definition schema_k8sio_api_core_v1_ConfigMap : definition := mkDefinition
  (object
    [("kind", scalar "string" "");
     ("apiVersion", scalar "string" "");
     ("metadata", defaulted (JObj []) (ref "k8s.io/apimachinery/pkg/apis/meta/v1.ObjectMeta"));
     ("immutable", scalar "boolean" "");
     ("data", map_of (scalar "string" ""));
     ("binaryData", map_of (scalar "string" "byte"))]
    [])
  ["k8s.io/apimachinery/pkg/apis/meta/v1.ObjectMeta"].

Definition schema_k8sio_api_core_v1_ConfigMapEnvSource : definition := mkDefinition
  (object
    [("name", defaulted (JStr "") (scalar "string" ""));
     ("optional", scalar "boolean" "")]
    [])
  [].

Definition schema_k8sio_api_core_v1_ConfigMapKeySelector : definition := mkDefinition
  (extended [("x-kubernetes-map-type", JStr "atomic")] (object
    [("name", defaulted (JStr "") (scalar "string" ""));
     ("key", defaulted (JStr "") (scalar "string" ""));
     ("optional", scalar "boolean" "")]
    ["key"]))
  [].

Definition schema_k8sio_api_core_v1_ConfigMapList : definition := mkDefinition
  (object
    [("kind", scalar "string" "");
     ("apiVersion", scalar "string" "");
     ("metadata", defaulted (JObj []) (ref "k8s.io/apimachinery/pkg/apis/meta/v1.ListMeta"));
     ("items", array "" [] (ref "k8s.io/api/core/v1.ConfigMap"))]
    ["items"])
  ["k8s.io/api/core/v1.ConfigMap"; "k8s.io/apimachinery/pkg/apis/meta/v1.ListMeta"].

Definition schema_k8sio_api_core_v1_ConfigMapNodeConfigSource : definition := mkDefinition
  (object
    [("namespace", defaulted (JStr "") (scalar "string" ""));
     ("name", defaulted (JStr "") (scalar "string" ""));
     ("uid", scalar "string" "");
     ("resourceVersion", scalar "string" "");
     ("kubeletConfigKey", defaulted (JStr "") (scalar "string" ""))]
    ["namespace"; "name"; "kubeletConfigKey"])
  [].

Definition schema_k8sio_api_core_v1_ConfigMapProjection : definition := mkDefinition
  (object
    [("name", defaulted (JStr "") (scalar "string" ""));
     ("items", array "atomic" [] (ref "k8s.io/api/core/v1.KeyToPath"));
     ("optional", scalar "boolean" "")]
    [])
  ["k8s.io/api/core/v1.KeyToPath"].

Definition schema_k8sio_api_core_v1_ConfigMapVolumeSource : definition := mkDefinition
  (object
    [("name", defaulted (JStr "") (scalar "string" ""));
     ("items", array "atomic" [] (ref "k8s.io/api/core/v1.KeyToPath"));
     ("defaultMode", scalar "integer" "int32");
     ("optional", scalar "boolean" "")]
    [])
  ["k8s.io/api/core/v1.KeyToPath"].

Definition schema_k8sio_api_core_v1_Container : definition := mkDefinition
  (object
    [("name", defaulted (JStr "") (scalar "string" ""));
     ("image", scalar "string" "");
     ("command", array "atomic" [] (scalar "string" ""));
     ("args", array "atomic" [] (scalar "string" ""));
     ("workingDir", scalar "string" "");
     ("ports", extended [("x-kubernetes-patch-merge-key", JStr "containerPort"); ("x-kubernetes-patch-strategy", JStr "merge")] (array "map" ["containerPort"; "protocol"] (ref "k8s.io/api/core/v1.ContainerPort")));
     ("envFrom", array "atomic" [] (ref "k8s.io/api/core/v1.EnvFromSource"));
     ("env", extended [("x-kubernetes-patch-merge-key", JStr "name"); ("x-kubernetes-patch-strategy", JStr "merge")] (array "map" ["name"] (ref "k8s.io/api/core/v1.EnvVar")));
     ("resources", defaulted (JObj []) (ref "k8s.io/api/core/v1.ResourceRequirements"));
     ("resizePolicy", array "atomic" [] (ref "k8s.io/api/core/v1.ContainerResizePolicy"));
     ("restartPolicy", scalar "string" "");
     ("restartPolicyRules", array "atomic" [] (ref "k8s.io/api/core/v1.ContainerRestartRule"));
     ("volumeMounts", extended [("x-kubernetes-patch-merge-key", JStr "mountPath"); ("x-kubernetes-patch-strategy", JStr "merge")] (array "map" ["mountPath"] (ref "k8s.io/api/core/v1.VolumeMount")));
     ("volumeDevices", extended [("x-kubernetes-patch-merge-key", JStr "devicePath"); ("x-kubernetes-patch-strategy", JStr "merge")] (array "map" ["devicePath"] (ref "k8s.io/api/core/v1.VolumeDevice")));
     ("livenessProbe", ref "k8s.io/api/core/v1.Probe");
     ("readinessProbe", ref "k8s.io/api/core/v1.Probe");
     ("startupProbe", ref "k8s.io/api/core/v1.Probe");
     ("lifecycle", ref "k8s.io/api/core/v1.Lifecycle");
     ("terminationMessagePath", scalar "string" "");
     ("terminationMessagePolicy", enumerated "string" "" ["FallbackToLogsOnError"; "File"]);
     ("imagePullPolicy", enumerated "string" "" ["Always"; "IfNotPresent"; "Never"]);
     ("securityContext", ref "k8s.io/api/core/v1.SecurityContext");
     ("stdin", scalar "boolean" "");
     ("stdinOnce", scalar "boolean" "");
     ("tty", scalar "boolean" "")]
    ["name"])
  ["k8s.io/api/core/v1.ContainerPort"; "k8s.io/api/core/v1.ContainerResizePolicy"; "k8s.io/api/core/v1.ContainerRestartRule";
   "k8s.io/api/core/v1.EnvFromSource"; "k8s.io/api/core/v1.EnvVar"; "k8s.io/api/core/v1.Lifecycle"; "k8s.io/api/core/v1.Probe";
   "k8s.io/api/core/v1.ResourceRequirements"; "k8s.io/api/core/v1.SecurityContext"; "k8s.io/api/core/v1.VolumeDevice";
   "k8s.io/api/core/v1.VolumeMount"].

Definition schema_k8sio_api_core_v1_ContainerExtendedResourceRequest : definition := mkDefinition
  (object
    [("containerName", defaulted (JStr "") (scalar "string" ""));
     ("resourceName", defaulted (JStr "") (scalar "string" ""));
     ("requestName", defaulted (JStr "") (scalar "string" ""))]
    ["containerName"; "resourceName"; "requestName"])
  [].

Definition schema_k8sio_api_core_v1_ContainerImage : definition := mkDefinition
  (object
    [("names", array "atomic" [] (scalar "string" ""));
     ("sizeBytes", scalar "integer" "int64")]
    [])
  [].

Definition schema_k8sio_api_core_v1_ContainerPort : definition := mkDefinition
  (object
    [("name", scalar "string" "");
     ("hostPort", scalar "integer" "int32");
     ("containerPort", defaulted (JNum "0") (scalar "integer" "int32"));
     ("protocol", defaulted (JStr "TCP") (enumerated "string" "" ["SCTP"; "TCP"; "UDP"]));
     ("hostIP", scalar "string" "")]
    ["containerPort"])
  [].

Definition schema_k8sio_api_core_v1_ContainerResizePolicy : definition := mkDefinition
  (object
    [("resourceName", defaulted (JStr "") (scalar "string" ""));
     ("restartPolicy", defaulted (JStr "") (scalar "string" ""))]
    ["resourceName"; "restartPolicy"])
  [].

Definition schema_k8sio_api_core_v1_ContainerRestartRule : definition := mkDefinition
  (object
    [("action", scalar "string" "");
     ("exitCodes", ref "k8s.io/api/core/v1.ContainerRestartRuleOnExitCodes")]
    ["action"])
  ["k8s.io/api/core/v1.ContainerRestartRuleOnExitCodes"].

Definition schema_k8sio_api_core_v1_ContainerRestartRuleOnExitCodes : definition := mkDefinition
  (object
    [("operator", scalar "string" "");
     ("values", array "set" [] (scalar "integer" "int32"))]
    ["operator"])
  [].

Definition schema_k8sio_api_core_v1_ContainerState : definition := mkDefinition
  (object
    [("waiting", ref "k8s.io/api/core/v1.ContainerStateWaiting");
     ("running", ref "k8s.io/api/core/v1.ContainerStateRunning");
     ("terminated", ref "k8s.io/api/core/v1.ContainerStateTerminated")]
    [])
  ["k8s.io/api/core/v1.ContainerStateRunning"; "k8s.io/api/core/v1.ContainerStateTerminated"; "k8s.io/api/core/v1.ContainerStateWaiting"].

Definition schema_k8sio_api_core_v1_ContainerStateRunning : definition := mkDefinition
  (object
    [("startedAt", ref "k8s.io/apimachinery/pkg/apis/meta/v1.Time")]
    [])
  ["k8s.io/apimachinery/pkg/apis/meta/v1.Time"].

Definition schema_k8sio_api_core_v1_ContainerStateTerminated : definition := mkDefinition
  (object
    [("exitCode", defaulted (JNum "0") (scalar "integer" "int32"));
     ("signal", scalar "integer" "int32");
     ("reason", scalar "string" "");
     ("message", scalar "string" "");
     ("startedAt", ref "k8s.io/apimachinery/pkg/apis/meta/v1.Time");
     ("finishedAt", ref "k8s.io/apimachinery/pkg/apis/meta/v1.Time");
     ("containerID", scalar "string" "")]
    ["exitCode"])
  ["k8s.io/apimachinery/pkg/apis/meta/v1.Time"].

Definition schema_k8sio_api_core_v1_ContainerStateWaiting : definition := mkDefinition
  (object
    [("reason", scalar "string" "");
     ("message", scalar "string" "")]
    [])
  [].

Definition schema_k8sio_api_core_v1_ContainerStatus : definition := mkDefinition
  (object
    [("name", defaulted (JStr "") (scalar "string" ""));
     ("state", defaulted (JObj []) (ref "k8s.io/api/core/v1.ContainerState"));
     ("lastState", defaulted (JObj []) (ref "k8s.io/api/core/v1.ContainerState"));
     ("ready", defaulted (JBool false) (scalar "boolean" ""));
     ("restartCount", defaulted (JNum "0") (scalar "integer" "int32"));
     ("image", defaulted (JStr "") (scalar "string" ""));
     ("imageID", defaulted (JStr "") (scalar "string" ""));
     ("containerID", scalar "string" "");
     ("started", scalar "boolean" "");
     ("allocatedResources", map_of (ref "k8s.io/apimachinery/pkg/api/resource.Quantity"));
     ("resources", ref "k8s.io/api/core/v1.ResourceRequirements");
     ("volumeMounts", extended [("x-kubernetes-patch-merge-key", JStr "mountPath"); ("x-kubernetes-patch-strategy", JStr "merge")] (array "map" ["mountPath"] (ref "k8s.io/api/core/v1.VolumeMountStatus")));
     ("user", ref "k8s.io/api/core/v1.ContainerUser");
     ("allocatedResourcesStatus", extended [("x-kubernetes-patch-merge-key", JStr "name"); ("x-kubernetes-patch-strategy", JStr "merge")] (array "map" ["name"] (ref "k8s.io/api/core/v1.ResourceStatus")));
     ("stopSignal", enumerated "string" "" ["SIGABRT"; "SIGALRM"; "SIGBUS"; "SIGCHLD"; "SIGCLD"; "SIGCONT"; "SIGFPE"; "SIGHUP"; "SIGILL"; "SIGINT"; "SIGIO"; "SIGIOT"; "SIGKILL"; "SIGPIPE"; "SIGPOLL"; "SIGPROF"; "SIGPWR"; "SIGQUIT"; "SIGRTMAX"; "SIGRTMAX-1"; "SIGRTMAX-10"; "SIGRTMAX-11"; "SIGRTMAX-12"; "SIGRTMAX-13"; "SIGRTMAX-14"; "SIGRTMAX-2"; "SIGRTMAX-3"; "SIGRTMAX-4"; "SIGRTMAX-5"; "SIGRTMAX-6"; "SIGRTMAX-7"; "SIGRTMAX-8"; "SIGRTMAX-9"; "SIGRTMIN"; "SIGRTMIN+1"; "SIGRTMIN+10"; "SIGRTMIN+11"; "SIGRTMIN+12"; "SIGRTMIN+13"; "SIGRTMIN+14"; "SIGRTMIN+15"; "SIGRTMIN+2"; "SIGRTMIN+3"; "SIGRTMIN+4"; "SIGRTMIN+5"; "SIGRTMIN+6"; "SIGRTMIN+7"; "SIGRTMIN+8"; "SIGRTMIN+9"; "SIGSEGV"; "SIGSTKFLT"; "SIGSTOP"; "SIGSYS"; "SIGTERM"; "SIGTRAP"; "SIGTSTP"; "SIGTTIN"; "SIGTTOU"; "SIGURG"; "SIGUSR1"; "SIGUSR2"; "SIGVTALRM"; "SIGWINCH"; "SIGXCPU"; "SIGXFSZ"])]
    ["name"; "ready"; "restartCount"; "image"; "imageID"])
  ["k8s.io/api/core/v1.ContainerState"; "k8s.io/api/core/v1.ContainerUser"; "k8s.io/api/core/v1.ResourceRequirements";
   "k8s.io/api/core/v1.ResourceStatus"; "k8s.io/api/core/v1.VolumeMountStatus"; "k8s.io/apimachinery/pkg/api/resource.Quantity"].

Definition schema_k8sio_api_core_v1_ContainerUser : definition := mkDefinition
  (object
    [("linux", ref "k8s.io/api/core/v1.LinuxContainerUser")]
    [])
  ["k8s.io/api/core/v1.LinuxContainerUser"].

Definition schema_k8sio_api_core_v1_DaemonEndpoint : definition := mkDefinition
  (object
    [("Port", defaulted (JNum "0") (scalar "integer" "int32"))]
    ["Port"])
  [].

Definition schema_k8sio_api_core_v1_DownwardAPIProjection : definition := mkDefinition
  (object
    [("items", array "atomic" [] (ref "k8s.io/api/core/v1.DownwardAPIVolumeFile"))]
    [])
  ["k8s.io/api/core/v1.DownwardAPIVolumeFile"].

Definition schema_k8sio_api_core_v1_DownwardAPIVolumeFile : definition := mkDefinition
  (object
    [("path", defaulted (JStr "") (scalar "string" ""));
     ("fieldRef", ref "k8s.io/api/core/v1.ObjectFieldSelector");
     ("resourceFieldRef", ref "k8s.io/api/core/v1.ResourceFieldSelector");
     ("mode", scalar "integer" "int32")]
    ["path"])
  ["k8s.io/api/core/v1.ObjectFieldSelector"; "k8s.io/api/core/v1.ResourceFieldSelector"].

Definition schema_k8sio_api_core_v1_DownwardAPIVolumeSource : definition := mkDefinition
  (object
    [("items", array "atomic" [] (ref "k8s.io/api/core/v1.DownwardAPIVolumeFile"));
     ("defaultMode", scalar "integer" "int32")]
    [])
  ["k8s.io/api/core/v1.DownwardAPIVolumeFile"].

Definition schema_k8sio_api_core_v1_EmptyDirVolumeSource : definition := mkDefinition
  (object
    [("medium", scalar "string" "");
     ("sizeLimit", ref "k8s.io/apimachinery/pkg/api/resource.Quantity")]
    [])
  ["k8s.io/apimachinery/pkg/api/resource.Quantity"].

Definition schema_k8sio_api_core_v1_EndpointAddress : definition := mkDefinition
  (extended [("x-kubernetes-map-type", JStr "atomic")] (object
    [("ip", defaulted (JStr "") (scalar "string" ""));
     ("hostname", scalar "string" "");
     ("nodeName", scalar "string" "");
     ("targetRef", ref "k8s.io/api/core/v1.ObjectReference")]
    ["ip"]))
  ["k8s.io/api/core/v1.ObjectReference"].

Definition schema_k8sio_api_core_v1_EndpointPort : definition := mkDefinition
  (extended [("x-kubernetes-map-type", JStr "atomic")] (object
    [("name", scalar "string" "");
     ("port", defaulted (JNum "0") (scalar "integer" "int32"));
     ("protocol", enumerated "string" "" ["SCTP"; "TCP"; "UDP"]);
     ("appProtocol", scalar "string" "")]
    ["port"]))
  [].

Definition schema_k8sio_api_core_v1_EndpointSubset : definition := mkDefinition
  (object
    [("addresses", array "atomic" [] (ref "k8s.io/api/core/v1.EndpointAddress"));
     ("notReadyAddresses", array "atomic" [] (ref "k8s.io/api/core/v1.EndpointAddress"));
     ("ports", array "atomic" [] (ref "k8s.io/api/core/v1.EndpointPort"))]
    [])
  ["k8s.io/api/core/v1.EndpointAddress"; "k8s.io/api/core/v1.EndpointPort"].

Definition schema_k8sio_api_core_v1_Endpoints : definition := mkDefinition
  (object
    [("kind", scalar "string" "");
     ("apiVersion", scalar "string" "");
     ("metadata", defaulted (JObj []) (ref "k8s.io/apimachinery/pkg/apis/meta/v1.ObjectMeta"));
     ("subsets", array "atomic" [] (ref "k8s.io/api/core/v1.EndpointSubset"))]
    [])
  ["k8s.io/api/core/v1.EndpointSubset"; "k8s.io/apimachinery/pkg/apis/meta/v1.ObjectMeta"].

Definition schema_k8sio_api_core_v1_EndpointsList : definition := mkDefinition
  (object
    [("kind", scalar "string" "");
     ("apiVersion", scalar "string" "");
     ("metadata", defaulted (JObj []) (ref "k8s.io/apimachinery/pkg/apis/meta/v1.ListMeta"));
     ("items", array "" [] (ref "k8s.io/api/core/v1.Endpoints"))]
    ["items"])
  ["k8s.io/api/core/v1.Endpoints"; "k8s.io/apimachinery/pkg/apis/meta/v1.ListMeta"].

Definition schema_k8sio_api_core_v1_EnvFromSource : definition := mkDefinition
  (object
    [("prefix", scalar "string" "");
     ("configMapRef", ref "k8s.io/api/core/v1.ConfigMapEnvSource");
     ("secretRef", ref "k8s.io/api/core/v1.SecretEnvSource")]
    [])
  ["k8s.io/api/core/v1.ConfigMapEnvSource"; "k8s.io/api/core/v1.SecretEnvSource"].

Definition schema_k8sio_api_core_v1_EnvVar : definition := mkDefinition
  (object
    [("name", defaulted (JStr "") (scalar "string" ""));
     ("value", scalar "string" "");
     ("valueFrom", ref "k8s.io/api/core/v1.EnvVarSource")]
    ["name"])
  ["k8s.io/api/core/v1.EnvVarSource"].

Definition schema_k8sio_api_core_v1_EnvVarSource : definition := mkDefinition
  (object
    [("fieldRef", ref "k8s.io/api/core/v1.ObjectFieldSelector");
     ("resourceFieldRef", ref "k8s.io/api/core/v1.ResourceFieldSelector");
     ("configMapKeyRef", ref "k8s.io/api/core/v1.ConfigMapKeySelector");
     ("secretKeyRef", ref "k8s.io/api/core/v1.SecretKeySelector");
     ("fileKeyRef", ref "k8s.io/api/core/v1.FileKeySelector")]
    [])
  ["k8s.io/api/core/v1.ConfigMapKeySelector"; "k8s.io/api/core/v1.FileKeySelector"; "k8s.io/api/core/v1.ObjectFieldSelector";
   "k8s.io/api/core/v1.ResourceFieldSelector"; "k8s.io/api/core/v1.SecretKeySelector"].

Definition schema_k8sio_api_core_v1_EphemeralContainer : definition := mkDefinition
  (object
    [("name", defaulted (JStr "") (scalar "string" ""));
     ("image", scalar "string" "");
     ("command", array "atomic" [] (scalar "string" ""));
     ("args", array "atomic" [] (scalar "string" ""));
     ("workingDir", scalar "string" "");
     ("ports", extended [("x-kubernetes-patch-merge-key", JStr "containerPort"); ("x-kubernetes-patch-strategy", JStr "merge")] (array "map" ["containerPort"; "protocol"] (ref "k8s.io/api/core/v1.ContainerPort")));
     ("envFrom", array "atomic" [] (ref "k8s.io/api/core/v1.EnvFromSource"));
     ("env", extended [("x-kubernetes-patch-merge-key", JStr "name"); ("x-kubernetes-patch-strategy", JStr "merge")] (array "map" ["name"] (ref "k8s.io/api/core/v1.EnvVar")));
     ("resources", defaulted (JObj []) (ref "k8s.io/api/core/v1.ResourceRequirements"));
     ("resizePolicy", array "atomic" [] (ref "k8s.io/api/core/v1.ContainerResizePolicy"));
     ("restartPolicy", scalar "string" "");
     ("restartPolicyRules", array "atomic" [] (ref "k8s.io/api/core/v1.ContainerRestartRule"));
     ("volumeMounts", extended [("x-kubernetes-patch-merge-key", JStr "mountPath"); ("x-kubernetes-patch-strategy", JStr "merge")] (array "map" ["mountPath"] (ref "k8s.io/api/core/v1.VolumeMount")));
     ("volumeDevices", extended [("x-kubernetes-patch-merge-key", JStr "devicePath"); ("x-kubernetes-patch-strategy", JStr "merge")] (array "map" ["devicePath"] (ref "k8s.io/api/core/v1.VolumeDevice")));
     ("livenessProbe", ref "k8s.io/api/core/v1.Probe");
     ("readinessProbe", ref "k8s.io/api/core/v1.Probe");
     ("startupProbe", ref "k8s.io/api/core/v1.Probe");
     ("lifecycle", ref "k8s.io/api/core/v1.Lifecycle");
     ("terminationMessagePath", scalar "string" "");
     ("terminationMessagePolicy", enumerated "string" "" ["FallbackToLogsOnError"; "File"]);
     ("imagePullPolicy", enumerated "string" "" ["Always"; "IfNotPresent"; "Never"]);
     ("securityContext", ref "k8s.io/api/core/v1.SecurityContext");
     ("stdin", scalar "boolean" "");
     ("stdinOnce", scalar "boolean" "");
     ("tty", scalar "boolean" "");
     ("targetContainerName", scalar "string" "")]
    ["name"])
  ["k8s.io/api/core/v1.ContainerPort"; "k8s.io/api/core/v1.ContainerResizePolicy"; "k8s.io/api/core/v1.ContainerRestartRule";
   "k8s.io/api/core/v1.EnvFromSource"; "k8s.io/api/core/v1.EnvVar"; "k8s.io/api/core/v1.Lifecycle"; "k8s.io/api/core/v1.Probe";
   "k8s.io/api/core/v1.ResourceRequirements"; "k8s.io/api/core/v1.SecurityContext"; "k8s.io/api/core/v1.VolumeDevice";
   "k8s.io/api/core/v1.VolumeMount"].

Definition schema_k8sio_api_core_v1_EphemeralContainerCommon : definition := mkDefinition
  (object
    [("name", defaulted (JStr "") (scalar "string" ""));
     ("image", scalar "string" "");
     ("command", array "atomic" [] (scalar "string" ""));
     ("args", array "atomic" [] (scalar "string" ""));
     ("workingDir", scalar "string" "");
     ("ports", extended [("x-kubernetes-patch-merge-key", JStr "containerPort"); ("x-kubernetes-patch-strategy", JStr "merge")] (array "map" ["containerPort"; "protocol"] (ref "k8s.io/api/core/v1.ContainerPort")));
     ("envFrom", array "atomic" [] (ref "k8s.io/api/core/v1.EnvFromSource"));
     ("env", extended [("x-kubernetes-patch-merge-key", JStr "name"); ("x-kubernetes-patch-strategy", JStr "merge")] (array "map" ["name"] (ref "k8s.io/api/core/v1.EnvVar")));
     ("resources", defaulted (JObj []) (ref "k8s.io/api/core/v1.ResourceRequirements"));
     ("resizePolicy", array "atomic" [] (ref "k8s.io/api/core/v1.ContainerResizePolicy"));
     ("restartPolicy", scalar "string" "");
     ("restartPolicyRules", array "atomic" [] (ref "k8s.io/api/core/v1.ContainerRestartRule"));
     ("volumeMounts", extended [("x-kubernetes-patch-merge-key", JStr "mountPath"); ("x-kubernetes-patch-strategy", JStr "merge")] (array "map" ["mountPath"] (ref "k8s.io/api/core/v1.VolumeMount")));
     ("volumeDevices", extended [("x-kubernetes-patch-merge-key", JStr "devicePath"); ("x-kubernetes-patch-strategy", JStr "merge")] (array "map" ["devicePath"] (ref "k8s.io/api/core/v1.VolumeDevice")));
     ("livenessProbe", ref "k8s.io/api/core/v1.Probe");
     ("readinessProbe", ref "k8s.io/api/core/v1.Probe");
     ("startupProbe", ref "k8s.io/api/core/v1.Probe");
     ("lifecycle", ref "k8s.io/api/core/v1.Lifecycle");
     ("terminationMessagePath", scalar "string" "");
     ("terminationMessagePolicy", enumerated "string" "" ["FallbackToLogsOnError"; "File"]);
     ("imagePullPolicy", enumerated "string" "" ["Always"; "IfNotPresent"; "Never"]);
     ("securityContext", ref "k8s.io/api/core/v1.SecurityContext");
     ("stdin", scalar "boolean" "");
     ("stdinOnce", scalar "boolean" "");
     ("tty", scalar "boolean" "")]
    ["name"])
  ["k8s.io/api/core/v1.ContainerPort"; "k8s.io/api/core/v1.ContainerResizePolicy"; "k8s.io/api/core/v1.ContainerRestartRule";
   "k8s.io/api/core/v1.EnvFromSource"; "k8s.io/api/core/v1.EnvVar"; "k8s.io/api/core/v1.Lifecycle"; "k8s.io/api/core/v1.Probe";
   "k8s.io/api/core/v1.ResourceRequirements"; "k8s.io/api/core/v1.SecurityContext"; "k8s.io/api/core/v1.VolumeDevice";
   "k8s.io/api/core/v1.VolumeMount"].

Definition schema_k8sio_api_core_v1_EphemeralVolumeSource : definition := mkDefinition
  (object
    [("volumeClaimTemplate", ref "k8s.io/api/core/v1.PersistentVolumeClaimTemplate")]
    [])
  ["k8s.io/api/core/v1.PersistentVolumeClaimTemplate"].

Definition schema_k8sio_api_core_v1_Event : definition := mkDefinition
  (object
    [("kind", scalar "string" "");
     ("apiVersion", scalar "string" "");
     ("metadata", defaulted (JObj []) (ref "k8s.io/apimachinery/pkg/apis/meta/v1.ObjectMeta"));
     ("involvedObject", defaulted (JObj []) (ref "k8s.io/api/core/v1.ObjectReference"));
     ("reason", scalar "string" "");
     ("message", scalar "string" "");
     ("source", defaulted (JObj []) (ref "k8s.io/api/core/v1.EventSource"));
     ("firstTimestamp", ref "k8s.io/apimachinery/pkg/apis/meta/v1.Time");
     ("lastTimestamp", ref "k8s.io/apimachinery/pkg/apis/meta/v1.Time");
     ("count", scalar "integer" "int32");
     ("type", scalar "string" "");
     ("eventTime", ref "k8s.io/apimachinery/pkg/apis/meta/v1.MicroTime");
     ("series", ref "k8s.io/api/core/v1.EventSeries");
     ("action", scalar "string" "");
     ("related", ref "k8s.io/api/core/v1.ObjectReference");
     ("reportingComponent", defaulted (JStr "") (scalar "string" ""));
     ("reportingInstance", defaulted (JStr "") (scalar "string" ""))]
    ["metadata"; "involvedObject"])
  ["k8s.io/api/core/v1.EventSeries"; "k8s.io/api/core/v1.EventSource"; "k8s.io/api/core/v1.ObjectReference";
   "k8s.io/apimachinery/pkg/apis/meta/v1.MicroTime"; "k8s.io/apimachinery/pkg/apis/meta/v1.ObjectMeta"; "k8s.io/apimachinery/pkg/apis/meta/v1.Time"].

Definition schema_k8sio_api_core_v1_EventList : definition := mkDefinition
  (object
    [("kind", scalar "string" "");
     ("apiVersion", scalar "string" "");
     ("metadata", defaulted (JObj []) (ref "k8s.io/apimachinery/pkg/apis/meta/v1.ListMeta"));
     ("items", array "" [] (ref "k8s.io/api/core/v1.Event"))]
    ["items"])
  ["k8s.io/api/core/v1.Event"; "k8s.io/apimachinery/pkg/apis/meta/v1.ListMeta"].

Definition schema_k8sio_api_core_v1_EventSeries : definition := mkDefinition
  (object
    [("count", scalar "integer" "int32");
     ("lastObservedTime", ref "k8s.io/apimachinery/pkg/apis/meta/v1.MicroTime")]
    [])
  ["k8s.io/apimachinery/pkg/apis/meta/v1.MicroTime"].

Definition schema_k8sio_api_core_v1_EventSource : definition := mkDefinition
  (object
    [("component", scalar "string" "");
     ("host", scalar "string" "")]
    [])
  [].

Definition schema_k8sio_api_core_v1_ExecAction : definition := mkDefinition
  (object
    [("command", array "atomic" [] (scalar "string" ""))]
    [])
  [].

Definition schema_k8sio_api_core_v1_FCVolumeSource : definition := mkDefinition
  (object
    [("targetWWNs", array "atomic" [] (scalar "string" ""));
     ("lun", scalar "integer" "int32");
     ("fsType", scalar "string" "");
     ("readOnly", scalar "boolean" "");
     ("wwids", array "atomic" [] (scalar "string" ""))]
    [])
  [].

Definition schema_k8sio_api_core_v1_FileKeySelector : definition := mkDefinition
  (extended [("x-kubernetes-map-type", JStr "atomic")] (object
    [("volumeName", defaulted (JStr "") (scalar "string" ""));
     ("path", defaulted (JStr "") (scalar "string" ""));
     ("key", defaulted (JStr "") (scalar "string" ""));
     ("optional", defaulted (JBool false) (scalar "boolean" ""))]
    ["volumeName"; "path"; "key"]))
  [].

Definition schema_k8sio_api_core_v1_FlexPersistentVolumeSource : definition := mkDefinition
  (object
    [("driver", defaulted (JStr "") (scalar "string" ""));
     ("fsType", scalar "string" "");
     ("secretRef", ref "k8s.io/api/core/v1.SecretReference");
     ("readOnly", scalar "boolean" "");
     ("options", map_of (scalar "string" ""))]
    ["driver"])
  ["k8s.io/api/core/v1.SecretReference"].

Definition schema_k8sio_api_core_v1_FlexVolumeSource : definition := mkDefinition
  (object
    [("driver", defaulted (JStr "") (scalar "string" ""));
     ("fsType", scalar "string" "");
     ("secretRef", ref "k8s.io/api/core/v1.LocalObjectReference");
     ("readOnly", scalar "boolean" "");
     ("options", map_of (scalar "string" ""))]
    ["driver"])
  ["k8s.io/api/core/v1.LocalObjectReference"].

Definition schema_k8sio_api_core_v1_FlockerVolumeSource : definition := mkDefinition
  (object
    [("datasetName", scalar "string" "");
     ("datasetUUID", scalar "string" "")]
    [])
  [].

Definition schema_k8sio_api_core_v1_GCEPersistentDiskVolumeSource : definition := mkDefinition
  (object
    [("pdName", defaulted (JStr "") (scalar "string" ""));
     ("fsType", scalar "string" "");
     ("partition", scalar "integer" "int32");
     ("readOnly", scalar "boolean" "")]
    ["pdName"])
  [].

Definition schema_k8sio_api_core_v1_GRPCAction : definition := mkDefinition
  (object
    [("port", defaulted (JNum "0") (scalar "integer" "int32"));
     ("service", defaulted (JStr "") (scalar "string" ""))]
    ["port"])
  [].

Definition schema_k8sio_api_core_v1_GitRepoVolumeSource : definition := mkDefinition
  (object
    [("repository", defaulted (JStr "") (scalar "string" ""));
     ("revision", scalar "string" "");
     ("directory", scalar "string" "")]
    ["repository"])
  [].

Definition schema_k8sio_api_core_v1_GlusterfsPersistentVolumeSource : definition := mkDefinition
  (object
    [("endpoints", defaulted (JStr "") (scalar "string" ""));
     ("path", defaulted (JStr "") (scalar "string" ""));
     ("readOnly", scalar "boolean" "");
     ("endpointsNamespace", scalar "string" "")]
    ["endpoints"; "path"])
  [].

Definition schema_k8sio_api_core_v1_GlusterfsVolumeSource : definition := mkDefinition
  (object
    [("endpoints", defaulted (JStr "") (scalar "string" ""));
     ("path", defaulted (JStr "") (scalar "string" ""));
     ("readOnly", scalar "boolean" "")]
    ["endpoints"; "path"])
  [].

Definition schema_k8sio_api_core_v1_HTTPGetAction : definition := mkDefinition
  (object
    [("path", scalar "string" "");
     ("port", ref "k8s.io/apimachinery/pkg/util/intstr.IntOrString");
     ("host", scalar "string" "");
     ("scheme", enumerated "string" "" ["HTTP"; "HTTPS"]);
     ("httpHeaders", array "atomic" [] (ref "k8s.io/api/core/v1.HTTPHeader"))]
    ["port"])
  ["k8s.io/api/core/v1.HTTPHeader"; "k8s.io/apimachinery/pkg/util/intstr.IntOrString"].

Definition schema_k8sio_api_core_v1_HTTPHeader : definition := mkDefinition
  (object
    [("name", defaulted (JStr "") (scalar "string" ""));
     ("value", defaulted (JStr "") (scalar "string" ""))]
    ["name"; "value"])
  [].

Definition schema_k8sio_api_core_v1_HostAlias : definition := mkDefinition
  (object
    [("ip", defaulted (JStr "") (scalar "string" ""));
     ("hostnames", array "atomic" [] (scalar "string" ""))]
    ["ip"])
  [].

Definition schema_k8sio_api_core_v1_HostIP : definition := mkDefinition
  (object
    [("ip", defaulted (JStr "") (scalar "string" ""))]
    ["ip"])
  [].

Definition schema_k8sio_api_core_v1_HostPathVolumeSource : definition := mkDefinition
  (object
    [("path", defaulted (JStr "") (scalar "string" ""));
     ("type", enumerated "string" "" [""; "BlockDevice"; "CharDevice"; "Directory"; "DirectoryOrCreate"; "File"; "FileOrCreate"; "Socket"])]
    ["path"])
  [].

Definition schema_k8sio_api_core_v1_ISCSIPersistentVolumeSource : definition := mkDefinition
  (object
    [("targetPortal", defaulted (JStr "") (scalar "string" ""));
     ("iqn", defaulted (JStr "") (scalar "string" ""));
     ("lun", defaulted (JNum "0") (scalar "integer" "int32"));
     ("iscsiInterface", defaulted (JStr "default") (scalar "string" ""));
     ("fsType", scalar "string" "");
     ("readOnly", scalar "boolean" "");
     ("portals", array "atomic" [] (scalar "string" ""));
     ("chapAuthDiscovery", scalar "boolean" "");
     ("chapAuthSession", scalar "boolean" "");
     ("secretRef", ref "k8s.io/api/core/v1.SecretReference");
     ("initiatorName", scalar "string" "")]
    ["targetPortal"; "iqn"; "lun"])
  ["k8s.io/api/core/v1.SecretReference"].

Definition schema_k8sio_api_core_v1_ISCSIVolumeSource : definition := mkDefinition
  (object
    [("targetPortal", defaulted (JStr "") (scalar "string" ""));
     ("iqn", defaulted (JStr "") (scalar "string" ""));
     ("lun", defaulted (JNum "0") (scalar "integer" "int32"));
     ("iscsiInterface", defaulted (JStr "default") (scalar "string" ""));
     ("fsType", scalar "string" "");
     ("readOnly", scalar "boolean" "");
     ("portals", array "atomic" [] (scalar "string" ""));
     ("chapAuthDiscovery", scalar "boolean" "");
     ("chapAuthSession", scalar "boolean" "");
     ("secretRef", ref "k8s.io/api/core/v1.LocalObjectReference");
     ("initiatorName", scalar "string" "")]
    ["targetPortal"; "iqn"; "lun"])
  ["k8s.io/api/core/v1.LocalObjectReference"].

Definition schema_k8sio_api_core_v1_ImageVolumeSource : definition := mkDefinition
  (object
    [("reference", scalar "string" "");
     ("pullPolicy", enumerated "string" "" ["Always"; "IfNotPresent"; "Never"])]
    [])
  [].

Definition schema_k8sio_api_core_v1_KeyToPath : definition := mkDefinition
  (object
    [("key", defaulted (JStr "") (scalar "string" ""));
     ("path", defaulted (JStr "") (scalar "string" ""));
     ("mode", scalar "integer" "int32")]
    ["key"; "path"])
  [].

Definition schema_k8sio_api_core_v1_Lifecycle : definition := mkDefinition
  (object
    [("postStart", ref "k8s.io/api/core/v1.LifecycleHandler");
     ("preStop", ref "k8s.io/api/core/v1.LifecycleHandler");
     ("stopSignal", enumerated "string" "" ["SIGABRT"; "SIGALRM"; "SIGBUS"; "SIGCHLD"; "SIGCLD"; "SIGCONT"; "SIGFPE"; "SIGHUP"; "SIGILL"; "SIGINT"; "SIGIO"; "SIGIOT"; "SIGKILL"; "SIGPIPE"; "SIGPOLL"; "SIGPROF"; "SIGPWR"; "SIGQUIT"; "SIGRTMAX"; "SIGRTMAX-1"; "SIGRTMAX-10"; "SIGRTMAX-11"; "SIGRTMAX-12"; "SIGRTMAX-13"; "SIGRTMAX-14"; "SIGRTMAX-2"; "SIGRTMAX-3"; "SIGRTMAX-4"; "SIGRTMAX-5"; "SIGRTMAX-6"; "SIGRTMAX-7"; "SIGRTMAX-8"; "SIGRTMAX-9"; "SIGRTMIN"; "SIGRTMIN+1"; "SIGRTMIN+10"; "SIGRTMIN+11"; "SIGRTMIN+12"; "SIGRTMIN+13"; "SIGRTMIN+14"; "SIGRTMIN+15"; "SIGRTMIN+2"; "SIGRTMIN+3"; "SIGRTMIN+4"; "SIGRTMIN+5"; "SIGRTMIN+6"; "SIGRTMIN+7"; "SIGRTMIN+8"; "SIGRTMIN+9"; "SIGSEGV"; "SIGSTKFLT"; "SIGSTOP"; "SIGSYS"; "SIGTERM"; "SIGTRAP"; "SIGTSTP"; "SIGTTIN"; "SIGTTOU"; "SIGURG"; "SIGUSR1"; "SIGUSR2"; "SIGVTALRM"; "SIGWINCH"; "SIGXCPU"; "SIGXFSZ"])]
    [])
  ["k8s.io/api/core/v1.LifecycleHandler"].

Definition schema_k8sio_api_core_v1_LifecycleHandler : definition := mkDefinition
  (object
    [("exec", ref "k8s.io/api/core/v1.ExecAction");
     ("httpGet", ref "k8s.io/api/core/v1.HTTPGetAction");
     ("tcpSocket", ref "k8s.io/api/core/v1.TCPSocketAction");
     ("sleep", ref "k8s.io/api/core/v1.SleepAction")]
    [])
  ["k8s.io/api/core/v1.ExecAction"; "k8s.io/api/core/v1.HTTPGetAction"; "k8s.io/api/core/v1.SleepAction"; "k8s.io/api/core/v1.TCPSocketAction"].

Definition schema_k8sio_api_core_v1_LimitRange : definition := mkDefinition
  (object
    [("kind", scalar "string" "");
     ("apiVersion", scalar "string" "");
     ("metadata", defaulted (JObj []) (ref "k8s.io/apimachinery/pkg/apis/meta/v1.ObjectMeta"));
     ("spec", defaulted (JObj []) (ref "k8s.io/api/core/v1.LimitRangeSpec"))]
    [])
  ["k8s.io/api/core/v1.LimitRangeSpec"; "k8s.io/apimachinery/pkg/apis/meta/v1.ObjectMeta"].

Definition schema_k8sio_api_core_v1_LimitRangeItem : definition := mkDefinition
  (object
    [("type", defaulted (JStr "") (scalar "string" ""));
     ("max", map_of (ref "k8s.io/apimachinery/pkg/api/resource.Quantity"));
     ("min", map_of (ref "k8s.io/apimachinery/pkg/api/resource.Quantity"));
     ("default", map_of (ref "k8s.io/apimachinery/pkg/api/resource.Quantity"));
     ("defaultRequest", map_of (ref "k8s.io/apimachinery/pkg/api/resource.Quantity"));
     ("maxLimitRequestRatio", map_of (ref "k8s.io/apimachinery/pkg/api/resource.Quantity"))]
    ["type"])
  ["k8s.io/apimachinery/pkg/api/resource.Quantity"].

Definition schema_k8sio_api_core_v1_LimitRangeList : definition := mkDefinition
  (object
    [("kind", scalar "string" "");
     ("apiVersion", scalar "string" "");
     ("metadata", defaulted (JObj []) (ref "k8s.io/apimachinery/pkg/apis/meta/v1.ListMeta"));
     ("items", array "" [] (ref "k8s.io/api/core/v1.LimitRange"))]
    ["items"])
  ["k8s.io/api/core/v1.LimitRange"; "k8s.io/apimachinery/pkg/apis/meta/v1.ListMeta"].

Definition schema_k8sio_api_core_v1_LimitRangeSpec : definition := mkDefinition
  (object
    [("limits", array "atomic" [] (ref "k8s.io/api/core/v1.LimitRangeItem"))]
    ["limits"])
  ["k8s.io/api/core/v1.LimitRangeItem"].

Definition schema_k8sio_api_core_v1_LinuxContainerUser : definition := mkDefinition
  (object
    [("uid", defaulted (JNum "0") (scalar "integer" "int64"));
     ("gid", defaulted (JNum "0") (scalar "integer" "int64"));
     ("supplementalGroups", array "atomic" [] (scalar "integer" "int64"))]
    ["uid"; "gid"])
  [].

Definition schema_k8sio_api_core_v1_List : definition := mkDefinition
  (object
    [("kind", scalar "string" "");
     ("apiVersion", scalar "string" "");
     ("metadata", defaulted (JObj []) (ref "k8s.io/apimachinery/pkg/apis/meta/v1.ListMeta"));
     ("items", array "" [] (ref "k8s.io/apimachinery/pkg/runtime.RawExtension"))]
    ["items"])
  ["k8s.io/apimachinery/pkg/apis/meta/v1.ListMeta"; "k8s.io/apimachinery/pkg/runtime.RawExtension"].

Definition schema_k8sio_api_core_v1_LoadBalancerIngress : definition := mkDefinition
  (object
    [("ip", scalar "string" "");
     ("hostname", scalar "string" "");
     ("ipMode", scalar "string" "");
     ("ports", array "atomic" [] (ref "k8s.io/api/core/v1.PortStatus"))]
    [])
  ["k8s.io/api/core/v1.PortStatus"].

Definition schema_k8sio_api_core_v1_LoadBalancerStatus : definition := mkDefinition
  (object
    [("ingress", array "atomic" [] (ref "k8s.io/api/core/v1.LoadBalancerIngress"))]
    [])
  ["k8s.io/api/core/v1.LoadBalancerIngress"].

Definition schema_k8sio_api_core_v1_LocalVolumeSource : definition := mkDefinition
  (object
    [("path", defaulted (JStr "") (scalar "string" ""));
     ("fsType", scalar "string" "")]
    ["path"])
  [].

Definition schema_k8sio_api_core_v1_ModifyVolumeStatus : definition := mkDefinition
  (object
    [("targetVolumeAttributesClassName", scalar "string" "");
     ("status", defaulted (JStr "") (enumerated "string" "" ["InProgress"; "Infeasible"; "Pending"]))]
    ["status"])
  [].

Definition schema_k8sio_api_core_v1_NFSVolumeSource : definition := mkDefinition
  (object
    [("server", defaulted (JStr "") (scalar "string" ""));
     ("path", defaulted (JStr "") (scalar "string" ""));
     ("readOnly", scalar "boolean" "")]
    ["server"; "path"])
  [].

Definition schema_k8sio_api_core_v1_Namespace : definition := mkDefinition
  (object
    [("kind", scalar "string" "");
     ("apiVersion", scalar "string" "");
     ("metadata", defaulted (JObj []) (ref "k8s.io/apimachinery/pkg/apis/meta/v1.ObjectMeta"));
     ("spec", defaulted (JObj []) (ref "k8s.io/api/core/v1.NamespaceSpec"));
     ("status", defaulted (JObj []) (ref "k8s.io/api/core/v1.NamespaceStatus"))]
    [])
  ["k8s.io/api/core/v1.NamespaceSpec"; "k8s.io/api/core/v1.NamespaceStatus"; "k8s.io/apimachinery/pkg/apis/meta/v1.ObjectMeta"].

Definition schema_k8sio_api_core_v1_NamespaceCondition : definition := mkDefinition
  (object
    [("type", defaulted (JStr "") (scalar "string" ""));
     ("status", defaulted (JStr "") (scalar "string" ""));
     ("lastTransitionTime", ref "k8s.io/apimachinery/pkg/apis/meta/v1.Time");
     ("reason", scalar "string" "");
     ("message", scalar "string" "")]
    ["type"; "status"])
  ["k8s.io/apimachinery/pkg/apis/meta/v1.Time"].

Definition schema_k8sio_api_core_v1_NamespaceList : definition := mkDefinition
  (object
    [("kind", scalar "string" "");
     ("apiVersion", scalar "string" "");
     ("metadata", defaulted (JObj []) (ref "k8s.io/apimachinery/pkg/apis/meta/v1.ListMeta"));
     ("items", array "" [] (ref "k8s.io/api/core/v1.Namespace"))]
    ["items"])
  ["k8s.io/api/core/v1.Namespace"; "k8s.io/apimachinery/pkg/apis/meta/v1.ListMeta"].

Definition schema_k8sio_api_core_v1_NamespaceSpec : definition := mkDefinition
  (object
    [("finalizers", array "atomic" [] (scalar "string" ""))]
    [])
  [].

Definition schema_k8sio_api_core_v1_NamespaceStatus : definition := mkDefinition
  (object
    [("phase", enumerated "string" "" ["Active"; "Terminating"]);
     ("conditions", extended [("x-kubernetes-patch-merge-key", JStr "type"); ("x-kubernetes-patch-strategy", JStr "merge")] (array "map" ["type"] (ref "k8s.io/api/core/v1.NamespaceCondition")))]
    [])
  ["k8s.io/api/core/v1.NamespaceCondition"].

Definition schema_k8sio_api_core_v1_Node : definition := mkDefinition
  (object
    [("kind", scalar "string" "");
     ("apiVersion", scalar "string" "");
     ("metadata", defaulted (JObj []) (ref "k8s.io/apimachinery/pkg/apis/meta/v1.ObjectMeta"));
     ("spec", defaulted (JObj []) (ref "k8s.io/api/core/v1.NodeSpec"));
     ("status", defaulted (JObj []) (ref "k8s.io/api/core/v1.NodeStatus"))]
    [])
  ["k8s.io/api/core/v1.NodeSpec"; "k8s.io/api/core/v1.NodeStatus"; "k8s.io/apimachinery/pkg/apis/meta/v1.ObjectMeta"].

Definition schema_k8sio_api_core_v1_NodeAddress : definition := mkDefinition
  (object
    [("type", defaulted (JStr "") (scalar "string" ""));
     ("address", defaulted (JStr "") (scalar "string" ""))]
    ["type"; "address"])
  [].

Definition schema_k8sio_api_core_v1_NodeAffinity : definition := mkDefinition
  (object
    [("requiredDuringSchedulingIgnoredDuringExecution", ref "k8s.io/api/core/v1.NodeSelector");
     ("preferredDuringSchedulingIgnoredDuringExecution", array "atomic" [] (ref "k8s.io/api/core/v1.PreferredSchedulingTerm"))]
    [])
  ["k8s.io/api/core/v1.NodeSelector"; "k8s.io/api/core/v1.PreferredSchedulingTerm"].

Definition schema_k8sio_api_core_v1_NodeCondition : definition := mkDefinition
  (object
    [("type", defaulted (JStr "") (scalar "string" ""));
     ("status", defaulted (JStr "") (scalar "string" ""));
     ("lastHeartbeatTime", ref "k8s.io/apimachinery/pkg/apis/meta/v1.Time");
     ("lastTransitionTime", ref "k8s.io/apimachinery/pkg/apis/meta/v1.Time");
     ("reason", scalar "string" "");
     ("message", scalar "string" "")]
    ["type"; "status"])
  ["k8s.io/apimachinery/pkg/apis/meta/v1.Time"].

Definition schema_k8sio_api_core_v1_NodeConfigSource : definition := mkDefinition
  (object
    [("configMap", ref "k8s.io/api/core/v1.ConfigMapNodeConfigSource")]
    [])
  ["k8s.io/api/core/v1.ConfigMapNodeConfigSource"].

Definition schema_k8sio_api_core_v1_NodeConfigStatus : definition := mkDefinition
  (object
    [("assigned", ref "k8s.io/api/core/v1.NodeConfigSource");
     ("active", ref "k8s.io/api/core/v1.NodeConfigSource");
     ("lastKnownGood", ref "k8s.io/api/core/v1.NodeConfigSource");
     ("error", scalar "string" "")]
    [])
  ["k8s.io/api/core/v1.NodeConfigSource"].

Definition schema_k8sio_api_core_v1_NodeDaemonEndpoints : definition := mkDefinition
  (object
    [("kubeletEndpoint", defaulted (JObj []) (ref "k8s.io/api/core/v1.DaemonEndpoint"))]
    [])
  ["k8s.io/api/core/v1.DaemonEndpoint"].

Definition schema_k8sio_api_core_v1_NodeFeatures : definition := mkDefinition
  (object
    [("supplementalGroupsPolicy", scalar "boolean" "")]
    [])
  [].

Definition schema_k8sio_api_core_v1_NodeList : definition := mkDefinition
  (object
    [("kind", scalar "string" "");
     ("apiVersion", scalar "string" "");
     ("metadata", defaulted (JObj []) (ref "k8s.io/apimachinery/pkg/apis/meta/v1.ListMeta"));
     ("items", array "" [] (ref "k8s.io/api/core/v1.Node"))]
    ["items"])
  ["k8s.io/api/core/v1.Node"; "k8s.io/apimachinery/pkg/apis/meta/v1.ListMeta"].

Definition schema_k8sio_api_core_v1_NodeProxyOptions : definition := mkDefinition
  (object
    [("kind", scalar "string" "");
     ("apiVersion", scalar "string" "");
     ("path", scalar "string" "")]
    [])
  [].

Definition schema_k8sio_api_core_v1_NodeRuntimeHandler : definition := mkDefinition
  (object
    [("name", defaulted (JStr "") (scalar "string" ""));
     ("features", ref "k8s.io/api/core/v1.NodeRuntimeHandlerFeatures")]
    [])
  ["k8s.io/api/core/v1.NodeRuntimeHandlerFeatures"].

Definition schema_k8sio_api_core_v1_NodeRuntimeHandlerFeatures : definition := mkDefinition
  (object
    [("recursiveReadOnlyMounts", scalar "boolean" "");
     ("userNamespaces", scalar "boolean" "")]
    [])
  [].

Definition schema_k8sio_api_core_v1_NodeSelector : definition := mkDefinition
  (extended [("x-kubernetes-map-type", JStr "atomic")] (object
    [("nodeSelectorTerms", array "atomic" [] (ref "k8s.io/api/core/v1.NodeSelectorTerm"))]
    ["nodeSelectorTerms"]))
  ["k8s.io/api/core/v1.NodeSelectorTerm"].

Definition schema_k8sio_api_core_v1_NodeSelectorRequirement : definition := mkDefinition
  (object
    [("key", defaulted (JStr "") (scalar "string" ""));
     ("operator", defaulted (JStr "") (enumerated "string" "" ["DoesNotExist"; "Exists"; "Gt"; "In"; "Lt"; "NotIn"]));
     ("values", array "atomic" [] (scalar "string" ""))]
    ["key"; "operator"])
  [].

Definition schema_k8sio_api_core_v1_NodeSelectorTerm : definition := mkDefinition
  (extended [("x-kubernetes-map-type", JStr "atomic")] (object
    [("matchExpressions", array "atomic" [] (ref "k8s.io/api/core/v1.NodeSelectorRequirement"));
     ("matchFields", array "atomic" [] (ref "k8s.io/api/core/v1.NodeSelectorRequirement"))]
    []))
  ["k8s.io/api/core/v1.NodeSelectorRequirement"].

Definition schema_k8sio_api_core_v1_NodeSpec : definition := mkDefinition
  (object
    [("podCIDR", scalar "string" "");
     ("podCIDRs", extended [("x-kubernetes-patch-strategy", JStr "merge")] (array "set" [] (scalar "string" "")));
     ("providerID", scalar "string" "");
     ("unschedulable", scalar "boolean" "");
     ("taints", array "atomic" [] (ref "k8s.io/api/core/v1.Taint"));
     ("configSource", ref "k8s.io/api/core/v1.NodeConfigSource");
     ("externalID", scalar "string" "")]
    [])
  ["k8s.io/api/core/v1.NodeConfigSource"; "k8s.io/api/core/v1.Taint"].

Definition schema_k8sio_api_core_v1_NodeStatus : definition := mkDefinition
  (object
    [("capacity", map_of (ref "k8s.io/apimachinery/pkg/api/resource.Quantity"));
     ("allocatable", map_of (ref "k8s.io/apimachinery/pkg/api/resource.Quantity"));
     ("phase", enumerated "string" "" ["Pending"; "Running"; "Terminated"]);
     ("conditions", extended [("x-kubernetes-patch-merge-key", JStr "type"); ("x-kubernetes-patch-strategy", JStr "merge")] (array "map" ["type"] (ref "k8s.io/api/core/v1.NodeCondition")));
     ("addresses", extended [("x-kubernetes-patch-merge-key", JStr "type"); ("x-kubernetes-patch-strategy", JStr "merge")] (array "map" ["type"] (ref "k8s.io/api/core/v1.NodeAddress")));
     ("daemonEndpoints", defaulted (JObj []) (ref "k8s.io/api/core/v1.NodeDaemonEndpoints"));
     ("nodeInfo", defaulted (JObj []) (ref "k8s.io/api/core/v1.NodeSystemInfo"));
     ("images", array "atomic" [] (ref "k8s.io/api/core/v1.ContainerImage"));
     ("volumesInUse", array "atomic" [] (scalar "string" ""));
     ("volumesAttached", array "atomic" [] (ref "k8s.io/api/core/v1.AttachedVolume"));
     ("config", ref "k8s.io/api/core/v1.NodeConfigStatus");
     ("runtimeHandlers", array "atomic" [] (ref "k8s.io/api/core/v1.NodeRuntimeHandler"));
     ("features", ref "k8s.io/api/core/v1.NodeFeatures")]
    [])
  ["k8s.io/api/core/v1.AttachedVolume"; "k8s.io/api/core/v1.ContainerImage"; "k8s.io/api/core/v1.NodeAddress"; "k8s.io/api/core/v1.NodeCondition";
   "k8s.io/api/core/v1.NodeConfigStatus"; "k8s.io/api/core/v1.NodeDaemonEndpoints"; "k8s.io/api/core/v1.NodeFeatures";
   "k8s.io/api/core/v1.NodeRuntimeHandler"; "k8s.io/api/core/v1.NodeSystemInfo"; "k8s.io/apimachinery/pkg/api/resource.Quantity"].

Definition schema_k8sio_api_core_v1_NodeSwapStatus : definition := mkDefinition
  (object
    [("capacity", scalar "integer" "int64")]
    [])
  [].

Definition schema_k8sio_api_core_v1_NodeSystemInfo : definition := mkDefinition
  (object
    [("machineID", defaulted (JStr "") (scalar "string" ""));
     ("systemUUID", defaulted (JStr "") (scalar "string" ""));
     ("bootID", defaulted (JStr "") (scalar "string" ""));
     ("kernelVersion", defaulted (JStr "") (scalar "string" ""));
     ("osImage", defaulted (JStr "") (scalar "string" ""));
     ("containerRuntimeVersion", defaulted (JStr "") (scalar "string" ""));
     ("kubeletVersion", defaulted (JStr "") (scalar "string" ""));
     ("kubeProxyVersion", defaulted (JStr "") (scalar "string" ""));
     ("operatingSystem", defaulted (JStr "") (scalar "string" ""));
     ("architecture", defaulted (JStr "") (scalar "string" ""));
     ("swap", ref "k8s.io/api/core/v1.NodeSwapStatus")]
    ["machineID"; "systemUUID"; "bootID"; "kernelVersion"; "osImage"; "containerRuntimeVersion"; "kubeletVersion"; "kubeProxyVersion"; "operatingSystem"; "architecture"])
  ["k8s.io/api/core/v1.NodeSwapStatus"].

Definition schema_k8sio_api_core_v1_ObjectFieldSelector : definition := mkDefinition
  (extended [("x-kubernetes-map-type", JStr "atomic")] (object
    [("apiVersion", scalar "string" "");
     ("fieldPath", defaulted (JStr "") (scalar "string" ""))]
    ["fieldPath"]))
  [].

Definition schema_k8sio_api_core_v1_PersistentVolume : definition := mkDefinition
  (object
    [("kind", scalar "string" "");
     ("apiVersion", scalar "string" "");
     ("metadata", defaulted (JObj []) (ref "k8s.io/apimachinery/pkg/apis/meta/v1.ObjectMeta"));
     ("spec", defaulted (JObj []) (ref "k8s.io/api/core/v1.PersistentVolumeSpec"));
     ("status", defaulted (JObj []) (ref "k8s.io/api/core/v1.PersistentVolumeStatus"))]
    [])
  ["k8s.io/api/core/v1.PersistentVolumeSpec"; "k8s.io/api/core/v1.PersistentVolumeStatus"; "k8s.io/apimachinery/pkg/apis/meta/v1.ObjectMeta"].

Definition schema_k8sio_api_core_v1_PersistentVolumeClaim : definition := mkDefinition
  (object
    [("kind", scalar "string" "");
     ("apiVersion", scalar "string" "");
     ("metadata", defaulted (JObj []) (ref "k8s.io/apimachinery/pkg/apis/meta/v1.ObjectMeta"));
     ("spec", defaulted (JObj []) (ref "k8s.io/api/core/v1.PersistentVolumeClaimSpec"));
     ("status", defaulted (JObj []) (ref "k8s.io/api/core/v1.PersistentVolumeClaimStatus"))]
    [])
  ["k8s.io/api/core/v1.PersistentVolumeClaimSpec"; "k8s.io/api/core/v1.PersistentVolumeClaimStatus";
   "k8s.io/apimachinery/pkg/apis/meta/v1.ObjectMeta"].

Definition schema_k8sio_api_core_v1_PersistentVolumeClaimCondition : definition := mkDefinition
  (object
    [("type", defaulted (JStr "") (scalar "string" ""));
     ("status", defaulted (JStr "") (scalar "string" ""));
     ("lastProbeTime", ref "k8s.io/apimachinery/pkg/apis/meta/v1.Time");
     ("lastTransitionTime", ref "k8s.io/apimachinery/pkg/apis/meta/v1.Time");
     ("reason", scalar "string" "");
     ("message", scalar "string" "")]
    ["type"; "status"])
  ["k8s.io/apimachinery/pkg/apis/meta/v1.Time"].

Definition schema_k8sio_api_core_v1_PersistentVolumeClaimList : definition := mkDefinition
  (object
    [("kind", scalar "string" "");
     ("apiVersion", scalar "string" "");
     ("metadata", defaulted (JObj []) (ref "k8s.io/apimachinery/pkg/apis/meta/v1.ListMeta"));
     ("items", array "" [] (ref "k8s.io/api/core/v1.PersistentVolumeClaim"))]
    ["items"])
  ["k8s.io/api/core/v1.PersistentVolumeClaim"; "k8s.io/apimachinery/pkg/apis/meta/v1.ListMeta"].

Definition schema_k8sio_api_core_v1_PersistentVolumeClaimSpec : definition := mkDefinition
  (object
    [("accessModes", array "atomic" [] (enumerated "string" "" ["ReadOnlyMany"; "ReadWriteMany"; "ReadWriteOnce"; "ReadWriteOncePod"]));
     ("selector", ref "k8s.io/apimachinery/pkg/apis/meta/v1.LabelSelector");
     ("resources", defaulted (JObj []) (ref "k8s.io/api/core/v1.VolumeResourceRequirements"));
     ("volumeName", scalar "string" "");
     ("storageClassName", scalar "string" "");
     ("volumeMode", enumerated "string" "" ["Block"; "Filesystem"; "FromStorageProfile"]);
     ("dataSource", ref "k8s.io/api/core/v1.TypedLocalObjectReference");
     ("dataSourceRef", ref "k8s.io/api/core/v1.TypedObjectReference");
     ("volumeAttributesClassName", scalar "string" "")]
    [])
  ["k8s.io/api/core/v1.TypedLocalObjectReference"; "k8s.io/api/core/v1.TypedObjectReference"; "k8s.io/api/core/v1.VolumeResourceRequirements";
   "k8s.io/apimachinery/pkg/apis/meta/v1.LabelSelector"].

Definition schema_k8sio_api_core_v1_PersistentVolumeClaimStatus : definition := mkDefinition
  (object
    [("phase", enumerated "string" "" ["Bound"; "Lost"; "Pending"]);
     ("accessModes", array "atomic" [] (enumerated "string" "" ["ReadOnlyMany"; "ReadWriteMany"; "ReadWriteOnce"; "ReadWriteOncePod"]));
     ("capacity", map_of (ref "k8s.io/apimachinery/pkg/api/resource.Quantity"));
     ("conditions", extended [("x-kubernetes-patch-merge-key", JStr "type"); ("x-kubernetes-patch-strategy", JStr "merge")] (array "map" ["type"] (ref "k8s.io/api/core/v1.PersistentVolumeClaimCondition")));
     ("allocatedResources", map_of (ref "k8s.io/apimachinery/pkg/api/resource.Quantity"));
     ("allocatedResourceStatuses", extended [("x-kubernetes-map-type", JStr "granular")] (map_of (enumerated "string" "" ["ControllerResizeInProgress"; "ControllerResizeInfeasible"; "NodeResizeInProgress"; "NodeResizeInfeasible"; "NodeResizePending"])));
     ("currentVolumeAttributesClassName", scalar "string" "");
     ("modifyVolumeStatus", ref "k8s.io/api/core/v1.ModifyVolumeStatus")]
    [])
  ["k8s.io/api/core/v1.ModifyVolumeStatus"; "k8s.io/api/core/v1.PersistentVolumeClaimCondition"; "k8s.io/apimachinery/pkg/api/resource.Quantity"].

Definition schema_k8sio_api_core_v1_PersistentVolumeClaimTemplate : definition := mkDefinition
  (object
    [("metadata", defaulted (JObj []) (ref "k8s.io/apimachinery/pkg/apis/meta/v1.ObjectMeta"));
     ("spec", defaulted (JObj []) (ref "k8s.io/api/core/v1.PersistentVolumeClaimSpec"))]
    ["spec"])
  ["k8s.io/api/core/v1.PersistentVolumeClaimSpec"; "k8s.io/apimachinery/pkg/apis/meta/v1.ObjectMeta"].

Definition schema_k8sio_api_core_v1_PersistentVolumeClaimVolumeSource : definition := mkDefinition
  (object
    [("claimName", defaulted (JStr "") (scalar "string" ""));
     ("readOnly", scalar "boolean" "")]
    ["claimName"])
  [].

Definition schema_k8sio_api_core_v1_PersistentVolumeList : definition := mkDefinition
  (object
    [("kind", scalar "string" "");
     ("apiVersion", scalar "string" "");
     ("metadata", defaulted (JObj []) (ref "k8s.io/apimachinery/pkg/apis/meta/v1.ListMeta"));
     ("items", array "" [] (ref "k8s.io/api/core/v1.PersistentVolume"))]
    ["items"])
  ["k8s.io/api/core/v1.PersistentVolume"; "k8s.io/apimachinery/pkg/apis/meta/v1.ListMeta"].

Definition schema_k8sio_api_core_v1_PersistentVolumeSource : definition := mkDefinition
  (object
    [("gcePersistentDisk", ref "k8s.io/api/core/v1.GCEPersistentDiskVolumeSource");
     ("awsElasticBlockStore", ref "k8s.io/api/core/v1.AWSElasticBlockStoreVolumeSource");
     ("hostPath", ref "k8s.io/api/core/v1.HostPathVolumeSource");
     ("glusterfs", ref "k8s.io/api/core/v1.GlusterfsPersistentVolumeSource");
     ("nfs", ref "k8s.io/api/core/v1.NFSVolumeSource");
     ("rbd", ref "k8s.io/api/core/v1.RBDPersistentVolumeSource");
     ("iscsi", ref "k8s.io/api/core/v1.ISCSIPersistentVolumeSource");
     ("cinder", ref "k8s.io/api/core/v1.CinderPersistentVolumeSource");
     ("cephfs", ref "k8s.io/api/core/v1.CephFSPersistentVolumeSource");
     ("fc", ref "k8s.io/api/core/v1.FCVolumeSource");
     ("flocker", ref "k8s.io/api/core/v1.FlockerVolumeSource");
     ("flexVolume", ref "k8s.io/api/core/v1.FlexPersistentVolumeSource");
     ("azureFile", ref "k8s.io/api/core/v1.AzureFilePersistentVolumeSource");
     ("vsphereVolume", ref "k8s.io/api/core/v1.VsphereVirtualDiskVolumeSource");
     ("quobyte", ref "k8s.io/api/core/v1.QuobyteVolumeSource");
     ("azureDisk", ref "k8s.io/api/core/v1.AzureDiskVolumeSource");
     ("photonPersistentDisk", ref "k8s.io/api/core/v1.PhotonPersistentDiskVolumeSource");
     ("portworxVolume", ref "k8s.io/api/core/v1.PortworxVolumeSource");
     ("scaleIO", ref "k8s.io/api/core/v1.ScaleIOPersistentVolumeSource");
     ("local", ref "k8s.io/api/core/v1.LocalVolumeSource");
     ("storageos", ref "k8s.io/api/core/v1.StorageOSPersistentVolumeSource");
     ("csi", ref "k8s.io/api/core/v1.CSIPersistentVolumeSource")]
    [])
  ["k8s.io/api/core/v1.AWSElasticBlockStoreVolumeSource"; "k8s.io/api/core/v1.AzureDiskVolumeSource";
   "k8s.io/api/core/v1.AzureFilePersistentVolumeSource"; "k8s.io/api/core/v1.CSIPersistentVolumeSource";
   "k8s.io/api/core/v1.CephFSPersistentVolumeSource"; "k8s.io/api/core/v1.CinderPersistentVolumeSource"; "k8s.io/api/core/v1.FCVolumeSource";
   "k8s.io/api/core/v1.FlexPersistentVolumeSource"; "k8s.io/api/core/v1.FlockerVolumeSource"; "k8s.io/api/core/v1.GCEPersistentDiskVolumeSource";
   "k8s.io/api/core/v1.GlusterfsPersistentVolumeSource"; "k8s.io/api/core/v1.HostPathVolumeSource"; "k8s.io/api/core/v1.ISCSIPersistentVolumeSource";
   "k8s.io/api/core/v1.LocalVolumeSource"; "k8s.io/api/core/v1.NFSVolumeSource"; "k8s.io/api/core/v1.PhotonPersistentDiskVolumeSource";
   "k8s.io/api/core/v1.PortworxVolumeSource"; "k8s.io/api/core/v1.QuobyteVolumeSource"; "k8s.io/api/core/v1.RBDPersistentVolumeSource";
   "k8s.io/api/core/v1.ScaleIOPersistentVolumeSource"; "k8s.io/api/core/v1.StorageOSPersistentVolumeSource";
   "k8s.io/api/core/v1.VsphereVirtualDiskVolumeSource"].

Definition schema_k8sio_api_core_v1_PersistentVolumeSpec : definition := mkDefinition
  (object
    [("capacity", map_of (ref "k8s.io/apimachinery/pkg/api/resource.Quantity"));
     ("gcePersistentDisk", ref "k8s.io/api/core/v1.GCEPersistentDiskVolumeSource");
     ("awsElasticBlockStore", ref "k8s.io/api/core/v1.AWSElasticBlockStoreVolumeSource");
     ("hostPath", ref "k8s.io/api/core/v1.HostPathVolumeSource");
     ("glusterfs", ref "k8s.io/api/core/v1.GlusterfsPersistentVolumeSource");
     ("nfs", ref "k8s.io/api/core/v1.NFSVolumeSource");
     ("rbd", ref "k8s.io/api/core/v1.RBDPersistentVolumeSource");
     ("iscsi", ref "k8s.io/api/core/v1.ISCSIPersistentVolumeSource");
     ("cinder", ref "k8s.io/api/core/v1.CinderPersistentVolumeSource");
     ("cephfs", ref "k8s.io/api/core/v1.CephFSPersistentVolumeSource");
     ("fc", ref "k8s.io/api/core/v1.FCVolumeSource");
     ("flocker", ref "k8s.io/api/core/v1.FlockerVolumeSource");
     ("flexVolume", ref "k8s.io/api/core/v1.FlexPersistentVolumeSource");
     ("azureFile", ref "k8s.io/api/core/v1.AzureFilePersistentVolumeSource");
     ("vsphereVolume", ref "k8s.io/api/core/v1.VsphereVirtualDiskVolumeSource");
     ("quobyte", ref "k8s.io/api/core/v1.QuobyteVolumeSource");
     ("azureDisk", ref "k8s.io/api/core/v1.AzureDiskVolumeSource");
     ("photonPersistentDisk", ref "k8s.io/api/core/v1.PhotonPersistentDiskVolumeSource");
     ("portworxVolume", ref "k8s.io/api/core/v1.PortworxVolumeSource");
     ("scaleIO", ref "k8s.io/api/core/v1.ScaleIOPersistentVolumeSource");
     ("local", ref "k8s.io/api/core/v1.LocalVolumeSource");
     ("storageos", ref "k8s.io/api/core/v1.StorageOSPersistentVolumeSource");
     ("csi", ref "k8s.io/api/core/v1.CSIPersistentVolumeSource");
     ("accessModes", array "atomic" [] (enumerated "string" "" ["ReadOnlyMany"; "ReadWriteMany"; "ReadWriteOnce"; "ReadWriteOncePod"]));
     ("claimRef", extended [("x-kubernetes-map-type", JStr "granular")] (ref "k8s.io/api/core/v1.ObjectReference"));
     ("persistentVolumeReclaimPolicy", enumerated "string" "" ["Delete"; "Recycle"; "Retain"]);
     ("storageClassName", scalar "string" "");
     ("mountOptions", array "atomic" [] (scalar "string" ""));
     ("volumeMode", enumerated "string" "" ["Block"; "Filesystem"; "FromStorageProfile"]);
     ("nodeAffinity", ref "k8s.io/api/core/v1.VolumeNodeAffinity");
     ("volumeAttributesClassName", scalar "string" "")]
    [])
  ["k8s.io/api/core/v1.AWSElasticBlockStoreVolumeSource"; "k8s.io/api/core/v1.AzureDiskVolumeSource";
   "k8s.io/api/core/v1.AzureFilePersistentVolumeSource"; "k8s.io/api/core/v1.CSIPersistentVolumeSource";
   "k8s.io/api/core/v1.CephFSPersistentVolumeSource"; "k8s.io/api/core/v1.CinderPersistentVolumeSource"; "k8s.io/api/core/v1.FCVolumeSource";
   "k8s.io/api/core/v1.FlexPersistentVolumeSource"; "k8s.io/api/core/v1.FlockerVolumeSource"; "k8s.io/api/core/v1.GCEPersistentDiskVolumeSource";
   "k8s.io/api/core/v1.GlusterfsPersistentVolumeSource"; "k8s.io/api/core/v1.HostPathVolumeSource"; "k8s.io/api/core/v1.ISCSIPersistentVolumeSource";
   "k8s.io/api/core/v1.LocalVolumeSource"; "k8s.io/api/core/v1.NFSVolumeSource"; "k8s.io/api/core/v1.ObjectReference";
   "k8s.io/api/core/v1.PhotonPersistentDiskVolumeSource"; "k8s.io/api/core/v1.PortworxVolumeSource"; "k8s.io/api/core/v1.QuobyteVolumeSource";
   "k8s.io/api/core/v1.RBDPersistentVolumeSource"; "k8s.io/api/core/v1.ScaleIOPersistentVolumeSource";
   "k8s.io/api/core/v1.StorageOSPersistentVolumeSource"; "k8s.io/api/core/v1.VolumeNodeAffinity";
   "k8s.io/api/core/v1.VsphereVirtualDiskVolumeSource"; "k8s.io/apimachinery/pkg/api/resource.Quantity"].

Definition schema_k8sio_api_core_v1_PersistentVolumeStatus : definition := mkDefinition
  (object
    [("phase", enumerated "string" "" ["Available"; "Bound"; "Failed"; "Pending"; "Released"]);
     ("message", scalar "string" "");
     ("reason", scalar "string" "");
     ("lastPhaseTransitionTime", ref "k8s.io/apimachinery/pkg/apis/meta/v1.Time")]
    [])
  ["k8s.io/apimachinery/pkg/apis/meta/v1.Time"].

Definition schema_k8sio_api_core_v1_PhotonPersistentDiskVolumeSource : definition := mkDefinition
  (object
    [("pdID", defaulted (JStr "") (scalar "string" ""));
     ("fsType", scalar "string" "")]
    ["pdID"])
  [].

Definition schema_k8sio_api_core_v1_Pod : definition := mkDefinition
  (object
    [("kind", scalar "string" "");
     ("apiVersion", scalar "string" "");
     ("metadata", defaulted (JObj []) (ref "k8s.io/apimachinery/pkg/apis/meta/v1.ObjectMeta"));
     ("spec", defaulted (JObj []) (ref "k8s.io/api/core/v1.PodSpec"));
     ("status", defaulted (JObj []) (ref "k8s.io/api/core/v1.PodStatus"))]
    [])
  ["k8s.io/api/core/v1.PodSpec"; "k8s.io/api/core/v1.PodStatus"; "k8s.io/apimachinery/pkg/apis/meta/v1.ObjectMeta"].

Definition schema_k8sio_api_core_v1_PodAffinity : definition := mkDefinition
  (object
    [("requiredDuringSchedulingIgnoredDuringExecution", array "atomic" [] (ref "k8s.io/api/core/v1.PodAffinityTerm"));
     ("preferredDuringSchedulingIgnoredDuringExecution", array "atomic" [] (ref "k8s.io/api/core/v1.WeightedPodAffinityTerm"))]
    [])
  ["k8s.io/api/core/v1.PodAffinityTerm"; "k8s.io/api/core/v1.WeightedPodAffinityTerm"].

Definition schema_k8sio_api_core_v1_PodAffinityTerm : definition := mkDefinition
  (object
    [("labelSelector", ref "k8s.io/apimachinery/pkg/apis/meta/v1.LabelSelector");
     ("namespaces", array "atomic" [] (scalar "string" ""));
     ("topologyKey", defaulted (JStr "") (scalar "string" ""));
     ("namespaceSelector", ref "k8s.io/apimachinery/pkg/apis/meta/v1.LabelSelector");
     ("matchLabelKeys", array "atomic" [] (scalar "string" ""));
     ("mismatchLabelKeys", array "atomic" [] (scalar "string" ""))]
    ["topologyKey"])
  ["k8s.io/apimachinery/pkg/apis/meta/v1.LabelSelector"].

Definition schema_k8sio_api_core_v1_PodAntiAffinity : definition := mkDefinition
  (object
    [("requiredDuringSchedulingIgnoredDuringExecution", array "atomic" [] (ref "k8s.io/api/core/v1.PodAffinityTerm"));
     ("preferredDuringSchedulingIgnoredDuringExecution", array "atomic" [] (ref "k8s.io/api/core/v1.WeightedPodAffinityTerm"))]
    [])
  ["k8s.io/api/core/v1.PodAffinityTerm"; "k8s.io/api/core/v1.WeightedPodAffinityTerm"].

Definition schema_k8sio_api_core_v1_PodAttachOptions : definition := mkDefinition
  (object
    [("kind", scalar "string" "");
     ("apiVersion", scalar "string" "");
     ("stdin", scalar "boolean" "");
     ("stdout", scalar "boolean" "");
     ("stderr", scalar "boolean" "");
     ("tty", scalar "boolean" "");
     ("container", scalar "string" "")]
    [])
  [].

Definition schema_k8sio_api_core_v1_PodCertificateProjection : definition := mkDefinition
  (object
    [("signerName", scalar "string" "");
     ("keyType", scalar "string" "");
     ("maxExpirationSeconds", scalar "integer" "int32");
     ("credentialBundlePath", scalar "string" "");
     ("keyPath", scalar "string" "");
     ("certificateChainPath", scalar "string" "")]
    ["signerName"; "keyType"])
  [].

Definition schema_k8sio_api_core_v1_PodCondition : definition := mkDefinition
  (object
    [("type", defaulted (JStr "") (scalar "string" ""));
     ("observedGeneration", scalar "integer" "int64");
     ("status", defaulted (JStr "") (scalar "string" ""));
     ("lastProbeTime", ref "k8s.io/apimachinery/pkg/apis/meta/v1.Time");
     ("lastTransitionTime", ref "k8s.io/apimachinery/pkg/apis/meta/v1.Time");
     ("reason", scalar "string" "");
     ("message", scalar "string" "")]
    ["type"; "status"])
  ["k8s.io/apimachinery/pkg/apis/meta/v1.Time"].

Definition schema_k8sio_api_core_v1_PodDNSConfig : definition := mkDefinition
  (object
    [("nameservers", array "atomic" [] (scalar "string" ""));
     ("searches", array "atomic" [] (scalar "string" ""));
     ("options", array "atomic" [] (ref "k8s.io/api/core/v1.PodDNSConfigOption"))]
    [])
  ["k8s.io/api/core/v1.PodDNSConfigOption"].

Definition schema_k8sio_api_core_v1_PodDNSConfigOption : definition := mkDefinition
  (object
    [("name", scalar "string" "");
     ("value", scalar "string" "")]
    [])
  [].

Definition schema_k8sio_api_core_v1_PodExecOptions : definition := mkDefinition
  (object
    [("kind", scalar "string" "");
     ("apiVersion", scalar "string" "");
     ("stdin", scalar "boolean" "");
     ("stdout", scalar "boolean" "");
     ("stderr", scalar "boolean" "");
     ("tty", scalar "boolean" "");
     ("container", scalar "string" "");
     ("command", array "atomic" [] (scalar "string" ""))]
    ["command"])
  [].

Definition schema_k8sio_api_core_v1_PodExtendedResourceClaimStatus : definition := mkDefinition
  (object
    [("requestMappings", array "atomic" [] (ref "k8s.io/api/core/v1.ContainerExtendedResourceRequest"));
     ("resourceClaimName", defaulted (JStr "") (scalar "string" ""))]
    ["requestMappings"; "resourceClaimName"])
  ["k8s.io/api/core/v1.ContainerExtendedResourceRequest"].

Definition schema_k8sio_api_core_v1_PodIP : definition := mkDefinition
  (object
    [("ip", defaulted (JStr "") (scalar "string" ""))]
    ["ip"])
  [].

Definition schema_k8sio_api_core_v1_PodList : definition := mkDefinition
  (object
    [("kind", scalar "string" "");
     ("apiVersion", scalar "string" "");
     ("metadata", defaulted (JObj []) (ref "k8s.io/apimachinery/pkg/apis/meta/v1.ListMeta"));
     ("items", array "" [] (ref "k8s.io/api/core/v1.Pod"))]
    ["items"])
  ["k8s.io/api/core/v1.Pod"; "k8s.io/apimachinery/pkg/apis/meta/v1.ListMeta"].

Definition schema_k8sio_api_core_v1_PodLogOptions : definition := mkDefinition
  (object
    [("kind", scalar "string" "");
     ("apiVersion", scalar "string" "");
     ("container", scalar "string" "");
     ("follow", scalar "boolean" "");
     ("previous", scalar "boolean" "");
     ("sinceSeconds", scalar "integer" "int64");
     ("sinceTime", ref "k8s.io/apimachinery/pkg/apis/meta/v1.Time");
     ("timestamps", scalar "boolean" "");
     ("tailLines", scalar "integer" "int64");
     ("limitBytes", scalar "integer" "int64");
     ("insecureSkipTLSVerifyBackend", scalar "boolean" "");
     ("stream", scalar "string" "")]
    [])
  ["k8s.io/apimachinery/pkg/apis/meta/v1.Time"].

Definition schema_k8sio_api_core_v1_PodOS : definition := mkDefinition
  (object
    [("name", defaulted (JStr "") (scalar "string" ""))]
    ["name"])
  [].

Definition schema_k8sio_api_core_v1_PodPortForwardOptions : definition := mkDefinition
  (object
    [("kind", scalar "string" "");
     ("apiVersion", scalar "string" "");
     ("ports", array "atomic" [] (scalar "integer" "int32"))]
    [])
  [].

Definition schema_k8sio_api_core_v1_PodProxyOptions : definition := mkDefinition
  (object
    [("kind", scalar "string" "");
     ("apiVersion", scalar "string" "");
     ("path", scalar "string" "")]
    [])
  [].

Definition schema_k8sio_api_core_v1_PodReadinessGate : definition := mkDefinition
  (object
    [("conditionType", defaulted (JStr "") (scalar "string" ""))]
    ["conditionType"])
  [].

Definition schema_k8sio_api_core_v1_PodResourceClaim : definition := mkDefinition
  (object
    [("name", defaulted (JStr "") (scalar "string" ""));
     ("resourceClaimName", scalar "string" "");
     ("resourceClaimTemplateName", scalar "string" "")]
    ["name"])
  [].

Definition schema_k8sio_api_core_v1_PodResourceClaimStatus : definition := mkDefinition
  (object
    [("name", defaulted (JStr "") (scalar "string" ""));
     ("resourceClaimName", scalar "string" "")]
    ["name"])
  [].

Definition schema_k8sio_api_core_v1_PodSchedulingGate : definition := mkDefinition
  (object
    [("name", defaulted (JStr "") (scalar "string" ""))]
    ["name"])
  [].

Definition schema_k8sio_api_core_v1_PodSecurityContext : definition := mkDefinition
  (object
    [("seLinuxOptions", ref "k8s.io/api/core/v1.SELinuxOptions");
     ("windowsOptions", ref "k8s.io/api/core/v1.WindowsSecurityContextOptions");
     ("runAsUser", scalar "integer" "int64");
     ("runAsGroup", scalar "integer" "int64");
     ("runAsNonRoot", scalar "boolean" "");
     ("supplementalGroups", array "atomic" [] (scalar "integer" "int64"));
     ("supplementalGroupsPolicy", enumerated "string" "" ["Merge"; "Strict"]);
     ("fsGroup", scalar "integer" "int64");
     ("sysctls", array "atomic" [] (ref "k8s.io/api/core/v1.Sysctl"));
     ("fsGroupChangePolicy", enumerated "string" "" ["Always"; "OnRootMismatch"]);
     ("seccompProfile", ref "k8s.io/api/core/v1.SeccompProfile");
     ("appArmorProfile", ref "k8s.io/api/core/v1.AppArmorProfile");
     ("seLinuxChangePolicy", scalar "string" "")]
    [])
  ["k8s.io/api/core/v1.AppArmorProfile"; "k8s.io/api/core/v1.SELinuxOptions"; "k8s.io/api/core/v1.SeccompProfile"; "k8s.io/api/core/v1.Sysctl";
   "k8s.io/api/core/v1.WindowsSecurityContextOptions"].

Definition schema_k8sio_api_core_v1_PodSignature : definition := mkDefinition
  (object
    [("podController", ref "k8s.io/apimachinery/pkg/apis/meta/v1.OwnerReference")]
    [])
  ["k8s.io/apimachinery/pkg/apis/meta/v1.OwnerReference"].

Definition schema_k8sio_api_core_v1_PodSpec : definition := mkDefinition
  (object
    [("volumes", extended [("x-kubernetes-patch-merge-key", JStr "name"); ("x-kubernetes-patch-strategy", JStr "merge,retainKeys")] (array "map" ["name"] (ref "k8s.io/api/core/v1.Volume")));
     ("initContainers", extended [("x-kubernetes-patch-merge-key", JStr "name"); ("x-kubernetes-patch-strategy", JStr "merge")] (array "map" ["name"] (ref "k8s.io/api/core/v1.Container")));
     ("containers", extended [("x-kubernetes-patch-merge-key", JStr "name"); ("x-kubernetes-patch-strategy", JStr "merge")] (array "map" ["name"] (ref "k8s.io/api/core/v1.Container")));
     ("ephemeralContainers", extended [("x-kubernetes-patch-merge-key", JStr "name"); ("x-kubernetes-patch-strategy", JStr "merge")] (array "map" ["name"] (ref "k8s.io/api/core/v1.EphemeralContainer")));
     ("restartPolicy", enumerated "string" "" ["Always"; "Never"; "OnFailure"]);
     ("terminationGracePeriodSeconds", scalar "integer" "int64");
     ("activeDeadlineSeconds", scalar "integer" "int64");
     ("dnsPolicy", enumerated "string" "" ["ClusterFirst"; "ClusterFirstWithHostNet"; "Default"; "None"]);
     ("nodeSelector", extended [("x-kubernetes-map-type", JStr "atomic")] (map_of (scalar "string" "")));
     ("serviceAccountName", scalar "string" "");
     ("serviceAccount", scalar "string" "");
     ("automountServiceAccountToken", scalar "boolean" "");
     ("nodeName", scalar "string" "");
     ("hostNetwork", scalar "boolean" "");
     ("hostPID", scalar "boolean" "");
     ("hostIPC", scalar "boolean" "");
     ("shareProcessNamespace", scalar "boolean" "");
     ("securityContext", ref "k8s.io/api/core/v1.PodSecurityContext");
     ("imagePullSecrets", extended [("x-kubernetes-patch-merge-key", JStr "name"); ("x-kubernetes-patch-strategy", JStr "merge")] (array "map" ["name"] (ref "k8s.io/api/core/v1.LocalObjectReference")));
     ("hostname", scalar "string" "");
     ("subdomain", scalar "string" "");
     ("affinity", ref "k8s.io/api/core/v1.Affinity");
     ("schedulerName", scalar "string" "");
     ("tolerations", array "atomic" [] (ref "k8s.io/api/core/v1.Toleration"));
     ("hostAliases", extended [("x-kubernetes-patch-merge-key", JStr "ip"); ("x-kubernetes-patch-strategy", JStr "merge")] (array "map" ["ip"] (ref "k8s.io/api/core/v1.HostAlias")));
     ("priorityClassName", scalar "string" "");
     ("priority", scalar "integer" "int32");
     ("dnsConfig", ref "k8s.io/api/core/v1.PodDNSConfig");
     ("readinessGates", array "atomic" [] (ref "k8s.io/api/core/v1.PodReadinessGate"));
     ("runtimeClassName", scalar "string" "");
     ("enableServiceLinks", scalar "boolean" "");
     ("preemptionPolicy", enumerated "string" "" ["Never"; "PreemptLowerPriority"]);
     ("overhead", map_of (ref "k8s.io/apimachinery/pkg/api/resource.Quantity"));
     ("topologySpreadConstraints", extended [("x-kubernetes-patch-merge-key", JStr "topologyKey"); ("x-kubernetes-patch-strategy", JStr "merge")] (array "map" ["topologyKey"; "whenUnsatisfiable"] (ref "k8s.io/api/core/v1.TopologySpreadConstraint")));
     ("setHostnameAsFQDN", scalar "boolean" "");
     ("os", ref "k8s.io/api/core/v1.PodOS");
     ("hostUsers", scalar "boolean" "");
     ("schedulingGates", extended [("x-kubernetes-patch-merge-key", JStr "name"); ("x-kubernetes-patch-strategy", JStr "merge")] (array "map" ["name"] (ref "k8s.io/api/core/v1.PodSchedulingGate")));
     ("resourceClaims", extended [("x-kubernetes-patch-merge-key", JStr "name"); ("x-kubernetes-patch-strategy", JStr "merge,retainKeys")] (array "map" ["name"] (ref "k8s.io/api/core/v1.PodResourceClaim")));
     ("resources", ref "k8s.io/api/core/v1.ResourceRequirements");
     ("hostnameOverride", scalar "string" "")]
    ["containers"])
  ["k8s.io/api/core/v1.Affinity"; "k8s.io/api/core/v1.Container"; "k8s.io/api/core/v1.EphemeralContainer"; "k8s.io/api/core/v1.HostAlias";
   "k8s.io/api/core/v1.LocalObjectReference"; "k8s.io/api/core/v1.PodDNSConfig"; "k8s.io/api/core/v1.PodOS"; "k8s.io/api/core/v1.PodReadinessGate";
   "k8s.io/api/core/v1.PodResourceClaim"; "k8s.io/api/core/v1.PodSchedulingGate"; "k8s.io/api/core/v1.PodSecurityContext";
   "k8s.io/api/core/v1.ResourceRequirements"; "k8s.io/api/core/v1.Toleration"; "k8s.io/api/core/v1.TopologySpreadConstraint";
   "k8s.io/api/core/v1.Volume"; "k8s.io/apimachinery/pkg/api/resource.Quantity"].

Definition schema_k8sio_api_core_v1_PodStatus : definition := mkDefinition
  (object
    [("observedGeneration", scalar "integer" "int64");
     ("phase", enumerated "string" "" ["Failed"; "Pending"; "Running"; "Succeeded"; "Unknown"]);
     ("conditions", extended [("x-kubernetes-patch-merge-key", JStr "type"); ("x-kubernetes-patch-strategy", JStr "merge")] (array "map" ["type"] (ref "k8s.io/api/core/v1.PodCondition")));
     ("message", scalar "string" "");
     ("reason", scalar "string" "");
     ("nominatedNodeName", scalar "string" "");
     ("hostIP", scalar "string" "");
     ("hostIPs", extended [("x-kubernetes-patch-merge-key", JStr "ip"); ("x-kubernetes-patch-strategy", JStr "merge")] (array "atomic" [] (ref "k8s.io/api/core/v1.HostIP")));
     ("podIP", scalar "string" "");
     ("podIPs", extended [("x-kubernetes-patch-merge-key", JStr "ip"); ("x-kubernetes-patch-strategy", JStr "merge")] (array "map" ["ip"] (ref "k8s.io/api/core/v1.PodIP")));
     ("startTime", ref "k8s.io/apimachinery/pkg/apis/meta/v1.Time");
     ("initContainerStatuses", array "atomic" [] (ref "k8s.io/api/core/v1.ContainerStatus"));
     ("containerStatuses", array "atomic" [] (ref "k8s.io/api/core/v1.ContainerStatus"));
     ("qosClass", enumerated "string" "" ["BestEffort"; "Burstable"; "Guaranteed"]);
     ("ephemeralContainerStatuses", array "atomic" [] (ref "k8s.io/api/core/v1.ContainerStatus"));
     ("resize", scalar "string" "");
     ("resourceClaimStatuses", extended [("x-kubernetes-patch-merge-key", JStr "name"); ("x-kubernetes-patch-strategy", JStr "merge,retainKeys")] (array "map" ["name"] (ref "k8s.io/api/core/v1.PodResourceClaimStatus")));
     ("extendedResourceClaimStatus", ref "k8s.io/api/core/v1.PodExtendedResourceClaimStatus")]
    [])
  ["k8s.io/api/core/v1.ContainerStatus"; "k8s.io/api/core/v1.HostIP"; "k8s.io/api/core/v1.PodCondition";
   "k8s.io/api/core/v1.PodExtendedResourceClaimStatus"; "k8s.io/api/core/v1.PodIP"; "k8s.io/api/core/v1.PodResourceClaimStatus";
   "k8s.io/apimachinery/pkg/apis/meta/v1.Time"].

Definition schema_k8sio_api_core_v1_PodStatusResult : definition := mkDefinition
  (object
    [("kind", scalar "string" "");
     ("apiVersion", scalar "string" "");
     ("metadata", defaulted (JObj []) (ref "k8s.io/apimachinery/pkg/apis/meta/v1.ObjectMeta"));
     ("status", defaulted (JObj []) (ref "k8s.io/api/core/v1.PodStatus"))]
    [])
  ["k8s.io/api/core/v1.PodStatus"; "k8s.io/apimachinery/pkg/apis/meta/v1.ObjectMeta"].

Definition schema_k8sio_api_core_v1_PodTemplate : definition := mkDefinition
  (object
    [("kind", scalar "string" "");
     ("apiVersion", scalar "string" "");
     ("metadata", defaulted (JObj []) (ref "k8s.io/apimachinery/pkg/apis/meta/v1.ObjectMeta"));
     ("template", defaulted (JObj []) (ref "k8s.io/api/core/v1.PodTemplateSpec"))]
    [])
  ["k8s.io/api/core/v1.PodTemplateSpec"; "k8s.io/apimachinery/pkg/apis/meta/v1.ObjectMeta"].

Definition schema_k8sio_api_core_v1_PodTemplateList : definition := mkDefinition
  (object
    [("kind", scalar "string" "");
     ("apiVersion", scalar "string" "");
     ("metadata", defaulted (JObj []) (ref "k8s.io/apimachinery/pkg/apis/meta/v1.ListMeta"));
     ("items", array "" [] (ref "k8s.io/api/core/v1.PodTemplate"))]
    ["items"])
  ["k8s.io/api/core/v1.PodTemplate"; "k8s.io/apimachinery/pkg/apis/meta/v1.ListMeta"].

Definition schema_k8sio_api_core_v1_PodTemplateSpec : definition := mkDefinition
  (object
    [("metadata", defaulted (JObj []) (ref "k8s.io/apimachinery/pkg/apis/meta/v1.ObjectMeta"));
     ("spec", defaulted (JObj []) (ref "k8s.io/api/core/v1.PodSpec"))]
    [])
  ["k8s.io/api/core/v1.PodSpec"; "k8s.io/apimachinery/pkg/apis/meta/v1.ObjectMeta"].

Definition schema_k8sio_api_core_v1_PortStatus : definition := mkDefinition
  (object
    [("port", defaulted (JNum "0") (scalar "integer" "int32"));
     ("protocol", defaulted (JStr "") (enumerated "string" "" ["SCTP"; "TCP"; "UDP"]));
     ("error", scalar "string" "")]
    ["port"; "protocol"])
  [].

Definition schema_k8sio_api_core_v1_PortworxVolumeSource : definition := mkDefinition
  (object
    [("volumeID", defaulted (JStr "") (scalar "string" ""));
     ("fsType", scalar "string" "");
     ("readOnly", scalar "boolean" "")]
    ["volumeID"])
  [].

Definition schema_k8sio_api_core_v1_PreferAvoidPodsEntry : definition := mkDefinition
  (object
    [("podSignature", defaulted (JObj []) (ref "k8s.io/api/core/v1.PodSignature"));
     ("evictionTime", ref "k8s.io/apimachinery/pkg/apis/meta/v1.Time");
     ("reason", scalar "string" "");
     ("message", scalar "string" "")]
    ["podSignature"])
  ["k8s.io/api/core/v1.PodSignature"; "k8s.io/apimachinery/pkg/apis/meta/v1.Time"].

Definition schema_k8sio_api_core_v1_PreferredSchedulingTerm : definition := mkDefinition
  (object
    [("weight", defaulted (JNum "0") (scalar "integer" "int32"));
     ("preference", defaulted (JObj []) (ref "k8s.io/api/core/v1.NodeSelectorTerm"))]
    ["weight"; "preference"])
  ["k8s.io/api/core/v1.NodeSelectorTerm"].

Definition schema_k8sio_api_core_v1_Probe : definition := mkDefinition
  (object
    [("exec", ref "k8s.io/api/core/v1.ExecAction");
     ("httpGet", ref "k8s.io/api/core/v1.HTTPGetAction");
     ("tcpSocket", ref "k8s.io/api/core/v1.TCPSocketAction");
     ("grpc", ref "k8s.io/api/core/v1.GRPCAction");
     ("initialDelaySeconds", scalar "integer" "int32");
     ("timeoutSeconds", scalar "integer" "int32");
     ("periodSeconds", scalar "integer" "int32");
     ("successThreshold", scalar "integer" "int32");
     ("failureThreshold", scalar "integer" "int32");
     ("terminationGracePeriodSeconds", scalar "integer" "int64")]
    [])
  ["k8s.io/api/core/v1.ExecAction"; "k8s.io/api/core/v1.GRPCAction"; "k8s.io/api/core/v1.HTTPGetAction"; "k8s.io/api/core/v1.TCPSocketAction"].

Definition schema_k8sio_api_core_v1_ProbeHandler : definition := mkDefinition
  (object
    [("exec", ref "k8s.io/api/core/v1.ExecAction");
     ("httpGet", ref "k8s.io/api/core/v1.HTTPGetAction");
     ("tcpSocket", ref "k8s.io/api/core/v1.TCPSocketAction");
     ("grpc", ref "k8s.io/api/core/v1.GRPCAction")]
    [])
  ["k8s.io/api/core/v1.ExecAction"; "k8s.io/api/core/v1.GRPCAction"; "k8s.io/api/core/v1.HTTPGetAction"; "k8s.io/api/core/v1.TCPSocketAction"].

Definition schema_k8sio_api_core_v1_ProjectedVolumeSource : definition := mkDefinition
  (object
    [("sources", array "atomic" [] (ref "k8s.io/api/core/v1.VolumeProjection"));
     ("defaultMode", scalar "integer" "int32")]
    [])
  ["k8s.io/api/core/v1.VolumeProjection"].

Definition schema_k8sio_api_core_v1_QuobyteVolumeSource : definition := mkDefinition
  (object
    [("registry", defaulted (JStr "") (scalar "string" ""));
     ("volume", defaulted (JStr "") (scalar "string" ""));
     ("readOnly", scalar "boolean" "");
     ("user", scalar "string" "");
     ("group", scalar "string" "");
     ("tenant", scalar "string" "")]
    ["registry"; "volume"])
  [].

Definition schema_k8sio_api_core_v1_RBDPersistentVolumeSource : definition := mkDefinition
  (object
    [("monitors", array "atomic" [] (scalar "string" ""));
     ("image", defaulted (JStr "") (scalar "string" ""));
     ("fsType", scalar "string" "");
     ("pool", defaulted (JStr "rbd") (scalar "string" ""));
     ("user", defaulted (JStr "admin") (scalar "string" ""));
     ("keyring", defaulted (JStr "/etc/ceph/keyring") (scalar "string" ""));
     ("secretRef", ref "k8s.io/api/core/v1.SecretReference");
     ("readOnly", scalar "boolean" "")]
    ["monitors"; "image"])
  ["k8s.io/api/core/v1.SecretReference"].

Definition schema_k8sio_api_core_v1_RBDVolumeSource : definition := mkDefinition
  (object
    [("monitors", array "atomic" [] (scalar "string" ""));
     ("image", defaulted (JStr "") (scalar "string" ""));
     ("fsType", scalar "string" "");
     ("pool", defaulted (JStr "rbd") (scalar "string" ""));
     ("user", defaulted (JStr "admin") (scalar "string" ""));
     ("keyring", defaulted (JStr "/etc/ceph/keyring") (scalar "string" ""));
     ("secretRef", ref "k8s.io/api/core/v1.LocalObjectReference");
     ("readOnly", scalar "boolean" "")]
    ["monitors"; "image"])
  ["k8s.io/api/core/v1.LocalObjectReference"].

Definition schema_k8sio_api_core_v1_RangeAllocation : definition := mkDefinition
  (object
    [("kind", scalar "string" "");
     ("apiVersion", scalar "string" "");
     ("metadata", defaulted (JObj []) (ref "k8s.io/apimachinery/pkg/apis/meta/v1.ObjectMeta"));
     ("range", defaulted (JStr "") (scalar "string" ""));
     ("data", scalar "string" "byte")]
    ["range"; "data"])
  ["k8s.io/apimachinery/pkg/apis/meta/v1.ObjectMeta"].

Definition schema_k8sio_api_core_v1_ReplicationController : definition := mkDefinition
  (object
    [("kind", scalar "string" "");
     ("apiVersion", scalar "string" "");
     ("metadata", defaulted (JObj []) (ref "k8s.io/apimachinery/pkg/apis/meta/v1.ObjectMeta"));
     ("spec", defaulted (JObj []) (ref "k8s.io/api/core/v1.ReplicationControllerSpec"));
     ("status", defaulted (JObj []) (ref "k8s.io/api/core/v1.ReplicationControllerStatus"))]
    [])
  ["k8s.io/api/core/v1.ReplicationControllerSpec"; "k8s.io/api/core/v1.ReplicationControllerStatus";
   "k8s.io/apimachinery/pkg/apis/meta/v1.ObjectMeta"].

Definition schema_k8sio_api_core_v1_ReplicationControllerCondition : definition := mkDefinition
  (object
    [("type", defaulted (JStr "") (scalar "string" ""));
     ("status", defaulted (JStr "") (scalar "string" ""));
     ("lastTransitionTime", ref "k8s.io/apimachinery/pkg/apis/meta/v1.Time");
     ("reason", scalar "string" "");
     ("message", scalar "string" "")]
    ["type"; "status"])
  ["k8s.io/apimachinery/pkg/apis/meta/v1.Time"].

Definition schema_k8sio_api_core_v1_ReplicationControllerList : definition := mkDefinition
  (object
    [("kind", scalar "string" "");
     ("apiVersion", scalar "string" "");
     ("metadata", defaulted (JObj []) (ref "k8s.io/apimachinery/pkg/apis/meta/v1.ListMeta"));
     ("items", array "" [] (ref "k8s.io/api/core/v1.ReplicationController"))]
    ["items"])
  ["k8s.io/api/core/v1.ReplicationController"; "k8s.io/apimachinery/pkg/apis/meta/v1.ListMeta"].

Definition schema_k8sio_api_core_v1_ReplicationControllerSpec : definition := mkDefinition
  (object
    [("replicas", defaulted (JNum "1") (scalar "integer" "int32"));
     ("minReadySeconds", defaulted (JNum "0") (scalar "integer" "int32"));
     ("selector", extended [("x-kubernetes-map-type", JStr "atomic")] (map_of (scalar "string" "")));
     ("template", ref "k8s.io/api/core/v1.PodTemplateSpec")]
    [])
  ["k8s.io/api/core/v1.PodTemplateSpec"].

Definition schema_k8sio_api_core_v1_ReplicationControllerStatus : definition := mkDefinition
  (object
    [("replicas", defaulted (JNum "0") (scalar "integer" "int32"));
     ("fullyLabeledReplicas", scalar "integer" "int32");
     ("readyReplicas", scalar "integer" "int32");
     ("availableReplicas", scalar "integer" "int32");
     ("observedGeneration", scalar "integer" "int64");
     ("conditions", extended [("x-kubernetes-patch-merge-key", JStr "type"); ("x-kubernetes-patch-strategy", JStr "merge")] (array "map" ["type"] (ref "k8s.io/api/core/v1.ReplicationControllerCondition")))]
    ["replicas"])
  ["k8s.io/api/core/v1.ReplicationControllerCondition"].

Definition schema_k8sio_api_core_v1_ResourceClaim : definition := mkDefinition
  (object
    [("name", defaulted (JStr "") (scalar "string" ""));
     ("request", scalar "string" "")]
    ["name"])
  [].

Definition schema_k8sio_api_core_v1_ResourceFieldSelector : definition := mkDefinition
  (extended [("x-kubernetes-map-type", JStr "atomic")] (object
    [("containerName", scalar "string" "");
     ("resource", defaulted (JStr "") (scalar "string" ""));
     ("divisor", ref "k8s.io/apimachinery/pkg/api/resource.Quantity")]
    ["resource"]))
  ["k8s.io/apimachinery/pkg/api/resource.Quantity"].

Definition schema_k8sio_api_core_v1_ResourceHealth : definition := mkDefinition
  (object
    [("resourceID", defaulted (JStr "") (scalar "string" ""));
     ("health", scalar "string" "")]
    ["resourceID"])
  [].

Definition schema_k8sio_api_core_v1_ResourceQuota : definition := mkDefinition
  (object
    [("kind", scalar "string" "");
     ("apiVersion", scalar "string" "");
     ("metadata", defaulted (JObj []) (ref "k8s.io/apimachinery/pkg/apis/meta/v1.ObjectMeta"));
     ("spec", defaulted (JObj []) (ref "k8s.io/api/core/v1.ResourceQuotaSpec"));
     ("status", defaulted (JObj []) (ref "k8s.io/api/core/v1.ResourceQuotaStatus"))]
    [])
  ["k8s.io/api/core/v1.ResourceQuotaSpec"; "k8s.io/api/core/v1.ResourceQuotaStatus"; "k8s.io/apimachinery/pkg/apis/meta/v1.ObjectMeta"].

Definition schema_k8sio_api_core_v1_ResourceQuotaList : definition := mkDefinition
  (object
    [("kind", scalar "string" "");
     ("apiVersion", scalar "string" "");
     ("metadata", defaulted (JObj []) (ref "k8s.io/apimachinery/pkg/apis/meta/v1.ListMeta"));
     ("items", array "" [] (ref "k8s.io/api/core/v1.ResourceQuota"))]
    ["items"])
  ["k8s.io/api/core/v1.ResourceQuota"; "k8s.io/apimachinery/pkg/apis/meta/v1.ListMeta"].

Definition schema_k8sio_api_core_v1_ResourceQuotaSpec : definition := mkDefinition
  (object
    [("hard", map_of (ref "k8s.io/apimachinery/pkg/api/resource.Quantity"));
     ("scopes", array "atomic" [] (enumerated "string" "" ["BestEffort"; "CrossNamespacePodAffinity"; "NotBestEffort"; "NotTerminating"; "PriorityClass"; "Terminating"; "VolumeAttributesClass"]));
     ("scopeSelector", ref "k8s.io/api/core/v1.ScopeSelector")]
    [])
  ["k8s.io/api/core/v1.ScopeSelector"; "k8s.io/apimachinery/pkg/api/resource.Quantity"].

Definition schema_k8sio_api_core_v1_ResourceQuotaStatus : definition := mkDefinition
  (object
    [("hard", map_of (ref "k8s.io/apimachinery/pkg/api/resource.Quantity"));
     ("used", map_of (ref "k8s.io/apimachinery/pkg/api/resource.Quantity"))]
    [])
  ["k8s.io/apimachinery/pkg/api/resource.Quantity"].

Definition schema_k8sio_api_core_v1_ResourceRequirements : definition := mkDefinition
  (object
    [("limits", map_of (ref "k8s.io/apimachinery/pkg/api/resource.Quantity"));
     ("requests", map_of (ref "k8s.io/apimachinery/pkg/api/resource.Quantity"));
     ("claims", array "map" ["name"] (ref "k8s.io/api/core/v1.ResourceClaim"))]
    [])
  ["k8s.io/api/core/v1.ResourceClaim"; "k8s.io/apimachinery/pkg/api/resource.Quantity"].

Definition schema_k8sio_api_core_v1_ResourceStatus : definition := mkDefinition
  (object
    [("name", defaulted (JStr "") (scalar "string" ""));
     ("resources", array "map" ["resourceID"] (ref "k8s.io/api/core/v1.ResourceHealth"))]
    ["name"])
  ["k8s.io/api/core/v1.ResourceHealth"].

Definition schema_k8sio_api_core_v1_SELinuxOptions : definition := mkDefinition
  (object
    [("user", scalar "string" "");
     ("role", scalar "string" "");
     ("type", scalar "string" "");
     ("level", scalar "string" "")]
    [])
  [].

Definition schema_k8sio_api_core_v1_ScaleIOPersistentVolumeSource : definition := mkDefinition
  (object
    [("gateway", defaulted (JStr "") (scalar "string" ""));
     ("system", defaulted (JStr "") (scalar "string" ""));
     ("secretRef", ref "k8s.io/api/core/v1.SecretReference");
     ("sslEnabled", scalar "boolean" "");
     ("protectionDomain", scalar "string" "");
     ("storagePool", scalar "string" "");
     ("storageMode", defaulted (JStr "ThinProvisioned") (scalar "string" ""));
     ("volumeName", scalar "string" "");
     ("fsType", defaulted (JStr "xfs") (scalar "string" ""));
     ("readOnly", scalar "boolean" "")]
    ["gateway"; "system"; "secretRef"])
  ["k8s.io/api/core/v1.SecretReference"].

Definition schema_k8sio_api_core_v1_ScaleIOVolumeSource : definition := mkDefinition
  (object
    [("gateway", defaulted (JStr "") (scalar "string" ""));
     ("system", defaulted (JStr "") (scalar "string" ""));
     ("secretRef", ref "k8s.io/api/core/v1.LocalObjectReference");
     ("sslEnabled", scalar "boolean" "");
     ("protectionDomain", scalar "string" "");
     ("storagePool", scalar "string" "");
     ("storageMode", defaulted (JStr "ThinProvisioned") (scalar "string" ""));
     ("volumeName", scalar "string" "");
     ("fsType", defaulted (JStr "xfs") (scalar "string" ""));
     ("readOnly", scalar "boolean" "")]
    ["gateway"; "system"; "secretRef"])
  ["k8s.io/api/core/v1.LocalObjectReference"].

Definition schema_k8sio_api_core_v1_ScopeSelector : definition := mkDefinition
  (extended [("x-kubernetes-map-type", JStr "atomic")] (object
    [("matchExpressions", array "atomic" [] (ref "k8s.io/api/core/v1.ScopedResourceSelectorRequirement"))]
    []))
  ["k8s.io/api/core/v1.ScopedResourceSelectorRequirement"].

Definition schema_k8sio_api_core_v1_ScopedResourceSelectorRequirement : definition := mkDefinition
  (object
    [("scopeName", defaulted (JStr "") (enumerated "string" "" ["BestEffort"; "CrossNamespacePodAffinity"; "NotBestEffort"; "NotTerminating"; "PriorityClass"; "Terminating"; "VolumeAttributesClass"]));
     ("operator", defaulted (JStr "") (enumerated "string" "" ["DoesNotExist"; "Exists"; "In"; "NotIn"]));
     ("values", array "atomic" [] (scalar "string" ""))]
    ["scopeName"; "operator"])
  [].

Definition schema_k8sio_api_core_v1_SeccompProfile : definition := mkDefinition
  (extended [("x-kubernetes-unions", JArr [JObj [("discriminator", JStr "type"); ("fields-to-discriminateBy", JObj [("localhostProfile", JStr "LocalhostProfile")])]])] (object
    [("type", defaulted (JStr "") (enumerated "string" "" ["Localhost"; "RuntimeDefault"; "Unconfined"]));
     ("localhostProfile", scalar "string" "")]
    ["type"]))
  [].

Definition schema_k8sio_api_core_v1_Secret : definition := mkDefinition
  (object
    [("kind", scalar "string" "");
     ("apiVersion", scalar "string" "");
     ("metadata", defaulted (JObj []) (ref "k8s.io/apimachinery/pkg/apis/meta/v1.ObjectMeta"));
     ("immutable", scalar "boolean" "");
     ("data", map_of (scalar "string" "byte"));
     ("stringData", map_of (scalar "string" ""));
     ("type", scalar "string" "")]
    [])
  ["k8s.io/apimachinery/pkg/apis/meta/v1.ObjectMeta"].

Definition schema_k8sio_api_core_v1_SecretEnvSource : definition := mkDefinition
  (object
    [("name", defaulted (JStr "") (scalar "string" ""));
     ("optional", scalar "boolean" "")]
    [])
  [].

Definition schema_k8sio_api_core_v1_SecretKeySelector : definition := mkDefinition
  (extended [("x-kubernetes-map-type", JStr "atomic")] (object
    [("name", defaulted (JStr "") (scalar "string" ""));
     ("key", defaulted (JStr "") (scalar "string" ""));
     ("optional", scalar "boolean" "")]
    ["key"]))
  [].

Definition schema_k8sio_api_core_v1_SecretList : definition := mkDefinition
  (object
    [("kind", scalar "string" "");
     ("apiVersion", scalar "string" "");
     ("metadata", defaulted (JObj []) (ref "k8s.io/apimachinery/pkg/apis/meta/v1.ListMeta"));
     ("items", array "" [] (ref "k8s.io/api/core/v1.Secret"))]
    ["items"])
  ["k8s.io/api/core/v1.Secret"; "k8s.io/apimachinery/pkg/apis/meta/v1.ListMeta"].

Definition schema_k8sio_api_core_v1_SecretProjection : definition := mkDefinition
  (object
    [("name", defaulted (JStr "") (scalar "string" ""));
     ("items", array "atomic" [] (ref "k8s.io/api/core/v1.KeyToPath"));
     ("optional", scalar "boolean" "")]
    [])
  ["k8s.io/api/core/v1.KeyToPath"].

Definition schema_k8sio_api_core_v1_SecretReference : definition := mkDefinition
  (extended [("x-kubernetes-map-type", JStr "atomic")] (object
    [("name", scalar "string" "");
     ("namespace", scalar "string" "")]
    []))
  [].

Definition schema_k8sio_api_core_v1_SecretVolumeSource : definition := mkDefinition
  (object
    [("secretName", scalar "string" "");
     ("items", array "atomic" [] (ref "k8s.io/api/core/v1.KeyToPath"));
     ("defaultMode", scalar "integer" "int32");
     ("optional", scalar "boolean" "")]
    [])
  ["k8s.io/api/core/v1.KeyToPath"].

Definition schema_k8sio_api_core_v1_SecurityContext : definition := mkDefinition
  (object
    [("capabilities", ref "k8s.io/api/core/v1.Capabilities");
     ("privileged", scalar "boolean" "");
     ("seLinuxOptions", ref "k8s.io/api/core/v1.SELinuxOptions");
     ("windowsOptions", ref "k8s.io/api/core/v1.WindowsSecurityContextOptions");
     ("runAsUser", scalar "integer" "int64");
     ("runAsGroup", scalar "integer" "int64");
     ("runAsNonRoot", scalar "boolean" "");
     ("readOnlyRootFilesystem", scalar "boolean" "");
     ("allowPrivilegeEscalation", scalar "boolean" "");
     ("procMount", enumerated "string" "" ["Default"; "Unmasked"]);
     ("seccompProfile", ref "k8s.io/api/core/v1.SeccompProfile");
     ("appArmorProfile", ref "k8s.io/api/core/v1.AppArmorProfile")]
    [])
  ["k8s.io/api/core/v1.AppArmorProfile"; "k8s.io/api/core/v1.Capabilities"; "k8s.io/api/core/v1.SELinuxOptions"; "k8s.io/api/core/v1.SeccompProfile";
   "k8s.io/api/core/v1.WindowsSecurityContextOptions"].

Definition schema_k8sio_api_core_v1_SerializedReference : definition := mkDefinition
  (object
    [("kind", scalar "string" "");
     ("apiVersion", scalar "string" "");
     ("reference", defaulted (JObj []) (ref "k8s.io/api/core/v1.ObjectReference"))]
    [])
  ["k8s.io/api/core/v1.ObjectReference"].

Definition schema_k8sio_api_core_v1_Service : definition := mkDefinition
  (object
    [("kind", scalar "string" "");
     ("apiVersion", scalar "string" "");
     ("metadata", defaulted (JObj []) (ref "k8s.io/apimachinery/pkg/apis/meta/v1.ObjectMeta"));
     ("spec", defaulted (JObj []) (ref "k8s.io/api/core/v1.ServiceSpec"));
     ("status", defaulted (JObj []) (ref "k8s.io/api/core/v1.ServiceStatus"))]
    [])
  ["k8s.io/api/core/v1.ServiceSpec"; "k8s.io/api/core/v1.ServiceStatus"; "k8s.io/apimachinery/pkg/apis/meta/v1.ObjectMeta"].

Definition schema_k8sio_api_core_v1_ServiceAccount : definition := mkDefinition
  (object
    [("kind", scalar "string" "");
     ("apiVersion", scalar "string" "");
     ("metadata", defaulted (JObj []) (ref "k8s.io/apimachinery/pkg/apis/meta/v1.ObjectMeta"));
     ("secrets", extended [("x-kubernetes-patch-merge-key", JStr "name"); ("x-kubernetes-patch-strategy", JStr "merge")] (array "map" ["name"] (ref "k8s.io/api/core/v1.ObjectReference")));
     ("imagePullSecrets", array "atomic" [] (ref "k8s.io/api/core/v1.LocalObjectReference"));
     ("automountServiceAccountToken", scalar "boolean" "")]
    [])
  ["k8s.io/api/core/v1.LocalObjectReference"; "k8s.io/api/core/v1.ObjectReference"; "k8s.io/apimachinery/pkg/apis/meta/v1.ObjectMeta"].

Definition schema_k8sio_api_core_v1_ServiceAccountList : definition := mkDefinition
  (object
    [("kind", scalar "string" "");
     ("apiVersion", scalar "string" "");
     ("metadata", defaulted (JObj []) (ref "k8s.io/apimachinery/pkg/apis/meta/v1.ListMeta"));
     ("items", array "" [] (ref "k8s.io/api/core/v1.ServiceAccount"))]
    ["items"])
  ["k8s.io/api/core/v1.ServiceAccount"; "k8s.io/apimachinery/pkg/apis/meta/v1.ListMeta"].

Definition schema_k8sio_api_core_v1_ServiceAccountTokenProjection : definition := mkDefinition
  (object
    [("audience", scalar "string" "");
     ("expirationSeconds", scalar "integer" "int64");
     ("path", defaulted (JStr "") (scalar "string" ""))]
    ["path"])
  [].

Definition schema_k8sio_api_core_v1_ServiceList : definition := mkDefinition
  (object
    [("kind", scalar "string" "");
     ("apiVersion", scalar "string" "");
     ("metadata", defaulted (JObj []) (ref "k8s.io/apimachinery/pkg/apis/meta/v1.ListMeta"));
     ("items", array "" [] (ref "k8s.io/api/core/v1.Service"))]
    ["items"])
  ["k8s.io/api/core/v1.Service"; "k8s.io/apimachinery/pkg/apis/meta/v1.ListMeta"].

Definition schema_k8sio_api_core_v1_ServicePort : definition := mkDefinition
  (object
    [("name", scalar "string" "");
     ("protocol", defaulted (JStr "TCP") (enumerated "string" "" ["SCTP"; "TCP"; "UDP"]));
     ("appProtocol", scalar "string" "");
     ("port", defaulted (JNum "0") (scalar "integer" "int32"));
     ("targetPort", ref "k8s.io/apimachinery/pkg/util/intstr.IntOrString");
     ("nodePort", scalar "integer" "int32")]
    ["port"])
  ["k8s.io/apimachinery/pkg/util/intstr.IntOrString"].

Definition schema_k8sio_api_core_v1_ServiceProxyOptions : definition := mkDefinition
  (object
    [("kind", scalar "string" "");
     ("apiVersion", scalar "string" "");
     ("path", scalar "string" "")]
    [])
  [].

Definition schema_k8sio_api_core_v1_ServiceSpec : definition := mkDefinition
  (object
    [("ports", extended [("x-kubernetes-patch-merge-key", JStr "port"); ("x-kubernetes-patch-strategy", JStr "merge")] (array "map" ["port"; "protocol"] (ref "k8s.io/api/core/v1.ServicePort")));
     ("selector", extended [("x-kubernetes-map-type", JStr "atomic")] (map_of (scalar "string" "")));
     ("clusterIP", scalar "string" "");
     ("clusterIPs", array "atomic" [] (scalar "string" ""));
     ("type", enumerated "string" "" ["ClusterIP"; "ExternalName"; "LoadBalancer"; "NodePort"]);
     ("externalIPs", array "atomic" [] (scalar "string" ""));
     ("sessionAffinity", enumerated "string" "" ["ClientIP"; "None"]);
     ("loadBalancerIP", scalar "string" "");
     ("loadBalancerSourceRanges", array "atomic" [] (scalar "string" ""));
     ("externalName", scalar "string" "");
     ("externalTrafficPolicy", enumerated "string" "" ["Cluster"; "Local"]);
     ("healthCheckNodePort", scalar "integer" "int32");
     ("publishNotReadyAddresses", scalar "boolean" "");
     ("sessionAffinityConfig", ref "k8s.io/api/core/v1.SessionAffinityConfig");
     ("ipFamilies", array "atomic" [] (enumerated "string" "" [""; "IPv4"; "IPv6"]));
     ("ipFamilyPolicy", enumerated "string" "" ["PreferDualStack"; "RequireDualStack"; "SingleStack"]);
     ("allocateLoadBalancerNodePorts", scalar "boolean" "");
     ("loadBalancerClass", scalar "string" "");
     ("internalTrafficPolicy", enumerated "string" "" ["Cluster"; "Local"]);
     ("trafficDistribution", scalar "string" "")]
    [])
  ["k8s.io/api/core/v1.ServicePort"; "k8s.io/api/core/v1.SessionAffinityConfig"].

Definition schema_k8sio_api_core_v1_ServiceStatus : definition := mkDefinition
  (object
    [("loadBalancer", defaulted (JObj []) (ref "k8s.io/api/core/v1.LoadBalancerStatus"));
     ("conditions", extended [("x-kubernetes-patch-merge-key", JStr "type"); ("x-kubernetes-patch-strategy", JStr "merge")] (array "map" ["type"] (ref "k8s.io/apimachinery/pkg/apis/meta/v1.Condition")))]
    [])
  ["k8s.io/api/core/v1.LoadBalancerStatus"; "k8s.io/apimachinery/pkg/apis/meta/v1.Condition"].

Definition schema_k8sio_api_core_v1_SessionAffinityConfig : definition := mkDefinition
  (object
    [("clientIP", ref "k8s.io/api/core/v1.ClientIPConfig")]
    [])
  ["k8s.io/api/core/v1.ClientIPConfig"].

Definition schema_k8sio_api_core_v1_SleepAction : definition := mkDefinition
  (object
    [("seconds", defaulted (JNum "0") (scalar "integer" "int64"))]
    ["seconds"])
  [].

Definition schema_k8sio_api_core_v1_StorageOSPersistentVolumeSource : definition := mkDefinition
  (object
    [("volumeName", scalar "string" "");
     ("volumeNamespace", scalar "string" "");
     ("fsType", scalar "string" "");
     ("readOnly", scalar "boolean" "");
     ("secretRef", ref "k8s.io/api/core/v1.ObjectReference")]
    [])
  ["k8s.io/api/core/v1.ObjectReference"].

Definition schema_k8sio_api_core_v1_StorageOSVolumeSource : definition := mkDefinition
  (object
    [("volumeName", scalar "string" "");
     ("volumeNamespace", scalar "string" "");
     ("fsType", scalar "string" "");
     ("readOnly", scalar "boolean" "");
     ("secretRef", ref "k8s.io/api/core/v1.LocalObjectReference")]
    [])
  ["k8s.io/api/core/v1.LocalObjectReference"].

Definition schema_k8sio_api_core_v1_Sysctl : definition := mkDefinition
  (object
    [("name", defaulted (JStr "") (scalar "string" ""));
     ("value", defaulted (JStr "") (scalar "string" ""))]
    ["name"; "value"])
  [].

Definition schema_k8sio_api_core_v1_TCPSocketAction : definition := mkDefinition
  (object
    [("port", ref "k8s.io/apimachinery/pkg/util/intstr.IntOrString");
     ("host", scalar "string" "")]
    ["port"])
  ["k8s.io/apimachinery/pkg/util/intstr.IntOrString"].

Definition schema_k8sio_api_core_v1_Taint : definition := mkDefinition
  (object
    [("key", defaulted (JStr "") (scalar "string" ""));
     ("value", scalar "string" "");
     ("effect", defaulted (JStr "") (enumerated "string" "" ["NoExecute"; "NoSchedule"; "PreferNoSchedule"]));
     ("timeAdded", ref "k8s.io/apimachinery/pkg/apis/meta/v1.Time")]
    ["key"; "effect"])
  ["k8s.io/apimachinery/pkg/apis/meta/v1.Time"].

Definition schema_k8sio_api_core_v1_Toleration : definition := mkDefinition
  (object
    [("key", scalar "string" "");
     ("operator", enumerated "string" "" ["Equal"; "Exists"]);
     ("value", scalar "string" "");
     ("effect", enumerated "string" "" ["NoExecute"; "NoSchedule"; "PreferNoSchedule"]);
     ("tolerationSeconds", scalar "integer" "int64")]
    [])
  [].

Definition schema_k8sio_api_core_v1_TopologySelectorLabelRequirement : definition := mkDefinition
  (object
    [("key", defaulted (JStr "") (scalar "string" ""));
     ("values", array "atomic" [] (scalar "string" ""))]
    ["key"; "values"])
  [].

Definition schema_k8sio_api_core_v1_TopologySelectorTerm : definition := mkDefinition
  (extended [("x-kubernetes-map-type", JStr "atomic")] (object
    [("matchLabelExpressions", array "atomic" [] (ref "k8s.io/api/core/v1.TopologySelectorLabelRequirement"))]
    []))
  ["k8s.io/api/core/v1.TopologySelectorLabelRequirement"].

Definition schema_k8sio_api_core_v1_TopologySpreadConstraint : definition := mkDefinition
  (object
    [("maxSkew", defaulted (JNum "0") (scalar "integer" "int32"));
     ("topologyKey", defaulted (JStr "") (scalar "string" ""));
     ("whenUnsatisfiable", defaulted (JStr "") (enumerated "string" "" ["DoNotSchedule"; "ScheduleAnyway"]));
     ("labelSelector", ref "k8s.io/apimachinery/pkg/apis/meta/v1.LabelSelector");
     ("minDomains", scalar "integer" "int32");
     ("nodeAffinityPolicy", enumerated "string" "" ["Honor"; "Ignore"]);
     ("nodeTaintsPolicy", enumerated "string" "" ["Honor"; "Ignore"]);
     ("matchLabelKeys", array "atomic" [] (scalar "string" ""))]
    ["maxSkew"; "topologyKey"; "whenUnsatisfiable"])
  ["k8s.io/apimachinery/pkg/apis/meta/v1.LabelSelector"].

Definition schema_k8sio_api_core_v1_TypedLocalObjectReference : definition := mkDefinition
  (extended [("x-kubernetes-map-type", JStr "atomic")] (object
    [("apiGroup", scalar "string" "");
     ("kind", defaulted (JStr "") (scalar "string" ""));
     ("name", defaulted (JStr "") (scalar "string" ""))]
    ["kind"; "name"]))
  [].

Definition schema_k8sio_api_core_v1_TypedObjectReference : definition := mkDefinition
  (object
    [("apiGroup", scalar "string" "");
     ("kind", defaulted (JStr "") (scalar "string" ""));
     ("name", defaulted (JStr "") (scalar "string" ""));
     ("namespace", scalar "string" "")]
    ["kind"; "name"])
  [].

Definition schema_k8sio_api_core_v1_Volume : definition := mkDefinition
  (object
    [("name", defaulted (JStr "") (scalar "string" ""));
     ("hostPath", ref "k8s.io/api/core/v1.HostPathVolumeSource");
     ("emptyDir", ref "k8s.io/api/core/v1.EmptyDirVolumeSource");
     ("gcePersistentDisk", ref "k8s.io/api/core/v1.GCEPersistentDiskVolumeSource");
     ("awsElasticBlockStore", ref "k8s.io/api/core/v1.AWSElasticBlockStoreVolumeSource");
     ("gitRepo", ref "k8s.io/api/core/v1.GitRepoVolumeSource");
     ("secret", ref "k8s.io/api/core/v1.SecretVolumeSource");
     ("nfs", ref "k8s.io/api/core/v1.NFSVolumeSource");
     ("iscsi", ref "k8s.io/api/core/v1.ISCSIVolumeSource");
     ("glusterfs", ref "k8s.io/api/core/v1.GlusterfsVolumeSource");
     ("persistentVolumeClaim", ref "k8s.io/api/core/v1.PersistentVolumeClaimVolumeSource");
     ("rbd", ref "k8s.io/api/core/v1.RBDVolumeSource");
     ("flexVolume", ref "k8s.io/api/core/v1.FlexVolumeSource");
     ("cinder", ref "k8s.io/api/core/v1.CinderVolumeSource");
     ("cephfs", ref "k8s.io/api/core/v1.CephFSVolumeSource");
     ("flocker", ref "k8s.io/api/core/v1.FlockerVolumeSource");
     ("downwardAPI", ref "k8s.io/api/core/v1.DownwardAPIVolumeSource");
     ("fc", ref "k8s.io/api/core/v1.FCVolumeSource");
     ("azureFile", ref "k8s.io/api/core/v1.AzureFileVolumeSource");
     ("configMap", ref "k8s.io/api/core/v1.ConfigMapVolumeSource");
     ("vsphereVolume", ref "k8s.io/api/core/v1.VsphereVirtualDiskVolumeSource");
     ("quobyte", ref "k8s.io/api/core/v1.QuobyteVolumeSource");
     ("azureDisk", ref "k8s.io/api/core/v1.AzureDiskVolumeSource");
     ("photonPersistentDisk", ref "k8s.io/api/core/v1.PhotonPersistentDiskVolumeSource");
     ("projected", ref "k8s.io/api/core/v1.ProjectedVolumeSource");
     ("portworxVolume", ref "k8s.io/api/core/v1.PortworxVolumeSource");
     ("scaleIO", ref "k8s.io/api/core/v1.ScaleIOVolumeSource");
     ("storageos", ref "k8s.io/api/core/v1.StorageOSVolumeSource");
     ("csi", ref "k8s.io/api/core/v1.CSIVolumeSource");
     ("ephemeral", ref "k8s.io/api/core/v1.EphemeralVolumeSource");
     ("image", ref "k8s.io/api/core/v1.ImageVolumeSource")]
    ["name"])
  ["k8s.io/api/core/v1.AWSElasticBlockStoreVolumeSource"; "k8s.io/api/core/v1.AzureDiskVolumeSource"; "k8s.io/api/core/v1.AzureFileVolumeSource";
   "k8s.io/api/core/v1.CSIVolumeSource"; "k8s.io/api/core/v1.CephFSVolumeSource"; "k8s.io/api/core/v1.CinderVolumeSource";
   "k8s.io/api/core/v1.ConfigMapVolumeSource"; "k8s.io/api/core/v1.DownwardAPIVolumeSource"; "k8s.io/api/core/v1.EmptyDirVolumeSource";
   "k8s.io/api/core/v1.EphemeralVolumeSource"; "k8s.io/api/core/v1.FCVolumeSource"; "k8s.io/api/core/v1.FlexVolumeSource";
   "k8s.io/api/core/v1.FlockerVolumeSource"; "k8s.io/api/core/v1.GCEPersistentDiskVolumeSource"; "k8s.io/api/core/v1.GitRepoVolumeSource";
   "k8s.io/api/core/v1.GlusterfsVolumeSource"; "k8s.io/api/core/v1.HostPathVolumeSource"; "k8s.io/api/core/v1.ISCSIVolumeSource";
   "k8s.io/api/core/v1.ImageVolumeSource"; "k8s.io/api/core/v1.NFSVolumeSource"; "k8s.io/api/core/v1.PersistentVolumeClaimVolumeSource";
   "k8s.io/api/core/v1.PhotonPersistentDiskVolumeSource"; "k8s.io/api/core/v1.PortworxVolumeSource"; "k8s.io/api/core/v1.ProjectedVolumeSource";
   "k8s.io/api/core/v1.QuobyteVolumeSource"; "k8s.io/api/core/v1.RBDVolumeSource"; "k8s.io/api/core/v1.ScaleIOVolumeSource";
   "k8s.io/api/core/v1.SecretVolumeSource"; "k8s.io/api/core/v1.StorageOSVolumeSource"; "k8s.io/api/core/v1.VsphereVirtualDiskVolumeSource"].

Definition schema_k8sio_api_core_v1_VolumeDevice : definition := mkDefinition
  (object
    [("name", defaulted (JStr "") (scalar "string" ""));
     ("devicePath", defaulted (JStr "") (scalar "string" ""))]
    ["name"; "devicePath"])
  [].

Definition schema_k8sio_api_core_v1_VolumeMount : definition := mkDefinition
  (object
    [("name", defaulted (JStr "") (scalar "string" ""));
     ("readOnly", scalar "boolean" "");
     ("recursiveReadOnly", scalar "string" "");
     ("mountPath", defaulted (JStr "") (scalar "string" ""));
     ("subPath", scalar "string" "");
     ("mountPropagation", enumerated "string" "" ["Bidirectional"; "HostToContainer"; "None"]);
     ("subPathExpr", scalar "string" "")]
    ["name"; "mountPath"])
  [].

Definition schema_k8sio_api_core_v1_VolumeMountStatus : definition := mkDefinition
  (object
    [("name", defaulted (JStr "") (scalar "string" ""));
     ("mountPath", defaulted (JStr "") (scalar "string" ""));
     ("readOnly", scalar "boolean" "");
     ("recursiveReadOnly", scalar "string" "")]
    ["name"; "mountPath"])
  [].

Definition schema_k8sio_api_core_v1_VolumeNodeAffinity : definition := mkDefinition
  (object
    [("required", ref "k8s.io/api/core/v1.NodeSelector")]
    [])
  ["k8s.io/api/core/v1.NodeSelector"].

Definition schema_k8sio_api_core_v1_VolumeProjection : definition := mkDefinition
  (object
    [("secret", ref "k8s.io/api/core/v1.SecretProjection");
     ("downwardAPI", ref "k8s.io/api/core/v1.DownwardAPIProjection");
     ("configMap", ref "k8s.io/api/core/v1.ConfigMapProjection");
     ("serviceAccountToken", ref "k8s.io/api/core/v1.ServiceAccountTokenProjection");
     ("clusterTrustBundle", ref "k8s.io/api/core/v1.ClusterTrustBundleProjection");
     ("podCertificate", ref "k8s.io/api/core/v1.PodCertificateProjection")]
    [])
  ["k8s.io/api/core/v1.ClusterTrustBundleProjection"; "k8s.io/api/core/v1.ConfigMapProjection"; "k8s.io/api/core/v1.DownwardAPIProjection";
   "k8s.io/api/core/v1.PodCertificateProjection"; "k8s.io/api/core/v1.SecretProjection"; "k8s.io/api/core/v1.ServiceAccountTokenProjection"].

Definition schema_k8sio_api_core_v1_VolumeResourceRequirements : definition := mkDefinition
  (object
    [("limits", map_of (ref "k8s.io/apimachinery/pkg/api/resource.Quantity"));
     ("requests", map_of (ref "k8s.io/apimachinery/pkg/api/resource.Quantity"))]
    [])
  ["k8s.io/apimachinery/pkg/api/resource.Quantity"].

Definition schema_k8sio_api_core_v1_VolumeSource : definition := mkDefinition
  (object
    [("hostPath", ref "k8s.io/api/core/v1.HostPathVolumeSource");
     ("emptyDir", ref "k8s.io/api/core/v1.EmptyDirVolumeSource");
     ("gcePersistentDisk", ref "k8s.io/api/core/v1.GCEPersistentDiskVolumeSource");
     ("awsElasticBlockStore", ref "k8s.io/api/core/v1.AWSElasticBlockStoreVolumeSource");
     ("gitRepo", ref "k8s.io/api/core/v1.GitRepoVolumeSource");
     ("secret", ref "k8s.io/api/core/v1.SecretVolumeSource");
     ("nfs", ref "k8s.io/api/core/v1.NFSVolumeSource");
     ("iscsi", ref "k8s.io/api/core/v1.ISCSIVolumeSource");
     ("glusterfs", ref "k8s.io/api/core/v1.GlusterfsVolumeSource");
     ("persistentVolumeClaim", ref "k8s.io/api/core/v1.PersistentVolumeClaimVolumeSource");
     ("rbd", ref "k8s.io/api/core/v1.RBDVolumeSource");
     ("flexVolume", ref "k8s.io/api/core/v1.FlexVolumeSource");
     ("cinder", ref "k8s.io/api/core/v1.CinderVolumeSource");
     ("cephfs", ref "k8s.io/api/core/v1.CephFSVolumeSource");
     ("flocker", ref "k8s.io/api/core/v1.FlockerVolumeSource");
     ("downwardAPI", ref "k8s.io/api/core/v1.DownwardAPIVolumeSource");
     ("fc", ref "k8s.io/api/core/v1.FCVolumeSource");
     ("azureFile", ref "k8s.io/api/core/v1.AzureFileVolumeSource");
     ("configMap", ref "k8s.io/api/core/v1.ConfigMapVolumeSource");
     ("vsphereVolume", ref "k8s.io/api/core/v1.VsphereVirtualDiskVolumeSource");
     ("quobyte", ref "k8s.io/api/core/v1.QuobyteVolumeSource");
     ("azureDisk", ref "k8s.io/api/core/v1.AzureDiskVolumeSource");
     ("photonPersistentDisk", ref "k8s.io/api/core/v1.PhotonPersistentDiskVolumeSource");
     ("projected", ref "k8s.io/api/core/v1.ProjectedVolumeSource");
     ("portworxVolume", ref "k8s.io/api/core/v1.PortworxVolumeSource");
     ("scaleIO", ref "k8s.io/api/core/v1.ScaleIOVolumeSource");
     ("storageos", ref "k8s.io/api/core/v1.StorageOSVolumeSource");
     ("csi", ref "k8s.io/api/core/v1.CSIVolumeSource");
     ("ephemeral", ref "k8s.io/api/core/v1.EphemeralVolumeSource");
     ("image", ref "k8s.io/api/core/v1.ImageVolumeSource")]
    [])
  ["k8s.io/api/core/v1.AWSElasticBlockStoreVolumeSource"; "k8s.io/api/core/v1.AzureDiskVolumeSource"; "k8s.io/api/core/v1.AzureFileVolumeSource";
   "k8s.io/api/core/v1.CSIVolumeSource"; "k8s.io/api/core/v1.CephFSVolumeSource"; "k8s.io/api/core/v1.CinderVolumeSource";
   "k8s.io/api/core/v1.ConfigMapVolumeSource"; "k8s.io/api/core/v1.DownwardAPIVolumeSource"; "k8s.io/api/core/v1.EmptyDirVolumeSource";
   "k8s.io/api/core/v1.EphemeralVolumeSource"; "k8s.io/api/core/v1.FCVolumeSource"; "k8s.io/api/core/v1.FlexVolumeSource";
   "k8s.io/api/core/v1.FlockerVolumeSource"; "k8s.io/api/core/v1.GCEPersistentDiskVolumeSource"; "k8s.io/api/core/v1.GitRepoVolumeSource";
   "k8s.io/api/core/v1.GlusterfsVolumeSource"; "k8s.io/api/core/v1.HostPathVolumeSource"; "k8s.io/api/core/v1.ISCSIVolumeSource";
   "k8s.io/api/core/v1.ImageVolumeSource"; "k8s.io/api/core/v1.NFSVolumeSource"; "k8s.io/api/core/v1.PersistentVolumeClaimVolumeSource";
   "k8s.io/api/core/v1.PhotonPersistentDiskVolumeSource"; "k8s.io/api/core/v1.PortworxVolumeSource"; "k8s.io/api/core/v1.ProjectedVolumeSource";
   "k8s.io/api/core/v1.QuobyteVolumeSource"; "k8s.io/api/core/v1.RBDVolumeSource"; "k8s.io/api/core/v1.ScaleIOVolumeSource";
   "k8s.io/api/core/v1.SecretVolumeSource"; "k8s.io/api/core/v1.StorageOSVolumeSource"; "k8s.io/api/core/v1.VsphereVirtualDiskVolumeSource"].

Definition schema_k8sio_api_core_v1_VsphereVirtualDiskVolumeSource : definition := mkDefinition
  (object
    [("volumePath", defaulted (JStr "") (scalar "string" ""));
     ("fsType", scalar "string" "");
     ("storagePolicyName", scalar "string" "");
     ("storagePolicyID", scalar "string" "")]
    ["volumePath"])
  [].

Definition schema_k8sio_api_core_v1_WeightedPodAffinityTerm : definition := mkDefinition
  (object
    [("weight", defaulted (JNum "0") (scalar "integer" "int32"));
     ("podAffinityTerm", defaulted (JObj []) (ref "k8s.io/api/core/v1.PodAffinityTerm"))]
    ["weight"; "podAffinityTerm"])
  ["k8s.io/api/core/v1.PodAffinityTerm"].

Definition schema_k8sio_api_core_v1_WindowsSecurityContextOptions : definition := mkDefinition
  (object
    [("gmsaCredentialSpecName", scalar "string" "");
     ("gmsaCredentialSpec", scalar "string" "");
     ("runAsUserName", scalar "string" "");
     ("hostProcess", scalar "boolean" "")]
    [])
  [].
