(* ===== verification/OpenApiMeta.v ===== *)
(** * Published OpenAPI schemas: k8s.io/apimachinery

    The definitions of api/openapi_generated.go for the machinery of Kubernetes: metadata, quantities, versions, as far
    as they are not in OpenApi: one definition per function of the file, with
    its schema and its dependencies; descriptions are left out. *)

From stdpp Require Import prelude strings.
From S2P Require Import Json OpenApi.

Local Open Scope string_scope.

Definition schema_apimachinery_pkg_api_resource_Quantity : definition := mkDefinition
  (one_of ["string"; "number"] "")
  [].

Definition schema_apimachinery_pkg_api_resource_int64Amount : definition := mkDefinition
  (object
    [("value", defaulted (JNum "0") (scalar "integer" "int64"));
     ("scale", defaulted (JNum "0") (scalar "integer" "int32"))]
    ["value"; "scale"])
  [].

Definition schema_pkg_apis_meta_v1_APIGroup : definition := mkDefinition
  (object
    [("kind", scalar "string" "");
     ("apiVersion", scalar "string" "");
     ("name", defaulted (JStr "") (scalar "string" ""));
     ("versions", array "atomic" [] (ref "k8s.io/apimachinery/pkg/apis/meta/v1.GroupVersionForDiscovery"));
     ("preferredVersion", defaulted (JObj []) (ref "k8s.io/apimachinery/pkg/apis/meta/v1.GroupVersionForDiscovery"));
     ("serverAddressByClientCIDRs", array "atomic" [] (ref "k8s.io/apimachinery/pkg/apis/meta/v1.ServerAddressByClientCIDR"))]
    ["name"; "versions"])
  ["k8s.io/apimachinery/pkg/apis/meta/v1.GroupVersionForDiscovery"; "k8s.io/apimachinery/pkg/apis/meta/v1.ServerAddressByClientCIDR"].

Definition schema_pkg_apis_meta_v1_APIGroupList : definition := mkDefinition
  (object
    [("kind", scalar "string" "");
     ("apiVersion", scalar "string" "");
     ("groups", array "atomic" [] (ref "k8s.io/apimachinery/pkg/apis/meta/v1.APIGroup"))]
    ["groups"])
  ["k8s.io/apimachinery/pkg/apis/meta/v1.APIGroup"].

Definition schema_pkg_apis_meta_v1_APIResource : definition := mkDefinition
  (object
    [("name", defaulted (JStr "") (scalar "string" ""));
     ("singularName", defaulted (JStr "") (scalar "string" ""));
     ("namespaced", defaulted (JBool false) (scalar "boolean" ""));
     ("group", scalar "string" "");
     ("version", scalar "string" "");
     ("kind", defaulted (JStr "") (scalar "string" ""));
     ("verbs", array "" [] (scalar "string" ""));
     ("shortNames", array "atomic" [] (scalar "string" ""));
     ("categories", array "atomic" [] (scalar "string" ""));
     ("storageVersionHash", scalar "string" "")]
    ["name"; "singularName"; "namespaced"; "kind"; "verbs"])
  [].

Definition schema_pkg_apis_meta_v1_APIResourceList : definition := mkDefinition
  (object
    [("kind", scalar "string" "");
     ("apiVersion", scalar "string" "");
     ("groupVersion", defaulted (JStr "") (scalar "string" ""));
     ("resources", array "atomic" [] (ref "k8s.io/apimachinery/pkg/apis/meta/v1.APIResource"))]
    ["groupVersion"; "resources"])
  ["k8s.io/apimachinery/pkg/apis/meta/v1.APIResource"].

Definition schema_pkg_apis_meta_v1_APIVersions : definition := mkDefinition
  (object
    [("kind", scalar "string" "");
     ("apiVersion", scalar "string" "");
     ("versions", array "atomic" [] (scalar "string" ""));
     ("serverAddressByClientCIDRs", array "atomic" [] (ref "k8s.io/apimachinery/pkg/apis/meta/v1.ServerAddressByClientCIDR"))]
    ["versions"; "serverAddressByClientCIDRs"])
  ["k8s.io/apimachinery/pkg/apis/meta/v1.ServerAddressByClientCIDR"].

Definition schema_pkg_apis_meta_v1_ApplyOptions : definition := mkDefinition
  (object
    [("kind", scalar "string" "");
     ("apiVersion", scalar "string" "");
     ("dryRun", array "atomic" [] (scalar "string" ""));
     ("force", defaulted (JBool false) (scalar "boolean" ""));
     ("fieldManager", defaulted (JStr "") (scalar "string" ""))]
    ["force"; "fieldManager"])
  [].

Definition schema_pkg_apis_meta_v1_CreateOptions : definition := mkDefinition
  (object
    [("kind", scalar "string" "");
     ("apiVersion", scalar "string" "");
     ("dryRun", array "atomic" [] (scalar "string" ""));
     ("fieldManager", scalar "string" "");
     ("fieldValidation", scalar "string" "")]
    [])
  [].

Definition schema_pkg_apis_meta_v1_DeleteOptions : definition := mkDefinition
  (object
    [("kind", scalar "string" "");
     ("apiVersion", scalar "string" "");
     ("gracePeriodSeconds", scalar "integer" "int64");
     ("preconditions", ref "k8s.io/apimachinery/pkg/apis/meta/v1.Preconditions");
     ("orphanDependents", scalar "boolean" "");
     ("propagationPolicy", scalar "string" "");
     ("dryRun", array "atomic" [] (scalar "string" ""));
     ("ignoreStoreReadErrorWithClusterBreakingPotential", scalar "boolean" "")]
    [])
  ["k8s.io/apimachinery/pkg/apis/meta/v1.Preconditions"].

Definition schema_pkg_apis_meta_v1_Duration : definition := mkDefinition
  (scalar "string" "")
  [].

Definition schema_pkg_apis_meta_v1_FieldSelectorRequirement : definition := mkDefinition
  (object
    [("key", defaulted (JStr "") (scalar "string" ""));
     ("operator", defaulted (JStr "") (scalar "string" ""));
     ("values", array "atomic" [] (scalar "string" ""))]
    ["key"; "operator"])
  [].

Definition schema_pkg_apis_meta_v1_GetOptions : definition := mkDefinition
  (object
    [("kind", scalar "string" "");
     ("apiVersion", scalar "string" "");
     ("resourceVersion", scalar "string" "")]
    [])
  [].

Definition schema_pkg_apis_meta_v1_GroupKind : definition := mkDefinition
  (object
    [("group", defaulted (JStr "") (scalar "string" ""));
     ("kind", defaulted (JStr "") (scalar "string" ""))]
    ["group"; "kind"])
  [].

Definition schema_pkg_apis_meta_v1_GroupResource : definition := mkDefinition
  (object
    [("group", defaulted (JStr "") (scalar "string" ""));
     ("resource", defaulted (JStr "") (scalar "string" ""))]
    ["group"; "resource"])
  [].

Definition schema_pkg_apis_meta_v1_GroupVersion : definition := mkDefinition
  (object
    [("group", defaulted (JStr "") (scalar "string" ""));
     ("version", defaulted (JStr "") (scalar "string" ""))]
    ["group"; "version"])
  [].

Definition schema_pkg_apis_meta_v1_GroupVersionForDiscovery : definition := mkDefinition
  (object
    [("groupVersion", defaulted (JStr "") (scalar "string" ""));
     ("version", defaulted (JStr "") (scalar "string" ""))]
    ["groupVersion"; "version"])
  [].

Definition schema_pkg_apis_meta_v1_GroupVersionKind : definition := mkDefinition
  (object
    [("group", defaulted (JStr "") (scalar "string" ""));
     ("version", defaulted (JStr "") (scalar "string" ""));
     ("kind", defaulted (JStr "") (scalar "string" ""))]
    ["group"; "version"; "kind"])
  [].

Definition schema_pkg_apis_meta_v1_GroupVersionResource : definition := mkDefinition
  (object
    [("group", defaulted (JStr "") (scalar "string" ""));
     ("version", defaulted (JStr "") (scalar "string" ""));
     ("resource", defaulted (JStr "") (scalar "string" ""))]
    ["group"; "version"; "resource"])
  [].

Definition schema_pkg_apis_meta_v1_InternalEvent : definition := mkDefinition
  (object
    [("Type", defaulted (JStr "") (scalar "string" ""));
     ("Object", anything)]
    ["Type"; "Object"])
  [].

Definition schema_pkg_apis_meta_v1_LabelSelector : definition := mkDefinition
  (extended [("x-kubernetes-map-type", JStr "atomic")] (object
    [("matchLabels", map_of (scalar "string" ""));
     ("matchExpressions", array "atomic" [] (ref "k8s.io/apimachinery/pkg/apis/meta/v1.LabelSelectorRequirement"))]
    []))
  ["k8s.io/apimachinery/pkg/apis/meta/v1.LabelSelectorRequirement"].

Definition schema_pkg_apis_meta_v1_LabelSelectorRequirement : definition := mkDefinition
  (object
    [("key", defaulted (JStr "") (scalar "string" ""));
     ("operator", defaulted (JStr "") (scalar "string" ""));
     ("values", array "atomic" [] (scalar "string" ""))]
    ["key"; "operator"])
  [].

Definition schema_pkg_apis_meta_v1_List : definition := mkDefinition
  (object
    [("kind", scalar "string" "");
     ("apiVersion", scalar "string" "");
     ("metadata", defaulted (JObj []) (ref "k8s.io/apimachinery/pkg/apis/meta/v1.ListMeta"));
     ("items", array "" [] (ref "k8s.io/apimachinery/pkg/runtime.RawExtension"))]
    ["items"])
  ["k8s.io/apimachinery/pkg/apis/meta/v1.ListMeta"; "k8s.io/apimachinery/pkg/runtime.RawExtension"].

Definition schema_pkg_apis_meta_v1_ListOptions : definition := mkDefinition
  (object
    [("kind", scalar "string" "");
     ("apiVersion", scalar "string" "");
     ("labelSelector", scalar "string" "");
     ("fieldSelector", scalar "string" "");
     ("watch", scalar "boolean" "");
     ("allowWatchBookmarks", scalar "boolean" "");
     ("resourceVersion", scalar "string" "");
     ("resourceVersionMatch", scalar "string" "");
     ("timeoutSeconds", scalar "integer" "int64");
     ("limit", scalar "integer" "int64");
     ("continue", scalar "string" "");
     ("sendInitialEvents", scalar "boolean" "")]
    [])
  [].

Definition schema_pkg_apis_meta_v1_MicroTime : definition := mkDefinition
  (scalar "string" "date-time")
  [].

Definition schema_pkg_apis_meta_v1_PartialObjectMetadata : definition := mkDefinition
  (object
    [("kind", scalar "string" "");
     ("apiVersion", scalar "string" "");
     ("metadata", defaulted (JObj []) (ref "k8s.io/apimachinery/pkg/apis/meta/v1.ObjectMeta"))]
    [])
  ["k8s.io/apimachinery/pkg/apis/meta/v1.ObjectMeta"].

Definition schema_pkg_apis_meta_v1_PartialObjectMetadataList : definition := mkDefinition
  (object
    [("kind", scalar "string" "");
     ("apiVersion", scalar "string" "");
     ("metadata", defaulted (JObj []) (ref "k8s.io/apimachinery/pkg/apis/meta/v1.ListMeta"));
     ("items", array "" [] (ref "k8s.io/apimachinery/pkg/apis/meta/v1.PartialObjectMetadata"))]
    ["items"])
  ["k8s.io/apimachinery/pkg/apis/meta/v1.ListMeta"; "k8s.io/apimachinery/pkg/apis/meta/v1.PartialObjectMetadata"].

Definition schema_pkg_apis_meta_v1_Patch : definition := mkDefinition
  (object [] [])
  [].

Definition schema_pkg_apis_meta_v1_PatchOptions : definition := mkDefinition
  (object
    [("kind", scalar "string" "");
     ("apiVersion", scalar "string" "");
     ("dryRun", array "atomic" [] (scalar "string" ""));
     ("force", scalar "boolean" "");
     ("fieldManager", scalar "string" "");
     ("fieldValidation", scalar "string" "")]
    [])
  [].

Definition schema_pkg_apis_meta_v1_Preconditions : definition := mkDefinition
  (object
    [("uid", scalar "string" "");
     ("resourceVersion", scalar "string" "")]
    [])
  [].

Definition schema_pkg_apis_meta_v1_RootPaths : definition := mkDefinition
  (object
    [("paths", array "atomic" [] (scalar "string" ""))]
    ["paths"])
  [].

Definition schema_pkg_apis_meta_v1_ServerAddressByClientCIDR : definition := mkDefinition
  (object
    [("clientCIDR", defaulted (JStr "") (scalar "string" ""));
     ("serverAddress", defaulted (JStr "") (scalar "string" ""))]
    ["clientCIDR"; "serverAddress"])
  [].

Definition schema_pkg_apis_meta_v1_Status : definition := mkDefinition
  (object
    [("kind", scalar "string" "");
     ("apiVersion", scalar "string" "");
     ("metadata", defaulted (JObj []) (ref "k8s.io/apimachinery/pkg/apis/meta/v1.ListMeta"));
     ("status", scalar "string" "");
     ("message", scalar "string" "");
     ("reason", scalar "string" "");
     ("details", extended [("x-kubernetes-list-type", JStr "atomic")] (ref "k8s.io/apimachinery/pkg/apis/meta/v1.StatusDetails"));
     ("code", scalar "integer" "int32")]
    [])
  ["k8s.io/apimachinery/pkg/apis/meta/v1.ListMeta"; "k8s.io/apimachinery/pkg/apis/meta/v1.StatusDetails"].

Definition schema_pkg_apis_meta_v1_StatusCause : definition := mkDefinition
  (object
    [("reason", scalar "string" "");
     ("message", scalar "string" "");
     ("field", scalar "string" "")]
    [])
  [].

Definition schema_pkg_apis_meta_v1_StatusDetails : definition := mkDefinition
  (object
    [("name", scalar "string" "");
     ("group", scalar "string" "");
     ("kind", scalar "string" "");
     ("uid", scalar "string" "");
     ("causes", array "atomic" [] (ref "k8s.io/apimachinery/pkg/apis/meta/v1.StatusCause"));
     ("retryAfterSeconds", scalar "integer" "int32")]
    [])
  ["k8s.io/apimachinery/pkg/apis/meta/v1.StatusCause"].

Definition schema_pkg_apis_meta_v1_Table : definition := mkDefinition
  (object
    [("kind", scalar "string" "");
     ("apiVersion", scalar "string" "");
     ("metadata", defaulted (JObj []) (ref "k8s.io/apimachinery/pkg/apis/meta/v1.ListMeta"));
     ("columnDefinitions", array "atomic" [] (ref "k8s.io/apimachinery/pkg/apis/meta/v1.TableColumnDefinition"));
     ("rows", array "atomic" [] (ref "k8s.io/apimachinery/pkg/apis/meta/v1.TableRow"))]
    ["columnDefinitions"; "rows"])
  ["k8s.io/apimachinery/pkg/apis/meta/v1.ListMeta"; "k8s.io/apimachinery/pkg/apis/meta/v1.TableColumnDefinition";
   "k8s.io/apimachinery/pkg/apis/meta/v1.TableRow"].

Definition schema_pkg_apis_meta_v1_TableColumnDefinition : definition := mkDefinition
  (object
    [("name", defaulted (JStr "") (scalar "string" ""));
     ("type", defaulted (JStr "") (scalar "string" ""));
     ("format", defaulted (JStr "") (scalar "string" ""));
     ("description", defaulted (JStr "") (scalar "string" ""));
     ("priority", defaulted (JNum "0") (scalar "integer" "int32"))]
    ["name"; "type"; "format"; "description"; "priority"])
  [].

Definition schema_pkg_apis_meta_v1_TableOptions : definition := mkDefinition
  (object
    [("kind", scalar "string" "");
     ("apiVersion", scalar "string" "");
     ("includeObject", scalar "string" "")]
    [])
  [].

Definition schema_pkg_apis_meta_v1_TableRow : definition := mkDefinition
  (object
    [("cells", array "atomic" [] (object [] []));
     ("conditions", array "atomic" [] (ref "k8s.io/apimachinery/pkg/apis/meta/v1.TableRowCondition"));
     ("object", ref "k8s.io/apimachinery/pkg/runtime.RawExtension")]
    ["cells"])
  ["k8s.io/apimachinery/pkg/apis/meta/v1.TableRowCondition"; "k8s.io/apimachinery/pkg/runtime.RawExtension"].

Definition schema_pkg_apis_meta_v1_TableRowCondition : definition := mkDefinition
  (object
    [("type", defaulted (JStr "") (scalar "string" ""));
     ("status", defaulted (JStr "") (scalar "string" ""));
     ("reason", scalar "string" "");
     ("message", scalar "string" "")]
    ["type"; "status"])
  [].

Definition schema_pkg_apis_meta_v1_Timestamp : definition := mkDefinition
  (object
    [("seconds", defaulted (JNum "0") (scalar "integer" "int64"));
     ("nanos", defaulted (JNum "0") (scalar "integer" "int32"))]
    ["seconds"; "nanos"])
  [].

Definition schema_pkg_apis_meta_v1_TypeMeta : definition := mkDefinition
  (object
    [("kind", scalar "string" "");
     ("apiVersion", scalar "string" "")]
    [])
  [].

Definition schema_pkg_apis_meta_v1_UpdateOptions : definition := mkDefinition
  (object
    [("kind", scalar "string" "");
     ("apiVersion", scalar "string" "");
     ("dryRun", array "atomic" [] (scalar "string" ""));
     ("fieldManager", scalar "string" "");
     ("fieldValidation", scalar "string" "")]
    [])
  [].

Definition schema_pkg_apis_meta_v1_WatchEvent : definition := mkDefinition
  (object
    [("type", defaulted (JStr "") (scalar "string" ""));
     ("object", ref "k8s.io/apimachinery/pkg/runtime.RawExtension")]
    ["type"; "object"])
  ["k8s.io/apimachinery/pkg/runtime.RawExtension"].

Definition schema_k8sio_apimachinery_pkg_runtime_TypeMeta : definition := mkDefinition
  (object
    [("apiVersion", scalar "string" "");
     ("kind", scalar "string" "")]
    [])
  [].

Definition schema_k8sio_apimachinery_pkg_runtime_Unknown : definition := mkDefinition
  (object
    [("apiVersion", scalar "string" "");
     ("kind", scalar "string" "");
     ("ContentEncoding", defaulted (JStr "") (scalar "string" ""));
     ("ContentType", defaulted (JStr "") (scalar "string" ""))]
    ["ContentEncoding"; "ContentType"])
  [].

Definition schema_apimachinery_pkg_util_intstr_IntOrString : definition := mkDefinition
  (one_of ["integer"; "string"] "int-or-string")
  [].

Definition schema_k8sio_apimachinery_pkg_version_Info : definition := mkDefinition
  (object
    [("major", defaulted (JStr "") (scalar "string" ""));
     ("minor", defaulted (JStr "") (scalar "string" ""));
     ("emulationMajor", scalar "string" "");
     ("emulationMinor", scalar "string" "");
     ("minCompatibilityMajor", scalar "string" "");
     ("minCompatibilityMinor", scalar "string" "");
     ("gitVersion", defaulted (JStr "") (scalar "string" ""));
     ("gitCommit", defaulted (JStr "") (scalar "string" ""));
     ("gitTreeState", defaulted (JStr "") (scalar "string" ""));
     ("buildDate", defaulted (JStr "") (scalar "string" ""));
     ("goVersion", defaulted (JStr "") (scalar "string" ""));
     ("compiler", defaulted (JStr "") (scalar "string" ""));
     ("platform", defaulted (JStr "") (scalar "string" ""))]
    ["major"; "minor"; "gitVersion"; "gitCommit"; "gitTreeState"; "buildDate"; "goVersion"; "compiler"; "platform"])
  [].
