(* ===== verification/OpenApiVirt.v ===== *)
(** * Published OpenAPI schemas: kubevirt.io/api

    The definitions of api/openapi_generated.go for KubeVirt: virtual machines, their instances, and backups, as far
    as they are not in OpenApi: one definition per function of the file, with
    its schema and its dependencies; descriptions are left out. *)

From stdpp Require Import prelude strings.
From S2P Require Import Json OpenApi.

Local Open Scope string_scope.

Definition schema_kubevirtio_api_backup_v1alpha1_BackupCheckpoint : definition := mkDefinition
  (object
    [("name", scalar "string" "");
     ("creationTime", ref "k8s.io/apimachinery/pkg/apis/meta/v1.Time");
     ("volumes", array "atomic" [] (ref "kubevirt.io/api/backup/v1alpha1.BackupVolumeInfo"))]
    [])
  ["k8s.io/apimachinery/pkg/apis/meta/v1.Time"; "kubevirt.io/api/backup/v1alpha1.BackupVolumeInfo"].

Definition schema_kubevirtio_api_backup_v1alpha1_BackupOptions : definition := mkDefinition
  (object
    [("backupName", scalar "string" "");
     ("cmd", scalar "string" "");
     ("mode", scalar "string" "");
     ("backupStartTime", ref "k8s.io/apimachinery/pkg/apis/meta/v1.Time");
     ("incremental", scalar "string" "");
     ("targetPath", scalar "string" "");
     ("skipQuiesce", scalar "boolean" "");
     ("exportServerAddr", scalar "string" "");
     ("exportServerName", scalar "string" "");
     ("backupKey", scalar "string" "");
     ("backupCert", scalar "string" "");
     ("caCert", scalar "string" "")]
    [])
  ["k8s.io/apimachinery/pkg/apis/meta/v1.Time"].

Definition schema_kubevirtio_api_backup_v1alpha1_BackupVolumeInfo : definition := mkDefinition
  (object
    [("volumeName", defaulted (JStr "") (scalar "string" ""));
     ("diskTarget", defaulted (JStr "") (scalar "string" ""));
     ("dataEndpoint", scalar "string" "");
     ("mapEndpoint", scalar "string" "")]
    ["volumeName"; "diskTarget"])
  [].

Definition schema_kubevirtio_api_backup_v1alpha1_Condition : definition := mkDefinition
  (object
    [("type", defaulted (JStr "") (scalar "string" ""));
     ("status", defaulted (JStr "") (scalar "string" ""));
     ("lastProbeTime", ref "k8s.io/apimachinery/pkg/apis/meta/v1.Time");
     ("lastTransitionTime", ref "k8s.io/apimachinery/pkg/apis/meta/v1.Time");
     ("reason", scalar "string" "");
     ("message", scalar "string" "")]
    ["type"; "status"])
  ["k8s.io/apimachinery/pkg/apis/meta/v1.Time"].

Definition schema_kubevirtio_api_backup_v1alpha1_VirtualMachineBackup : definition := mkDefinition
  (object
    [("kind", scalar "string" "");
     ("apiVersion", scalar "string" "");
     ("metadata", defaulted (JObj []) (ref "k8s.io/apimachinery/pkg/apis/meta/v1.ObjectMeta"));
     ("spec", defaulted (JObj []) (ref "kubevirt.io/api/backup/v1alpha1.VirtualMachineBackupSpec"));
     ("status", ref "kubevirt.io/api/backup/v1alpha1.VirtualMachineBackupStatus")]
    ["spec"])
  ["k8s.io/apimachinery/pkg/apis/meta/v1.ObjectMeta"; "kubevirt.io/api/backup/v1alpha1.VirtualMachineBackupSpec";
   "kubevirt.io/api/backup/v1alpha1.VirtualMachineBackupStatus"].

Definition schema_kubevirtio_api_backup_v1alpha1_VirtualMachineBackupList : definition := mkDefinition
  (object
    [("kind", scalar "string" "");
     ("apiVersion", scalar "string" "");
     ("metadata", defaulted (JObj []) (ref "k8s.io/apimachinery/pkg/apis/meta/v1.ListMeta"));
     ("items", array "atomic" [] (ref "kubevirt.io/api/backup/v1alpha1.VirtualMachineBackup"))]
    ["metadata"; "items"])
  ["k8s.io/apimachinery/pkg/apis/meta/v1.ListMeta"; "kubevirt.io/api/backup/v1alpha1.VirtualMachineBackup"].

Definition schema_kubevirtio_api_backup_v1alpha1_VirtualMachineBackupSpec : definition := mkDefinition
  (object
    [("source", defaulted (JObj []) (ref "k8s.io/api/core/v1.TypedLocalObjectReference"));
     ("mode", scalar "string" "");
     ("pvcName", scalar "string" "");
     ("skipQuiesce", scalar "boolean" "");
     ("forceFullBackup", scalar "boolean" "");
     ("tokenSecretRef", scalar "string" "");
     ("ttlDuration", ref "k8s.io/apimachinery/pkg/apis/meta/v1.Duration")]
    ["source"])
  ["k8s.io/api/core/v1.TypedLocalObjectReference"; "k8s.io/apimachinery/pkg/apis/meta/v1.Duration"].

Definition schema_kubevirtio_api_backup_v1alpha1_VirtualMachineBackupStatus : definition := mkDefinition
  (object
    [("type", scalar "string" "");
     ("conditions", array "atomic" [] (ref "kubevirt.io/api/backup/v1alpha1.Condition"));
     ("checkpointName", scalar "string" "");
     ("endpointCert", scalar "string" "");
     ("includedVolumes", array "atomic" [] (ref "kubevirt.io/api/backup/v1alpha1.BackupVolumeInfo"))]
    [])
  ["kubevirt.io/api/backup/v1alpha1.BackupVolumeInfo"; "kubevirt.io/api/backup/v1alpha1.Condition"].

Definition schema_kubevirtio_api_backup_v1alpha1_VirtualMachineBackupTracker : definition := mkDefinition
  (object
    [("kind", scalar "string" "");
     ("apiVersion", scalar "string" "");
     ("metadata", defaulted (JObj []) (ref "k8s.io/apimachinery/pkg/apis/meta/v1.ObjectMeta"));
     ("spec", defaulted (JObj []) (ref "kubevirt.io/api/backup/v1alpha1.VirtualMachineBackupTrackerSpec"));
     ("status", ref "kubevirt.io/api/backup/v1alpha1.VirtualMachineBackupTrackerStatus")]
    ["spec"])
  ["k8s.io/apimachinery/pkg/apis/meta/v1.ObjectMeta"; "kubevirt.io/api/backup/v1alpha1.VirtualMachineBackupTrackerSpec";
   "kubevirt.io/api/backup/v1alpha1.VirtualMachineBackupTrackerStatus"].

Definition schema_kubevirtio_api_backup_v1alpha1_VirtualMachineBackupTrackerList : definition := mkDefinition
  (object
    [("kind", scalar "string" "");
     ("apiVersion", scalar "string" "");
     ("metadata", defaulted (JObj []) (ref "k8s.io/apimachinery/pkg/apis/meta/v1.ListMeta"));
     ("items", array "atomic" [] (ref "kubevirt.io/api/backup/v1alpha1.VirtualMachineBackupTracker"))]
    ["metadata"; "items"])
  ["k8s.io/apimachinery/pkg/apis/meta/v1.ListMeta"; "kubevirt.io/api/backup/v1alpha1.VirtualMachineBackupTracker"].

Definition schema_kubevirtio_api_backup_v1alpha1_VirtualMachineBackupTrackerSpec : definition := mkDefinition
  (object
    [("source", defaulted (JObj []) (ref "k8s.io/api/core/v1.TypedLocalObjectReference"))]
    ["source"])
  ["k8s.io/api/core/v1.TypedLocalObjectReference"].

Definition schema_kubevirtio_api_backup_v1alpha1_VirtualMachineBackupTrackerStatus : definition := mkDefinition
  (object
    [("latestCheckpoint", ref "kubevirt.io/api/backup/v1alpha1.BackupCheckpoint");
     ("checkpointRedefinitionRequired", scalar "boolean" "")]
    [])
  ["kubevirt.io/api/backup/v1alpha1.BackupCheckpoint"].

Definition schema_kubevirtio_api_core_v1_ACPI : definition := mkDefinition
  (object
    [("slicNameRef", scalar "string" "");
     ("msdmNameRef", scalar "string" "")]
    [])
  [].

Definition schema_kubevirtio_api_core_v1_AccessCredential : definition := mkDefinition
  (object
    [("sshPublicKey", ref "kubevirt.io/api/core/v1.SSHPublicKeyAccessCredential");
     ("userPassword", ref "kubevirt.io/api/core/v1.UserPasswordAccessCredential")]
    [])
  ["kubevirt.io/api/core/v1.SSHPublicKeyAccessCredential"; "kubevirt.io/api/core/v1.UserPasswordAccessCredential"].

Definition schema_kubevirtio_api_core_v1_AccessCredentialSecretSource : definition := mkDefinition
  (object
    [("secretName", defaulted (JStr "") (scalar "string" ""))]
    ["secretName"])
  [].

Definition schema_kubevirtio_api_core_v1_AddVolumeOptions : definition := mkDefinition
  (object
    [("name", defaulted (JStr "") (scalar "string" ""));
     ("disk", ref "kubevirt.io/api/core/v1.Disk");
     ("volumeSource", ref "kubevirt.io/api/core/v1.HotplugVolumeSource");
     ("dryRun", array "atomic" [] (scalar "string" ""))]
    ["name"; "disk"; "volumeSource"])
  ["kubevirt.io/api/core/v1.Disk"; "kubevirt.io/api/core/v1.HotplugVolumeSource"].

Definition schema_kubevirtio_api_core_v1_ArchConfiguration : definition := mkDefinition
  (object
    [("amd64", ref "kubevirt.io/api/core/v1.ArchSpecificConfiguration");
     ("arm64", ref "kubevirt.io/api/core/v1.ArchSpecificConfiguration");
     ("ppc64le", ref "kubevirt.io/api/core/v1.ArchSpecificConfiguration");
     ("s390x", ref "kubevirt.io/api/core/v1.ArchSpecificConfiguration");
     ("defaultArchitecture", scalar "string" "")]
    [])
  ["kubevirt.io/api/core/v1.ArchSpecificConfiguration"].

Definition schema_kubevirtio_api_core_v1_ArchSpecificConfiguration : definition := mkDefinition
  (object
    [("ovmfPath", scalar "string" "");
     ("emulatedMachines", array "atomic" [] (scalar "string" ""));
     ("machineType", scalar "string" "")]
    [])
  [].

Definition schema_kubevirtio_api_core_v1_AuthorizedKeysFile : definition := mkDefinition
  (object
    [("filePath", defaulted (JStr "") (scalar "string" ""))]
    ["filePath"])
  [].

Definition schema_kubevirtio_api_core_v1_BIOS : definition := mkDefinition
  (object
    [("useSerial", scalar "boolean" "")]
    [])
  [].

Definition schema_kubevirtio_api_core_v1_BlockSize : definition := mkDefinition
  (object
    [("custom", ref "kubevirt.io/api/core/v1.CustomBlockSize");
     ("matchVolume", ref "kubevirt.io/api/core/v1.FeatureState")]
    [])
  ["kubevirt.io/api/core/v1.CustomBlockSize"; "kubevirt.io/api/core/v1.FeatureState"].

Definition schema_kubevirtio_api_core_v1_Bootloader : definition := mkDefinition
  (object
    [("bios", ref "kubevirt.io/api/core/v1.BIOS");
     ("efi", ref "kubevirt.io/api/core/v1.EFI")]
    [])
  ["kubevirt.io/api/core/v1.BIOS"; "kubevirt.io/api/core/v1.EFI"].

Definition schema_kubevirtio_api_core_v1_CDRomTarget : definition := mkDefinition
  (object
    [("bus", scalar "string" "");
     ("readonly", scalar "boolean" "");
     ("tray", scalar "string" "")]
    [])
  [].

Definition schema_kubevirtio_api_core_v1_CPU : definition := mkDefinition
  (object
    [("cores", scalar "integer" "int64");
     ("sockets", scalar "integer" "int64");
     ("maxSockets", scalar "integer" "int64");
     ("threads", scalar "integer" "int64");
     ("model", scalar "string" "");
     ("features", array "" [] (ref "kubevirt.io/api/core/v1.CPUFeature"));
     ("dedicatedCpuPlacement", scalar "boolean" "");
     ("numa", ref "kubevirt.io/api/core/v1.NUMA");
     ("isolateEmulatorThread", scalar "boolean" "");
     ("realtime", ref "kubevirt.io/api/core/v1.Realtime")]
    [])
  ["kubevirt.io/api/core/v1.CPUFeature"; "kubevirt.io/api/core/v1.NUMA"; "kubevirt.io/api/core/v1.Realtime"].

Definition schema_kubevirtio_api_core_v1_CPUFeature : definition := mkDefinition
  (object
    [("name", defaulted (JStr "") (scalar "string" ""));
     ("policy", scalar "string" "")]
    ["name"])
  [].

Definition schema_kubevirtio_api_core_v1_CPUTopology : definition := mkDefinition
  (object
    [("cores", scalar "integer" "int64");
     ("sockets", scalar "integer" "int64");
     ("threads", scalar "integer" "int64")]
    [])
  [].

Definition schema_kubevirtio_api_core_v1_CertConfig : definition := mkDefinition
  (object
    [("duration", ref "k8s.io/apimachinery/pkg/apis/meta/v1.Duration");
     ("renewBefore", ref "k8s.io/apimachinery/pkg/apis/meta/v1.Duration")]
    [])
  ["k8s.io/apimachinery/pkg/apis/meta/v1.Duration"].

Definition schema_kubevirtio_api_core_v1_ChangedBlockTrackingSelectors : definition := mkDefinition
  (object
    [("namespaceLabelSelector", ref "k8s.io/apimachinery/pkg/apis/meta/v1.LabelSelector");
     ("virtualMachineLabelSelector", ref "k8s.io/apimachinery/pkg/apis/meta/v1.LabelSelector")]
    [])
  ["k8s.io/apimachinery/pkg/apis/meta/v1.LabelSelector"].

Definition schema_kubevirtio_api_core_v1_ChangedBlockTrackingStatus : definition := mkDefinition
  (object
    [("state", defaulted (JStr "") (scalar "string" ""));
     ("backupStatus", ref "kubevirt.io/api/core/v1.VirtualMachineInstanceBackupStatus")]
    ["state"])
  ["kubevirt.io/api/core/v1.VirtualMachineInstanceBackupStatus"].

Definition schema_kubevirtio_api_core_v1_Chassis : definition := mkDefinition
  (object
    [("manufacturer", scalar "string" "");
     ("version", scalar "string" "");
     ("serial", scalar "string" "");
     ("asset", scalar "string" "");
     ("sku", scalar "string" "")]
    [])
  [].

Definition schema_kubevirtio_api_core_v1_ClaimRequest : definition := mkDefinition
  (object
    [("claimName", scalar "string" "");
     ("requestName", scalar "string" "")]
    [])
  [].

Definition schema_kubevirtio_api_core_v1_ClientPassthroughDevices : definition := mkDefinition
  (object [] [])
  [].

Definition schema_kubevirtio_api_core_v1_Clock : definition := mkDefinition
  (object
    [("utc", ref "kubevirt.io/api/core/v1.ClockOffsetUTC");
     ("timezone", scalar "string" "");
     ("timer", ref "kubevirt.io/api/core/v1.Timer")]
    [])
  ["kubevirt.io/api/core/v1.ClockOffsetUTC"; "kubevirt.io/api/core/v1.Timer"].

Definition schema_kubevirtio_api_core_v1_ClockOffset : definition := mkDefinition
  (object
    [("utc", ref "kubevirt.io/api/core/v1.ClockOffsetUTC");
     ("timezone", scalar "string" "")]
    [])
  ["kubevirt.io/api/core/v1.ClockOffsetUTC"].

Definition schema_kubevirtio_api_core_v1_ClockOffsetUTC : definition := mkDefinition
  (object
    [("offsetSeconds", scalar "integer" "int32")]
    [])
  [].

Definition schema_kubevirtio_api_core_v1_CloudInitConfigDriveSource : definition := mkDefinition
  (object
    [("secretRef", ref "k8s.io/api/core/v1.LocalObjectReference");
     ("userDataBase64", scalar "string" "");
     ("userData", scalar "string" "");
     ("networkDataSecretRef", ref "k8s.io/api/core/v1.LocalObjectReference");
     ("networkDataBase64", scalar "string" "");
     ("networkData", scalar "string" "")]
    [])
  ["k8s.io/api/core/v1.LocalObjectReference"].

Definition schema_kubevirtio_api_core_v1_CloudInitNoCloudSource : definition := mkDefinition
  (object
    [("secretRef", ref "k8s.io/api/core/v1.LocalObjectReference");
     ("userDataBase64", scalar "string" "");
     ("userData", scalar "string" "");
     ("networkDataSecretRef", ref "k8s.io/api/core/v1.LocalObjectReference");
     ("networkDataBase64", scalar "string" "");
     ("networkData", scalar "string" "")]
    [])
  ["k8s.io/api/core/v1.LocalObjectReference"].

Definition schema_kubevirtio_api_core_v1_ClusterProfilerRequest : definition := mkDefinition
  (object
    [("labelSelector", scalar "string" "");
     ("continue", scalar "string" "");
     ("pageSize", defaulted (JNum "0") (scalar "integer" "int64"))]
    ["pageSize"])
  [].

Definition schema_kubevirtio_api_core_v1_ClusterProfilerResults : definition := mkDefinition
  (object
    [("componentResults", map_of (ref "kubevirt.io/api/core/v1.ProfilerResult"));
     ("continue", scalar "string" "")]
    ["componentResults"])
  ["kubevirt.io/api/core/v1.ProfilerResult"].

Definition schema_kubevirtio_api_core_v1_CommonInstancetypesDeployment : definition := mkDefinition
  (object
    [("enabled", scalar "boolean" "")]
    [])
  [].

Definition schema_kubevirtio_api_core_v1_ComponentConfig : definition := mkDefinition
  (object
    [("nodePlacement", ref "kubevirt.io/api/core/v1.NodePlacement");
     ("replicas", scalar "integer" "byte")]
    [])
  ["kubevirt.io/api/core/v1.NodePlacement"].

Definition schema_kubevirtio_api_core_v1_ConfigDriveSSHPublicKeyAccessCredentialPropagation : definition := mkDefinition
  (object [] [])
  [].

Definition schema_kubevirtio_api_core_v1_ConfigMapVolumeSource : definition := mkDefinition
  (object
    [("name", defaulted (JStr "") (scalar "string" ""));
     ("optional", scalar "boolean" "");
     ("volumeLabel", scalar "string" "")]
    [])
  [].

Definition schema_kubevirtio_api_core_v1_ContainerDiskInfo : definition := mkDefinition
  (object
    [("checksum", scalar "integer" "int64")]
    [])
  [].

Definition schema_kubevirtio_api_core_v1_ContainerDiskSource : definition := mkDefinition
  (object
    [("image", defaulted (JStr "") (scalar "string" ""));
     ("imagePullSecret", scalar "string" "");
     ("path", scalar "string" "");
     ("imagePullPolicy", enumerated "string" "" ["Always"; "IfNotPresent"; "Never"])]
    ["image"])
  [].

Definition schema_kubevirtio_api_core_v1_ContainerPathVolumeSource : definition := mkDefinition
  (object
    [("path", defaulted (JStr "") (scalar "string" ""));
     ("readOnly", scalar "boolean" "")]
    ["path"])
  [].

Definition schema_kubevirtio_api_core_v1_ControllerRevisionRef : definition := mkDefinition
  (object
    [("name", scalar "string" "")]
    [])
  [].

Definition schema_kubevirtio_api_core_v1_CustomBlockSize : definition := mkDefinition
  (object
    [("logical", scalar "integer" "int32");
     ("physical", scalar "integer" "int32");
     ("discardGranularity", scalar "integer" "int32")]
    [])
  [].

Definition schema_kubevirtio_api_core_v1_CustomProfile : definition := mkDefinition
  (object
    [("localhostProfile", scalar "string" "");
     ("runtimeDefaultProfile", scalar "boolean" "")]
    [])
  [].

Definition schema_kubevirtio_api_core_v1_CustomizeComponents : definition := mkDefinition
  (object
    [("patches", array "atomic" [] (ref "kubevirt.io/api/core/v1.CustomizeComponentsPatch"));
     ("flags", ref "kubevirt.io/api/core/v1.Flags")]
    [])
  ["kubevirt.io/api/core/v1.CustomizeComponentsPatch"; "kubevirt.io/api/core/v1.Flags"].

Definition schema_kubevirtio_api_core_v1_CustomizeComponentsPatch : definition := mkDefinition
  (object
    [("resourceName", defaulted (JStr "") (scalar "string" ""));
     ("resourceType", defaulted (JStr "") (scalar "string" ""));
     ("patch", defaulted (JStr "") (scalar "string" ""));
     ("type", defaulted (JStr "") (scalar "string" ""))]
    ["resourceName"; "resourceType"; "patch"; "type"])
  [].

Definition schema_kubevirtio_api_core_v1_DHCPOptions : definition := mkDefinition
  (object
    [("bootFileName", scalar "string" "");
     ("tftpServerName", scalar "string" "");
     ("ntpServers", array "" [] (scalar "string" ""));
     ("privateOptions", array "" [] (ref "kubevirt.io/api/core/v1.DHCPPrivateOptions"))]
    [])
  ["kubevirt.io/api/core/v1.DHCPPrivateOptions"].

Definition schema_kubevirtio_api_core_v1_DHCPPrivateOptions : definition := mkDefinition
  (object
    [("option", defaulted (JNum "0") (scalar "integer" "int32"));
     ("value", defaulted (JStr "") (scalar "string" ""))]
    ["option"; "value"])
  [].

Definition schema_kubevirtio_api_core_v1_DataVolumeSource : definition := mkDefinition
  (object
    [("name", defaulted (JStr "") (scalar "string" ""));
     ("hotpluggable", scalar "boolean" "")]
    ["name"])
  [].

Definition schema_kubevirtio_api_core_v1_DataVolumeTemplateDummyStatus : definition := mkDefinition
  (object [] [])
  [].

Definition schema_kubevirtio_api_core_v1_DataVolumeTemplateSpec : definition := mkDefinition
  (object
    [("kind", scalar "string" "");
     ("apiVersion", scalar "string" "");
     ("metadata", defaulted (JObj []) (ref "k8s.io/apimachinery/pkg/apis/meta/v1.ObjectMeta"));
     ("spec", defaulted (JObj []) (ref "kubevirt.io/containerized-data-importer-api/pkg/apis/core/v1beta1.DataVolumeSpec"));
     ("status", ref "kubevirt.io/api/core/v1.DataVolumeTemplateDummyStatus")]
    ["spec"])
  ["k8s.io/apimachinery/pkg/apis/meta/v1.ObjectMeta"; "kubevirt.io/api/core/v1.DataVolumeTemplateDummyStatus";
   "kubevirt.io/containerized-data-importer-api/pkg/apis/core/v1beta1.DataVolumeSpec"].

Definition schema_kubevirtio_api_core_v1_DeprecatedInterfaceMacvtap : definition := mkDefinition
  (object [] [])
  [].

Definition schema_kubevirtio_api_core_v1_DeprecatedInterfacePasst : definition := mkDefinition
  (object [] [])
  [].

Definition schema_kubevirtio_api_core_v1_DeprecatedInterfaceSlirp : definition := mkDefinition
  (object [] [])
  [].

Definition schema_kubevirtio_api_core_v1_DeveloperConfiguration : definition := mkDefinition
  (object
    [("featureGates", array "atomic" [] (scalar "string" ""));
     ("disabledFeatureGates", array "atomic" [] (scalar "string" ""));
     ("pvcTolerateLessSpaceUpToPercent", scalar "integer" "int32");
     ("minimumReservePVCBytes", scalar "integer" "int64");
     ("memoryOvercommit", scalar "integer" "int32");
     ("nodeSelectors", map_of (scalar "string" ""));
     ("useEmulation", scalar "boolean" "");
     ("cpuAllocationRatio", scalar "integer" "int32");
     ("minimumClusterTSCFrequency", scalar "integer" "int64");
     ("diskVerification", ref "kubevirt.io/api/core/v1.DiskVerification");
     ("logVerbosity", ref "kubevirt.io/api/core/v1.LogVerbosity");
     ("clusterProfiler", scalar "boolean" "")]
    [])
  ["kubevirt.io/api/core/v1.DiskVerification"; "kubevirt.io/api/core/v1.LogVerbosity"].

Definition schema_kubevirtio_api_core_v1_Devices : definition := mkDefinition
  (object
    [("useVirtioTransitional", scalar "boolean" "");
     ("disableHotplug", scalar "boolean" "");
     ("disks", array "" [] (ref "kubevirt.io/api/core/v1.Disk"));
     ("watchdog", ref "kubevirt.io/api/core/v1.Watchdog");
     ("interfaces", array "" [] (ref "kubevirt.io/api/core/v1.Interface"));
     ("inputs", array "" [] (ref "kubevirt.io/api/core/v1.Input"));
     ("autoattachPodInterface", scalar "boolean" "");
     ("autoattachGraphicsDevice", scalar "boolean" "");
     ("autoattachSerialConsole", scalar "boolean" "");
     ("logSerialConsole", scalar "boolean" "");
     ("autoattachMemBalloon", scalar "boolean" "");
     ("autoattachInputDevice", scalar "boolean" "");
     ("autoattachVSOCK", scalar "boolean" "");
     ("rng", ref "kubevirt.io/api/core/v1.Rng");
     ("blockMultiQueue", scalar "boolean" "");
     ("networkInterfaceMultiqueue", scalar "boolean" "");
     ("gpus", array "atomic" [] (ref "kubevirt.io/api/core/v1.GPU"));
     ("downwardMetrics", ref "kubevirt.io/api/core/v1.DownwardMetrics");
     ("panicDevices", array "" [] (ref "kubevirt.io/api/core/v1.PanicDevice"));
     ("filesystems", array "atomic" [] (ref "kubevirt.io/api/core/v1.Filesystem"));
     ("hostDevices", array "atomic" [] (ref "kubevirt.io/api/core/v1.HostDevice"));
     ("clientPassthrough", ref "kubevirt.io/api/core/v1.ClientPassthroughDevices");
     ("sound", ref "kubevirt.io/api/core/v1.SoundDevice");
     ("tpm", ref "kubevirt.io/api/core/v1.TPMDevice");
     ("video", ref "kubevirt.io/api/core/v1.VideoDevice")]
    [])
  ["kubevirt.io/api/core/v1.ClientPassthroughDevices"; "kubevirt.io/api/core/v1.Disk"; "kubevirt.io/api/core/v1.DownwardMetrics";
   "kubevirt.io/api/core/v1.Filesystem"; "kubevirt.io/api/core/v1.GPU"; "kubevirt.io/api/core/v1.HostDevice"; "kubevirt.io/api/core/v1.Input";
   "kubevirt.io/api/core/v1.Interface"; "kubevirt.io/api/core/v1.PanicDevice"; "kubevirt.io/api/core/v1.Rng"; "kubevirt.io/api/core/v1.SoundDevice";
   "kubevirt.io/api/core/v1.TPMDevice"; "kubevirt.io/api/core/v1.VideoDevice"; "kubevirt.io/api/core/v1.Watchdog"].

Definition schema_kubevirtio_api_core_v1_Diag288Watchdog : definition := mkDefinition
  (object
    [("action", scalar "string" "")]
    [])
  [].

Definition schema_kubevirtio_api_core_v1_DisableFreePageReporting : definition := mkDefinition
  (object [] [])
  [].

Definition schema_kubevirtio_api_core_v1_DisableSerialConsoleLog : definition := mkDefinition
  (object [] [])
  [].

Definition schema_kubevirtio_api_core_v1_Disk : definition := mkDefinition
  (object
    [("name", defaulted (JStr "") (scalar "string" ""));
     ("disk", ref "kubevirt.io/api/core/v1.DiskTarget");
     ("lun", ref "kubevirt.io/api/core/v1.LunTarget");
     ("cdrom", ref "kubevirt.io/api/core/v1.CDRomTarget");
     ("bootOrder", scalar "integer" "int32");
     ("serial", scalar "string" "");
     ("dedicatedIOThread", scalar "boolean" "");
     ("cache", scalar "string" "");
     ("io", scalar "string" "");
     ("tag", scalar "string" "");
     ("blockSize", ref "kubevirt.io/api/core/v1.BlockSize");
     ("shareable", scalar "boolean" "");
     ("errorPolicy", scalar "string" "");
     ("changedBlockTracking", scalar "boolean" "")]
    ["name"])
  ["kubevirt.io/api/core/v1.BlockSize"; "kubevirt.io/api/core/v1.CDRomTarget"; "kubevirt.io/api/core/v1.DiskTarget";
   "kubevirt.io/api/core/v1.LunTarget"].

Definition schema_kubevirtio_api_core_v1_DiskDevice : definition := mkDefinition
  (object
    [("disk", ref "kubevirt.io/api/core/v1.DiskTarget");
     ("lun", ref "kubevirt.io/api/core/v1.LunTarget");
     ("cdrom", ref "kubevirt.io/api/core/v1.CDRomTarget")]
    [])
  ["kubevirt.io/api/core/v1.CDRomTarget"; "kubevirt.io/api/core/v1.DiskTarget"; "kubevirt.io/api/core/v1.LunTarget"].

Definition schema_kubevirtio_api_core_v1_DiskIOThreads : definition := mkDefinition
  (object
    [("supplementalPoolThreadCount", scalar "integer" "int64")]
    [])
  [].

Definition schema_kubevirtio_api_core_v1_DiskTarget : definition := mkDefinition
  (object
    [("bus", scalar "string" "");
     ("readonly", scalar "boolean" "");
     ("pciAddress", scalar "string" "")]
    [])
  [].

Definition schema_kubevirtio_api_core_v1_DiskVerification : definition := mkDefinition
  (object
    [("memoryLimit", ref "k8s.io/apimachinery/pkg/api/resource.Quantity")]
    ["memoryLimit"])
  ["k8s.io/apimachinery/pkg/api/resource.Quantity"].

Definition schema_kubevirtio_api_core_v1_DomainMemoryDumpInfo : definition := mkDefinition
  (object
    [("startTimestamp", ref "k8s.io/apimachinery/pkg/apis/meta/v1.Time");
     ("endTimestamp", ref "k8s.io/apimachinery/pkg/apis/meta/v1.Time");
     ("claimName", scalar "string" "");
     ("targetFileName", scalar "string" "")]
    [])
  ["k8s.io/apimachinery/pkg/apis/meta/v1.Time"].

Definition schema_kubevirtio_api_core_v1_DomainSpec : definition := mkDefinition
  (object
    [("resources", defaulted (JObj []) (ref "kubevirt.io/api/core/v1.ResourceRequirements"));
     ("cpu", ref "kubevirt.io/api/core/v1.CPU");
     ("memory", ref "kubevirt.io/api/core/v1.Memory");
     ("machine", ref "kubevirt.io/api/core/v1.Machine");
     ("firmware", ref "kubevirt.io/api/core/v1.Firmware");
     ("clock", ref "kubevirt.io/api/core/v1.Clock");
     ("features", ref "kubevirt.io/api/core/v1.Features");
     ("devices", defaulted (JObj []) (ref "kubevirt.io/api/core/v1.Devices"));
     ("ioThreadsPolicy", scalar "string" "");
     ("ioThreads", ref "kubevirt.io/api/core/v1.DiskIOThreads");
     ("chassis", ref "kubevirt.io/api/core/v1.Chassis");
     ("launchSecurity", ref "kubevirt.io/api/core/v1.LaunchSecurity");
     ("rebootPolicy", scalar "string" "")]
    ["devices"])
  ["kubevirt.io/api/core/v1.CPU"; "kubevirt.io/api/core/v1.Chassis"; "kubevirt.io/api/core/v1.Clock"; "kubevirt.io/api/core/v1.Devices";
   "kubevirt.io/api/core/v1.DiskIOThreads"; "kubevirt.io/api/core/v1.Features"; "kubevirt.io/api/core/v1.Firmware";
   "kubevirt.io/api/core/v1.LaunchSecurity"; "kubevirt.io/api/core/v1.Machine"; "kubevirt.io/api/core/v1.Memory";
   "kubevirt.io/api/core/v1.ResourceRequirements"].

Definition schema_kubevirtio_api_core_v1_DownwardAPIVolumeSource : definition := mkDefinition
  (object
    [("fields", array "" [] (ref "k8s.io/api/core/v1.DownwardAPIVolumeFile"));
     ("volumeLabel", scalar "string" "")]
    [])
  ["k8s.io/api/core/v1.DownwardAPIVolumeFile"].

Definition schema_kubevirtio_api_core_v1_DownwardMetrics : definition := mkDefinition
  (object [] [])
  [].

Definition schema_kubevirtio_api_core_v1_DownwardMetricsVolumeSource : definition := mkDefinition
  (object [] [])
  [].

Definition schema_kubevirtio_api_core_v1_EFI : definition := mkDefinition
  (object
    [("secureBoot", scalar "boolean" "");
     ("persistent", scalar "boolean" "")]
    [])
  [].

Definition schema_kubevirtio_api_core_v1_EmptyDiskSource : definition := mkDefinition
  (object
    [("capacity", ref "k8s.io/apimachinery/pkg/api/resource.Quantity")]
    ["capacity"])
  ["k8s.io/apimachinery/pkg/api/resource.Quantity"].

Definition schema_kubevirtio_api_core_v1_EphemeralVolumeSource : definition := mkDefinition
  (object
    [("persistentVolumeClaim", ref "k8s.io/api/core/v1.PersistentVolumeClaimVolumeSource")]
    [])
  ["k8s.io/api/core/v1.PersistentVolumeClaimVolumeSource"].

Definition schema_kubevirtio_api_core_v1_EvacuateCancelOptions : definition := mkDefinition
  (object
    [("kind", scalar "string" "");
     ("apiVersion", scalar "string" "");
     ("dryRun", array "atomic" [] (scalar "string" ""));
     ("evacuationNodeName", defaulted (JStr "") (scalar "string" ""))]
    ["evacuationNodeName"])
  [].

Definition schema_kubevirtio_api_core_v1_FeatureAPIC : definition := mkDefinition
  (object
    [("enabled", scalar "boolean" "");
     ("endOfInterrupt", scalar "boolean" "")]
    [])
  [].

Definition schema_kubevirtio_api_core_v1_FeatureHyperv : definition := mkDefinition
  (object
    [("relaxed", ref "kubevirt.io/api/core/v1.FeatureState");
     ("vapic", ref "kubevirt.io/api/core/v1.FeatureState");
     ("spinlocks", ref "kubevirt.io/api/core/v1.FeatureSpinlocks");
     ("vpindex", ref "kubevirt.io/api/core/v1.FeatureState");
     ("runtime", ref "kubevirt.io/api/core/v1.FeatureState");
     ("synic", ref "kubevirt.io/api/core/v1.FeatureState");
     ("synictimer", ref "kubevirt.io/api/core/v1.SyNICTimer");
     ("reset", ref "kubevirt.io/api/core/v1.FeatureState");
     ("vendorid", ref "kubevirt.io/api/core/v1.FeatureVendorID");
     ("frequencies", ref "kubevirt.io/api/core/v1.FeatureState");
     ("reenlightenment", ref "kubevirt.io/api/core/v1.FeatureState");
     ("tlbflush", ref "kubevirt.io/api/core/v1.TLBFlush");
     ("ipi", ref "kubevirt.io/api/core/v1.FeatureState");
     ("evmcs", ref "kubevirt.io/api/core/v1.FeatureState")]
    [])
  ["kubevirt.io/api/core/v1.FeatureSpinlocks"; "kubevirt.io/api/core/v1.FeatureState"; "kubevirt.io/api/core/v1.FeatureVendorID";
   "kubevirt.io/api/core/v1.SyNICTimer"; "kubevirt.io/api/core/v1.TLBFlush"].

Definition schema_kubevirtio_api_core_v1_FeatureKVM : definition := mkDefinition
  (object
    [("hidden", scalar "boolean" "")]
    [])
  [].

Definition schema_kubevirtio_api_core_v1_FeatureSpinlocks : definition := mkDefinition
  (object
    [("enabled", scalar "boolean" "");
     ("spinlocks", scalar "integer" "int64")]
    [])
  [].

Definition schema_kubevirtio_api_core_v1_FeatureState : definition := mkDefinition
  (object
    [("enabled", scalar "boolean" "")]
    [])
  [].

Definition schema_kubevirtio_api_core_v1_FeatureVendorID : definition := mkDefinition
  (object
    [("enabled", scalar "boolean" "");
     ("vendorid", scalar "string" "")]
    [])
  [].

Definition schema_kubevirtio_api_core_v1_Features : definition := mkDefinition
  (object
    [("acpi", defaulted (JObj []) (ref "kubevirt.io/api/core/v1.FeatureState"));
     ("apic", ref "kubevirt.io/api/core/v1.FeatureAPIC");
     ("hypervPassthrough", ref "kubevirt.io/api/core/v1.HyperVPassthrough");
     ("hyperv", ref "kubevirt.io/api/core/v1.FeatureHyperv");
     ("smm", ref "kubevirt.io/api/core/v1.FeatureState");
     ("kvm", ref "kubevirt.io/api/core/v1.FeatureKVM");
     ("pvspinlock", ref "kubevirt.io/api/core/v1.FeatureState")]
    [])
  ["kubevirt.io/api/core/v1.FeatureAPIC"; "kubevirt.io/api/core/v1.FeatureHyperv"; "kubevirt.io/api/core/v1.FeatureKVM";
   "kubevirt.io/api/core/v1.FeatureState"; "kubevirt.io/api/core/v1.HyperVPassthrough"].

Definition schema_kubevirtio_api_core_v1_Filesystem : definition := mkDefinition
  (object
    [("name", defaulted (JStr "") (scalar "string" ""));
     ("virtiofs", ref "kubevirt.io/api/core/v1.FilesystemVirtiofs")]
    ["name"; "virtiofs"])
  ["kubevirt.io/api/core/v1.FilesystemVirtiofs"].

Definition schema_kubevirtio_api_core_v1_FilesystemVirtiofs : definition := mkDefinition
  (object [] [])
  [].

Definition schema_kubevirtio_api_core_v1_Firmware : definition := mkDefinition
  (object
    [("uuid", scalar "string" "");
     ("bootloader", ref "kubevirt.io/api/core/v1.Bootloader");
     ("serial", scalar "string" "");
     ("kernelBoot", ref "kubevirt.io/api/core/v1.KernelBoot");
     ("acpi", ref "kubevirt.io/api/core/v1.ACPI")]
    [])
  ["kubevirt.io/api/core/v1.ACPI"; "kubevirt.io/api/core/v1.Bootloader"; "kubevirt.io/api/core/v1.KernelBoot"].

Definition schema_kubevirtio_api_core_v1_Flags : definition := mkDefinition
  (object
    [("api", map_of (scalar "string" ""));
     ("controller", map_of (scalar "string" ""));
     ("handler", map_of (scalar "string" ""))]
    [])
  [].

Definition schema_kubevirtio_api_core_v1_FreezeUnfreezeTimeout : definition := mkDefinition
  (object
    [("unfreezeTimeout", ref "k8s.io/apimachinery/pkg/apis/meta/v1.Duration")]
    ["unfreezeTimeout"])
  ["k8s.io/apimachinery/pkg/apis/meta/v1.Duration"].

Definition schema_kubevirtio_api_core_v1_GPU : definition := mkDefinition
  (object
    [("name", defaulted (JStr "") (scalar "string" ""));
     ("deviceName", scalar "string" "");
     ("claimName", scalar "string" "");
     ("requestName", scalar "string" "");
     ("virtualGPUOptions", ref "kubevirt.io/api/core/v1.VGPUOptions");
     ("tag", scalar "string" "")]
    ["name"])
  ["kubevirt.io/api/core/v1.VGPUOptions"].

Definition schema_kubevirtio_api_core_v1_GenerationStatus : definition := mkDefinition
  (object
    [("group", defaulted (JStr "") (scalar "string" ""));
     ("resource", defaulted (JStr "") (scalar "string" ""));
     ("namespace", scalar "string" "");
     ("name", defaulted (JStr "") (scalar "string" ""));
     ("lastGeneration", defaulted (JNum "0") (scalar "integer" "int64"));
     ("hash", scalar "string" "")]
    ["group"; "resource"; "name"; "lastGeneration"])
  [].

Definition schema_kubevirtio_api_core_v1_GuestAgentCommandInfo : definition := mkDefinition
  (object
    [("name", defaulted (JStr "") (scalar "string" ""));
     ("enabled", scalar "boolean" "")]
    ["name"])
  [].

Definition schema_kubevirtio_api_core_v1_GuestAgentPing : definition := mkDefinition
  (object [] [])
  [].

Definition schema_kubevirtio_api_core_v1_HPETTimer : definition := mkDefinition
  (object
    [("tickPolicy", scalar "string" "");
     ("present", scalar "boolean" "")]
    [])
  [].

Definition schema_kubevirtio_api_core_v1_Handler : definition := mkDefinition
  (object
    [("exec", ref "k8s.io/api/core/v1.ExecAction");
     ("guestAgentPing", ref "kubevirt.io/api/core/v1.GuestAgentPing");
     ("httpGet", ref "k8s.io/api/core/v1.HTTPGetAction");
     ("tcpSocket", ref "k8s.io/api/core/v1.TCPSocketAction")]
    [])
  ["k8s.io/api/core/v1.ExecAction"; "k8s.io/api/core/v1.HTTPGetAction"; "k8s.io/api/core/v1.TCPSocketAction";
   "kubevirt.io/api/core/v1.GuestAgentPing"].

Definition schema_kubevirtio_api_core_v1_HostDevice : definition := mkDefinition
  (object
    [("name", defaulted (JStr "") (scalar "string" ""));
     ("deviceName", scalar "string" "");
     ("claimName", scalar "string" "");
     ("requestName", scalar "string" "");
     ("tag", scalar "string" "")]
    ["name"])
  [].

Definition schema_kubevirtio_api_core_v1_HostDisk : definition := mkDefinition
  (object
    [("path", defaulted (JStr "") (scalar "string" ""));
     ("type", defaulted (JStr "") (scalar "string" ""));
     ("capacity", ref "k8s.io/apimachinery/pkg/api/resource.Quantity");
     ("shared", scalar "boolean" "")]
    ["path"; "type"])
  ["k8s.io/apimachinery/pkg/api/resource.Quantity"].

Definition schema_kubevirtio_api_core_v1_HotplugVolumeSource : definition := mkDefinition
  (object
    [("persistentVolumeClaim", ref "kubevirt.io/api/core/v1.PersistentVolumeClaimVolumeSource");
     ("dataVolume", ref "kubevirt.io/api/core/v1.DataVolumeSource")]
    [])
  ["kubevirt.io/api/core/v1.DataVolumeSource"; "kubevirt.io/api/core/v1.PersistentVolumeClaimVolumeSource"].

Definition schema_kubevirtio_api_core_v1_HotplugVolumeStatus : definition := mkDefinition
  (object
    [("attachPodName", scalar "string" "");
     ("attachPodUID", scalar "string" "")]
    [])
  [].

Definition schema_kubevirtio_api_core_v1_Hugepages : definition := mkDefinition
  (object
    [("pageSize", scalar "string" "")]
    [])
  [].

Definition schema_kubevirtio_api_core_v1_HyperVPassthrough : definition := mkDefinition
  (object
    [("enabled", scalar "boolean" "")]
    [])
  [].

Definition schema_kubevirtio_api_core_v1_HypervTimer : definition := mkDefinition
  (object
    [("present", scalar "boolean" "")]
    [])
  [].

Definition schema_kubevirtio_api_core_v1_HypervisorConfiguration : definition := mkDefinition
  (object
    [("name", scalar "string" "")]
    [])
  [].

Definition schema_kubevirtio_api_core_v1_I6300ESBWatchdog : definition := mkDefinition
  (object
    [("action", scalar "string" "")]
    [])
  [].

Definition schema_kubevirtio_api_core_v1_InitrdInfo : definition := mkDefinition
  (object
    [("checksum", scalar "integer" "int64")]
    [])
  [].

Definition schema_kubevirtio_api_core_v1_Input : definition := mkDefinition
  (object
    [("bus", scalar "string" "");
     ("type", defaulted (JStr "") (scalar "string" ""));
     ("name", defaulted (JStr "") (scalar "string" ""))]
    ["type"; "name"])
  [].

Definition schema_kubevirtio_api_core_v1_InstancetypeConfiguration : definition := mkDefinition
  (object
    [("referencePolicy", scalar "string" "")]
    [])
  [].

Definition schema_kubevirtio_api_core_v1_InstancetypeMatcher : definition := mkDefinition
  (object
    [("name", scalar "string" "");
     ("kind", scalar "string" "");
     ("revisionName", scalar "string" "");
     ("inferFromVolume", scalar "string" "");
     ("inferFromVolumeFailurePolicy", scalar "string" "")]
    [])
  [].

Definition schema_kubevirtio_api_core_v1_InstancetypeStatusRef : definition := mkDefinition
  (object
    [("name", scalar "string" "");
     ("kind", scalar "string" "");
     ("controllerRevisionRef", ref "kubevirt.io/api/core/v1.ControllerRevisionRef");
     ("inferFromVolume", scalar "string" "");
     ("inferFromVolumeFailurePolicy", scalar "string" "")]
    [])
  ["kubevirt.io/api/core/v1.ControllerRevisionRef"].

Definition schema_kubevirtio_api_core_v1_Interface : definition := mkDefinition
  (object
    [("name", defaulted (JStr "") (scalar "string" ""));
     ("model", scalar "string" "");
     ("bridge", ref "kubevirt.io/api/core/v1.InterfaceBridge");
     ("slirp", ref "kubevirt.io/api/core/v1.DeprecatedInterfaceSlirp");
     ("masquerade", ref "kubevirt.io/api/core/v1.InterfaceMasquerade");
     ("sriov", ref "kubevirt.io/api/core/v1.InterfaceSRIOV");
     ("macvtap", ref "kubevirt.io/api/core/v1.DeprecatedInterfaceMacvtap");
     ("passt", ref "kubevirt.io/api/core/v1.DeprecatedInterfacePasst");
     ("passtBinding", ref "kubevirt.io/api/core/v1.InterfacePasstBinding");
     ("binding", ref "kubevirt.io/api/core/v1.PluginBinding");
     ("ports", array "" [] (ref "kubevirt.io/api/core/v1.Port"));
     ("macAddress", scalar "string" "");
     ("bootOrder", scalar "integer" "int32");
     ("pciAddress", scalar "string" "");
     ("dhcpOptions", ref "kubevirt.io/api/core/v1.DHCPOptions");
     ("tag", scalar "string" "");
     ("acpiIndex", scalar "integer" "int32");
     ("state", scalar "string" "")]
    ["name"])
  ["kubevirt.io/api/core/v1.DHCPOptions"; "kubevirt.io/api/core/v1.DeprecatedInterfaceMacvtap"; "kubevirt.io/api/core/v1.DeprecatedInterfacePasst";
   "kubevirt.io/api/core/v1.DeprecatedInterfaceSlirp"; "kubevirt.io/api/core/v1.InterfaceBridge"; "kubevirt.io/api/core/v1.InterfaceMasquerade";
   "kubevirt.io/api/core/v1.InterfacePasstBinding"; "kubevirt.io/api/core/v1.InterfaceSRIOV"; "kubevirt.io/api/core/v1.PluginBinding";
   "kubevirt.io/api/core/v1.Port"].

Definition schema_kubevirtio_api_core_v1_InterfaceBindingMethod : definition := mkDefinition
  (object
    [("bridge", ref "kubevirt.io/api/core/v1.InterfaceBridge");
     ("slirp", ref "kubevirt.io/api/core/v1.DeprecatedInterfaceSlirp");
     ("masquerade", ref "kubevirt.io/api/core/v1.InterfaceMasquerade");
     ("sriov", ref "kubevirt.io/api/core/v1.InterfaceSRIOV");
     ("macvtap", ref "kubevirt.io/api/core/v1.DeprecatedInterfaceMacvtap");
     ("passt", ref "kubevirt.io/api/core/v1.DeprecatedInterfacePasst");
     ("passtBinding", ref "kubevirt.io/api/core/v1.InterfacePasstBinding")]
    [])
  ["kubevirt.io/api/core/v1.DeprecatedInterfaceMacvtap"; "kubevirt.io/api/core/v1.DeprecatedInterfacePasst";
   "kubevirt.io/api/core/v1.DeprecatedInterfaceSlirp"; "kubevirt.io/api/core/v1.InterfaceBridge"; "kubevirt.io/api/core/v1.InterfaceMasquerade";
   "kubevirt.io/api/core/v1.InterfacePasstBinding"; "kubevirt.io/api/core/v1.InterfaceSRIOV"].

Definition schema_kubevirtio_api_core_v1_InterfaceBindingMigration : definition := mkDefinition
  (object
    [("method", scalar "string" "")]
    [])
  [].

Definition schema_kubevirtio_api_core_v1_InterfaceBindingPlugin : definition := mkDefinition
  (object
    [("sidecarImage", scalar "string" "");
     ("networkAttachmentDefinition", scalar "string" "");
     ("domainAttachmentType", scalar "string" "");
     ("migration", ref "kubevirt.io/api/core/v1.InterfaceBindingMigration");
     ("downwardAPI", scalar "string" "");
     ("computeResourceOverhead", ref "kubevirt.io/api/core/v1.ResourceRequirementsWithoutClaims")]
    [])
  ["kubevirt.io/api/core/v1.InterfaceBindingMigration"; "kubevirt.io/api/core/v1.ResourceRequirementsWithoutClaims"].

Definition schema_kubevirtio_api_core_v1_InterfaceBridge : definition := mkDefinition
  (object [] [])
  [].

Definition schema_kubevirtio_api_core_v1_InterfaceMasquerade : definition := mkDefinition
  (object [] [])
  [].

Definition schema_kubevirtio_api_core_v1_InterfacePasstBinding : definition := mkDefinition
  (object [] [])
  [].

Definition schema_kubevirtio_api_core_v1_InterfaceSRIOV : definition := mkDefinition
  (object [] [])
  [].

Definition schema_kubevirtio_api_core_v1_KSMConfiguration : definition := mkDefinition
  (object
    [("nodeLabelSelector", ref "k8s.io/apimachinery/pkg/apis/meta/v1.LabelSelector")]
    [])
  ["k8s.io/apimachinery/pkg/apis/meta/v1.LabelSelector"].

Definition schema_kubevirtio_api_core_v1_KVMTimer : definition := mkDefinition
  (object
    [("present", scalar "boolean" "")]
    [])
  [].

Definition schema_kubevirtio_api_core_v1_KernelBoot : definition := mkDefinition
  (object
    [("kernelArgs", scalar "string" "");
     ("container", ref "kubevirt.io/api/core/v1.KernelBootContainer")]
    [])
  ["kubevirt.io/api/core/v1.KernelBootContainer"].

Definition schema_kubevirtio_api_core_v1_KernelBootContainer : definition := mkDefinition
  (object
    [("image", defaulted (JStr "") (scalar "string" ""));
     ("imagePullSecret", scalar "string" "");
     ("imagePullPolicy", enumerated "string" "" ["Always"; "IfNotPresent"; "Never"]);
     ("kernelPath", scalar "string" "");
     ("initrdPath", scalar "string" "")]
    ["image"])
  [].

Definition schema_kubevirtio_api_core_v1_KernelBootStatus : definition := mkDefinition
  (object
    [("kernelInfo", ref "kubevirt.io/api/core/v1.KernelInfo");
     ("initrdInfo", ref "kubevirt.io/api/core/v1.InitrdInfo")]
    [])
  ["kubevirt.io/api/core/v1.InitrdInfo"; "kubevirt.io/api/core/v1.KernelInfo"].

Definition schema_kubevirtio_api_core_v1_KernelInfo : definition := mkDefinition
  (object
    [("checksum", scalar "integer" "int64")]
    [])
  [].

Definition schema_kubevirtio_api_core_v1_KubeVirt : definition := mkDefinition
  (object
    [("kind", scalar "string" "");
     ("apiVersion", scalar "string" "");
     ("metadata", defaulted (JObj []) (ref "k8s.io/apimachinery/pkg/apis/meta/v1.ObjectMeta"));
     ("spec", defaulted (JObj []) (ref "kubevirt.io/api/core/v1.KubeVirtSpec"));
     ("status", defaulted (JObj []) (ref "kubevirt.io/api/core/v1.KubeVirtStatus"))]
    ["spec"])
  ["k8s.io/apimachinery/pkg/apis/meta/v1.ObjectMeta"; "kubevirt.io/api/core/v1.KubeVirtSpec"; "kubevirt.io/api/core/v1.KubeVirtStatus"].

Definition schema_kubevirtio_api_core_v1_KubeVirtCertificateRotateStrategy : definition := mkDefinition
  (object
    [("selfSigned", ref "kubevirt.io/api/core/v1.KubeVirtSelfSignConfiguration")]
    [])
  ["kubevirt.io/api/core/v1.KubeVirtSelfSignConfiguration"].

Definition schema_kubevirtio_api_core_v1_KubeVirtCondition : definition := mkDefinition
  (object
    [("type", defaulted (JStr "") (scalar "string" ""));
     ("status", defaulted (JStr "") (scalar "string" ""));
     ("lastProbeTime", ref "k8s.io/apimachinery/pkg/apis/meta/v1.Time");
     ("lastTransitionTime", ref "k8s.io/apimachinery/pkg/apis/meta/v1.Time");
     ("reason", scalar "string" "");
     ("message", scalar "string" "")]
    ["type"; "status"])
  ["k8s.io/apimachinery/pkg/apis/meta/v1.Time"].

Definition schema_kubevirtio_api_core_v1_KubeVirtConfiguration : definition := mkDefinition
  (object
    [("cpuModel", scalar "string" "");
     ("cpuRequest", ref "k8s.io/apimachinery/pkg/api/resource.Quantity");
     ("developerConfiguration", ref "kubevirt.io/api/core/v1.DeveloperConfiguration");
     ("emulatedMachines", array "" [] (scalar "string" ""));
     ("imagePullPolicy", enumerated "string" "" ["Always"; "IfNotPresent"; "Never"]);
     ("migrations", ref "kubevirt.io/api/core/v1.MigrationConfiguration");
     ("machineType", scalar "string" "");
     ("network", ref "kubevirt.io/api/core/v1.NetworkConfiguration");
     ("ovmfPath", scalar "string" "");
     ("selinuxLauncherType", scalar "string" "");
     ("defaultRuntimeClass", scalar "string" "");
     ("smbios", ref "kubevirt.io/api/core/v1.SMBiosConfiguration");
     ("architectureConfiguration", ref "kubevirt.io/api/core/v1.ArchConfiguration");
     ("evictionStrategy", scalar "string" "");
     ("additionalGuestMemoryOverheadRatio", scalar "string" "");
     ("supportContainerResources", array "map" ["type"] (ref "kubevirt.io/api/core/v1.SupportContainerResources"));
     ("supportedGuestAgentVersions", array "" [] (scalar "string" ""));
     ("memBalloonStatsPeriod", scalar "integer" "int64");
     ("permittedHostDevices", ref "kubevirt.io/api/core/v1.PermittedHostDevices");
     ("mediatedDevicesConfiguration", ref "kubevirt.io/api/core/v1.MediatedDevicesConfiguration");
     ("minCPUModel", scalar "string" "");
     ("obsoleteCPUModels", map_of (scalar "boolean" ""));
     ("virtualMachineInstancesPerNode", scalar "integer" "int32");
     ("apiConfiguration", ref "kubevirt.io/api/core/v1.ReloadableComponentConfiguration");
     ("webhookConfiguration", ref "kubevirt.io/api/core/v1.ReloadableComponentConfiguration");
     ("controllerConfiguration", ref "kubevirt.io/api/core/v1.ReloadableComponentConfiguration");
     ("handlerConfiguration", ref "kubevirt.io/api/core/v1.ReloadableComponentConfiguration");
     ("tlsConfiguration", ref "kubevirt.io/api/core/v1.TLSConfiguration");
     ("seccompConfiguration", ref "kubevirt.io/api/core/v1.SeccompConfiguration");
     ("vmStateStorageClass", scalar "string" "");
     ("virtualMachineOptions", ref "kubevirt.io/api/core/v1.VirtualMachineOptions");
     ("ksmConfiguration", ref "kubevirt.io/api/core/v1.KSMConfiguration");
     ("autoCPULimitNamespaceLabelSelector", ref "k8s.io/apimachinery/pkg/apis/meta/v1.LabelSelector");
     ("liveUpdateConfiguration", ref "kubevirt.io/api/core/v1.LiveUpdateConfiguration");
     ("vmRolloutStrategy", scalar "string" "");
     ("commonInstancetypesDeployment", ref "kubevirt.io/api/core/v1.CommonInstancetypesDeployment");
     ("virtTemplateDeployment", ref "kubevirt.io/api/core/v1.VirtTemplateDeployment");
     ("instancetype", ref "kubevirt.io/api/core/v1.InstancetypeConfiguration");
     ("hypervisors", array "atomic" [] (ref "kubevirt.io/api/core/v1.HypervisorConfiguration"));
     ("changedBlockTrackingLabelSelectors", ref "kubevirt.io/api/core/v1.ChangedBlockTrackingSelectors");
     ("roleAggregationStrategy", scalar "string" "")]
    [])
  ["k8s.io/apimachinery/pkg/api/resource.Quantity"; "k8s.io/apimachinery/pkg/apis/meta/v1.LabelSelector";
   "kubevirt.io/api/core/v1.ArchConfiguration"; "kubevirt.io/api/core/v1.ChangedBlockTrackingSelectors";
   "kubevirt.io/api/core/v1.CommonInstancetypesDeployment"; "kubevirt.io/api/core/v1.DeveloperConfiguration";
   "kubevirt.io/api/core/v1.HypervisorConfiguration"; "kubevirt.io/api/core/v1.InstancetypeConfiguration";
   "kubevirt.io/api/core/v1.KSMConfiguration"; "kubevirt.io/api/core/v1.LiveUpdateConfiguration";
   "kubevirt.io/api/core/v1.MediatedDevicesConfiguration"; "kubevirt.io/api/core/v1.MigrationConfiguration";
   "kubevirt.io/api/core/v1.NetworkConfiguration"; "kubevirt.io/api/core/v1.PermittedHostDevices";
   "kubevirt.io/api/core/v1.ReloadableComponentConfiguration"; "kubevirt.io/api/core/v1.SMBiosConfiguration";
   "kubevirt.io/api/core/v1.SeccompConfiguration"; "kubevirt.io/api/core/v1.SupportContainerResources"; "kubevirt.io/api/core/v1.TLSConfiguration";
   "kubevirt.io/api/core/v1.VirtTemplateDeployment"; "kubevirt.io/api/core/v1.VirtualMachineOptions"].

Definition schema_kubevirtio_api_core_v1_KubeVirtList : definition := mkDefinition
  (object
    [("kind", scalar "string" "");
     ("apiVersion", scalar "string" "");
     ("metadata", defaulted (JObj []) (ref "k8s.io/apimachinery/pkg/apis/meta/v1.ListMeta"));
     ("items", array "" [] (ref "kubevirt.io/api/core/v1.KubeVirt"))]
    ["items"])
  ["k8s.io/apimachinery/pkg/apis/meta/v1.ListMeta"; "kubevirt.io/api/core/v1.KubeVirt"].

Definition schema_kubevirtio_api_core_v1_KubeVirtSelfSignConfiguration : definition := mkDefinition
  (object
    [("caRotateInterval", ref "k8s.io/apimachinery/pkg/apis/meta/v1.Duration");
     ("certRotateInterval", ref "k8s.io/apimachinery/pkg/apis/meta/v1.Duration");
     ("caOverlapInterval", ref "k8s.io/apimachinery/pkg/apis/meta/v1.Duration");
     ("ca", ref "kubevirt.io/api/core/v1.CertConfig");
     ("server", ref "kubevirt.io/api/core/v1.CertConfig")]
    [])
  ["k8s.io/apimachinery/pkg/apis/meta/v1.Duration"; "kubevirt.io/api/core/v1.CertConfig"].

Definition schema_kubevirtio_api_core_v1_KubeVirtSpec : definition := mkDefinition
  (object
    [("imageTag", scalar "string" "");
     ("imageRegistry", scalar "string" "");
     ("imagePullPolicy", enumerated "string" "" ["Always"; "IfNotPresent"; "Never"]);
     ("imagePullSecrets", array "atomic" [] (ref "k8s.io/api/core/v1.LocalObjectReference"));
     ("monitorNamespace", scalar "string" "");
     ("serviceMonitorNamespace", scalar "string" "");
     ("monitorAccount", scalar "string" "");
     ("workloadUpdateStrategy", defaulted (JObj []) (ref "kubevirt.io/api/core/v1.KubeVirtWorkloadUpdateStrategy"));
     ("uninstallStrategy", scalar "string" "");
     ("certificateRotateStrategy", defaulted (JObj []) (ref "kubevirt.io/api/core/v1.KubeVirtCertificateRotateStrategy"));
     ("productVersion", scalar "string" "");
     ("productName", scalar "string" "");
     ("productComponent", scalar "string" "");
     ("synchronizationPort", scalar "string" "");
     ("configuration", defaulted (JObj []) (ref "kubevirt.io/api/core/v1.KubeVirtConfiguration"));
     ("infra", ref "kubevirt.io/api/core/v1.ComponentConfig");
     ("workloads", ref "kubevirt.io/api/core/v1.ComponentConfig");
     ("customizeComponents", defaulted (JObj []) (ref "kubevirt.io/api/core/v1.CustomizeComponents"))]
    [])
  ["k8s.io/api/core/v1.LocalObjectReference"; "kubevirt.io/api/core/v1.ComponentConfig"; "kubevirt.io/api/core/v1.CustomizeComponents";
   "kubevirt.io/api/core/v1.KubeVirtCertificateRotateStrategy"; "kubevirt.io/api/core/v1.KubeVirtConfiguration";
   "kubevirt.io/api/core/v1.KubeVirtWorkloadUpdateStrategy"].

Definition schema_kubevirtio_api_core_v1_KubeVirtStatus : definition := mkDefinition
  (object
    [("phase", scalar "string" "");
     ("conditions", array "" [] (ref "kubevirt.io/api/core/v1.KubeVirtCondition"));
     ("operatorVersion", scalar "string" "");
     ("targetKubeVirtRegistry", scalar "string" "");
     ("targetKubeVirtVersion", scalar "string" "");
     ("targetDeploymentConfig", scalar "string" "");
     ("targetDeploymentID", scalar "string" "");
     ("observedKubeVirtRegistry", scalar "string" "");
     ("observedKubeVirtVersion", scalar "string" "");
     ("observedDeploymentConfig", scalar "string" "");
     ("observedDeploymentID", scalar "string" "");
     ("outdatedVirtualMachineInstanceWorkloads", scalar "integer" "int32");
     ("observedGeneration", scalar "integer" "int64");
     ("defaultArchitecture", scalar "string" "");
     ("generations", array "atomic" [] (ref "kubevirt.io/api/core/v1.GenerationStatus"));
     ("synchronizationAddresses", array "atomic" [] (scalar "string" ""))]
    [])
  ["kubevirt.io/api/core/v1.GenerationStatus"; "kubevirt.io/api/core/v1.KubeVirtCondition"].

Definition schema_kubevirtio_api_core_v1_KubeVirtWorkloadUpdateStrategy : definition := mkDefinition
  (object
    [("workloadUpdateMethods", array "atomic" [] (scalar "string" ""));
     ("batchEvictionSize", scalar "integer" "int32");
     ("batchEvictionInterval", ref "k8s.io/apimachinery/pkg/apis/meta/v1.Duration")]
    [])
  ["k8s.io/apimachinery/pkg/apis/meta/v1.Duration"].

Definition schema_kubevirtio_api_core_v1_LaunchSecurity : definition := mkDefinition
  (object
    [("sev", ref "kubevirt.io/api/core/v1.SEV");
     ("snp", ref "kubevirt.io/api/core/v1.SEVSNP");
     ("tdx", ref "kubevirt.io/api/core/v1.TDX")]
    [])
  ["kubevirt.io/api/core/v1.SEV"; "kubevirt.io/api/core/v1.SEVSNP"; "kubevirt.io/api/core/v1.TDX"].

Definition schema_kubevirtio_api_core_v1_LiveUpdateConfiguration : definition := mkDefinition
  (object
    [("maxHotplugRatio", scalar "integer" "int64");
     ("maxCpuSockets", scalar "integer" "int64");
     ("maxGuest", ref "k8s.io/apimachinery/pkg/api/resource.Quantity")]
    [])
  ["k8s.io/apimachinery/pkg/api/resource.Quantity"].

Definition schema_kubevirtio_api_core_v1_LogVerbosity : definition := mkDefinition
  (object
    [("virtAPI", scalar "integer" "int32");
     ("virtController", scalar "integer" "int32");
     ("virtHandler", scalar "integer" "int32");
     ("virtLauncher", scalar "integer" "int32");
     ("virtOperator", scalar "integer" "int32");
     ("virtSynchronizationController", scalar "integer" "int32");
     ("nodeVerbosity", map_of (scalar "integer" "int32"))]
    [])
  [].

Definition schema_kubevirtio_api_core_v1_LunTarget : definition := mkDefinition
  (object
    [("bus", scalar "string" "");
     ("readonly", scalar "boolean" "");
     ("reservation", scalar "boolean" "")]
    [])
  [].

Definition schema_kubevirtio_api_core_v1_Machine : definition := mkDefinition
  (object
    [("type", defaulted (JStr "") (scalar "string" ""))]
    [])
  [].

Definition schema_kubevirtio_api_core_v1_MediatedDevicesConfiguration : definition := mkDefinition
  (object
    [("mediatedDevicesTypes", array "atomic" [] (scalar "string" ""));
     ("mediatedDeviceTypes", array "atomic" [] (scalar "string" ""));
     ("nodeMediatedDeviceTypes", array "atomic" [] (ref "kubevirt.io/api/core/v1.NodeMediatedDeviceTypesConfig"));
     ("enabled", scalar "boolean" "")]
    [])
  ["kubevirt.io/api/core/v1.NodeMediatedDeviceTypesConfig"].

Definition schema_kubevirtio_api_core_v1_MediatedHostDevice : definition := mkDefinition
  (object
    [("mdevNameSelector", defaulted (JStr "") (scalar "string" ""));
     ("resourceName", defaulted (JStr "") (scalar "string" ""));
     ("externalResourceProvider", scalar "boolean" "")]
    ["mdevNameSelector"; "resourceName"])
  [].

Definition schema_kubevirtio_api_core_v1_Memory : definition := mkDefinition
  (object
    [("hugepages", ref "kubevirt.io/api/core/v1.Hugepages");
     ("guest", ref "k8s.io/apimachinery/pkg/api/resource.Quantity");
     ("maxGuest", ref "k8s.io/apimachinery/pkg/api/resource.Quantity");
     ("reservedOverhead", ref "kubevirt.io/api/core/v1.ReservedOverhead")]
    [])
  ["k8s.io/apimachinery/pkg/api/resource.Quantity"; "kubevirt.io/api/core/v1.Hugepages"; "kubevirt.io/api/core/v1.ReservedOverhead"].

Definition schema_kubevirtio_api_core_v1_MemoryDumpVolumeSource : definition := mkDefinition
  (object
    [("claimName", defaulted (JStr "") (scalar "string" ""));
     ("readOnly", scalar "boolean" "");
     ("hotpluggable", scalar "boolean" "")]
    ["claimName"])
  [].

Definition schema_kubevirtio_api_core_v1_MemoryStatus : definition := mkDefinition
  (object
    [("guestAtBoot", ref "k8s.io/apimachinery/pkg/api/resource.Quantity");
     ("guestCurrent", ref "k8s.io/apimachinery/pkg/api/resource.Quantity");
     ("guestRequested", ref "k8s.io/apimachinery/pkg/api/resource.Quantity");
     ("memoryOverhead", ref "k8s.io/apimachinery/pkg/api/resource.Quantity")]
    [])
  ["k8s.io/apimachinery/pkg/api/resource.Quantity"].

Definition schema_kubevirtio_api_core_v1_MigrateOptions : definition := mkDefinition
  (object
    [("kind", scalar "string" "");
     ("apiVersion", scalar "string" "");
     ("dryRun", array "atomic" [] (scalar "string" ""));
     ("addedNodeSelector", map_of (scalar "string" ""))]
    [])
  [].

Definition schema_kubevirtio_api_core_v1_MigrationConfiguration : definition := mkDefinition
  (object
    [("nodeDrainTaintKey", scalar "string" "");
     ("parallelOutboundMigrationsPerNode", scalar "integer" "int64");
     ("parallelMigrationsPerCluster", scalar "integer" "int64");
     ("allowAutoConverge", scalar "boolean" "");
     ("bandwidthPerMigration", ref "k8s.io/apimachinery/pkg/api/resource.Quantity");
     ("completionTimeoutPerGiB", scalar "integer" "int64");
     ("progressTimeout", scalar "integer" "int64");
     ("utilityVolumesTimeout", scalar "integer" "int64");
     ("unsafeMigrationOverride", scalar "boolean" "");
     ("allowPostCopy", scalar "boolean" "");
     ("allowWorkloadDisruption", scalar "boolean" "");
     ("disableTLS", scalar "boolean" "");
     ("network", scalar "string" "");
     ("matchSELinuxLevelOnMigration", scalar "boolean" "")]
    [])
  ["k8s.io/apimachinery/pkg/api/resource.Quantity"].

Definition schema_kubevirtio_api_core_v1_MultusNetwork : definition := mkDefinition
  (object
    [("networkName", defaulted (JStr "") (scalar "string" ""));
     ("default", scalar "boolean" "")]
    ["networkName"])
  [].

Definition schema_kubevirtio_api_core_v1_NUMA : definition := mkDefinition
  (object
    [("guestMappingPassthrough", ref "kubevirt.io/api/core/v1.NUMAGuestMappingPassthrough")]
    [])
  ["kubevirt.io/api/core/v1.NUMAGuestMappingPassthrough"].

Definition schema_kubevirtio_api_core_v1_NUMAGuestMappingPassthrough : definition := mkDefinition
  (object [] [])
  [].

Definition schema_kubevirtio_api_core_v1_Network : definition := mkDefinition
  (object
    [("name", defaulted (JStr "") (scalar "string" ""));
     ("pod", ref "kubevirt.io/api/core/v1.PodNetwork");
     ("multus", ref "kubevirt.io/api/core/v1.MultusNetwork")]
    ["name"])
  ["kubevirt.io/api/core/v1.MultusNetwork"; "kubevirt.io/api/core/v1.PodNetwork"].

Definition schema_kubevirtio_api_core_v1_NetworkConfiguration : definition := mkDefinition
  (object
    [("defaultNetworkInterface", scalar "string" "");
     ("permitSlirpInterface", scalar "boolean" "");
     ("permitBridgeInterfaceOnPodNetwork", scalar "boolean" "");
     ("binding", map_of (ref "kubevirt.io/api/core/v1.InterfaceBindingPlugin"))]
    [])
  ["kubevirt.io/api/core/v1.InterfaceBindingPlugin"].

Definition schema_kubevirtio_api_core_v1_NetworkSource : definition := mkDefinition
  (object
    [("pod", ref "kubevirt.io/api/core/v1.PodNetwork");
     ("multus", ref "kubevirt.io/api/core/v1.MultusNetwork")]
    [])
  ["kubevirt.io/api/core/v1.MultusNetwork"; "kubevirt.io/api/core/v1.PodNetwork"].

Definition schema_kubevirtio_api_core_v1_NoCloudSSHPublicKeyAccessCredentialPropagation : definition := mkDefinition
  (object [] [])
  [].

Definition schema_kubevirtio_api_core_v1_NodeMediatedDeviceTypesConfig : definition := mkDefinition
  (object
    [("nodeSelector", map_of (scalar "string" ""));
     ("mediatedDevicesTypes", array "atomic" [] (scalar "string" ""));
     ("mediatedDeviceTypes", array "atomic" [] (scalar "string" ""))]
    ["nodeSelector"])
  [].

Definition schema_kubevirtio_api_core_v1_NodePlacement : definition := mkDefinition
  (object
    [("nodeSelector", map_of (scalar "string" ""));
     ("affinity", ref "k8s.io/api/core/v1.Affinity");
     ("tolerations", array "" [] (ref "k8s.io/api/core/v1.Toleration"))]
    [])
  ["k8s.io/api/core/v1.Affinity"; "k8s.io/api/core/v1.Toleration"].

Definition schema_kubevirtio_api_core_v1_ObjectGraphNode : definition := mkDefinition
  (object
    [("kind", scalar "string" "");
     ("apiVersion", scalar "string" "");
     ("objectReference", defaulted (JObj []) (ref "k8s.io/api/core/v1.TypedObjectReference"));
     ("labels", map_of (scalar "string" ""));
     ("optional", scalar "boolean" "");
     ("children", array "atomic" [] (ref "kubevirt.io/api/core/v1.ObjectGraphNode"))]
    ["objectReference"])
  ["k8s.io/api/core/v1.TypedObjectReference"; "kubevirt.io/api/core/v1.ObjectGraphNode"].

Definition schema_kubevirtio_api_core_v1_ObjectGraphOptions : definition := mkDefinition
  (object
    [("includeOptionalNodes", scalar "boolean" "");
     ("labelSelector", ref "k8s.io/apimachinery/pkg/apis/meta/v1.LabelSelector")]
    [])
  ["k8s.io/apimachinery/pkg/apis/meta/v1.LabelSelector"].

Definition schema_kubevirtio_api_core_v1_PITTimer : definition := mkDefinition
  (object
    [("tickPolicy", scalar "string" "");
     ("present", scalar "boolean" "")]
    [])
  [].

Definition schema_kubevirtio_api_core_v1_PanicDevice : definition := mkDefinition
  (object
    [("model", scalar "string" "")]
    [])
  [].

Definition schema_kubevirtio_api_core_v1_PauseOptions : definition := mkDefinition
  (object
    [("kind", scalar "string" "");
     ("apiVersion", scalar "string" "");
     ("dryRun", array "atomic" [] (scalar "string" ""))]
    [])
  [].

Definition schema_kubevirtio_api_core_v1_PciHostDevice : definition := mkDefinition
  (object
    [("pciVendorSelector", defaulted (JStr "") (scalar "string" ""));
     ("resourceName", defaulted (JStr "") (scalar "string" ""));
     ("externalResourceProvider", scalar "boolean" "")]
    ["pciVendorSelector"; "resourceName"])
  [].

Definition schema_kubevirtio_api_core_v1_PermittedHostDevices : definition := mkDefinition
  (object
    [("pciHostDevices", array "atomic" [] (ref "kubevirt.io/api/core/v1.PciHostDevice"));
     ("mediatedDevices", array "atomic" [] (ref "kubevirt.io/api/core/v1.MediatedHostDevice"));
     ("usb", array "atomic" [] (ref "kubevirt.io/api/core/v1.USBHostDevice"))]
    [])
  ["kubevirt.io/api/core/v1.MediatedHostDevice"; "kubevirt.io/api/core/v1.PciHostDevice"; "kubevirt.io/api/core/v1.USBHostDevice"].

Definition schema_kubevirtio_api_core_v1_PersistentVolumeClaimInfo : definition := mkDefinition
  (object
    [("claimName", scalar "string" "");
     ("accessModes", array "atomic" [] (enumerated "string" "" ["ReadOnlyMany"; "ReadWriteMany"; "ReadWriteOnce"; "ReadWriteOncePod"]));
     ("volumeMode", enumerated "string" "" ["Block"; "Filesystem"; "FromStorageProfile"]);
     ("capacity", map_of (ref "k8s.io/apimachinery/pkg/api/resource.Quantity"));
     ("requests", map_of (ref "k8s.io/apimachinery/pkg/api/resource.Quantity"));
     ("preallocated", scalar "boolean" "");
     ("filesystemOverhead", scalar "string" "")]
    [])
  ["k8s.io/apimachinery/pkg/api/resource.Quantity"].

Definition schema_kubevirtio_api_core_v1_PersistentVolumeClaimVolumeSource : definition := mkDefinition
  (object
    [("claimName", defaulted (JStr "") (scalar "string" ""));
     ("readOnly", scalar "boolean" "");
     ("hotpluggable", scalar "boolean" "")]
    ["claimName"])
  [].

Definition schema_kubevirtio_api_core_v1_PluginBinding : definition := mkDefinition
  (object
    [("name", defaulted (JStr "") (scalar "string" ""))]
    ["name"])
  [].

Definition schema_kubevirtio_api_core_v1_PodNetwork : definition := mkDefinition
  (object
    [("vmNetworkCIDR", scalar "string" "");
     ("vmIPv6NetworkCIDR", scalar "string" "")]
    [])
  [].

Definition schema_kubevirtio_api_core_v1_Port : definition := mkDefinition
  (object
    [("name", scalar "string" "");
     ("protocol", scalar "string" "");
     ("port", defaulted (JNum "0") (scalar "integer" "int32"))]
    ["port"])
  [].

Definition schema_kubevirtio_api_core_v1_PreferenceMatcher : definition := mkDefinition
  (object
    [("name", scalar "string" "");
     ("kind", scalar "string" "");
     ("revisionName", scalar "string" "");
     ("inferFromVolume", scalar "string" "");
     ("inferFromVolumeFailurePolicy", scalar "string" "")]
    [])
  [].

Definition schema_kubevirtio_api_core_v1_Probe : definition := mkDefinition
  (object
    [("exec", ref "k8s.io/api/core/v1.ExecAction");
     ("guestAgentPing", ref "kubevirt.io/api/core/v1.GuestAgentPing");
     ("httpGet", ref "k8s.io/api/core/v1.HTTPGetAction");
     ("tcpSocket", ref "k8s.io/api/core/v1.TCPSocketAction");
     ("initialDelaySeconds", scalar "integer" "int32");
     ("timeoutSeconds", scalar "integer" "int32");
     ("periodSeconds", scalar "integer" "int32");
     ("successThreshold", scalar "integer" "int32");
     ("failureThreshold", scalar "integer" "int32")]
    [])
  ["k8s.io/api/core/v1.ExecAction"; "k8s.io/api/core/v1.HTTPGetAction"; "k8s.io/api/core/v1.TCPSocketAction";
   "kubevirt.io/api/core/v1.GuestAgentPing"].

Definition schema_kubevirtio_api_core_v1_ProfilerResult : definition := mkDefinition
  (object
    [("pprofData", map_of (scalar "string" "byte"))]
    [])
  [].

Definition schema_kubevirtio_api_core_v1_QemuGuestAgentSSHPublicKeyAccessCredentialPropagation : definition := mkDefinition
  (object
    [("users", array "set" [] (scalar "string" ""))]
    ["users"])
  [].

Definition schema_kubevirtio_api_core_v1_QemuGuestAgentUserPasswordAccessCredentialPropagation : definition := mkDefinition
  (object [] [])
  [].

Definition schema_kubevirtio_api_core_v1_RESTClientConfiguration : definition := mkDefinition
  (object
    [("rateLimiter", ref "kubevirt.io/api/core/v1.RateLimiter")]
    [])
  ["kubevirt.io/api/core/v1.RateLimiter"].

Definition schema_kubevirtio_api_core_v1_RTCTimer : definition := mkDefinition
  (object
    [("tickPolicy", scalar "string" "");
     ("present", scalar "boolean" "");
     ("track", scalar "string" "")]
    [])
  [].

Definition schema_kubevirtio_api_core_v1_RateLimiter : definition := mkDefinition
  (object
    [("tokenBucketRateLimiter", ref "kubevirt.io/api/core/v1.TokenBucketRateLimiter")]
    [])
  ["kubevirt.io/api/core/v1.TokenBucketRateLimiter"].

Definition schema_kubevirtio_api_core_v1_Realtime : definition := mkDefinition
  (object
    [("mask", scalar "string" "")]
    [])
  [].

Definition schema_kubevirtio_api_core_v1_ReloadableComponentConfiguration : definition := mkDefinition
  (object
    [("restClient", ref "kubevirt.io/api/core/v1.RESTClientConfiguration")]
    [])
  ["kubevirt.io/api/core/v1.RESTClientConfiguration"].

Definition schema_kubevirtio_api_core_v1_RemoveVolumeOptions : definition := mkDefinition
  (object
    [("name", defaulted (JStr "") (scalar "string" ""));
     ("dryRun", array "atomic" [] (scalar "string" ""))]
    ["name"])
  [].

Definition schema_kubevirtio_api_core_v1_ReservedOverhead : definition := mkDefinition
  (object
    [("addedOverhead", ref "k8s.io/apimachinery/pkg/api/resource.Quantity");
     ("memLock", scalar "string" "")]
    [])
  ["k8s.io/apimachinery/pkg/api/resource.Quantity"].

Definition schema_kubevirtio_api_core_v1_ResourceRequirements : definition := mkDefinition
  (object
    [("requests", map_of (ref "k8s.io/apimachinery/pkg/api/resource.Quantity"));
     ("limits", map_of (ref "k8s.io/apimachinery/pkg/api/resource.Quantity"));
     ("overcommitGuestOverhead", scalar "boolean" "")]
    [])
  ["k8s.io/apimachinery/pkg/api/resource.Quantity"].

Definition schema_kubevirtio_api_core_v1_ResourceRequirementsWithoutClaims : definition := mkDefinition
  (object
    [("limits", map_of (ref "k8s.io/apimachinery/pkg/api/resource.Quantity"));
     ("requests", map_of (ref "k8s.io/apimachinery/pkg/api/resource.Quantity"))]
    [])
  ["k8s.io/apimachinery/pkg/api/resource.Quantity"].

Definition schema_kubevirtio_api_core_v1_RestartOptions : definition := mkDefinition
  (object
    [("kind", scalar "string" "");
     ("apiVersion", scalar "string" "");
     ("gracePeriodSeconds", scalar "integer" "int64");
     ("dryRun", array "atomic" [] (scalar "string" ""))]
    [])
  [].

Definition schema_kubevirtio_api_core_v1_Rng : definition := mkDefinition
  (object [] [])
  [].

Definition schema_kubevirtio_api_core_v1_SEV : definition := mkDefinition
  (object
    [("policy", ref "kubevirt.io/api/core/v1.SEVPolicy");
     ("attestation", ref "kubevirt.io/api/core/v1.SEVAttestation");
     ("session", scalar "string" "");
     ("dhCert", scalar "string" "")]
    [])
  ["kubevirt.io/api/core/v1.SEVAttestation"; "kubevirt.io/api/core/v1.SEVPolicy"].

Definition schema_kubevirtio_api_core_v1_SEVAttestation : definition := mkDefinition
  (object [] [])
  [].

Definition schema_kubevirtio_api_core_v1_SEVMeasurementInfo : definition := mkDefinition
  (object
    [("kind", scalar "string" "");
     ("apiVersion", scalar "string" "");
     ("measurement", scalar "string" "");
     ("apiMajor", scalar "integer" "int32");
     ("apiMinor", scalar "integer" "int32");
     ("buildID", scalar "integer" "int32");
     ("policy", scalar "integer" "int32");
     ("loaderSHA", scalar "string" "")]
    [])
  [].

Definition schema_kubevirtio_api_core_v1_SEVPlatformInfo : definition := mkDefinition
  (object
    [("kind", scalar "string" "");
     ("apiVersion", scalar "string" "");
     ("pdh", scalar "string" "");
     ("certChain", scalar "string" "")]
    [])
  [].

Definition schema_kubevirtio_api_core_v1_SEVPolicy : definition := mkDefinition
  (object
    [("encryptedState", scalar "boolean" "")]
    [])
  [].

Definition schema_kubevirtio_api_core_v1_SEVSNP : definition := mkDefinition
  (object [] [])
  [].

Definition schema_kubevirtio_api_core_v1_SEVSecretOptions : definition := mkDefinition
  (object
    [("header", scalar "string" "");
     ("secret", scalar "string" "")]
    [])
  [].

Definition schema_kubevirtio_api_core_v1_SEVSessionOptions : definition := mkDefinition
  (object
    [("session", scalar "string" "");
     ("dhCert", scalar "string" "")]
    [])
  [].

Definition schema_kubevirtio_api_core_v1_SMBiosConfiguration : definition := mkDefinition
  (object
    [("manufacturer", scalar "string" "");
     ("product", scalar "string" "");
     ("version", scalar "string" "");
     ("sku", scalar "string" "");
     ("family", scalar "string" "")]
    [])
  [].

Definition schema_kubevirtio_api_core_v1_SSHPublicKeyAccessCredential : definition := mkDefinition
  (object
    [("source", defaulted (JObj []) (ref "kubevirt.io/api/core/v1.SSHPublicKeyAccessCredentialSource"));
     ("propagationMethod", defaulted (JObj []) (ref "kubevirt.io/api/core/v1.SSHPublicKeyAccessCredentialPropagationMethod"))]
    ["source"; "propagationMethod"])
  ["kubevirt.io/api/core/v1.SSHPublicKeyAccessCredentialPropagationMethod"; "kubevirt.io/api/core/v1.SSHPublicKeyAccessCredentialSource"].

Definition schema_kubevirtio_api_core_v1_SSHPublicKeyAccessCredentialPropagationMethod : definition := mkDefinition
  (object
    [("configDrive", ref "kubevirt.io/api/core/v1.ConfigDriveSSHPublicKeyAccessCredentialPropagation");
     ("noCloud", ref "kubevirt.io/api/core/v1.NoCloudSSHPublicKeyAccessCredentialPropagation");
     ("qemuGuestAgent", ref "kubevirt.io/api/core/v1.QemuGuestAgentSSHPublicKeyAccessCredentialPropagation")]
    [])
  ["kubevirt.io/api/core/v1.ConfigDriveSSHPublicKeyAccessCredentialPropagation";
   "kubevirt.io/api/core/v1.NoCloudSSHPublicKeyAccessCredentialPropagation";
   "kubevirt.io/api/core/v1.QemuGuestAgentSSHPublicKeyAccessCredentialPropagation"].

Definition schema_kubevirtio_api_core_v1_SSHPublicKeyAccessCredentialSource : definition := mkDefinition
  (object
    [("secret", ref "kubevirt.io/api/core/v1.AccessCredentialSecretSource")]
    [])
  ["kubevirt.io/api/core/v1.AccessCredentialSecretSource"].

Definition schema_kubevirtio_api_core_v1_ScreenshotOptions : definition := mkDefinition
  (object
    [("moveCursor", defaulted (JBool false) (scalar "boolean" ""))]
    ["moveCursor"])
  [].

Definition schema_kubevirtio_api_core_v1_SeccompConfiguration : definition := mkDefinition
  (object
    [("virtualMachineInstanceProfile", ref "kubevirt.io/api/core/v1.VirtualMachineInstanceProfile")]
    [])
  ["kubevirt.io/api/core/v1.VirtualMachineInstanceProfile"].

Definition schema_kubevirtio_api_core_v1_SecretVolumeSource : definition := mkDefinition
  (object
    [("secretName", scalar "string" "");
     ("optional", scalar "boolean" "");
     ("volumeLabel", scalar "string" "")]
    [])
  [].

Definition schema_kubevirtio_api_core_v1_ServiceAccountVolumeSource : definition := mkDefinition
  (object
    [("serviceAccountName", scalar "string" "")]
    [])
  [].

Definition schema_kubevirtio_api_core_v1_SoundDevice : definition := mkDefinition
  (object
    [("name", defaulted (JStr "") (scalar "string" ""));
     ("model", scalar "string" "")]
    ["name"])
  [].

Definition schema_kubevirtio_api_core_v1_StartOptions : definition := mkDefinition
  (object
    [("kind", scalar "string" "");
     ("apiVersion", scalar "string" "");
     ("paused", scalar "boolean" "");
     ("dryRun", array "atomic" [] (scalar "string" ""))]
    [])
  [].

Definition schema_kubevirtio_api_core_v1_StopOptions : definition := mkDefinition
  (object
    [("kind", scalar "string" "");
     ("apiVersion", scalar "string" "");
     ("gracePeriod", scalar "integer" "int64");
     ("dryRun", array "atomic" [] (scalar "string" ""))]
    [])
  [].

Definition schema_kubevirtio_api_core_v1_StorageMigratedVolumeInfo : definition := mkDefinition
  (object
    [("volumeName", defaulted (JStr "") (scalar "string" ""));
     ("sourcePVCInfo", ref "kubevirt.io/api/core/v1.PersistentVolumeClaimInfo");
     ("destinationPVCInfo", ref "kubevirt.io/api/core/v1.PersistentVolumeClaimInfo")]
    ["volumeName"])
  ["kubevirt.io/api/core/v1.PersistentVolumeClaimInfo"].

Definition schema_kubevirtio_api_core_v1_SupportContainerResources : definition := mkDefinition
  (object
    [("type", defaulted (JStr "") (scalar "string" ""));
     ("resources", defaulted (JObj []) (ref "kubevirt.io/api/core/v1.ResourceRequirementsWithoutClaims"))]
    ["type"; "resources"])
  ["kubevirt.io/api/core/v1.ResourceRequirementsWithoutClaims"].

Definition schema_kubevirtio_api_core_v1_SyNICTimer : definition := mkDefinition
  (object
    [("enabled", scalar "boolean" "");
     ("direct", ref "kubevirt.io/api/core/v1.FeatureState")]
    [])
  ["kubevirt.io/api/core/v1.FeatureState"].

Definition schema_kubevirtio_api_core_v1_SysprepSource : definition := mkDefinition
  (object
    [("secret", ref "k8s.io/api/core/v1.LocalObjectReference");
     ("configMap", ref "k8s.io/api/core/v1.LocalObjectReference")]
    [])
  ["k8s.io/api/core/v1.LocalObjectReference"].

Definition schema_kubevirtio_api_core_v1_TDX : definition := mkDefinition
  (object [] [])
  [].

Definition schema_kubevirtio_api_core_v1_TLBFlush : definition := mkDefinition
  (object
    [("enabled", scalar "boolean" "");
     ("direct", ref "kubevirt.io/api/core/v1.FeatureState");
     ("extended", ref "kubevirt.io/api/core/v1.FeatureState")]
    [])
  ["kubevirt.io/api/core/v1.FeatureState"].

Definition schema_kubevirtio_api_core_v1_TLSConfiguration : definition := mkDefinition
  (object
    [("minTLSVersion", scalar "string" "");
     ("ciphers", array "set" [] (scalar "string" ""))]
    [])
  [].

Definition schema_kubevirtio_api_core_v1_TPMDevice : definition := mkDefinition
  (object
    [("enabled", scalar "boolean" "");
     ("persistent", scalar "boolean" "")]
    [])
  [].

Definition schema_kubevirtio_api_core_v1_Timer : definition := mkDefinition
  (object
    [("hpet", ref "kubevirt.io/api/core/v1.HPETTimer");
     ("kvm", ref "kubevirt.io/api/core/v1.KVMTimer");
     ("pit", ref "kubevirt.io/api/core/v1.PITTimer");
     ("rtc", ref "kubevirt.io/api/core/v1.RTCTimer");
     ("hyperv", ref "kubevirt.io/api/core/v1.HypervTimer")]
    [])
  ["kubevirt.io/api/core/v1.HPETTimer"; "kubevirt.io/api/core/v1.HypervTimer"; "kubevirt.io/api/core/v1.KVMTimer";
   "kubevirt.io/api/core/v1.PITTimer"; "kubevirt.io/api/core/v1.RTCTimer"].

Definition schema_kubevirtio_api_core_v1_TokenBucketRateLimiter : definition := mkDefinition
  (object
    [("qps", defaulted (JNum "0") (scalar "number" "float"));
     ("burst", defaulted (JNum "0") (scalar "integer" "int32"))]
    ["qps"; "burst"])
  [].

Definition schema_kubevirtio_api_core_v1_TopologyHints : definition := mkDefinition
  (object
    [("tscFrequency", scalar "integer" "int64")]
    [])
  [].

Definition schema_kubevirtio_api_core_v1_USBHostDevice : definition := mkDefinition
  (object
    [("resourceName", defaulted (JStr "") (scalar "string" ""));
     ("selectors", array "atomic" [] (ref "kubevirt.io/api/core/v1.USBSelector"));
     ("externalResourceProvider", scalar "boolean" "")]
    ["resourceName"])
  ["kubevirt.io/api/core/v1.USBSelector"].

Definition schema_kubevirtio_api_core_v1_USBSelector : definition := mkDefinition
  (object
    [("vendor", defaulted (JStr "") (scalar "string" ""));
     ("product", defaulted (JStr "") (scalar "string" ""))]
    ["vendor"; "product"])
  [].

Definition schema_kubevirtio_api_core_v1_UnpauseOptions : definition := mkDefinition
  (object
    [("kind", scalar "string" "");
     ("apiVersion", scalar "string" "");
     ("dryRun", array "atomic" [] (scalar "string" ""))]
    [])
  [].

Definition schema_kubevirtio_api_core_v1_UserPasswordAccessCredential : definition := mkDefinition
  (object
    [("source", defaulted (JObj []) (ref "kubevirt.io/api/core/v1.UserPasswordAccessCredentialSource"));
     ("propagationMethod", defaulted (JObj []) (ref "kubevirt.io/api/core/v1.UserPasswordAccessCredentialPropagationMethod"))]
    ["source"; "propagationMethod"])
  ["kubevirt.io/api/core/v1.UserPasswordAccessCredentialPropagationMethod"; "kubevirt.io/api/core/v1.UserPasswordAccessCredentialSource"].

Definition schema_kubevirtio_api_core_v1_UserPasswordAccessCredentialPropagationMethod : definition := mkDefinition
  (object
    [("qemuGuestAgent", ref "kubevirt.io/api/core/v1.QemuGuestAgentUserPasswordAccessCredentialPropagation")]
    [])
  ["kubevirt.io/api/core/v1.QemuGuestAgentUserPasswordAccessCredentialPropagation"].

Definition schema_kubevirtio_api_core_v1_UserPasswordAccessCredentialSource : definition := mkDefinition
  (object
    [("secret", ref "kubevirt.io/api/core/v1.AccessCredentialSecretSource")]
    [])
  ["kubevirt.io/api/core/v1.AccessCredentialSecretSource"].

Definition schema_kubevirtio_api_core_v1_UtilityVolume : definition := mkDefinition
  (object
    [("name", defaulted (JStr "") (scalar "string" ""));
     ("claimName", defaulted (JStr "") (scalar "string" ""));
     ("readOnly", scalar "boolean" "");
     ("type", scalar "string" "")]
    ["name"; "claimName"])
  [].

Definition schema_kubevirtio_api_core_v1_VGPUDisplayOptions : definition := mkDefinition
  (object
    [("enabled", scalar "boolean" "");
     ("ramFB", ref "kubevirt.io/api/core/v1.FeatureState")]
    [])
  ["kubevirt.io/api/core/v1.FeatureState"].

Definition schema_kubevirtio_api_core_v1_VGPUOptions : definition := mkDefinition
  (object
    [("display", ref "kubevirt.io/api/core/v1.VGPUDisplayOptions")]
    [])
  ["kubevirt.io/api/core/v1.VGPUDisplayOptions"].

Definition schema_kubevirtio_api_core_v1_VMISelector : definition := mkDefinition
  (object
    [("name", defaulted (JStr "") (scalar "string" ""))]
    ["name"])
  [].

Definition schema_kubevirtio_api_core_v1_VSOCKOptions : definition := mkDefinition
  (object
    [("targetPort", defaulted (JNum "0") (scalar "integer" "int64"));
     ("useTLS", scalar "boolean" "")]
    ["targetPort"])
  [].

Definition schema_kubevirtio_api_core_v1_VideoDevice : definition := mkDefinition
  (object
    [("type", scalar "string" "")]
    [])
  [].

Definition schema_kubevirtio_api_core_v1_VirtTemplateDeployment : definition := mkDefinition
  (object
    [("enabled", scalar "boolean" "")]
    [])
  [].

Definition schema_kubevirtio_api_core_v1_VirtualMachine : definition := mkDefinition
  (object
    [("kind", scalar "string" "");
     ("apiVersion", scalar "string" "");
     ("metadata", defaulted (JObj []) (ref "k8s.io/apimachinery/pkg/apis/meta/v1.ObjectMeta"));
     ("spec", defaulted (JObj []) (ref "kubevirt.io/api/core/v1.VirtualMachineSpec"));
     ("status", defaulted (JObj []) (ref "kubevirt.io/api/core/v1.VirtualMachineStatus"))]
    ["spec"])
  ["k8s.io/apimachinery/pkg/apis/meta/v1.ObjectMeta"; "kubevirt.io/api/core/v1.VirtualMachineSpec"; "kubevirt.io/api/core/v1.VirtualMachineStatus"].

Definition schema_kubevirtio_api_core_v1_VirtualMachineCondition : definition := mkDefinition
  (object
    [("type", defaulted (JStr "") (scalar "string" ""));
     ("status", defaulted (JStr "") (scalar "string" ""));
     ("lastProbeTime", ref "k8s.io/apimachinery/pkg/apis/meta/v1.Time");
     ("lastTransitionTime", ref "k8s.io/apimachinery/pkg/apis/meta/v1.Time");
     ("reason", scalar "string" "");
     ("message", scalar "string" "")]
    ["type"; "status"])
  ["k8s.io/apimachinery/pkg/apis/meta/v1.Time"].

Definition schema_kubevirtio_api_core_v1_VirtualMachineInstance : definition := mkDefinition
  (object
    [("kind", scalar "string" "");
     ("apiVersion", scalar "string" "");
     ("metadata", defaulted (JObj []) (ref "k8s.io/apimachinery/pkg/apis/meta/v1.ObjectMeta"));
     ("spec", ref "kubevirt.io/api/core/v1.VirtualMachineInstanceSpec");
     ("status", defaulted (JObj []) (ref "kubevirt.io/api/core/v1.VirtualMachineInstanceStatus"))]
    ["spec"])
  ["k8s.io/apimachinery/pkg/apis/meta/v1.ObjectMeta"; "kubevirt.io/api/core/v1.VirtualMachineInstanceSpec";
   "kubevirt.io/api/core/v1.VirtualMachineInstanceStatus"].

Definition schema_kubevirtio_api_core_v1_VirtualMachineInstanceBackupStatus : definition := mkDefinition
  (object
    [("backupName", scalar "string" "");
     ("startTimestamp", ref "k8s.io/apimachinery/pkg/apis/meta/v1.Time");
     ("endTimestamp", ref "k8s.io/apimachinery/pkg/apis/meta/v1.Time");
     ("completed", scalar "boolean" "");
     ("failed", scalar "boolean" "");
     ("backupMsg", scalar "string" "");
     ("checkpointName", scalar "string" "");
     ("volumes", array "atomic" [] (ref "kubevirt.io/api/backup/v1alpha1.BackupVolumeInfo"))]
    [])
  ["k8s.io/apimachinery/pkg/apis/meta/v1.Time"; "kubevirt.io/api/backup/v1alpha1.BackupVolumeInfo"].

Definition schema_kubevirtio_api_core_v1_VirtualMachineInstanceCommonMigrationState : definition := mkDefinition
  (object
    [("node", scalar "string" "");
     ("pod", scalar "string" "");
     ("migrationUID", scalar "string" "");
     ("domainName", scalar "string" "");
     ("domainNamespace", scalar "string" "");
     ("syncAddress", scalar "string" "");
     ("persistentStatePVCName", scalar "string" "");
     ("selinuxContext", scalar "string" "");
     ("virtualMachineInstanceUID", scalar "string" "")]
    [])
  [].

Definition schema_kubevirtio_api_core_v1_VirtualMachineInstanceCondition : definition := mkDefinition
  (object
    [("type", defaulted (JStr "") (scalar "string" ""));
     ("status", defaulted (JStr "") (scalar "string" ""));
     ("lastProbeTime", ref "k8s.io/apimachinery/pkg/apis/meta/v1.Time");
     ("lastTransitionTime", ref "k8s.io/apimachinery/pkg/apis/meta/v1.Time");
     ("reason", scalar "string" "");
     ("message", scalar "string" "")]
    ["type"; "status"])
  ["k8s.io/apimachinery/pkg/apis/meta/v1.Time"].

Definition schema_kubevirtio_api_core_v1_VirtualMachineInstanceFileSystem : definition := mkDefinition
  (object
    [("diskName", defaulted (JStr "") (scalar "string" ""));
     ("mountPoint", defaulted (JStr "") (scalar "string" ""));
     ("fileSystemType", defaulted (JStr "") (scalar "string" ""));
     ("usedBytes", defaulted (JNum "0") (scalar "integer" "int32"));
     ("totalBytes", defaulted (JNum "0") (scalar "integer" "int32"));
     ("disk", array "" [] (ref "kubevirt.io/api/core/v1.VirtualMachineInstanceFileSystemDisk"))]
    ["diskName"; "mountPoint"; "fileSystemType"; "usedBytes"; "totalBytes"])
  ["kubevirt.io/api/core/v1.VirtualMachineInstanceFileSystemDisk"].

Definition schema_kubevirtio_api_core_v1_VirtualMachineInstanceFileSystemDisk : definition := mkDefinition
  (object
    [("serial", scalar "string" "");
     ("busType", defaulted (JStr "") (scalar "string" ""))]
    ["busType"])
  [].

Definition schema_kubevirtio_api_core_v1_VirtualMachineInstanceFileSystemInfo : definition := mkDefinition
  (object
    [("disks", array "" [] (ref "kubevirt.io/api/core/v1.VirtualMachineInstanceFileSystem"))]
    ["disks"])
  ["kubevirt.io/api/core/v1.VirtualMachineInstanceFileSystem"].

Definition schema_kubevirtio_api_core_v1_VirtualMachineInstanceFileSystemList : definition := mkDefinition
  (object
    [("kind", scalar "string" "");
     ("apiVersion", scalar "string" "");
     ("metadata", defaulted (JObj []) (ref "k8s.io/apimachinery/pkg/apis/meta/v1.ListMeta"));
     ("items", array "" [] (ref "kubevirt.io/api/core/v1.VirtualMachineInstanceFileSystem"))]
    ["items"])
  ["k8s.io/apimachinery/pkg/apis/meta/v1.ListMeta"; "kubevirt.io/api/core/v1.VirtualMachineInstanceFileSystem"].

Definition schema_kubevirtio_api_core_v1_VirtualMachineInstanceGuestAgentInfo : definition := mkDefinition
  (object
    [("kind", scalar "string" "");
     ("apiVersion", scalar "string" "");
     ("guestAgentVersion", scalar "string" "");
     ("supportedCommands", array "atomic" [] (ref "kubevirt.io/api/core/v1.GuestAgentCommandInfo"));
     ("hostname", scalar "string" "");
     ("os", defaulted (JObj []) (ref "kubevirt.io/api/core/v1.VirtualMachineInstanceGuestOSInfo"));
     ("timezone", scalar "string" "");
     ("userList", array "" [] (ref "kubevirt.io/api/core/v1.VirtualMachineInstanceGuestOSUser"));
     ("fsInfo", defaulted (JObj []) (ref "kubevirt.io/api/core/v1.VirtualMachineInstanceFileSystemInfo"));
     ("fsFreezeStatus", scalar "string" "")]
    [])
  ["kubevirt.io/api/core/v1.GuestAgentCommandInfo"; "kubevirt.io/api/core/v1.VirtualMachineInstanceFileSystemInfo";
   "kubevirt.io/api/core/v1.VirtualMachineInstanceGuestOSInfo"; "kubevirt.io/api/core/v1.VirtualMachineInstanceGuestOSUser"].

Definition schema_kubevirtio_api_core_v1_VirtualMachineInstanceGuestOSInfo : definition := mkDefinition
  (object
    [("name", scalar "string" "");
     ("kernelRelease", scalar "string" "");
     ("version", scalar "string" "");
     ("prettyName", scalar "string" "");
     ("versionId", scalar "string" "");
     ("kernelVersion", scalar "string" "");
     ("machine", scalar "string" "");
     ("id", scalar "string" "")]
    [])
  [].

Definition schema_kubevirtio_api_core_v1_VirtualMachineInstanceGuestOSUser : definition := mkDefinition
  (object
    [("userName", defaulted (JStr "") (scalar "string" ""));
     ("domain", scalar "string" "");
     ("loginTime", scalar "number" "double")]
    ["userName"])
  [].

Definition schema_kubevirtio_api_core_v1_VirtualMachineInstanceGuestOSUserList : definition := mkDefinition
  (object
    [("kind", scalar "string" "");
     ("apiVersion", scalar "string" "");
     ("metadata", defaulted (JObj []) (ref "k8s.io/apimachinery/pkg/apis/meta/v1.ListMeta"));
     ("items", array "" [] (ref "kubevirt.io/api/core/v1.VirtualMachineInstanceGuestOSUser"))]
    ["items"])
  ["k8s.io/apimachinery/pkg/apis/meta/v1.ListMeta"; "kubevirt.io/api/core/v1.VirtualMachineInstanceGuestOSUser"].

Definition schema_kubevirtio_api_core_v1_VirtualMachineInstanceList : definition := mkDefinition
  (object
    [("kind", scalar "string" "");
     ("apiVersion", scalar "string" "");
     ("metadata", defaulted (JObj []) (ref "k8s.io/apimachinery/pkg/apis/meta/v1.ListMeta"));
     ("items", array "" [] (ref "kubevirt.io/api/core/v1.VirtualMachineInstance"))]
    ["items"])
  ["k8s.io/apimachinery/pkg/apis/meta/v1.ListMeta"; "kubevirt.io/api/core/v1.VirtualMachineInstance"].

Definition schema_kubevirtio_api_core_v1_VirtualMachineInstanceMigration : definition := mkDefinition
  (object
    [("kind", scalar "string" "");
     ("apiVersion", scalar "string" "");
     ("metadata", defaulted (JObj []) (ref "k8s.io/apimachinery/pkg/apis/meta/v1.ObjectMeta"));
     ("spec", defaulted (JObj []) (ref "kubevirt.io/api/core/v1.VirtualMachineInstanceMigrationSpec"));
     ("status", defaulted (JObj []) (ref "kubevirt.io/api/core/v1.VirtualMachineInstanceMigrationStatus"))]
    ["spec"])
  ["k8s.io/apimachinery/pkg/apis/meta/v1.ObjectMeta"; "kubevirt.io/api/core/v1.VirtualMachineInstanceMigrationSpec";
   "kubevirt.io/api/core/v1.VirtualMachineInstanceMigrationStatus"].

Definition schema_kubevirtio_api_core_v1_VirtualMachineInstanceMigrationCondition : definition := mkDefinition
  (object
    [("type", defaulted (JStr "") (scalar "string" ""));
     ("status", defaulted (JStr "") (scalar "string" ""));
     ("lastProbeTime", ref "k8s.io/apimachinery/pkg/apis/meta/v1.Time");
     ("lastTransitionTime", ref "k8s.io/apimachinery/pkg/apis/meta/v1.Time");
     ("reason", scalar "string" "");
     ("message", scalar "string" "")]
    ["type"; "status"])
  ["k8s.io/apimachinery/pkg/apis/meta/v1.Time"].

Definition schema_kubevirtio_api_core_v1_VirtualMachineInstanceMigrationList : definition := mkDefinition
  (object
    [("kind", scalar "string" "");
     ("apiVersion", scalar "string" "");
     ("metadata", defaulted (JObj []) (ref "k8s.io/apimachinery/pkg/apis/meta/v1.ListMeta"));
     ("items", array "" [] (ref "kubevirt.io/api/core/v1.VirtualMachineInstanceMigration"))]
    ["items"])
  ["k8s.io/apimachinery/pkg/apis/meta/v1.ListMeta"; "kubevirt.io/api/core/v1.VirtualMachineInstanceMigration"].

Definition schema_kubevirtio_api_core_v1_VirtualMachineInstanceMigrationPhaseTransitionTimestamp : definition := mkDefinition
  (object
    [("phase", scalar "string" "");
     ("phaseTransitionTimestamp", ref "k8s.io/apimachinery/pkg/apis/meta/v1.Time")]
    [])
  ["k8s.io/apimachinery/pkg/apis/meta/v1.Time"].

Definition schema_kubevirtio_api_core_v1_VirtualMachineInstanceMigrationSource : definition := mkDefinition
  (object
    [("migrationID", defaulted (JStr "") (scalar "string" ""));
     ("connectURL", defaulted (JStr "") (scalar "string" ""))]
    ["migrationID"; "connectURL"])
  [].

Definition schema_kubevirtio_api_core_v1_VirtualMachineInstanceMigrationSourceState : definition := mkDefinition
  (object
    [("node", scalar "string" "");
     ("pod", scalar "string" "");
     ("migrationUID", scalar "string" "");
     ("domainName", scalar "string" "");
     ("domainNamespace", scalar "string" "");
     ("syncAddress", scalar "string" "");
     ("persistentStatePVCName", scalar "string" "");
     ("selinuxContext", scalar "string" "");
     ("virtualMachineInstanceUID", scalar "string" "");
     ("nodeSelectors", map_of (scalar "string" ""))]
    [])
  [].

Definition schema_kubevirtio_api_core_v1_VirtualMachineInstanceMigrationSpec : definition := mkDefinition
  (object
    [("vmiName", scalar "string" "");
     ("addedNodeSelector", map_of (scalar "string" ""));
     ("sendTo", ref "kubevirt.io/api/core/v1.VirtualMachineInstanceMigrationSource");
     ("receive", ref "kubevirt.io/api/core/v1.VirtualMachineInstanceMigrationTarget");
     ("priority", scalar "string" "")]
    [])
  ["kubevirt.io/api/core/v1.VirtualMachineInstanceMigrationSource"; "kubevirt.io/api/core/v1.VirtualMachineInstanceMigrationTarget"].

Definition schema_kubevirtio_api_core_v1_VirtualMachineInstanceMigrationState : definition := mkDefinition
  (object
    [("startTimestamp", ref "k8s.io/apimachinery/pkg/apis/meta/v1.Time");
     ("endTimestamp", ref "k8s.io/apimachinery/pkg/apis/meta/v1.Time");
     ("targetNodeDomainReadyTimestamp", ref "k8s.io/apimachinery/pkg/apis/meta/v1.Time");
     ("targetNodeDomainDetected", scalar "boolean" "");
     ("targetNodeAddress", scalar "string" "");
     ("targetDirectMigrationNodePorts", map_of (scalar "integer" "int32"));
     ("targetNode", scalar "string" "");
     ("targetPod", scalar "string" "");
     ("targetAttachmentPodUID", scalar "string" "");
     ("sourceNode", scalar "string" "");
     ("sourcePod", scalar "string" "");
     ("completed", scalar "boolean" "");
     ("failed", scalar "boolean" "");
     ("abortRequested", scalar "boolean" "");
     ("abortStatus", scalar "string" "");
     ("failureReason", scalar "string" "");
     ("migrationUid", scalar "string" "");
     ("mode", scalar "string" "");
     ("migrationPolicyName", scalar "string" "");
     ("migrationConfiguration", ref "kubevirt.io/api/core/v1.MigrationConfiguration");
     ("targetCPUSet", array "atomic" [] (scalar "integer" "int32"));
     ("targetNodeTopology", scalar "string" "");
     ("sourcePersistentStatePVCName", scalar "string" "");
     ("targetPersistentStatePVCName", scalar "string" "");
     ("sourceState", ref "kubevirt.io/api/core/v1.VirtualMachineInstanceMigrationSourceState");
     ("targetState", ref "kubevirt.io/api/core/v1.VirtualMachineInstanceMigrationTargetState");
     ("migrationNetworkType", scalar "string" "");
     ("targetMemoryOverhead", ref "k8s.io/apimachinery/pkg/api/resource.Quantity")]
    [])
  ["k8s.io/apimachinery/pkg/api/resource.Quantity"; "k8s.io/apimachinery/pkg/apis/meta/v1.Time"; "kubevirt.io/api/core/v1.MigrationConfiguration";
   "kubevirt.io/api/core/v1.VirtualMachineInstanceMigrationSourceState"; "kubevirt.io/api/core/v1.VirtualMachineInstanceMigrationTargetState"].

Definition schema_kubevirtio_api_core_v1_VirtualMachineInstanceMigrationStatus : definition := mkDefinition
  (object
    [("phase", scalar "string" "");
     ("conditions", array "" [] (ref "kubevirt.io/api/core/v1.VirtualMachineInstanceMigrationCondition"));
     ("phaseTransitionTimestamps", array "atomic" [] (ref "kubevirt.io/api/core/v1.VirtualMachineInstanceMigrationPhaseTransitionTimestamp"));
     ("migrationState", ref "kubevirt.io/api/core/v1.VirtualMachineInstanceMigrationState");
     ("synchronizationAddresses", array "atomic" [] (scalar "string" ""))]
    [])
  ["kubevirt.io/api/core/v1.VirtualMachineInstanceMigrationCondition";
   "kubevirt.io/api/core/v1.VirtualMachineInstanceMigrationPhaseTransitionTimestamp"; "kubevirt.io/api/core/v1.VirtualMachineInstanceMigrationState"].

Definition schema_kubevirtio_api_core_v1_VirtualMachineInstanceMigrationTarget : definition := mkDefinition
  (object
    [("migrationID", defaulted (JStr "") (scalar "string" ""))]
    ["migrationID"])
  [].

Definition schema_kubevirtio_api_core_v1_VirtualMachineInstanceMigrationTargetState : definition := mkDefinition
  (object
    [("node", scalar "string" "");
     ("pod", scalar "string" "");
     ("migrationUID", scalar "string" "");
     ("domainName", scalar "string" "");
     ("domainNamespace", scalar "string" "");
     ("syncAddress", scalar "string" "");
     ("persistentStatePVCName", scalar "string" "");
     ("selinuxContext", scalar "string" "");
     ("virtualMachineInstanceUID", scalar "string" "");
     ("domainReadyTimestamp", ref "k8s.io/apimachinery/pkg/apis/meta/v1.Time");
     ("domainDetected", scalar "boolean" "");
     ("nodeAddress", scalar "string" "");
     ("directMigrationNodePorts", map_of (scalar "integer" "int32"));
     ("attachmentPodUID", scalar "string" "");
     ("cpuSet", array "atomic" [] (scalar "integer" "int32"));
     ("nodeTopology", scalar "string" "")]
    [])
  ["k8s.io/apimachinery/pkg/apis/meta/v1.Time"].

Definition schema_kubevirtio_api_core_v1_VirtualMachineInstanceNetworkInterface : definition := mkDefinition
  (object
    [("ipAddress", scalar "string" "");
     ("mac", scalar "string" "");
     ("name", scalar "string" "");
     ("ipAddresses", array "" [] (scalar "string" ""));
     ("podInterfaceName", scalar "string" "");
     ("interfaceName", scalar "string" "");
     ("infoSource", scalar "string" "");
     ("queueCount", scalar "integer" "int32");
     ("linkState", scalar "string" "")]
    [])
  [].

Definition schema_kubevirtio_api_core_v1_VirtualMachineInstancePhaseTransitionTimestamp : definition := mkDefinition
  (object
    [("phase", scalar "string" "");
     ("phaseTransitionTimestamp", ref "k8s.io/apimachinery/pkg/apis/meta/v1.Time")]
    [])
  ["k8s.io/apimachinery/pkg/apis/meta/v1.Time"].

Definition schema_kubevirtio_api_core_v1_VirtualMachineInstancePreset : definition := mkDefinition
  (object
    [("kind", scalar "string" "");
     ("apiVersion", scalar "string" "");
     ("metadata", defaulted (JObj []) (ref "k8s.io/apimachinery/pkg/apis/meta/v1.ObjectMeta"));
     ("spec", defaulted (JObj []) (ref "kubevirt.io/api/core/v1.VirtualMachineInstancePresetSpec"))]
    [])
  ["k8s.io/apimachinery/pkg/apis/meta/v1.ObjectMeta"; "kubevirt.io/api/core/v1.VirtualMachineInstancePresetSpec"].

Definition schema_kubevirtio_api_core_v1_VirtualMachineInstancePresetList : definition := mkDefinition
  (object
    [("kind", scalar "string" "");
     ("apiVersion", scalar "string" "");
     ("metadata", defaulted (JObj []) (ref "k8s.io/apimachinery/pkg/apis/meta/v1.ListMeta"));
     ("items", array "" [] (ref "kubevirt.io/api/core/v1.VirtualMachineInstancePreset"))]
    ["items"])
  ["k8s.io/apimachinery/pkg/apis/meta/v1.ListMeta"; "kubevirt.io/api/core/v1.VirtualMachineInstancePreset"].

Definition schema_kubevirtio_api_core_v1_VirtualMachineInstancePresetSpec : definition := mkDefinition
  (object
    [("selector", defaulted (JObj []) (ref "k8s.io/apimachinery/pkg/apis/meta/v1.LabelSelector"));
     ("domain", ref "kubevirt.io/api/core/v1.DomainSpec")]
    ["selector"])
  ["k8s.io/apimachinery/pkg/apis/meta/v1.LabelSelector"; "kubevirt.io/api/core/v1.DomainSpec"].

Definition schema_kubevirtio_api_core_v1_VirtualMachineInstanceProfile : definition := mkDefinition
  (object
    [("customProfile", ref "kubevirt.io/api/core/v1.CustomProfile")]
    [])
  ["kubevirt.io/api/core/v1.CustomProfile"].

Definition schema_kubevirtio_api_core_v1_VirtualMachineInstanceReplicaSet : definition := mkDefinition
  (object
    [("kind", scalar "string" "");
     ("apiVersion", scalar "string" "");
     ("metadata", defaulted (JObj []) (ref "k8s.io/apimachinery/pkg/apis/meta/v1.ObjectMeta"));
     ("spec", defaulted (JObj []) (ref "kubevirt.io/api/core/v1.VirtualMachineInstanceReplicaSetSpec"));
     ("status", defaulted (JObj []) (ref "kubevirt.io/api/core/v1.VirtualMachineInstanceReplicaSetStatus"))]
    ["spec"])
  ["k8s.io/apimachinery/pkg/apis/meta/v1.ObjectMeta"; "kubevirt.io/api/core/v1.VirtualMachineInstanceReplicaSetSpec";
   "kubevirt.io/api/core/v1.VirtualMachineInstanceReplicaSetStatus"].

Definition schema_kubevirtio_api_core_v1_VirtualMachineInstanceReplicaSetCondition : definition := mkDefinition
  (object
    [("type", defaulted (JStr "") (scalar "string" ""));
     ("status", defaulted (JStr "") (scalar "string" ""));
     ("lastProbeTime", ref "k8s.io/apimachinery/pkg/apis/meta/v1.Time");
     ("lastTransitionTime", ref "k8s.io/apimachinery/pkg/apis/meta/v1.Time");
     ("reason", scalar "string" "");
     ("message", scalar "string" "")]
    ["type"; "status"])
  ["k8s.io/apimachinery/pkg/apis/meta/v1.Time"].

Definition schema_kubevirtio_api_core_v1_VirtualMachineInstanceReplicaSetList : definition := mkDefinition
  (object
    [("kind", scalar "string" "");
     ("apiVersion", scalar "string" "");
     ("metadata", defaulted (JObj []) (ref "k8s.io/apimachinery/pkg/apis/meta/v1.ListMeta"));
     ("items", array "" [] (ref "kubevirt.io/api/core/v1.VirtualMachineInstanceReplicaSet"))]
    ["items"])
  ["k8s.io/apimachinery/pkg/apis/meta/v1.ListMeta"; "kubevirt.io/api/core/v1.VirtualMachineInstanceReplicaSet"].

Definition schema_kubevirtio_api_core_v1_VirtualMachineInstanceReplicaSetSpec : definition := mkDefinition
  (object
    [("replicas", scalar "integer" "int32");
     ("selector", ref "k8s.io/apimachinery/pkg/apis/meta/v1.LabelSelector");
     ("template", ref "kubevirt.io/api/core/v1.VirtualMachineInstanceTemplateSpec");
     ("paused", scalar "boolean" "")]
    ["selector"; "template"])
  ["k8s.io/apimachinery/pkg/apis/meta/v1.LabelSelector"; "kubevirt.io/api/core/v1.VirtualMachineInstanceTemplateSpec"].

Definition schema_kubevirtio_api_core_v1_VirtualMachineInstanceReplicaSetStatus : definition := mkDefinition
  (object
    [("replicas", scalar "integer" "int32");
     ("readyReplicas", scalar "integer" "int32");
     ("conditions", array "" [] (ref "kubevirt.io/api/core/v1.VirtualMachineInstanceReplicaSetCondition"));
     ("labelSelector", scalar "string" "")]
    [])
  ["kubevirt.io/api/core/v1.VirtualMachineInstanceReplicaSetCondition"].

Definition schema_kubevirtio_api_core_v1_VirtualMachineInstanceSpec : definition := mkDefinition
  (object
    [("priorityClassName", scalar "string" "");
     ("domain", defaulted (JObj []) (ref "kubevirt.io/api/core/v1.DomainSpec"));
     ("nodeSelector", map_of (scalar "string" ""));
     ("affinity", ref "k8s.io/api/core/v1.Affinity");
     ("schedulerName", scalar "string" "");
     ("tolerations", array "" [] (ref "k8s.io/api/core/v1.Toleration"));
     ("topologySpreadConstraints", extended [("x-kubernetes-patch-merge-key", JStr "topologyKey"); ("x-kubernetes-patch-strategy", JStr "merge")] (array "map" ["topologyKey"; "whenUnsatisfiable"] (ref "k8s.io/api/core/v1.TopologySpreadConstraint")));
     ("evictionStrategy", scalar "string" "");
     ("startStrategy", scalar "string" "");
     ("terminationGracePeriodSeconds", scalar "integer" "int64");
     ("volumes", array "" [] (ref "kubevirt.io/api/core/v1.Volume"));
     ("livenessProbe", ref "kubevirt.io/api/core/v1.Probe");
     ("readinessProbe", ref "kubevirt.io/api/core/v1.Probe");
     ("hostname", scalar "string" "");
     ("subdomain", scalar "string" "");
     ("networks", array "" [] (ref "kubevirt.io/api/core/v1.Network"));
     ("dnsPolicy", enumerated "string" "" ["ClusterFirst"; "ClusterFirstWithHostNet"; "Default"; "None"]);
     ("dnsConfig", ref "k8s.io/api/core/v1.PodDNSConfig");
     ("accessCredentials", array "atomic" [] (ref "kubevirt.io/api/core/v1.AccessCredential"));
     ("architecture", scalar "string" "");
     ("resourceClaims", array "map" ["name"] (ref "k8s.io/api/core/v1.PodResourceClaim"));
     ("utilityVolumes", array "map" ["name"] (ref "kubevirt.io/api/core/v1.UtilityVolume"))]
    ["domain"])
  ["k8s.io/api/core/v1.Affinity"; "k8s.io/api/core/v1.PodDNSConfig"; "k8s.io/api/core/v1.PodResourceClaim"; "k8s.io/api/core/v1.Toleration";
   "k8s.io/api/core/v1.TopologySpreadConstraint"; "kubevirt.io/api/core/v1.AccessCredential"; "kubevirt.io/api/core/v1.DomainSpec";
   "kubevirt.io/api/core/v1.Network"; "kubevirt.io/api/core/v1.Probe"; "kubevirt.io/api/core/v1.UtilityVolume"; "kubevirt.io/api/core/v1.Volume"].

Definition schema_kubevirtio_api_core_v1_VirtualMachineInstanceStatus : definition := mkDefinition
  (object
    [("nodeName", scalar "string" "");
     ("reason", scalar "string" "");
     ("conditions", array "" [] (ref "kubevirt.io/api/core/v1.VirtualMachineInstanceCondition"));
     ("phase", scalar "string" "");
     ("phaseTransitionTimestamps", array "atomic" [] (ref "kubevirt.io/api/core/v1.VirtualMachineInstancePhaseTransitionTimestamp"));
     ("interfaces", array "" [] (ref "kubevirt.io/api/core/v1.VirtualMachineInstanceNetworkInterface"));
     ("guestOSInfo", defaulted (JObj []) (ref "kubevirt.io/api/core/v1.VirtualMachineInstanceGuestOSInfo"));
     ("migrationState", ref "kubevirt.io/api/core/v1.VirtualMachineInstanceMigrationState");
     ("migrationMethod", scalar "string" "");
     ("migrationTransport", scalar "string" "");
     ("qosClass", enumerated "string" "" ["BestEffort"; "Burstable"; "Guaranteed"]);
     ("launcherContainerImageVersion", scalar "string" "");
     ("evacuationNodeName", scalar "string" "");
     ("activePods", map_of (scalar "string" ""));
     ("volumeStatus", array "atomic" [] (ref "kubevirt.io/api/core/v1.VolumeStatus"));
     ("kernelBootStatus", ref "kubevirt.io/api/core/v1.KernelBootStatus");
     ("fsFreezeStatus", scalar "string" "");
     ("topologyHints", ref "kubevirt.io/api/core/v1.TopologyHints");
     ("virtualMachineRevisionName", scalar "string" "");
     ("runtimeUser", defaulted (JNum "0") (scalar "integer" "int64"));
     ("VSOCKCID", scalar "integer" "int64");
     ("selinuxContext", scalar "string" "");
     ("machine", ref "kubevirt.io/api/core/v1.Machine");
     ("currentCPUTopology", ref "kubevirt.io/api/core/v1.CPUTopology");
     ("memory", ref "kubevirt.io/api/core/v1.MemoryStatus");
     ("migratedVolumes", array "atomic" [] (ref "kubevirt.io/api/core/v1.StorageMigratedVolumeInfo"));
     ("changedBlockTracking", ref "kubevirt.io/api/core/v1.ChangedBlockTrackingStatus")]
    [])
  ["kubevirt.io/api/core/v1.CPUTopology"; "kubevirt.io/api/core/v1.ChangedBlockTrackingStatus"; "kubevirt.io/api/core/v1.KernelBootStatus";
   "kubevirt.io/api/core/v1.Machine"; "kubevirt.io/api/core/v1.MemoryStatus"; "kubevirt.io/api/core/v1.StorageMigratedVolumeInfo";
   "kubevirt.io/api/core/v1.TopologyHints"; "kubevirt.io/api/core/v1.VirtualMachineInstanceCondition";
   "kubevirt.io/api/core/v1.VirtualMachineInstanceGuestOSInfo"; "kubevirt.io/api/core/v1.VirtualMachineInstanceMigrationState";
   "kubevirt.io/api/core/v1.VirtualMachineInstanceNetworkInterface"; "kubevirt.io/api/core/v1.VirtualMachineInstancePhaseTransitionTimestamp";
   "kubevirt.io/api/core/v1.VolumeStatus"].

Definition schema_kubevirtio_api_core_v1_VirtualMachineInstanceTemplateSpec : definition := mkDefinition
  (object
    [("metadata", defaulted (JObj []) (ref "k8s.io/apimachinery/pkg/apis/meta/v1.ObjectMeta"));
     ("spec", ref "kubevirt.io/api/core/v1.VirtualMachineInstanceSpec")]
    [])
  ["k8s.io/apimachinery/pkg/apis/meta/v1.ObjectMeta"; "kubevirt.io/api/core/v1.VirtualMachineInstanceSpec"].

Definition schema_kubevirtio_api_core_v1_VirtualMachineList : definition := mkDefinition
  (object
    [("kind", scalar "string" "");
     ("apiVersion", scalar "string" "");
     ("metadata", defaulted (JObj []) (ref "k8s.io/apimachinery/pkg/apis/meta/v1.ListMeta"));
     ("items", array "" [] (ref "kubevirt.io/api/core/v1.VirtualMachine"))]
    ["items"])
  ["k8s.io/apimachinery/pkg/apis/meta/v1.ListMeta"; "kubevirt.io/api/core/v1.VirtualMachine"].

Definition schema_kubevirtio_api_core_v1_VirtualMachineMemoryDumpRequest : definition := mkDefinition
  (object
    [("claimName", defaulted (JStr "") (scalar "string" ""));
     ("phase", defaulted (JStr "") (scalar "string" ""));
     ("remove", scalar "boolean" "");
     ("startTimestamp", ref "k8s.io/apimachinery/pkg/apis/meta/v1.Time");
     ("endTimestamp", ref "k8s.io/apimachinery/pkg/apis/meta/v1.Time");
     ("fileName", scalar "string" "");
     ("message", scalar "string" "")]
    ["claimName"; "phase"])
  ["k8s.io/apimachinery/pkg/apis/meta/v1.Time"].

Definition schema_kubevirtio_api_core_v1_VirtualMachineOptions : definition := mkDefinition
  (object
    [("disableFreePageReporting", ref "kubevirt.io/api/core/v1.DisableFreePageReporting");
     ("disableSerialConsoleLog", ref "kubevirt.io/api/core/v1.DisableSerialConsoleLog")]
    [])
  ["kubevirt.io/api/core/v1.DisableFreePageReporting"; "kubevirt.io/api/core/v1.DisableSerialConsoleLog"].

Definition schema_kubevirtio_api_core_v1_VirtualMachineSpec : definition := mkDefinition
  (object
    [("running", scalar "boolean" "");
     ("runStrategy", scalar "string" "");
     ("instancetype", ref "kubevirt.io/api/core/v1.InstancetypeMatcher");
     ("preference", ref "kubevirt.io/api/core/v1.PreferenceMatcher");
     ("template", ref "kubevirt.io/api/core/v1.VirtualMachineInstanceTemplateSpec");
     ("dataVolumeTemplates", array "" [] (ref "kubevirt.io/api/core/v1.DataVolumeTemplateSpec"));
     ("updateVolumesStrategy", scalar "string" "")]
    ["template"])
  ["kubevirt.io/api/core/v1.DataVolumeTemplateSpec"; "kubevirt.io/api/core/v1.InstancetypeMatcher"; "kubevirt.io/api/core/v1.PreferenceMatcher";
   "kubevirt.io/api/core/v1.VirtualMachineInstanceTemplateSpec"].

Definition schema_kubevirtio_api_core_v1_VirtualMachineStartFailure : definition := mkDefinition
  (object
    [("consecutiveFailCount", scalar "integer" "int32");
     ("lastFailedVMIUID", scalar "string" "");
     ("retryAfterTimestamp", ref "k8s.io/apimachinery/pkg/apis/meta/v1.Time")]
    [])
  ["k8s.io/apimachinery/pkg/apis/meta/v1.Time"].

Definition schema_kubevirtio_api_core_v1_VirtualMachineStateChangeRequest : definition := mkDefinition
  (object
    [("action", defaulted (JStr "") (scalar "string" ""));
     ("data", map_of (scalar "string" ""));
     ("uid", scalar "string" "")]
    ["action"])
  [].

Definition schema_kubevirtio_api_core_v1_VirtualMachineStatus : definition := mkDefinition
  (object
    [("snapshotInProgress", scalar "string" "");
     ("restoreInProgress", scalar "string" "");
     ("created", scalar "boolean" "");
     ("ready", scalar "boolean" "");
     ("printableStatus", scalar "string" "");
     ("conditions", array "" [] (ref "kubevirt.io/api/core/v1.VirtualMachineCondition"));
     ("stateChangeRequests", array "" [] (ref "kubevirt.io/api/core/v1.VirtualMachineStateChangeRequest"));
     ("volumeRequests", array "atomic" [] (ref "kubevirt.io/api/core/v1.VirtualMachineVolumeRequest"));
     ("volumeSnapshotStatuses", array "" [] (ref "kubevirt.io/api/core/v1.VolumeSnapshotStatus"));
     ("startFailure", ref "kubevirt.io/api/core/v1.VirtualMachineStartFailure");
     ("memoryDumpRequest", ref "kubevirt.io/api/core/v1.VirtualMachineMemoryDumpRequest");
     ("observedGeneration", scalar "integer" "int64");
     ("desiredGeneration", scalar "integer" "int64");
     ("runStrategy", scalar "string" "");
     ("volumeUpdateState", ref "kubevirt.io/api/core/v1.VolumeUpdateState");
     ("changedBlockTracking", ref "kubevirt.io/api/core/v1.ChangedBlockTrackingStatus");
     ("instancetypeRef", ref "kubevirt.io/api/core/v1.InstancetypeStatusRef");
     ("preferenceRef", ref "kubevirt.io/api/core/v1.InstancetypeStatusRef")]
    [])
  ["kubevirt.io/api/core/v1.ChangedBlockTrackingStatus"; "kubevirt.io/api/core/v1.InstancetypeStatusRef";
   "kubevirt.io/api/core/v1.VirtualMachineCondition"; "kubevirt.io/api/core/v1.VirtualMachineMemoryDumpRequest";
   "kubevirt.io/api/core/v1.VirtualMachineStartFailure"; "kubevirt.io/api/core/v1.VirtualMachineStateChangeRequest";
   "kubevirt.io/api/core/v1.VirtualMachineVolumeRequest"; "kubevirt.io/api/core/v1.VolumeSnapshotStatus"; "kubevirt.io/api/core/v1.VolumeUpdateState"].

Definition schema_kubevirtio_api_core_v1_VirtualMachineVolumeRequest : definition := mkDefinition
  (object
    [("addVolumeOptions", ref "kubevirt.io/api/core/v1.AddVolumeOptions");
     ("removeVolumeOptions", ref "kubevirt.io/api/core/v1.RemoveVolumeOptions")]
    [])
  ["kubevirt.io/api/core/v1.AddVolumeOptions"; "kubevirt.io/api/core/v1.RemoveVolumeOptions"].

Definition schema_kubevirtio_api_core_v1_Volume : definition := mkDefinition
  (object
    [("name", defaulted (JStr "") (scalar "string" ""));
     ("hostDisk", ref "kubevirt.io/api/core/v1.HostDisk");
     ("persistentVolumeClaim", ref "kubevirt.io/api/core/v1.PersistentVolumeClaimVolumeSource");
     ("cloudInitNoCloud", ref "kubevirt.io/api/core/v1.CloudInitNoCloudSource");
     ("cloudInitConfigDrive", ref "kubevirt.io/api/core/v1.CloudInitConfigDriveSource");
     ("sysprep", ref "kubevirt.io/api/core/v1.SysprepSource");
     ("containerDisk", ref "kubevirt.io/api/core/v1.ContainerDiskSource");
     ("ephemeral", ref "kubevirt.io/api/core/v1.EphemeralVolumeSource");
     ("emptyDisk", ref "kubevirt.io/api/core/v1.EmptyDiskSource");
     ("dataVolume", ref "kubevirt.io/api/core/v1.DataVolumeSource");
     ("configMap", ref "kubevirt.io/api/core/v1.ConfigMapVolumeSource");
     ("secret", ref "kubevirt.io/api/core/v1.SecretVolumeSource");
     ("downwardAPI", ref "kubevirt.io/api/core/v1.DownwardAPIVolumeSource");
     ("serviceAccount", ref "kubevirt.io/api/core/v1.ServiceAccountVolumeSource");
     ("downwardMetrics", ref "kubevirt.io/api/core/v1.DownwardMetricsVolumeSource");
     ("memoryDump", ref "kubevirt.io/api/core/v1.MemoryDumpVolumeSource");
     ("containerPath", ref "kubevirt.io/api/core/v1.ContainerPathVolumeSource")]
    ["name"])
  ["kubevirt.io/api/core/v1.CloudInitConfigDriveSource"; "kubevirt.io/api/core/v1.CloudInitNoCloudSource";
   "kubevirt.io/api/core/v1.ConfigMapVolumeSource"; "kubevirt.io/api/core/v1.ContainerDiskSource";
   "kubevirt.io/api/core/v1.ContainerPathVolumeSource"; "kubevirt.io/api/core/v1.DataVolumeSource";
   "kubevirt.io/api/core/v1.DownwardAPIVolumeSource"; "kubevirt.io/api/core/v1.DownwardMetricsVolumeSource";
   "kubevirt.io/api/core/v1.EmptyDiskSource"; "kubevirt.io/api/core/v1.EphemeralVolumeSource"; "kubevirt.io/api/core/v1.HostDisk";
   "kubevirt.io/api/core/v1.MemoryDumpVolumeSource"; "kubevirt.io/api/core/v1.PersistentVolumeClaimVolumeSource";
   "kubevirt.io/api/core/v1.SecretVolumeSource"; "kubevirt.io/api/core/v1.ServiceAccountVolumeSource"; "kubevirt.io/api/core/v1.SysprepSource"].

Definition schema_kubevirtio_api_core_v1_VolumeMigrationState : definition := mkDefinition
  (object
    [("migratedVolumes", array "atomic" [] (ref "kubevirt.io/api/core/v1.StorageMigratedVolumeInfo"))]
    [])
  ["kubevirt.io/api/core/v1.StorageMigratedVolumeInfo"].

Definition schema_kubevirtio_api_core_v1_VolumeSnapshotStatus : definition := mkDefinition
  (object
    [("name", defaulted (JStr "") (scalar "string" ""));
     ("enabled", defaulted (JBool false) (scalar "boolean" ""));
     ("reason", scalar "string" "")]
    ["name"; "enabled"])
  [].

Definition schema_kubevirtio_api_core_v1_VolumeSource : definition := mkDefinition
  (object
    [("hostDisk", ref "kubevirt.io/api/core/v1.HostDisk");
     ("persistentVolumeClaim", ref "kubevirt.io/api/core/v1.PersistentVolumeClaimVolumeSource");
     ("cloudInitNoCloud", ref "kubevirt.io/api/core/v1.CloudInitNoCloudSource");
     ("cloudInitConfigDrive", ref "kubevirt.io/api/core/v1.CloudInitConfigDriveSource");
     ("sysprep", ref "kubevirt.io/api/core/v1.SysprepSource");
     ("containerDisk", ref "kubevirt.io/api/core/v1.ContainerDiskSource");
     ("ephemeral", ref "kubevirt.io/api/core/v1.EphemeralVolumeSource");
     ("emptyDisk", ref "kubevirt.io/api/core/v1.EmptyDiskSource");
     ("dataVolume", ref "kubevirt.io/api/core/v1.DataVolumeSource");
     ("configMap", ref "kubevirt.io/api/core/v1.ConfigMapVolumeSource");
     ("secret", ref "kubevirt.io/api/core/v1.SecretVolumeSource");
     ("downwardAPI", ref "kubevirt.io/api/core/v1.DownwardAPIVolumeSource");
     ("serviceAccount", ref "kubevirt.io/api/core/v1.ServiceAccountVolumeSource");
     ("downwardMetrics", ref "kubevirt.io/api/core/v1.DownwardMetricsVolumeSource");
     ("memoryDump", ref "kubevirt.io/api/core/v1.MemoryDumpVolumeSource");
     ("containerPath", ref "kubevirt.io/api/core/v1.ContainerPathVolumeSource")]
    [])
  ["kubevirt.io/api/core/v1.CloudInitConfigDriveSource"; "kubevirt.io/api/core/v1.CloudInitNoCloudSource";
   "kubevirt.io/api/core/v1.ConfigMapVolumeSource"; "kubevirt.io/api/core/v1.ContainerDiskSource";
   "kubevirt.io/api/core/v1.ContainerPathVolumeSource"; "kubevirt.io/api/core/v1.DataVolumeSource";
   "kubevirt.io/api/core/v1.DownwardAPIVolumeSource"; "kubevirt.io/api/core/v1.DownwardMetricsVolumeSource";
   "kubevirt.io/api/core/v1.EmptyDiskSource"; "kubevirt.io/api/core/v1.EphemeralVolumeSource"; "kubevirt.io/api/core/v1.HostDisk";
   "kubevirt.io/api/core/v1.MemoryDumpVolumeSource"; "kubevirt.io/api/core/v1.PersistentVolumeClaimVolumeSource";
   "kubevirt.io/api/core/v1.SecretVolumeSource"; "kubevirt.io/api/core/v1.ServiceAccountVolumeSource"; "kubevirt.io/api/core/v1.SysprepSource"].

Definition schema_kubevirtio_api_core_v1_VolumeStatus : definition := mkDefinition
  (object
    [("name", defaulted (JStr "") (scalar "string" ""));
     ("target", defaulted (JStr "") (scalar "string" ""));
     ("phase", scalar "string" "");
     ("reason", scalar "string" "");
     ("message", scalar "string" "");
     ("persistentVolumeClaimInfo", ref "kubevirt.io/api/core/v1.PersistentVolumeClaimInfo");
     ("hotplugVolume", ref "kubevirt.io/api/core/v1.HotplugVolumeStatus");
     ("size", scalar "integer" "int64");
     ("memoryDumpVolume", ref "kubevirt.io/api/core/v1.DomainMemoryDumpInfo");
     ("containerDiskVolume", ref "kubevirt.io/api/core/v1.ContainerDiskInfo")]
    ["name"; "target"])
  ["kubevirt.io/api/core/v1.ContainerDiskInfo"; "kubevirt.io/api/core/v1.DomainMemoryDumpInfo"; "kubevirt.io/api/core/v1.HotplugVolumeStatus";
   "kubevirt.io/api/core/v1.PersistentVolumeClaimInfo"].

Definition schema_kubevirtio_api_core_v1_VolumeUpdateState : definition := mkDefinition
  (object
    [("volumeMigrationState", ref "kubevirt.io/api/core/v1.VolumeMigrationState")]
    [])
  ["kubevirt.io/api/core/v1.VolumeMigrationState"].

Definition schema_kubevirtio_api_core_v1_Watchdog : definition := mkDefinition
  (object
    [("name", defaulted (JStr "") (scalar "string" ""));
     ("i6300esb", ref "kubevirt.io/api/core/v1.I6300ESBWatchdog");
     ("diag288", ref "kubevirt.io/api/core/v1.Diag288Watchdog")]
    ["name"])
  ["kubevirt.io/api/core/v1.Diag288Watchdog"; "kubevirt.io/api/core/v1.I6300ESBWatchdog"].

Definition schema_kubevirtio_api_core_v1_WatchdogDevice : definition := mkDefinition
  (object
    [("i6300esb", ref "kubevirt.io/api/core/v1.I6300ESBWatchdog");
     ("diag288", ref "kubevirt.io/api/core/v1.Diag288Watchdog")]
    [])
  ["kubevirt.io/api/core/v1.Diag288Watchdog"; "kubevirt.io/api/core/v1.I6300ESBWatchdog"].
