(* ===== verification/OpenApiCdi.v ===== *)
(** * Published OpenAPI schemas: kubevirt.io/containerized-data-importer-api

    The definitions of api/openapi_generated.go for the Containerized Data Importer, as far
    as they are not in OpenApi: one definition per function of the file, with
    its schema and its dependencies; descriptions are left out. *)

From stdpp Require Import prelude strings.
From S2P Require Import Json OpenApi.

Local Open Scope string_scope.

Definition schema_pkg_apis_core_v1beta1_CDI : definition := mkDefinition
  (object
    [("kind", scalar "string" "");
     ("apiVersion", scalar "string" "");
     ("metadata", defaulted (JObj []) (ref "k8s.io/apimachinery/pkg/apis/meta/v1.ObjectMeta"));
     ("spec", defaulted (JObj []) (ref "kubevirt.io/containerized-data-importer-api/pkg/apis/core/v1beta1.CDISpec"));
     ("status", defaulted (JObj []) (ref "kubevirt.io/containerized-data-importer-api/pkg/apis/core/v1beta1.CDIStatus"))]
    ["spec"])
  ["k8s.io/apimachinery/pkg/apis/meta/v1.ObjectMeta"; "kubevirt.io/containerized-data-importer-api/pkg/apis/core/v1beta1.CDISpec";
   "kubevirt.io/containerized-data-importer-api/pkg/apis/core/v1beta1.CDIStatus"].

Definition schema_pkg_apis_core_v1beta1_CDICertConfig : definition := mkDefinition
  (object
    [("ca", ref "kubevirt.io/containerized-data-importer-api/pkg/apis/core/v1beta1.CertConfig");
     ("server", ref "kubevirt.io/containerized-data-importer-api/pkg/apis/core/v1beta1.CertConfig");
     ("client", ref "kubevirt.io/containerized-data-importer-api/pkg/apis/core/v1beta1.CertConfig")]
    [])
  ["kubevirt.io/containerized-data-importer-api/pkg/apis/core/v1beta1.CertConfig"].

Definition schema_pkg_apis_core_v1beta1_CDIConfig : definition := mkDefinition
  (object
    [("kind", scalar "string" "");
     ("apiVersion", scalar "string" "");
     ("metadata", defaulted (JObj []) (ref "k8s.io/apimachinery/pkg/apis/meta/v1.ObjectMeta"));
     ("spec", defaulted (JObj []) (ref "kubevirt.io/containerized-data-importer-api/pkg/apis/core/v1beta1.CDIConfigSpec"));
     ("status", defaulted (JObj []) (ref "kubevirt.io/containerized-data-importer-api/pkg/apis/core/v1beta1.CDIConfigStatus"))]
    ["spec"])
  ["k8s.io/apimachinery/pkg/apis/meta/v1.ObjectMeta"; "kubevirt.io/containerized-data-importer-api/pkg/apis/core/v1beta1.CDIConfigSpec";
   "kubevirt.io/containerized-data-importer-api/pkg/apis/core/v1beta1.CDIConfigStatus"].

Definition schema_pkg_apis_core_v1beta1_CDIConfigList : definition := mkDefinition
  (object
    [("kind", scalar "string" "");
     ("apiVersion", scalar "string" "");
     ("metadata", defaulted (JObj []) (ref "k8s.io/apimachinery/pkg/apis/meta/v1.ListMeta"));
     ("items", array "" [] (ref "kubevirt.io/containerized-data-importer-api/pkg/apis/core/v1beta1.CDIConfig"))]
    ["metadata"; "items"])
  ["k8s.io/apimachinery/pkg/apis/meta/v1.ListMeta"; "kubevirt.io/containerized-data-importer-api/pkg/apis/core/v1beta1.CDIConfig"].

Definition schema_pkg_apis_core_v1beta1_CDIConfigSpec : definition := mkDefinition
  (object
    [("uploadProxyURLOverride", scalar "string" "");
     ("importProxy", ref "kubevirt.io/containerized-data-importer-api/pkg/apis/core/v1beta1.ImportProxy");
     ("scratchSpaceStorageClass", scalar "string" "");
     ("podResourceRequirements", ref "k8s.io/api/core/v1.ResourceRequirements");
     ("featureGates", array "" [] (scalar "string" ""));
     ("filesystemOverhead", ref "kubevirt.io/containerized-data-importer-api/pkg/apis/core/v1beta1.FilesystemOverhead");
     ("preallocation", scalar "boolean" "");
     ("insecureRegistries", array "" [] (scalar "string" ""));
     ("dataVolumeTTLSeconds", scalar "integer" "int32");
     ("tlsSecurityProfile", ref "kubevirt.io/containerized-data-importer-api/pkg/apis/core/v1beta1.TLSSecurityProfile");
     ("imagePullSecrets", array "" [] (ref "k8s.io/api/core/v1.LocalObjectReference"));
     ("logVerbosity", scalar "integer" "int32")]
    [])
  ["k8s.io/api/core/v1.LocalObjectReference"; "k8s.io/api/core/v1.ResourceRequirements";
   "kubevirt.io/containerized-data-importer-api/pkg/apis/core/v1beta1.FilesystemOverhead";
   "kubevirt.io/containerized-data-importer-api/pkg/apis/core/v1beta1.ImportProxy";
   "kubevirt.io/containerized-data-importer-api/pkg/apis/core/v1beta1.TLSSecurityProfile"].

Definition schema_pkg_apis_core_v1beta1_CDIConfigStatus : definition := mkDefinition
  (object
    [("uploadProxyURL", scalar "string" "");
     ("uploadProxyCA", scalar "string" "");
     ("importProxy", ref "kubevirt.io/containerized-data-importer-api/pkg/apis/core/v1beta1.ImportProxy");
     ("scratchSpaceStorageClass", scalar "string" "");
     ("defaultPodResourceRequirements", ref "k8s.io/api/core/v1.ResourceRequirements");
     ("filesystemOverhead", ref "kubevirt.io/containerized-data-importer-api/pkg/apis/core/v1beta1.FilesystemOverhead");
     ("preallocation", scalar "boolean" "");
     ("imagePullSecrets", array "" [] (ref "k8s.io/api/core/v1.LocalObjectReference"))]
    [])
  ["k8s.io/api/core/v1.LocalObjectReference"; "k8s.io/api/core/v1.ResourceRequirements";
   "kubevirt.io/containerized-data-importer-api/pkg/apis/core/v1beta1.FilesystemOverhead";
   "kubevirt.io/containerized-data-importer-api/pkg/apis/core/v1beta1.ImportProxy"].

Definition schema_pkg_apis_core_v1beta1_CDIList : definition := mkDefinition
  (object
    [("kind", scalar "string" "");
     ("apiVersion", scalar "string" "");
     ("metadata", defaulted (JObj []) (ref "k8s.io/apimachinery/pkg/apis/meta/v1.ListMeta"));
     ("items", array "" [] (ref "kubevirt.io/containerized-data-importer-api/pkg/apis/core/v1beta1.CDI"))]
    ["metadata"; "items"])
  ["k8s.io/apimachinery/pkg/apis/meta/v1.ListMeta"; "kubevirt.io/containerized-data-importer-api/pkg/apis/core/v1beta1.CDI"].

Definition schema_pkg_apis_core_v1beta1_CDISpec : definition := mkDefinition
  (object
    [("imagePullPolicy", enumerated "string" "" ["Always"; "IfNotPresent"; "Never"]);
     ("uninstallStrategy", scalar "string" "");
     ("infra", defaulted (JObj []) (ref "kubevirt.io/containerized-data-importer-api/pkg/apis/core/v1beta1.ComponentConfig"));
     ("workload", defaulted (JObj []) (ref "kubevirt.io/controller-lifecycle-operator-sdk/api.NodePlacement"));
     ("customizeComponents", defaulted (JObj []) (ref "kubevirt.io/containerized-data-importer-api/pkg/apis/core/v1beta1.CustomizeComponents"));
     ("cloneStrategyOverride", scalar "string" "");
     ("config", ref "kubevirt.io/containerized-data-importer-api/pkg/apis/core/v1beta1.CDIConfigSpec");
     ("certConfig", ref "kubevirt.io/containerized-data-importer-api/pkg/apis/core/v1beta1.CDICertConfig");
     ("priorityClass", scalar "string" "")]
    [])
  ["kubevirt.io/containerized-data-importer-api/pkg/apis/core/v1beta1.CDICertConfig";
   "kubevirt.io/containerized-data-importer-api/pkg/apis/core/v1beta1.CDIConfigSpec";
   "kubevirt.io/containerized-data-importer-api/pkg/apis/core/v1beta1.ComponentConfig";
   "kubevirt.io/containerized-data-importer-api/pkg/apis/core/v1beta1.CustomizeComponents";
   "kubevirt.io/controller-lifecycle-operator-sdk/api.NodePlacement"].

Definition schema_pkg_apis_core_v1beta1_CDIStatus : definition := mkDefinition
  (object
    [("phase", scalar "string" "");
     ("conditions", array "" [] (ref "github.com/openshift/custom-resource-status/conditions/v1.Condition"));
     ("operatorVersion", scalar "string" "");
     ("targetVersion", scalar "string" "");
     ("observedVersion", scalar "string" "")]
    [])
  ["github.com/openshift/custom-resource-status/conditions/v1.Condition"].

Definition schema_pkg_apis_core_v1beta1_CertConfig : definition := mkDefinition
  (object
    [("duration", ref "k8s.io/apimachinery/pkg/apis/meta/v1.Duration");
     ("renewBefore", ref "k8s.io/apimachinery/pkg/apis/meta/v1.Duration")]
    [])
  ["k8s.io/apimachinery/pkg/apis/meta/v1.Duration"].

Definition schema_pkg_apis_core_v1beta1_ClaimPropertySet : definition := mkDefinition
  (object
    [("accessModes", array "" [] (enumerated "string" "" ["ReadOnlyMany"; "ReadWriteMany"; "ReadWriteOnce"; "ReadWriteOncePod"]));
     ("volumeMode", enumerated "string" "" ["Block"; "Filesystem"; "FromStorageProfile"])]
    ["accessModes"; "volumeMode"])
  [].

Definition schema_pkg_apis_core_v1beta1_ComponentConfig : definition := mkDefinition
  (object
    [("nodeSelector", map_of (scalar "string" ""));
     ("affinity", ref "k8s.io/api/core/v1.Affinity");
     ("tolerations", array "" [] (ref "k8s.io/api/core/v1.Toleration"));
     ("deploymentReplicas", scalar "integer" "int32");
     ("apiServerReplicas", scalar "integer" "int32");
     ("uploadProxyReplicas", scalar "integer" "int32")]
    [])
  ["k8s.io/api/core/v1.Affinity"; "k8s.io/api/core/v1.Toleration"].

Definition schema_pkg_apis_core_v1beta1_ConditionState : definition := mkDefinition
  (object
    [("status", defaulted (JStr "") (scalar "string" ""));
     ("lastTransitionTime", ref "k8s.io/apimachinery/pkg/apis/meta/v1.Time");
     ("lastHeartbeatTime", ref "k8s.io/apimachinery/pkg/apis/meta/v1.Time");
     ("reason", scalar "string" "");
     ("message", scalar "string" "")]
    ["status"])
  ["k8s.io/apimachinery/pkg/apis/meta/v1.Time"].

Definition schema_pkg_apis_core_v1beta1_CustomTLSProfile : definition := mkDefinition
  (object
    [("ciphers", array "" [] (scalar "string" ""));
     ("minTLSVersion", defaulted (JStr "") (scalar "string" ""))]
    ["ciphers"; "minTLSVersion"])
  [].

Definition schema_pkg_apis_core_v1beta1_CustomizeComponents : definition := mkDefinition
  (object
    [("patches", array "atomic" [] (ref "kubevirt.io/containerized-data-importer-api/pkg/apis/core/v1beta1.CustomizeComponentsPatch"));
     ("flags", ref "kubevirt.io/containerized-data-importer-api/pkg/apis/core/v1beta1.Flags")]
    [])
  ["kubevirt.io/containerized-data-importer-api/pkg/apis/core/v1beta1.CustomizeComponentsPatch";
   "kubevirt.io/containerized-data-importer-api/pkg/apis/core/v1beta1.Flags"].

Definition schema_pkg_apis_core_v1beta1_CustomizeComponentsPatch : definition := mkDefinition
  (object
    [("resourceName", defaulted (JStr "") (scalar "string" ""));
     ("resourceType", defaulted (JStr "") (scalar "string" ""));
     ("patch", defaulted (JStr "") (scalar "string" ""));
     ("type", defaulted (JStr "") (scalar "string" ""))]
    ["resourceName"; "resourceType"; "patch"; "type"])
  [].

Definition schema_pkg_apis_core_v1beta1_DataImportCron : definition := mkDefinition
  (object
    [("kind", scalar "string" "");
     ("apiVersion", scalar "string" "");
     ("metadata", defaulted (JObj []) (ref "k8s.io/apimachinery/pkg/apis/meta/v1.ObjectMeta"));
     ("spec", defaulted (JObj []) (ref "kubevirt.io/containerized-data-importer-api/pkg/apis/core/v1beta1.DataImportCronSpec"));
     ("status", defaulted (JObj []) (ref "kubevirt.io/containerized-data-importer-api/pkg/apis/core/v1beta1.DataImportCronStatus"))]
    ["spec"])
  ["k8s.io/apimachinery/pkg/apis/meta/v1.ObjectMeta"; "kubevirt.io/containerized-data-importer-api/pkg/apis/core/v1beta1.DataImportCronSpec";
   "kubevirt.io/containerized-data-importer-api/pkg/apis/core/v1beta1.DataImportCronStatus"].

Definition schema_pkg_apis_core_v1beta1_DataImportCronCondition : definition := mkDefinition
  (object
    [("type", defaulted (JStr "") (scalar "string" ""));
     ("status", defaulted (JStr "") (scalar "string" ""));
     ("lastTransitionTime", ref "k8s.io/apimachinery/pkg/apis/meta/v1.Time");
     ("lastHeartbeatTime", ref "k8s.io/apimachinery/pkg/apis/meta/v1.Time");
     ("reason", scalar "string" "");
     ("message", scalar "string" "")]
    ["type"; "status"])
  ["k8s.io/apimachinery/pkg/apis/meta/v1.Time"].

Definition schema_pkg_apis_core_v1beta1_DataImportCronList : definition := mkDefinition
  (object
    [("kind", scalar "string" "");
     ("apiVersion", scalar "string" "");
     ("metadata", defaulted (JObj []) (ref "k8s.io/apimachinery/pkg/apis/meta/v1.ListMeta"));
     ("items", array "" [] (ref "kubevirt.io/containerized-data-importer-api/pkg/apis/core/v1beta1.DataImportCron"))]
    ["metadata"; "items"])
  ["k8s.io/apimachinery/pkg/apis/meta/v1.ListMeta"; "kubevirt.io/containerized-data-importer-api/pkg/apis/core/v1beta1.DataImportCron"].

Definition schema_pkg_apis_core_v1beta1_DataImportCronSpec : definition := mkDefinition
  (object
    [("template", defaulted (JObj []) (ref "kubevirt.io/containerized-data-importer-api/pkg/apis/core/v1beta1.DataVolume"));
     ("schedule", defaulted (JStr "") (scalar "string" ""));
     ("garbageCollect", scalar "string" "");
     ("importsToKeep", scalar "integer" "int32");
     ("managedDataSource", defaulted (JStr "") (scalar "string" ""));
     ("retentionPolicy", scalar "string" "");
     ("serviceAccountName", scalar "string" "")]
    ["template"; "schedule"; "managedDataSource"])
  ["kubevirt.io/containerized-data-importer-api/pkg/apis/core/v1beta1.DataVolume"].

Definition schema_pkg_apis_core_v1beta1_DataImportCronStatus : definition := mkDefinition
  (object
    [("currentImports", array "" [] (ref "kubevirt.io/containerized-data-importer-api/pkg/apis/core/v1beta1.ImportStatus"));
     ("lastImportedPVC", ref "kubevirt.io/containerized-data-importer-api/pkg/apis/core/v1beta1.DataVolumeSourcePVC");
     ("lastExecutionTimestamp", ref "k8s.io/apimachinery/pkg/apis/meta/v1.Time");
     ("lastImportTimestamp", ref "k8s.io/apimachinery/pkg/apis/meta/v1.Time");
     ("sourceFormat", scalar "string" "");
     ("conditions", array "" [] (ref "kubevirt.io/containerized-data-importer-api/pkg/apis/core/v1beta1.DataImportCronCondition"))]
    [])
  ["k8s.io/apimachinery/pkg/apis/meta/v1.Time"; "kubevirt.io/containerized-data-importer-api/pkg/apis/core/v1beta1.DataImportCronCondition";
   "kubevirt.io/containerized-data-importer-api/pkg/apis/core/v1beta1.DataVolumeSourcePVC";
   "kubevirt.io/containerized-data-importer-api/pkg/apis/core/v1beta1.ImportStatus"].

Definition schema_pkg_apis_core_v1beta1_DataSource : definition := mkDefinition
  (object
    [("kind", scalar "string" "");
     ("apiVersion", scalar "string" "");
     ("metadata", defaulted (JObj []) (ref "k8s.io/apimachinery/pkg/apis/meta/v1.ObjectMeta"));
     ("spec", defaulted (JObj []) (ref "kubevirt.io/containerized-data-importer-api/pkg/apis/core/v1beta1.DataSourceSpec"));
     ("status", defaulted (JObj []) (ref "kubevirt.io/containerized-data-importer-api/pkg/apis/core/v1beta1.DataSourceStatus"))]
    ["spec"])
  ["k8s.io/apimachinery/pkg/apis/meta/v1.ObjectMeta"; "kubevirt.io/containerized-data-importer-api/pkg/apis/core/v1beta1.DataSourceSpec";
   "kubevirt.io/containerized-data-importer-api/pkg/apis/core/v1beta1.DataSourceStatus"].

Definition schema_pkg_apis_core_v1beta1_DataSourceCondition : definition := mkDefinition
  (object
    [("type", defaulted (JStr "") (scalar "string" ""));
     ("status", defaulted (JStr "") (scalar "string" ""));
     ("lastTransitionTime", ref "k8s.io/apimachinery/pkg/apis/meta/v1.Time");
     ("lastHeartbeatTime", ref "k8s.io/apimachinery/pkg/apis/meta/v1.Time");
     ("reason", scalar "string" "");
     ("message", scalar "string" "")]
    ["type"; "status"])
  ["k8s.io/apimachinery/pkg/apis/meta/v1.Time"].

Definition schema_pkg_apis_core_v1beta1_DataSourceList : definition := mkDefinition
  (object
    [("kind", scalar "string" "");
     ("apiVersion", scalar "string" "");
     ("metadata", defaulted (JObj []) (ref "k8s.io/apimachinery/pkg/apis/meta/v1.ListMeta"));
     ("items", array "" [] (ref "kubevirt.io/containerized-data-importer-api/pkg/apis/core/v1beta1.DataSource"))]
    ["metadata"; "items"])
  ["k8s.io/apimachinery/pkg/apis/meta/v1.ListMeta"; "kubevirt.io/containerized-data-importer-api/pkg/apis/core/v1beta1.DataSource"].

Definition schema_pkg_apis_core_v1beta1_DataSourceRefSourceDataSource : definition := mkDefinition
  (object
    [("namespace", defaulted (JStr "") (scalar "string" ""));
     ("name", defaulted (JStr "") (scalar "string" ""))]
    ["namespace"; "name"])
  [].

Definition schema_pkg_apis_core_v1beta1_DataSourceSource : definition := mkDefinition
  (object
    [("pvc", ref "kubevirt.io/containerized-data-importer-api/pkg/apis/core/v1beta1.DataVolumeSourcePVC");
     ("snapshot", ref "kubevirt.io/containerized-data-importer-api/pkg/apis/core/v1beta1.DataVolumeSourceSnapshot");
     ("dataSource", ref "kubevirt.io/containerized-data-importer-api/pkg/apis/core/v1beta1.DataSourceRefSourceDataSource")]
    [])
  ["kubevirt.io/containerized-data-importer-api/pkg/apis/core/v1beta1.DataSourceRefSourceDataSource";
   "kubevirt.io/containerized-data-importer-api/pkg/apis/core/v1beta1.DataVolumeSourcePVC";
   "kubevirt.io/containerized-data-importer-api/pkg/apis/core/v1beta1.DataVolumeSourceSnapshot"].

Definition schema_pkg_apis_core_v1beta1_DataSourceSpec : definition := mkDefinition
  (object
    [("source", defaulted (JObj []) (ref "kubevirt.io/containerized-data-importer-api/pkg/apis/core/v1beta1.DataSourceSource"))]
    ["source"])
  ["kubevirt.io/containerized-data-importer-api/pkg/apis/core/v1beta1.DataSourceSource"].

Definition schema_pkg_apis_core_v1beta1_DataSourceStatus : definition := mkDefinition
  (object
    [("source", defaulted (JObj []) (ref "kubevirt.io/containerized-data-importer-api/pkg/apis/core/v1beta1.DataSourceSource"));
     ("conditions", array "" [] (ref "kubevirt.io/containerized-data-importer-api/pkg/apis/core/v1beta1.DataSourceCondition"))]
    [])
  ["kubevirt.io/containerized-data-importer-api/pkg/apis/core/v1beta1.DataSourceCondition";
   "kubevirt.io/containerized-data-importer-api/pkg/apis/core/v1beta1.DataSourceSource"].

Definition schema_pkg_apis_core_v1beta1_DataVolume : definition := mkDefinition
  (object
    [("kind", scalar "string" "");
     ("apiVersion", scalar "string" "");
     ("metadata", defaulted (JObj []) (ref "k8s.io/apimachinery/pkg/apis/meta/v1.ObjectMeta"));
     ("spec", defaulted (JObj []) (ref "kubevirt.io/containerized-data-importer-api/pkg/apis/core/v1beta1.DataVolumeSpec"));
     ("status", defaulted (JObj []) (ref "kubevirt.io/containerized-data-importer-api/pkg/apis/core/v1beta1.DataVolumeStatus"))]
    ["spec"])
  ["k8s.io/apimachinery/pkg/apis/meta/v1.ObjectMeta"; "kubevirt.io/containerized-data-importer-api/pkg/apis/core/v1beta1.DataVolumeSpec";
   "kubevirt.io/containerized-data-importer-api/pkg/apis/core/v1beta1.DataVolumeStatus"].

Definition schema_pkg_apis_core_v1beta1_DataVolumeBlankImage : definition := mkDefinition
  (object [] [])
  [].

Definition schema_pkg_apis_core_v1beta1_DataVolumeCheckpoint : definition := mkDefinition
  (object
    [("previous", defaulted (JStr "") (scalar "string" ""));
     ("current", defaulted (JStr "") (scalar "string" ""))]
    ["previous"; "current"])
  [].

Definition schema_pkg_apis_core_v1beta1_DataVolumeCondition : definition := mkDefinition
  (object
    [("type", defaulted (JStr "") (scalar "string" ""));
     ("status", defaulted (JStr "") (scalar "string" ""));
     ("lastTransitionTime", ref "k8s.io/apimachinery/pkg/apis/meta/v1.Time");
     ("lastHeartbeatTime", ref "k8s.io/apimachinery/pkg/apis/meta/v1.Time");
     ("reason", scalar "string" "");
     ("message", scalar "string" "")]
    ["type"; "status"])
  ["k8s.io/apimachinery/pkg/apis/meta/v1.Time"].

Definition schema_pkg_apis_core_v1beta1_DataVolumeList : definition := mkDefinition
  (object
    [("kind", scalar "string" "");
     ("apiVersion", scalar "string" "");
     ("metadata", defaulted (JObj []) (ref "k8s.io/apimachinery/pkg/apis/meta/v1.ListMeta"));
     ("items", array "" [] (ref "kubevirt.io/containerized-data-importer-api/pkg/apis/core/v1beta1.DataVolume"))]
    ["metadata"; "items"])
  ["k8s.io/apimachinery/pkg/apis/meta/v1.ListMeta"; "kubevirt.io/containerized-data-importer-api/pkg/apis/core/v1beta1.DataVolume"].

Definition schema_pkg_apis_core_v1beta1_DataVolumeSource : definition := mkDefinition
  (object
    [("http", ref "kubevirt.io/containerized-data-importer-api/pkg/apis/core/v1beta1.DataVolumeSourceHTTP");
     ("s3", ref "kubevirt.io/containerized-data-importer-api/pkg/apis/core/v1beta1.DataVolumeSourceS3");
     ("gcs", ref "kubevirt.io/containerized-data-importer-api/pkg/apis/core/v1beta1.DataVolumeSourceGCS");
     ("registry", ref "kubevirt.io/containerized-data-importer-api/pkg/apis/core/v1beta1.DataVolumeSourceRegistry");
     ("pvc", ref "kubevirt.io/containerized-data-importer-api/pkg/apis/core/v1beta1.DataVolumeSourcePVC");
     ("upload", ref "kubevirt.io/containerized-data-importer-api/pkg/apis/core/v1beta1.DataVolumeSourceUpload");
     ("blank", ref "kubevirt.io/containerized-data-importer-api/pkg/apis/core/v1beta1.DataVolumeBlankImage");
     ("imageio", ref "kubevirt.io/containerized-data-importer-api/pkg/apis/core/v1beta1.DataVolumeSourceImageIO");
     ("vddk", ref "kubevirt.io/containerized-data-importer-api/pkg/apis/core/v1beta1.DataVolumeSourceVDDK");
     ("snapshot", ref "kubevirt.io/containerized-data-importer-api/pkg/apis/core/v1beta1.DataVolumeSourceSnapshot")]
    [])
  ["kubevirt.io/containerized-data-importer-api/pkg/apis/core/v1beta1.DataVolumeBlankImage";
   "kubevirt.io/containerized-data-importer-api/pkg/apis/core/v1beta1.DataVolumeSourceGCS";
   "kubevirt.io/containerized-data-importer-api/pkg/apis/core/v1beta1.DataVolumeSourceHTTP";
   "kubevirt.io/containerized-data-importer-api/pkg/apis/core/v1beta1.DataVolumeSourceImageIO";
   "kubevirt.io/containerized-data-importer-api/pkg/apis/core/v1beta1.DataVolumeSourcePVC";
   "kubevirt.io/containerized-data-importer-api/pkg/apis/core/v1beta1.DataVolumeSourceRegistry";
   "kubevirt.io/containerized-data-importer-api/pkg/apis/core/v1beta1.DataVolumeSourceS3";
   "kubevirt.io/containerized-data-importer-api/pkg/apis/core/v1beta1.DataVolumeSourceSnapshot";
   "kubevirt.io/containerized-data-importer-api/pkg/apis/core/v1beta1.DataVolumeSourceUpload";
   "kubevirt.io/containerized-data-importer-api/pkg/apis/core/v1beta1.DataVolumeSourceVDDK"].

Definition schema_pkg_apis_core_v1beta1_DataVolumeSourceGCS : definition := mkDefinition
  (object
    [("url", defaulted (JStr "") (scalar "string" ""));
     ("secretRef", scalar "string" "")]
    ["url"])
  [].

Definition schema_pkg_apis_core_v1beta1_DataVolumeSourceHTTP : definition := mkDefinition
  (object
    [("url", defaulted (JStr "") (scalar "string" ""));
     ("secretRef", scalar "string" "");
     ("certConfigMap", scalar "string" "");
     ("extraHeaders", array "" [] (scalar "string" ""));
     ("secretExtraHeaders", array "" [] (scalar "string" ""))]
    ["url"])
  [].

Definition schema_pkg_apis_core_v1beta1_DataVolumeSourceImageIO : definition := mkDefinition
  (object
    [("url", defaulted (JStr "") (scalar "string" ""));
     ("diskId", defaulted (JStr "") (scalar "string" ""));
     ("secretRef", scalar "string" "");
     ("certConfigMap", scalar "string" "");
     ("insecureSkipVerify", scalar "boolean" "")]
    ["url"; "diskId"])
  [].

Definition schema_pkg_apis_core_v1beta1_DataVolumeSourcePVC : definition := mkDefinition
  (object
    [("namespace", defaulted (JStr "") (scalar "string" ""));
     ("name", defaulted (JStr "") (scalar "string" ""))]
    ["namespace"; "name"])
  [].

Definition schema_pkg_apis_core_v1beta1_DataVolumeSourceRef : definition := mkDefinition
  (object
    [("kind", defaulted (JStr "") (scalar "string" ""));
     ("namespace", scalar "string" "");
     ("name", defaulted (JStr "") (scalar "string" ""))]
    ["kind"; "name"])
  [].

Definition schema_pkg_apis_core_v1beta1_DataVolumeSourceRegistry : definition := mkDefinition
  (object
    [("url", scalar "string" "");
     ("imageStream", scalar "string" "");
     ("pullMethod", scalar "string" "");
     ("secretRef", scalar "string" "");
     ("certConfigMap", scalar "string" "");
     ("platform", ref "kubevirt.io/containerized-data-importer-api/pkg/apis/core/v1beta1.PlatformOptions")]
    [])
  ["kubevirt.io/containerized-data-importer-api/pkg/apis/core/v1beta1.PlatformOptions"].

Definition schema_pkg_apis_core_v1beta1_DataVolumeSourceS3 : definition := mkDefinition
  (object
    [("url", defaulted (JStr "") (scalar "string" ""));
     ("secretRef", scalar "string" "");
     ("certConfigMap", scalar "string" "")]
    ["url"])
  [].

Definition schema_pkg_apis_core_v1beta1_DataVolumeSourceSnapshot : definition := mkDefinition
  (object
    [("namespace", defaulted (JStr "") (scalar "string" ""));
     ("name", defaulted (JStr "") (scalar "string" ""))]
    ["namespace"; "name"])
  [].

Definition schema_pkg_apis_core_v1beta1_DataVolumeSourceUpload : definition := mkDefinition
  (object [] [])
  [].

Definition schema_pkg_apis_core_v1beta1_DataVolumeSourceVDDK : definition := mkDefinition
  (object
    [("url", scalar "string" "");
     ("uuid", scalar "string" "");
     ("backingFile", scalar "string" "");
     ("thumbprint", scalar "string" "");
     ("secretRef", scalar "string" "");
     ("initImageURL", scalar "string" "");
     ("extraArgs", scalar "string" "")]
    [])
  [].

Definition schema_pkg_apis_core_v1beta1_DataVolumeSpec : definition := mkDefinition
  (object
    [("source", ref "kubevirt.io/containerized-data-importer-api/pkg/apis/core/v1beta1.DataVolumeSource");
     ("sourceRef", ref "kubevirt.io/containerized-data-importer-api/pkg/apis/core/v1beta1.DataVolumeSourceRef");
     ("pvc", ref "k8s.io/api/core/v1.PersistentVolumeClaimSpec");
     ("storage", ref "kubevirt.io/containerized-data-importer-api/pkg/apis/core/v1beta1.StorageSpec");
     ("priorityClassName", scalar "string" "");
     ("contentType", scalar "string" "");
     ("checkpoints", array "" [] (ref "kubevirt.io/containerized-data-importer-api/pkg/apis/core/v1beta1.DataVolumeCheckpoint"));
     ("finalCheckpoint", scalar "boolean" "");
     ("preallocation", scalar "boolean" "")]
    [])
  ["k8s.io/api/core/v1.PersistentVolumeClaimSpec"; "kubevirt.io/containerized-data-importer-api/pkg/apis/core/v1beta1.DataVolumeCheckpoint";
   "kubevirt.io/containerized-data-importer-api/pkg/apis/core/v1beta1.DataVolumeSource";
   "kubevirt.io/containerized-data-importer-api/pkg/apis/core/v1beta1.DataVolumeSourceRef";
   "kubevirt.io/containerized-data-importer-api/pkg/apis/core/v1beta1.StorageSpec"].

Definition schema_pkg_apis_core_v1beta1_DataVolumeStatus : definition := mkDefinition
  (object
    [("claimName", scalar "string" "");
     ("phase", scalar "string" "");
     ("progress", scalar "string" "");
     ("restartCount", scalar "integer" "int32");
     ("conditions", array "" [] (ref "kubevirt.io/containerized-data-importer-api/pkg/apis/core/v1beta1.DataVolumeCondition"))]
    [])
  ["kubevirt.io/containerized-data-importer-api/pkg/apis/core/v1beta1.DataVolumeCondition"].

Definition schema_pkg_apis_core_v1beta1_FilesystemOverhead : definition := mkDefinition
  (object
    [("global", scalar "string" "");
     ("storageClass", map_of (scalar "string" ""))]
    [])
  [].

Definition schema_pkg_apis_core_v1beta1_Flags : definition := mkDefinition
  (object
    [("api", map_of (scalar "string" ""));
     ("controller", map_of (scalar "string" ""));
     ("uploadProxy", map_of (scalar "string" ""))]
    [])
  [].

Definition schema_pkg_apis_core_v1beta1_ImportProxy : definition := mkDefinition
  (object
    [("HTTPProxy", scalar "string" "");
     ("HTTPSProxy", scalar "string" "");
     ("noProxy", scalar "string" "");
     ("trustedCAProxy", scalar "string" "")]
    [])
  [].

Definition schema_pkg_apis_core_v1beta1_ImportSourceType : definition := mkDefinition
  (object
    [("http", ref "kubevirt.io/containerized-data-importer-api/pkg/apis/core/v1beta1.DataVolumeSourceHTTP");
     ("s3", ref "kubevirt.io/containerized-data-importer-api/pkg/apis/core/v1beta1.DataVolumeSourceS3");
     ("registry", ref "kubevirt.io/containerized-data-importer-api/pkg/apis/core/v1beta1.DataVolumeSourceRegistry");
     ("gcs", ref "kubevirt.io/containerized-data-importer-api/pkg/apis/core/v1beta1.DataVolumeSourceGCS");
     ("blank", ref "kubevirt.io/containerized-data-importer-api/pkg/apis/core/v1beta1.DataVolumeBlankImage");
     ("imageio", ref "kubevirt.io/containerized-data-importer-api/pkg/apis/core/v1beta1.DataVolumeSourceImageIO");
     ("vddk", ref "kubevirt.io/containerized-data-importer-api/pkg/apis/core/v1beta1.DataVolumeSourceVDDK")]
    [])
  ["kubevirt.io/containerized-data-importer-api/pkg/apis/core/v1beta1.DataVolumeBlankImage";
   "kubevirt.io/containerized-data-importer-api/pkg/apis/core/v1beta1.DataVolumeSourceGCS";
   "kubevirt.io/containerized-data-importer-api/pkg/apis/core/v1beta1.DataVolumeSourceHTTP";
   "kubevirt.io/containerized-data-importer-api/pkg/apis/core/v1beta1.DataVolumeSourceImageIO";
   "kubevirt.io/containerized-data-importer-api/pkg/apis/core/v1beta1.DataVolumeSourceRegistry";
   "kubevirt.io/containerized-data-importer-api/pkg/apis/core/v1beta1.DataVolumeSourceS3";
   "kubevirt.io/containerized-data-importer-api/pkg/apis/core/v1beta1.DataVolumeSourceVDDK"].

Definition schema_pkg_apis_core_v1beta1_ImportStatus : definition := mkDefinition
  (object
    [("DataVolumeName", defaulted (JStr "") (scalar "string" ""));
     ("Digest", defaulted (JStr "") (scalar "string" ""))]
    ["DataVolumeName"; "Digest"])
  [].

Definition schema_pkg_apis_core_v1beta1_IntermediateTLSProfile : definition := mkDefinition
  (object [] [])
  [].

Definition schema_pkg_apis_core_v1beta1_ModernTLSProfile : definition := mkDefinition
  (object [] [])
  [].

Definition schema_pkg_apis_core_v1beta1_ObjectTransfer : definition := mkDefinition
  (object
    [("kind", scalar "string" "");
     ("apiVersion", scalar "string" "");
     ("metadata", defaulted (JObj []) (ref "k8s.io/apimachinery/pkg/apis/meta/v1.ObjectMeta"));
     ("spec", defaulted (JObj []) (ref "kubevirt.io/containerized-data-importer-api/pkg/apis/core/v1beta1.ObjectTransferSpec"));
     ("status", defaulted (JObj []) (ref "kubevirt.io/containerized-data-importer-api/pkg/apis/core/v1beta1.ObjectTransferStatus"))]
    ["spec"])
  ["k8s.io/apimachinery/pkg/apis/meta/v1.ObjectMeta"; "kubevirt.io/containerized-data-importer-api/pkg/apis/core/v1beta1.ObjectTransferSpec";
   "kubevirt.io/containerized-data-importer-api/pkg/apis/core/v1beta1.ObjectTransferStatus"].

Definition schema_pkg_apis_core_v1beta1_ObjectTransferCondition : definition := mkDefinition
  (object
    [("type", defaulted (JStr "") (scalar "string" ""));
     ("status", defaulted (JStr "") (scalar "string" ""));
     ("lastTransitionTime", ref "k8s.io/apimachinery/pkg/apis/meta/v1.Time");
     ("lastHeartbeatTime", ref "k8s.io/apimachinery/pkg/apis/meta/v1.Time");
     ("reason", scalar "string" "");
     ("message", scalar "string" "")]
    ["type"; "status"])
  ["k8s.io/apimachinery/pkg/apis/meta/v1.Time"].

Definition schema_pkg_apis_core_v1beta1_ObjectTransferList : definition := mkDefinition
  (object
    [("kind", scalar "string" "");
     ("apiVersion", scalar "string" "");
     ("metadata", defaulted (JObj []) (ref "k8s.io/apimachinery/pkg/apis/meta/v1.ListMeta"));
     ("items", array "" [] (ref "kubevirt.io/containerized-data-importer-api/pkg/apis/core/v1beta1.ObjectTransfer"))]
    ["metadata"; "items"])
  ["k8s.io/apimachinery/pkg/apis/meta/v1.ListMeta"; "kubevirt.io/containerized-data-importer-api/pkg/apis/core/v1beta1.ObjectTransfer"].

Definition schema_pkg_apis_core_v1beta1_ObjectTransferSpec : definition := mkDefinition
  (object
    [("source", defaulted (JObj []) (ref "kubevirt.io/containerized-data-importer-api/pkg/apis/core/v1beta1.TransferSource"));
     ("target", defaulted (JObj []) (ref "kubevirt.io/containerized-data-importer-api/pkg/apis/core/v1beta1.TransferTarget"));
     ("parentName", scalar "string" "")]
    ["source"; "target"])
  ["kubevirt.io/containerized-data-importer-api/pkg/apis/core/v1beta1.TransferSource";
   "kubevirt.io/containerized-data-importer-api/pkg/apis/core/v1beta1.TransferTarget"].

Definition schema_pkg_apis_core_v1beta1_ObjectTransferStatus : definition := mkDefinition
  (object
    [("data", map_of (scalar "string" ""));
     ("phase", scalar "string" "");
     ("conditions", array "" [] (ref "kubevirt.io/containerized-data-importer-api/pkg/apis/core/v1beta1.ObjectTransferCondition"))]
    [])
  ["kubevirt.io/containerized-data-importer-api/pkg/apis/core/v1beta1.ObjectTransferCondition"].

Definition schema_pkg_apis_core_v1beta1_OldTLSProfile : definition := mkDefinition
  (object [] [])
  [].

Definition schema_pkg_apis_core_v1beta1_PlatformOptions : definition := mkDefinition
  (object
    [("architecture", scalar "string" "")]
    [])
  [].

Definition schema_pkg_apis_core_v1beta1_StorageProfile : definition := mkDefinition
  (object
    [("kind", scalar "string" "");
     ("apiVersion", scalar "string" "");
     ("metadata", defaulted (JObj []) (ref "k8s.io/apimachinery/pkg/apis/meta/v1.ObjectMeta"));
     ("spec", defaulted (JObj []) (ref "kubevirt.io/containerized-data-importer-api/pkg/apis/core/v1beta1.StorageProfileSpec"));
     ("status", defaulted (JObj []) (ref "kubevirt.io/containerized-data-importer-api/pkg/apis/core/v1beta1.StorageProfileStatus"))]
    ["spec"])
  ["k8s.io/apimachinery/pkg/apis/meta/v1.ObjectMeta"; "kubevirt.io/containerized-data-importer-api/pkg/apis/core/v1beta1.StorageProfileSpec";
   "kubevirt.io/containerized-data-importer-api/pkg/apis/core/v1beta1.StorageProfileStatus"].

Definition schema_pkg_apis_core_v1beta1_StorageProfileList : definition := mkDefinition
  (object
    [("kind", scalar "string" "");
     ("apiVersion", scalar "string" "");
     ("metadata", defaulted (JObj []) (ref "k8s.io/apimachinery/pkg/apis/meta/v1.ListMeta"));
     ("items", array "" [] (ref "kubevirt.io/containerized-data-importer-api/pkg/apis/core/v1beta1.StorageProfile"))]
    ["metadata"; "items"])
  ["k8s.io/apimachinery/pkg/apis/meta/v1.ListMeta"; "kubevirt.io/containerized-data-importer-api/pkg/apis/core/v1beta1.StorageProfile"].

Definition schema_pkg_apis_core_v1beta1_StorageProfileSpec : definition := mkDefinition
  (object
    [("cloneStrategy", scalar "string" "");
     ("claimPropertySets", array "" [] (ref "kubevirt.io/containerized-data-importer-api/pkg/apis/core/v1beta1.ClaimPropertySet"));
     ("dataImportCronSourceFormat", scalar "string" "");
     ("snapshotClass", scalar "string" "")]
    [])
  ["kubevirt.io/containerized-data-importer-api/pkg/apis/core/v1beta1.ClaimPropertySet"].

Definition schema_pkg_apis_core_v1beta1_StorageProfileStatus : definition := mkDefinition
  (object
    [("storageClass", scalar "string" "");
     ("provisioner", scalar "string" "");
     ("cloneStrategy", scalar "string" "");
     ("claimPropertySets", array "" [] (ref "kubevirt.io/containerized-data-importer-api/pkg/apis/core/v1beta1.ClaimPropertySet"));
     ("dataImportCronSourceFormat", scalar "string" "");
     ("snapshotClass", scalar "string" "")]
    [])
  ["kubevirt.io/containerized-data-importer-api/pkg/apis/core/v1beta1.ClaimPropertySet"].

Definition schema_pkg_apis_core_v1beta1_StorageSpec : definition := mkDefinition
  (object
    [("accessModes", array "" [] (enumerated "string" "" ["ReadOnlyMany"; "ReadWriteMany"; "ReadWriteOnce"; "ReadWriteOncePod"]));
     ("selector", ref "k8s.io/apimachinery/pkg/apis/meta/v1.LabelSelector");
     ("resources", defaulted (JObj []) (ref "k8s.io/api/core/v1.VolumeResourceRequirements"));
     ("volumeName", scalar "string" "");
     ("storageClassName", scalar "string" "");
     ("volumeMode", enumerated "string" "" ["Block"; "Filesystem"; "FromStorageProfile"]);
     ("dataSource", ref "k8s.io/api/core/v1.TypedLocalObjectReference");
     ("dataSourceRef", ref "k8s.io/api/core/v1.TypedObjectReference")]
    [])
  ["k8s.io/api/core/v1.TypedLocalObjectReference"; "k8s.io/api/core/v1.TypedObjectReference"; "k8s.io/api/core/v1.VolumeResourceRequirements";
   "k8s.io/apimachinery/pkg/apis/meta/v1.LabelSelector"].

Definition schema_pkg_apis_core_v1beta1_TLSProfileSpec : definition := mkDefinition
  (object
    [("ciphers", array "" [] (scalar "string" ""));
     ("minTLSVersion", defaulted (JStr "") (scalar "string" ""))]
    ["ciphers"; "minTLSVersion"])
  [].

Definition schema_pkg_apis_core_v1beta1_TLSSecurityProfile : definition := mkDefinition
  (extended [("x-kubernetes-unions", JArr [JObj [("discriminator", JStr "type"); ("fields-to-discriminateBy", JObj [("custom", JStr "Custom"); ("intermediate", JStr "Intermediate"); ("modern", JStr "Modern"); ("old", JStr "Old")])]])] (object
    [("type", defaulted (JStr "") (scalar "string" ""));
     ("old", ref "kubevirt.io/containerized-data-importer-api/pkg/apis/core/v1beta1.OldTLSProfile");
     ("intermediate", ref "kubevirt.io/containerized-data-importer-api/pkg/apis/core/v1beta1.IntermediateTLSProfile");
     ("modern", ref "kubevirt.io/containerized-data-importer-api/pkg/apis/core/v1beta1.ModernTLSProfile");
     ("custom", ref "kubevirt.io/containerized-data-importer-api/pkg/apis/core/v1beta1.CustomTLSProfile")]
    []))
  ["kubevirt.io/containerized-data-importer-api/pkg/apis/core/v1beta1.CustomTLSProfile";
   "kubevirt.io/containerized-data-importer-api/pkg/apis/core/v1beta1.IntermediateTLSProfile";
   "kubevirt.io/containerized-data-importer-api/pkg/apis/core/v1beta1.ModernTLSProfile";
   "kubevirt.io/containerized-data-importer-api/pkg/apis/core/v1beta1.OldTLSProfile"].

Definition schema_pkg_apis_core_v1beta1_TransferSource : definition := mkDefinition
  (object
    [("apiVersion", scalar "string" "");
     ("kind", defaulted (JStr "") (scalar "string" ""));
     ("namespace", defaulted (JStr "") (scalar "string" ""));
     ("name", defaulted (JStr "") (scalar "string" ""));
     ("requiredAnnotations", map_of (scalar "string" ""))]
    ["kind"; "namespace"; "name"])
  [].

Definition schema_pkg_apis_core_v1beta1_TransferTarget : definition := mkDefinition
  (object
    [("namespace", scalar "string" "");
     ("name", scalar "string" "")]
    [])
  [].

Definition schema_pkg_apis_core_v1beta1_VolumeCloneSource : definition := mkDefinition
  (object
    [("kind", scalar "string" "");
     ("apiVersion", scalar "string" "");
     ("metadata", defaulted (JObj []) (ref "k8s.io/apimachinery/pkg/apis/meta/v1.ObjectMeta"));
     ("spec", defaulted (JObj []) (ref "kubevirt.io/containerized-data-importer-api/pkg/apis/core/v1beta1.VolumeCloneSourceSpec"))]
    ["spec"])
  ["k8s.io/apimachinery/pkg/apis/meta/v1.ObjectMeta"; "kubevirt.io/containerized-data-importer-api/pkg/apis/core/v1beta1.VolumeCloneSourceSpec"].

Definition schema_pkg_apis_core_v1beta1_VolumeCloneSourceList : definition := mkDefinition
  (object
    [("kind", scalar "string" "");
     ("apiVersion", scalar "string" "");
     ("metadata", defaulted (JObj []) (ref "k8s.io/apimachinery/pkg/apis/meta/v1.ListMeta"));
     ("items", array "" [] (ref "kubevirt.io/containerized-data-importer-api/pkg/apis/core/v1beta1.VolumeCloneSource"))]
    ["metadata"; "items"])
  ["k8s.io/apimachinery/pkg/apis/meta/v1.ListMeta"; "kubevirt.io/containerized-data-importer-api/pkg/apis/core/v1beta1.VolumeCloneSource"].

Definition schema_pkg_apis_core_v1beta1_VolumeCloneSourceSpec : definition := mkDefinition
  (object
    [("source", defaulted (JObj []) (ref "k8s.io/api/core/v1.TypedLocalObjectReference"));
     ("preallocation", scalar "boolean" "");
     ("priorityClassName", scalar "string" "")]
    ["source"])
  ["k8s.io/api/core/v1.TypedLocalObjectReference"].

Definition schema_pkg_apis_core_v1beta1_VolumeImportSource : definition := mkDefinition
  (object
    [("kind", scalar "string" "");
     ("apiVersion", scalar "string" "");
     ("metadata", defaulted (JObj []) (ref "k8s.io/apimachinery/pkg/apis/meta/v1.ObjectMeta"));
     ("spec", defaulted (JObj []) (ref "kubevirt.io/containerized-data-importer-api/pkg/apis/core/v1beta1.VolumeImportSourceSpec"));
     ("status", defaulted (JObj []) (ref "kubevirt.io/containerized-data-importer-api/pkg/apis/core/v1beta1.VolumeImportSourceStatus"))]
    ["spec"])
  ["k8s.io/apimachinery/pkg/apis/meta/v1.ObjectMeta"; "kubevirt.io/containerized-data-importer-api/pkg/apis/core/v1beta1.VolumeImportSourceSpec";
   "kubevirt.io/containerized-data-importer-api/pkg/apis/core/v1beta1.VolumeImportSourceStatus"].

Definition schema_pkg_apis_core_v1beta1_VolumeImportSourceList : definition := mkDefinition
  (object
    [("kind", scalar "string" "");
     ("apiVersion", scalar "string" "");
     ("metadata", defaulted (JObj []) (ref "k8s.io/apimachinery/pkg/apis/meta/v1.ListMeta"));
     ("items", array "" [] (ref "kubevirt.io/containerized-data-importer-api/pkg/apis/core/v1beta1.VolumeImportSource"))]
    ["metadata"; "items"])
  ["k8s.io/apimachinery/pkg/apis/meta/v1.ListMeta"; "kubevirt.io/containerized-data-importer-api/pkg/apis/core/v1beta1.VolumeImportSource"].

Definition schema_pkg_apis_core_v1beta1_VolumeImportSourceSpec : definition := mkDefinition
  (object
    [("source", ref "kubevirt.io/containerized-data-importer-api/pkg/apis/core/v1beta1.ImportSourceType");
     ("preallocation", scalar "boolean" "");
     ("contentType", scalar "string" "");
     ("targetClaim", scalar "string" "");
     ("checkpoints", array "" [] (ref "kubevirt.io/containerized-data-importer-api/pkg/apis/core/v1beta1.DataVolumeCheckpoint"));
     ("finalCheckpoint", scalar "boolean" "")]
    [])
  ["kubevirt.io/containerized-data-importer-api/pkg/apis/core/v1beta1.DataVolumeCheckpoint";
   "kubevirt.io/containerized-data-importer-api/pkg/apis/core/v1beta1.ImportSourceType"].

Definition schema_pkg_apis_core_v1beta1_VolumeImportSourceStatus : definition := mkDefinition
  (object [] [])
  [].

Definition schema_pkg_apis_core_v1beta1_VolumeUploadSource : definition := mkDefinition
  (object
    [("kind", scalar "string" "");
     ("apiVersion", scalar "string" "");
     ("metadata", defaulted (JObj []) (ref "k8s.io/apimachinery/pkg/apis/meta/v1.ObjectMeta"));
     ("spec", defaulted (JObj []) (ref "kubevirt.io/containerized-data-importer-api/pkg/apis/core/v1beta1.VolumeUploadSourceSpec"));
     ("status", defaulted (JObj []) (ref "kubevirt.io/containerized-data-importer-api/pkg/apis/core/v1beta1.VolumeUploadSourceStatus"))]
    ["spec"])
  ["k8s.io/apimachinery/pkg/apis/meta/v1.ObjectMeta"; "kubevirt.io/containerized-data-importer-api/pkg/apis/core/v1beta1.VolumeUploadSourceSpec";
   "kubevirt.io/containerized-data-importer-api/pkg/apis/core/v1beta1.VolumeUploadSourceStatus"].

Definition schema_pkg_apis_core_v1beta1_VolumeUploadSourceList : definition := mkDefinition
  (object
    [("kind", scalar "string" "");
     ("apiVersion", scalar "string" "");
     ("metadata", defaulted (JObj []) (ref "k8s.io/apimachinery/pkg/apis/meta/v1.ListMeta"));
     ("items", array "" [] (ref "kubevirt.io/containerized-data-importer-api/pkg/apis/core/v1beta1.VolumeUploadSource"))]
    ["metadata"; "items"])
  ["k8s.io/apimachinery/pkg/apis/meta/v1.ListMeta"; "kubevirt.io/containerized-data-importer-api/pkg/apis/core/v1beta1.VolumeUploadSource"].

Definition schema_pkg_apis_core_v1beta1_VolumeUploadSourceSpec : definition := mkDefinition
  (object
    [("contentType", scalar "string" "");
     ("preallocation", scalar "boolean" "")]
    [])
  [].

Definition schema_pkg_apis_core_v1beta1_VolumeUploadSourceStatus : definition := mkDefinition
  (object [] [])
  [].
