(* ===== verification/Manager.v ===== *)
(** * cmd/main.go and internal/scheme: the manager process

    The set-up of the process that runs the controllers and the webhooks:
    options from flags, the scheme, the cache and the order of the steps, each
    of which ends the process when it fails; and which reads of the request
    controller its cache can answer. *)

From Stdlib Require Import Ascii ZArith Lia.
From stdpp Require Import prelude strings gmap.
From S2P Require Import Prelude GoStrings Json Visit Api Codec Wire WebhookAlpha Storage Meta Cluster Request Controllers.

(** ** TLS options *)

(** The fields of [tls.Config] the options set. *)
Record tls_config : Type := mkTLS {
  NextProtos : list string;
  CipherSuites : option (list Z);
  MinVersion : Z;
}.

Definition tls_opt : Type := tls_config → tls_config.

Definition disableHTTP2 : tls_opt := λ c, mkTLS ["http/1.1"] (CipherSuites c) (MinVersion c).
Definition setCipherSuites (ids : list Z) : tls_opt := λ c, mkTLS (NextProtos c) (Some ids) (MinVersion c).
Definition setMinTLSVersion (v : Z) : tls_opt := λ c, mkTLS (NextProtos c) (CipherSuites c) v.

(** What a server does with its options. *)
Definition apply_opts (opts : list tls_opt) (c : tls_config) : tls_config := fold_left (λ c o, o c) opts c.

(** [strings.Split] at a character. *)
Fixpoint Split (s : string) (sep : ascii) : list string :=
  match s with
  | EmptyString => [EmptyString]
  | String c s' =>
      if (c =? sep)%char then EmptyString :: Split s' sep
      else match Split s' sep with [] => [String c EmptyString] | p :: ps => String c p :: ps end
  end.

(** [cliflag.TLSVersion] on a name that is not empty. *)
Definition TLSVersion (name : string) : option Z :=
  assoc_get name [("VersionTLS10", 769%Z); ("VersionTLS11", 770%Z); ("VersionTLS12", 771%Z); ("VersionTLS13", 772%Z)].

(** A step that may end the process with a code. *)
Inductive exit (A : Type) : Type :=
| Exit (code : Z)
| Cont (a : A).
Arguments Exit {A} code.
Arguments Cont {A} a.

#[export] Instance exit_ret : MRet exit := λ A a, Cont a.
#[export] Instance exit_bind : MBind exit := λ A B f m, match m with Exit c => Exit c | Cont a => f a end.

Section tls.
(** The cipher suites [crypto/tls] knows, by name. *)
Context (possibleCiphers : gmap string Z).

(** [cliflag.TLSCipherSuites] on a list that is not empty. *)
Definition TLSCipherSuites (names : list string) : option (list Z) := mapM (possibleCiphers !!.) names.

Definition appendCipherSuites (tlsOpts : list tls_opt) (cipherSuites : string) : exit (list tls_opt) :=
  if str_empty cipherSuites then mret tlsOpts
  else match TLSCipherSuites (Split cipherSuites ",") with
       | None => Exit 1
       | Some ids => mret (tlsOpts ++ [setCipherSuites ids])
       end.

Definition appendMinTLSVersion (tlsOpts : list tls_opt) (minTLSVersion : string) : exit (list tls_opt) :=
  if str_empty minTLSVersion then mret tlsOpts
  else match TLSVersion minTLSVersion with
       | None => Exit 1
       | Some v => mret (tlsOpts ++ [setMinTLSVersion v])
       end.

(** ** Flags and options *)

(** The values of the flags after [flag.Parse]. *)
Record flags : Type := mkFlags {
  metricsAddr : string;
  probeAddr : string;
  enableLeaderElection : bool;
  secureMetrics : bool;
  webhookCertPath : string; webhookCertName : string; webhookCertKey : string;
  metricsCertPath : string; metricsCertName : string; metricsCertKey : string;
  enableHTTP2 : bool;
  cipherSuites : string;
  minTLSVersion : string;
}.

Definition default_flags : flags :=
  mkFlags "0" ":8081" false true "" "tls.crt" "tls.key" "" "tls.crt" "tls.key" false "" "".

Definition tls_options (f : flags) : exit (list tls_opt) :=
  let tlsOpts := if enableHTTP2 f then [] else [disableHTTP2] in
  tlsOpts ← appendCipherSuites tlsOpts (cipherSuites f);
  appendMinTLSVersion tlsOpts (minTLSVersion f).

(** A certificate directory with the names of the certificate and the key. *)
Definition certs (path name key : string) : option (string * string * string) :=
  if str_empty path then None else Some (path, name, key).

Record webhook_options : Type := mkWebhookOptions {
  WH_TLSOpts : list tls_opt;
  WH_Certs : option (string * string * string);
}.

Record metrics_options : Type := mkMetricsOptions {
  ME_BindAddress : string;
  ME_SecureServing : bool;
  ME_TLSOpts : list tls_opt;
  (** Whether requests are authenticated and authorised. *)
  ME_FilterProvider : bool;
  ME_Certs : option (string * string * string);
}.

Record manager_options : Type := mkManagerOptions {
  MO_Metrics : metrics_options;
  MO_WebhookServer : webhook_options;
  MO_HealthProbeBindAddress : string;
  MO_LeaderElection : bool;
  MO_LeaderElectionID : string;
  MO_ReaderFailOnMissingInformer : bool;
  MO_ByObject : list (Availability.kind * Availability.selector);
  MO_DisableFor : list Availability.kind;
}.

(** The options of the manager, with what discovery answers at that time. *)
Definition manager_options_for (f : flags) (tlsOpts : list tls_opt) (discovery : string → option rerror)
    : manager_options :=
  let '(cacheByObject, clientDisableFor) := Availability.ExternalCRDCacheConfig discovery in
  mkManagerOptions
    (mkMetricsOptions (metricsAddr f) (secureMetrics f) tlsOpts (secureMetrics f)
       (certs (metricsCertPath f) (metricsCertName f) (metricsCertKey f)))
    (mkWebhookOptions tlsOpts (certs (webhookCertPath f) (webhookCertName f) (webhookCertKey f)))
    (probeAddr f) (enableLeaderElection f) "61e1d0f4.kubevirt.io" true cacheByObject clientDisableFor.

(** ** The steps of [main] *)
Inductive step : Type :=
| GetConfig
| NewDiscoveryClient
| NewManager (o : manager_options)
| NewVirtClient
| SetupTemplateController
| AddAvailabilityController
| SetupWebhook (version : string)
| AddHealthzCheck
| AddReadyzCheck
| StartManager.

(** The code the process ends with when a step fails: [os.Exit(1)], or a
    panic for a discovery client that cannot be created. *)
Definition failure_code (s : step) : Z := match s with NewDiscoveryClient => 2 | _ => 1 end.

Definition setupWebhooks : list step := [SetupWebhook "v1alpha1"; SetupWebhook "v1beta1"].

(** The steps before the manager is started, then the start. *)
Definition setup_steps (o : manager_options) (ENABLE_WEBHOOKS : string) : list step :=
  [GetConfig; NewDiscoveryClient; NewManager o; NewVirtClient; SetupTemplateController; AddAvailabilityController] ++
  (if (ENABLE_WEBHOOKS =? "false")%string then [] else setupWebhooks) ++
  [AddHealthzCheck; AddReadyzCheck].

(** Run steps in order; the trace of the steps tried and the exit code. *)
Fixpoint run_steps (succeeds : step → bool) (steps : list step) : list step * Z :=
  match steps with
  | [] => ([], 0%Z)
  | s :: rest =>
      if succeeds s then let '(trace, code) := run_steps succeeds rest in (s :: trace, code)
      else ([s], failure_code s)
  end.

Definition main (f : flags) (ENABLE_WEBHOOKS : string) (discovery : string → option rerror) (succeeds : step → bool)
    : list step * Z :=
  match tls_options f with
  | Exit code => ([], code)
  | Cont tlsOpts =>
      run_steps succeeds (setup_steps (manager_options_for f tlsOpts discovery) ENABLE_WEBHOOKS ++ [StartManager])
  end.

(** ** Properties *)

Lemma run_steps_spec succeeds steps : let '(trace, code) := run_steps succeeds steps in
  (trace `prefix_of` steps) ∧
  ((code = 0%Z ∧ trace = steps ∧ Forall (λ s, succeeds s = true) steps) ∨
   ∃ pre s, trace = pre ++ [s] ∧ Forall (λ s, succeeds s = true) pre ∧ succeeds s = false ∧ code = failure_code s).
Proof.
  induction steps as [|s steps IH]; cbn; [by split; [done|left]|].
  destruct (succeeds s) eqn:Hs.
  - destruct (run_steps succeeds steps) as [trace code]. destruct IH as [Hp Hc]. split; [by apply prefix_cons|].
    destruct Hc as [(-> & -> & Hall)|(pre & s' & -> & Hall & Hs' & ->)]; [left; by repeat constructor|].
    right. exists (s :: pre), s'. by repeat constructor.
  - split; [by apply prefix_cons, prefix_nil|]. right. by exists [], s.
Qed.


Lemma mapM_None_elem names : TLSCipherSuites names = None → ∃ n, n ∈ names ∧ possibleCiphers !! n = None.
Proof.
  unfold TLSCipherSuites. induction names as [|n names IH]; cbn; [done|].
  destruct (possibleCiphers !! n) eqn:Hn; [|by exists n; split; [left|]]. cbn.
  destruct (mapM (possibleCiphers !!.) names) eqn:Hm; [done|]. intros _.
  destruct (IH eq_refl) as (n' & Hin & Hn'). exists n'. split; [by right|done].
Qed.

(** The TLS options of the process: unless it is enabled, HTTP/2 is off, in the
    webhook server and the metrics server alike; cipher suites and minimal
    version are those of the flags, or untouched when the flag is empty; a
    flag is refused only if it names a suite or version that does not exist.
    A secure metrics server always filters its requests. *)
Theorem tls_options_spec f :
  match tls_options f with
  | Exit code =>
      code = 1%Z ∧
      ((cipherSuites f ≠ EmptyString ∧ ∃ n, n ∈ Split (cipherSuites f) "," ∧ possibleCiphers !! n = None) ∨
       (minTLSVersion f ≠ EmptyString ∧ TLSVersion (minTLSVersion f) = None))
  | Cont opts =>
      ∀ discovery c,
        let o := manager_options_for f opts discovery in
        let c' := apply_opts (WH_TLSOpts (MO_WebhookServer o)) c in
        apply_opts (ME_TLSOpts (MO_Metrics o)) c = c' ∧
        NextProtos c' = (if enableHTTP2 f then NextProtos c else ["http/1.1"]) ∧
        CipherSuites c' = (if str_empty (cipherSuites f) then CipherSuites c
                           else TLSCipherSuites (Split (cipherSuites f) ",")) ∧
        Some (MinVersion c') = (if str_empty (minTLSVersion f) then Some (MinVersion c)
                                else TLSVersion (minTLSVersion f)) ∧
        (ME_SecureServing (MO_Metrics o) = true → ME_FilterProvider (MO_Metrics o) = true)
  end.
Proof.
  unfold tls_options, appendCipherSuites, appendMinTLSVersion.
  destruct (str_empty (cipherSuites f)) eqn:Hc; [|destruct (TLSCipherSuites (Split (cipherSuites f) ",")) eqn:Hs].
  3: { cbn. split; [done|]. left. split; [intros Hn; by rewrite Hn in Hc|]. by apply mapM_None_elem. }
  all: cbn -[str_empty TLSVersion]; destruct (str_empty (minTLSVersion f)) eqn:Hm;
    [|destruct (TLSVersion (minTLSVersion f)) eqn:Hv];
    cbn -[str_empty TLSVersion];
    first [ split; [done|]; right; split; [intros Hn; by rewrite Hn in Hm|done]
          | intros discovery c; unfold manager_options_for;
            destruct (Availability.ExternalCRDCacheConfig discovery); cbn; destruct (enableHTTP2 f); cbn; auto ].
Qed.
End tls.

(** ** internal/scheme *)

(** The kinds a scheme knows, with their Go types. *)
Abbreviation scheme := (gmap (string * string) string).

(** Registering a type: a kind that is registered already with another type
    makes the process panic. *)
Definition register (m : scheme) (e : (string * string) * string) : option scheme :=
  match m !! e.1 with
  | Some t => if (t =? e.2)%string then Some m else None
  | None => Some (<[e.1 := e.2]> m)
  end.

Fixpoint register_all (m : scheme) (es : list ((string * string) * string)) : option scheme :=
  match es with [] => Some m | e :: es => m' ← register m e; register_all m' es end.

(** The [SchemeBuilder.Register] calls of the types files, under the group
    version of the package. *)
Definition kinds_of (gv pkg : string) (kinds : list string) : list ((string * string) * string) :=
  (λ k, ((gv, k), pkg +:+ "." +:+ k)) <$> kinds.

Definition resource_kinds : list string :=
  ["VirtualMachineTemplate"; "VirtualMachineTemplateList"; "VirtualMachineTemplateRequest";
   "VirtualMachineTemplateRequestList"].
Definition subresource_kinds : list string :=
  ["VirtualMachineTemplate"; "ProcessOptions"; "ProcessedVirtualMachineTemplate"].

Definition v1alpha1_AddToScheme := kinds_of "template.kubevirt.io/v1alpha1" "v1alpha1" resource_kinds.
Definition v1beta1_AddToScheme := kinds_of "template.kubevirt.io/v1beta1" "v1beta1" resource_kinds.
Definition subresourcesv1alpha1_AddToScheme :=
  kinds_of "subresources.template.kubevirt.io/v1alpha1" "subresourcesv1alpha1" subresource_kinds.
Definition subresourcesv1beta1_AddToScheme :=
  kinds_of "subresources.template.kubevirt.io/v1beta1" "subresourcesv1beta1" subresource_kinds.

Definition own_kinds : list ((string * string) * string) :=
  subresourcesv1alpha1_AddToScheme ++ subresourcesv1beta1_AddToScheme ++ v1alpha1_AddToScheme ++ v1beta1_AddToScheme.

(** [scheme.New], with the registrations of the three libraries; [None] when
    it panics. *)
Definition New (clientgo virt cdi : list ((string * string) * string)) : option scheme :=
  m ← register_all ∅ clientgo;
  m ← register_all m virt;
  m ← register_all m cdi;
  register_all m own_kinds.

Lemma register_fresh es : ∀ m, NoDup es.*1 → (∀ k, k ∈ es.*1 → m !! k = None) →
  register_all m es = Some (list_to_map es ∪ m).
Proof.
  induction es as [|[k t] es IH]; intros m Hnd Hf; [cbn; by rewrite (left_id_L ∅ (∪))|].
  apply NoDup_cons in Hnd as [Hk Hnd]. cbn. unfold register. cbn. rewrite (Hf k) by left. cbn.
  rewrite IH; [|done|].
  - f_equal. by rewrite <- insert_union_r, insert_union_l by by apply not_elem_of_list_to_map_1.
  - intros k' Hk'. rewrite lookup_insert_ne by (intros ->; done). apply Hf. by right.
Qed.

(** The scheme never panics over the program's own types, and knows each of
    them in every version, next to what the libraries registered. *)
Theorem New_kinds clientgo virt cdi m0 :
  register_all ∅ (clientgo ++ virt ++ cdi) = Some m0 → (∀ k, k ∈ own_kinds.*1 → m0 !! k = None) →
  ∃ m, New clientgo virt cdi = Some m ∧ (∀ k t, (k, t) ∈ own_kinds → m !! k = Some t) ∧
    (∀ k, k ∉ own_kinds.*1 → m !! k = m0 !! k).
Proof.
  intros H0 Hfresh.
  assert (NoDup own_kinds.*1) as Hnd by (apply (bool_decide_unpack _); vm_compute; exact I).
  unfold New. generalize dependent own_kinds. intros own Hfresh Hnd.
  assert (∀ es es' m, register_all m (es ++ es') = m' ← register_all m es; register_all m' es') as Happ.
  { intros es. induction es as [|e es IH]; intros es' m; [done|]. cbn. destruct (register m e); cbn; [apply IH|done]. }
  rewrite !Happ in H0.
  destruct (register_all ∅ clientgo) as [m1|]; [|done]. cbn in *. rewrite Happ in H0.
  destruct (register_all m1 virt) as [m2|]; [|done]. cbn in *. rewrite H0. cbn.
  exists (list_to_map own ∪ m0). split_and!.
  - apply register_fresh; [exact Hnd|exact Hfresh].
  - intros k t Hin. apply lookup_union_Some_l, elem_of_list_to_map_1; done.
  - intros k Hk. apply lookup_union_r, not_elem_of_list_to_map_1, Hk.
Qed.

(** ** What the cache of the process can answer *)

(** The kinds the controllers read. *)
Inductive object_kind : Type :=
| ORequest
| OTemplate
| OExternal (k : Availability.kind).

#[export] Instance kind_eq_dec : EqDecision Availability.kind.
Proof. solve_decision. Defined.
#[export] Instance object_kind_eq_dec : EqDecision object_kind.
Proof. solve_decision. Defined.

(** The kinds [SetupWithManager] of a controller starts informers for:
    [For], [Watches] and [Owns]. *)
Definition template_informers : list object_kind := [OTemplate].
Definition request_informers : list object_kind :=
  [ORequest; OTemplate; OExternal Availability.KSnapshot; OExternal Availability.KDataVolume].

(** The kinds the request controller reads with its client. *)
Definition request_reads : list object_kind :=
  [ORequest; OTemplate; OExternal Availability.KSnapshot; OExternal Availability.KSnapshotContent;
   OExternal Availability.KDataVolume].

Inductive answer : Type := FromServer | FromCache | ErrResourceNotCached.

(** [client.Get] and [List]: a kind the cache is disabled for is read from the
    server; any other from the cache, which refuses when no informer runs
    for the kind and it was told not to start one. *)
Definition client_read (o : manager_options) (informers : list object_kind) (k : object_kind) : answer :=
  let uncached := match k with OExternal e => bool_decide (e ∈ MO_DisableFor o) | _ => false end in
  if uncached then FromServer
  else if bool_decide (k ∈ informers) then FromCache
  else if MO_ReaderFailOnMissingInformer o then ErrResourceNotCached else FromCache.

(** C24: Once the request controller runs, its client answers every read but
    possibly those of snapshot contents: these are refused, for as long as
    the process runs, exactly when the snapshot API was not served when the
    process started, because the cache is disabled for contents only then
    and no informer ever runs for them. *)
Theorem request_controller_reads f tlsOpts discovery k :
  k ∈ request_reads →
  (client_read (manager_options_for f tlsOpts discovery) (template_informers ++ request_informers) k =
     ErrResourceNotCached ↔
   k = OExternal Availability.KSnapshotContent ∧
   Availability.isAPIGroupAvailable discovery Availability.snapshotGroupVersion = false).
Proof.
  intros Hk. unfold manager_options_for, Availability.ExternalCRDCacheConfig.
  destruct (Availability.isAPIGroupAvailable discovery Availability.snapshotGroupVersion),
    (Availability.isAPIGroupAvailable discovery Availability.cdiGroupVersion);
  unfold request_reads in Hk; repeat (apply elem_of_cons in Hk as [->|Hk]);
  try (by apply elem_of_nil in Hk); vm_compute; split; (done || by intros []).
Qed.

(** ** Concrete instances *)

(** A cluster whose snapshot API is installed after the process started. *)
Definition no_snapshots (g : string) : option rerror :=
  if (g =? Availability.snapshotGroupVersion)%string then Some (LocalError "not found") else None.

Lemma request_controller_reads_witness :
  client_read (manager_options_for default_flags [] no_snapshots) (template_informers ++ request_informers)
    (OExternal Availability.KSnapshotContent) = ErrResourceNotCached ∧
  client_read (manager_options_for default_flags [] (λ _, None)) (template_informers ++ request_informers)
    (OExternal Availability.KSnapshotContent) ≠ ErrResourceNotCached.
Proof.
  split.
  - apply (request_controller_reads default_flags [] no_snapshots); [by apply (bool_decide_unpack _)|].
    split; [reflexivity|vm_compute; reflexivity].
  - intros Hr. apply (request_controller_reads default_flags [] (λ _, None)) in Hr as [_ Hr];
      [vm_compute in Hr; discriminate Hr|by apply (bool_decide_unpack _)].
Defined.

Lemma New_kinds_witness : ∃ m, New [(("v1", "Pod"), "corev1.Pod")] [] [] = Some m ∧
  m !! ("template.kubevirt.io/v1beta1", "VirtualMachineTemplate") = Some "v1beta1.VirtualMachineTemplate".
Proof.
  destruct (New_kinds [(("v1", "Pod"), "corev1.Pod")] [] [] {[ ("v1", "Pod") := "corev1.Pod" ]})
    as (m & Hm & Hk & _).
  - vm_compute. reflexivity.
  - intros k Hk. apply lookup_singleton_None. intros <-. revert Hk. apply (bool_decide_unpack _). vm_compute. exact I.
  - exists m. split; [exact Hm|]. apply Hk. apply (bool_decide_unpack _). vm_compute. exact I.
Defined.

(** The default flags: HTTP/2 is off, metrics are served securely, and the
    process reaches the start of the manager. *)
Example default_run :
  (main ∅ default_flags "" (λ _, None) (λ _, true)).2 = 0%Z ∧
  length (main ∅ default_flags "" (λ _, None) (λ _, true)).1 = 11.
Proof. split; reflexivity. Qed.
