(* ===== verification/Client.v ===== *)
(** * virt-template-client-go: the typed clients

    The clientset and the two expansions of the template client, [Process]
    and [CreateVirtualMachine], as the requests they build; and that these
    requests address the subresources the API server of this repository
    serves. *)

From Stdlib Require Import Ascii ZArith Lia.
From stdpp Require Import prelude strings gmap.
From S2P Require Import Prelude GoStrings Json Visit Api Codec Parameters Discovery Manager.

(** ** k8s.io/client-go/rest: building a request *)

Definition no_char (c : ascii) (s : string) : bool := str_forall (λ d, negb (d =? c)%char) s.

(** A name that can be a segment of a path. *)
Definition IsValidPathSegmentName (name : string) : bool :=
  negb (name =? ".")%string && negb (name =? "..")%string && no_char "/" name && no_char "%" name.

Record Request : Type := mkRequest {
  Rq_verb : string;
  Rq_pathPrefix : string;
  Rq_namespace : option string;
  Rq_resource : string;
  Rq_resourceName : string;
  Rq_subresource : string;
  Rq_err : option string;
}.

Definition Post : Request := mkRequest "POST" "" None "" "" "" None.

Definition with_err (e : string) (r : Request) : Request :=
  mkRequest (Rq_verb r) (Rq_pathPrefix r) (Rq_namespace r) (Rq_resource r) (Rq_resourceName r) (Rq_subresource r) (Some e).

(** A builder does nothing after an error. *)
Definition build (f : Request → Request) (r : Request) : Request :=
  match Rq_err r with Some _ => r | None => f r end.

Definition AbsPath (path : string) : Request → Request := build (λ r,
  mkRequest (Rq_verb r) path (Rq_namespace r) (Rq_resource r) (Rq_resourceName r) (Rq_subresource r) None).

Definition Namespace (ns : string) : Request → Request := build (λ r,
  if bool_decide (is_Some (Rq_namespace r)) then with_err "namespace already set" r
  else if negb (IsValidPathSegmentName ns) then with_err ("invalid namespace " +:+ ns) r
  else mkRequest (Rq_verb r) (Rq_pathPrefix r) (Some ns) (Rq_resource r) (Rq_resourceName r) (Rq_subresource r) None).

Definition Resource (resource : string) : Request → Request := build (λ r,
  if negb (str_empty (Rq_resource r)) then with_err "resource already set" r
  else if negb (IsValidPathSegmentName resource) then with_err ("invalid resource " +:+ resource) r
  else mkRequest (Rq_verb r) (Rq_pathPrefix r) (Rq_namespace r) resource (Rq_resourceName r) (Rq_subresource r) None).

Definition Name (name : string) : Request → Request := build (λ r,
  if str_empty name then with_err "resource name may not be empty" r
  else if negb (str_empty (Rq_resourceName r)) then with_err "resource name already set" r
  else if negb (IsValidPathSegmentName name) then with_err ("invalid resource name " +:+ name) r
  else mkRequest (Rq_verb r) (Rq_pathPrefix r) (Rq_namespace r) (Rq_resource r) name (Rq_subresource r) None).

Definition SubResource (sub : string) : Request → Request := build (λ r,
  if negb (str_empty (Rq_subresource r)) then with_err "subresource already set" r
  else if negb (IsValidPathSegmentName sub) then with_err ("invalid subresource " +:+ sub) r
  else mkRequest (Rq_verb r) (Rq_pathPrefix r) (Rq_namespace r) (Rq_resource r) (Rq_resourceName r) sub None).

(** The path of the request: the parts that are set, joined.  (The segments
    were checked, so cleaning the path changes nothing; the resources are
    lower case.) *)
Definition URL (r : Request) : string :=
  Join (Rq_pathPrefix r ::
    (match Rq_namespace r with
     | Some ns => if str_empty ns then [] else ["namespaces"; ns]
     | None => []
     end) ++
    List.filter (λ s, negb (str_empty s)) [Rq_resource r; Rq_resourceName r; Rq_subresource r]) "/".

(** What goes over the wire: a request in error is not sent. *)
Definition sent (r : Request) : option (string * string) :=
  match Rq_err r with Some _ => None | None => Some (Rq_verb r, URL r) end.

(** ** The expansions (virtualmachinetemplate_expansion.go of both versions) *)

(** The client of one namespace. *)
Record typed_client : Type := mkTypedClient {
  Cl_GroupVersion : GroupVersion;
  Cl_Resource : string;
  Cl_Namespace : string;
}.

Definition subresource_request (gv : GroupVersion) (c : typed_client) (name sub : string) : Request :=
  SubResource sub (Name name (Resource PluralResourceName (Namespace (Cl_Namespace c)
    (AbsPath ("/apis/" +:+ GV_Group gv +:+ "/" +:+ GV_Version gv) Post)))).

Module ClientV1alpha1.
Definition GV : GroupVersion := mkGV "template.kubevirt.io" "v1alpha1".
Definition SubGV : GroupVersion := mkGV "subresources.template.kubevirt.io" "v1alpha1".
Definition newVirtualMachineTemplates (ns : string) : typed_client := mkTypedClient GV "virtualmachinetemplates" ns.
Definition newVirtualMachineTemplateRequests (ns : string) : typed_client :=
  mkTypedClient GV "virtualmachinetemplaterequests" ns.
Definition Process (c : typed_client) (name : string) : Request := subresource_request SubGV c name "process".
Definition CreateVirtualMachine (c : typed_client) (name : string) : Request := subresource_request SubGV c name "create".
End ClientV1alpha1.

Module ClientV1beta1.
Definition GV : GroupVersion := mkGV "template.kubevirt.io" "v1beta1".
Definition SubGV : GroupVersion := mkGV "subresources.template.kubevirt.io" "v1beta1".
Definition newVirtualMachineTemplates (ns : string) : typed_client := mkTypedClient GV "virtualmachinetemplates" ns.
Definition newVirtualMachineTemplateRequests (ns : string) : typed_client :=
  mkTypedClient GV "virtualmachinetemplaterequests" ns.
Definition Process (c : typed_client) (name : string) : Request := subresource_request SubGV c name "process".
Definition CreateVirtualMachine (c : typed_client) (name : string) : Request := subresource_request SubGV c name "create".
End ClientV1beta1.

(** ** The routes of the API server *)

(** The route of a namespaced subresource,
    [/apis/<group>/<version>/namespaces/<namespace>/<resource>/<name>/<subresource>],
    for each entry of the storage of each group version. *)
Definition route {A} (groups : APIGroups A) (path : string) : option (GroupVersion * string * string * string) :=
  match Split path "/" with
  | [e; apis; g; v; nss; ns; r; name; sub] =>
      if str_empty e && (apis =? "apis")%string && (nss =? "namespaces")%string &&
         negb (str_empty ns) && negb (str_empty name) &&
         existsb (λ '(gv, storage), (GV_Group gv =? g)%string && (GV_Version gv =? v)%string &&
                    bool_decide (is_Some (storage !! (r +:+ "/" +:+ sub)))) groups
      then Some (mkGV g v, r +:+ "/" +:+ sub, ns, name) else None
  | _ => None
  end.

(** ** Paths *)

Lemma Split_no_sep s sep : no_char sep s = true → Split s sep = [s].
Proof.
  unfold no_char. induction s as [|c s IH]; cbn; [done|]. intros Hc. apply andb_true_iff in Hc as [Hc Hs].
  apply negb_true_iff in Hc. by rewrite Hc, IH.
Qed.

Lemma Split_app s t sep : no_char sep s = true → Split (s +:+ String sep t) sep = s :: Split t sep.
Proof.
  unfold no_char. induction s as [|c s IH]; cbn; [by rewrite Ascii.eqb_refl|]. intros Hc.
  apply andb_true_iff in Hc as [Hc Hs]. apply negb_true_iff in Hc. by rewrite Hc, IH.
Qed.

(** Splitting a joined path gives its segments back. *)
Lemma Split_Join l : l ≠ [] → Forall (λ s, no_char "/" s = true) l → Split (Join l "/") "/" = l.
Proof.
  intros Hne Hl. induction Hl as [|s l Hs Hl IH]; [done|].
  destruct l as [|s' l]; [by apply Split_no_sep|]. change (Join (s :: s' :: l) "/") with (s +:+ String "/" (Join (s' :: l) "/")).
  rewrite Split_app by done. by rewrite IH.
Qed.

(** A segment the builder accepts. *)
Definition good_segment (s : string) : bool := negb (str_empty s) && IsValidPathSegmentName s.

Lemma good_segment_spec s : good_segment s = true →
  str_empty s = false ∧ IsValidPathSegmentName s = true ∧ no_char "/" s = true.
Proof.
  unfold good_segment, IsValidPathSegmentName. intros Hs. rewrite !andb_true_iff, !negb_true_iff in Hs.
  destruct Hs as (He & ((Hd & Hdd) & Hslash) & Hpct). rewrite Hd, Hdd, Hslash, Hpct. done.
Qed.

(** The builders, one at a time. *)
Lemma Namespace_run v p r n s ns : Namespace ns (mkRequest v p None r n s None) =
  if IsValidPathSegmentName ns then mkRequest v p (Some ns) r n s None
  else with_err ("invalid namespace " +:+ ns) (mkRequest v p None r n s None).
Proof. unfold Namespace, build. cbn [Rq_err Rq_namespace]. by destruct (IsValidPathSegmentName ns). Qed.

Lemma Resource_run v p ns n s r : IsValidPathSegmentName r = true →
  Resource r (mkRequest v p ns EmptyString n s None) = mkRequest v p ns r n s None.
Proof. intros Hr. unfold Resource, build. cbn [Rq_err Rq_resource]. by rewrite Hr. Qed.

Lemma Name_run v p ns r s n : Name n (mkRequest v p ns r EmptyString s None) =
  if good_segment n then mkRequest v p ns r n s None
  else with_err (if str_empty n then "resource name may not be empty" else "invalid resource name " +:+ n)
         (mkRequest v p ns r EmptyString s None).
Proof.
  unfold Name, build, good_segment. cbn [Rq_err Rq_resourceName].
  destruct (str_empty n); [done|]. by destruct (IsValidPathSegmentName n).
Qed.

Lemma SubResource_run v p ns r n s : IsValidPathSegmentName s = true →
  SubResource s (mkRequest v p ns r n EmptyString None) = mkRequest v p ns r n s None.
Proof. intros Hs. unfold SubResource, build. cbn [Rq_err Rq_subresource]. by rewrite Hs. Qed.

Lemma error_stays f e r : build f (with_err e r) = with_err e r.
Proof. done. Qed.

(** The path of a request for one of the server's subresources. *)
Lemma subresource_path v sub c name : sub ∈ ["process"; "create"] →
  good_segment (Cl_Namespace c) = true → good_segment name = true →
  sent (subresource_request (mkGV "subresources.template.kubevirt.io" v) c name sub) =
    Some ("POST", Join [""; "apis"; "subresources.template.kubevirt.io"; v; "namespaces"; Cl_Namespace c;
                        "virtualmachinetemplates"; name; sub] "/").
Proof.
  intros Hsub (Hne & Hnv & _)%good_segment_spec Hname.
  destruct (good_segment_spec name Hname) as (Hme & Hmv & _).
  assert (IsValidPathSegmentName sub = true ∧ str_empty sub = false) as [Hsv Hse].
  { repeat (apply elem_of_cons in Hsub as [->|Hsub]; [by vm_compute|]). by apply elem_of_nil in Hsub. }
  unfold subresource_request, AbsPath, Post. change (build ?f ?r) with (f r). cbv beta.
  cbn [Rq_verb Rq_namespace Rq_resource Rq_resourceName Rq_subresource].
  rewrite Namespace_run, Hnv, Resource_run, Name_run, Hname, SubResource_run by done.
  unfold sent, URL. cbn [Rq_err Rq_verb Rq_pathPrefix Rq_namespace Rq_resource Rq_resourceName Rq_subresource].
  cbn [List.filter]. rewrite Hne, Hme, Hse. reflexivity.
Qed.

(** C25: The clients of both versions reach the server: for every namespace and
    name that can be part of a path, [Process] and [CreateVirtualMachine]
    send exactly one POST, to the route of the subresource of their own
    version, with that namespace and name; with an empty or impossible name,
    or an impossible namespace, nothing is sent. *)
Theorem client_reaches_server ns name :
  (good_segment ns = true → good_segment name = true →
   ∀ gv sub req,
     (gv, sub, req) ∈
       [(ClientV1alpha1.SubGV, "process", ClientV1alpha1.Process (ClientV1alpha1.newVirtualMachineTemplates ns) name);
        (ClientV1alpha1.SubGV, "create", ClientV1alpha1.CreateVirtualMachine (ClientV1alpha1.newVirtualMachineTemplates ns) name);
        (ClientV1beta1.SubGV, "process", ClientV1beta1.Process (ClientV1beta1.newVirtualMachineTemplates ns) name);
        (ClientV1beta1.SubGV, "create", ClientV1beta1.CreateVirtualMachine (ClientV1beta1.newVirtualMachineTemplates ns) name)] →
     ∃ path, sent req = Some ("POST", path) ∧
       route server_groups path = Some (gv, PluralResourceName +:+ "/" +:+ sub, ns, name)) ∧
  (good_segment name = false ∨ IsValidPathSegmentName ns = false →
   ∀ gv sub, sent (subresource_request gv (ClientV1beta1.newVirtualMachineTemplates ns) name sub) = None).
Proof.
  split.
  - intros Hns Hname gv sub req Hin.
    pose proof (good_segment_spec ns Hns) as (Hne & _ & Hnc). pose proof (good_segment_spec name Hname) as (Hme & _ & Hmc).
    assert (∀ v sub c, Cl_Namespace c = ns → v ∈ ["v1alpha1"; "v1beta1"] → sub ∈ ["process"; "create"] →
      ∃ path, sent (subresource_request (mkGV "subresources.template.kubevirt.io" v) c name sub) = Some ("POST", path) ∧
        route server_groups path = Some (mkGV "subresources.template.kubevirt.io" v,
          PluralResourceName +:+ "/" +:+ sub, ns, name)) as Hgen.
    { intros v s c <- Hv Hs. eexists. split; [by apply subresource_path|].
      assert (no_char "/" v = true ∧ no_char "/" s = true) as [Hvc Hsc].
      { split; [revert Hv|revert Hs]; intros Hx; repeat (apply elem_of_cons in Hx as [->|Hx]; [done|]);
          by apply elem_of_nil in Hx. }
      unfold route. rewrite Split_Join by (done || by repeat constructor). rewrite Hne, Hme.
      repeat (apply elem_of_cons in Hv as [->|Hv]; [|]); try (by apply elem_of_nil in Hv);
      repeat (apply elem_of_cons in Hs as [->|Hs]; [|]); try (by apply elem_of_nil in Hs); reflexivity. }
    repeat (apply elem_of_cons in Hin as [[= -> -> ->]|Hin]; [by apply Hgen; [done|set_solver|set_solver]|]).
    by apply elem_of_nil in Hin.
  - intros Hbad gv sub. unfold subresource_request, AbsPath, Post. change (build ?f ?r) with (f r). cbv beta.
    cbn [Rq_verb Rq_namespace Rq_resource Rq_resourceName Rq_subresource Cl_Namespace
         ClientV1beta1.newVirtualMachineTemplates].
    rewrite Namespace_run. destruct (IsValidPathSegmentName ns); [|done].
    destruct Hbad as [Hbad|]; [|done]. rewrite Resource_run, Name_run, Hbad by done. done.
Qed.

Lemma client_reaches_server_witness :
  (∃ path, sent (ClientV1beta1.Process (ClientV1beta1.newVirtualMachineTemplates "default") "web") = Some ("POST", path) ∧
    route server_groups path =
      Some (ClientV1beta1.SubGV, PluralResourceName +:+ "/process", "default", "web")) ∧
  sent (ClientV1beta1.Process (ClientV1beta1.newVirtualMachineTemplates "default") "a/b") = None.
Proof.
  destruct (client_reaches_server "default" "web") as [Hgood _].
  destruct (client_reaches_server "default" "a/b") as [_ Hbad]. split.
  - apply (Hgood eq_refl eq_refl ClientV1beta1.SubGV "process"). do 2 right. left.
  - apply Hbad. left. reflexivity.
Defined.

(** ** Creating clients (clientset.go, core_client.go of both versions) *)

(** The fields of [rest.Config] that are looked at; rate limiters as the rate
    and burst they were made from, or as one of the caller's. *)
Inductive rate_limiter : Type :=
| TokenBucket (qps burst : Z)
| CallersLimiter (id : Z).

Record rest_config : Type := mkConfig {
  C_UserAgent : string;
  C_QPS : Z;
  C_Burst : Z;
  C_RateLimiter : option rate_limiter;
  C_GroupVersion : option GroupVersion;
  C_APIPath : string;
}.

Section clientset.
(** The HTTP client, REST client and discovery client of client-go, each made
    from a configuration, and the default user agent. *)
Context {HTTP REST Disc : Type}.
Context (HTTPClientFor : rest_config → res error HTTP).
Context (RESTClientForConfigAndClient : rest_config → HTTP → res error REST).
Context (NewDiscoveryClientForConfigAndClient : rest_config → HTTP → res error Disc).
Context (DefaultKubernetesUserAgent : string).

Definition default_agent (s : string) : string := if str_empty s then DefaultKubernetesUserAgent else s.

Definition setConfigDefaults (gv : GroupVersion) (c : rest_config) : rest_config :=
  mkConfig (default_agent (C_UserAgent c)) (C_QPS c) (C_Burst c) (C_RateLimiter c) (Some gv) "/apis".

(** [NewForConfigAndClient] and [NewForConfig] of a typed client. *)
Definition typed_NewForConfigAndClient (gv : GroupVersion) (c : rest_config) (h : HTTP) : res error REST :=
  RESTClientForConfigAndClient (setConfigDefaults gv c) h.

Definition typed_NewForConfig (gv : GroupVersion) (c : rest_config) : res error REST :=
  let config := setConfigDefaults gv c in
  httpClient ← HTTPClientFor config;
  typed_NewForConfigAndClient gv config httpClient.

Definition typed_NewForConfigOrDie (gv : GroupVersion) (c : rest_config) : res error REST :=
  match typed_NewForConfig gv c with Err e => Panic (Error e) | m => m end.

(** The constructors of the two versions. *)
Definition V1alpha1_NewForConfigAndClient := typed_NewForConfigAndClient ClientV1alpha1.GV.
Definition V1alpha1_NewForConfig := typed_NewForConfig ClientV1alpha1.GV.
Definition V1alpha1_NewForConfigOrDie := typed_NewForConfigOrDie ClientV1alpha1.GV.
Definition V1alpha1_setConfigDefaults := setConfigDefaults ClientV1alpha1.GV.
Definition V1beta1_NewForConfigAndClient := typed_NewForConfigAndClient ClientV1beta1.GV.
Definition V1beta1_NewForConfig := typed_NewForConfig ClientV1beta1.GV.
Definition V1beta1_NewForConfigOrDie := typed_NewForConfigOrDie ClientV1beta1.GV.
Definition V1beta1_setConfigDefaults := setConfigDefaults ClientV1beta1.GV.

Record Clientset : Type := mkClientset {
  templateV1alpha1 : REST;
  templateV1beta1 : REST;
  DiscoveryClient : Disc;
}.

Definition burst_error : error :=
  EMsg "burst is required to be greater than 0 when RateLimiter is not set and QPS is set to greater than 0".

Definition NewForConfigAndClient (c : rest_config) (httpClient : HTTP) : res error Clientset :=
  configShallowCopy ←
    match C_RateLimiter c with
    | None =>
        if (0 <? C_QPS c)%Z then
          if (C_Burst c <=? 0)%Z then Err burst_error
          else Ok (mkConfig (C_UserAgent c) (C_QPS c) (C_Burst c) (Some (TokenBucket (C_QPS c) (C_Burst c)))
                     (C_GroupVersion c) (C_APIPath c))
        else Ok c
    | Some _ => Ok c
    end;
  alpha ← V1alpha1_NewForConfigAndClient configShallowCopy httpClient;
  beta ← V1beta1_NewForConfigAndClient configShallowCopy httpClient;
  disc ← NewDiscoveryClientForConfigAndClient configShallowCopy httpClient;
  Ok (mkClientset alpha beta disc).

Definition NewForConfig (c : rest_config) : res error Clientset :=
  let configShallowCopy := mkConfig (default_agent (C_UserAgent c)) (C_QPS c) (C_Burst c) (C_RateLimiter c)
                             (C_GroupVersion c) (C_APIPath c) in
  httpClient ← HTTPClientFor configShallowCopy;
  NewForConfigAndClient configShallowCopy httpClient.

Definition NewForConfigOrDie (c : rest_config) : res error Clientset :=
  match NewForConfig c with Err e => Panic (Error e) | m => m end.

(** The rate limiter all clients of a clientset share. *)
Definition shared_limiter (c : rest_config) : option rate_limiter :=
  match C_RateLimiter c with
  | Some l => Some l
  | None => if (0 <? C_QPS c)%Z then Some (TokenBucket (C_QPS c) (C_Burst c)) else None
  end.

(** The outcomes of [NewForConfig]. *)
Definition clientset_ok (c : rest_config) (m : res error Clientset) : Prop :=
  match m with
  | Ok cs => ∃ h agent gv path,
      let cfg := mkConfig agent (C_QPS c) (C_Burst c) (shared_limiter c) in
      agent ≠ EmptyString ∧ HTTPClientFor (mkConfig agent (C_QPS c) (C_Burst c) (C_RateLimiter c) gv path) = Ok h ∧
      RESTClientForConfigAndClient (cfg (Some ClientV1alpha1.GV) "/apis") h = Ok (templateV1alpha1 cs) ∧
      RESTClientForConfigAndClient (cfg (Some ClientV1beta1.GV) "/apis") h = Ok (templateV1beta1 cs) ∧
      NewDiscoveryClientForConfigAndClient (cfg gv path) h = Ok (DiscoveryClient cs)
  | Err e =>
      (e = burst_error ∧ C_RateLimiter c = None ∧ (0 < C_QPS c)%Z ∧ (C_Burst c ≤ 0)%Z) ∨
      (∃ cfg, HTTPClientFor cfg = Err e) ∨ (∃ cfg h, RESTClientForConfigAndClient cfg h = Err e) ∨
      (∃ cfg h, NewDiscoveryClientForConfigAndClient cfg h = Err e)
  | Panic w => (∃ cfg, HTTPClientFor cfg = Panic w) ∨ (∃ cfg h, RESTClientForConfigAndClient cfg h = Panic w) ∨
      (∃ cfg h, NewDiscoveryClientForConfigAndClient cfg h = Panic w)
  end.

Lemma clients_ok c agent h :
  agent ≠ EmptyString →
  HTTPClientFor (mkConfig agent (C_QPS c) (C_Burst c) (C_RateLimiter c) (C_GroupVersion c) (C_APIPath c)) = Ok h →
  let cfg := mkConfig agent (C_QPS c) (C_Burst c) (shared_limiter c) (C_GroupVersion c) (C_APIPath c) in
  clientset_ok c (alpha ← typed_NewForConfigAndClient ClientV1alpha1.GV cfg h;
    beta ← typed_NewForConfigAndClient ClientV1beta1.GV cfg h;
    disc ← NewDiscoveryClientForConfigAndClient cfg h; Ok (mkClientset alpha beta disc)).
Proof.
  intros Hagent Hh cfg. subst cfg.
  assert (default_agent agent = agent) as Hda.
  { unfold default_agent, str_empty. by destruct (String.eqb_spec agent EmptyString). }
  unfold typed_NewForConfigAndClient, setConfigDefaults. cbn [C_UserAgent C_QPS C_Burst C_RateLimiter]. rewrite Hda.
  destruct (RESTClientForConfigAndClient (mkConfig _ _ _ _ (Some ClientV1alpha1.GV) _) h) eqn:Ha; cbn; [|eauto 9..].
  destruct (RESTClientForConfigAndClient (mkConfig _ _ _ _ (Some ClientV1beta1.GV) _) h) eqn:Hb; cbn; [|eauto 9..].
  destruct (NewDiscoveryClientForConfigAndClient _ h) eqn:Hd; cbn; [|eauto 9..].
  exists h, agent, (C_GroupVersion c), (C_APIPath c). by split_and!.
Qed.

(** A clientset is made of REST clients for the two versions under [/apis]
    and a discovery client, which share one HTTP client, one rate limiter
    (the caller's, or one made from the configuration) and a user agent that
    is never empty.  A rate without a burst is refused, unless the caller
    brings a rate limiter; every other error comes from client-go. *)
Theorem NewForConfig_spec c : DefaultKubernetesUserAgent ≠ EmptyString → clientset_ok c (NewForConfig c).
Proof.
  intros Hua. unfold NewForConfig. set (agent := default_agent (C_UserAgent c)).
  assert (agent ≠ EmptyString) as Hagent.
  { subst agent. unfold default_agent, str_empty. by destruct (String.eqb_spec (C_UserAgent c) EmptyString). }
  clearbody agent. destruct (HTTPClientFor _) as [h|e|w] eqn:Hh; cbn [mbind res_bind]; [|cbn; eauto..].
  pose proof (clients_ok c agent h Hagent Hh) as Hok. unfold shared_limiter in Hok.
  unfold NewForConfigAndClient. cbn [C_RateLimiter C_QPS C_Burst C_UserAgent C_GroupVersion C_APIPath].
  destruct (C_RateLimiter c) as [l|] eqn:Hl; [exact Hok|].
  destruct (Z.ltb_spec 0 (C_QPS c)); [|exact Hok].
  destruct (Z.leb_spec (C_Burst c) 0); [|exact Hok]. left. done.
Qed.

(** A typed client by itself is made like that of a clientset, but with a
    transport of its own: under [/apis], for its version and with a user agent
    that is never empty; [OrDie] panics exactly when there is an error. *)
Theorem typed_NewForConfig_spec gv c : DefaultKubernetesUserAgent ≠ EmptyString →
  ∃ agent, agent ≠ EmptyString ∧
    let config := mkConfig agent (C_QPS c) (C_Burst c) (C_RateLimiter c) (Some gv) "/apis" in
    typed_NewForConfig gv c = (h ← HTTPClientFor config; RESTClientForConfigAndClient config h) ∧
    (∀ e, typed_NewForConfigOrDie gv c ≠ Err e) ∧
    (∀ e, typed_NewForConfig gv c = Err e → typed_NewForConfigOrDie gv c = Panic (Error e)).
Proof.
  intros Hua. exists (default_agent (C_UserAgent c)).
  assert (default_agent (C_UserAgent c) ≠ EmptyString) as Hne.
  { unfold default_agent, str_empty. by destruct (String.eqb_spec (C_UserAgent c) EmptyString). }
  assert (default_agent (default_agent (C_UserAgent c)) = default_agent (C_UserAgent c)) as Hidem.
  { unfold default_agent at 1, str_empty. by destruct (String.eqb_spec (default_agent (C_UserAgent c)) EmptyString). }
  split; [done|]. cbv zeta. split_and!.
  - unfold typed_NewForConfig, typed_NewForConfigAndClient, setConfigDefaults. cbn [C_UserAgent C_QPS C_Burst C_RateLimiter].
    by rewrite Hidem.
  - intros e. unfold typed_NewForConfigOrDie. by destruct (typed_NewForConfig gv c).
  - intros e He. unfold typed_NewForConfigOrDie. by rewrite He.
Qed.
End clientset.

Lemma NewForConfig_spec_witness :
  match NewForConfig (HTTP := unit) (λ _, Ok tt) (λ c _, Ok c) (λ c _, Ok c) "virt-template/v0"
          (mkConfig "" 10 0 None None "") with
  | Err e => e = burst_error
  | _ => False
  end.
Proof.
  pose proof (NewForConfig_spec (HTTP := unit) (λ _, Ok tt) (λ c _, Ok c) (λ c _, Ok c) "virt-template/v0"
    (mkConfig "" 10 0 None None "")) as Hs.
  assert ("virt-template/v0" ≠ EmptyString) as Hne by discriminate. specialize (Hs Hne).
  destruct (NewForConfig _ _ _ _ _) as [cs|e|w] eqn:He; [discriminate He| |discriminate He].
  destruct Hs as [[Heq _]|[[? Hx]|[(? & ? & Hx)|(? & ? & Hx)]]]; [exact Heq|discriminate Hx..].
Defined.
