(* ===== verification/ApiServer.v ===== *)
(** * internal/apiserver and cmd/apiserver: the server process

    What the process serves and who may use it: the storages with the routes
    the generic server makes of them, [Run] with its groups, filtered
    discovery and authorizer, and the names of the published schemas.  The
    parts of k8s.io/apiserver that [Run] hands its storages and paths to (the
    installer of a group, the request info, the authorizer by path and group)
    are modelled from their sources; certificates, the delegated
    authentication and authorization and the HTTP server are parameters. *)

From Stdlib Require Import Ascii ZArith Lia.
From stdpp Require Import prelude strings gmap sorting.
From S2P Require Import Prelude GoStrings Json Visit Api Codec Parameters Discovery Manager Client OpenApi.

Local Open Scope string_scope.

(** ** Request info (k8s.io/apiserver/pkg/endpoints/request) *)

Fixpoint TrimLeftByte (s : string) (c : ascii) : string :=
  match s with
  | String d s' => if (d =? c)%char then TrimLeftByte s' c else s
  | EmptyString => EmptyString
  end.

(** [strings.TrimPrefix]. *)
Definition TrimPrefix (s p : string) : string := default s (strip_prefix p s).

Definition lower (c : ascii) : ascii :=
  if is_upper c then ascii_of_N (N_of_ascii c + 32) else c.
Fixpoint ToLower (s : string) : string :=
  match s with EmptyString => EmptyString | String c s' => String (lower c) (ToLower s') end.

Definition splitPath (path : string) : list string :=
  let path := TrimRightByte (TrimLeftByte path "/") "/" in
  if str_empty path then [] else Split path "/".

Record RequestInfo : Type := mkInfo {
  IsResourceRequest : bool;
  RI_Path : string;
  RI_Verb : string;
  RI_APIPrefix : string;
  RI_APIGroup : string;
  RI_APIVersion : string;
  RI_Namespace : string;
  RI_Resource : string;
  RI_Subresource : string;
  RI_Name : string;
}.

(** What decoding the query of a list gives: whether it is a watch, and the
    name its field selector asks for. *)
Record list_query : Type := mkQuery { q_Watch : bool; q_Name : option string }.

Definition method_verb (method : string) : string :=
  default "" (assoc_get method [("POST", "create"); ("GET", "get"); ("HEAD", "get"); ("PUT", "update");
                                ("PATCH", "patch"); ("DELETE", "delete")]).

(** The path after the version, with the verb the path or the method gives:
    the namespace, and the parts from the resource on. *)
Definition namespace_parts (parts : list string) : string * list string :=
  match parts with
  | ["namespaces"] => ("", parts)
  | "namespaces" :: ns :: rest =>
      match rest with
      | sub :: _ => if (sub =? "status") || (sub =? "finalize") then (ns, parts) else (ns, rest)
      | [] => (ns, parts)
      end
  | _ => ("", parts)
  end.

Definition resource_info (method path prefix group version : string) (q : list_query) (parts : list string)
    : res error RequestInfo :=
  '(verb, parts) ←
    match parts with
    | p :: rest =>
        if (p =? "proxy") || (p =? "watch") then
          match rest with
          | [] => Err (EMsg ("unable to determine kind and namespace from url, " +:+ path))
          | _ => Ok (p, rest)
          end
        else Ok (method_verb method, parts)
    | [] => Panic "index out of range"
    end;
  let '(ns, parts) := namespace_parts parts in
  let subresource := match parts with _ :: _ :: s :: _ => if verb =? "proxy" then "" else s | _ => "" end in
  let name := match parts with _ :: n :: _ => n | _ => "" end in
  let resource := match parts with r :: _ => r | [] => "" end in
  let '(verb, name) :=
    if str_empty name && (verb =? "get") then
      ((if q_Watch q then "watch" else "list"),
       match q_Name q with Some n => if IsValidPathSegmentName n then n else name | None => name end)
    else (verb, name) in
  let verb := if str_empty name && (verb =? "delete") then "deletecollection" else verb in
  Ok (mkInfo true path verb prefix group version ns resource subresource name).

(** [RequestInfoFactory.NewRequestInfo], with the prefixes of
    [NewRequestInfoResolver]: [apis] with groups and [api] without. *)
Definition NewRequestInfo (method path : string) (q : list_query) : res error RequestInfo :=
  let other prefix := mkInfo false path (ToLower method) prefix "" "" "" "" "" "" in
  match splitPath path with
  | prefix :: parts =>
      if (length parts <? 2)%nat then Ok (other "")
      else if prefix =? "api" then
        match parts with
        | version :: parts => resource_info method path prefix "" version q parts
        | [] => Ok (other prefix)
        end
      else if prefix =? "apis" then
        match parts with
        | group :: version :: part :: parts => resource_info method path prefix group version q (part :: parts)
        | _ => Ok (other prefix)
        end
      else Ok (other "")
  | [] => Ok (other "")
  end.

(** ** Authorization *)

Inductive decision : Type := Allow | Deny | NoOpinion.

(** The groups of the user, if there is one, and the request. *)
Definition authorizer : Type := option (list string) → RequestInfo → decision.

(** Package path: the names and prefixes that need no authorization. *)
Definition split_star (p : string) : res error (string + string) :=
  match Cut p "*" with
  | None => Ok (inl p)
  | Some (before, after) =>
      if str_empty after then Ok (inr before) else Err (EMsg ("only trailing * allowed in " +:+ p))
  end.

Definition path_NewAuthorizer (alwaysAllowPaths : list string) : res error authorizer :=
  ps ← mapM (λ p, split_star (TrimPrefix p "/")) alwaysAllowPaths;
  Ok (λ _ info,
    if IsResourceRequest info then NoOpinion
    else
      let pth := TrimPrefix (RI_Path info) "/" in
      if existsb (λ p, match p with inl name => name =? pth | inr prefix => HasPrefix pth prefix end) ps
      then Allow else NoOpinion).

Definition NewPrivilegedGroups (groups : list string) : authorizer := λ user _,
  match user with
  | None => NoOpinion
  | Some gs => if existsb (λ g, existsb (String.eqb g) groups) gs then Allow else NoOpinion
  end.

Fixpoint union_authorizer (l : list authorizer) : authorizer := λ user info,
  match l with
  | [] => NoOpinion
  | a :: rest => match a user info with NoOpinion => union_authorizer rest user info | d => d end
  end.

Record authz_options : Type := mkAuthz {
  AlwaysAllowPaths : list string;
  AlwaysAllowGroups : list string;
}.

Definition NewDelegatingAuthorizationOptions : authz_options :=
  mkAuthz ["/healthz"; "/readyz"; "/livez"] ["system:masters"].

(** [toAuthorizer]; [client] decides by asking the cluster. *)
Definition toAuthorizer (s : authz_options) (client : option authorizer) : res error authorizer :=
  let groups := match AlwaysAllowGroups s with [] => [] | gs => [NewPrivilegedGroups gs] end in
  paths ← match AlwaysAllowPaths s with [] => Ok [] | ps => a ← path_NewAuthorizer ps; Ok [a] end;
  Ok (union_authorizer (groups ++ paths ++ match client with Some a => [a] | None => [] end)).

(** ** The storages (internal/apiserver/storage/virtualmachinetemplate) *)

Inductive api_version : Type := V1alpha1 | V1beta1.

Inductive rest_storage : Type :=
| DummyREST (v : api_version)
| ProcessREST (v : api_version)
| CreateREST (v : api_version).

Definition subresource_package (v : api_version) : string :=
  match v with V1alpha1 => "subresourcesv1alpha1" | V1beta1 => "subresourcesv1beta1" end.
Definition subresource_gv (v : api_version) : GroupVersion :=
  mkGV "subresources.template.kubevirt.io" (match v with V1alpha1 => "v1alpha1" | V1beta1 => "v1beta1" end).

(** [New]: the Go type of the object. *)
Definition storage_New (s : rest_storage) : string :=
  match s with
  | DummyREST v => subresource_package v +:+ ".VirtualMachineTemplate"
  | ProcessREST v | CreateREST v => subresource_package v +:+ ".ProcessedVirtualMachineTemplate"
  end.

(** The optional interfaces: [rest.Scoper], [rest.SingularNameProvider] and
    [rest.Connecter] with its methods. *)
Definition NamespaceScoped (s : rest_storage) : option bool :=
  match s with DummyREST _ => Some true | _ => None end.
Definition SingularResourceName : string := "virtualmachinetemplate".
Definition GetSingularName (s : rest_storage) : option string :=
  match s with DummyREST _ => Some SingularResourceName | _ => None end.
Definition ConnectMethods (s : rest_storage) : option (list string) :=
  match s with DummyREST _ => None | _ => Some ["POST"] end.

(** The API groups of cmd/apiserver/main.go. *)
Definition version_storage (v : api_version) : gmap string rest_storage :=
  {[ PluralResourceName := DummyREST v;
     PluralResourceName +:+ "/process" := ProcessREST v;
     PluralResourceName +:+ "/create" := CreateREST v ]}.
Definition main_groups : APIGroups rest_storage :=
  [(subresource_gv V1alpha1, version_storage V1alpha1); (subresource_gv V1beta1, version_storage V1beta1)].

(** ** Installing a group (k8s.io/apiserver/pkg/endpoints, pkg/server) *)

(** A scheme: the kinds with their Go types, and the group versions in the
    order of their registration. *)
Record server_scheme : Type := mkScheme { s_kinds : scheme; s_observed : list GroupVersion }.

(** [schema.ParseGroupVersion] of a registered version, and the versions in
    the order of their first registration ([addObservedVersion]). *)
Definition ParseGroupVersion (gv : string) : GroupVersion :=
  match Cut gv "/" with Some (g, v) => mkGV g v | None => mkGV "" gv end.
Definition observe (seen : list GroupVersion) (gv : GroupVersion) : list GroupVersion :=
  if bool_decide (gv ∈ seen) then seen else (seen ++ [gv])%list.
Definition observedVersions (es : list ((string * string) * string)) : list GroupVersion :=
  foldl observe [] ((λ e, ParseGroupVersion e.1.1) <$> es).

(** [scheme.New] with its versions; [None] when it panics. *)
Definition scheme_New (clientgo virt cdi : list ((string * string) * string)) : option server_scheme :=
  m ← New clientgo virt cdi;
  Some (mkScheme m (observedVersions (clientgo ++ virt ++ cdi ++ own_kinds)%list)).

Definition splitSubresource (path : string) : res error (string * string) :=
  match Split path "/" with
  | [r] => Ok (r, "")
  | [r; s] => Ok (r, s)
  | _ => Err (EMsg "api_installer allows only one or two segment paths (resource or resource/subresource)")
  end.

(** [GetResourceKind]: the kind of the storage's object in the group. *)
Definition ObjectKinds (m : scheme) (type : string) : list (string * string) :=
  (filter (λ e, e.2 = type) (map_to_list m)).*1.
Definition in_group (group gv : string) : bool := HasPrefix gv (group +:+ "/").
Definition GetResourceKind (m : scheme) (gv : GroupVersion) (storage : rest_storage) : res error string :=
  match ObjectKinds m (storage_New storage) with
  | [] => Err (EForeign "no kind is registered for the type")
  | kinds =>
      match List.filter (λ k, in_group (GV_Group gv) k.1) kinds with
      | k :: _ => Ok k.2
      | [] => Err (EForeign "unable to locate fully qualified kind")
      end
  end.

(** [Creater.New]. *)
Definition Creater_New (m : scheme) (gv kind : string) : res error unit :=
  match m !! (gv, kind) with Some _ => Ok tt | None => Err (EForeign "no kind is registered") end.

Definition option_kinds : list string := ["ListOptions"; "CreateOptions"; "PatchOptions"; "UpdateOptions"; "Status"].

(** [registerResourceHandlers], for storages with the interfaces above. *)
Definition registerResourceHandlers (m : scheme) (gv : GroupVersion) (storages : gmap string rest_storage)
    (path : string) (storage : rest_storage) : res error (APIResource * list Route) :=
  '(resource, subresource) ← splitSubresource path;
  kind ← GetResourceKind m gv storage;
  _ ← Creater_New m (gv_string gv) kind;
  let isSubresource := negb (str_empty subresource) in
  scoper ←
    (if isSubresource then
      match storages !! resource with
      | None => Err (EMsg ("missing parent storage: " +:+ resource))
      | Some parent => Ok parent
      end
    else Ok storage);
  namespaceScoped ←
    match NamespaceScoped scoper with
    | None => Err (EMsg (resource +:+ " must implement scoper"))
    | Some b => Ok b
    end;
  _ ← mapM (Creater_New m "v1") option_kinds;
  let itemPath := (if namespaceScoped : bool then "namespaces/{namespace}/" else "") +:+ resource +:+ "/{name}" +:+
                  (if isSubresource then "/" +:+ subresource else "") in
  let root := path_join [APIGroupPrefix; GV_Group gv; GV_Version gv] in
  let routes := (λ method, mkRoute method (root +:+ "/" +:+ itemPath) (ConnectTo gv path)) <$>
                default [] (ConnectMethods storage) in
  _ ← (if isSubresource then Ok tt
       else match GetSingularName storage with
            | None => Err (EMsg ("resource " +:+ resource +:+ " must implement SingularNameProvider"))
            | Some _ => Ok tt
            end);
  Ok (mkResource path kind, routes).

Definition string_le (a b : string) : Prop := String.leb a b = true.
#[export] Instance string_le_dec a b : Decision (string_le a b).
Proof. unfold string_le. apply _. Defined.

(** [Install] and [InstallREST]: the service of a group version with the
    routes of its storages, in the order of their names, and the one that
    lists its resources.  (An error is reported after the service was added,
    which does not matter: the process ends.) *)
Definition InstallREST (m : scheme) (gv : GroupVersion) (storages : gmap string rest_storage)
    : res error WebService :=
  let paths := merge_sort string_le (map_to_list storages).*1 in
  rs ← mapM (λ path,
    match storages !! path with
    | Some storage => registerResourceHandlers m gv storages path storage
    | None => Panic "nil storage"
    end) paths;
  let ws := mkWS (path_join [APIGroupPrefix; GV_Group gv; GV_Version gv]) (concat rs.*2) false in
  Ok (AddRoute ws (ListResources rs.*1)).

(** [Container.Add]: a second service with the same path ends the process with
    code 1, as an error of [Run] does. *)
Definition container_Add (container : list WebService) (ws : WebService) : res error (list WebService) :=
  if existsb (λ w, WS_RootPath w =? WS_RootPath ws) container
  then Err (EForeign "WebService with duplicate root path detected") else Ok (container ++ [ws])%list.

Definition PrioritizedVersionsForGroup (s : server_scheme) (group : string) : list GroupVersion :=
  filter (λ gv, GV_Group gv = group) (s_observed s).

Fixpoint installAPIResources (m : scheme) (versions : list GroupVersion)
    (storages : gmap string (gmap string rest_storage)) (container : list WebService) : res error (list WebService) :=
  match versions with
  | [] => Ok container
  | gv :: versions =>
      let storage := default ∅ (storages !! GV_Version gv) in
      if bool_decide (storage = ∅) then installAPIResources m versions storages container
      else
        ws ← InstallREST m gv storage;
        container ← container_Add container ws;
        installAPIResources m versions storages container
  end.

(** [InstallAPIGroup]; the models of the OpenAPI definitions are a
    parameter. *)
Definition InstallAPIGroup (models : res error unit) (s : server_scheme) (group : string)
    (storages : gmap string (gmap string rest_storage)) (container : list WebService) : res error (list WebService) :=
  let versions := PrioritizedVersionsForGroup s group in
  match versions with
  | [] => Err (EForeign "no version priority set")
  | gv :: _ =>
      if str_empty (GV_Group gv) then Err (EForeign "cannot register handler with an empty group")
      else if str_empty (GV_Version gv) then Err (EForeign "cannot register handler with an empty version")
      else
        _ ← map_err (EWrap "unable to get openapi models") models;
        container ← map_err (EWrap "unable to install api resources")
                      (installAPIResources (s_kinds s) versions storages container);
        let served := filter (λ v, default ∅ (storages !! GV_Version v) ≠ ∅) versions in
        container_Add container (AddRoute (mkWS (APIGroupPrefix +:+ "/" +:+ GV_Group gv) [] false) (ListVersions served))
  end.

(** ** apiserver.go: Run *)

(** What [Run] gets from its libraries: the outcome of the secure serving and
    authentication options, the client of the authorization options, the new
    server with the services it comes with, the OpenAPI models, and the
    running server, which is given the container and the authorizer. *)
Record libraries : Type := mkLibraries {
  secureServing_ApplyTo : res error unit;
  authn_ApplyTo : res error unit;
  authz_getClient : res error (option authorizer);
  config_New : res error (list WebService);
  openAPIModels : res error unit;
  RunWithContext : list WebService → authorizer → res error unit;
}.

(** The order in which a map of group versions is iterated over, which may be
    another one every time. *)
Class GroupOrder := {
  range_groups : ∀ {A}, nat → APIGroups A → APIGroups A;
  range_groups_perm {A} n (groups : APIGroups A) : range_groups n groups ≡ₚ groups;
}.

(** [New]. *)
Definition apiserver_New : authz_options := NewDelegatingAuthorizationOptions.

Definition allow_paths `{GroupOrder} {A} (a : authz_options) (apiGroups : APIGroups A) : authz_options :=
  mkAuthz (AlwaysAllowPaths a ++ ["/"; APIGroupPrefix; "/openapi/v2"; "/openapi/v3"; "/openapi/v3/*"] ++
           getAdditionalAlwaysAllowPaths (range_groups 0 apiGroups))%list (AlwaysAllowGroups a).

Fixpoint install_groups (models : res error unit) (s : server_scheme)
    (infos : list (string * gmap string (gmap string rest_storage))) (container : list WebService)
    : res error (list WebService) :=
  match infos with
  | [] => Ok container
  | (group, storages) :: infos =>
      container ← InstallAPIGroup models s group storages container;
      install_groups models s infos container
  end.

(** [Run] up to the server that is about to run. *)
Definition prepare `{MapOrder} `{GroupOrder} (lib : libraries) (a : authz_options) (s : server_scheme)
    (apiGroups : APIGroups rest_storage) : res error (list WebService * authorizer) :=
  let a := allow_paths a apiGroups in
  _ ← secureServing_ApplyTo lib;
  _ ← authn_ApplyTo lib;
  client ← authz_getClient lib;
  authz ← toAuthorizer a client;
  container ← config_New lib;
  container ← install_groups (openAPIModels lib) s (range_map (buildAPIGroupInfos (range_groups 1 apiGroups))) container;
  container ← hide_parents (range_groups 2 apiGroups) container;
  Ok (container, authz).

Definition Run `{MapOrder} `{GroupOrder} (lib : libraries) (a : authz_options) (s : server_scheme)
    (apiGroups : APIGroups rest_storage) : res error unit :=
  '(container, authz) ← prepare lib a s apiGroups;
  RunWithContext lib container authz.

(** cmd/apiserver/main.go: the two clients, then the server; [s] is
    [scheme.New()]. *)
Definition apiserver_main `{MapOrder} `{GroupOrder} (lib : libraries) (s : server_scheme)
    (virtClient templateClient : res error unit) : exit unit :=
  match virtClient, templateClient with
  | Ok _, Ok _ =>
      match Run lib apiserver_New s main_groups with
      | Ok _ => Cont tt
      | Err _ => Exit 1
      | Panic _ => Exit 2
      end
  | _, _ => Exit 255
  end.

(** ** openapi/openapi.go: names of the published schemas *)

(** [util.ToRESTFriendlyName]: the domain of the first part is reversed. *)
Definition ToRESTFriendlyName (name : string) : string :=
  match Split name "/" with
  | first :: rest =>
      let first := if Contains first "." then Join (reverse (Split first ".")) "." else first in
      Join (first :: rest) "."
  | [] => ""
  end.

Fixpoint EscapeJsonPointer (p : string) : string :=
  match p with
  | EmptyString => EmptyString
  | String c p' =>
      (if (c =? "~")%char then "~0" else if (c =? "/")%char then "~1" else String c EmptyString) +:+ EscapeJsonPointer p'
  end.

(** The names of [GetDefinitionName], and the reference to one in the
    document of version 3. *)
Definition GetDefinitionName (name : string) : string := ToRESTFriendlyName name.
Definition v3_ref (name : string) : string := "#/components/schemas/" +:+ EscapeJsonPointer (GetDefinitionName name).

(** The components of the document: [config.Definitions]. *)
Definition v3_components : list (string * definition) :=
  (λ '(name, d), (GetDefinitionName name, d)) <$> registry.

(** Following a reference of the document. *)
Fixpoint unescape (s : string) : string :=
  match s with
  | String "~" (String "0" s') => String "~" (unescape s')
  | String "~" (String "1" s') => String "/" (unescape s')
  | String c s' => String c (unescape s')
  | EmptyString => EmptyString
  end.
Definition v3_resolve (reference : string) : option definition :=
  strip_prefix "#/components/schemas/" reference ≫= λ p, assoc_get (unescape p) v3_components.

(** ** Who may use the server *)

(** The paths the server answers without asking anyone. *)
Definition open_path (path : string) : bool :=
  let p := TrimPrefix path "/" in
  existsb (λ name, name =? p)
    [""; "healthz"; "readyz"; "livez"; "apis"; "openapi/v2"; "openapi/v3";
     "apis/subresources.template.kubevirt.io"; "apis/subresources.template.kubevirt.io/v1alpha1";
     "apis/subresources.template.kubevirt.io/v1beta1"] || HasPrefix p "openapi/v3/".

Definition is_master (user : option (list string)) : bool :=
  match user with Some gs => existsb (λ g, g =? "system:masters") gs | None => false end.

(** What the authorizer of the server decides, given what the cluster does. *)
Definition server_decision (client : option authorizer) : authorizer := λ user info,
  if is_master user || (negb (IsResourceRequest info) && open_path (RI_Path info)) then Allow
  else match client with Some a => a user info | None => NoOpinion end.

Lemma main_groups_orders `{GroupOrder} n :
  range_groups n main_groups = main_groups ∨ range_groups n main_groups = reverse main_groups.
Proof. apply Permutation_length_2_inv. by rewrite range_groups_perm. Qed.

Lemma privileged_masters user info :
  NewPrivilegedGroups ["system:masters"] user info = if is_master user then Allow else NoOpinion.
Proof.
  destruct user as [gs|]; [|done]. unfold NewPrivilegedGroups, is_master.
  assert (existsb (λ g, existsb (String.eqb g) ["system:masters"]) gs = existsb (λ g, g =? "system:masters") gs) as ->;
    [|done].
  induction gs as [|g gs IH]; [done|]. cbn [existsb] in *. by rewrite IH, orb_false_r.
Qed.

Lemma server_authorizer `{GroupOrder} client :
  ∃ a, toAuthorizer (allow_paths apiserver_New main_groups) client = Ok a ∧
    ∀ user info, a user info = server_decision client user info.
Proof.
  assert (∃ ps, mapM (λ p, split_star (TrimPrefix p "/")) (AlwaysAllowPaths (allow_paths apiserver_New main_groups)) = Ok ps ∧
    ∀ pth, existsb (λ p, match p with inl name => name =? pth | inr prefix => HasPrefix pth prefix end) ps =
      existsb (λ name, name =? pth)
        [""; "healthz"; "readyz"; "livez"; "apis"; "openapi/v2"; "openapi/v3";
         "apis/subresources.template.kubevirt.io"; "apis/subresources.template.kubevirt.io/v1alpha1";
         "apis/subresources.template.kubevirt.io/v1beta1"] || HasPrefix pth "openapi/v3/") as (ps & Hps & Hopen).
  { unfold allow_paths. destruct (main_groups_orders 0) as [->| ->];
      (eexists; split; [vm_compute; reflexivity|]; intros pth; cbn [existsb]; generalize (HasPrefix pth "openapi/v3/");
       repeat match goal with |- context [String.eqb ?x pth] => generalize (String.eqb x pth) end; intros;
       apply eq_true_iff_eq; rewrite !orb_true_iff; tauto). }
  unfold toAuthorizer. destruct (AlwaysAllowPaths _) as [|p l] eqn:Hpaths; [done|]. rewrite <- Hpaths.
  unfold path_NewAuthorizer. rewrite Hpaths, Hps. cbn [mbind res_bind AlwaysAllowGroups allow_paths apiserver_New].
  eexists. split; [reflexivity|]. intros user info.
  change (AlwaysAllowGroups apiserver_New) with ["system:masters"]. cbn [app union_authorizer].
  rewrite privileged_masters, Hopen. unfold server_decision, open_path. destruct (is_master user); [done|].
  destruct (IsResourceRequest info); cbn [negb andb orb]; [|destruct (_ || _)];
    destruct client as [a|]; cbn; try done; by destruct (a user info).
Qed.

(** A path that does not end in a slash is not trimmed at its end. *)
Lemma TrimRightByte_keep a b c : b ≠ EmptyString → TrimRightByte b c = b → TrimRightByte (a +:+ b) c = a +:+ b.
Proof.
  intros Hne Hb. induction a as [|d a IH]; [done|]. cbn [String.append TrimRightByte]. rewrite IH.
  destruct (a +:+ b) as [|e s] eqn:E; [|done]. destruct a; [cbn in E; congruence|done].
Qed.

Lemma Join_snoc l x sep : l ≠ [] → Join (l ++ [x])%list sep = Join l sep +:+ sep +:+ x.
Proof.
  intros Hl. induction l as [|y l IH]; [done|]. destruct l as [|z l]; [done|].
  change (Join ((y :: z :: l) ++ [x])%list sep) with (y +:+ sep +:+ Join ((z :: l) ++ [x])%list sep).
  rewrite IH by done. change (Join (y :: z :: l) sep) with (y +:+ sep +:+ Join (z :: l) sep).
  by rewrite !str_app_assoc.
Qed.

Lemma splitPath_Join l x : l ≠ [] → head l ≠ Some EmptyString → Forall (λ s, no_char "/" s = true) (l ++ [x])%list →
  x ≠ EmptyString → splitPath (String "/" (Join (l ++ [x])%list "/")) = (l ++ [x])%list.
Proof.
  intros Hl Hhead Hall Hx. unfold splitPath. set (path := Join (l ++ [x])%list "/") in *.
  assert (TrimLeftByte (String "/" path) "/" = path) as ->.
  { destruct l as [|y l]; [done|]. destruct y as [|c y]; [done|]. apply Forall_cons in Hall as [Hc _].
    cbn in Hc. apply andb_true_iff in Hc as [Hc%negb_true_iff _]. cbn [TrimLeftByte]. cbn.
    subst path. destruct l as [|z l]; cbn; by rewrite Hc. }
  assert (TrimRightByte x "/" = x) as Hkeep.
  { apply Forall_app in Hall as [_ Hall]. rewrite Forall_singleton in Hall. clear -Hall. unfold no_char in Hall.
    induction x as [|c x IH]; [done|]. cbn in Hall. apply andb_true_iff in Hall as [Hc%negb_true_iff Hs].
    cbn [TrimRightByte]. rewrite IH by done. destruct x; [by rewrite Hc|done]. }
  assert (TrimRightByte path "/" = path) as ->.
  { subst path. rewrite Join_snoc by done. rewrite <- str_app_assoc. by apply TrimRightByte_keep. }
  assert (str_empty path = false) as ->.
  { subst path. destruct l as [|[|c y] l]; [done..|]. by destruct l. }
  apply Split_Join; [by destruct l|done].
Qed.

(** The attributes of a request for a subresource. *)
Definition subresource_info (v : api_version) (ns name sub path : string) : RequestInfo :=
  mkInfo true path "create" "apis" "subresources.template.kubevirt.io" (GV_Version (subresource_gv v))
    ns PluralResourceName sub name.

Lemma subresource_request_info v ns name sub q :
  good_segment ns = true → good_segment name = true → sub ∈ ["process"; "create"] →
  let path := Join [""; "apis"; "subresources.template.kubevirt.io"; GV_Version (subresource_gv v); "namespaces"; ns;
                    "virtualmachinetemplates"; name; sub] "/" in
  NewRequestInfo "POST" path q = Ok (subresource_info v ns name sub path).
Proof.
  intros (_ & _ & Hns)%good_segment_spec (_ & _ & Hname)%good_segment_spec Hsub path.
  set (l := ["apis"; "subresources.template.kubevirt.io"; GV_Version (subresource_gv v); "namespaces"; ns;
             "virtualmachinetemplates"; name]).
  assert (no_char "/" sub = true ∧ sub ≠ EmptyString) as [Hsc Hse].
  { repeat (apply elem_of_cons in Hsub as [->|Hsub]; [done|]). by apply elem_of_nil in Hsub. }
  assert (splitPath path = (l ++ [sub])%list) as Hpath.
  { apply (splitPath_Join l sub); [done..| |done]. repeat constructor; try done. by destruct v. }
  unfold NewRequestInfo. rewrite Hpath. subst l. cbn -[str_empty]. by rewrite !andb_false_r.
Qed.

(** C29: Who may process and create: whatever the order in which the server's
    groups are gone through, the authorizer it runs with lets members of
    system:masters do everything, lets everyone see health, discovery and
    schemas, and leaves every other request to the cluster.  The requests of
    the typed clients are never among the open ones: they are allowed exactly
    to masters and to those whom the cluster allows to create that
    subresource of that template in that namespace. *)
Theorem server_authorization `{GroupOrder} client user :
  ∃ a, toAuthorizer (allow_paths apiserver_New main_groups) client = Ok a ∧
    (∀ info, a user info = server_decision client user info) ∧
    (∀ v ns name sub path q,
      sub ∈ ["process"; "create"] →
      good_segment ns = true → good_segment name = true →
      sent (subresource_request (subresource_gv v) (ClientV1beta1.newVirtualMachineTemplates ns) name sub) = Some ("POST", path) →
      ∃ info, NewRequestInfo "POST" path q = Ok info ∧
        (a user info = Allow ↔
          is_master user = true ∨ ∃ sar, client = Some sar ∧ sar user (subresource_info v ns name sub path) = Allow)).
Proof.
  destruct (server_authorizer client) as (a & Ha & Hdec). exists a. split; [exact Ha|]. split; [apply Hdec|].
  intros v ns name sub path q Hsub Hns Hname Hsent.
  pose proof (subresource_path (GV_Version (subresource_gv v)) sub (ClientV1beta1.newVirtualMachineTemplates ns) name Hsub Hns Hname) as Hp.
  change (mkGV _ (GV_Version (subresource_gv v))) with (subresource_gv v) in Hp. rewrite Hp in Hsent. injection Hsent as <-.
  eexists. split; [by apply subresource_request_info|]. rewrite Hdec. unfold server_decision.
  cbn [IsResourceRequest subresource_info negb andb]. rewrite orb_false_r.
  destruct (is_master user); [naive_solver|]. destruct client as [sar|]; [naive_solver|].
  split; [done|]. intros [?|(? & ? & _)]; done.
Qed.

(** ** What the server serves *)

(** The scheme knows the program's own kinds, each with a type of its own, and
    the kinds of options; the subresource group has the two versions. *)
Record scheme_ok (s : server_scheme) : Prop := {
  own_known k t : (k, t) ∈ own_kinds → s_kinds s !! k = Some t;
  own_types k t : s_kinds s !! k = Some t → t ∈ own_kinds.*2 → (k, t) ∈ own_kinds;
  options_known k : k ∈ option_kinds → is_Some (s_kinds s !! ("v1", k));
  own_versions : PrioritizedVersionsForGroup s "subresources.template.kubevirt.io" =
    [subresource_gv V1alpha1; subresource_gv V1beta1];
}.

Definition storage_kind (s : rest_storage) : string :=
  match s with DummyREST _ => "VirtualMachineTemplate" | _ => "ProcessedVirtualMachineTemplate" end.
Definition storage_version (s : rest_storage) : api_version :=
  match s with DummyREST v | ProcessREST v | CreateREST v => v end.

Lemma own_entry storage :
  ((gv_string (subresource_gv (storage_version storage)), storage_kind storage), storage_New storage) ∈ own_kinds.
Proof. apply (bool_decide_unpack _). destruct storage as [[]|[]|[]]; vm_compute; exact I. Qed.

Lemma ObjectKinds_own s k t : scheme_ok s → (k, t) ∈ own_kinds → ObjectKinds (s_kinds s) t = [k].
Proof.
  intros Hs Hk. unfold ObjectKinds.
  assert (filter (λ e, e.2 = t) (map_to_list (s_kinds s)) = [(k, t)]) as ->; [|done].
  apply Permutation_singleton_r. apply NoDup_Permutation.
  - apply NoDup_filter, NoDup_map_to_list.
  - apply NoDup_singleton.
  - intros [k' t']. rewrite list_elem_of_filter, elem_of_map_to_list, list_elem_of_singleton. cbn. split.
    + intros [-> Hk']. apply (own_types s Hs) in Hk'; [|by apply (list_elem_of_fmap_2 snd) in Hk].
      assert (∀ e e', e ∈ own_kinds → e' ∈ own_kinds → e.2 = e'.2 → e = e') as Hinj.
      { assert (Forall (λ e, Forall (λ e', e.2 = e'.2 → e = e') own_kinds) own_kinds) as Hall
          by (apply (bool_decide_unpack _); vm_compute; exact I).
        rewrite Forall_forall in Hall. intros e e' He He'. specialize (Hall e He). rewrite Forall_forall in Hall. auto. }
      exact (Hinj (k', t) (k, t) Hk' Hk eq_refl).
    + intros [= -> ->]. split; [done|]. by apply (own_known s Hs).
Qed.

Lemma GetResourceKind_own s storage : scheme_ok s →
  GetResourceKind (s_kinds s) (subresource_gv (storage_version storage)) storage = Ok (storage_kind storage).
Proof.
  intros Hs. unfold GetResourceKind. rewrite (ObjectKinds_own s _ _ Hs (own_entry storage)).
  by destruct storage as [[]|[]|[]].
Qed.

Lemma options_created s : scheme_ok s → mapM (Creater_New (s_kinds s) "v1") option_kinds = Ok (replicate 5 tt).
Proof.
  intros Hs. assert (∀ k, k ∈ option_kinds → Creater_New (s_kinds s) "v1" k = Ok tt) as Hk.
  { intros k Hk. unfold Creater_New. by destruct (options_known s Hs k Hk) as [t ->]. }
  unfold option_kinds. cbn [mapM]. rewrite !Hk by (unfold option_kinds; set_solver). done.
Qed.

(** The route of a subresource. *)
Definition connect_route (v : api_version) (sub : string) : Route :=
  mkRoute "POST" ("/apis/" +:+ gv_string (subresource_gv v) +:+
      "/namespaces/{namespace}/virtualmachinetemplates/{name}/" +:+ sub)
    (ConnectTo (subresource_gv v) (PluralResourceName +:+ "/" +:+ sub)).

Definition all_resources : list APIResource :=
  [mkResource PluralResourceName "VirtualMachineTemplate";
   mkResource (PluralResourceName +:+ "/create") "ProcessedVirtualMachineTemplate";
   mkResource (PluralResourceName +:+ "/process") "ProcessedVirtualMachineTemplate"].

(** The service of a version, with the handler of its list of resources. *)
Definition version_service (v : api_version) (dynamic : bool) (h : handler) : WebService :=
  let root := "/apis/" +:+ gv_string (subresource_gv v) in
  mkWS root [connect_route v "create"; connect_route v "process"; mkRoute "GET" (root +:+ "/") h] dynamic.

Lemma InstallREST_own s v : scheme_ok s →
  InstallREST (s_kinds s) (subresource_gv v) (version_storage v) = Ok (version_service v false (ListResources all_resources)).
Proof.
  intros Hs. unfold InstallREST.
  assert (merge_sort string_le (map_to_list (version_storage v)).*1 =
    [PluralResourceName; PluralResourceName +:+ "/create"; PluralResourceName +:+ "/process"]) as ->
    by (destruct v; vm_compute; reflexivity).
  assert (∀ sub storage, version_storage v !! (PluralResourceName +:+ sub) = Some storage → storage_version storage = v →
    Creater_New (s_kinds s) (gv_string (subresource_gv v)) (storage_kind storage) = Ok tt ∧
    GetResourceKind (s_kinds s) (subresource_gv v) storage = Ok (storage_kind storage)) as Hkind.
  { intros sub storage _ <-. split; [|by apply GetResourceKind_own]. unfold Creater_New.
    by rewrite (own_known s Hs _ _ (own_entry storage)). }
  assert (version_storage v !! PluralResourceName = Some (DummyREST v)) as H0 by (by destruct v).
  assert (version_storage v !! (PluralResourceName +:+ "/create") = Some (CreateREST v)) as H1 by (by destruct v).
  assert (version_storage v !! (PluralResourceName +:+ "/process") = Some (ProcessREST v)) as H2 by (by destruct v).
  cbn [mapM]. rewrite H0, H1, H2. unfold registerResourceHandlers.
  change (splitSubresource PluralResourceName) with (Ok (E := error) (PluralResourceName, "")).
  change (splitSubresource (PluralResourceName +:+ "/create")) with (Ok (E := error) (PluralResourceName, "create")).
  change (splitSubresource (PluralResourceName +:+ "/process")) with (Ok (E := error) (PluralResourceName, "process")).
  cbn [mbind res_bind]. rewrite H0.
  destruct (Hkind "" (DummyREST v)) as [C0 K0]; [by rewrite str_app_nil_r|done|].
  destruct (Hkind "/create" (CreateREST v)) as [C1 K1]; [done..|].
  destruct (Hkind "/process" (ProcessREST v)) as [C2 K2]; [done..|].
  rewrite K0, K1, K2. cbn [mbind res_bind]. rewrite C0, C1, C2. cbn [mbind res_bind].
  rewrite (options_created s Hs). by destruct v.
Qed.

Definition group_service : WebService :=
  let root := "/apis/subresources.template.kubevirt.io" in
  mkWS root [mkRoute "GET" (root +:+ "/") (ListVersions [subresource_gv V1alpha1; subresource_gv V1beta1])] false.

Definition server_roots : list string :=
  ["/apis/subresources.template.kubevirt.io/v1alpha1"; "/apis/subresources.template.kubevirt.io/v1beta1";
   "/apis/subresources.template.kubevirt.io"].

(** The services the server came with use none of its paths. *)
Definition no_clash (container : list WebService) : Prop :=
  Forall (λ ws, WS_RootPath ws ∉ server_roots) container.

Lemma container_Add_fresh container l ws : no_clash container → WS_RootPath ws ∈ server_roots →
  existsb (λ w, WS_RootPath w =? WS_RootPath ws) l = false →
  container_Add (container ++ l)%list ws = Ok ((container ++ l) ++ [ws])%list.
Proof.
  intros Hc Hws Hl. unfold container_Add. rewrite existsb_app, Hl, orb_false_r.
  assert (existsb (λ w, WS_RootPath w =? WS_RootPath ws) container = false) as ->; [|done].
  apply not_true_is_false. intros (w & Hin & Heq%String.eqb_eq)%existsb_exists.
  unfold no_clash in Hc. rewrite Forall_forall in Hc. apply (Hc w); [by apply list_elem_of_In|congruence].
Qed.

Lemma find_ws_fresh container root i l : no_clash container → root ∈ server_roots →
  find_ws root i (container ++ l)%list = find_ws root (i + length container) l.
Proof.
  intros Hc Hroot. revert i. induction Hc as [|ws container Hws _ IH]; intros i; cbn; [by rewrite Nat.add_0_r|].
  destruct (String.eqb_spec (WS_RootPath ws) root) as [Heq|_]; [by rewrite Heq in Hws|].
  rewrite IH. f_equal. lia.
Qed.

Lemma install_own_groups s container : scheme_ok s → no_clash container →
  ∀ groups, groups = main_groups ∨ groups = reverse main_groups → ∀ `{MapOrder},
  install_groups (Ok tt) s (range_map (buildAPIGroupInfos groups)) container =
    Ok (container ++ [version_service V1alpha1 false (ListResources all_resources);
                      version_service V1beta1 false (ListResources all_resources); group_service])%list.
Proof.
  intros Hs Hc groups Hgroups order.
  set (storages := {[ "v1alpha1" := version_storage V1alpha1; "v1beta1" := version_storage V1beta1 ]}
    : gmap string (gmap string rest_storage)).
  assert (buildAPIGroupInfos groups = {[ "subresources.template.kubevirt.io" := storages ]}) as ->
    by (destruct Hgroups as [-> | ->]; vm_compute; reflexivity).
  assert (range_map {[ "subresources.template.kubevirt.io" := storages ]} = [("subresources.template.kubevirt.io", storages)]) as ->.
  { apply Permutation_singleton_r. by rewrite range_map_perm, map_to_list_singleton. }
  cbn [install_groups]. unfold InstallAPIGroup. rewrite (own_versions s Hs).
  cbn [installAPIResources str_empty map_err mbind res_bind].
  change (default ∅ (storages !! GV_Version (subresource_gv V1alpha1))) with (version_storage V1alpha1).
  change (default ∅ (storages !! GV_Version (subresource_gv V1beta1))) with (version_storage V1beta1).
  rewrite !bool_decide_eq_false_2 by done. rewrite !InstallREST_own by done. cbn [mbind res_bind].
  rewrite <- (app_nil_r container) at 1. rewrite container_Add_fresh by (done || set_solver). cbn [mbind res_bind].
  rewrite app_nil_r, container_Add_fresh by (done || set_solver). cbn [map_err mbind res_bind].
  rewrite <- app_assoc, container_Add_fresh by (done || set_solver). cbn [mbind res_bind]. rewrite <- app_assoc. cbn [app].
  reflexivity.
Qed.

(** Replacing the route of one version, with the other services around it. *)
Lemma filter_own_version container before after v h : no_clash container →
  existsb (λ w, WS_RootPath w =? WS_RootPath (version_service v false h)) before = false →
  installFilteredAPIVersionHandler (subresource_gv v) [PluralResourceName]
    (container ++ before ++ version_service v false h :: after)%list =
  Ok (container ++ before ++ version_service v true (Filtering [PluralResourceName] h) :: after)%list.
Proof.
  intros Hc Hbefore. unfold installFilteredAPIVersionHandler.
  set (root := path_join [APIGroupPrefix; GV_Group (subresource_gv v); GV_Version (subresource_gv v)]).
  assert (root = WS_RootPath (version_service v false h)) as Hroot by (by destruct v).
  rewrite find_ws_fresh; [|done|subst root; destruct v; set_solver].
  assert (∀ i, find_ws root i (before ++ version_service v false h :: after)%list =
    Some (i + length before, version_service v false h)) as Hfind.
  { clear -Hbefore Hroot. induction before as [|w before IH]; intros i; cbn [find_ws app length].
    - by rewrite <- Hroot, String.eqb_refl, Nat.add_0_r.
    - cbn [existsb] in Hbefore. apply orb_false_iff in Hbefore as [Hw Hbefore]. rewrite Hroot at 1. rewrite Hw.
      rewrite IH by done. do 2 f_equal. lia. }
  rewrite Hfind. clear Hfind Hroot.
  assert (∀ x, <[0 + length container + length before := x]> (container ++ before ++ version_service v false h :: after)%list =
    (container ++ before ++ x :: after)%list) as Hins.
  { intros x. cbn [Nat.add]. rewrite insert_app_r, <- (Nat.add_0_r (length before)), insert_app_r. done. }
  revert Hins. generalize (0 + length container + length before)%nat. intros i.
  generalize (container ++ before ++ version_service v false h :: after)%list. intros c Hins.
  cut (∀ ws, ws = AddRoute (mkWS (WS_RootPath (version_service v false h)) [connect_route v "create"; connect_route v "process"] true)
                    (Filtering [PluralResourceName] h) → Ok (E := error) (<[i := ws]> c) =
    Ok (container ++ before ++ version_service v true (Filtering [PluralResourceName] h) :: after)%list).
  { intros Hcut. destruct v; by apply Hcut. }
  intros ws ->. rewrite Hins. by destruct v.
Qed.

(** The services of the running server. *)
Definition served (container : list WebService) : list WebService :=
  (container ++ [version_service V1alpha1 true (Filtering [PluralResourceName] (ListResources all_resources));
                 version_service V1beta1 true (Filtering [PluralResourceName] (ListResources all_resources));
                 group_service])%list.

Lemma main_hides_parent `{MapOrder} v : getParentResourceNames (version_storage v) = [PluralResourceName].
Proof.
  apply Permutation_singleton_r. apply NoDup_Permutation; [apply parent_names|apply NoDup_singleton|].
  intros p. rewrite (proj2 (parent_names (version_storage v))), list_elem_of_singleton. split.
  - intros (Hp & sub & x & Hx).
    assert (parent (p +:+ "/" +:+ sub) = Some p) as Hpar by (apply parent_spec; eauto).
    unfold version_storage in Hx.
    repeat (apply lookup_insert_Some in Hx as [[Heq _]|[_ Hx]]; [rewrite <- Heq in Hpar; vm_compute in Hpar; by simplify_eq|]).
    apply lookup_singleton_Some in Hx as [Heq _]. rewrite <- Heq in Hpar. vm_compute in Hpar. by simplify_eq.
  - intros ->. split; [done|]. exists "process". destruct v; by eexists.
Qed.

Lemma hide_own_groups `{MapOrder} container groups : no_clash container →
  groups = main_groups ∨ groups = reverse main_groups →
  hide_parents groups (container ++ [version_service V1alpha1 false (ListResources all_resources);
    version_service V1beta1 false (ListResources all_resources); group_service])%list = Ok (served container).
Proof.
  intros Hc Hgroups. unfold served. generalize (ListResources all_resources). intros h.
  assert (∀ b h' c h'', existsb (λ w, WS_RootPath w =? WS_RootPath (version_service V1beta1 c h'')) [version_service V1alpha1 b h'] = false)
    as Hab by done.
  pose proof (λ l, filter_own_version container [] l V1alpha1 h Hc eq_refl) as Halpha.
  pose proof (λ b h' l, filter_own_version container [version_service V1alpha1 b h'] l V1beta1 h Hc (Hab b h' false h)) as Hbeta.
  cbn [app] in Halpha, Hbeta.
  destruct Hgroups as [-> | ->]; cbn [hide_parents main_groups reverse rev_append]; rewrite !main_hides_parent.
  - rewrite Halpha. cbn [mbind res_bind]. by rewrite Hbeta.
  - rewrite Hbeta. cbn [mbind res_bind]. by rewrite Halpha.
Qed.

(** C30: The API server of cmd/apiserver: when its libraries do their part, for
    every order in which its maps are gone through, it runs with exactly
    these services next to those it came with: for each version POST routes
    to /process and /create and a list of its resources from which the parent
    is hidden, and the list of the two versions; with the authorizer above;
    and the process ends as the server ends, with code 1 if that fails. *)
Theorem main_serves `{MapOrder} `{GroupOrder} lib s client container :
  scheme_ok s → no_clash container →
  secureServing_ApplyTo lib = Ok tt → authn_ApplyTo lib = Ok tt → authz_getClient lib = Ok client →
  config_New lib = Ok container → openAPIModels lib = Ok tt →
  ∃ a, (∀ user info, a user info = server_decision client user info) ∧
    Run lib apiserver_New s main_groups = RunWithContext lib (served container) a ∧
    apiserver_main lib s (Ok tt) (Ok tt) =
      match RunWithContext lib (served container) a with Ok _ => Cont tt | Err _ => Exit 1 | Panic _ => Exit 2 end ∧
    hide [PluralResourceName] all_resources =
      [mkResource (PluralResourceName +:+ "/create") "ProcessedVirtualMachineTemplate";
       mkResource (PluralResourceName +:+ "/process") "ProcessedVirtualMachineTemplate"].
Proof.
  intros Hs Hc Hsec Hauthn Hclient Hnew Hmodels.
  destruct (server_authorizer client) as (a & Ha & Hdec). exists a. split; [exact Hdec|].
  assert (Run lib apiserver_New s main_groups = RunWithContext lib (served container) a) as Hrun.
  { unfold Run, prepare. rewrite Hsec, Hauthn, Hclient, Hnew, Hmodels. cbn [mbind res_bind]. rewrite Ha. cbn [mbind res_bind].
    rewrite (install_own_groups s container Hs Hc _ (main_groups_orders 1)). cbn [mbind res_bind].
    by rewrite (hide_own_groups container _ Hc (main_groups_orders 2)). }
  split; [exact Hrun|]. split; [|reflexivity]. unfold apiserver_main. rewrite Hrun.
  by destruct (RunWithContext lib (served container) a).
Qed.

(** ** The scheme of the process *)

Lemma observe_filter (P : GroupVersion → Prop) `{∀ x, Decision (P x)} l acc :
  filter P (foldl observe acc l) = foldl observe (filter P acc) (filter P l).
Proof.
  revert acc. induction l as [|x l IH]; intros acc; [done|]. cbn [foldl]. rewrite IH. unfold observe at 2.
  rewrite filter_cons. case_decide as Hx; cbn [foldl].
  - unfold observe at 3. rewrite (bool_decide_ext (x ∈ filter P acc) (x ∈ acc)) by (rewrite list_elem_of_filter; tauto).
    case_bool_decide; [done|]. by rewrite filter_app, filter_cons_True.
  - case_bool_decide; [done|]. by rewrite filter_app, filter_cons_False, filter_nil, app_nil_r.
Qed.

(** The scheme of the program is as the server needs it, when the libraries
    bring the kinds of options and neither kinds, types nor versions of the
    program. *)
Theorem scheme_New_ok clientgo virt cdi m0 :
  register_all ∅ (clientgo ++ virt ++ cdi) = Some m0 → (∀ k, k ∈ own_kinds.*1 → m0 !! k = None) →
  (∀ k t, m0 !! k = Some t → t ∉ own_kinds.*2) → (∀ k, k ∈ option_kinds → is_Some (m0 !! ("v1", k))) →
  Forall (λ e, GV_Group (ParseGroupVersion e.1.1) ≠ "subresources.template.kubevirt.io") (clientgo ++ virt ++ cdi) →
  ∃ s, scheme_New clientgo virt cdi = Some s ∧ scheme_ok s.
Proof.
  intros H0 Hfresh Htypes Hopts Hgroups. destruct (New_kinds clientgo virt cdi m0 H0 Hfresh) as (m & Hm & Hown & Hrest).
  unfold scheme_New. rewrite Hm. eexists. split; [reflexivity|]. split; cbn [s_kinds].
  - exact Hown.
  - intros k t Hk Ht. destruct (decide (k ∈ own_kinds.*1)) as [([k' t'] & -> & Hin)%list_elem_of_fmap|Hno].
    + pose proof (Hown _ _ Hin) as Hk'. cbn in Hk. rewrite Hk' in Hk. by simplify_eq.
    + rewrite Hrest in Hk by done. by apply Htypes in Hk.
  - intros k Hk. rewrite Hrest; [by apply Hopts|]. intros Hin. destruct (Hopts k Hk) as [t Ht]. by rewrite Hfresh in Ht.
  - unfold PrioritizedVersionsForGroup, observedVersions. cbn [s_observed]. rewrite !app_assoc, fmap_app.
    rewrite observe_filter, filter_app. rewrite <- !app_assoc.
    assert (filter (λ gv, GV_Group gv = "subresources.template.kubevirt.io")
      ((λ e : string * string * string, ParseGroupVersion e.1.1) <$> (clientgo ++ virt ++ cdi)%list) = []) as ->.
    { clear -Hgroups. induction Hgroups as [|e l He _ IH]; [done|]. cbn [fmap list_fmap]. by rewrite filter_cons_False. }
    vm_compute. reflexivity.
Qed.

(** ** The published schemas *)

Lemma unescape_escape s : unescape (EscapeJsonPointer s) = s.
Proof.
  induction s as [|c s IH]; [done|]. cbn [EscapeJsonPointer].
  destruct (Ascii.eqb_spec c "~") as [->|H1]; [cbn; by rewrite IH|].
  destruct (Ascii.eqb_spec c "/") as [->|H2]; [cbn; by rewrite IH|].
  cbn [String.append]. rewrite <- IH at 2. destruct c as [[] [] [] [] [] [] [] []]; try done.
Qed.

(** Every name of a schema is still one of a kind in the document of version
    3, so every reference in it leads to the schema of the type that was
    meant. *)
Theorem v3_refs_resolve name d : (name, d) ∈ registry → v3_resolve (v3_ref name) = Some d.
Proof.
  intros Hin. unfold v3_resolve, v3_ref. rewrite strip_prefix_app. cbn [mbind option_bind].
  rewrite unescape_escape. revert Hin. unfold v3_components.
  assert (NoDup ((λ '(name, _), GetDefinitionName name) <$> registry)) as Hnd
    by (apply (bool_decide_unpack _); vm_compute; exact I).
  generalize dependent registry. intros reg Hnd Hin. induction reg as [|[n d'] reg IH]; [by apply elem_of_nil in Hin|].
  cbn in Hnd |- *. apply NoDup_cons in Hnd as [Hn Hnd]. apply elem_of_cons in Hin as [[= -> ->]|Hin].
  - by rewrite String.eqb_refl.
  - destruct (String.eqb_spec (GetDefinitionName name) (GetDefinitionName n)) as [Heq|Hne]; [|by apply IH].
    exfalso. apply Hn, list_elem_of_fmap. exists (name, d). by split; [|].
Qed.

(** ** Concrete instances *)

#[local] Instance reverse_groups : GroupOrder.
Proof.
  refine {| range_groups A n groups := if Nat.even n then groups else reverse groups |}.
  intros A n groups. destruct (Nat.even n); [done|]. by rewrite reverse_Permutation.
Defined.

Definition sample_libraries : libraries :=
  mkLibraries (Ok tt) (Ok tt) (Ok (Some (λ _ info, if RI_Namespace info =? "team-a" then Allow else NoOpinion)))
    (Ok [mkWS "/version" [mkRoute "GET" "/version/" (Original 0)] false]) (Ok tt)
    (λ container _, if (length container =? 4)%nat then Ok tt else Err (EMsg "services")).

Definition option_registrations : list ((string * string) * string) :=
  (λ k, (("v1", k), "metav1." +:+ k)) <$> option_kinds.

Lemma scheme_New_ok_witness : ∃ s, scheme_New option_registrations [] [] = Some s ∧ scheme_ok s.
Proof.
  apply (scheme_New_ok option_registrations [] [] (list_to_map option_registrations)).
  - vm_compute. reflexivity.
  - apply Forall_forall, (bool_decide_unpack _). vm_compute. exact I.
  - assert (map_Forall (λ _ t, t ∉ own_kinds.*2) (list_to_map option_registrations : scheme)) as Hall
      by (apply (bool_decide_unpack _); vm_compute; exact I).
    exact Hall.
  - apply Forall_forall, (bool_decide_unpack _). vm_compute. exact I.
  - apply (bool_decide_unpack _). vm_compute. exact I.
Defined.

Lemma main_serves_witness : ∃ s, scheme_New option_registrations [] [] = Some s ∧
  let _ := list_order in apiserver_main sample_libraries s (Ok tt) (Ok tt) = Cont tt.
Proof.
  destruct scheme_New_ok_witness as (s & Hs & Hok). exists s. split; [exact Hs|]. intros order.
  destruct (main_serves sample_libraries s (Some (λ _ info, if RI_Namespace info =? "team-a" then Allow else NoOpinion))
    [mkWS "/version" [mkRoute "GET" "/version/" (Original 0)] false] Hok
    ltac:(apply (bool_decide_unpack _); vm_compute; exact I) eq_refl eq_refl eq_refl eq_refl eq_refl)
    as (a & _ & _ & Hmain & _).
  rewrite Hmain. reflexivity.
Defined.

Lemma server_authorization_witness :
  ∃ a info, toAuthorizer (allow_paths apiserver_New main_groups) None = Ok a ∧
    NewRequestInfo "POST" "/apis/subresources.template.kubevirt.io/v1beta1/namespaces/team-a/virtualmachinetemplates/web/process"
      (mkQuery false None) = Ok info ∧
    a (Some ["system:masters"]) info = Allow.
Proof.
  destruct (server_authorization None (Some ["system:masters"])) as (a & Ha & _ & Hreq).
  assert ("process" ∈ ["process"; "create"]) as Hsub by (left).
  destruct (Hreq V1beta1 "team-a" "web" "process" _ (mkQuery false None) Hsub eq_refl eq_refl eq_refl) as (info & Hinfo & Hdec).
  exists a, info. split; [exact Ha|]. split; [exact Hinfo|]. apply Hdec. left. reflexivity.
Defined.

Lemma v3_refs_resolve_witness :
  v3_ref "kubevirt.io/virt-template-api/core/v1beta1.Parameter" =
    "#/components/schemas/io.kubevirt.virt-template-api.core.v1beta1.Parameter" ∧
  v3_resolve (v3_ref "kubevirt.io/virt-template-api/core/v1beta1.Parameter") = Some Schemav1beta1.schema_Parameter.
Proof.
  split; [vm_compute; reflexivity|]. apply v3_refs_resolve, (list_elem_of_lookup_2 registry 26). reflexivity.
Defined.
