(* ===== verification/OpenApiAll.v ===== *)
(** * The published OpenAPI document: all definitions, and its components

    The whole of [GetOpenAPIDefinitions] of api/openapi_generated.go, and the
    builder of kube-openapi that copies the definitions a route needs into the
    components of the document of version 3.  The definitions are closed, so
    the builder never misses one, and what it builds is exactly what can be
    reached from the types of the routes. *)

From Stdlib Require Import Ascii.
From stdpp Require Import prelude strings gmap sets relations.
From S2P Require Import Prelude GoStrings Json OpenApi OpenApiCore OpenApiMeta OpenApiVirt OpenApiCdi ApiServer.

Local Open Scope string_scope.

(** ** The definitions *)

(** [GetOpenAPIDefinitions], in the order of the source; the references are
    the names of the types, before the [ReferenceCallback]. *)
Definition GetOpenAPIDefinitions : list (string * definition) :=
  [("k8s.io/api/core/v1.AWSElasticBlockStoreVolumeSource", schema_k8sio_api_core_v1_AWSElasticBlockStoreVolumeSource);
   ("k8s.io/api/core/v1.Affinity", schema_k8sio_api_core_v1_Affinity);
   ("k8s.io/api/core/v1.AppArmorProfile", schema_k8sio_api_core_v1_AppArmorProfile);
   ("k8s.io/api/core/v1.AttachedVolume", schema_k8sio_api_core_v1_AttachedVolume);
   ("k8s.io/api/core/v1.AvoidPods", schema_k8sio_api_core_v1_AvoidPods);
   ("k8s.io/api/core/v1.AzureDiskVolumeSource", schema_k8sio_api_core_v1_AzureDiskVolumeSource);
   ("k8s.io/api/core/v1.AzureFilePersistentVolumeSource", schema_k8sio_api_core_v1_AzureFilePersistentVolumeSource);
   ("k8s.io/api/core/v1.AzureFileVolumeSource", schema_k8sio_api_core_v1_AzureFileVolumeSource);
   ("k8s.io/api/core/v1.Binding", schema_k8sio_api_core_v1_Binding);
   ("k8s.io/api/core/v1.CSIPersistentVolumeSource", schema_k8sio_api_core_v1_CSIPersistentVolumeSource);
   ("k8s.io/api/core/v1.CSIVolumeSource", schema_k8sio_api_core_v1_CSIVolumeSource);
   ("k8s.io/api/core/v1.Capabilities", schema_k8sio_api_core_v1_Capabilities);
   ("k8s.io/api/core/v1.CephFSPersistentVolumeSource", schema_k8sio_api_core_v1_CephFSPersistentVolumeSource);
   ("k8s.io/api/core/v1.CephFSVolumeSource", schema_k8sio_api_core_v1_CephFSVolumeSource);
   ("k8s.io/api/core/v1.CinderPersistentVolumeSource", schema_k8sio_api_core_v1_CinderPersistentVolumeSource);
   ("k8s.io/api/core/v1.CinderVolumeSource", schema_k8sio_api_core_v1_CinderVolumeSource);
   ("k8s.io/api/core/v1.ClientIPConfig", schema_k8sio_api_core_v1_ClientIPConfig);
   ("k8s.io/api/core/v1.ClusterTrustBundleProjection", schema_k8sio_api_core_v1_ClusterTrustBundleProjection);
   ("k8s.io/api/core/v1.ComponentCondition", schema_k8sio_api_core_v1_ComponentCondition);
   ("k8s.io/api/core/v1.ComponentStatus", schema_k8sio_api_core_v1_ComponentStatus);
   ("k8s.io/api/core/v1.ComponentStatusList", schema_k8sio_api_core_v1_ComponentStatusList);
   ("k8s.io/api/core/v1.ConfigMap", schema_k8sio_api_core_v1_ConfigMap);
   ("k8s.io/api/core/v1.ConfigMapEnvSource", schema_k8sio_api_core_v1_ConfigMapEnvSource);
   ("k8s.io/api/core/v1.ConfigMapKeySelector", schema_k8sio_api_core_v1_ConfigMapKeySelector);
   ("k8s.io/api/core/v1.ConfigMapList", schema_k8sio_api_core_v1_ConfigMapList);
   ("k8s.io/api/core/v1.ConfigMapNodeConfigSource", schema_k8sio_api_core_v1_ConfigMapNodeConfigSource);
   ("k8s.io/api/core/v1.ConfigMapProjection", schema_k8sio_api_core_v1_ConfigMapProjection);
   ("k8s.io/api/core/v1.ConfigMapVolumeSource", schema_k8sio_api_core_v1_ConfigMapVolumeSource);
   ("k8s.io/api/core/v1.Container", schema_k8sio_api_core_v1_Container);
   ("k8s.io/api/core/v1.ContainerExtendedResourceRequest", schema_k8sio_api_core_v1_ContainerExtendedResourceRequest);
   ("k8s.io/api/core/v1.ContainerImage", schema_k8sio_api_core_v1_ContainerImage);
   ("k8s.io/api/core/v1.ContainerPort", schema_k8sio_api_core_v1_ContainerPort);
   ("k8s.io/api/core/v1.ContainerResizePolicy", schema_k8sio_api_core_v1_ContainerResizePolicy);
   ("k8s.io/api/core/v1.ContainerRestartRule", schema_k8sio_api_core_v1_ContainerRestartRule);
   ("k8s.io/api/core/v1.ContainerRestartRuleOnExitCodes", schema_k8sio_api_core_v1_ContainerRestartRuleOnExitCodes);
   ("k8s.io/api/core/v1.ContainerState", schema_k8sio_api_core_v1_ContainerState);
   ("k8s.io/api/core/v1.ContainerStateRunning", schema_k8sio_api_core_v1_ContainerStateRunning);
   ("k8s.io/api/core/v1.ContainerStateTerminated", schema_k8sio_api_core_v1_ContainerStateTerminated);
   ("k8s.io/api/core/v1.ContainerStateWaiting", schema_k8sio_api_core_v1_ContainerStateWaiting);
   ("k8s.io/api/core/v1.ContainerStatus", schema_k8sio_api_core_v1_ContainerStatus);
   ("k8s.io/api/core/v1.ContainerUser", schema_k8sio_api_core_v1_ContainerUser);
   ("k8s.io/api/core/v1.DaemonEndpoint", schema_k8sio_api_core_v1_DaemonEndpoint);
   ("k8s.io/api/core/v1.DownwardAPIProjection", schema_k8sio_api_core_v1_DownwardAPIProjection);
   ("k8s.io/api/core/v1.DownwardAPIVolumeFile", schema_k8sio_api_core_v1_DownwardAPIVolumeFile);
   ("k8s.io/api/core/v1.DownwardAPIVolumeSource", schema_k8sio_api_core_v1_DownwardAPIVolumeSource);
   ("k8s.io/api/core/v1.EmptyDirVolumeSource", schema_k8sio_api_core_v1_EmptyDirVolumeSource);
   ("k8s.io/api/core/v1.EndpointAddress", schema_k8sio_api_core_v1_EndpointAddress);
   ("k8s.io/api/core/v1.EndpointPort", schema_k8sio_api_core_v1_EndpointPort);
   ("k8s.io/api/core/v1.EndpointSubset", schema_k8sio_api_core_v1_EndpointSubset);
   ("k8s.io/api/core/v1.Endpoints", schema_k8sio_api_core_v1_Endpoints);
   ("k8s.io/api/core/v1.EndpointsList", schema_k8sio_api_core_v1_EndpointsList);
   ("k8s.io/api/core/v1.EnvFromSource", schema_k8sio_api_core_v1_EnvFromSource);
   ("k8s.io/api/core/v1.EnvVar", schema_k8sio_api_core_v1_EnvVar);
   ("k8s.io/api/core/v1.EnvVarSource", schema_k8sio_api_core_v1_EnvVarSource);
   ("k8s.io/api/core/v1.EphemeralContainer", schema_k8sio_api_core_v1_EphemeralContainer);
   ("k8s.io/api/core/v1.EphemeralContainerCommon", schema_k8sio_api_core_v1_EphemeralContainerCommon);
   ("k8s.io/api/core/v1.EphemeralVolumeSource", schema_k8sio_api_core_v1_EphemeralVolumeSource);
   ("k8s.io/api/core/v1.Event", schema_k8sio_api_core_v1_Event);
   ("k8s.io/api/core/v1.EventList", schema_k8sio_api_core_v1_EventList);
   ("k8s.io/api/core/v1.EventSeries", schema_k8sio_api_core_v1_EventSeries);
   ("k8s.io/api/core/v1.EventSource", schema_k8sio_api_core_v1_EventSource);
   ("k8s.io/api/core/v1.ExecAction", schema_k8sio_api_core_v1_ExecAction);
   ("k8s.io/api/core/v1.FCVolumeSource", schema_k8sio_api_core_v1_FCVolumeSource);
   ("k8s.io/api/core/v1.FileKeySelector", schema_k8sio_api_core_v1_FileKeySelector);
   ("k8s.io/api/core/v1.FlexPersistentVolumeSource", schema_k8sio_api_core_v1_FlexPersistentVolumeSource);
   ("k8s.io/api/core/v1.FlexVolumeSource", schema_k8sio_api_core_v1_FlexVolumeSource);
   ("k8s.io/api/core/v1.FlockerVolumeSource", schema_k8sio_api_core_v1_FlockerVolumeSource);
   ("k8s.io/api/core/v1.GCEPersistentDiskVolumeSource", schema_k8sio_api_core_v1_GCEPersistentDiskVolumeSource);
   ("k8s.io/api/core/v1.GRPCAction", schema_k8sio_api_core_v1_GRPCAction);
   ("k8s.io/api/core/v1.GitRepoVolumeSource", schema_k8sio_api_core_v1_GitRepoVolumeSource);
   ("k8s.io/api/core/v1.GlusterfsPersistentVolumeSource", schema_k8sio_api_core_v1_GlusterfsPersistentVolumeSource);
   ("k8s.io/api/core/v1.GlusterfsVolumeSource", schema_k8sio_api_core_v1_GlusterfsVolumeSource);
   ("k8s.io/api/core/v1.HTTPGetAction", schema_k8sio_api_core_v1_HTTPGetAction);
   ("k8s.io/api/core/v1.HTTPHeader", schema_k8sio_api_core_v1_HTTPHeader);
   ("k8s.io/api/core/v1.HostAlias", schema_k8sio_api_core_v1_HostAlias);
   ("k8s.io/api/core/v1.HostIP", schema_k8sio_api_core_v1_HostIP);
   ("k8s.io/api/core/v1.HostPathVolumeSource", schema_k8sio_api_core_v1_HostPathVolumeSource);
   ("k8s.io/api/core/v1.ISCSIPersistentVolumeSource", schema_k8sio_api_core_v1_ISCSIPersistentVolumeSource);
   ("k8s.io/api/core/v1.ISCSIVolumeSource", schema_k8sio_api_core_v1_ISCSIVolumeSource);
   ("k8s.io/api/core/v1.ImageVolumeSource", schema_k8sio_api_core_v1_ImageVolumeSource);
   ("k8s.io/api/core/v1.KeyToPath", schema_k8sio_api_core_v1_KeyToPath);
   ("k8s.io/api/core/v1.Lifecycle", schema_k8sio_api_core_v1_Lifecycle);
   ("k8s.io/api/core/v1.LifecycleHandler", schema_k8sio_api_core_v1_LifecycleHandler);
   ("k8s.io/api/core/v1.LimitRange", schema_k8sio_api_core_v1_LimitRange);
   ("k8s.io/api/core/v1.LimitRangeItem", schema_k8sio_api_core_v1_LimitRangeItem);
   ("k8s.io/api/core/v1.LimitRangeList", schema_k8sio_api_core_v1_LimitRangeList);
   ("k8s.io/api/core/v1.LimitRangeSpec", schema_k8sio_api_core_v1_LimitRangeSpec);
   ("k8s.io/api/core/v1.LinuxContainerUser", schema_k8sio_api_core_v1_LinuxContainerUser);
   ("k8s.io/api/core/v1.List", schema_k8sio_api_core_v1_List);
   ("k8s.io/api/core/v1.LoadBalancerIngress", schema_k8sio_api_core_v1_LoadBalancerIngress);
   ("k8s.io/api/core/v1.LoadBalancerStatus", schema_k8sio_api_core_v1_LoadBalancerStatus);
   ("k8s.io/api/core/v1.LocalObjectReference", SchemaLib.schema_LocalObjectReference);
   ("k8s.io/api/core/v1.LocalVolumeSource", schema_k8sio_api_core_v1_LocalVolumeSource);
   ("k8s.io/api/core/v1.ModifyVolumeStatus", schema_k8sio_api_core_v1_ModifyVolumeStatus);
   ("k8s.io/api/core/v1.NFSVolumeSource", schema_k8sio_api_core_v1_NFSVolumeSource);
   ("k8s.io/api/core/v1.Namespace", schema_k8sio_api_core_v1_Namespace);
   ("k8s.io/api/core/v1.NamespaceCondition", schema_k8sio_api_core_v1_NamespaceCondition);
   ("k8s.io/api/core/v1.NamespaceList", schema_k8sio_api_core_v1_NamespaceList);
   ("k8s.io/api/core/v1.NamespaceSpec", schema_k8sio_api_core_v1_NamespaceSpec);
   ("k8s.io/api/core/v1.NamespaceStatus", schema_k8sio_api_core_v1_NamespaceStatus);
   ("k8s.io/api/core/v1.Node", schema_k8sio_api_core_v1_Node);
   ("k8s.io/api/core/v1.NodeAddress", schema_k8sio_api_core_v1_NodeAddress);
   ("k8s.io/api/core/v1.NodeAffinity", schema_k8sio_api_core_v1_NodeAffinity);
   ("k8s.io/api/core/v1.NodeCondition", schema_k8sio_api_core_v1_NodeCondition);
   ("k8s.io/api/core/v1.NodeConfigSource", schema_k8sio_api_core_v1_NodeConfigSource);
   ("k8s.io/api/core/v1.NodeConfigStatus", schema_k8sio_api_core_v1_NodeConfigStatus);
   ("k8s.io/api/core/v1.NodeDaemonEndpoints", schema_k8sio_api_core_v1_NodeDaemonEndpoints);
   ("k8s.io/api/core/v1.NodeFeatures", schema_k8sio_api_core_v1_NodeFeatures);
   ("k8s.io/api/core/v1.NodeList", schema_k8sio_api_core_v1_NodeList);
   ("k8s.io/api/core/v1.NodeProxyOptions", schema_k8sio_api_core_v1_NodeProxyOptions);
   ("k8s.io/api/core/v1.NodeRuntimeHandler", schema_k8sio_api_core_v1_NodeRuntimeHandler);
   ("k8s.io/api/core/v1.NodeRuntimeHandlerFeatures", schema_k8sio_api_core_v1_NodeRuntimeHandlerFeatures);
   ("k8s.io/api/core/v1.NodeSelector", schema_k8sio_api_core_v1_NodeSelector);
   ("k8s.io/api/core/v1.NodeSelectorRequirement", schema_k8sio_api_core_v1_NodeSelectorRequirement);
   ("k8s.io/api/core/v1.NodeSelectorTerm", schema_k8sio_api_core_v1_NodeSelectorTerm);
   ("k8s.io/api/core/v1.NodeSpec", schema_k8sio_api_core_v1_NodeSpec);
   ("k8s.io/api/core/v1.NodeStatus", schema_k8sio_api_core_v1_NodeStatus);
   ("k8s.io/api/core/v1.NodeSwapStatus", schema_k8sio_api_core_v1_NodeSwapStatus);
   ("k8s.io/api/core/v1.NodeSystemInfo", schema_k8sio_api_core_v1_NodeSystemInfo);
   ("k8s.io/api/core/v1.ObjectFieldSelector", schema_k8sio_api_core_v1_ObjectFieldSelector);
   ("k8s.io/api/core/v1.ObjectReference", SchemaLib.schema_ObjectReference);
   ("k8s.io/api/core/v1.PersistentVolume", schema_k8sio_api_core_v1_PersistentVolume);
   ("k8s.io/api/core/v1.PersistentVolumeClaim", schema_k8sio_api_core_v1_PersistentVolumeClaim);
   ("k8s.io/api/core/v1.PersistentVolumeClaimCondition", schema_k8sio_api_core_v1_PersistentVolumeClaimCondition);
   ("k8s.io/api/core/v1.PersistentVolumeClaimList", schema_k8sio_api_core_v1_PersistentVolumeClaimList);
   ("k8s.io/api/core/v1.PersistentVolumeClaimSpec", schema_k8sio_api_core_v1_PersistentVolumeClaimSpec);
   ("k8s.io/api/core/v1.PersistentVolumeClaimStatus", schema_k8sio_api_core_v1_PersistentVolumeClaimStatus);
   ("k8s.io/api/core/v1.PersistentVolumeClaimTemplate", schema_k8sio_api_core_v1_PersistentVolumeClaimTemplate);
   ("k8s.io/api/core/v1.PersistentVolumeClaimVolumeSource", schema_k8sio_api_core_v1_PersistentVolumeClaimVolumeSource);
   ("k8s.io/api/core/v1.PersistentVolumeList", schema_k8sio_api_core_v1_PersistentVolumeList);
   ("k8s.io/api/core/v1.PersistentVolumeSource", schema_k8sio_api_core_v1_PersistentVolumeSource);
   ("k8s.io/api/core/v1.PersistentVolumeSpec", schema_k8sio_api_core_v1_PersistentVolumeSpec);
   ("k8s.io/api/core/v1.PersistentVolumeStatus", schema_k8sio_api_core_v1_PersistentVolumeStatus);
   ("k8s.io/api/core/v1.PhotonPersistentDiskVolumeSource", schema_k8sio_api_core_v1_PhotonPersistentDiskVolumeSource);
   ("k8s.io/api/core/v1.Pod", schema_k8sio_api_core_v1_Pod);
   ("k8s.io/api/core/v1.PodAffinity", schema_k8sio_api_core_v1_PodAffinity);
   ("k8s.io/api/core/v1.PodAffinityTerm", schema_k8sio_api_core_v1_PodAffinityTerm);
   ("k8s.io/api/core/v1.PodAntiAffinity", schema_k8sio_api_core_v1_PodAntiAffinity);
   ("k8s.io/api/core/v1.PodAttachOptions", schema_k8sio_api_core_v1_PodAttachOptions);
   ("k8s.io/api/core/v1.PodCertificateProjection", schema_k8sio_api_core_v1_PodCertificateProjection);
   ("k8s.io/api/core/v1.PodCondition", schema_k8sio_api_core_v1_PodCondition);
   ("k8s.io/api/core/v1.PodDNSConfig", schema_k8sio_api_core_v1_PodDNSConfig);
   ("k8s.io/api/core/v1.PodDNSConfigOption", schema_k8sio_api_core_v1_PodDNSConfigOption);
   ("k8s.io/api/core/v1.PodExecOptions", schema_k8sio_api_core_v1_PodExecOptions);
   ("k8s.io/api/core/v1.PodExtendedResourceClaimStatus", schema_k8sio_api_core_v1_PodExtendedResourceClaimStatus);
   ("k8s.io/api/core/v1.PodIP", schema_k8sio_api_core_v1_PodIP);
   ("k8s.io/api/core/v1.PodList", schema_k8sio_api_core_v1_PodList);
   ("k8s.io/api/core/v1.PodLogOptions", schema_k8sio_api_core_v1_PodLogOptions);
   ("k8s.io/api/core/v1.PodOS", schema_k8sio_api_core_v1_PodOS);
   ("k8s.io/api/core/v1.PodPortForwardOptions", schema_k8sio_api_core_v1_PodPortForwardOptions);
   ("k8s.io/api/core/v1.PodProxyOptions", schema_k8sio_api_core_v1_PodProxyOptions);
   ("k8s.io/api/core/v1.PodReadinessGate", schema_k8sio_api_core_v1_PodReadinessGate);
   ("k8s.io/api/core/v1.PodResourceClaim", schema_k8sio_api_core_v1_PodResourceClaim);
   ("k8s.io/api/core/v1.PodResourceClaimStatus", schema_k8sio_api_core_v1_PodResourceClaimStatus);
   ("k8s.io/api/core/v1.PodSchedulingGate", schema_k8sio_api_core_v1_PodSchedulingGate);
   ("k8s.io/api/core/v1.PodSecurityContext", schema_k8sio_api_core_v1_PodSecurityContext);
   ("k8s.io/api/core/v1.PodSignature", schema_k8sio_api_core_v1_PodSignature);
   ("k8s.io/api/core/v1.PodSpec", schema_k8sio_api_core_v1_PodSpec);
   ("k8s.io/api/core/v1.PodStatus", schema_k8sio_api_core_v1_PodStatus);
   ("k8s.io/api/core/v1.PodStatusResult", schema_k8sio_api_core_v1_PodStatusResult);
   ("k8s.io/api/core/v1.PodTemplate", schema_k8sio_api_core_v1_PodTemplate);
   ("k8s.io/api/core/v1.PodTemplateList", schema_k8sio_api_core_v1_PodTemplateList);
   ("k8s.io/api/core/v1.PodTemplateSpec", schema_k8sio_api_core_v1_PodTemplateSpec);
   ("k8s.io/api/core/v1.PortStatus", schema_k8sio_api_core_v1_PortStatus);
   ("k8s.io/api/core/v1.PortworxVolumeSource", schema_k8sio_api_core_v1_PortworxVolumeSource);
   ("k8s.io/api/core/v1.PreferAvoidPodsEntry", schema_k8sio_api_core_v1_PreferAvoidPodsEntry);
   ("k8s.io/api/core/v1.PreferredSchedulingTerm", schema_k8sio_api_core_v1_PreferredSchedulingTerm);
   ("k8s.io/api/core/v1.Probe", schema_k8sio_api_core_v1_Probe);
   ("k8s.io/api/core/v1.ProbeHandler", schema_k8sio_api_core_v1_ProbeHandler);
   ("k8s.io/api/core/v1.ProjectedVolumeSource", schema_k8sio_api_core_v1_ProjectedVolumeSource);
   ("k8s.io/api/core/v1.QuobyteVolumeSource", schema_k8sio_api_core_v1_QuobyteVolumeSource);
   ("k8s.io/api/core/v1.RBDPersistentVolumeSource", schema_k8sio_api_core_v1_RBDPersistentVolumeSource);
   ("k8s.io/api/core/v1.RBDVolumeSource", schema_k8sio_api_core_v1_RBDVolumeSource);
   ("k8s.io/api/core/v1.RangeAllocation", schema_k8sio_api_core_v1_RangeAllocation);
   ("k8s.io/api/core/v1.ReplicationController", schema_k8sio_api_core_v1_ReplicationController);
   ("k8s.io/api/core/v1.ReplicationControllerCondition", schema_k8sio_api_core_v1_ReplicationControllerCondition);
   ("k8s.io/api/core/v1.ReplicationControllerList", schema_k8sio_api_core_v1_ReplicationControllerList);
   ("k8s.io/api/core/v1.ReplicationControllerSpec", schema_k8sio_api_core_v1_ReplicationControllerSpec);
   ("k8s.io/api/core/v1.ReplicationControllerStatus", schema_k8sio_api_core_v1_ReplicationControllerStatus);
   ("k8s.io/api/core/v1.ResourceClaim", schema_k8sio_api_core_v1_ResourceClaim);
   ("k8s.io/api/core/v1.ResourceFieldSelector", schema_k8sio_api_core_v1_ResourceFieldSelector);
   ("k8s.io/api/core/v1.ResourceHealth", schema_k8sio_api_core_v1_ResourceHealth);
   ("k8s.io/api/core/v1.ResourceQuota", schema_k8sio_api_core_v1_ResourceQuota);
   ("k8s.io/api/core/v1.ResourceQuotaList", schema_k8sio_api_core_v1_ResourceQuotaList);
   ("k8s.io/api/core/v1.ResourceQuotaSpec", schema_k8sio_api_core_v1_ResourceQuotaSpec);
   ("k8s.io/api/core/v1.ResourceQuotaStatus", schema_k8sio_api_core_v1_ResourceQuotaStatus);
   ("k8s.io/api/core/v1.ResourceRequirements", schema_k8sio_api_core_v1_ResourceRequirements);
   ("k8s.io/api/core/v1.ResourceStatus", schema_k8sio_api_core_v1_ResourceStatus);
   ("k8s.io/api/core/v1.SELinuxOptions", schema_k8sio_api_core_v1_SELinuxOptions);
   ("k8s.io/api/core/v1.ScaleIOPersistentVolumeSource", schema_k8sio_api_core_v1_ScaleIOPersistentVolumeSource);
   ("k8s.io/api/core/v1.ScaleIOVolumeSource", schema_k8sio_api_core_v1_ScaleIOVolumeSource);
   ("k8s.io/api/core/v1.ScopeSelector", schema_k8sio_api_core_v1_ScopeSelector);
   ("k8s.io/api/core/v1.ScopedResourceSelectorRequirement", schema_k8sio_api_core_v1_ScopedResourceSelectorRequirement);
   ("k8s.io/api/core/v1.SeccompProfile", schema_k8sio_api_core_v1_SeccompProfile);
   ("k8s.io/api/core/v1.Secret", schema_k8sio_api_core_v1_Secret);
   ("k8s.io/api/core/v1.SecretEnvSource", schema_k8sio_api_core_v1_SecretEnvSource);
   ("k8s.io/api/core/v1.SecretKeySelector", schema_k8sio_api_core_v1_SecretKeySelector);
   ("k8s.io/api/core/v1.SecretList", schema_k8sio_api_core_v1_SecretList);
   ("k8s.io/api/core/v1.SecretProjection", schema_k8sio_api_core_v1_SecretProjection);
   ("k8s.io/api/core/v1.SecretReference", schema_k8sio_api_core_v1_SecretReference);
   ("k8s.io/api/core/v1.SecretVolumeSource", schema_k8sio_api_core_v1_SecretVolumeSource);
   ("k8s.io/api/core/v1.SecurityContext", schema_k8sio_api_core_v1_SecurityContext);
   ("k8s.io/api/core/v1.SerializedReference", schema_k8sio_api_core_v1_SerializedReference);
   ("k8s.io/api/core/v1.Service", schema_k8sio_api_core_v1_Service);
   ("k8s.io/api/core/v1.ServiceAccount", schema_k8sio_api_core_v1_ServiceAccount);
   ("k8s.io/api/core/v1.ServiceAccountList", schema_k8sio_api_core_v1_ServiceAccountList);
   ("k8s.io/api/core/v1.ServiceAccountTokenProjection", schema_k8sio_api_core_v1_ServiceAccountTokenProjection);
   ("k8s.io/api/core/v1.ServiceList", schema_k8sio_api_core_v1_ServiceList);
   ("k8s.io/api/core/v1.ServicePort", schema_k8sio_api_core_v1_ServicePort);
   ("k8s.io/api/core/v1.ServiceProxyOptions", schema_k8sio_api_core_v1_ServiceProxyOptions);
   ("k8s.io/api/core/v1.ServiceSpec", schema_k8sio_api_core_v1_ServiceSpec);
   ("k8s.io/api/core/v1.ServiceStatus", schema_k8sio_api_core_v1_ServiceStatus);
   ("k8s.io/api/core/v1.SessionAffinityConfig", schema_k8sio_api_core_v1_SessionAffinityConfig);
   ("k8s.io/api/core/v1.SleepAction", schema_k8sio_api_core_v1_SleepAction);
   ("k8s.io/api/core/v1.StorageOSPersistentVolumeSource", schema_k8sio_api_core_v1_StorageOSPersistentVolumeSource);
   ("k8s.io/api/core/v1.StorageOSVolumeSource", schema_k8sio_api_core_v1_StorageOSVolumeSource);
   ("k8s.io/api/core/v1.Sysctl", schema_k8sio_api_core_v1_Sysctl);
   ("k8s.io/api/core/v1.TCPSocketAction", schema_k8sio_api_core_v1_TCPSocketAction);
   ("k8s.io/api/core/v1.Taint", schema_k8sio_api_core_v1_Taint);
   ("k8s.io/api/core/v1.Toleration", schema_k8sio_api_core_v1_Toleration);
   ("k8s.io/api/core/v1.TopologySelectorLabelRequirement", schema_k8sio_api_core_v1_TopologySelectorLabelRequirement);
   ("k8s.io/api/core/v1.TopologySelectorTerm", schema_k8sio_api_core_v1_TopologySelectorTerm);
   ("k8s.io/api/core/v1.TopologySpreadConstraint", schema_k8sio_api_core_v1_TopologySpreadConstraint);
   ("k8s.io/api/core/v1.TypedLocalObjectReference", schema_k8sio_api_core_v1_TypedLocalObjectReference);
   ("k8s.io/api/core/v1.TypedObjectReference", schema_k8sio_api_core_v1_TypedObjectReference);
   ("k8s.io/api/core/v1.Volume", schema_k8sio_api_core_v1_Volume);
   ("k8s.io/api/core/v1.VolumeDevice", schema_k8sio_api_core_v1_VolumeDevice);
   ("k8s.io/api/core/v1.VolumeMount", schema_k8sio_api_core_v1_VolumeMount);
   ("k8s.io/api/core/v1.VolumeMountStatus", schema_k8sio_api_core_v1_VolumeMountStatus);
   ("k8s.io/api/core/v1.VolumeNodeAffinity", schema_k8sio_api_core_v1_VolumeNodeAffinity);
   ("k8s.io/api/core/v1.VolumeProjection", schema_k8sio_api_core_v1_VolumeProjection);
   ("k8s.io/api/core/v1.VolumeResourceRequirements", schema_k8sio_api_core_v1_VolumeResourceRequirements);
   ("k8s.io/api/core/v1.VolumeSource", schema_k8sio_api_core_v1_VolumeSource);
   ("k8s.io/api/core/v1.VsphereVirtualDiskVolumeSource", schema_k8sio_api_core_v1_VsphereVirtualDiskVolumeSource);
   ("k8s.io/api/core/v1.WeightedPodAffinityTerm", schema_k8sio_api_core_v1_WeightedPodAffinityTerm);
   ("k8s.io/api/core/v1.WindowsSecurityContextOptions", schema_k8sio_api_core_v1_WindowsSecurityContextOptions);
   ("k8s.io/apimachinery/pkg/api/resource.Quantity", schema_apimachinery_pkg_api_resource_Quantity);
   ("k8s.io/apimachinery/pkg/apis/meta/v1.APIGroup", schema_pkg_apis_meta_v1_APIGroup);
   ("k8s.io/apimachinery/pkg/apis/meta/v1.APIGroupList", schema_pkg_apis_meta_v1_APIGroupList);
   ("k8s.io/apimachinery/pkg/apis/meta/v1.APIResource", schema_pkg_apis_meta_v1_APIResource);
   ("k8s.io/apimachinery/pkg/apis/meta/v1.APIResourceList", schema_pkg_apis_meta_v1_APIResourceList);
   ("k8s.io/apimachinery/pkg/apis/meta/v1.APIVersions", schema_pkg_apis_meta_v1_APIVersions);
   ("k8s.io/apimachinery/pkg/apis/meta/v1.ApplyOptions", schema_pkg_apis_meta_v1_ApplyOptions);
   ("k8s.io/apimachinery/pkg/apis/meta/v1.Condition", SchemaLib.schema_Condition);
   ("k8s.io/apimachinery/pkg/apis/meta/v1.CreateOptions", schema_pkg_apis_meta_v1_CreateOptions);
   ("k8s.io/apimachinery/pkg/apis/meta/v1.DeleteOptions", schema_pkg_apis_meta_v1_DeleteOptions);
   ("k8s.io/apimachinery/pkg/apis/meta/v1.Duration", schema_pkg_apis_meta_v1_Duration);
   ("k8s.io/apimachinery/pkg/apis/meta/v1.FieldSelectorRequirement", schema_pkg_apis_meta_v1_FieldSelectorRequirement);
   ("k8s.io/apimachinery/pkg/apis/meta/v1.FieldsV1", SchemaLib.schema_FieldsV1);
   ("k8s.io/apimachinery/pkg/apis/meta/v1.GetOptions", schema_pkg_apis_meta_v1_GetOptions);
   ("k8s.io/apimachinery/pkg/apis/meta/v1.GroupKind", schema_pkg_apis_meta_v1_GroupKind);
   ("k8s.io/apimachinery/pkg/apis/meta/v1.GroupResource", schema_pkg_apis_meta_v1_GroupResource);
   ("k8s.io/apimachinery/pkg/apis/meta/v1.GroupVersion", schema_pkg_apis_meta_v1_GroupVersion);
   ("k8s.io/apimachinery/pkg/apis/meta/v1.GroupVersionForDiscovery", schema_pkg_apis_meta_v1_GroupVersionForDiscovery);
   ("k8s.io/apimachinery/pkg/apis/meta/v1.GroupVersionKind", schema_pkg_apis_meta_v1_GroupVersionKind);
   ("k8s.io/apimachinery/pkg/apis/meta/v1.GroupVersionResource", schema_pkg_apis_meta_v1_GroupVersionResource);
   ("k8s.io/apimachinery/pkg/apis/meta/v1.InternalEvent", schema_pkg_apis_meta_v1_InternalEvent);
   ("k8s.io/apimachinery/pkg/apis/meta/v1.LabelSelector", schema_pkg_apis_meta_v1_LabelSelector);
   ("k8s.io/apimachinery/pkg/apis/meta/v1.LabelSelectorRequirement", schema_pkg_apis_meta_v1_LabelSelectorRequirement);
   ("k8s.io/apimachinery/pkg/apis/meta/v1.List", schema_pkg_apis_meta_v1_List);
   ("k8s.io/apimachinery/pkg/apis/meta/v1.ListMeta", SchemaLib.schema_ListMeta);
   ("k8s.io/apimachinery/pkg/apis/meta/v1.ListOptions", schema_pkg_apis_meta_v1_ListOptions);
   ("k8s.io/apimachinery/pkg/apis/meta/v1.ManagedFieldsEntry", SchemaLib.schema_ManagedFieldsEntry);
   ("k8s.io/apimachinery/pkg/apis/meta/v1.MicroTime", schema_pkg_apis_meta_v1_MicroTime);
   ("k8s.io/apimachinery/pkg/apis/meta/v1.ObjectMeta", SchemaLib.schema_ObjectMeta);
   ("k8s.io/apimachinery/pkg/apis/meta/v1.OwnerReference", SchemaLib.schema_OwnerReference);
   ("k8s.io/apimachinery/pkg/apis/meta/v1.PartialObjectMetadata", schema_pkg_apis_meta_v1_PartialObjectMetadata);
   ("k8s.io/apimachinery/pkg/apis/meta/v1.PartialObjectMetadataList", schema_pkg_apis_meta_v1_PartialObjectMetadataList);
   ("k8s.io/apimachinery/pkg/apis/meta/v1.Patch", schema_pkg_apis_meta_v1_Patch);
   ("k8s.io/apimachinery/pkg/apis/meta/v1.PatchOptions", schema_pkg_apis_meta_v1_PatchOptions);
   ("k8s.io/apimachinery/pkg/apis/meta/v1.Preconditions", schema_pkg_apis_meta_v1_Preconditions);
   ("k8s.io/apimachinery/pkg/apis/meta/v1.RootPaths", schema_pkg_apis_meta_v1_RootPaths);
   ("k8s.io/apimachinery/pkg/apis/meta/v1.ServerAddressByClientCIDR", schema_pkg_apis_meta_v1_ServerAddressByClientCIDR);
   ("k8s.io/apimachinery/pkg/apis/meta/v1.Status", schema_pkg_apis_meta_v1_Status);
   ("k8s.io/apimachinery/pkg/apis/meta/v1.StatusCause", schema_pkg_apis_meta_v1_StatusCause);
   ("k8s.io/apimachinery/pkg/apis/meta/v1.StatusDetails", schema_pkg_apis_meta_v1_StatusDetails);
   ("k8s.io/apimachinery/pkg/apis/meta/v1.Table", schema_pkg_apis_meta_v1_Table);
   ("k8s.io/apimachinery/pkg/apis/meta/v1.TableColumnDefinition", schema_pkg_apis_meta_v1_TableColumnDefinition);
   ("k8s.io/apimachinery/pkg/apis/meta/v1.TableOptions", schema_pkg_apis_meta_v1_TableOptions);
   ("k8s.io/apimachinery/pkg/apis/meta/v1.TableRow", schema_pkg_apis_meta_v1_TableRow);
   ("k8s.io/apimachinery/pkg/apis/meta/v1.TableRowCondition", schema_pkg_apis_meta_v1_TableRowCondition);
   ("k8s.io/apimachinery/pkg/apis/meta/v1.Time", SchemaLib.schema_Time);
   ("k8s.io/apimachinery/pkg/apis/meta/v1.Timestamp", schema_pkg_apis_meta_v1_Timestamp);
   ("k8s.io/apimachinery/pkg/apis/meta/v1.TypeMeta", schema_pkg_apis_meta_v1_TypeMeta);
   ("k8s.io/apimachinery/pkg/apis/meta/v1.UpdateOptions", schema_pkg_apis_meta_v1_UpdateOptions);
   ("k8s.io/apimachinery/pkg/apis/meta/v1.WatchEvent", schema_pkg_apis_meta_v1_WatchEvent);
   ("k8s.io/apimachinery/pkg/runtime.RawExtension", SchemaLib.schema_RawExtension);
   ("k8s.io/apimachinery/pkg/runtime.TypeMeta", schema_k8sio_apimachinery_pkg_runtime_TypeMeta);
   ("k8s.io/apimachinery/pkg/runtime.Unknown", schema_k8sio_apimachinery_pkg_runtime_Unknown);
   ("k8s.io/apimachinery/pkg/util/intstr.IntOrString", schema_apimachinery_pkg_util_intstr_IntOrString);
   ("k8s.io/apimachinery/pkg/version.Info", schema_k8sio_apimachinery_pkg_version_Info);
   ("kubevirt.io/api/backup/v1alpha1.BackupCheckpoint", schema_kubevirtio_api_backup_v1alpha1_BackupCheckpoint);
   ("kubevirt.io/api/backup/v1alpha1.BackupOptions", schema_kubevirtio_api_backup_v1alpha1_BackupOptions);
   ("kubevirt.io/api/backup/v1alpha1.BackupVolumeInfo", schema_kubevirtio_api_backup_v1alpha1_BackupVolumeInfo);
   ("kubevirt.io/api/backup/v1alpha1.Condition", schema_kubevirtio_api_backup_v1alpha1_Condition);
   ("kubevirt.io/api/backup/v1alpha1.VirtualMachineBackup", schema_kubevirtio_api_backup_v1alpha1_VirtualMachineBackup);
   ("kubevirt.io/api/backup/v1alpha1.VirtualMachineBackupList", schema_kubevirtio_api_backup_v1alpha1_VirtualMachineBackupList);
   ("kubevirt.io/api/backup/v1alpha1.VirtualMachineBackupSpec", schema_kubevirtio_api_backup_v1alpha1_VirtualMachineBackupSpec);
   ("kubevirt.io/api/backup/v1alpha1.VirtualMachineBackupStatus", schema_kubevirtio_api_backup_v1alpha1_VirtualMachineBackupStatus);
   ("kubevirt.io/api/backup/v1alpha1.VirtualMachineBackupTracker", schema_kubevirtio_api_backup_v1alpha1_VirtualMachineBackupTracker);
   ("kubevirt.io/api/backup/v1alpha1.VirtualMachineBackupTrackerList", schema_kubevirtio_api_backup_v1alpha1_VirtualMachineBackupTrackerList);
   ("kubevirt.io/api/backup/v1alpha1.VirtualMachineBackupTrackerSpec", schema_kubevirtio_api_backup_v1alpha1_VirtualMachineBackupTrackerSpec);
   ("kubevirt.io/api/backup/v1alpha1.VirtualMachineBackupTrackerStatus", schema_kubevirtio_api_backup_v1alpha1_VirtualMachineBackupTrackerStatus);
   ("kubevirt.io/api/core/v1.ACPI", schema_kubevirtio_api_core_v1_ACPI);
   ("kubevirt.io/api/core/v1.AccessCredential", schema_kubevirtio_api_core_v1_AccessCredential);
   ("kubevirt.io/api/core/v1.AccessCredentialSecretSource", schema_kubevirtio_api_core_v1_AccessCredentialSecretSource);
   ("kubevirt.io/api/core/v1.AddVolumeOptions", schema_kubevirtio_api_core_v1_AddVolumeOptions);
   ("kubevirt.io/api/core/v1.ArchConfiguration", schema_kubevirtio_api_core_v1_ArchConfiguration);
   ("kubevirt.io/api/core/v1.ArchSpecificConfiguration", schema_kubevirtio_api_core_v1_ArchSpecificConfiguration);
   ("kubevirt.io/api/core/v1.AuthorizedKeysFile", schema_kubevirtio_api_core_v1_AuthorizedKeysFile);
   ("kubevirt.io/api/core/v1.BIOS", schema_kubevirtio_api_core_v1_BIOS);
   ("kubevirt.io/api/core/v1.BlockSize", schema_kubevirtio_api_core_v1_BlockSize);
   ("kubevirt.io/api/core/v1.Bootloader", schema_kubevirtio_api_core_v1_Bootloader);
   ("kubevirt.io/api/core/v1.CDRomTarget", schema_kubevirtio_api_core_v1_CDRomTarget);
   ("kubevirt.io/api/core/v1.CPU", schema_kubevirtio_api_core_v1_CPU);
   ("kubevirt.io/api/core/v1.CPUFeature", schema_kubevirtio_api_core_v1_CPUFeature);
   ("kubevirt.io/api/core/v1.CPUTopology", schema_kubevirtio_api_core_v1_CPUTopology);
   ("kubevirt.io/api/core/v1.CertConfig", schema_kubevirtio_api_core_v1_CertConfig);
   ("kubevirt.io/api/core/v1.ChangedBlockTrackingSelectors", schema_kubevirtio_api_core_v1_ChangedBlockTrackingSelectors);
   ("kubevirt.io/api/core/v1.ChangedBlockTrackingStatus", schema_kubevirtio_api_core_v1_ChangedBlockTrackingStatus);
   ("kubevirt.io/api/core/v1.Chassis", schema_kubevirtio_api_core_v1_Chassis);
   ("kubevirt.io/api/core/v1.ClaimRequest", schema_kubevirtio_api_core_v1_ClaimRequest);
   ("kubevirt.io/api/core/v1.ClientPassthroughDevices", schema_kubevirtio_api_core_v1_ClientPassthroughDevices);
   ("kubevirt.io/api/core/v1.Clock", schema_kubevirtio_api_core_v1_Clock);
   ("kubevirt.io/api/core/v1.ClockOffset", schema_kubevirtio_api_core_v1_ClockOffset);
   ("kubevirt.io/api/core/v1.ClockOffsetUTC", schema_kubevirtio_api_core_v1_ClockOffsetUTC);
   ("kubevirt.io/api/core/v1.CloudInitConfigDriveSource", schema_kubevirtio_api_core_v1_CloudInitConfigDriveSource);
   ("kubevirt.io/api/core/v1.CloudInitNoCloudSource", schema_kubevirtio_api_core_v1_CloudInitNoCloudSource);
   ("kubevirt.io/api/core/v1.ClusterProfilerRequest", schema_kubevirtio_api_core_v1_ClusterProfilerRequest);
   ("kubevirt.io/api/core/v1.ClusterProfilerResults", schema_kubevirtio_api_core_v1_ClusterProfilerResults);
   ("kubevirt.io/api/core/v1.CommonInstancetypesDeployment", schema_kubevirtio_api_core_v1_CommonInstancetypesDeployment);
   ("kubevirt.io/api/core/v1.ComponentConfig", schema_kubevirtio_api_core_v1_ComponentConfig);
   ("kubevirt.io/api/core/v1.ConfigDriveSSHPublicKeyAccessCredentialPropagation", schema_kubevirtio_api_core_v1_ConfigDriveSSHPublicKeyAccessCredentialPropagation);
   ("kubevirt.io/api/core/v1.ConfigMapVolumeSource", schema_kubevirtio_api_core_v1_ConfigMapVolumeSource);
   ("kubevirt.io/api/core/v1.ContainerDiskInfo", schema_kubevirtio_api_core_v1_ContainerDiskInfo);
   ("kubevirt.io/api/core/v1.ContainerDiskSource", schema_kubevirtio_api_core_v1_ContainerDiskSource);
   ("kubevirt.io/api/core/v1.ContainerPathVolumeSource", schema_kubevirtio_api_core_v1_ContainerPathVolumeSource);
   ("kubevirt.io/api/core/v1.ControllerRevisionRef", schema_kubevirtio_api_core_v1_ControllerRevisionRef);
   ("kubevirt.io/api/core/v1.CustomBlockSize", schema_kubevirtio_api_core_v1_CustomBlockSize);
   ("kubevirt.io/api/core/v1.CustomProfile", schema_kubevirtio_api_core_v1_CustomProfile);
   ("kubevirt.io/api/core/v1.CustomizeComponents", schema_kubevirtio_api_core_v1_CustomizeComponents);
   ("kubevirt.io/api/core/v1.CustomizeComponentsPatch", schema_kubevirtio_api_core_v1_CustomizeComponentsPatch);
   ("kubevirt.io/api/core/v1.DHCPOptions", schema_kubevirtio_api_core_v1_DHCPOptions);
   ("kubevirt.io/api/core/v1.DHCPPrivateOptions", schema_kubevirtio_api_core_v1_DHCPPrivateOptions);
   ("kubevirt.io/api/core/v1.DataVolumeSource", schema_kubevirtio_api_core_v1_DataVolumeSource);
   ("kubevirt.io/api/core/v1.DataVolumeTemplateDummyStatus", schema_kubevirtio_api_core_v1_DataVolumeTemplateDummyStatus);
   ("kubevirt.io/api/core/v1.DataVolumeTemplateSpec", schema_kubevirtio_api_core_v1_DataVolumeTemplateSpec);
   ("kubevirt.io/api/core/v1.DeprecatedInterfaceMacvtap", schema_kubevirtio_api_core_v1_DeprecatedInterfaceMacvtap);
   ("kubevirt.io/api/core/v1.DeprecatedInterfacePasst", schema_kubevirtio_api_core_v1_DeprecatedInterfacePasst);
   ("kubevirt.io/api/core/v1.DeprecatedInterfaceSlirp", schema_kubevirtio_api_core_v1_DeprecatedInterfaceSlirp);
   ("kubevirt.io/api/core/v1.DeveloperConfiguration", schema_kubevirtio_api_core_v1_DeveloperConfiguration);
   ("kubevirt.io/api/core/v1.Devices", schema_kubevirtio_api_core_v1_Devices);
   ("kubevirt.io/api/core/v1.Diag288Watchdog", schema_kubevirtio_api_core_v1_Diag288Watchdog);
   ("kubevirt.io/api/core/v1.DisableFreePageReporting", schema_kubevirtio_api_core_v1_DisableFreePageReporting);
   ("kubevirt.io/api/core/v1.DisableSerialConsoleLog", schema_kubevirtio_api_core_v1_DisableSerialConsoleLog);
   ("kubevirt.io/api/core/v1.Disk", schema_kubevirtio_api_core_v1_Disk);
   ("kubevirt.io/api/core/v1.DiskDevice", schema_kubevirtio_api_core_v1_DiskDevice);
   ("kubevirt.io/api/core/v1.DiskIOThreads", schema_kubevirtio_api_core_v1_DiskIOThreads);
   ("kubevirt.io/api/core/v1.DiskTarget", schema_kubevirtio_api_core_v1_DiskTarget);
   ("kubevirt.io/api/core/v1.DiskVerification", schema_kubevirtio_api_core_v1_DiskVerification);
   ("kubevirt.io/api/core/v1.DomainMemoryDumpInfo", schema_kubevirtio_api_core_v1_DomainMemoryDumpInfo);
   ("kubevirt.io/api/core/v1.DomainSpec", schema_kubevirtio_api_core_v1_DomainSpec);
   ("kubevirt.io/api/core/v1.DownwardAPIVolumeSource", schema_kubevirtio_api_core_v1_DownwardAPIVolumeSource);
   ("kubevirt.io/api/core/v1.DownwardMetrics", schema_kubevirtio_api_core_v1_DownwardMetrics);
   ("kubevirt.io/api/core/v1.DownwardMetricsVolumeSource", schema_kubevirtio_api_core_v1_DownwardMetricsVolumeSource);
   ("kubevirt.io/api/core/v1.EFI", schema_kubevirtio_api_core_v1_EFI);
   ("kubevirt.io/api/core/v1.EmptyDiskSource", schema_kubevirtio_api_core_v1_EmptyDiskSource);
   ("kubevirt.io/api/core/v1.EphemeralVolumeSource", schema_kubevirtio_api_core_v1_EphemeralVolumeSource);
   ("kubevirt.io/api/core/v1.EvacuateCancelOptions", schema_kubevirtio_api_core_v1_EvacuateCancelOptions);
   ("kubevirt.io/api/core/v1.FeatureAPIC", schema_kubevirtio_api_core_v1_FeatureAPIC);
   ("kubevirt.io/api/core/v1.FeatureHyperv", schema_kubevirtio_api_core_v1_FeatureHyperv);
   ("kubevirt.io/api/core/v1.FeatureKVM", schema_kubevirtio_api_core_v1_FeatureKVM);
   ("kubevirt.io/api/core/v1.FeatureSpinlocks", schema_kubevirtio_api_core_v1_FeatureSpinlocks);
   ("kubevirt.io/api/core/v1.FeatureState", schema_kubevirtio_api_core_v1_FeatureState);
   ("kubevirt.io/api/core/v1.FeatureVendorID", schema_kubevirtio_api_core_v1_FeatureVendorID);
   ("kubevirt.io/api/core/v1.Features", schema_kubevirtio_api_core_v1_Features);
   ("kubevirt.io/api/core/v1.Filesystem", schema_kubevirtio_api_core_v1_Filesystem);
   ("kubevirt.io/api/core/v1.FilesystemVirtiofs", schema_kubevirtio_api_core_v1_FilesystemVirtiofs);
   ("kubevirt.io/api/core/v1.Firmware", schema_kubevirtio_api_core_v1_Firmware);
   ("kubevirt.io/api/core/v1.Flags", schema_kubevirtio_api_core_v1_Flags);
   ("kubevirt.io/api/core/v1.FreezeUnfreezeTimeout", schema_kubevirtio_api_core_v1_FreezeUnfreezeTimeout);
   ("kubevirt.io/api/core/v1.GPU", schema_kubevirtio_api_core_v1_GPU);
   ("kubevirt.io/api/core/v1.GenerationStatus", schema_kubevirtio_api_core_v1_GenerationStatus);
   ("kubevirt.io/api/core/v1.GuestAgentCommandInfo", schema_kubevirtio_api_core_v1_GuestAgentCommandInfo);
   ("kubevirt.io/api/core/v1.GuestAgentPing", schema_kubevirtio_api_core_v1_GuestAgentPing);
   ("kubevirt.io/api/core/v1.HPETTimer", schema_kubevirtio_api_core_v1_HPETTimer);
   ("kubevirt.io/api/core/v1.Handler", schema_kubevirtio_api_core_v1_Handler);
   ("kubevirt.io/api/core/v1.HostDevice", schema_kubevirtio_api_core_v1_HostDevice);
   ("kubevirt.io/api/core/v1.HostDisk", schema_kubevirtio_api_core_v1_HostDisk);
   ("kubevirt.io/api/core/v1.HotplugVolumeSource", schema_kubevirtio_api_core_v1_HotplugVolumeSource);
   ("kubevirt.io/api/core/v1.HotplugVolumeStatus", schema_kubevirtio_api_core_v1_HotplugVolumeStatus);
   ("kubevirt.io/api/core/v1.Hugepages", schema_kubevirtio_api_core_v1_Hugepages);
   ("kubevirt.io/api/core/v1.HyperVPassthrough", schema_kubevirtio_api_core_v1_HyperVPassthrough);
   ("kubevirt.io/api/core/v1.HypervTimer", schema_kubevirtio_api_core_v1_HypervTimer);
   ("kubevirt.io/api/core/v1.HypervisorConfiguration", schema_kubevirtio_api_core_v1_HypervisorConfiguration);
   ("kubevirt.io/api/core/v1.I6300ESBWatchdog", schema_kubevirtio_api_core_v1_I6300ESBWatchdog);
   ("kubevirt.io/api/core/v1.InitrdInfo", schema_kubevirtio_api_core_v1_InitrdInfo);
   ("kubevirt.io/api/core/v1.Input", schema_kubevirtio_api_core_v1_Input);
   ("kubevirt.io/api/core/v1.InstancetypeConfiguration", schema_kubevirtio_api_core_v1_InstancetypeConfiguration);
   ("kubevirt.io/api/core/v1.InstancetypeMatcher", schema_kubevirtio_api_core_v1_InstancetypeMatcher);
   ("kubevirt.io/api/core/v1.InstancetypeStatusRef", schema_kubevirtio_api_core_v1_InstancetypeStatusRef);
   ("kubevirt.io/api/core/v1.Interface", schema_kubevirtio_api_core_v1_Interface);
   ("kubevirt.io/api/core/v1.InterfaceBindingMethod", schema_kubevirtio_api_core_v1_InterfaceBindingMethod);
   ("kubevirt.io/api/core/v1.InterfaceBindingMigration", schema_kubevirtio_api_core_v1_InterfaceBindingMigration);
   ("kubevirt.io/api/core/v1.InterfaceBindingPlugin", schema_kubevirtio_api_core_v1_InterfaceBindingPlugin);
   ("kubevirt.io/api/core/v1.InterfaceBridge", schema_kubevirtio_api_core_v1_InterfaceBridge);
   ("kubevirt.io/api/core/v1.InterfaceMasquerade", schema_kubevirtio_api_core_v1_InterfaceMasquerade);
   ("kubevirt.io/api/core/v1.InterfacePasstBinding", schema_kubevirtio_api_core_v1_InterfacePasstBinding);
   ("kubevirt.io/api/core/v1.InterfaceSRIOV", schema_kubevirtio_api_core_v1_InterfaceSRIOV);
   ("kubevirt.io/api/core/v1.KSMConfiguration", schema_kubevirtio_api_core_v1_KSMConfiguration);
   ("kubevirt.io/api/core/v1.KVMTimer", schema_kubevirtio_api_core_v1_KVMTimer);
   ("kubevirt.io/api/core/v1.KernelBoot", schema_kubevirtio_api_core_v1_KernelBoot);
   ("kubevirt.io/api/core/v1.KernelBootContainer", schema_kubevirtio_api_core_v1_KernelBootContainer);
   ("kubevirt.io/api/core/v1.KernelBootStatus", schema_kubevirtio_api_core_v1_KernelBootStatus);
   ("kubevirt.io/api/core/v1.KernelInfo", schema_kubevirtio_api_core_v1_KernelInfo);
   ("kubevirt.io/api/core/v1.KubeVirt", schema_kubevirtio_api_core_v1_KubeVirt);
   ("kubevirt.io/api/core/v1.KubeVirtCertificateRotateStrategy", schema_kubevirtio_api_core_v1_KubeVirtCertificateRotateStrategy);
   ("kubevirt.io/api/core/v1.KubeVirtCondition", schema_kubevirtio_api_core_v1_KubeVirtCondition);
   ("kubevirt.io/api/core/v1.KubeVirtConfiguration", schema_kubevirtio_api_core_v1_KubeVirtConfiguration);
   ("kubevirt.io/api/core/v1.KubeVirtList", schema_kubevirtio_api_core_v1_KubeVirtList);
   ("kubevirt.io/api/core/v1.KubeVirtSelfSignConfiguration", schema_kubevirtio_api_core_v1_KubeVirtSelfSignConfiguration);
   ("kubevirt.io/api/core/v1.KubeVirtSpec", schema_kubevirtio_api_core_v1_KubeVirtSpec);
   ("kubevirt.io/api/core/v1.KubeVirtStatus", schema_kubevirtio_api_core_v1_KubeVirtStatus);
   ("kubevirt.io/api/core/v1.KubeVirtWorkloadUpdateStrategy", schema_kubevirtio_api_core_v1_KubeVirtWorkloadUpdateStrategy);
   ("kubevirt.io/api/core/v1.LaunchSecurity", schema_kubevirtio_api_core_v1_LaunchSecurity);
   ("kubevirt.io/api/core/v1.LiveUpdateConfiguration", schema_kubevirtio_api_core_v1_LiveUpdateConfiguration);
   ("kubevirt.io/api/core/v1.LogVerbosity", schema_kubevirtio_api_core_v1_LogVerbosity);
   ("kubevirt.io/api/core/v1.LunTarget", schema_kubevirtio_api_core_v1_LunTarget);
   ("kubevirt.io/api/core/v1.Machine", schema_kubevirtio_api_core_v1_Machine);
   ("kubevirt.io/api/core/v1.MediatedDevicesConfiguration", schema_kubevirtio_api_core_v1_MediatedDevicesConfiguration);
   ("kubevirt.io/api/core/v1.MediatedHostDevice", schema_kubevirtio_api_core_v1_MediatedHostDevice);
   ("kubevirt.io/api/core/v1.Memory", schema_kubevirtio_api_core_v1_Memory);
   ("kubevirt.io/api/core/v1.MemoryDumpVolumeSource", schema_kubevirtio_api_core_v1_MemoryDumpVolumeSource);
   ("kubevirt.io/api/core/v1.MemoryStatus", schema_kubevirtio_api_core_v1_MemoryStatus);
   ("kubevirt.io/api/core/v1.MigrateOptions", schema_kubevirtio_api_core_v1_MigrateOptions);
   ("kubevirt.io/api/core/v1.MigrationConfiguration", schema_kubevirtio_api_core_v1_MigrationConfiguration);
   ("kubevirt.io/api/core/v1.MultusNetwork", schema_kubevirtio_api_core_v1_MultusNetwork);
   ("kubevirt.io/api/core/v1.NUMA", schema_kubevirtio_api_core_v1_NUMA);
   ("kubevirt.io/api/core/v1.NUMAGuestMappingPassthrough", schema_kubevirtio_api_core_v1_NUMAGuestMappingPassthrough);
   ("kubevirt.io/api/core/v1.Network", schema_kubevirtio_api_core_v1_Network);
   ("kubevirt.io/api/core/v1.NetworkConfiguration", schema_kubevirtio_api_core_v1_NetworkConfiguration);
   ("kubevirt.io/api/core/v1.NetworkSource", schema_kubevirtio_api_core_v1_NetworkSource);
   ("kubevirt.io/api/core/v1.NoCloudSSHPublicKeyAccessCredentialPropagation", schema_kubevirtio_api_core_v1_NoCloudSSHPublicKeyAccessCredentialPropagation);
   ("kubevirt.io/api/core/v1.NodeMediatedDeviceTypesConfig", schema_kubevirtio_api_core_v1_NodeMediatedDeviceTypesConfig);
   ("kubevirt.io/api/core/v1.NodePlacement", schema_kubevirtio_api_core_v1_NodePlacement);
   ("kubevirt.io/api/core/v1.ObjectGraphNode", schema_kubevirtio_api_core_v1_ObjectGraphNode);
   ("kubevirt.io/api/core/v1.ObjectGraphOptions", schema_kubevirtio_api_core_v1_ObjectGraphOptions);
   ("kubevirt.io/api/core/v1.PITTimer", schema_kubevirtio_api_core_v1_PITTimer);
   ("kubevirt.io/api/core/v1.PanicDevice", schema_kubevirtio_api_core_v1_PanicDevice);
   ("kubevirt.io/api/core/v1.PauseOptions", schema_kubevirtio_api_core_v1_PauseOptions);
   ("kubevirt.io/api/core/v1.PciHostDevice", schema_kubevirtio_api_core_v1_PciHostDevice);
   ("kubevirt.io/api/core/v1.PermittedHostDevices", schema_kubevirtio_api_core_v1_PermittedHostDevices);
   ("kubevirt.io/api/core/v1.PersistentVolumeClaimInfo", schema_kubevirtio_api_core_v1_PersistentVolumeClaimInfo);
   ("kubevirt.io/api/core/v1.PersistentVolumeClaimVolumeSource", schema_kubevirtio_api_core_v1_PersistentVolumeClaimVolumeSource);
   ("kubevirt.io/api/core/v1.PluginBinding", schema_kubevirtio_api_core_v1_PluginBinding);
   ("kubevirt.io/api/core/v1.PodNetwork", schema_kubevirtio_api_core_v1_PodNetwork);
   ("kubevirt.io/api/core/v1.Port", schema_kubevirtio_api_core_v1_Port);
   ("kubevirt.io/api/core/v1.PreferenceMatcher", schema_kubevirtio_api_core_v1_PreferenceMatcher);
   ("kubevirt.io/api/core/v1.Probe", schema_kubevirtio_api_core_v1_Probe);
   ("kubevirt.io/api/core/v1.ProfilerResult", schema_kubevirtio_api_core_v1_ProfilerResult);
   ("kubevirt.io/api/core/v1.QemuGuestAgentSSHPublicKeyAccessCredentialPropagation", schema_kubevirtio_api_core_v1_QemuGuestAgentSSHPublicKeyAccessCredentialPropagation);
   ("kubevirt.io/api/core/v1.QemuGuestAgentUserPasswordAccessCredentialPropagation", schema_kubevirtio_api_core_v1_QemuGuestAgentUserPasswordAccessCredentialPropagation);
   ("kubevirt.io/api/core/v1.RESTClientConfiguration", schema_kubevirtio_api_core_v1_RESTClientConfiguration);
   ("kubevirt.io/api/core/v1.RTCTimer", schema_kubevirtio_api_core_v1_RTCTimer);
   ("kubevirt.io/api/core/v1.RateLimiter", schema_kubevirtio_api_core_v1_RateLimiter);
   ("kubevirt.io/api/core/v1.Realtime", schema_kubevirtio_api_core_v1_Realtime);
   ("kubevirt.io/api/core/v1.ReloadableComponentConfiguration", schema_kubevirtio_api_core_v1_ReloadableComponentConfiguration);
   ("kubevirt.io/api/core/v1.RemoveVolumeOptions", schema_kubevirtio_api_core_v1_RemoveVolumeOptions);
   ("kubevirt.io/api/core/v1.ReservedOverhead", schema_kubevirtio_api_core_v1_ReservedOverhead);
   ("kubevirt.io/api/core/v1.ResourceRequirements", schema_kubevirtio_api_core_v1_ResourceRequirements);
   ("kubevirt.io/api/core/v1.ResourceRequirementsWithoutClaims", schema_kubevirtio_api_core_v1_ResourceRequirementsWithoutClaims);
   ("kubevirt.io/api/core/v1.RestartOptions", schema_kubevirtio_api_core_v1_RestartOptions);
   ("kubevirt.io/api/core/v1.Rng", schema_kubevirtio_api_core_v1_Rng);
   ("kubevirt.io/api/core/v1.SEV", schema_kubevirtio_api_core_v1_SEV);
   ("kubevirt.io/api/core/v1.SEVAttestation", schema_kubevirtio_api_core_v1_SEVAttestation);
   ("kubevirt.io/api/core/v1.SEVMeasurementInfo", schema_kubevirtio_api_core_v1_SEVMeasurementInfo);
   ("kubevirt.io/api/core/v1.SEVPlatformInfo", schema_kubevirtio_api_core_v1_SEVPlatformInfo);
   ("kubevirt.io/api/core/v1.SEVPolicy", schema_kubevirtio_api_core_v1_SEVPolicy);
   ("kubevirt.io/api/core/v1.SEVSNP", schema_kubevirtio_api_core_v1_SEVSNP);
   ("kubevirt.io/api/core/v1.SEVSecretOptions", schema_kubevirtio_api_core_v1_SEVSecretOptions);
   ("kubevirt.io/api/core/v1.SEVSessionOptions", schema_kubevirtio_api_core_v1_SEVSessionOptions);
   ("kubevirt.io/api/core/v1.SMBiosConfiguration", schema_kubevirtio_api_core_v1_SMBiosConfiguration);
   ("kubevirt.io/api/core/v1.SSHPublicKeyAccessCredential", schema_kubevirtio_api_core_v1_SSHPublicKeyAccessCredential);
   ("kubevirt.io/api/core/v1.SSHPublicKeyAccessCredentialPropagationMethod", schema_kubevirtio_api_core_v1_SSHPublicKeyAccessCredentialPropagationMethod);
   ("kubevirt.io/api/core/v1.SSHPublicKeyAccessCredentialSource", schema_kubevirtio_api_core_v1_SSHPublicKeyAccessCredentialSource);
   ("kubevirt.io/api/core/v1.ScreenshotOptions", schema_kubevirtio_api_core_v1_ScreenshotOptions);
   ("kubevirt.io/api/core/v1.SeccompConfiguration", schema_kubevirtio_api_core_v1_SeccompConfiguration);
   ("kubevirt.io/api/core/v1.SecretVolumeSource", schema_kubevirtio_api_core_v1_SecretVolumeSource);
   ("kubevirt.io/api/core/v1.ServiceAccountVolumeSource", schema_kubevirtio_api_core_v1_ServiceAccountVolumeSource);
   ("kubevirt.io/api/core/v1.SoundDevice", schema_kubevirtio_api_core_v1_SoundDevice);
   ("kubevirt.io/api/core/v1.StartOptions", schema_kubevirtio_api_core_v1_StartOptions);
   ("kubevirt.io/api/core/v1.StopOptions", schema_kubevirtio_api_core_v1_StopOptions);
   ("kubevirt.io/api/core/v1.StorageMigratedVolumeInfo", schema_kubevirtio_api_core_v1_StorageMigratedVolumeInfo);
   ("kubevirt.io/api/core/v1.SupportContainerResources", schema_kubevirtio_api_core_v1_SupportContainerResources);
   ("kubevirt.io/api/core/v1.SyNICTimer", schema_kubevirtio_api_core_v1_SyNICTimer);
   ("kubevirt.io/api/core/v1.SysprepSource", schema_kubevirtio_api_core_v1_SysprepSource);
   ("kubevirt.io/api/core/v1.TDX", schema_kubevirtio_api_core_v1_TDX);
   ("kubevirt.io/api/core/v1.TLBFlush", schema_kubevirtio_api_core_v1_TLBFlush);
   ("kubevirt.io/api/core/v1.TLSConfiguration", schema_kubevirtio_api_core_v1_TLSConfiguration);
   ("kubevirt.io/api/core/v1.TPMDevice", schema_kubevirtio_api_core_v1_TPMDevice);
   ("kubevirt.io/api/core/v1.Timer", schema_kubevirtio_api_core_v1_Timer);
   ("kubevirt.io/api/core/v1.TokenBucketRateLimiter", schema_kubevirtio_api_core_v1_TokenBucketRateLimiter);
   ("kubevirt.io/api/core/v1.TopologyHints", schema_kubevirtio_api_core_v1_TopologyHints);
   ("kubevirt.io/api/core/v1.USBHostDevice", schema_kubevirtio_api_core_v1_USBHostDevice);
   ("kubevirt.io/api/core/v1.USBSelector", schema_kubevirtio_api_core_v1_USBSelector);
   ("kubevirt.io/api/core/v1.UnpauseOptions", schema_kubevirtio_api_core_v1_UnpauseOptions);
   ("kubevirt.io/api/core/v1.UserPasswordAccessCredential", schema_kubevirtio_api_core_v1_UserPasswordAccessCredential);
   ("kubevirt.io/api/core/v1.UserPasswordAccessCredentialPropagationMethod", schema_kubevirtio_api_core_v1_UserPasswordAccessCredentialPropagationMethod);
   ("kubevirt.io/api/core/v1.UserPasswordAccessCredentialSource", schema_kubevirtio_api_core_v1_UserPasswordAccessCredentialSource);
   ("kubevirt.io/api/core/v1.UtilityVolume", schema_kubevirtio_api_core_v1_UtilityVolume);
   ("kubevirt.io/api/core/v1.VGPUDisplayOptions", schema_kubevirtio_api_core_v1_VGPUDisplayOptions);
   ("kubevirt.io/api/core/v1.VGPUOptions", schema_kubevirtio_api_core_v1_VGPUOptions);
   ("kubevirt.io/api/core/v1.VMISelector", schema_kubevirtio_api_core_v1_VMISelector);
   ("kubevirt.io/api/core/v1.VSOCKOptions", schema_kubevirtio_api_core_v1_VSOCKOptions);
   ("kubevirt.io/api/core/v1.VideoDevice", schema_kubevirtio_api_core_v1_VideoDevice);
   ("kubevirt.io/api/core/v1.VirtTemplateDeployment", schema_kubevirtio_api_core_v1_VirtTemplateDeployment);
   ("kubevirt.io/api/core/v1.VirtualMachine", schema_kubevirtio_api_core_v1_VirtualMachine);
   ("kubevirt.io/api/core/v1.VirtualMachineCondition", schema_kubevirtio_api_core_v1_VirtualMachineCondition);
   ("kubevirt.io/api/core/v1.VirtualMachineInstance", schema_kubevirtio_api_core_v1_VirtualMachineInstance);
   ("kubevirt.io/api/core/v1.VirtualMachineInstanceBackupStatus", schema_kubevirtio_api_core_v1_VirtualMachineInstanceBackupStatus);
   ("kubevirt.io/api/core/v1.VirtualMachineInstanceCommonMigrationState", schema_kubevirtio_api_core_v1_VirtualMachineInstanceCommonMigrationState);
   ("kubevirt.io/api/core/v1.VirtualMachineInstanceCondition", schema_kubevirtio_api_core_v1_VirtualMachineInstanceCondition);
   ("kubevirt.io/api/core/v1.VirtualMachineInstanceFileSystem", schema_kubevirtio_api_core_v1_VirtualMachineInstanceFileSystem);
   ("kubevirt.io/api/core/v1.VirtualMachineInstanceFileSystemDisk", schema_kubevirtio_api_core_v1_VirtualMachineInstanceFileSystemDisk);
   ("kubevirt.io/api/core/v1.VirtualMachineInstanceFileSystemInfo", schema_kubevirtio_api_core_v1_VirtualMachineInstanceFileSystemInfo);
   ("kubevirt.io/api/core/v1.VirtualMachineInstanceFileSystemList", schema_kubevirtio_api_core_v1_VirtualMachineInstanceFileSystemList);
   ("kubevirt.io/api/core/v1.VirtualMachineInstanceGuestAgentInfo", schema_kubevirtio_api_core_v1_VirtualMachineInstanceGuestAgentInfo);
   ("kubevirt.io/api/core/v1.VirtualMachineInstanceGuestOSInfo", schema_kubevirtio_api_core_v1_VirtualMachineInstanceGuestOSInfo);
   ("kubevirt.io/api/core/v1.VirtualMachineInstanceGuestOSUser", schema_kubevirtio_api_core_v1_VirtualMachineInstanceGuestOSUser);
   ("kubevirt.io/api/core/v1.VirtualMachineInstanceGuestOSUserList", schema_kubevirtio_api_core_v1_VirtualMachineInstanceGuestOSUserList);
   ("kubevirt.io/api/core/v1.VirtualMachineInstanceList", schema_kubevirtio_api_core_v1_VirtualMachineInstanceList);
   ("kubevirt.io/api/core/v1.VirtualMachineInstanceMigration", schema_kubevirtio_api_core_v1_VirtualMachineInstanceMigration);
   ("kubevirt.io/api/core/v1.VirtualMachineInstanceMigrationCondition", schema_kubevirtio_api_core_v1_VirtualMachineInstanceMigrationCondition);
   ("kubevirt.io/api/core/v1.VirtualMachineInstanceMigrationList", schema_kubevirtio_api_core_v1_VirtualMachineInstanceMigrationList);
   ("kubevirt.io/api/core/v1.VirtualMachineInstanceMigrationPhaseTransitionTimestamp", schema_kubevirtio_api_core_v1_VirtualMachineInstanceMigrationPhaseTransitionTimestamp);
   ("kubevirt.io/api/core/v1.VirtualMachineInstanceMigrationSource", schema_kubevirtio_api_core_v1_VirtualMachineInstanceMigrationSource);
   ("kubevirt.io/api/core/v1.VirtualMachineInstanceMigrationSourceState", schema_kubevirtio_api_core_v1_VirtualMachineInstanceMigrationSourceState);
   ("kubevirt.io/api/core/v1.VirtualMachineInstanceMigrationSpec", schema_kubevirtio_api_core_v1_VirtualMachineInstanceMigrationSpec);
   ("kubevirt.io/api/core/v1.VirtualMachineInstanceMigrationState", schema_kubevirtio_api_core_v1_VirtualMachineInstanceMigrationState);
   ("kubevirt.io/api/core/v1.VirtualMachineInstanceMigrationStatus", schema_kubevirtio_api_core_v1_VirtualMachineInstanceMigrationStatus);
   ("kubevirt.io/api/core/v1.VirtualMachineInstanceMigrationTarget", schema_kubevirtio_api_core_v1_VirtualMachineInstanceMigrationTarget);
   ("kubevirt.io/api/core/v1.VirtualMachineInstanceMigrationTargetState", schema_kubevirtio_api_core_v1_VirtualMachineInstanceMigrationTargetState);
   ("kubevirt.io/api/core/v1.VirtualMachineInstanceNetworkInterface", schema_kubevirtio_api_core_v1_VirtualMachineInstanceNetworkInterface);
   ("kubevirt.io/api/core/v1.VirtualMachineInstancePhaseTransitionTimestamp", schema_kubevirtio_api_core_v1_VirtualMachineInstancePhaseTransitionTimestamp);
   ("kubevirt.io/api/core/v1.VirtualMachineInstancePreset", schema_kubevirtio_api_core_v1_VirtualMachineInstancePreset);
   ("kubevirt.io/api/core/v1.VirtualMachineInstancePresetList", schema_kubevirtio_api_core_v1_VirtualMachineInstancePresetList);
   ("kubevirt.io/api/core/v1.VirtualMachineInstancePresetSpec", schema_kubevirtio_api_core_v1_VirtualMachineInstancePresetSpec);
   ("kubevirt.io/api/core/v1.VirtualMachineInstanceProfile", schema_kubevirtio_api_core_v1_VirtualMachineInstanceProfile);
   ("kubevirt.io/api/core/v1.VirtualMachineInstanceReplicaSet", schema_kubevirtio_api_core_v1_VirtualMachineInstanceReplicaSet);
   ("kubevirt.io/api/core/v1.VirtualMachineInstanceReplicaSetCondition", schema_kubevirtio_api_core_v1_VirtualMachineInstanceReplicaSetCondition);
   ("kubevirt.io/api/core/v1.VirtualMachineInstanceReplicaSetList", schema_kubevirtio_api_core_v1_VirtualMachineInstanceReplicaSetList);
   ("kubevirt.io/api/core/v1.VirtualMachineInstanceReplicaSetSpec", schema_kubevirtio_api_core_v1_VirtualMachineInstanceReplicaSetSpec);
   ("kubevirt.io/api/core/v1.VirtualMachineInstanceReplicaSetStatus", schema_kubevirtio_api_core_v1_VirtualMachineInstanceReplicaSetStatus);
   ("kubevirt.io/api/core/v1.VirtualMachineInstanceSpec", schema_kubevirtio_api_core_v1_VirtualMachineInstanceSpec);
   ("kubevirt.io/api/core/v1.VirtualMachineInstanceStatus", schema_kubevirtio_api_core_v1_VirtualMachineInstanceStatus);
   ("kubevirt.io/api/core/v1.VirtualMachineInstanceTemplateSpec", schema_kubevirtio_api_core_v1_VirtualMachineInstanceTemplateSpec);
   ("kubevirt.io/api/core/v1.VirtualMachineList", schema_kubevirtio_api_core_v1_VirtualMachineList);
   ("kubevirt.io/api/core/v1.VirtualMachineMemoryDumpRequest", schema_kubevirtio_api_core_v1_VirtualMachineMemoryDumpRequest);
   ("kubevirt.io/api/core/v1.VirtualMachineOptions", schema_kubevirtio_api_core_v1_VirtualMachineOptions);
   ("kubevirt.io/api/core/v1.VirtualMachineSpec", schema_kubevirtio_api_core_v1_VirtualMachineSpec);
   ("kubevirt.io/api/core/v1.VirtualMachineStartFailure", schema_kubevirtio_api_core_v1_VirtualMachineStartFailure);
   ("kubevirt.io/api/core/v1.VirtualMachineStateChangeRequest", schema_kubevirtio_api_core_v1_VirtualMachineStateChangeRequest);
   ("kubevirt.io/api/core/v1.VirtualMachineStatus", schema_kubevirtio_api_core_v1_VirtualMachineStatus);
   ("kubevirt.io/api/core/v1.VirtualMachineVolumeRequest", schema_kubevirtio_api_core_v1_VirtualMachineVolumeRequest);
   ("kubevirt.io/api/core/v1.Volume", schema_kubevirtio_api_core_v1_Volume);
   ("kubevirt.io/api/core/v1.VolumeMigrationState", schema_kubevirtio_api_core_v1_VolumeMigrationState);
   ("kubevirt.io/api/core/v1.VolumeSnapshotStatus", schema_kubevirtio_api_core_v1_VolumeSnapshotStatus);
   ("kubevirt.io/api/core/v1.VolumeSource", schema_kubevirtio_api_core_v1_VolumeSource);
   ("kubevirt.io/api/core/v1.VolumeStatus", schema_kubevirtio_api_core_v1_VolumeStatus);
   ("kubevirt.io/api/core/v1.VolumeUpdateState", schema_kubevirtio_api_core_v1_VolumeUpdateState);
   ("kubevirt.io/api/core/v1.Watchdog", schema_kubevirtio_api_core_v1_Watchdog);
   ("kubevirt.io/api/core/v1.WatchdogDevice", schema_kubevirtio_api_core_v1_WatchdogDevice);
   ("kubevirt.io/containerized-data-importer-api/pkg/apis/core/v1beta1.CDI", schema_pkg_apis_core_v1beta1_CDI);
   ("kubevirt.io/containerized-data-importer-api/pkg/apis/core/v1beta1.CDICertConfig", schema_pkg_apis_core_v1beta1_CDICertConfig);
   ("kubevirt.io/containerized-data-importer-api/pkg/apis/core/v1beta1.CDIConfig", schema_pkg_apis_core_v1beta1_CDIConfig);
   ("kubevirt.io/containerized-data-importer-api/pkg/apis/core/v1beta1.CDIConfigList", schema_pkg_apis_core_v1beta1_CDIConfigList);
   ("kubevirt.io/containerized-data-importer-api/pkg/apis/core/v1beta1.CDIConfigSpec", schema_pkg_apis_core_v1beta1_CDIConfigSpec);
   ("kubevirt.io/containerized-data-importer-api/pkg/apis/core/v1beta1.CDIConfigStatus", schema_pkg_apis_core_v1beta1_CDIConfigStatus);
   ("kubevirt.io/containerized-data-importer-api/pkg/apis/core/v1beta1.CDIList", schema_pkg_apis_core_v1beta1_CDIList);
   ("kubevirt.io/containerized-data-importer-api/pkg/apis/core/v1beta1.CDISpec", schema_pkg_apis_core_v1beta1_CDISpec);
   ("kubevirt.io/containerized-data-importer-api/pkg/apis/core/v1beta1.CDIStatus", schema_pkg_apis_core_v1beta1_CDIStatus);
   ("kubevirt.io/containerized-data-importer-api/pkg/apis/core/v1beta1.CertConfig", schema_pkg_apis_core_v1beta1_CertConfig);
   ("kubevirt.io/containerized-data-importer-api/pkg/apis/core/v1beta1.ClaimPropertySet", schema_pkg_apis_core_v1beta1_ClaimPropertySet);
   ("kubevirt.io/containerized-data-importer-api/pkg/apis/core/v1beta1.ComponentConfig", schema_pkg_apis_core_v1beta1_ComponentConfig);
   ("kubevirt.io/containerized-data-importer-api/pkg/apis/core/v1beta1.ConditionState", schema_pkg_apis_core_v1beta1_ConditionState);
   ("kubevirt.io/containerized-data-importer-api/pkg/apis/core/v1beta1.CustomTLSProfile", schema_pkg_apis_core_v1beta1_CustomTLSProfile);
   ("kubevirt.io/containerized-data-importer-api/pkg/apis/core/v1beta1.CustomizeComponents", schema_pkg_apis_core_v1beta1_CustomizeComponents);
   ("kubevirt.io/containerized-data-importer-api/pkg/apis/core/v1beta1.CustomizeComponentsPatch", schema_pkg_apis_core_v1beta1_CustomizeComponentsPatch);
   ("kubevirt.io/containerized-data-importer-api/pkg/apis/core/v1beta1.DataImportCron", schema_pkg_apis_core_v1beta1_DataImportCron);
   ("kubevirt.io/containerized-data-importer-api/pkg/apis/core/v1beta1.DataImportCronCondition", schema_pkg_apis_core_v1beta1_DataImportCronCondition);
   ("kubevirt.io/containerized-data-importer-api/pkg/apis/core/v1beta1.DataImportCronList", schema_pkg_apis_core_v1beta1_DataImportCronList);
   ("kubevirt.io/containerized-data-importer-api/pkg/apis/core/v1beta1.DataImportCronSpec", schema_pkg_apis_core_v1beta1_DataImportCronSpec);
   ("kubevirt.io/containerized-data-importer-api/pkg/apis/core/v1beta1.DataImportCronStatus", schema_pkg_apis_core_v1beta1_DataImportCronStatus);
   ("kubevirt.io/containerized-data-importer-api/pkg/apis/core/v1beta1.DataSource", schema_pkg_apis_core_v1beta1_DataSource);
   ("kubevirt.io/containerized-data-importer-api/pkg/apis/core/v1beta1.DataSourceCondition", schema_pkg_apis_core_v1beta1_DataSourceCondition);
   ("kubevirt.io/containerized-data-importer-api/pkg/apis/core/v1beta1.DataSourceList", schema_pkg_apis_core_v1beta1_DataSourceList);
   ("kubevirt.io/containerized-data-importer-api/pkg/apis/core/v1beta1.DataSourceRefSourceDataSource", schema_pkg_apis_core_v1beta1_DataSourceRefSourceDataSource);
   ("kubevirt.io/containerized-data-importer-api/pkg/apis/core/v1beta1.DataSourceSource", schema_pkg_apis_core_v1beta1_DataSourceSource);
   ("kubevirt.io/containerized-data-importer-api/pkg/apis/core/v1beta1.DataSourceSpec", schema_pkg_apis_core_v1beta1_DataSourceSpec);
   ("kubevirt.io/containerized-data-importer-api/pkg/apis/core/v1beta1.DataSourceStatus", schema_pkg_apis_core_v1beta1_DataSourceStatus);
   ("kubevirt.io/containerized-data-importer-api/pkg/apis/core/v1beta1.DataVolume", schema_pkg_apis_core_v1beta1_DataVolume);
   ("kubevirt.io/containerized-data-importer-api/pkg/apis/core/v1beta1.DataVolumeBlankImage", schema_pkg_apis_core_v1beta1_DataVolumeBlankImage);
   ("kubevirt.io/containerized-data-importer-api/pkg/apis/core/v1beta1.DataVolumeCheckpoint", schema_pkg_apis_core_v1beta1_DataVolumeCheckpoint);
   ("kubevirt.io/containerized-data-importer-api/pkg/apis/core/v1beta1.DataVolumeCondition", schema_pkg_apis_core_v1beta1_DataVolumeCondition);
   ("kubevirt.io/containerized-data-importer-api/pkg/apis/core/v1beta1.DataVolumeList", schema_pkg_apis_core_v1beta1_DataVolumeList);
   ("kubevirt.io/containerized-data-importer-api/pkg/apis/core/v1beta1.DataVolumeSource", schema_pkg_apis_core_v1beta1_DataVolumeSource);
   ("kubevirt.io/containerized-data-importer-api/pkg/apis/core/v1beta1.DataVolumeSourceGCS", schema_pkg_apis_core_v1beta1_DataVolumeSourceGCS);
   ("kubevirt.io/containerized-data-importer-api/pkg/apis/core/v1beta1.DataVolumeSourceHTTP", schema_pkg_apis_core_v1beta1_DataVolumeSourceHTTP);
   ("kubevirt.io/containerized-data-importer-api/pkg/apis/core/v1beta1.DataVolumeSourceImageIO", schema_pkg_apis_core_v1beta1_DataVolumeSourceImageIO);
   ("kubevirt.io/containerized-data-importer-api/pkg/apis/core/v1beta1.DataVolumeSourcePVC", schema_pkg_apis_core_v1beta1_DataVolumeSourcePVC);
   ("kubevirt.io/containerized-data-importer-api/pkg/apis/core/v1beta1.DataVolumeSourceRef", schema_pkg_apis_core_v1beta1_DataVolumeSourceRef);
   ("kubevirt.io/containerized-data-importer-api/pkg/apis/core/v1beta1.DataVolumeSourceRegistry", schema_pkg_apis_core_v1beta1_DataVolumeSourceRegistry);
   ("kubevirt.io/containerized-data-importer-api/pkg/apis/core/v1beta1.DataVolumeSourceS3", schema_pkg_apis_core_v1beta1_DataVolumeSourceS3);
   ("kubevirt.io/containerized-data-importer-api/pkg/apis/core/v1beta1.DataVolumeSourceSnapshot", schema_pkg_apis_core_v1beta1_DataVolumeSourceSnapshot);
   ("kubevirt.io/containerized-data-importer-api/pkg/apis/core/v1beta1.DataVolumeSourceUpload", schema_pkg_apis_core_v1beta1_DataVolumeSourceUpload);
   ("kubevirt.io/containerized-data-importer-api/pkg/apis/core/v1beta1.DataVolumeSourceVDDK", schema_pkg_apis_core_v1beta1_DataVolumeSourceVDDK);
   ("kubevirt.io/containerized-data-importer-api/pkg/apis/core/v1beta1.DataVolumeSpec", schema_pkg_apis_core_v1beta1_DataVolumeSpec);
   ("kubevirt.io/containerized-data-importer-api/pkg/apis/core/v1beta1.DataVolumeStatus", schema_pkg_apis_core_v1beta1_DataVolumeStatus);
   ("kubevirt.io/containerized-data-importer-api/pkg/apis/core/v1beta1.FilesystemOverhead", schema_pkg_apis_core_v1beta1_FilesystemOverhead);
   ("kubevirt.io/containerized-data-importer-api/pkg/apis/core/v1beta1.Flags", schema_pkg_apis_core_v1beta1_Flags);
   ("kubevirt.io/containerized-data-importer-api/pkg/apis/core/v1beta1.ImportProxy", schema_pkg_apis_core_v1beta1_ImportProxy);
   ("kubevirt.io/containerized-data-importer-api/pkg/apis/core/v1beta1.ImportSourceType", schema_pkg_apis_core_v1beta1_ImportSourceType);
   ("kubevirt.io/containerized-data-importer-api/pkg/apis/core/v1beta1.ImportStatus", schema_pkg_apis_core_v1beta1_ImportStatus);
   ("kubevirt.io/containerized-data-importer-api/pkg/apis/core/v1beta1.IntermediateTLSProfile", schema_pkg_apis_core_v1beta1_IntermediateTLSProfile);
   ("kubevirt.io/containerized-data-importer-api/pkg/apis/core/v1beta1.ModernTLSProfile", schema_pkg_apis_core_v1beta1_ModernTLSProfile);
   ("kubevirt.io/containerized-data-importer-api/pkg/apis/core/v1beta1.ObjectTransfer", schema_pkg_apis_core_v1beta1_ObjectTransfer);
   ("kubevirt.io/containerized-data-importer-api/pkg/apis/core/v1beta1.ObjectTransferCondition", schema_pkg_apis_core_v1beta1_ObjectTransferCondition);
   ("kubevirt.io/containerized-data-importer-api/pkg/apis/core/v1beta1.ObjectTransferList", schema_pkg_apis_core_v1beta1_ObjectTransferList);
   ("kubevirt.io/containerized-data-importer-api/pkg/apis/core/v1beta1.ObjectTransferSpec", schema_pkg_apis_core_v1beta1_ObjectTransferSpec);
   ("kubevirt.io/containerized-data-importer-api/pkg/apis/core/v1beta1.ObjectTransferStatus", schema_pkg_apis_core_v1beta1_ObjectTransferStatus);
   ("kubevirt.io/containerized-data-importer-api/pkg/apis/core/v1beta1.OldTLSProfile", schema_pkg_apis_core_v1beta1_OldTLSProfile);
   ("kubevirt.io/containerized-data-importer-api/pkg/apis/core/v1beta1.PlatformOptions", schema_pkg_apis_core_v1beta1_PlatformOptions);
   ("kubevirt.io/containerized-data-importer-api/pkg/apis/core/v1beta1.StorageProfile", schema_pkg_apis_core_v1beta1_StorageProfile);
   ("kubevirt.io/containerized-data-importer-api/pkg/apis/core/v1beta1.StorageProfileList", schema_pkg_apis_core_v1beta1_StorageProfileList);
   ("kubevirt.io/containerized-data-importer-api/pkg/apis/core/v1beta1.StorageProfileSpec", schema_pkg_apis_core_v1beta1_StorageProfileSpec);
   ("kubevirt.io/containerized-data-importer-api/pkg/apis/core/v1beta1.StorageProfileStatus", schema_pkg_apis_core_v1beta1_StorageProfileStatus);
   ("kubevirt.io/containerized-data-importer-api/pkg/apis/core/v1beta1.StorageSpec", schema_pkg_apis_core_v1beta1_StorageSpec);
   ("kubevirt.io/containerized-data-importer-api/pkg/apis/core/v1beta1.TLSProfileSpec", schema_pkg_apis_core_v1beta1_TLSProfileSpec);
   ("kubevirt.io/containerized-data-importer-api/pkg/apis/core/v1beta1.TLSSecurityProfile", schema_pkg_apis_core_v1beta1_TLSSecurityProfile);
   ("kubevirt.io/containerized-data-importer-api/pkg/apis/core/v1beta1.TransferSource", schema_pkg_apis_core_v1beta1_TransferSource);
   ("kubevirt.io/containerized-data-importer-api/pkg/apis/core/v1beta1.TransferTarget", schema_pkg_apis_core_v1beta1_TransferTarget);
   ("kubevirt.io/containerized-data-importer-api/pkg/apis/core/v1beta1.VolumeCloneSource", schema_pkg_apis_core_v1beta1_VolumeCloneSource);
   ("kubevirt.io/containerized-data-importer-api/pkg/apis/core/v1beta1.VolumeCloneSourceList", schema_pkg_apis_core_v1beta1_VolumeCloneSourceList);
   ("kubevirt.io/containerized-data-importer-api/pkg/apis/core/v1beta1.VolumeCloneSourceSpec", schema_pkg_apis_core_v1beta1_VolumeCloneSourceSpec);
   ("kubevirt.io/containerized-data-importer-api/pkg/apis/core/v1beta1.VolumeImportSource", schema_pkg_apis_core_v1beta1_VolumeImportSource);
   ("kubevirt.io/containerized-data-importer-api/pkg/apis/core/v1beta1.VolumeImportSourceList", schema_pkg_apis_core_v1beta1_VolumeImportSourceList);
   ("kubevirt.io/containerized-data-importer-api/pkg/apis/core/v1beta1.VolumeImportSourceSpec", schema_pkg_apis_core_v1beta1_VolumeImportSourceSpec);
   ("kubevirt.io/containerized-data-importer-api/pkg/apis/core/v1beta1.VolumeImportSourceStatus", schema_pkg_apis_core_v1beta1_VolumeImportSourceStatus);
   ("kubevirt.io/containerized-data-importer-api/pkg/apis/core/v1beta1.VolumeUploadSource", schema_pkg_apis_core_v1beta1_VolumeUploadSource);
   ("kubevirt.io/containerized-data-importer-api/pkg/apis/core/v1beta1.VolumeUploadSourceList", schema_pkg_apis_core_v1beta1_VolumeUploadSourceList);
   ("kubevirt.io/containerized-data-importer-api/pkg/apis/core/v1beta1.VolumeUploadSourceSpec", schema_pkg_apis_core_v1beta1_VolumeUploadSourceSpec);
   ("kubevirt.io/containerized-data-importer-api/pkg/apis/core/v1beta1.VolumeUploadSourceStatus", schema_pkg_apis_core_v1beta1_VolumeUploadSourceStatus);
   ("kubevirt.io/virt-template-api/core/subresourcesv1alpha1.ProcessOptions", SchemaSubresourcesv1alpha1.schema_ProcessOptions);
   ("kubevirt.io/virt-template-api/core/subresourcesv1alpha1.ProcessedVirtualMachineTemplate", SchemaSubresourcesv1alpha1.schema_ProcessedVirtualMachineTemplate);
   ("kubevirt.io/virt-template-api/core/subresourcesv1alpha1.VirtualMachineTemplate", SchemaSubresourcesv1alpha1.schema_VirtualMachineTemplate);
   ("kubevirt.io/virt-template-api/core/subresourcesv1beta1.ProcessOptions", SchemaSubresourcesv1beta1.schema_ProcessOptions);
   ("kubevirt.io/virt-template-api/core/subresourcesv1beta1.ProcessedVirtualMachineTemplate", SchemaSubresourcesv1beta1.schema_ProcessedVirtualMachineTemplate);
   ("kubevirt.io/virt-template-api/core/subresourcesv1beta1.VirtualMachineTemplate", SchemaSubresourcesv1beta1.schema_VirtualMachineTemplate);
   ("kubevirt.io/virt-template-api/core/v1alpha1.Parameter", Schemav1alpha1.schema_Parameter);
   ("kubevirt.io/virt-template-api/core/v1alpha1.VirtualMachineReference", Schemav1alpha1.schema_VirtualMachineReference);
   ("kubevirt.io/virt-template-api/core/v1alpha1.VirtualMachineTemplate", Schemav1alpha1.schema_VirtualMachineTemplate);
   ("kubevirt.io/virt-template-api/core/v1alpha1.VirtualMachineTemplateList", Schemav1alpha1.schema_VirtualMachineTemplateList);
   ("kubevirt.io/virt-template-api/core/v1alpha1.VirtualMachineTemplateRequest", Schemav1alpha1.schema_VirtualMachineTemplateRequest);
   ("kubevirt.io/virt-template-api/core/v1alpha1.VirtualMachineTemplateRequestList", Schemav1alpha1.schema_VirtualMachineTemplateRequestList);
   ("kubevirt.io/virt-template-api/core/v1alpha1.VirtualMachineTemplateRequestSpec", Schemav1alpha1.schema_VirtualMachineTemplateRequestSpec);
   ("kubevirt.io/virt-template-api/core/v1alpha1.VirtualMachineTemplateRequestStatus", Schemav1alpha1.schema_VirtualMachineTemplateRequestStatus);
   ("kubevirt.io/virt-template-api/core/v1alpha1.VirtualMachineTemplateSpec", Schemav1alpha1.schema_VirtualMachineTemplateSpec);
   ("kubevirt.io/virt-template-api/core/v1alpha1.VirtualMachineTemplateStatus", Schemav1alpha1.schema_VirtualMachineTemplateStatus);
   ("kubevirt.io/virt-template-api/core/v1beta1.Parameter", Schemav1beta1.schema_Parameter);
   ("kubevirt.io/virt-template-api/core/v1beta1.VirtualMachineReference", Schemav1beta1.schema_VirtualMachineReference);
   ("kubevirt.io/virt-template-api/core/v1beta1.VirtualMachineTemplate", Schemav1beta1.schema_VirtualMachineTemplate);
   ("kubevirt.io/virt-template-api/core/v1beta1.VirtualMachineTemplateList", Schemav1beta1.schema_VirtualMachineTemplateList);
   ("kubevirt.io/virt-template-api/core/v1beta1.VirtualMachineTemplateRequest", Schemav1beta1.schema_VirtualMachineTemplateRequest);
   ("kubevirt.io/virt-template-api/core/v1beta1.VirtualMachineTemplateRequestList", Schemav1beta1.schema_VirtualMachineTemplateRequestList);
   ("kubevirt.io/virt-template-api/core/v1beta1.VirtualMachineTemplateRequestSpec", Schemav1beta1.schema_VirtualMachineTemplateRequestSpec);
   ("kubevirt.io/virt-template-api/core/v1beta1.VirtualMachineTemplateRequestStatus", Schemav1beta1.schema_VirtualMachineTemplateRequestStatus);
   ("kubevirt.io/virt-template-api/core/v1beta1.VirtualMachineTemplateSpec", Schemav1beta1.schema_VirtualMachineTemplateSpec);
   ("kubevirt.io/virt-template-api/core/v1beta1.VirtualMachineTemplateStatus", Schemav1beta1.schema_VirtualMachineTemplateStatus)].

(** The map the function returns. *)
Definition all_definitions : gmap string definition := list_to_map GetOpenAPIDefinitions.

(** ** The builder *)

Definition missing_definition (name : string) : error :=
  EMsg ("cannot find model definition for " +:+ name +:+ ". If you added a new type, you may need to add +k8s:openapi-gen=true to the package or type and run code-gen again").

(** Following a reference of a document. *)
Definition component (schemas : gmap string schema) (reference : string) : option schema :=
  strip_prefix "#/components/schemas/" reference ≫= λ p, schemas !! unescape p.

Lemma component_v3_ref schemas name : component schemas (v3_ref name) = schemas !! GetDefinitionName name.
Proof. unfold component, v3_ref. rewrite strip_prefix_app. cbn [mbind option_bind]. by rewrite unescape_escape. Qed.

Lemma map_refs_refs f s : schema_refs (map_refs f s) = f <$> schema_refs s.
Proof.
  revert s. fix IH 1. intros [name|ty fm|ty fm vs|tys fm| |lt ks items|values|ps req|v s|e s]; cbn; try done.
  induction ps as [|[k s] ps IHps]; [done|]. cbn. by rewrite fmap_app, IH, IHps.
Qed.

Section Builder.
(** [config.Definitions]. *)
Context (definitions : gmap string definition).

(** [buildDefinitionRecursively] on [o.spec.Components.Schemas]: the schema
    goes in first, with the references of the document, so that a definition
    that reaches itself is built once; then the dependencies, in order.
    [fuel] bounds the depth of the calls. *)
Fixpoint buildDefinitionRecursively (fuel : nat) (name : string) (schemas : gmap string schema) :
    res error (gmap string schema) :=
  match fuel with
  | 0 => Panic "stack overflow"
  | S fuel =>
      let uniqueName := GetDefinitionName name in
      match schemas !! uniqueName with
      | Some _ => Ok schemas
      | None =>
          match definitions !! name with
          | Some item =>
              fold_left (λ acc v, acc ≫= buildDefinitionRecursively fuel v) (d_dependencies item)
                (Ok (<[uniqueName := map_refs v3_ref (d_schema item)]> schemas))
          | None => Err (missing_definition name)
          end
      end
  end.

(** [buildDefinitionForType]: the reference to the type, and the schemas. *)
Definition buildDefinitionForType (fuel : nat) (name : string) (schemas : gmap string schema) :
    res error (string * gmap string schema) :=
  schemas ← buildDefinitionRecursively fuel name schemas; mret (v3_ref name, schemas).

(** The types of the routes, one after the other. *)
Definition build_all (fuel : nat) (names : list string) : res error (gmap string schema) :=
  fold_left (λ acc name, acc ≫= λ schemas, snd <$> buildDefinitionForType fuel name schemas) names (Ok ∅).

(** ** What the builder builds *)
Local Open Scope nat_scope.

(** [n] has [m] among its dependencies. *)
Definition depends (n m : string) : Prop := ∃ d, definitions !! n = Some d ∧ m ∈ d_dependencies d.

Definition built (schemas : gmap string schema) (name : string) : Prop := is_Some (schemas !! GetDefinitionName name).
#[local] Instance built_dec schemas name : Decision (built schemas name).
Proof. unfold built. apply _. Defined.

(** Every schema is the one of a definition, under its name. *)
Definition genuine (schemas : gmap string schema) : Prop :=
  ∀ unique s, schemas !! unique = Some s →
    ∃ name d, definitions !! name = Some d ∧ unique = GetDefinitionName name ∧ s = map_refs v3_ref (d_schema d).

(** The keys that are still to be built. *)
Definition unbuilt (schemas : gmap string schema) : gset string :=
  filter (λ name, ¬ built schemas name) (dom definitions).

(** Everything that can be reached from [n] has a definition. *)
Definition complete (n : string) : Prop := ∀ m, rtc depends n m → m ∈ dom definitions.

Lemma complete_dom n : complete n → n ∈ dom definitions.
Proof. intros Hn. apply Hn, rtc_refl. Qed.
Lemma complete_depends n m : complete n → depends n m → complete m.
Proof. intros Hn Hm k Hk. apply Hn. by apply (rtc_l _ _ m). Qed.

Context (names_injective : ∀ n m, n ∈ dom definitions → m ∈ dom definitions →
  GetDefinitionName n = GetDefinitionName m → n = m).

(** What a call adds for the types [names]: they are built, and what is new
    is reached from one of them and has its dependencies built. *)
Record extends (names : list string) (s s' : gmap string schema) : Prop := {
  ext_sub : s ⊆ s';
  ext_genuine : genuine s';
  ext_built : ∀ n, n ∈ names → built s' n;
  ext_new : ∀ n, n ∈ dom definitions → built s' n → ¬ built s n →
    (∃ r, r ∈ names ∧ rtc depends r n) ∧ (∀ m, depends n m → built s' m) }.

Lemma built_mono s s' n : s ⊆ s' → built s n → built s' n.
Proof. intros Hs [x Hx]. exists x. exact (lookup_weaken _ _ _ _ Hx Hs). Qed.

Lemma unbuilt_mono s s' : s ⊆ s' → size (unbuilt s') ≤ size (unbuilt s).
Proof. intros Hs. apply subseteq_size. unfold unbuilt. intros n. rewrite !elem_of_filter. intuition eauto using built_mono. Qed.

Lemma extends_nil s : genuine s → extends [] s s.
Proof. split; [done|done|by intros n Hn%elem_of_nil|done]. Qed.

Lemma extends_app ns ns' s s' s'' : extends ns s s' → extends ns' s' s'' → extends (ns ++ ns') s s''.
Proof.
  intros [H1 _ H3 H4] [K1 K2 K3 K4]. split; [by etrans|done|..].
  - intros n [Hn|Hn]%elem_of_app; eauto using built_mono.
  - intros n Hn Hb Hnb. destruct (decide (built s' n)) as [Hs'|Hs'].
    + destruct (H4 n Hn Hs' Hnb) as [(r & Hr & Hrn) Hd]. split; [exists r; set_solver|]. eauto using built_mono.
    + destruct (K4 n Hn Hb Hs') as [(r & Hr & Hrn) Hd]. split; [exists r; set_solver|]. done.
Qed.

(** The loops over names, for any step that extends. *)
Lemma fold_extends {f : string → gmap string schema → res error (gmap string schema)} {k : nat} :
  (∀ name s, complete name → genuine s → size (unbuilt s) < k → ∃ s', f name s = Ok s' ∧ extends [name] s s') →
  ∀ names s, (∀ n, n ∈ names → complete n) → genuine s → size (unbuilt s) < k →
    ∃ s', fold_left (λ acc v, acc ≫= f v) names (Ok s) = Ok s' ∧ extends names s s'.
Proof.
  intros Hf names. induction names as [|name names IH]; intros s Hin Hg Hk; [exists s; split; [done|by apply extends_nil]|].
  destruct (Hf name s (Hin name (list_elem_of_here _ _)) Hg Hk) as (s1 & Hs1 & He1).
  destruct (IH s1) as (s2 & Hs2 & He2); [set_solver|apply He1|pose proof (unbuilt_mono s s1 (ext_sub _ _ _ He1)); lia|].
  exists s2. cbn. rewrite Hs1. split; [done|]. exact (extends_app [name] names s s1 s2 He1 He2).
Qed.

(** One definition goes in. *)
Lemma insert_genuine name d s : definitions !! name = Some d → genuine s →
  genuine (<[GetDefinitionName name := map_refs v3_ref (d_schema d)]> s).
Proof.
  intros Hd Hg unique x. destruct (decide (unique = GetDefinitionName name)) as [->|Hne].
  - rewrite lookup_insert_eq. intros [= <-]. by exists name, d.
  - rewrite lookup_insert_ne by done. apply Hg.
Qed.

Lemma insert_unbuilt name x s : name ∈ dom definitions → ¬ built s name →
  size (unbuilt (<[GetDefinitionName name := x]> s)) < size (unbuilt s).
Proof.
  intros Hn Hb. apply subset_size. split.
  - intros n. unfold unbuilt. rewrite !elem_of_filter. intros [Hnb Hd]. split; [|done]. intros [y Hy]. apply Hnb.
    unfold built. rewrite lookup_insert_is_Some'. right. by exists y.
  - intros Hsub. assert (name ∈ unbuilt s) as Hin by by apply elem_of_filter.
    apply Hsub, elem_of_filter in Hin as [Hnb _]. apply Hnb. unfold built. rewrite lookup_insert_eq. by eexists.
Qed.

(** Enough depth to reach every key makes the builder succeed. *)
Lemma build_extends fuel name s :
  complete name → genuine s → size (unbuilt s) < fuel →
  ∃ s', buildDefinitionRecursively fuel name s = Ok s' ∧ extends [name] s s'.
Proof.
  revert name s. induction fuel as [|fuel IH]; intros name s Hc Hg Hk; [lia|]. cbn.
  pose proof (complete_dom name Hc) as Hn. destruct (s !! GetDefinitionName name) as [x|] eqn:Hx.
  { exists s. split; [done|]. split; [done|done| |done]. intros n ->%list_elem_of_singleton. by exists x. }
  destruct (proj1 (elem_of_dom _ _) Hn) as [d Hd]. rewrite Hd.
  assert (¬ built s name) as Hb by (unfold built; rewrite Hx; by intros [? ?]).
  set (s1 := <[GetDefinitionName name := map_refs v3_ref (d_schema d)]> s).
  pose proof (insert_unbuilt name (map_refs v3_ref (d_schema d)) s Hn Hb) as Hlt.
  destruct (fold_extends IH (d_dependencies d) s1) as (s2 & Hs2 & [H1 H2 H3 H4]);
    [intros m Hm; apply (complete_depends name m Hc); by exists d|by apply insert_genuine|fold s1 in Hlt; lia|].
  exists s2. split; [exact Hs2|].
  assert (built s1 name) as Hb1 by (unfold built, s1; rewrite lookup_insert_eq; by eexists).
  split; [etrans; [by apply insert_subseteq|exact H1]|done|..].
  - intros n ->%list_elem_of_singleton. by apply (built_mono s1).
  - intros n Hdn Hbn Hnb. destruct (decide (n = name)) as [->|Hne].
    + split; [exists name; split; [set_solver|apply rtc_refl]|]. intros m (d' & Hd' & Hm). apply H3. congruence.
    + destruct (H4 n Hdn Hbn) as [(r & Hr & Hrn) Hdeps].
      { unfold built, s1. rewrite lookup_insert_ne by (intros Heq; by apply Hne, names_injective). exact Hnb. }
      split; [|done]. exists name. split; [set_solver|]. apply (rtc_l _ _ r); [by exists d|done].
Qed.

(** The components of a document are exactly the definitions reachable from
    the types of its routes. *)
Lemma build_all_spec names : (∀ n, n ∈ names → complete n) →
  ∃ schemas, build_all (S (size definitions)) names = Ok schemas ∧ genuine schemas ∧
    ∀ n, n ∈ dom definitions → built schemas n ↔ ∃ r, r ∈ names ∧ rtc depends r n.
Proof.
  intros Hin. assert (size (unbuilt ∅) < S (size definitions)) as Hk.
  { rewrite <- (size_dom (D := gset string) definitions). apply Nat.lt_succ_r, subseteq_size.
    unfold unbuilt. intros n. rewrite elem_of_filter. tauto. }
  destruct (fold_extends (f := λ name s, snd <$> buildDefinitionForType (S (size definitions)) name s)
    (k := S (size definitions))) with (names := names) (s := ∅ : gmap string schema) as (s & Hs & [_ H2 H3 H4]); [|done..|].
  { intros name s Hn Hg Hs. destruct (build_extends _ name s Hn Hg Hs) as (s' & Hs' & He).
    exists s'. split; [|done]. unfold buildDefinitionForType. by rewrite Hs'. }
  exists s. split; [exact Hs|]. split; [done|]. assert (∀ n, ¬ built ∅ n) as He by (intros n [x Hx]; by rewrite lookup_empty in Hx).
  intros n Hn. split; [intros Hb; apply (H4 n Hn Hb (He n))|].
  intros (r & Hr & Hrn). clear Hn. specialize (Hin r Hr). specialize (H3 r Hr). clear Hr.
  induction Hrn as [|x y z Hxy Hyz IH]; [done|]. apply IH; [exact (complete_depends x y Hin Hxy)|].
  exact (proj2 (H4 x (complete_dom x Hin) H3 (He x)) y Hxy).
Qed.

(** When a definition depends on what its schema refers to, every reference
    leads somewhere. *)
Context (refs_declared : ∀ n d r, definitions !! n = Some d → r ∈ schema_refs (d_schema d) → r ∈ d_dependencies d).

Lemma document_spec names : (∀ n, n ∈ names → complete n) →
  ∃ schemas, build_all (S (size definitions)) names = Ok schemas ∧
    (∀ n, n ∈ names → is_Some (component schemas (v3_ref n))) ∧
    (∀ unique s r, schemas !! unique = Some s → r ∈ schema_refs s → is_Some (component schemas r)) ∧
    (∀ unique s, schemas !! unique = Some s →
       ∃ n d, definitions !! n = Some d ∧ unique = GetDefinitionName n ∧ s = map_refs v3_ref (d_schema d) ∧
         ∃ r, r ∈ names ∧ rtc depends r n).
Proof.
  intros Hnames. destruct (build_all_spec names Hnames) as (schemas & Hs & Hg & Hb).
  exists schemas. split; [exact Hs|]. split_and!.
  - intros n Hn. rewrite component_v3_ref. apply Hb; [by apply complete_dom, Hnames|]. exists n. by split; [|apply rtc_refl].
  - intros unique s r Hu Hr. destruct (Hg unique s Hu) as (n & d & Hd & -> & ->).
    rewrite map_refs_refs in Hr. apply list_elem_of_fmap in Hr as (m & -> & Hm). rewrite component_v3_ref.
    destruct (proj1 (Hb n (elem_of_dom_2 _ _ _ Hd)) (ex_intro _ _ Hu)) as (r & Hr & Hrn).
    assert (rtc depends r m) as Hrm by (eapply rtc_r; [exact Hrn|exists d; eauto]).
    apply Hb; [by apply (Hnames r)|by exists r].
  - intros unique s Hu. destruct (Hg unique s Hu) as (n & d & Hd & -> & ->). exists n, d. do 3 (split; [done|]).
    exact (proj1 (Hb n (elem_of_dom_2 _ _ _ Hd)) (ex_intro _ _ Hu)).
Qed.
End Builder.

(** ** The definitions are consistent *)

(** A test for duplicates that costs one lookup per element. *)
Fixpoint distinct (seen : gmap string unit) (l : list string) : bool :=
  match l with
  | [] => true
  | x :: l => bool_decide (seen !! x = None) && distinct (<[x := tt]> seen) l
  end.

Lemma distinct_NoDup seen l : distinct seen l = true → NoDup l ∧ ∀ x, x ∈ l → seen !! x = None.
Proof.
  revert seen. induction l as [|x l IH]; intros seen; cbn.
  - intros _. split; [apply NoDup_nil_2|]. by intros x Hx%elem_of_nil.
  - rewrite andb_true_iff. intros [Hx%bool_decide_eq_true Hl]. destruct (IH _ Hl) as [Hnd Hseen]. split.
    + apply NoDup_cons_2; [|done]. intros Hin. specialize (Hseen x Hin). by rewrite lookup_insert_eq in Hseen.
    + intros y [->|Hy]%elem_of_cons; [done|]. by destruct (proj1 (lookup_insert_None _ _ _ _) (Hseen y Hy)).
Qed.

(** A definition depends on exactly what its schema refers to, and the
    required members of a struct are among its properties. *)
Fixpoint required_declared (s : schema) : bool :=
  match s with
  | object properties required =>
      forallb (λ k, bool_decide (k ∈ properties.*1)) required && forallb (λ p, required_declared p.2) properties
  | array _ _ s | map_of s | defaulted _ s | extended _ s => required_declared s
  | _ => true
  end.

Definition definition_ok (d : definition) : bool :=
  forallb (λ r, bool_decide (r ∈ d_dependencies d)) (schema_refs (d_schema d)) &&
  forallb (λ r, bool_decide (r ∈ schema_refs (d_schema d))) (d_dependencies d) &&
  required_declared (d_schema d).

(** The types whose definitions lead to a type without one: the custom
    resource of the CDI operator. *)
Definition incomplete_types : list string :=
  ["kubevirt.io/containerized-data-importer-api/pkg/apis/core/v1beta1.CDI";
   "kubevirt.io/containerized-data-importer-api/pkg/apis/core/v1beta1.CDIList";
   "kubevirt.io/containerized-data-importer-api/pkg/apis/core/v1beta1.CDISpec";
   "kubevirt.io/containerized-data-importer-api/pkg/apis/core/v1beta1.CDIStatus"].

(** The definitions without these. *)
Definition complete_definitions : gmap string definition := foldr delete all_definitions incomplete_types.

(** The dependencies of the definitions of [l] whose names are in
    [definitions] are there too. *)
Definition dependencies_closed (definitions : gmap string definition) (l : list (string * definition)) : bool :=
  forallb (λ kd, bool_decide (definitions !! kd.1 = None) ||
                 forallb (λ r, bool_decide (is_Some (definitions !! r))) (d_dependencies kd.2)) l.

Lemma dependencies_closed_spec definitions l : dependencies_closed definitions l = true →
  ∀ n d k, (n, d) ∈ l → is_Some (definitions !! n) → k ∈ d_dependencies d → is_Some (definitions !! k).
Proof.
  intros H n d k Hin [x Hx] Hk. apply Is_true_true_2, forallb_True in H. rewrite Forall_forall in H.
  specialize (H _ Hin). cbn in H. apply orb_True in H as [H|H]; [apply bool_decide_unpack in H; congruence|].
  rewrite forallb_True, Forall_forall in H. exact (bool_decide_unpack _ (H k Hk)).
Qed.

Lemma definition_ok_refs (l : list (string * definition)) : forallb (λ kd, definition_ok kd.2) l = true →
  ∀ n d r, (n, d) ∈ l → r ∈ schema_refs (d_schema d) → r ∈ d_dependencies d.
Proof.
  intros H n d r Hin Hr. apply Is_true_true_2, forallb_True in H. rewrite Forall_forall in H.
  specialize (H _ Hin). cbn in H. unfold definition_ok in H.
  rewrite !andb_True, !forallb_True, !Forall_forall in H. destruct H as [[H _] _].
  exact (bool_decide_unpack _ (H r Hr)).
Qed.

Lemma names_checked : distinct ∅ (GetDefinitionName <$> GetOpenAPIDefinitions.*1) = true.
Proof. vm_compute. reflexivity. Qed.

Lemma definitions_checked : forallb (λ kd, definition_ok kd.2) GetOpenAPIDefinitions = true.
Proof. vm_compute. reflexivity. Qed.

Lemma dependencies_checked : dependencies_closed complete_definitions GetOpenAPIDefinitions = true.
Proof. vm_compute. reflexivity. Qed.

(** The definitions of the types of this API are among them. *)
Lemma registry_included : filter (λ kd, kd.1 ∈ registry.*1) GetOpenAPIDefinitions = registry.
Proof. vm_compute. reflexivity. Qed.

(** What the checks say of the definitions. *)
#[local] Opaque GetOpenAPIDefinitions all_definitions.

Lemma keys_NoDup : NoDup GetOpenAPIDefinitions.*1.
Proof. exact (NoDup_fmap_1 _ _ (proj1 (distinct_NoDup _ _ names_checked))). Qed.

Lemma all_definitions_lookup n d : all_definitions !! n = Some d ↔ (n, d) ∈ GetOpenAPIDefinitions.
Proof. symmetry. exact (elem_of_list_to_map GetOpenAPIDefinitions n d keys_NoDup). Qed.

Lemma all_definitions_dom n : n ∈ dom all_definitions ↔ n ∈ GetOpenAPIDefinitions.*1.
Proof.
  rewrite elem_of_dom, list_elem_of_fmap. split.
  - intros [d Hd%all_definitions_lookup]. by exists (n, d).
  - intros ([n' d] & -> & Hin). exists d. by apply all_definitions_lookup.
Qed.

Lemma definition_names_injective n m : n ∈ dom all_definitions → m ∈ dom all_definitions →
  GetDefinitionName n = GetDefinitionName m → n = m.
Proof.
  rewrite !all_definitions_dom. intros [i Hi]%list_elem_of_lookup_1 [j Hj]%list_elem_of_lookup_1 Heq.
  assert (i = j) as ->; [|congruence].
  apply (NoDup_lookup _ _ _ (GetDefinitionName n) (proj1 (distinct_NoDup _ _ names_checked)));
    by rewrite list_lookup_fmap, ?Hi, ?Hj; cbn; rewrite ?Heq.
Qed.

Lemma definition_refs n d r : all_definitions !! n = Some d → r ∈ schema_refs (d_schema d) → r ∈ d_dependencies d.
Proof. intros Hd. exact (definition_ok_refs _ definitions_checked n d r (proj1 (all_definitions_lookup n d) Hd)). Qed.

Lemma complete_definitions_lookup n d :
  complete_definitions !! n = Some d ↔ n ∉ incomplete_types ∧ all_definitions !! n = Some d.
Proof.
  unfold complete_definitions. destruct (decide (n ∈ incomplete_types)) as [Hn|Hn].
  - rewrite lookup_foldr_delete by exact Hn. split; [discriminate|intros [Hi _]; contradiction].
  - rewrite lookup_foldr_delete_not_elem_of by exact Hn. tauto.
Qed.

#[local] Opaque complete_definitions incomplete_types.

Lemma complete_types n : n ∈ GetOpenAPIDefinitions.*1 → n ∉ incomplete_types → complete all_definitions n.
Proof.
  intros Hn Hi m Hm. apply all_definitions_dom, elem_of_dom in Hn as [d Hd].
  assert (is_Some (complete_definitions !! n)) as Hc by exact (ex_intro _ d (proj2 (complete_definitions_lookup n d) (conj Hi Hd))).
  clear d Hi Hd. induction Hm as [n|n k m (d & Hd & Hk) _ IH].
  - destruct Hc as [d [_ Hd]%complete_definitions_lookup]. apply elem_of_dom. exact (ex_intro _ d Hd).
  - apply IH. exact (dependencies_closed_spec _ _ dependencies_checked n d k (proj1 (all_definitions_lookup n d) Hd) Hc Hk).
Qed.

(** ** The document *)


(** The types of the subresources' routes, in both versions. *)
Definition subresource_types : list string :=
  ["kubevirt.io/virt-template-api/core/subresourcesv1alpha1.ProcessOptions";
   "kubevirt.io/virt-template-api/core/subresourcesv1alpha1.ProcessedVirtualMachineTemplate";
   "kubevirt.io/virt-template-api/core/subresourcesv1alpha1.VirtualMachineTemplate";
   "kubevirt.io/virt-template-api/core/subresourcesv1beta1.ProcessOptions";
   "kubevirt.io/virt-template-api/core/subresourcesv1beta1.ProcessedVirtualMachineTemplate";
   "kubevirt.io/virt-template-api/core/subresourcesv1beta1.VirtualMachineTemplate"].


(** The definitions of the CDI operator's resource refer to types of two other
    modules that the file does not define. *)
Definition missing_types : list string :=
  ["kubevirt.io/controller-lifecycle-operator-sdk/api.NodePlacement";
   "github.com/openshift/custom-resource-status/conditions/v1.Condition"].

Lemma missing_checked :
  (let definitions := all_definitions in forallb (λ m, bool_decide (definitions !! m = None)) missing_types) = true.
Proof. vm_compute. reflexivity. Qed.

Lemma incomplete_checked :
  (let definitions := all_definitions in
   forallb (λ n, match buildDefinitionRecursively definitions (S (size definitions)) n ∅ with
                 | Err e => existsb (λ m, bool_decide (e = missing_definition m)) missing_types
                 | _ => false
                 end) incomplete_types) = true.
Proof. vm_compute. reflexivity. Qed.

(** So a document with one of these types cannot be built. *)
Theorem incomplete_types_fail n : n ∈ incomplete_types →
  ∃ m, m ∉ GetOpenAPIDefinitions.*1 ∧
    buildDefinitionRecursively all_definitions (S (size all_definitions)) n ∅ = Err (missing_definition m).
Proof.
  intros Hn. pose proof (proj1 (List.forallb_forall _ _) incomplete_checked n (proj1 (list_elem_of_In _ _) Hn)) as He.
  cbv beta zeta in He.
  destruct (buildDefinitionRecursively all_definitions (S (size all_definitions)) n ∅) as [|e|]; [discriminate| |discriminate].
  apply List.existsb_exists in He as (m & Hm & ->%bool_decide_eq_true). exists m. split; [|reflexivity].
  pose proof (proj1 (List.forallb_forall _ _) missing_checked m Hm) as Hnone. cbv beta in Hnone.
  apply bool_decide_eq_true in Hnone. intros [d Hd]%all_definitions_dom%elem_of_dom. congruence.
Qed.

(** With these definitions the schemas of the API's own types are looked up
    as in the conformance theorem. *)
Lemma lookup_definition_all name : lookup_definition (λ n, all_definitions !! n) name = all_definitions !! name.
Proof.
  unfold lookup_definition. destruct (assoc_get name registry) as [d|] eqn:Hd; [|done].
  apply assoc_get_elem in Hd. rewrite <- registry_included in Hd. apply list_elem_of_filter in Hd as [_ Hd].
  symmetry. by apply all_definitions_lookup.
Qed.
