(* ===== verification/TypedClient.v ===== *)
(** * The generated typed clients: which request each operation sends

    The clients of templates and requests, in both versions, embed
    [gentype.ClientWithList]: every operation builds one REST request under
    the path of its group version.  The theorem follows such a request to the
    attributes a Kubernetes API server derives from it, by which it is
    authorized and routed. *)

From Stdlib Require Import Ascii ZArith Lia.
From stdpp Require Import prelude strings gmap.
From S2P Require Import Prelude GoStrings Json Visit Api Codec Parameters Discovery Manager Client ApiServer.

Local Open Scope string_scope.

(** ** The operations (k8s.io/client-go/gentype) *)

(** The verb of a request, on the path of the group version. *)
Definition verb_request (gv : GroupVersion) (verb : string) : Request :=
  AbsPath ("/apis/" +:+ gv_string gv) (mkRequest verb "" None "" "" "" None).

Definition NamespaceIfScoped (ns : string) : Request → Request :=
  if str_empty ns then λ r, r else Namespace ns.

(** [SubResource] with any number of segments. *)
Definition SubResources (subs : list string) : Request → Request := build (λ r,
  if negb (str_empty (Rq_subresource r)) then with_err "subresource already set" r
  else match List.filter (λ s, negb (IsValidPathSegmentName s)) subs with
       | s :: _ => with_err ("invalid subresource " +:+ s) r
       | [] => mkRequest (Rq_verb r) (Rq_pathPrefix r) (Rq_namespace r) (Rq_resource r) (Rq_resourceName r)
                 (path_join subs) None
       end).

(** The operations of a typed client; names are those of the object, and the
    field selector of a list may ask for one name. *)
Inductive operation : Type :=
| OpGet (name : string)
| OpList (selected : option string)
| OpWatch (selected : option string)
| OpCreate
| OpUpdate (name : string)
| OpUpdateStatus (name : string)
| OpDelete (name : string)
| OpDeleteCollection
| OpPatch (name : string) (subresources : list string).

Definition http_method (op : operation) : string :=
  match op with
  | OpGet _ | OpList _ | OpWatch _ => "GET"
  | OpCreate => "POST"
  | OpUpdate _ | OpUpdateStatus _ => "PUT"
  | OpDelete _ | OpDeleteCollection => "DELETE"
  | OpPatch _ _ => "PATCH"
  end.

Definition typed_request (c : typed_client) (op : operation) : Request :=
  let r := Resource (Cl_Resource c) (NamespaceIfScoped (Cl_Namespace c) (verb_request (Cl_GroupVersion c) (http_method op))) in
  match op with
  | OpGet name | OpUpdate name | OpDelete name => Name name r
  | OpList _ | OpWatch _ | OpCreate | OpDeleteCollection => r
  | OpUpdateStatus name => SubResource "status" (Name name r)
  | OpPatch name subs => SubResources subs (Name name r)
  end.

(** What the server decodes from the query of the request. *)
Definition op_query (op : operation) : list_query :=
  match op with
  | OpList sel => mkQuery false sel
  | OpWatch sel => mkQuery true sel
  | _ => mkQuery false None
  end.

(** The typed clients of a clientset, for one namespace or, with the empty
    one, for all. *)
Definition typed_clients (ns : string) : list typed_client :=
  [ClientV1alpha1.newVirtualMachineTemplates ns; ClientV1alpha1.newVirtualMachineTemplateRequests ns;
   ClientV1beta1.newVirtualMachineTemplates ns; ClientV1beta1.newVirtualMachineTemplateRequests ns].

(** ** What a request asks for *)

Definition op_verb (op : operation) : string :=
  match op with
  | OpGet _ => "get" | OpList _ => "list" | OpWatch _ => "watch" | OpCreate => "create"
  | OpUpdate _ | OpUpdateStatus _ => "update" | OpDelete _ => "delete"
  | OpDeleteCollection => "deletecollection" | OpPatch _ _ => "patch"
  end.
Definition op_name (op : operation) : string :=
  match op with
  | OpGet n | OpUpdate n | OpUpdateStatus n | OpDelete n | OpPatch n _ => n
  | OpList (Some n) | OpWatch (Some n) => if IsValidPathSegmentName n then n else ""
  | _ => ""
  end.
Definition op_subresource (op : operation) : string :=
  match op with
  | OpUpdateStatus _ => "status"
  | OpPatch _ (s :: _) => s
  | _ => ""
  end.

(** The parts of the path an operation gives can be parts of a path. *)
Definition op_ok (op : operation) : bool :=
  match op with
  | OpGet n | OpUpdate n | OpUpdateStatus n | OpDelete n => good_segment n
  | OpPatch n subs => good_segment n && forallb good_segment subs
  | OpList _ | OpWatch _ | OpCreate | OpDeleteCollection => true
  end.

Definition op_info (c : typed_client) (op : operation) (path : string) : RequestInfo :=
  mkInfo true path (op_verb op) "apis" (GV_Group (Cl_GroupVersion c)) (GV_Version (Cl_GroupVersion c))
    (Cl_Namespace c) (Cl_Resource c) (op_subresource op) (op_name op).

(** ** Paths *)

Lemma Join_app l m sep : l ≠ [] → m ≠ [] → Join (l ++ m)%list sep = Join l sep +:+ sep +:+ Join m sep.
Proof.
  intros Hl Hm. induction l as [|x l IH]; [done|]. destruct l as [|y l].
  - cbn [app Join]. by destruct m.
  - change (Join ((x :: y :: l) ++ m)%list sep) with (x +:+ sep +:+ Join ((y :: l) ++ m)%list sep).
    rewrite IH by done. change (Join (x :: y :: l) sep) with (x +:+ sep +:+ Join (y :: l) sep).
    by rewrite !str_app_assoc.
Qed.

(** Lists with the same join have the same join behind the same list. *)
Lemma Join_tail l m m' sep : m ≠ [] → m' ≠ [] → Join m sep = Join m' sep → Join (l ++ m)%list sep = Join (l ++ m')%list sep.
Proof. intros Hm Hm' Heq. destruct l as [|x l]; [done|]. by rewrite !Join_app, Heq by done. Qed.

Lemma Join_head a l m sep : l ≠ [] → m ≠ [] → Join (String a (Join l sep) :: m) sep = String a (Join (l ++ m)%list sep).
Proof. intros Hl Hm. rewrite Join_app by done. by destruct m. Qed.

Lemma splitPath_segments l : (2 ≤ length l)%nat → Forall (λ s, good_segment s = true) l →
  splitPath (String "/" (Join l "/")) = l.
Proof.
  intros Hl Hall. assert (Forall (λ s, no_char "/" s = true) l) as Hslash.
  { eapply Forall_impl; [exact Hall|]. intros s Hs. by apply good_segment_spec in Hs as (_ & _ & ?). }
  assert (∀ s, s ∈ l → s ≠ EmptyString) as Hne.
  { intros s Hs ->. rewrite Forall_forall in Hall. by specialize (Hall _ Hs). }
  destruct (exists_last (l := l)) as (l' & x & ->); [by destruct l; cbn in Hl; [lia|]|].
  destruct l' as [|y l']; [cbn in Hl; lia|].
  apply splitPath_Join; [done| |done|apply Hne, elem_of_app; right; left].
  cbn. intros [= ->]. by apply (Hne ""); [left|].
Qed.

(** The segments of the path of a request. *)
Definition op_segments (c : typed_client) (op : operation) : list string :=
  (["apis"; GV_Group (Cl_GroupVersion c); GV_Version (Cl_GroupVersion c)] ++
   (if str_empty (Cl_Namespace c) then [] else ["namespaces"; Cl_Namespace c]) ++
   [Cl_Resource c] ++
   match op with
   | OpGet n | OpUpdate n | OpDelete n => [n]
   | OpUpdateStatus n => [n; "status"]
   | OpPatch n subs => n :: subs
   | _ => []
   end)%list.

(** A client of the clientset, for all namespaces or a possible one. *)
Definition client_ok (c : typed_client) : Prop :=
  c ∈ typed_clients (Cl_Namespace c) ∧ (Cl_Namespace c = "" ∨ good_segment (Cl_Namespace c) = true).

Lemma client_parts c : client_ok c →
  good_segment (GV_Group (Cl_GroupVersion c)) = true ∧ good_segment (GV_Version (Cl_GroupVersion c)) = true ∧
  good_segment (Cl_Resource c) = true ∧
  "/apis/" +:+ gv_string (Cl_GroupVersion c) =
    String "/" (Join ["apis"; GV_Group (Cl_GroupVersion c); GV_Version (Cl_GroupVersion c)] "/").
Proof.
  intros [Hc _]. unfold typed_clients in Hc.
  repeat (apply elem_of_cons in Hc as [->|Hc]; [by vm_compute|]). by apply elem_of_nil in Hc.
Qed.

Lemma forallb_Forall {A} (f : A → bool) l : forallb f l = true ↔ Forall (λ x, f x = true) l.
Proof. rewrite forallb_forall, Forall_forall. by setoid_rewrite list_elem_of_In. Qed.

Lemma op_segments_good c op : client_ok c → op_ok op = true → Forall (λ s, good_segment s = true) (op_segments c op).
Proof.
  intros Hc Hop. destruct (client_parts c Hc) as (Hg & Hv & Hr & _). destruct Hc as [_ Hns].
  unfold op_segments. rewrite !Forall_app. split_and!.
  - by repeat constructor.
  - destruct Hns as [-> | Hns]; [constructor|]. destruct (good_segment_spec _ Hns) as (-> & _). by repeat constructor.
  - by repeat constructor.
  - destruct op; cbn [op_ok] in Hop; try (by repeat constructor).
    apply andb_true_iff in Hop as [Hn Hs%forallb_Forall]. by constructor.
Qed.

(** Patching several segments of a subresource. *)
Lemma SubResources_run v p ns r n subs : Forall (λ s, good_segment s = true) subs →
  SubResources subs (mkRequest v p ns r n EmptyString None) = mkRequest v p ns r n (Join subs "/") None.
Proof.
  intros Hs. unfold SubResources, build, path_join. cbn [Rq_err Rq_subresource].
  assert (List.filter (λ s, negb (IsValidPathSegmentName s)) subs = [] ∧
          filter (λ e, e ≠ EmptyString) subs = subs) as [-> ->]; [|done].
  induction Hs as [|s subs (Hne & Hv & _)%good_segment_spec _ [IH1 IH2]]; [done|]. split.
  - cbn [List.filter]. by rewrite Hv.
  - rewrite filter_cons_True by (by intros ->). by rewrite IH2.
Qed.

(** The verb, resource and namespace of a request, before its name. *)
Lemma base_request c op : client_ok c →
  Resource (Cl_Resource c) (NamespaceIfScoped (Cl_Namespace c) (verb_request (Cl_GroupVersion c) (http_method op))) =
  mkRequest (http_method op)
    (String "/" (Join ["apis"; GV_Group (Cl_GroupVersion c); GV_Version (Cl_GroupVersion c)] "/"))
    (if str_empty (Cl_Namespace c) then None else Some (Cl_Namespace c)) (Cl_Resource c) "" "" None.
Proof.
  intros Hc. destruct (client_parts c Hc) as (_ & _ & (_ & Hr & _)%good_segment_spec & <-). destruct Hc as [_ Hns].
  unfold NamespaceIfScoped, verb_request, AbsPath. change (build ?f ?r) with (f r). cbv beta.
  cbn [Rq_verb Rq_namespace Rq_resource Rq_resourceName Rq_subresource].
  destruct Hns as [-> | (-> & Hv & _)%good_segment_spec]; [cbn [str_empty String.eqb]; by rewrite Resource_run|].
  by rewrite Namespace_run, Hv, Resource_run.
Qed.

(** The path of a request whose parts are good segments. *)
Lemma URL_segments v root ns r n subs :
  str_empty r = false → Forall (λ s, good_segment s = true) subs → (n = "" → subs = []) →
  URL (mkRequest v root (if str_empty ns then None else Some ns) r n (Join subs "/") None) =
  Join (root :: (if str_empty ns then [] else ["namespaces"; ns]) ++ r :: (if str_empty n then [] else n :: subs))%list "/".
Proof.
  intros Hr Hsubs Hn. unfold URL. cbn [Rq_pathPrefix Rq_namespace Rq_resource Rq_resourceName Rq_subresource].
  assert (Join (r :: (if str_empty n then [] else n :: subs)) "/" =
    Join (List.filter (λ s, negb (str_empty s)) [r; n; Join subs "/"]) "/" ∧
    List.filter (λ s, negb (str_empty s)) [r; n; Join subs "/"] ≠ []) as [Hj Hne].
  { cbn [List.filter]. rewrite Hr. cbn [negb]. split; [|done].
    destruct (str_empty n) eqn:Hne; cbn [negb].
    - rewrite Hn; [done|]. by destruct n.
    - destruct Hsubs as [|s subs (Hse & _ & _)%good_segment_spec _]; [done|].
      assert (str_empty (Join (s :: subs) "/") = false) as ->; [destruct s; [done|]; by destruct subs|done]. }
  set (ml := if str_empty ns then [] else ["namespaces"; ns]).
  assert ((match (if str_empty ns then None else Some ns) with
     | Some ns0 => if str_empty ns0 then [] else ["namespaces"; ns0] | None => [] end) = ml) as ->.
  { subst ml. destruct (str_empty ns) eqn:He; [done|]. by rewrite He. }
  apply (Join_tail (root :: ml)); [done|done|]. by rewrite Hj.
Qed.

Lemma client_resource c : client_ok c →
  Cl_Resource c = "virtualmachinetemplates" ∨ Cl_Resource c = "virtualmachinetemplaterequests".
Proof.
  intros [Hc _]. unfold typed_clients in Hc.
  repeat (apply elem_of_cons in Hc as [->|Hc]; [by (left + right)|]). by apply elem_of_nil in Hc.
Qed.

(** No method is the verb of a proxied path. *)
Lemma not_proxy method : (method_verb method =? "proxy") = false.
Proof. unfold method_verb. cbn [assoc_get]. by repeat case_match. Qed.

(** The attributes of a resource, from the parts of a client's path. *)
Lemma client_info method path g v q c tl : client_ok c →
  resource_info method path "apis" g v q
    ((if str_empty (Cl_Namespace c) then [] else ["namespaces"; Cl_Namespace c]) ++ Cl_Resource c :: tl)%list =
  let verb := method_verb method in
  let name := match tl with n :: _ => n | [] => "" end in
  let '(verb, name) :=
    if str_empty name && (verb =? "get") then
      ((if q_Watch q then "watch" else "list"),
       match q_Name q with Some n => if IsValidPathSegmentName n then n else name | None => name end)
    else (verb, name) in
  Ok (mkInfo true path (if str_empty name && (verb =? "delete") then "deletecollection" else verb) "apis" g v
        (Cl_Namespace c) (Cl_Resource c) (match tl with _ :: s :: _ => s | _ => "" end) name).
Proof.
  intros Hc. pose proof (client_resource c Hc) as Hr. destruct Hc as [_ Hns].
  destruct c as [gv r ns]. cbn [Cl_Namespace Cl_Resource] in *.
  assert ((r =? "proxy") = false ∧ (r =? "watch") = false ∧ (r =? "status") = false ∧ (r =? "finalize") = false) as (H1 & H2 & H3 & H4).
  { by destruct Hr as [-> | ->]. }
  assert (namespace_parts (r :: tl) = ("", r :: tl)) as Hnone by (by destruct Hr as [-> | ->]).
  assert (∀ ns, namespace_parts ("namespaces" :: ns :: r :: tl) = (ns, r :: tl)) as Hsome.
  { intros ns'. cbn. by rewrite H3, H4. }
  unfold resource_info. destruct Hns as [-> | (-> & _)%good_segment_spec]; cbn [app].
  - cbn [str_empty String.eqb app]. rewrite H1, H2. cbn [orb mbind res_bind]. rewrite Hnone, not_proxy.
    destruct tl as [|n [|s tl]]; cbn [fst snd]; by destruct (str_empty _ && _).
  - cbn [String.eqb Ascii.eqb Bool.eqb orb mbind res_bind]. rewrite Hsome, not_proxy.
    destruct tl as [|n [|s tl]]; by destruct (str_empty _ && _).
Qed.

Lemma typed_request_sent c op : client_ok c → op_ok op = true →
  sent (typed_request c op) = Some (http_method op, String "/" (Join (op_segments c op) "/")).
Proof.
  intros Hc Hop. pose proof (base_request c op Hc) as Hbase.
  destruct (client_parts c Hc) as (_ & _ & (Hr & _)%good_segment_spec & _).
  assert (∀ n subs, Forall (λ s, good_segment s = true) subs → (n = "" → subs = []) →
    sent (mkRequest (http_method op)
      (String "/" (Join ["apis"; GV_Group (Cl_GroupVersion c); GV_Version (Cl_GroupVersion c)] "/"))
      (if str_empty (Cl_Namespace c) then None else Some (Cl_Namespace c)) (Cl_Resource c) n (Join subs "/") None) =
    Some (http_method op, String "/" (Join (["apis"; GV_Group (Cl_GroupVersion c); GV_Version (Cl_GroupVersion c)] ++
      (if str_empty (Cl_Namespace c) then [] else ["namespaces"; Cl_Namespace c]) ++
      [Cl_Resource c] ++ if str_empty n then [] else n :: subs)%list "/"))) as Hsent.
  { intros n subs Hsubs Hn. unfold sent. cbn [Rq_err Rq_verb]. rewrite URL_segments by done. do 2 f_equal.
    set (ml := if str_empty (Cl_Namespace c) then [] else ["namespaces"; Cl_Namespace c]).
    set (tl := if str_empty n then [] else n :: subs).
    apply (Join_head _ ["apis"; _; _] (ml ++ Cl_Resource c :: tl)); [done|by destruct ml]. }
  unfold typed_request, op_segments. rewrite Hbase.
  destruct op; cbn [op_ok http_method] in *;
    try (rewrite Name_run; first [rewrite Hop | apply andb_true_iff in Hop as [Hop Hsubs%forallb_Forall]; rewrite Hop];
         destruct (good_segment_spec _ Hop) as (Hne & _)).
  all: rewrite ?SubResource_run, ?SubResources_run by done.
  all: try exact (Hsent "" [] ltac:(constructor) (λ _, eq_refl)).
  1,2,4: etrans; [exact (Hsent name [] ltac:(constructor) (λ _, eq_refl))|by rewrite Hne].
  - etrans; [apply (Hsent name ["status"]); [by repeat constructor|by intros ->]|by rewrite Hne].
  - etrans; [apply (Hsent name subresources); [done|by intros ->]|by rewrite Hne].
Qed.

(** The attributes an API server derives. *)
Lemma typed_request_attrs c op : client_ok c → op_ok op = true →
  let path := String "/" (Join (op_segments c op) "/") in
  NewRequestInfo (http_method op) path (op_query op) = Ok (op_info c op path).
Proof.
  intros Hc Hop path.
  assert (splitPath path = op_segments c op) as Hsp.
  { apply splitPath_segments; [unfold op_segments; cbn; lia|by apply op_segments_good]. }
  unfold NewRequestInfo. rewrite Hsp. clear Hsp. clearbody path.
  unfold op_segments. cbn [app]. set (tl := match op with OpGet n => _ | _ => _ end).
  pose proof (client_info (http_method op) path (GV_Group (Cl_GroupVersion c)) (GV_Version (Cl_GroupVersion c))
    (op_query op) c tl Hc) as Hinfo.
  destruct ((if str_empty (Cl_Namespace c) then [] else _) ++ Cl_Resource c :: tl)%list as [|part parts] eqn:Hparts.
  { by destruct (str_empty (Cl_Namespace c)). }
  cbn [length Nat.ltb Nat.leb String.eqb Ascii.eqb Bool.eqb]. rewrite Hinfo. unfold op_info. subst tl.
  destruct op as [n|[n|]|[n|]| |n|n|n| |n subs]; cbn [op_ok] in Hop;
    try match type of Hop with (_ && forallb _ _) = true => apply andb_true_iff in Hop as [Hop _] end;
    try (destruct (good_segment_spec _ Hop) as (Hne & _));
    cbn -[str_empty IsValidPathSegmentName]; rewrite ?Hne; cbn -[str_empty IsValidPathSegmentName];
    rewrite ?Hne, ?andb_false_r; try done; try (by destruct subs);
    change (str_empty "") with true; cbn -[str_empty IsValidPathSegmentName]; by rewrite ?andb_false_r.
Qed.

(** C26: A typed client asks for what its caller asks: for the clients of
    templates and of requests in both versions, in one namespace or in all,
    every operation sends exactly one request, and from its method, path and
    query an API server derives that operation's verb on that resource of
    that group and version, with that namespace, name and subresource, and
    nothing else.  Without a name that can be part of a path, an operation on
    a named object sends nothing. *)
Theorem typed_request_info c op : client_ok c →
  (op_ok op = true → ∃ path, sent (typed_request c op) = Some (http_method op, path) ∧
     NewRequestInfo (http_method op) path (op_query op) = Ok (op_info c op path)) ∧
  (∀ n, good_segment n = false →
     Forall (λ op, sent (typed_request c op) = None)
       [OpGet n; OpUpdate n; OpUpdateStatus n; OpDelete n; OpPatch n []; OpPatch n ["status"]]).
Proof.
  intros Hc. split.
  - intros Hop. eexists. split; [by apply typed_request_sent|by apply typed_request_attrs].
  - intros n Hn. unfold typed_request. repeat apply List.Forall_cons; try apply List.Forall_nil;
      (rewrite base_request by done; rewrite Name_run, Hn; reflexivity).
Qed.

Lemma typed_request_info_witness :
  (∃ path, sent (typed_request (ClientV1beta1.newVirtualMachineTemplateRequests "team-a") (OpUpdateStatus "golden")) =
     Some ("PUT", path) ∧
   NewRequestInfo "PUT" path (mkQuery false None) =
     Ok (mkInfo true path "update" "apis" "template.kubevirt.io" "v1beta1" "team-a" "virtualmachinetemplaterequests"
           "status" "golden")) ∧
  sent (typed_request (ClientV1beta1.newVirtualMachineTemplateRequests "team-a") (OpDelete "")) = None.
Proof.
  assert (client_ok (ClientV1beta1.newVirtualMachineTemplateRequests "team-a")) as Hc.
  { split; [do 3 right; left|by right]. }
  destruct (typed_request_info (ClientV1beta1.newVirtualMachineTemplateRequests "team-a") (OpUpdateStatus "golden") Hc)
    as [Hgood Hbad]. split; [exact (Hgood eq_refl)|].
  specialize (Hbad "" eq_refl). do 3 apply List.Forall_inv_tail in Hbad. exact (List.Forall_inv Hbad).
Defined.
