(* ===== verification/Security.v ===== *)
(** * Access control: what the service accounts and the users may do

    The markers above the handlers, the cluster roles generated from them,
    and the admission policy of requests (config/rbac, config/admission).
    The theorems connect them with what the handlers do: the manager and the
    API server ask for nothing their roles do not grant, and the manager,
    which may write in every namespace, does for a request only what the
    policy made sure its author may have done. *)

From Stdlib Require Import Ascii ZArith Lia.
From stdpp Require Import prelude strings gmap.
From S2P Require Import Prelude GoStrings Naming Json Visit Api Codec Parameters Discovery Client ApiServer TypedClient.
From S2P Require Import Meta Cluster Request RequestLogic RequestProps RequestRun Controllers Manager.

Local Open Scope string_scope.

(** ** Requests to the API and rules *)

Record access : Type := mkAccess {
  A_Verb : string;
  A_Group : string;
  A_Resource : string;
  A_Subresource : string;
  A_Namespace : string;
  A_Name : string;
}.

(** How a rule names the resource of an access. *)
Definition combined_resource (a : access) : string :=
  if str_empty (A_Subresource a) then A_Resource a else A_Resource a +:+ "/" +:+ A_Subresource a.

Record PolicyRule : Type := mkRule {
  PR_APIGroups : list string;
  PR_Resources : list string;
  PR_Verbs : list string;
}.

Definition listed (x : string) (l : list string) : bool := existsb (String.eqb x) l.

(** A rule that lists an access; a cluster role grants what one of its rules
    lists, in every namespace. *)
Definition rule_lists (a : access) (r : PolicyRule) : bool :=
  listed (A_Verb a) (PR_Verbs r) && listed (A_Group a) (PR_APIGroups r) && listed (combined_resource a) (PR_Resources r).
Definition granted (role : list PolicyRule) (a : access) : bool := existsb (rule_lists a) role.

(** ** The markers (+kubebuilder:rbac) *)

Definition template_markers : list PolicyRule :=
  [mkRule ["template.kubevirt.io"] ["virtualmachinetemplates"] ["get"; "list"; "watch"];
   mkRule ["template.kubevirt.io"] ["virtualmachinetemplates/status"] ["get"; "patch"];
   mkRule ["template.kubevirt.io"] ["virtualmachinetemplates/finalizers"] ["update"]].

Definition request_markers : list PolicyRule :=
  [mkRule [""] ["persistentvolumeclaims"] ["create"];
   mkRule [""] ["pods"] ["create"];
   mkRule ["cdi.kubevirt.io"] ["datavolumes"] ["get"; "list"; "watch"; "create"; "patch"; "delete"];
   mkRule ["cdi.kubevirt.io"] ["datavolumes/source"] ["create"];
   mkRule ["template.kubevirt.io"] ["virtualmachinetemplates"] ["get"; "list"; "watch"; "create"];
   mkRule ["template.kubevirt.io"] ["virtualmachinetemplaterequests"] ["get"; "list"; "watch"; "patch"; "delete"];
   mkRule ["template.kubevirt.io"] ["virtualmachinetemplaterequests/status"] ["get"; "patch"];
   mkRule ["template.kubevirt.io"] ["virtualmachinetemplaterequests/finalizers"] ["update"];
   mkRule ["snapshot.kubevirt.io"] ["virtualmachinesnapshots"] ["get"; "list"; "watch"; "create"; "delete"];
   mkRule ["snapshot.kubevirt.io"] ["virtualmachinesnapshotcontents"] ["get"; "list"; "watch"];
   mkRule ["subresources.kubevirt.io"] ["expand-vm-spec"] ["update"]].

Definition apiserver_markers : list PolicyRule :=
  [mkRule ["template.kubevirt.io"] ["virtualmachinetemplates"] ["get"];
   mkRule ["template.kubevirt.io"] ["virtualmachinetemplates/status"] ["get"];
   mkRule ["kubevirt.io"] ["virtualmachines"] ["create"]].

(** ** The roles of the service accounts (config/rbac) *)

Definition manager_role : list PolicyRule :=
  [mkRule [""] ["persistentvolumeclaims"; "pods"] ["create"];
   mkRule ["cdi.kubevirt.io"] ["datavolumes"] ["create"; "delete"; "get"; "list"; "patch"; "watch"];
   mkRule ["cdi.kubevirt.io"] ["datavolumes/source"] ["create"];
   mkRule ["snapshot.kubevirt.io"] ["virtualmachinesnapshotcontents"] ["get"; "list"; "watch"];
   mkRule ["snapshot.kubevirt.io"] ["virtualmachinesnapshots"] ["create"; "delete"; "get"; "list"; "watch"];
   mkRule ["subresources.kubevirt.io"] ["expand-vm-spec"] ["update"];
   mkRule ["template.kubevirt.io"] ["virtualmachinetemplaterequests"] ["delete"; "get"; "list"; "patch"; "watch"];
   mkRule ["template.kubevirt.io"] ["virtualmachinetemplaterequests/finalizers"; "virtualmachinetemplates/finalizers"] ["update"];
   mkRule ["template.kubevirt.io"] ["virtualmachinetemplaterequests/status"; "virtualmachinetemplates/status"] ["get"; "patch"];
   mkRule ["template.kubevirt.io"] ["virtualmachinetemplates"] ["create"; "get"; "list"; "watch"]].

Definition apiserver_role : list PolicyRule :=
  [mkRule ["kubevirt.io"] ["virtualmachines"] ["create"];
   mkRule ["template.kubevirt.io"] ["virtualmachinetemplates"; "virtualmachinetemplates/status"] ["get"]].

(** ** The admission policy of requests (config/admission/vmtr_authz_vap.yaml) *)

(** [authorizer.group(...).resource(...)...check(verb).allowed()] for the author. *)
Definition source_access (req : VirtualMachineTemplateRequest) : access :=
  mkAccess "create" "template.kubevirt.io" "virtualmachinetemplaterequests" "source"
    (VMRef_Namespace (Req_Spec req)) (VMRef_Name (Req_Spec req)).

Definition vmtr_authz (allowed : access → bool) (req : VirtualMachineTemplateRequest) : bool :=
  let sourceNS := VMRef_Namespace (Req_Spec req) in
  let targetNS := Namespace (Req_Meta req) in
  ((sourceNS =? targetNS) || allowed (source_access req)) &&
  allowed (mkAccess "create" "cdi.kubevirt.io" "datavolumes" "" targetNS "") &&
  allowed (mkAccess "create" "template.kubevirt.io" "virtualmachinetemplates" "" targetNS "").

(** ** What the handlers ask for *)

(** Setting an owner that blocks its deletion needs the right to update the
    finalizers of the owner. *)
Definition owner_access (ns : string) (r : OwnerReference) : list access :=
  let resource :=
    if OR_Kind r =? KindRequest then "virtualmachinetemplaterequests"
    else if OR_Kind r =? KindTemplate then "virtualmachinetemplates" else "" in
  if OR_Controller r && negb (str_empty resource)
  then [mkAccess "update" "template.kubevirt.io" resource "finalizers" ns (OR_Name r)] else [].

Definition write_accesses (w : write) : list access :=
  let request verb sub (k : key) := mkAccess verb "template.kubevirt.io" "virtualmachinetemplaterequests" sub k.1 k.2 in
  match w with
  | CreateSnapshot s => [mkAccess "create" "snapshot.kubevirt.io" "virtualmachinesnapshots" "" (Namespace (Snap_Meta s)) ""]
  | DeleteSnapshot k => [mkAccess "delete" "snapshot.kubevirt.io" "virtualmachinesnapshots" "" k.1 k.2]
  | CreateDataVolume dv =>
      mkAccess "create" "cdi.kubevirt.io" "datavolumes" "" (Namespace (DV_Meta dv)) "" ::
      (match DV_SourceSnapshot dv with
       | Some (ns, _) => [mkAccess "create" "cdi.kubevirt.io" "datavolumes" "source" ns ""]
       | None => []
       end) ++ (OwnerReferences (DV_Meta dv) ≫= owner_access (Namespace (DV_Meta dv)))
  | PatchDataVolume old new =>
      mkAccess "patch" "cdi.kubevirt.io" "datavolumes" "" (Namespace (DV_Meta new)) (Name (DV_Meta new)) ::
      (OwnerReferences (DV_Meta new) ≫= owner_access (Namespace (DV_Meta new)))
  | CreateTemplate t => [mkAccess "create" "template.kubevirt.io" "virtualmachinetemplates" "" (Namespace (Tpl_Meta t)) ""]
  | PatchTemplateStatus k _ => [mkAccess "patch" "template.kubevirt.io" "virtualmachinetemplates" "status" k.1 k.2]
  | PatchRequestMeta k _ => [request "patch" "" k]
  | PatchRequestStatus k _ => [request "patch" "status" k]
  | DeleteRequest k => [request "delete" "" k]
  end%list.

(** The resource of a kind the controllers read. *)
Definition kind_resource (k : object_kind) : string * string :=
  match k with
  | ORequest => ("template.kubevirt.io", "virtualmachinetemplaterequests")
  | OTemplate => ("template.kubevirt.io", "virtualmachinetemplates")
  | OExternal Availability.KSnapshot => ("snapshot.kubevirt.io", "virtualmachinesnapshots")
  | OExternal Availability.KSnapshotContent => ("snapshot.kubevirt.io", "virtualmachinesnapshotcontents")
  | OExternal Availability.KDataVolume => ("cdi.kubevirt.io", "datavolumes")
  end.

(** Reading from the cluster, or through an informer that lists and watches. *)
Definition read_verbs : list string := ["get"; "list"; "watch"].
Definition read_access (k : object_kind) (verb ns name : string) : access :=
  mkAccess verb (kind_resource k).1 (kind_resource k).2 "" ns name.

(** [VirtClient.ExpandSpec(ns).ForVirtualMachine(vm)]: a PUT of the namespaced
    subresource. *)
Definition expand_access (ns : string) : access :=
  mkAccess "update" "subresources.kubevirt.io" "expand-vm-spec" "" ns "".

(** What an API server authorizes a request by. *)
Definition info_access (i : RequestInfo) : access :=
  mkAccess (RI_Verb i) (RI_APIGroup i) (RI_Resource i) (RI_Subresource i) (RI_Namespace i) (RI_Name i).

(** The create of a virtual machine by the create subresource. *)
Definition vm_access (ns : string) : access := mkAccess "create" "kubevirt.io" "virtualmachines" "" ns "".

(** ** Roles as sets *)

Definition rule_triples (r : PolicyRule) : list (string * string * string) :=
  v ← PR_Verbs r; g ← PR_APIGroups r; s ← PR_Resources r; [(v, g, s)].
Definition role_triples (role : list PolicyRule) : list (string * string * string) := role ≫= rule_triples.
Definition access_triple (a : access) : string * string * string := (A_Verb a, A_Group a, combined_resource a).

Lemma listed_elem x l : listed x l = true ↔ x ∈ l.
Proof.
  unfold listed. rewrite existsb_exists. setoid_rewrite <- list_elem_of_In. split.
  - by intros (y & Hy & <-%String.eqb_eq).
  - intros Hx. exists x. split; [done|apply String.eqb_refl].
Qed.

Lemma granted_triple role a : granted role a = true ↔ access_triple a ∈ role_triples role.
Proof.
  unfold granted, role_triples, rule_triples, access_triple. rewrite existsb_exists, list_elem_of_bind.
  setoid_rewrite <- list_elem_of_In. split.
  - intros (r & Hr & Hl). unfold rule_lists in Hl. rewrite !andb_true_iff, !listed_elem in Hl. destruct Hl as [[Hv Hg] Hs].
    exists r. split; [|done]. apply list_elem_of_bind. exists (A_Verb a). split; [|done].
    apply list_elem_of_bind. exists (A_Group a). split; [|done].
    apply list_elem_of_bind. exists (combined_resource a). split; [by left|done].
  - intros (r & Ht & Hr). exists r. split; [done|]. unfold rule_lists. rewrite !andb_true_iff, !listed_elem.
    apply list_elem_of_bind in Ht as (v & Ht & Hv). apply list_elem_of_bind in Ht as (g & Ht & Hg).
    apply list_elem_of_bind in Ht as (s & Ht & Hs). by apply list_elem_of_singleton in Ht as [= -> -> ->].
Qed.

(** Two roles with the same triples grant the same. *)
Lemma granted_same r1 r2 : role_triples r1 ⊆ role_triples r2 → role_triples r2 ⊆ role_triples r1 →
  ∀ a, granted r1 a = granted r2 a.
Proof. intros H12 H21 a. apply eq_iff_eq_true. rewrite !granted_triple. split; auto. Qed.

(** ** The roles fit the handlers *)

(** What a handler of the manager asks for. *)
Definition manager_asks (a : access) : Prop :=
  (∃ w, a ∈ write_accesses w) ∨
  (∃ k verb ns name, k ∈ (template_informers ++ request_informers ++ request_reads)%list ∧ verb ∈ read_verbs ∧
    a = read_access k verb ns name) ∨
  (∃ ns, a = expand_access ns).

(** Granted, but asked for by no handler of the manager: pods and claims are
    looked at by the importer when it authorizes a clone. *)
Definition spare_grants : list (string * string * string) :=
  [("create", "", "persistentvolumeclaims"); ("create", "", "pods"); ("delete", "cdi.kubevirt.io", "datavolumes");
   ("get", "template.kubevirt.io", "virtualmachinetemplaterequests/status");
   ("get", "template.kubevirt.io", "virtualmachinetemplates/status")].

Lemma triple_granted role a t : access_triple a = t → bool_decide (t ∈ role_triples role) = true → granted role a = true.
Proof. intros <- Ht%bool_decide_eq_true. by apply granted_triple. Qed.

Lemma owner_granted ns r : Forall (λ a, granted manager_role a = true) (owner_access ns r).
Proof.
  unfold owner_access. destruct (OR_Controller r); [|constructor].
  destruct (OR_Kind r =? KindRequest); [|destruct (OR_Kind r =? KindTemplate); [|constructor]];
    apply Forall_singleton; by eapply triple_granted; [done|vm_compute].
Qed.

Lemma owners_granted ns l : Forall (λ a, granted manager_role a = true) (l ≫= owner_access ns).
Proof.
  apply Forall_forall. intros a (r & Ha & _)%list_elem_of_bind.
  pose proof (owner_granted ns r) as Hg. rewrite Forall_forall in Hg. by apply Hg.
Qed.

Lemma write_granted w : Forall (λ a, granted manager_role a = true) (write_accesses w).
Proof.
  destruct w as [s|k|dv|old new|t|k cs|k m|k st|k]; cbn [write_accesses]; rewrite ?Forall_cons, ?Forall_app, ?Forall_nil;
    repeat split; try apply owners_granted; try (by eapply triple_granted; [done|vm_compute]).
  destruct (DV_SourceSnapshot dv) as [[ns n]|]; [|constructor].
  apply Forall_singleton. by eapply triple_granted; [done|vm_compute].
Qed.

Lemma reads_granted k verb ns name : k ∈ (template_informers ++ request_informers ++ request_reads)%list →
  verb ∈ read_verbs → granted manager_role (read_access k verb ns name) = true.
Proof.
  intros _ Hv. unfold read_verbs in Hv. repeat (apply elem_of_cons in Hv as [->|Hv]); [..|by apply elem_of_nil in Hv];
    destruct k as [| |[]]; by eapply triple_granted; [done|vm_compute].
Qed.

(** Writes with every kind of access. *)
Definition sample_writes : list write :=
  let m := set_owners [mkOwnerReference KindRequest "" "" true; mkOwnerReference KindTemplate "" "" true] (empty_meta "" "") in
  let dv := mkDV m (Some ("", "")) [] "" in
  [CreateSnapshot (mkSnapshot m "" None); DeleteSnapshot ("", ""); CreateDataVolume dv; PatchDataVolume dv dv;
   CreateTemplate (mkTemplate m "" empty_vmspec [] "" []); PatchTemplateStatus ("", "") []; PatchRequestMeta ("", "") m;
   PatchRequestStatus ("", "") (mkRequestStatus [] None); DeleteRequest ("", "")].
Definition sample_accesses : list access :=
  ((sample_writes ≫= write_accesses) ++
   (k ← template_informers ++ request_informers ++ request_reads; v ← read_verbs; [read_access k v "" ""]) ++
   [expand_access ""])%list.

Lemma sample_asked a : a ∈ sample_accesses → manager_asks a.
Proof.
  unfold sample_accesses. rewrite !elem_of_app. intros [(w & Ha & _)%list_elem_of_bind|[Ha|Ha]].
  - left. by exists w.
  - right. left. apply list_elem_of_bind in Ha as (k & Ha & Hk). apply list_elem_of_bind in Ha as (v & Ha & Hv).
    apply list_elem_of_singleton in Ha as ->. by exists k, v, "", "".
  - right. right. apply list_elem_of_singleton in Ha as ->. by exists "".
Qed.

(** C27: The cluster role of the manager fits its handlers.  It grants exactly
    what the markers above the handlers say.  Whatever a handler of the
    manager asks the cluster for (each of its writes, with the finalizers of
    the owners it sets; reading, listing and watching every kind it reads;
    expanding a machine) is granted, in every namespace; and everything
    granted is asked for by a handler, but for the listed exceptions. *)
Theorem manager_role_fits :
  (∀ a, granted manager_role a = granted (template_markers ++ request_markers) a) ∧
  (∀ a, manager_asks a → granted manager_role a = true) ∧
  (∀ a, granted manager_role a = true →
     access_triple a ∈ spare_grants ∨ ∃ b, manager_asks b ∧ access_triple b = access_triple a).
Proof.
  split_and!.
  - apply granted_same; apply (bool_decide_unpack _); vm_compute; exact I.
  - intros a [(w & Ha)|[(k & verb & ns & name & Hk & Hv & ->)|(ns & ->)]].
    + pose proof (write_granted w) as Hw. rewrite Forall_forall in Hw. by apply Hw.
    + by apply reads_granted.
    + by eapply triple_granted; [done|vm_compute].
  - intros a Ha%granted_triple.
    assert (role_triples manager_role ⊆ spare_grants ++ (access_triple <$> sample_accesses))%list as Hsub
      by (apply (bool_decide_unpack _); vm_compute; exact I).
    apply Hsub, elem_of_app in Ha as [Ha|(b & Heq & Hb)%list_elem_of_fmap]; [by left|right].
    exists b. by split; [apply sample_asked|].
Qed.

(** The role of the API server: the templates it reads through the typed
    client of either version, and the machines it creates. *)
Theorem apiserver_role_fits :
  (∀ a, granted apiserver_role a = granted apiserver_markers a) ∧
  (∀ c name ns path info, client_ok c → Cl_Resource c = PluralResourceName → good_segment name = true →
     sent (typed_request c (OpGet name)) = Some ("GET", path) →
     NewRequestInfo "GET" path (mkQuery false None) = Ok info →
     granted apiserver_role (info_access info) = true ∧ granted apiserver_role (vm_access ns) = true).
Proof.
  split; [apply granted_same; apply (bool_decide_unpack _); vm_compute; exact I|].
  intros c name ns path info Hc Hr Hname Hsent Hinfo.
  rewrite (typed_request_sent c (OpGet name) Hc Hname) in Hsent. injection Hsent as <-.
  pose proof (typed_request_attrs c (OpGet name) Hc Hname) as Hattrs. cbn [http_method op_query] in Hattrs.
  pose proof (eq_trans (eq_sym Hinfo) Hattrs) as [= ->]. clear Hinfo Hattrs.
  split; [|by eapply triple_granted; [done|vm_compute]].
  assert (GV_Group (Cl_GroupVersion c) = "template.kubevirt.io") as Hg.
  { destruct Hc as [Hin _]. unfold typed_clients in Hin.
    repeat (apply elem_of_cons in Hin as [->|Hin]; [done|]). by apply elem_of_nil in Hin. }
  eapply triple_granted; [unfold info_access, op_info, access_triple, combined_resource; cbn; by rewrite Hg, Hr|].
  by vm_compute.
Qed.

(** ** No escalation *)

(** The source machine is in the namespace of the request, or its author may
    use it as a source. *)
Definition may_use_source (allowed : access → bool) (req : VirtualMachineTemplateRequest) : Prop :=
  VMRef_Namespace (Req_Spec req) = Namespace (Req_Meta req) ∨ allowed (source_access req) = true.

(** A write that gives the author of a request nothing they could not have. *)
Definition justified (allowed : access → bool) (req : VirtualMachineTemplateRequest) (w : write) : Prop :=
  match w with
  | CreateSnapshot s =>
      Namespace (Snap_Meta s) = VMRef_Namespace (Req_Spec req) ∧ Snap_SourceName s = VMRef_Name (Req_Spec req) ∧
      may_use_source allowed req
  | DeleteSnapshot k =>
      k.1 = VMRef_Namespace (Req_Spec req) ∧ k.2 = GetStableName (Name (Req_Meta req)) [UID (Req_Meta req)] ∧
      may_use_source allowed req
  | CreateDataVolume dv =>
      Namespace (DV_Meta dv) = Namespace (Req_Meta req) ∧
      allowed (mkAccess "create" "cdi.kubevirt.io" "datavolumes" "" (Namespace (DV_Meta dv)) "") = true ∧
      (∃ n, DV_SourceSnapshot dv = Some (VMRef_Namespace (Req_Spec req), n)) ∧ may_use_source allowed req
  | PatchDataVolume old new =>
      Namespace (DV_Meta old) = Namespace (Req_Meta req) ∧ object_key (DV_Meta new) = object_key (DV_Meta old) ∧
      Labels (DV_Meta old) !! LabelRequestUID = Some (UID (Req_Meta req)) ∧
      new = mkDV (set_owners (OwnerReferences (DV_Meta new)) (DV_Meta old)) (DV_SourceSnapshot new) (DV_Conditions new) (DV_Phase new)
  | CreateTemplate t =>
      Namespace (Tpl_Meta t) = Namespace (Req_Meta req) ∧
      allowed (mkAccess "create" "template.kubevirt.io" "virtualmachinetemplates" "" (Namespace (Tpl_Meta t)) "") = true
  | PatchTemplateStatus _ _ => False
  | PatchRequestMeta k _ | PatchRequestStatus k _ | DeleteRequest k => k = object_key (Req_Meta req)
  end.

Lemma owned_justified allowed req w :
  Namespace (Req_Meta req) ≠ EmptyString → vmtr_authz allowed req = true → owned req w → justified allowed req w.
Proof.
  intros Hns Hauthz. unfold vmtr_authz in Hauthz. rewrite !andb_true_iff, orb_true_iff in Hauthz.
  destruct Hauthz as [[Hsrc Hdv] Htpl].
  assert (may_use_source allowed req) as Huse by (destruct Hsrc as [?%String.eqb_eq|?]; [by left|by right]).
  destruct w as [s|k|dv|old new|t|k cs|k m|k st|k]; cbn [owned justified]; try done.
  - by intros ->.
  - by intros ->.
  - intros (_ & _ & (vol & [= Hk _]) & n & Hn). rewrite Hk. split_and!; [done|done|by exists n|done].
  - intros (Hl & Hm & Hk). split_and!; [by apply Hk|by rewrite Hm|done|]. destruct new as [m src cs ph]. cbn in *. by rewrite <- Hm.
  - by intros [spec ->].
Qed.


(** ** A data volume in another namespace *)

Section foreign.
Context (E : env) (tpl : VirtualMachineTemplate).

(** Removing a reference keeps the namespace; setting one checks it. *)
Lemma foreign_owner dv s :
  Namespace (Tpl_Meta tpl) ≠ EmptyString → Namespace (DV_Meta dv) ≠ Namespace (Tpl_Meta tpl) →
  IsControlledBy (DV_Meta dv) (Tpl_Meta tpl) = false →
  ∃ e, set_owner E tpl dv s = (Err e, s).
Proof.
  intros Hns Hne Hc. unfold set_owner. rewrite Hc. unfold mbind, ctl_bind, get_req, lift_err.
  destruct (RemoveControllerReference _ _ _) as [m1|e|w] eqn:Hrm; [|by eexists|].
  - assert (Namespace m1 = Namespace (DV_Meta dv)) as Hm1.
    { unfold RemoveControllerReference in Hrm. destruct (GetControllerOf _); [|done].
      destruct (take_owner_ref _ _) as [[r rs]|]; [|done]. destruct (OR_Controller r); [|done]. by injection Hrm as <-. }
    unfold SetControllerReference, validateOwner. rewrite Hm1.
    destruct (String.eqb_spec (Namespace (Tpl_Meta tpl)) EmptyString); [done|].
    destruct (String.eqb_spec (Namespace (DV_Meta dv)) EmptyString); [by eexists|].
    destruct (String.eqb_spec (Namespace (Tpl_Meta tpl)) (Namespace (DV_Meta dv))); [congruence|by eexists].
  - unfold RemoveControllerReference in Hrm. by repeat case_match.
Qed.

Lemma set_owner_no_panic dv s w : (set_owner E tpl dv s).1 ≠ Panic w.
Proof.
  unfold set_owner, mbind, ctl_bind, get_req, lift_err, mret, ctl_ret. destruct (IsControlledBy _ _); [done|].
  destruct (RemoveControllerReference _ _ _) as [m1|e|w'] eqn:Hrm; [|done|].
  - destruct (SetControllerReference _ _ m1) as [m2|e|w'] eqn:Hset; [|done|].
    + unfold patch_datavolume, call. destruct (fault E (calls s)) as [[e []]|]; [done..|]. by destruct (datavolumes _ !! _).
    + unfold SetControllerReference, validateOwner, mbind, res_bind in Hset. by repeat case_match.
  - unfold RemoveControllerReference in Hrm. by repeat case_match.
Qed.

(** The loop stops at the first data volume whose owner cannot be set. *)
Lemma set_owner_loop_stops dv dvs s : dv ∈ dvs → (∀ s, ∃ e, set_owner E tpl dv s = (Err e, s)) →
  ∃ e s', set_owner_loop E tpl dvs s = (Err e, s').
Proof.
  intros Hin Hdv. revert s. induction dvs as [|x dvs IH]; intros s; [by apply elem_of_nil in Hin|].
  cbn [set_owner_loop]. unfold mbind, ctl_bind. apply elem_of_cons in Hin as [<-|Hin].
  - destruct (Hdv s) as [e ->]. by eexists _, _.
  - specialize (IH Hin). pose proof (set_owner_no_panic x s) as Hp. destruct (set_owner E tpl x s) as [[[]|e|w] s']; [apply IH|by eexists _, _|].
    by destruct (Hp w).
Qed.
End foreign.

(** C5: A data volume of another namespace blocks a request.  The data volumes
    of a request are looked up by their label in all namespaces, while an
    owner must be in the namespace of what it owns: as long as any data
    volume anywhere else carries the request's UID in its label, without the
    template as its controller, passing the data volumes on to the template
    fails, and with it every reconciliation that gets there. *)
Theorem foreign_datavolume_blocks E tpl k dv s :
  Namespace (Tpl_Meta tpl) ≠ EmptyString →
  datavolumes (interfere E (calls s) (cluster s)) !! k = Some dv →
  Labels (DV_Meta dv) !! LabelRequestUID = Some (UID (Req_Meta (tplReq s))) →
  Namespace (DV_Meta dv) ≠ Namespace (Tpl_Meta tpl) →
  IsControlledBy (DV_Meta dv) (Tpl_Meta tpl) = false →
  ∃ e s', setDataVolumeOwnerReferences E tpl s = (Err e, s').
Proof.
  intros Hns Hdv Hl Hne Hc. unfold setDataVolumeOwnerReferences, list_datavolumes, call, mbind, ctl_bind, get_req.
  destruct (fault E (calls s)) as [[e []]|]; [by eexists _, _..|]. cbn [fst snd].
  apply (set_owner_loop_stops E tpl dv); [|intros s'; by apply foreign_owner].
  apply list_elem_of_filter. split; [done|]. apply list_elem_of_fmap. exists (k, dv).
  split; [done|]. by apply elem_of_map_to_list.
Qed.

(** ** Concrete instances *)

(** The author of the sample request may create data volumes and templates in
    its namespace and use the source machine. *)
Definition sample_author (a : access) : bool :=
  existsb (λ b, bool_decide (access_triple a = access_triple b ∧ A_Namespace a = A_Namespace b))
    [source_access sample_request; mkAccess "create" "cdi.kubevirt.io" "datavolumes" "" "tpls" "";
     mkAccess "create" "template.kubevirt.io" "virtualmachinetemplates" "" "tpls" ""].


(** Before the template takes over the data volume, someone restores a copy
    of it in another namespace. *)
Definition copied_key : key := ("elsewhere", "restored").
Definition copied_dv : DataVolume :=
  mkDV (set_labels {[ LabelRequestUID := "1234" ]} (empty_meta "elsewhere" "restored")) None [] "".
Definition w2_copied : world := with_datavolumes (<[copied_key := copied_dv]>) (datavolume_ready w2).

Lemma foreign_datavolume_blocks_witness :
  (∃ e s', setDataVolumeOwnerReferences (quiet 3) (newTemplate sample_request sample_vm_spec) (mkState sample_request w2_copied 0 []) =
     (Err e, s')) ∧
  (run 3 w2_copied).1 = Err (LocalError "object does not have a owner reference with controller equals true") ∧
  (run 3 (datavolume_ready w2)).1 = Ok 0%Z.
Proof.
  split; [|by split; vm_compute].
  apply (foreign_datavolume_blocks _ _ copied_key copied_dv); [discriminate|reflexivity|reflexivity|discriminate|reflexivity].
Defined.
