(* ===== verification/Fake.v ===== *)
(** * The fake clientset (virttemplate/fake and the fake typed clients)

    The clients tests use instead of a cluster: the generated constructors,
    the expansions, and what they run on, the object tracker and the
    reaction chain of client-go. *)

From Stdlib Require Import Ascii ZArith Lia.
From stdpp Require Import prelude strings gmap sorting.
From S2P Require Import Prelude GoStrings Json Visit Api Codec Parameters Discovery Client ApiServer.
From S2P Require Import Meta Manager.

Local Open Scope string_scope.

(** ** Objects *)

(** Group, version and resource. *)
Abbreviation GVR := (string * string * string)%type.
(** Namespace and name. *)
Abbreviation nsname := (string * string)%type.
Definition with_resource (gv : GroupVersion) (r : string) : GVR := (GV_Group gv, GV_Version gv, r).

(** An object: what the tracker looks at, and the rest. *)
Record body : Type := mkBody {
  B_Namespace : string;
  B_Name : string;
  B_Labels : gmap string string;
  B_Data : string;
}.
#[export] Instance body_eq_dec : EqDecision body.
Proof. solve_decision. Defined.

(** A [runtime.Object] with its Go type: an object or a list. *)
Record fobject : Type := mkFObject { O_Type : string; O_Body : body }.
Inductive robject : Type :=
| RObject (o : fobject)
| RList (type : string) (items : list fobject).

Inductive ferror : Type :=
| FNotFound (gr : string * string) (name : string)
| FAlreadyExists (gr : string * string) (name : string)
| FBadRequest (text : string)
| FError (text : string).

Definition body_key (b : body) : nsname := (B_Namespace b, B_Name b).

(** ** The tracker (k8s.io/client-go/testing/fixture.go) *)

Inductive event : Type := EvAdded (o : fobject) | EvModified (o : fobject) | EvDeleted (o : fobject).

(** The channel of a watcher, which nobody may have read yet. *)
Record channel : Type := mkChannel { Ch_Events : list event; Ch_Stopped : bool }.
Definition DefaultChanSize : nat := 100.

(** Objects by resource, namespace and name; watchers by resource and
    namespace, as indices of channels. *)
Record tracker : Type := mkTracker {
  T_objects : gmap GVR (gmap nsname fobject);
  T_watchers : gmap GVR (gmap string (list nat));
  T_channels : list channel;
}.
Definition NewObjectTracker : tracker := mkTracker ∅ ∅ [].

(** Operations on the tracker; a panic keeps what was done before it. *)
Definition trk (A : Type) : Type := tracker → res ferror A * tracker.
#[export] Instance trk_ret : MRet trk := λ A a t, (Ok a, t).
#[export] Instance trk_bind : MBind trk := λ A B f m t,
  match m t with
  | (Ok a, t') => f a t'
  | (Err e, t') => (Err e, t')
  | (Panic w, t') => (Panic w, t')
  end.
Definition fail {A} (e : ferror) : trk A := λ t, (Err e, t).
Definition panic {A} (why : string) : trk A := λ t, (Panic why, t).

Definition gets {A} (f : tracker → A) : trk A := λ t, (Ok (f t), t).

Definition with_objects (f : gmap GVR (gmap nsname fobject) → gmap GVR (gmap nsname fobject)) : trk unit := λ t,
  (Ok tt, mkTracker (f (T_objects t)) (T_watchers t) (T_channels t)).

Definition stored (t : tracker) (gvr : GVR) (k : nsname) : option fobject :=
  objs ← T_objects t !! gvr; objs !! k.

(** [w.Add], [w.Modify], [w.Delete] of one watcher. *)
Definition send (ev : event) (id : nat) : trk unit := λ t,
  match T_channels t !! id with
  | None => (Ok tt, t)
  | Some ch =>
      if Ch_Stopped ch then (Ok tt, t)
      else if (length (Ch_Events ch) <? DefaultChanSize)%nat
      then (Ok tt, mkTracker (T_objects t) (T_watchers t)
              (<[id := mkChannel (Ch_Events ch ++ [ev])%list false]> (T_channels t)))
      else (Panic "channel full", t)
  end.
Fixpoint broadcast (ev : event) (ids : list nat) : trk unit :=
  match ids with [] => mret tt | id :: ids => _ ← send ev id; broadcast ev ids end.

Definition getWatches (gvr : GVR) (ns : string) (t : tracker) : list nat :=
  let ws := default ∅ (T_watchers t !! gvr) in
  (default [] (ws !! ns) ++ if str_empty ns then [] else default [] (ws !! ""))%list.
Definition notify (gvr : GVR) (ns : string) (ev : event) : trk unit := λ t, broadcast ev (getWatches gvr ns t) t.

Definition group_resource (gvr : GVR) : string * string := (gvr.1.1, gvr.2).

(** Propagate the namespace to an object without one. *)
Definition fill_namespace (ns : string) (b : body) : body :=
  if str_empty (B_Namespace b) then mkBody ns (B_Name b) (B_Labels b) (B_Data b) else b.

Definition add (gvr : GVR) (obj : fobject) (ns : string) (replaceExisting : bool) : trk unit :=
  let b := fill_namespace ns (O_Body obj) in
  let obj := mkFObject (O_Type obj) b in
  if negb (ns =? B_Namespace b) then
    fail (FBadRequest ("request namespace does not match object namespace, request: " +:+ ns +:+ " object: " +:+ B_Namespace b))
  else
    _ ← with_objects (partial_alter (λ m, Some (default ∅ m)) gvr);
    existing ← gets (λ t, stored t gvr (body_key b));
    match existing with
    | Some _ =>
        if replaceExisting then
          _ ← notify gvr ns (EvModified obj);
          with_objects (alter (<[body_key b := obj]>) gvr)
        else fail (FAlreadyExists (group_resource gvr) (B_Name b))
    | None =>
        if replaceExisting then fail (FNotFound (group_resource gvr) (B_Name b))
        else
          _ ← with_objects (alter (<[body_key b := obj]>) gvr);
          notify gvr ns (EvAdded obj)
    end.

(** [Create], [Update] and [Patch] of the tracker. *)
Definition tracker_Create (gvr : GVR) (obj : fobject) (ns : string) : trk unit := add gvr obj ns false.
Definition tracker_Update (gvr : GVR) (obj : fobject) (ns : string) : trk unit := add gvr obj ns true.

(** (An object of type [metav1.Status], which [Get] would turn into an error,
    has no object metadata and is never stored.) *)
Definition tracker_Get (gvr : GVR) (ns name : string) : trk fobject :=
  found ← gets (λ t, stored t gvr (ns, name));
  match found with
  | Some o => mret o
  | None => fail (FNotFound (group_resource gvr) name)
  end.

Definition tracker_Delete (gvr : GVR) (ns name : string) : trk unit :=
  o ← tracker_Get gvr ns name;
  _ ← with_objects (alter (delete (ns, name)) gvr);
  notify gvr ns (EvDeleted o).

Definition tracker_Watch (gvr : GVR) (ns : string) : trk nat := λ t,
  let id := length (T_channels t) in
  (Ok id, mkTracker (T_objects t)
     (partial_alter (λ ws, Some (partial_alter (λ ids, Some (default [] ids ++ [id])%list) ns (default ∅ ws))) gvr (T_watchers t))
     (T_channels t ++ [mkChannel [] false])%list).

(** The order of a list: by namespace, then by name. *)
Definition object_le (a b : fobject) : Prop :=
  if B_Namespace (O_Body a) =? B_Namespace (O_Body b) then String.leb (B_Name (O_Body a)) (B_Name (O_Body b)) = true
  else String.leb (B_Namespace (O_Body a)) (B_Namespace (O_Body b)) = true.
#[export] Instance object_le_dec : RelDecision object_le.
Proof. intros a b. unfold object_le. destruct (_ =? _); apply _. Defined.

Definition filterByNamespace (objs : gmap nsname fobject) (ns : string) : list fobject :=
  merge_sort object_le
    (List.filter (λ o, str_empty ns || (B_Namespace (O_Body o) =? ns)) (map_to_list objs).*2).

(** ** The scheme of the clientset (fake/register.go) *)

Definition fake_kinds : list ((string * string) * string) := v1alpha1_AddToScheme ++ v1beta1_AddToScheme.

Definition scheme_New (gv : GroupVersion) (kind : string) : option string :=
  snd <$> List.find (λ e, (e.1.1 =? gv_string gv) && (e.1.2 =? kind)) fake_kinds.

(** [scheme.ObjectKinds]: the kinds a type is registered as. *)
Definition parse_gv (s : string) : GroupVersion :=
  match Split s "/" with [g; v] => mkGV g v | _ => mkGV "" s end.
Definition ObjectKinds (type : string) : list (GroupVersion * string) :=
  (λ e, (parse_gv e.1.1, e.1.2)) <$> List.filter (λ e, e.2 =? type) fake_kinds.

Definition HasSuffix (s suf : string) : bool :=
  (String.length suf <=? String.length s)%nat &&
  (String.substring (String.length s - String.length suf) (String.length suf) s =? suf).

Definition UnsafeGuessKindToResource (gv : GroupVersion) (kind : string) : GVR :=
  if str_empty kind then ("", "", "")
  else
    let singular := ToLower kind in
    if HasSuffix singular "endpoints" then with_resource gv singular
    else if HasSuffix singular "s" then with_resource gv (singular +:+ "es")
    else if HasSuffix singular "y"
    then with_resource gv (String.substring 0 (String.length singular - 1) singular +:+ "ies")
    else with_resource gv (singular +:+ "s").

(** [List]; the items of a list must be of its item type. *)
Definition tracker_List (gvr : GVR) (gv : GroupVersion) (kind ns : string) : trk robject :=
  match scheme_New gv (kind +:+ "List") with
  | None => fail (FError ("no kind " +:+ kind +:+ "List is registered for version " +:+ gv_string gv))
  | Some ltype =>
      objs ← gets (λ t, T_objects t !! gvr);
      match objs with
      | None => mret (RList ltype [])
      | Some objs =>
          let items := filterByNamespace objs ns in
          if forallb (λ o, bool_decide (scheme_New gv kind = Some (O_Type o))) items
          then mret (RList ltype items)
          else fail (FError "item can't be assigned to the list")
      end
  end.

Fixpoint for_each {A} (f : A → trk unit) (l : list A) : trk unit :=
  match l with [] => mret tt | x :: l => _ ← f x; for_each f l end.

Definition add_object (o : fobject) : trk unit :=
  match ObjectKinds (O_Type o) with
  | [] => fail (FError ("no kind is registered for the type " +:+ O_Type o))
  | gvks => for_each (λ '(gv, kind), add (UnsafeGuessKindToResource gv kind) o (B_Namespace (O_Body o)) false) gvks
  end.
Definition tracker_Add (obj : robject) : trk unit :=
  match obj with
  | RObject o => add_object o
  | RList _ items => for_each add_object items
  end.

(** ** Actions and reactions *)

(** A patch as its type and text; [apply] is server-side apply. *)
Record patch : Type := mkPatch { P_Apply : bool; P_Type : string; P_Text : string }.

Inductive action : Type :=
| ListAction (gvr : GVR) (gv : GroupVersion) (kind ns : string)
| GetAction (gvr : GVR) (ns name : string)
| CreateAction (gvr : GVR) (name sub ns : string) (obj : fobject)
| UpdateAction (gvr : GVR) (sub ns : string) (obj : fobject)
| DeleteAction (gvr : GVR) (ns name : string)
| DeleteCollectionAction (gvr : GVR) (ns : string)
| PatchAction (gvr : GVR) (sub ns name : string) (p : patch)
| WatchAction (gvr : GVR) (ns : string).

Definition action_resource (a : action) : GVR :=
  match a with
  | ListAction g _ _ _ | GetAction g _ _ | CreateAction g _ _ _ _ | UpdateAction g _ _ _ | DeleteAction g _ _
  | DeleteCollectionAction g _ | PatchAction g _ _ _ _ | WatchAction g _ => g
  end.
Definition action_namespace (a : action) : string :=
  match a with
  | ListAction _ _ _ ns | GetAction _ ns _ | CreateAction _ _ _ ns _ | UpdateAction _ _ ns _ | DeleteAction _ ns _
  | DeleteCollectionAction _ ns | PatchAction _ _ ns _ _ | WatchAction _ ns => ns
  end.
Definition action_subresource (a : action) : string :=
  match a with
  | CreateAction _ _ sub _ _ | UpdateAction _ sub _ _ | PatchAction _ sub _ _ _ => sub
  | _ => ""
  end.
Definition action_verb (a : action) : string :=
  match a with
  | ListAction _ _ _ _ => "list" | GetAction _ _ _ => "get" | CreateAction _ _ _ _ _ => "create"
  | UpdateAction _ _ _ _ => "update" | DeleteAction _ _ _ => "delete"
  | DeleteCollectionAction _ _ => "delete-collection" | PatchAction _ _ _ _ _ => "patch" | WatchAction _ _ => "watch"
  end.

(** What a reaction answers: an object or none, and an error or none. *)
Definition answer : Type := option robject * option ferror.
Inductive reply : Type :=
| NotHandled
| Handled (a : answer).

(** [obj, err := m; return true, obj, err]. *)
Definition handled {A} (f : A → option robject) (m : trk A) : trk reply := λ t,
  match m t with
  | (Ok a, t') => (Ok (Handled (f a, None)), t')
  | (Err e, t') => (Ok (Handled (None, Some e)), t')
  | (Panic w, t') => (Panic w, t')
  end.

Section reaction.
(** Patching: the merge libraries, between the JSON encodings of an object;
    the Go type of the object stays. *)
Context (patched : patch → fobject → res ferror body).

Definition lift_patch (p : patch) (o : fobject) : trk fobject := λ t,
  match patched p o with
  | Ok b => (Ok (mkFObject (O_Type o) b), t)
  | Err e => (Err e, t)
  | Panic w => (Panic w, t)
  end.

Definition react_Create (gvr : GVR) (sub ns : string) (obj : fobject) : trk fobject :=
  let name := B_Name (O_Body obj) in
  if str_empty sub then
    _ ← tracker_Create gvr obj ns;
    tracker_Get gvr ns name
  else
    old ← tracker_Get gvr ns name;
    if O_Type old =? O_Type obj then
      _ ← tracker_Update gvr obj ns;
      tracker_Get gvr ns name
    else mret obj.

Definition react_Update (gvr : GVR) (ns : string) (obj : fobject) : trk fobject :=
  _ ← tracker_Update gvr obj ns;
  tracker_Get gvr ns (B_Name (O_Body obj)).

Definition react_Patch (gvr : GVR) (ns name : string) (p : patch) : trk fobject :=
  old ← tracker_Get gvr ns name;
  obj ← lift_patch p old;
  _ ← add gvr obj ns true;
  if P_Apply p then tracker_Get gvr ns name else mret obj.

Definition ObjectReaction (a : action) : trk reply :=
  match a with
  | ListAction gvr gv kind ns => handled Some (tracker_List gvr gv kind ns)
  | GetAction gvr ns name => handled (λ o, Some (RObject o)) (tracker_Get gvr ns name)
  | CreateAction gvr _ sub ns obj => handled (λ o, Some (RObject o)) (react_Create gvr sub ns obj)
  | UpdateAction gvr _ ns obj => handled (λ o, Some (RObject o)) (react_Update gvr ns obj)
  | DeleteAction gvr ns name => handled (λ _, None) (tracker_Delete gvr ns name)
  | PatchAction gvr _ ns name p => handled (λ o, Some (RObject o)) (react_Patch gvr ns name p)
  | DeleteCollectionAction _ _ | WatchAction _ _ => mret NotHandled
  end.

End reaction.

(** ** The chain of reactions (testing/fake.go) *)

Record reactor : Type := mkReactor {
  R_Verb : string;
  R_Resource : string;
  R_Reaction : action → trk reply;
}.
Record watch_reactor : Type := mkWatchReactor {
  W_Resource : string;
  W_Reaction : action → trk (option nat);
}.

Definition resourceCovers (resource : string) (a : action) : bool :=
  (resource =? "*") || (resource =? (action_resource a).2) ||
  match Cut resource "/" with
  | Some (r, sub) => (r =? (action_resource a).2) && (sub =? action_subresource a)
  | None => false
  end.
Definition Handles (r : reactor) (a : action) : bool :=
  ((R_Verb r =? "*") || (R_Verb r =? action_verb a)) && resourceCovers (R_Resource r) a.

Record clientset : Type := mkClientset {
  CS_actions : list action;
  CS_chain : list reactor;
  CS_watch_chain : list watch_reactor;
  CS_tracker : tracker;
}.

Definition fk (A : Type) : Type := clientset → res ferror A * clientset.
#[export] Instance fk_ret : MRet fk := λ A a s, (Ok a, s).
#[export] Instance fk_bind : MBind fk := λ A B f m s,
  match m s with
  | (Ok a, s') => f a s'
  | (Err e, s') => (Err e, s')
  | (Panic w, s') => (Panic w, s')
  end.
Definition fk_panic {A} (why : string) : fk A := λ s, (Panic why, s).

Fixpoint react_chain (chain : list reactor) (a : action) (dflt : robject) : trk answer :=
  match chain with
  | [] => mret (Some dflt, None)
  | r :: rest =>
      if negb (Handles r a) then react_chain rest a dflt
      else
        rep ← R_Reaction r a;
        match rep with NotHandled => react_chain rest a dflt | Handled ans => mret ans end
  end.

Definition on_tracker {A} (a : action) (m : trk A) : fk A := λ s,
  let '(r, t) := m (CS_tracker s) in
  (r, mkClientset (CS_actions s ++ [a])%list (CS_chain s) (CS_watch_chain s) t).

Definition Invokes (a : action) (dflt : robject) : fk answer := λ s,
  on_tracker a (react_chain (CS_chain s) a dflt) s.

Fixpoint watch_chain (chain : list watch_reactor) (a : action) : trk (option nat) :=
  match chain with
  | [] => mret None
  | r :: rest =>
      if negb (resourceCovers (W_Resource r) a) then watch_chain rest a
      else
        w ← W_Reaction r a;
        match w with Some id => mret (Some id) | None => watch_chain rest a end
  end.
(** The watcher, or an error when nobody handles the watch. *)
Definition InvokesWatch (a : action) : fk (option nat) := λ s, on_tracker a (watch_chain (CS_watch_chain s) a) s.

Definition AddReactor (r : reactor) (s : clientset) : clientset :=
  mkClientset (CS_actions s) (CS_chain s ++ [r])%list (CS_watch_chain s) (CS_tracker s).
Definition PrependReactor (r : reactor) (s : clientset) : clientset :=
  mkClientset (CS_actions s) (r :: CS_chain s) (CS_watch_chain s) (CS_tracker s).
Definition AddWatchReactor (r : watch_reactor) (s : clientset) : clientset :=
  mkClientset (CS_actions s) (CS_chain s) (CS_watch_chain s ++ [r])%list (CS_tracker s).

(** ** The clientset (fake/clientset_generated.go) *)

Definition default_watch (a : action) : trk (option nat) :=
  id ← tracker_Watch (action_resource a) (action_namespace a);
  mret (Some id).

(** The objects are added first; an error panics. *)
Definition NewSimpleClientset (patched : patch → fobject → res ferror body) (objects : list robject) : res ferror clientset :=
  match for_each tracker_Add objects NewObjectTracker with
  | (Ok _, t) =>
      Ok (AddWatchReactor (mkWatchReactor "*" default_watch)
            (AddReactor (mkReactor "*" "*" (ObjectReaction patched)) (mkClientset [] [] [] t)))
  | (Err e, _) => Panic "NewSimpleClientset: object not added"
  | (Panic w, _) => Panic w
  end.

(** ** The typed clients (typed/core/*/fake) *)

Record fake_client : Type := mkFakeClient {
  F_Namespace : string;
  F_GroupVersion : GroupVersion;
  F_Resource : string;
  F_Kind : string;
  F_Type : string;
}.
Definition F_GVR (c : fake_client) : GVR := with_resource (F_GroupVersion c) (F_Resource c).

Definition fake_client_for (gv : GroupVersion) (pkg resource kind ns : string) : fake_client :=
  mkFakeClient ns gv resource kind (pkg +:+ "." +:+ kind).

Module FakeV1alpha1.
Definition newFakeVirtualMachineTemplates (ns : string) : fake_client :=
  fake_client_for ClientV1alpha1.GV "v1alpha1" "virtualmachinetemplates" "VirtualMachineTemplate" ns.
Definition newFakeVirtualMachineTemplateRequests (ns : string) : fake_client :=
  fake_client_for ClientV1alpha1.GV "v1alpha1" "virtualmachinetemplaterequests" "VirtualMachineTemplateRequest" ns.
Definition virtualmachinetemplatesResource : GVR := with_resource ClientV1alpha1.SubGV PluralResourceName.
End FakeV1alpha1.

Module FakeV1beta1.
Definition newFakeVirtualMachineTemplates (ns : string) : fake_client :=
  fake_client_for ClientV1beta1.GV "v1beta1" "virtualmachinetemplates" "VirtualMachineTemplate" ns.
Definition newFakeVirtualMachineTemplateRequests (ns : string) : fake_client :=
  fake_client_for ClientV1beta1.GV "v1beta1" "virtualmachinetemplaterequests" "VirtualMachineTemplateRequest" ns.
Definition virtualmachinetemplatesResource : GVR := with_resource ClientV1beta1.SubGV PluralResourceName.
End FakeV1beta1.

Definition fake_clients (ns : string) : list fake_client :=
  [FakeV1alpha1.newFakeVirtualMachineTemplates ns; FakeV1alpha1.newFakeVirtualMachineTemplateRequests ns;
   FakeV1beta1.newFakeVirtualMachineTemplates ns; FakeV1beta1.newFakeVirtualMachineTemplateRequests ns].

(** *** k8s.io/client-go/gentype/fake.go *)

Definition empty_body : body := mkBody "" "" ∅ "".
Definition typed_object (c : fake_client) (b : body) : fobject := mkFObject (F_Type c) b.

(** [if obj == nil { return empty, err }; return obj.(T), err]. *)
Definition as_object (type : string) (ans : answer) : fk (body * option ferror) :=
  match ans.1 with
  | None => mret (empty_body, ans.2)
  | Some (RObject o) =>
      if O_Type o =? type then mret (O_Body o, ans.2) else fk_panic ("interface conversion: " +:+ O_Type o)
  | Some (RList type _) => fk_panic ("interface conversion: " +:+ type)
  end.

Definition invoke_object (c : fake_client) (a : action) : fk (body * option ferror) :=
  ans ← Invokes a (RObject (typed_object c empty_body));
  as_object (F_Type c) ans.

Definition Fake_Get (c : fake_client) (name : string) : fk (body * option ferror) :=
  invoke_object c (GetAction (F_GVR c) (F_Namespace c) name).
Definition Fake_Create (c : fake_client) (b : body) : fk (body * option ferror) :=
  invoke_object c (CreateAction (F_GVR c) "" "" (F_Namespace c) (typed_object c b)).
Definition Fake_Update (c : fake_client) (b : body) : fk (body * option ferror) :=
  invoke_object c (UpdateAction (F_GVR c) "" (F_Namespace c) (typed_object c b)).
Definition Fake_UpdateStatus (c : fake_client) (b : body) : fk (body * option ferror) :=
  invoke_object c (UpdateAction (F_GVR c) "status" (F_Namespace c) (typed_object c b)).
Definition Fake_Patch (c : fake_client) (name : string) (p : patch) (subs : list string) : fk (body * option ferror) :=
  invoke_object c (PatchAction (F_GVR c) (path_join subs) (F_Namespace c) name p).
Definition Fake_Delete (c : fake_client) (name : string) : fk (option ferror) :=
  ans ← Invokes (DeleteAction (F_GVR c) (F_Namespace c) name) (RObject (typed_object c empty_body));
  mret ans.2.

(** A label selector, if it can be parsed: otherwise making the action
    panics. *)
Definition selector : Type := option (gmap string string → bool).
Definition with_selector {A} (sel : selector) (f : (gmap string string → bool) → fk A) : fk A :=
  match sel with Some m => f m | None => fk_panic "invalid selector" end.

Definition Fake_List (c : fake_client) (sel : selector) : fk (list body * option ferror) :=
  with_selector sel (λ matches,
    ans ← Invokes (ListAction (F_GVR c) (F_GroupVersion c) (F_Kind c) (F_Namespace c)) (RList (F_Type c +:+ "List") []);
    match ans.1 with
    | None => mret ([], ans.2)
    | Some (RList type items) =>
        if type =? F_Type c +:+ "List"
        then mret (List.filter (λ b, matches (B_Labels b)) (O_Body <$> items), ans.2)
        else fk_panic ("interface conversion: " +:+ type)
    | Some (RObject o) => fk_panic ("interface conversion: " +:+ O_Type o)
    end).
Definition Fake_DeleteCollection (c : fake_client) (sel : selector) : fk (option ferror) :=
  with_selector sel (λ _,
    ans ← Invokes (DeleteCollectionAction (F_GVR c) (F_Namespace c)) (RList (F_Type c +:+ "List") []);
    mret ans.2).
Definition Fake_Watch (c : fake_client) (sel : selector) : fk (option nat) :=
  with_selector sel (λ _, InvokesWatch (WatchAction (F_GVR c) (F_Namespace c))).

(** *** The expansions (fake_virtualmachinetemplate_expansion.go) *)

(** The package of the subresource types of a version, and the options of a
    caller as an object. *)
Definition fake_subresource (resource : GVR) (pkg sub : string) (c : fake_client) (name : string) (options : body)
    : fk (option body * option ferror) :=
  let processed := pkg +:+ ".ProcessedVirtualMachineTemplate" in
  ans ← Invokes (CreateAction resource name sub (F_Namespace c) (mkFObject (pkg +:+ ".ProcessOptions") options))
          (RObject (mkFObject processed empty_body));
  match ans.1 with
  | None => mret (None, ans.2)
  | Some _ => '(b, e) ← as_object processed ans; mret (Some b, e)
  end.

Definition FakeV1alpha1_Process := fake_subresource FakeV1alpha1.virtualmachinetemplatesResource "subresourcesv1alpha1" "process".
Definition FakeV1alpha1_CreateVirtualMachine :=
  fake_subresource FakeV1alpha1.virtualmachinetemplatesResource "subresourcesv1alpha1" "create".
Definition FakeV1beta1_Process := fake_subresource FakeV1beta1.virtualmachinetemplatesResource "subresourcesv1beta1" "process".
Definition FakeV1beta1_CreateVirtualMachine :=
  fake_subresource FakeV1beta1.virtualmachinetemplatesResource "subresourcesv1beta1" "create".
