(* ===== verification/FakeProps.v ===== *)
(** * What the fake clientset is

    A map of objects by resource, namespace and name, in which the two
    versions are separate resources and the subresources answer nothing by
    themselves: the tracker refines the map, the typed clients refine it
    through the chain of reactions, and the invariants hold in every
    clientset a test can get to. *)

From Stdlib Require Import Ascii ZArith Lia.
From stdpp Require Import prelude strings gmap sorting.
From S2P Require Import Prelude GoStrings Json Visit Api Codec Parameters Discovery Client ApiServer.
From S2P Require Import Meta Manager Fake.

Local Open Scope string_scope.

(** ** Order of lists *)

Lemma ascii_compare_N a b : Ascii.compare a b = N.compare (N_of_ascii a) (N_of_ascii b).
Proof. done. Qed.

Lemma string_leb_cons a s b t : String.leb (String a s) (String b t) = true ↔
  (N_of_ascii a < N_of_ascii b)%N ∨ a = b ∧ String.leb s t = true.
Proof.
  unfold String.leb. cbn [String.compare]. rewrite ascii_compare_N.
  destruct (N.compare_spec (N_of_ascii a) (N_of_ascii b)) as [He|Hl|Hg].
  - assert (a = b) as -> by (rewrite <- (ascii_N_embedding a), He; apply ascii_N_embedding).
    split; [by right|]. intros [?|[_ ?]]; [lia|done].
  - split; [by left|done].
  - split; [done|]. intros [?|[-> _]]; lia.
Qed.

#[export] Instance string_leb_trans : Transitive (λ a b, String.leb a b = true).
Proof.
  intros s. induction s as [|a s IH]; intros [|b t] [|c u]; try done.
  rewrite !string_leb_cons. intros [H1|[-> H1]] [H2|[-> H2]]; [left; lia|by left|by left|right]. split; [done|by eapply IH].
Qed.

#[export] Instance object_le_total : Total object_le.
Proof.
  intros a b. unfold object_le. rewrite (String.eqb_sym (B_Namespace (O_Body b))).
  destruct (_ =? _); apply String.leb_total.
Qed.

#[export] Instance object_le_trans : Transitive object_le.
Proof.
  intros [ta [na ma la da]] [tb [nb mb lb db]] [tc [nc mc lc dc]]. unfold object_le. cbn [O_Body B_Namespace B_Name].
  destruct (String.eqb_spec na nb) as [->|Hab], (String.eqb_spec nb nc) as [->|Hbc]; rewrite ?String.eqb_refl.
  - apply string_leb_trans.
  - by intros _ ?.
  - by rewrite (proj2 (String.eqb_neq _ _) Hab).
  - destruct (String.eqb_spec na nc) as [->|Hac].
    + intros H1 H2. destruct Hbc. by apply String.leb_antisym.
    + apply string_leb_trans.
Qed.

(** ** Watchers *)

(** The channels registered for a resource and a namespace. *)
Definition ids_at (t : tracker) (gvr : GVR) (ns : string) : list nat := default [] (default ∅ (T_watchers t !! gvr) !! ns).

(** Channels are registered once. *)
Record watchers_ok (t : tracker) : Prop := {
  watch_known gvr ns id : id ∈ ids_at t gvr ns → (id < length (T_channels t))%nat;
  watch_once gvr ns : NoDup (ids_at t gvr ns);
  watch_apart gvr ns ns' id : id ∈ ids_at t gvr ns → id ∈ ids_at t gvr ns' → ns = ns';
}.

(** Nobody who watches is behind by a whole channel. *)
Definition room (t : tracker) : Prop :=
  Forall (λ ch, Ch_Stopped ch = true ∨ (length (Ch_Events ch) < DefaultChanSize)%nat) (T_channels t).

(** The channels after an event was sent to some of them. *)
Definition sent_to (ev : event) (ids : list nat) (chs chs' : list channel) : Prop :=
  length chs' = length chs ∧
  ∀ id ch, chs !! id = Some ch →
    chs' !! id = Some (if bool_decide (id ∈ ids) && negb (Ch_Stopped ch) then mkChannel (Ch_Events ch ++ [ev])%list false else ch).

Lemma broadcast_spec ev ids t : NoDup ids →
  (∀ id ch, id ∈ ids → T_channels t !! id = Some ch → Ch_Stopped ch = true ∨ (length (Ch_Events ch) < DefaultChanSize)%nat) →
  ∃ chs, broadcast ev ids t = (Ok tt, mkTracker (T_objects t) (T_watchers t) chs) ∧ sent_to ev ids (T_channels t) chs.
Proof.
  intros Hnd. revert t. induction Hnd as [|id ids Hid Hnd IH]; intros t Hroom.
  - exists (T_channels t). split; [by destruct t|]. split; [done|]. intros id ch Hch. by rewrite bool_decide_false by apply not_elem_of_nil.
  - cbn [broadcast]. unfold mbind, trk_bind, send. destruct (T_channels t !! id) as [ch|] eqn:Hch.
    + destruct (Ch_Stopped ch) eqn:Hst.
      * destruct (IH t) as (chs & -> & Hlen & Hchs); [intros; by eapply Hroom; [right|]|]. exists chs. split; [done|]. split; [done|].
        intros id' ch' Hch'. rewrite (Hchs id' ch' Hch'). destruct (decide (id' = id)) as [->|Hne].
        { rewrite Hch in Hch'. injection Hch' as <-. by rewrite Hst, !andb_false_r. }
        rewrite (bool_decide_ext (id' ∈ id :: ids) (id' ∈ ids)) by set_solver. done.
      * destruct (Hroom id ch ltac:(left) Hch) as [?|Hlt]; [congruence|].
        rewrite (proj2 (Nat.ltb_lt _ _) Hlt).
        set (ch1 := mkChannel _ false). set (t1 := mkTracker _ _ (<[id := ch1]> (T_channels t))).
        destruct (IH t1) as (chs & -> & Hlen & Hchs).
        { intros id' ch' Hin Hch'. subst t1. cbn [T_channels] in Hch'. rewrite list_lookup_insert_ne in Hch' by set_solver.
          eapply Hroom; [by right|exact Hch']. }
        exists chs. split; [done|]. subst t1. cbn [T_channels] in *. rewrite length_insert in Hlen. split; [done|].
        intros id' ch' Hch'. destruct (decide (id' = id)) as [->|Hne].
        { rewrite Hch in Hch'. injection Hch' as <-.
          rewrite (Hchs id ch1) by (apply list_lookup_insert_eq; by eapply lookup_lt_Some).
          rewrite (bool_decide_false (id ∈ ids)), bool_decide_true, Hst by (done || left). done. }
        rewrite (Hchs id' ch') by (by rewrite list_lookup_insert_ne). rewrite (bool_decide_ext (id' ∈ id :: ids) (id' ∈ ids)) by set_solver. done.
    + destruct (IH t) as (chs & -> & Hlen & Hchs); [intros; by eapply Hroom; [right|]|]. exists chs. split; [done|]. split; [done|].
      intros id' ch' Hch'. rewrite (Hchs id' ch' Hch'). assert (id' ≠ id) by congruence.
      rewrite (bool_decide_ext (id' ∈ id :: ids) (id' ∈ ids)) by set_solver. done.
Qed.

Lemma getWatches_NoDup gvr ns t : watchers_ok t → NoDup (getWatches gvr ns t).
Proof.
  intros Hok. change (getWatches gvr ns t) with (ids_at t gvr ns ++ if str_empty ns then [] else ids_at t gvr "")%list.
  apply NoDup_app. split_and!; [by apply watch_once| |destruct (str_empty ns); [constructor|by apply watch_once]].
  intros id Hid. destruct (str_empty ns) eqn:Hns; [apply not_elem_of_nil|]. intros Hid'.
  pose proof (watch_apart t Hok gvr ns "" id Hid Hid') as ->. done.
Qed.

(** A new watcher gets a channel of its own. *)
Lemma tracker_Watch_ok gvr ns t : watchers_ok t → watchers_ok (tracker_Watch gvr ns t).2.
Proof.
  intros Hok. set (t' := (tracker_Watch gvr ns t).2).
  assert (∀ g n, ids_at t' g n = if decide (g = gvr ∧ n = ns) then (ids_at t g n ++ [length (T_channels t)])%list else ids_at t g n) as Hids.
  { intros g n. unfold ids_at, t', tracker_Watch. cbn [snd T_watchers]. destruct (decide (g = gvr)) as [->|Hg].
    - rewrite lookup_partial_alter_eq. change (default ∅ (Some ?x)) with x. destruct (decide (n = ns)) as [->|Hn].
      + rewrite lookup_partial_alter_eq, decide_True by done. done.
      + rewrite lookup_partial_alter_ne, decide_False by naive_solver. done.
    - rewrite lookup_partial_alter_ne, decide_False by naive_solver. done. }
  assert (length (T_channels t') = S (length (T_channels t))) as Hlen.
  { unfold t', tracker_Watch. cbn [snd T_channels]. rewrite length_app. cbn. lia. }
  assert (∀ g n id, id ∈ ids_at t' g n → id ∈ ids_at t g n ∨ id = length (T_channels t) ∧ g = gvr ∧ n = ns) as Hin.
  { intros g n id. rewrite Hids. case_decide as Hd; [|by left]. rewrite elem_of_app, list_elem_of_singleton. naive_solver. }
  pose proof (watch_known t Hok) as Hknown. split.
  - intros g n id [?%Hknown|(-> & _)]%Hin; rewrite Hlen; lia.
  - intros g n. rewrite Hids. case_decide; [|by apply watch_once]. apply NoDup_app. split_and!; [by apply watch_once| |].
    + intros id ?%Hknown ->%list_elem_of_singleton. lia.
    + apply NoDup_singleton.
  - intros g n n' id [H1|(-> & -> & ->)]%Hin [H2|(? & ? & ?)]%Hin.
    + by eapply watch_apart.
    + apply Hknown in H1. subst. lia.
    + apply Hknown in H2. lia.
    + by subst.
Qed.

Lemma notify_spec gvr ns ev t : watchers_ok t → room t →
  ∃ chs, notify gvr ns ev t = (Ok tt, mkTracker (T_objects t) (T_watchers t) chs) ∧
    sent_to ev (getWatches gvr ns t) (T_channels t) chs.
Proof.
  intros Hok Hroom. apply broadcast_spec; [by apply getWatches_NoDup|].
  intros id ch _ Hch. unfold room in Hroom. rewrite Forall_forall in Hroom. by apply Hroom, (list_elem_of_lookup_2 _ id).
Qed.

(** ** What the operations of the tracker do to its objects *)

(** The same objects and watchers; events may have been sent. *)
Definition same_objects (t t' : tracker) : Prop :=
  (∀ g k, stored t' g k = stored t g k) ∧ T_watchers t' = T_watchers t ∧ length (T_channels t') = length (T_channels t).
#[export] Instance same_objects_preorder : PreOrder same_objects.
Proof.
  split; [by intros t|]. intros t1 t2 t3 (Hs & Hw & Hl) (Hs' & Hw' & Hl').
  split; [intros g k; by rewrite Hs', Hs|]. by rewrite Hw', Hl'.
Qed.

(** [t'] is [t] with [v] stored under one key. *)
Definition updated (t t' : tracker) (g : GVR) (k : nsname) (v : option fobject) : Prop :=
  (∀ g' k', stored t' g' k' = if decide (g' = g ∧ k' = k) then v else stored t g' k') ∧
  T_watchers t' = T_watchers t ∧ length (T_channels t') = length (T_channels t).

Lemma updated_between t t1 t2 t3 g k v : same_objects t t1 → updated t1 t2 g k v → same_objects t2 t3 → updated t t3 g k v.
Proof.
  intros (Hs & Hw & Hl) (Hs' & Hw' & Hl') (Hs'' & Hw'' & Hl'').
  split; [intros g' k'; by rewrite Hs'', Hs', Hs|]. by rewrite Hw'', Hl'', Hw', Hl'.
Qed.

Lemma stored_alter (f : gmap nsname fobject → gmap nsname fobject) g k v t :
  (∀ objs, T_objects t !! g = Some objs → f objs !! k = v ∧ ∀ k', k' ≠ k → f objs !! k' = objs !! k') →
  (T_objects t !! g = None → v = None) →
  updated t (mkTracker (alter f g (T_objects t)) (T_watchers t) (T_channels t)) g k v.
Proof.
  intros Hf Hn. split; [|done]. intros g' k'. unfold stored. cbn [T_objects].
  destruct (decide (g' = g)) as [->|Hne]; [rewrite lookup_alter_eq|rewrite lookup_alter_ne by done; by rewrite decide_False by naive_solver].
  destruct (T_objects t !! g) as [objs|] eqn:Hobjs; cbn; [destruct (Hf objs eq_refl) as [Hk Hk']|];
    case_decide as Hd; [by destruct Hd as [_ ->]|apply Hk'; naive_solver|symmetry; by apply Hn|done].
Qed.

(** Whatever becomes of a broadcast, only channels change. *)
Lemma broadcast_keeps ev ids t : same_objects t (broadcast ev ids t).2 ∧ T_objects (broadcast ev ids t).2 = T_objects t ∧
  ((broadcast ev ids t).1 = Ok tt ∨ (broadcast ev ids t).1 = Panic "channel full").
Proof.
  revert t. induction ids as [|id ids IH]; intros t; [by split_and!; [done|done|left]|].
  cbn [broadcast]. unfold mbind, trk_bind, send. destruct (T_channels t !! id) as [ch|]; [|apply IH].
  destruct (Ch_Stopped ch); [apply IH|]. destruct (_ <? _)%nat; [|by split_and!; [done|done|right]].
  set (t1 := mkTracker _ _ _). destruct (IH t1) as (Hs & Ho & Hr). split_and!; [|by rewrite Ho|done].
  etrans; [|exact Hs]. split_and!; [done|done|]. apply length_insert.
Qed.

(** The namespace an object is stored in. *)
Definition placed (ns : string) (o : fobject) : fobject := mkFObject (O_Type o) (fill_namespace ns (O_Body o)).

Definition mismatch (ns : string) (b : body) : ferror :=
  FBadRequest ("request namespace does not match object namespace, request: " +:+ ns +:+ " object: " +:+
               B_Namespace (fill_namespace ns b)).

Lemma fill_key ns b : (ns =? B_Namespace (fill_namespace ns b)) = true → body_key (fill_namespace ns b) = (ns, B_Name b).
Proof. intros ->%String.eqb_eq. unfold body_key, fill_namespace. by destruct (str_empty (B_Namespace b)). Qed.

(** What [add] answers, unless a channel is full. *)
Definition add_result (old : option fobject) (gvr : GVR) (ns : string) (b : body) (replace : bool) : option ferror :=
  if negb (ns =? B_Namespace (fill_namespace ns b)) then Some (mismatch ns b)
  else match old, replace with
       | Some _, false => Some (FAlreadyExists (group_resource gvr) (B_Name b))
       | None, true => Some (FNotFound (group_resource gvr) (B_Name b))
       | _, _ => None
       end.

Lemma add_spec gvr o ns replace t r t' : add gvr o ns replace t = (r, t') →
  let k := (ns, B_Name (O_Body o)) in
  match add_result (stored t gvr k) gvr ns (O_Body o) replace with
  | Some e => r = Err e ∧ same_objects t t'
  | None => (r = Ok tt ∧ updated t t' gvr k (Some (placed ns o))) ∨ r = Panic "channel full"
  end.
Proof.
  unfold add, add_result. destruct (ns =? B_Namespace _) eqn:Hns; cbn [negb]; [|by intros [= <- <-]].
  assert (B_Name (fill_namespace ns (O_Body o)) = B_Name (O_Body o)) as Hname.
  { unfold fill_namespace. by destruct (str_empty _). }
  rewrite (fill_key ns (O_Body o)) by done. rewrite Hname. fold (placed ns o).
  unfold mbind, trk_bind, with_objects, gets. cbn [fst snd T_objects T_watchers T_channels].
  set (k := (ns, B_Name (O_Body o))). set (t1 := mkTracker (partial_alter _ gvr (T_objects t)) (T_watchers t) (T_channels t)).
  assert (same_objects t t1) as H1.
  { split; [|done]. intros g k'. subst t1. unfold stored. cbn [T_objects].
    destruct (decide (g = gvr)) as [->|Hne]; [|by rewrite lookup_partial_alter_ne].
    rewrite lookup_partial_alter_eq. by destruct (T_objects t !! gvr). }
  assert (is_Some (T_objects t1 !! gvr)) as [objs Hobjs] by (subst t1; cbn; rewrite lookup_partial_alter_eq; by eexists).
  assert (∀ t2, T_objects t2 = T_objects t1 → updated t2
    (mkTracker (alter (<[k := placed ns o]>) gvr (T_objects t2)) (T_watchers t2) (T_channels t2)) gvr k (Some (placed ns o))) as Hins.
  { intros t2 Ht2. apply stored_alter; [|by rewrite Ht2, Hobjs]. intros objs' _. split; [apply lookup_insert_eq|].
    intros k' Hk'. by apply lookup_insert_ne. }
  rewrite <- (proj1 H1 gvr k). destruct (stored t1 gvr k) as [old|], replace; [| |by intros [= <- <-]|].
  - unfold notify. destruct (broadcast_keeps (EvModified (placed ns o)) (getWatches gvr ns t1) t1) as (Hs & Ho & Hr).
    destruct (broadcast _ _ t1) as [r2 t2]. cbn [fst snd] in *. destruct Hr as [-> | ->]; intros [= <- <-]; [left|by right].
    split; [done|]. eapply updated_between; [etrans; [exact H1|exact Hs]|by apply Hins|done].
  - by intros [= <- <-].
  - unfold notify. set (t2 := mkTracker (alter _ gvr (T_objects t1)) _ _).
    destruct (broadcast_keeps (EvAdded (placed ns o)) (getWatches gvr ns t2) t2) as (Hs & Ho & Hr).
    destruct (broadcast _ _ t2) as [r3 t3]. cbn [fst snd] in *. intros [= <- <-].
    destruct Hr as [-> | ->]; [left|by right]. split; [done|].
    eapply updated_between; [exact H1|by apply Hins|exact Hs].
Qed.

Lemma tracker_Delete_spec gvr ns name t r t' : tracker_Delete gvr ns name t = (r, t') →
  match stored t gvr (ns, name) with
  | None => r = Err (FNotFound (group_resource gvr) name) ∧ t' = t
  | Some _ => (r = Ok tt ∧ updated t t' gvr (ns, name) None) ∨ r = Panic "channel full"
  end.
Proof.
  unfold tracker_Delete, tracker_Get, mbind, trk_bind, with_objects, gets, mret, trk_ret, fail.
  destruct (stored t gvr (ns, name)) as [o|] eqn:Hold; [|by intros [= <- <-]].
  set (t1 := mkTracker _ _ _). unfold notify.
  destruct (broadcast_keeps (EvDeleted o) (getWatches gvr ns t1) t1) as (Hs & Ho & Hr).
  destruct (broadcast _ _ t1) as [r2 t2]. cbn [fst snd] in *. intros [= <- <-].
  destruct Hr as [-> | ->]; [left|by right]. split; [done|].
  eapply (updated_between t t); [done| |exact Hs]. apply stored_alter; [|done].
  intros objs _. split; [apply lookup_delete_eq|]. intros k' Hk'. by apply lookup_delete_ne.
Qed.

(** With room in the channels nothing panics. *)
Lemma notify_room gvr ns ev t t1 : watchers_ok t → room t → T_watchers t1 = T_watchers t → T_channels t1 = T_channels t →
  (notify gvr ns ev t1).1 = Ok tt.
Proof.
  intros [H1 H2 H3] Hroom Hw Hc. unfold room in Hroom.
  destruct (notify_spec gvr ns ev t1) as (chs & -> & _); [|by unfold room; rewrite Hc|done].
  split; unfold ids_at in *; rewrite ?Hw, ?Hc; [exact H1|exact H2|exact H3].
Qed.

Lemma add_room gvr o ns replace t w : watchers_ok t → room t → (add gvr o ns replace t).1 ≠ Panic w.
Proof.
  intros Hok Hroom. unfold add. destruct (negb _); [done|].
  unfold mbind, trk_bind, with_objects, gets. cbn [fst snd T_objects T_watchers T_channels].
  destruct (stored _ _ _), replace; try done.
  - match goal with |- context [notify gvr ns ?ev ?t1] => pose proof (notify_room gvr ns ev t t1 Hok Hroom eq_refl eq_refl) as Hn;
      destruct (notify gvr ns ev t1) as [r t2] end. cbn in Hn. by subst r.
  - match goal with |- context [notify gvr ns ?ev ?t1] => pose proof (notify_room gvr ns ev t t1 Hok Hroom eq_refl eq_refl) as Hn end.
    by rewrite Hn.
Qed.

Lemma tracker_Delete_room gvr ns name t w : watchers_ok t → room t → (tracker_Delete gvr ns name t).1 ≠ Panic w.
Proof.
  intros Hok Hroom. unfold tracker_Delete, tracker_Get, mbind, trk_bind, with_objects, gets, mret, trk_ret.
  destruct (stored t gvr (ns, name)) as [o|]; [|done].
  match goal with |- context [notify gvr ns ?ev ?t1] => pose proof (notify_room gvr ns ev t t1 Hok Hroom eq_refl eq_refl) as Hn end.
  by rewrite Hn.
Qed.

(** ** The invariant of the tracker *)

(** The Go type of the objects of a resource. *)
Definition gvr_type (g : GVR) : option string :=
  F_Type <$> List.find (λ c, bool_decide (F_GVR c = g)) (fake_clients "").

Record tracker_ok (t : tracker) : Prop := {
  ok_key g k o : stored t g k = Some o → body_key (O_Body o) = k;
  ok_type g k o : stored t g k = Some o → gvr_type g = Some (O_Type o);
  ok_watch : watchers_ok t;
}.

Lemma watchers_ok_same t t' : watchers_ok t → T_watchers t' = T_watchers t → length (T_channels t') = length (T_channels t) → watchers_ok t'.
Proof. intros [H1 H2 H3] Hw Hl. split; unfold ids_at in *; rewrite ?Hw, ?Hl; [exact H1|exact H2|exact H3]. Qed.

Lemma tracker_ok_updated t t' g k v : tracker_ok t → updated t t' g k v →
  (∀ o, v = Some o → body_key (O_Body o) = k ∧ gvr_type g = Some (O_Type o)) → tracker_ok t'.
Proof.
  intros [Hk Ht Hw] (Hs & Hw' & Hl) Hv. split; [| |by apply (watchers_ok_same t)].
  - intros g' k' o. rewrite Hs. case_decide as Hd; [|apply Hk]. destruct Hd as [-> ->]. apply Hv.
  - intros g' k' o. rewrite Hs. case_decide as Hd; [|apply Ht]. destruct Hd as [-> ->]. apply Hv.
Qed.

Lemma tracker_ok_same t t' : tracker_ok t → same_objects t t' → tracker_ok t'.
Proof.
  intros [Hk Ht Hw] (Hs & Hw' & Hl). split; [intros g k o; rewrite Hs; apply Hk|intros g k o; rewrite Hs; apply Ht|].
  by apply (watchers_ok_same t).
Qed.

Lemma tracker_ok_add t t' g ns o replace r : tracker_ok t → gvr_type g = Some (O_Type o) →
  add g o ns replace t = (r, t') → r = Ok tt ∨ (∃ e, r = Err e) → tracker_ok t'.
Proof.
  intros Ht Htype Hadd Hr. pose proof (add_spec g o ns replace t r t' Hadd) as Hs. cbv zeta in Hs.
  unfold add_result in Hs. destruct (ns =? _) eqn:Hns; cbn [negb] in Hs.
  2: { destruct Hs as [_ Hs]. by apply (tracker_ok_same t). }
  assert (updated t t' g (ns, B_Name (O_Body o)) (Some (placed ns o)) → tracker_ok t') as Hup.
  { intros Hu. eapply tracker_ok_updated; [exact Ht|exact Hu|]. intros o' [= <-]. split; [by apply fill_key|done]. }
  destruct (stored t g _), replace; try (destruct Hs as [_ Hs]; by apply (tracker_ok_same t));
    (destruct Hs as [[_ Hs] | ->]; [by apply Hup|]; destruct Hr as [?|[e ?]]; congruence).
Qed.

(** ** The clients *)

Lemma fake_client_facts ns c : c ∈ fake_clients ns →
  F_Namespace c = ns ∧ gvr_type (F_GVR c) = Some (F_Type c) ∧
  scheme_New (F_GroupVersion c) (F_Kind c) = Some (F_Type c) ∧
  scheme_New (F_GroupVersion c) (F_Kind c +:+ "List") = Some (F_Type c +:+ "List").
Proof.
  intros Hc. unfold fake_clients in Hc. repeat (apply elem_of_cons in Hc as [->|Hc]; [by split_and!; vm_compute|]).
  by apply elem_of_nil in Hc.
Qed.

(** Adding initial objects: their kinds decide where they go. *)
Lemma guess_resource type gv kind : (gv, kind) ∈ ObjectKinds type →
  HasSuffix type "List" = false → gvr_type (UnsafeGuessKindToResource gv kind) = Some type.
Proof.
  unfold ObjectKinds. intros (e & [= -> ->] & He)%list_elem_of_fmap Hl. apply list_elem_of_In, filter_In in He as [He <-%String.eqb_eq].
  apply list_elem_of_In in He. vm_compute in He.
  repeat (apply elem_of_cons in He as [->|He]; [try (vm_compute in Hl; done); by vm_compute|]).
  by apply elem_of_nil in He.
Qed.

(** A clientset as [NewSimpleClientset] makes it, later on. *)
Record fake_ok (patched : patch → fobject → res ferror body) (s : clientset) : Prop := {
  fake_chain : CS_chain s = [mkReactor "*" "*" (ObjectReaction patched)];
  fake_watch_chain : CS_watch_chain s = [mkWatchReactor "*" default_watch];
  fake_tracker : tracker_ok (CS_tracker s);
}.

(** After an action. *)
Definition acted (s : clientset) (a : action) (t : tracker) : clientset :=
  mkClientset (CS_actions s ++ [a])%list (CS_chain s) (CS_watch_chain s) t.

Lemma Handles_default patched a : Handles (mkReactor "*" "*" (ObjectReaction patched)) a = true.
Proof. done. Qed.

Lemma Invokes_default patched a d s : CS_chain s = [mkReactor "*" "*" (ObjectReaction patched)] →
  Invokes a d s =
  match ObjectReaction patched a (CS_tracker s) with
  | (Ok NotHandled, t) => (Ok (Some d, None), acted s a t)
  | (Ok (Handled ans), t) => (Ok ans, acted s a t)
  | (Err e, t) => (Err e, acted s a t)
  | (Panic w, t) => (Panic w, acted s a t)
  end.
Proof.
  intros Hc. unfold Invokes, on_tracker, acted. rewrite Hc. cbn [react_chain]. rewrite Handles_default. cbn [negb R_Reaction].
  unfold mbind, trk_bind, mret, trk_ret. by destruct (ObjectReaction patched a (CS_tracker s)) as [[[|ans]|e|w] t].
Qed.

(** The operations on one object. *)
Lemma invoke_object_default patched c a (m : trk fobject) s :
  CS_chain s = [mkReactor "*" "*" (ObjectReaction patched)] → ObjectReaction patched a = handled (λ o, Some (RObject o)) m →
  invoke_object c a s =
  match m (CS_tracker s) with
  | (Ok o, t) => (if O_Type o =? F_Type c then Ok (O_Body o, None) else Panic ("interface conversion: " +:+ O_Type o), acted s a t)
  | (Err e, t) => (Ok (empty_body, Some e), acted s a t)
  | (Panic w, t) => (Panic w, acted s a t)
  end.
Proof.
  intros Hc Ha. unfold invoke_object, mbind, fk_bind. rewrite (Invokes_default patched) by done. rewrite Ha. unfold handled.
  destruct (m (CS_tracker s)) as [[o|e|w] t]; [|done..]. unfold as_object. cbn [fst snd]. by destruct (_ =? _).
Qed.

(** ** The specification: a map *)

Inductive fake_op : Type :=
| FGet (name : string)
| FList (sel : selector)
| FWatch (sel : selector)
| FCreate (b : body)
| FUpdate (b : body)
| FUpdateStatus (b : body)
| FDelete (name : string)
| FDeleteCollection (sel : selector)
| FPatch (name : string) (p : patch) (subs : list string).

Inductive outcome : Type :=
| OutObject (b : body) (e : option ferror)
| OutList (l : list body) (e : option ferror)
| OutDone (e : option ferror)
| OutWatch (w : option nat).

Definition fake_run (c : fake_client) (op : fake_op) : fk outcome :=
  let object (m : fk (body * option ferror)) := '(b, e) ← m; mret (OutObject b e) in
  match op with
  | FGet name => object (Fake_Get c name)
  | FList sel => '(l, e) ← Fake_List c sel; mret (OutList l e)
  | FWatch sel => w ← Fake_Watch c sel; mret (OutWatch w)
  | FCreate b => object (Fake_Create c b)
  | FUpdate b => object (Fake_Update c b)
  | FUpdateStatus b => object (Fake_UpdateStatus c b)
  | FDelete name => e ← Fake_Delete c name; mret (OutDone e)
  | FDeleteCollection sel => e ← Fake_DeleteCollection c sel; mret (OutDone e)
  | FPatch name p subs => object (Fake_Patch c name p subs)
  end.

(** The objects of a cluster, as far as the fake has them. *)
Abbreviation fstore := (gmap (GVR * nsname) body).

Definition store_put (g : GVR) (ns : string) (b : body) (m : fstore) : fstore :=
  <[(g, (ns, B_Name b)) := fill_namespace ns b]> m.

(** Writing an object: the error, or the new store. *)
Definition put_result (m : fstore) (g : GVR) (ns : string) (b : body) (replace : bool) : ferror + fstore :=
  if negb (ns =? B_Namespace (fill_namespace ns b)) then inl (mismatch ns b)
  else match m !! (g, (ns, B_Name b)), replace with
       | Some _, false => inl (FAlreadyExists (group_resource g) (B_Name b))
       | None, true => inl (FNotFound (group_resource g) (B_Name b))
       | _, _ => inr (store_put g ns b m)
       end.

Definition lookup_out (g : GVR) (ns name : string) (m : fstore) : outcome :=
  match m !! (g, (ns, name)) with
  | Some b => OutObject b None
  | None => OutObject empty_body (Some (FNotFound (group_resource g) name))
  end.

(** The items of a list: those of the namespace, or of all, that match. *)
Record listed_items (m : fstore) (g : GVR) (ns : string) (matches : gmap string string → bool) (l : list body) : Prop := {
  items_are b : b ∈ l ↔ (∃ k, m !! (g, k) = Some b ∧ (ns = "" ∨ k.1 = ns)) ∧ matches (B_Labels b) = true;
  items_once : NoDup (body_key <$> l);
  items_sorted : StronglySorted (λ a b, object_le (mkFObject "" a) (mkFObject "" b)) l;
}.

(** What an operation answers and how it changes the objects. *)
Definition fake_spec (patched : patch → fobject → res ferror body) (c : fake_client) (op : fake_op)
    (m : fstore) (out : outcome) (m' : fstore) : Prop :=
  let g := F_GVR c in
  let ns := F_Namespace c in
  let put b replace :=
    match put_result m g ns b replace with
    | inl e => out = OutObject empty_body (Some e) ∧ m' = m
    | inr m1 => out = OutObject (fill_namespace ns b) None ∧ m' = m1
    end in
  match op with
  | FGet name => out = lookup_out g ns name m ∧ m' = m
  | FList sel => ∃ l matches, sel = Some matches ∧ out = OutList l None ∧ listed_items m g ns matches l ∧ m' = m
  | FWatch sel => ∃ id, out = OutWatch (Some id) ∧ m' = m
  | FCreate b => put b false
  | FUpdate b | FUpdateStatus b => put b true
  | FDelete name =>
      match m !! (g, (ns, name)) with
      | Some _ => out = OutDone None ∧ m' = delete (g, (ns, name)) m
      | None => out = OutDone (Some (FNotFound (group_resource g) name)) ∧ m' = m
      end
  | FDeleteCollection _ => out = OutDone None ∧ m' = m
  | FPatch name p _ =>
      match m !! (g, (ns, name)) with
      | None => out = OutObject empty_body (Some (FNotFound (group_resource g) name)) ∧ m' = m
      | Some b =>
          match patched p (typed_object c b) with
          | Ok b' =>
              match put_result m g ns b' true with
              | inl e => out = OutObject empty_body (Some e) ∧ m' = m
              | inr m1 => out = (if P_Apply p then lookup_out g ns name m1 else OutObject b' None) ∧ m' = m1
              end
          | Err e => out = OutObject empty_body (Some e) ∧ m' = m
          | Panic _ => False
          end
      end
  end.

(** The tracker holds the objects of a store. *)
Definition holds (t : tracker) (m : fstore) : Prop := ∀ g (k : nsname), O_Body <$> stored t g k = m !! (g, k).

Lemma holds_same t t' m : holds t m → same_objects t t' → holds t' m.
Proof. intros Hm (Hs & _) g k. by rewrite Hs. Qed.

Lemma holds_updated t t' m g (k : nsname) v : holds t m → updated t t' g k v →
  holds t' (partial_alter (λ _, O_Body <$> v) (g, k) m).
Proof.
  intros Hm (Hs & _) g' k'. rewrite Hs. case_decide as Hd.
  - destruct Hd as [-> ->]. by rewrite lookup_partial_alter_eq.
  - rewrite lookup_partial_alter_ne by naive_solver. apply Hm.
Qed.

(** Writing into the tracker writes into the store. *)
Lemma add_refined t m g o ns replace r t' :
  tracker_ok t → holds t m → gvr_type g = Some (O_Type o) → add g o ns replace t = (r, t') →
  (room t → ∀ w, r ≠ Panic w) ∧
  match r with
  | Ok _ => put_result m g ns (O_Body o) replace = inr (store_put g ns (O_Body o) m) ∧
      holds t' (store_put g ns (O_Body o) m) ∧ tracker_ok t' ∧ stored t' g (ns, B_Name (O_Body o)) = Some (placed ns o)
  | Err e => put_result m g ns (O_Body o) replace = inl e ∧ holds t' m ∧ tracker_ok t'
  | Panic _ => True
  end.
Proof.
  intros Ht Hm Htype Hadd. split.
  { intros Hroom w ->. apply (add_room g o ns replace t w); [apply Ht|done|by rewrite Hadd]. }
  pose proof (add_spec g o ns replace t r t' Hadd) as Hs. cbv zeta in Hs.
  assert (r = Ok tt ∨ (∃ e, r = Err e) → tracker_ok t') as Hok by (by eapply tracker_ok_add).
  unfold add_result in Hs. unfold put_result. rewrite <- (Hm g (ns, B_Name (O_Body o))).
  set (k := (ns, B_Name (O_Body o))) in *. destruct (ns =? _); cbn [negb] in *.
  2: { destruct Hs as [-> Hs]. split_and!; [done|by eapply holds_same|apply Hok; eauto]. }
  assert (updated t t' g k (Some (placed ns o)) → r = Ok tt →
    holds t' (store_put g ns (O_Body o) m) ∧ tracker_ok t' ∧ stored t' g k = Some (placed ns o)) as Hup.
  { intros Hu ->. split_and!; [|by apply Hok; left|].
    - exact (holds_updated _ _ _ _ _ _ Hm Hu).
    - destruct Hu as [Hu _]. rewrite Hu. by rewrite decide_True. }
  destruct (stored t g k), replace; cbn [fmap option_fmap option_map];
    first [ destruct Hs as [-> Hs]; split_and!; [done|by eapply holds_same|apply Hok; eauto]
          | destruct Hs as [[-> Hu] | ->]; [split; [done|by apply Hup]|done] ].
Qed.

Lemma stored_typed t ns c k o : tracker_ok t → c ∈ fake_clients ns → stored t (F_GVR c) k = Some o → O_Type o = F_Type c.
Proof.
  intros Ht Hc Ho. apply (ok_type _ Ht) in Ho. destruct (fake_client_facts ns c Hc) as (_ & Hg & _). congruence.
Qed.

(** The shape of what is to be shown of an operation. *)
Definition refined (patched : patch → fobject → res ferror body) (c : fake_client) (op : fake_op) (s : clientset) (m : fstore)
    (r : res ferror outcome) (s' : clientset) : Prop :=
  (room (CS_tracker s) → ∀ w, r ≠ Panic w) ∧ (∀ e, r ≠ Err e) ∧
  ∀ out, r = Ok out → ∃ m', fake_spec patched c op m out m' ∧ holds (CS_tracker s') m' ∧ fake_ok patched s'.

Lemma fake_ok_acted patched s a t : fake_ok patched s → tracker_ok t → fake_ok patched (acted s a t).
Proof. intros [Hc Hw Ht] Ht'. by split. Qed.

(** Operations that answer with an object. *)
Lemma refined_object patched ns c op a (mo : trk fobject) s m :
  c ∈ fake_clients ns → fake_ok patched s → holds (CS_tracker s) m →
  ObjectReaction patched a = handled (λ o, Some (RObject o)) mo →
  fake_run c op = ('(b, e) ← invoke_object c a; mret (OutObject b e)) →
  (room (CS_tracker s) → ∀ w, (mo (CS_tracker s)).1 ≠ Panic w) →
  match mo (CS_tracker s) with
  | (Ok o, t') => O_Type o = F_Type c ∧ ∃ m', fake_spec patched c op m (OutObject (O_Body o) None) m' ∧ holds t' m' ∧ tracker_ok t'
  | (Err e, t') => ∃ m', fake_spec patched c op m (OutObject empty_body (Some e)) m' ∧ holds t' m' ∧ tracker_ok t'
  | (Panic _, _) => True
  end →
  refined patched c op s m (fake_run c op s).1 (fake_run c op s).2.
Proof.
  intros Hc Hs Hm Ha Hrun Hroom Hmo. rewrite Hrun. unfold mbind at 1 2, fk_bind at 1 2.
  rewrite (invoke_object_default patched c a mo s) by (done || apply Hs).
  destruct (mo (CS_tracker s)) as [[o|e|w] t']; cbn [fst] in Hroom.
  - destruct Hmo as (Htype & m' & Hspec & Hh & Hok). rewrite Htype, String.eqb_refl. cbn. split_and!; [done|done|].
    intros out [= <-]. exists m'. split_and!; [done|done|by apply fake_ok_acted].
  - destruct Hmo as (m' & Hspec & Hh & Hok). cbn. split_and!; [done|done|].
    intros out [= <-]. exists m'. split_and!; [done|done|by apply fake_ok_acted].
  - cbn. split_and!; [|done|done]. intros Hr w' [= ->]. by apply (Hroom Hr w').
Qed.

Lemma tracker_Get_run g ns name t :
  tracker_Get g ns name t =
  match stored t g (ns, name) with Some o => (Ok o, t) | None => (Err (FNotFound (group_resource g) name), t) end.
Proof. unfold tracker_Get, mbind, trk_bind, gets. by destruct (stored t g (ns, name)). Qed.

(** Reading an object reads it from the store. *)
Lemma lookup_refined t m ns c (k : nsname) : tracker_ok t → c ∈ fake_clients ns → holds t m →
  match stored t (F_GVR c) k with
  | Some o => O_Type o = F_Type c ∧ m !! (F_GVR c, k) = Some (O_Body o)
  | None => m !! (F_GVR c, k) = None
  end.
Proof.
  intros Ht Hc Hm. pose proof (Hm (F_GVR c) k) as Hk. destruct (stored t (F_GVR c) k) as [o|] eqn:Ho; [|done].
  split; [by eapply stored_typed|done].
Qed.

(** *** Lists *)

Lemma elem_of_lfilter {A} (f : A → bool) l x : x ∈ List.filter f l ↔ x ∈ l ∧ f x = true.
Proof. by rewrite !list_elem_of_In, filter_In. Qed.

Lemma NoDup_fmap_lfilter {A B} (f : A → B) (p : A → bool) l : NoDup (f <$> l) → NoDup (f <$> List.filter p l).
Proof.
  induction l as [|x l IH]; [done|]. rewrite fmap_cons, NoDup_cons. intros [Hx Hl]. cbn [List.filter].
  destruct (p x); [|by apply IH]. rewrite fmap_cons, NoDup_cons. split; [|by apply IH].
  intros (y & Hy & Hin)%list_elem_of_fmap. apply elem_of_lfilter in Hin as [Hin _]. apply Hx, list_elem_of_fmap. by exists y.
Qed.

Lemma StronglySorted_fmap_lfilter {A B} (R : A → A → Prop) (R' : B → B → Prop) (f : A → B) (p : B → bool) l :
  (∀ x y, R x y → R' (f x) (f y)) → StronglySorted R l → StronglySorted R' (List.filter p (f <$> l)).
Proof.
  intros Hf Hl. induction Hl as [|x l Hl IH Hx]; [constructor|]. cbn [fmap list_fmap List.filter].
  destruct (p (f x)); [|exact IH]. constructor; [exact IH|]. apply List.Forall_forall. intros y Hy.
  apply list_elem_of_In, elem_of_lfilter in Hy as [(z & -> & Hz)%list_elem_of_fmap _]. rewrite Forall_forall in Hx. by apply Hf, Hx.
Qed.

(** The items of a list are those of the store. *)
Lemma list_items t m g ns matches objs : tracker_ok t → holds t m → T_objects t !! g = Some objs →
  listed_items m g ns matches (List.filter (λ b, matches (B_Labels b)) (O_Body <$> filterByNamespace objs ns)).
Proof.
  intros Ht Hm Hobjs.
  assert (∀ k, stored t g k = objs !! k) as Hst by (intros k; unfold stored; by rewrite Hobjs).
  assert (∀ o, o ∈ filterByNamespace objs ns ↔ ∃ k, objs !! k = Some o ∧ (ns = "" ∨ k.1 = ns)) as Hin.
  { intros o. unfold filterByNamespace. rewrite merge_sort_Permutation, elem_of_lfilter, list_elem_of_fmap. split.
    - intros [([k o'] & -> & Ho) Hns]. apply elem_of_map_to_list in Ho. exists k. split; [done|].
      assert (body_key (O_Body o') = k) as <- by (apply (ok_key _ Ht g); by rewrite Hst).
      apply orb_true_iff in Hns as [Hns|Hns]; [left; by destruct ns|right; by apply String.eqb_eq].
    - intros (k & Ho & Hns). assert (body_key (O_Body o) = k) as <- by (apply (ok_key _ Ht g); by rewrite Hst).
      split; [exists (body_key (O_Body o), o); split; [done|by apply elem_of_map_to_list]|].
      apply orb_true_iff. destruct Hns as [-> | <-]; [by left|right; apply String.eqb_refl]. }
  split.
  - intros b. rewrite elem_of_lfilter, list_elem_of_fmap. f_equiv. split.
    + intros (o & -> & (k & Hk & Hns)%Hin). exists k. by rewrite <- Hm, Hst, Hk.
    + intros (k & Hk & Hns). rewrite <- Hm, Hst in Hk. destruct (objs !! k) as [o|] eqn:Ho; [|done]. injection Hk as <-.
      exists o. split; [done|]. apply Hin. by exists k.
  - apply NoDup_fmap_lfilter. unfold filterByNamespace. rewrite merge_sort_Permutation, <- list_fmap_compose.
    apply NoDup_fmap_lfilter. rewrite <- list_fmap_compose.
    rewrite (list_fmap_ext _ fst); [apply NoDup_fst_map_to_list|].
    intros i [k o] Hi. cbn. apply (ok_key _ Ht g). rewrite Hst. apply elem_of_map_to_list. by apply list_elem_of_lookup_2 in Hi.
  - eapply StronglySorted_fmap_lfilter; [|apply (StronglySorted_merge_sort object_le)]. done.
Qed.

Section operations.
Context (patched : patch → fobject → res ferror body) (Hpatched : ∀ p o w, patched p o ≠ Panic w).
Context (ns : string) (c : fake_client) (Hc : c ∈ fake_clients ns).
Context (s : clientset) (m : fstore) (Hs : fake_ok patched s) (Hm : holds (CS_tracker s) m).

#[local] Abbreviation result op := (refined patched c op s m (fake_run c op s).1 (fake_run c op s).2).

Lemma client_type : gvr_type (F_GVR c) = Some (F_Type c).
Proof. by destruct (fake_client_facts ns c Hc) as (_ & Hg & _). Qed.

Lemma get_refined name : result (FGet name).
Proof.
  apply (refined_object patched ns c _ (GetAction (F_GVR c) (F_Namespace c) name) (tracker_Get (F_GVR c) (F_Namespace c) name));
    [done..|intros _ w; rewrite tracker_Get_run; by destruct (stored _ _ _)|].
  rewrite tracker_Get_run. pose proof (lookup_refined (CS_tracker s) m ns c (F_Namespace c, name) (fake_tracker _ _ Hs) Hc Hm) as Hk.
  cbn [fake_spec]. unfold lookup_out. destruct (stored _ _ _) as [o|].
  - destruct Hk as [Ht ->]. split; [done|]. exists m. by repeat split; try apply Hs.
  - rewrite Hk. exists m. by repeat split; try apply Hs.
Qed.

(** Create, update and update of the status. *)
Lemma put_refined op sub replace b :
  op = (if replace : bool then (if str_empty sub then FUpdate b else FUpdateStatus b) else FCreate b) →
  (if replace then sub = "" ∨ sub = "status" else sub = "") → result op.
Proof.
  intros Hop Hsub. set (o := typed_object c b).
  set (a := if replace then UpdateAction (F_GVR c) sub (F_Namespace c) o else CreateAction (F_GVR c) "" "" (F_Namespace c) o).
  set (mo := (_ ← add (F_GVR c) o (F_Namespace c) replace; tracker_Get (F_GVR c) (F_Namespace c) (B_Name b)) : trk fobject).
  assert (ObjectReaction patched a = handled (λ o, Some (RObject o)) mo) as Ha.
  { subst a mo. by destruct replace. }
  assert (fake_run c op = ('(b, e) ← invoke_object c a; mret (OutObject b e))) as Hrun.
  { subst op a. destruct replace; [|done]. by destruct Hsub as [-> | ->]. }
  destruct (add (F_GVR c) o (F_Namespace c) replace (CS_tracker s)) as [r t1] eqn:Hadd.
  pose proof (add_refined _ m _ o _ _ _ _ (fake_tracker _ _ Hs) Hm client_type Hadd) as [Hroom Hr].
  assert (mo (CS_tracker s) = match r with Ok _ => tracker_Get (F_GVR c) (F_Namespace c) (B_Name b) t1
            | Err e => (Err e, t1) | Panic w => (Panic w, t1) end) as Hmo.
  { subst mo. unfold mbind, trk_bind. rewrite Hadd. by destruct r. }
  apply (refined_object patched ns c op a mo); [done..| |].
  - intros Hro w. rewrite Hmo. destruct r as [[]|e|w']; [|done|by destruct (Hroom Hro w')].
    destruct Hr as (_ & _ & _ & Hst). rewrite tracker_Get_run. cbn in Hst. by rewrite Hst.
  - rewrite Hmo. destruct r as [[]|e|w']; [| |done].
    + destruct Hr as (Hput & Hh & Hok & Hst). rewrite tracker_Get_run. cbn in Hst. rewrite Hst. split; [done|].
      eexists. split_and!; [|exact Hh|done]. subst op.
      destruct replace; [destruct (str_empty sub)|]; cbn [fake_spec O_Body typed_object o] in *; by rewrite Hput.
    + destruct Hr as (Hput & Hh & Hok). exists m. split_and!; [|done|done]. subst op.
      destruct replace; [destruct (str_empty sub)|]; cbn [fake_spec O_Body typed_object o] in *; by rewrite Hput.
Qed.

Lemma delete_refined name : result (FDelete name).
Proof.
  unfold refined. cbn [fake_run]. unfold Fake_Delete, mbind, fk_bind. rewrite (Invokes_default patched) by apply Hs.
  cbn [ObjectReaction]. unfold handled.
  pose proof (tracker_Delete_spec (F_GVR c) (F_Namespace c) name (CS_tracker s)) as Hd.
  pose proof (tracker_Delete_room (F_GVR c) (F_Namespace c) name (CS_tracker s)) as Hroom.
  pose proof (lookup_refined (CS_tracker s) m ns c (F_Namespace c, name) (fake_tracker _ _ Hs) Hc Hm) as Hk.
  destruct (tracker_Delete _ _ _ _) as [r t']. specialize (Hd r t' eq_refl). cbn [fst] in Hroom.
  cbn [fake_spec]. destruct (stored _ _ _) as [o|].
  - destruct Hk as [_ ->]. destruct Hd as [[-> Hu] | ->]; cbn.
    + split_and!; [done|done|]. intros out [= <-]. exists (delete (F_GVR c, (F_Namespace c, name)) m).
      split; [done|]. split; [exact (holds_updated _ _ _ _ _ _ Hm Hu)|]. apply fake_ok_acted; [done|].
      eapply tracker_ok_updated; [apply Hs|exact Hu|done].
    + split_and!; [|done|done]. intros Hr w [= <-]. exact (Hroom _ (ok_watch _ (fake_tracker _ _ Hs)) Hr eq_refl).
  - rewrite Hk. destruct Hd as [-> ->]. cbn. split_and!; [done|done|]. intros out [= <-]. exists m.
    split; [done|]. split; [done|]. apply fake_ok_acted; [done|apply Hs].
Qed.

Lemma patch_refined name p subs : result (FPatch name p subs).
Proof.
  set (a := PatchAction (F_GVR c) (path_join subs) (F_Namespace c) name p).
  apply (refined_object patched ns c _ a (react_Patch patched (F_GVR c) (F_Namespace c) name p)); [done..| |].
  all: pose proof (lookup_refined (CS_tracker s) m ns c (F_Namespace c, name) (fake_tracker _ _ Hs) Hc Hm) as Hk.
  all: unfold react_Patch, mbind, trk_bind, lift_patch; rewrite tracker_Get_run; cbn [fake_spec].
  all: destruct (stored (CS_tracker s) (F_GVR c) (F_Namespace c, name)) as [o|];
    [destruct Hk as [Ht Hk]; rewrite ?Hk|rewrite ?Hk].
  all: try (assert (typed_object c (O_Body o) = o) as -> by (destruct o; cbn in *; by subst)).
  all: try (destruct (patched p o) as [b|e|w0] eqn:Hp; [|try done|by destruct (Hpatched p o w0)]).
  all: try (set (o' := mkFObject (O_Type o) b); destruct (add (F_GVR c) o' (F_Namespace c) true (CS_tracker s)) as [r t1] eqn:Hadd;
    assert (gvr_type (F_GVR c) = Some (O_Type o')) as Htype by (cbn; rewrite Ht; apply client_type);
    pose proof (add_refined _ m _ o' _ _ _ _ (fake_tracker _ _ Hs) Hm Htype Hadd) as [Hroom Hr]).
  - intros Hro w. destruct r as [[]|e|w']; [|done|by destruct (Hroom Hro w')].
    destruct (P_Apply p); [|done]. rewrite tracker_Get_run. clear Hr. by destruct (stored t1 _ _).
  - done.
  - destruct r as [[]|e|w']; [| |done].
    + destruct Hr as (Hput & Hh & Hok & _). cbn [O_Body o'] in *. rewrite Hput. destruct (P_Apply p).
      * rewrite tracker_Get_run. pose proof (lookup_refined t1 _ ns c (F_Namespace c, name) Hok Hc Hh) as Hk1. unfold lookup_out.
        destruct (stored t1 _ _) as [o1|]; [destruct Hk1 as [Ht1 Hk1]; split; [done|]|];
          rewrite Hk1; eexists; (split; [by split|]); by split.
      * split; [done|]. eexists. split; [by split|]. by split.
    + destruct Hr as (Hput & Hh & Hok). cbn [O_Body o'] in *. rewrite Hput. exists m. by repeat split; try apply Hok.
  - exists m. by repeat split; try apply Hs.
  - exists m. by repeat split; try apply Hs.
Qed.

Lemma list_refined matches : result (FList (Some matches)).
Proof.
  destruct (fake_client_facts ns c Hc) as (_ & Hg & Hk & Hl).
  unfold refined. cbn [fake_run]. unfold Fake_List, with_selector, mbind, fk_bind. rewrite (Invokes_default patched) by apply Hs.
  cbn [ObjectReaction]. unfold handled, tracker_List, mbind, trk_bind, gets. rewrite Hl, Hk.
  assert (∀ l, listed_items m (F_GVR c) (F_Namespace c) matches l →
    ∃ m', fake_spec patched c (FList (Some matches)) m (OutList l None) m' ∧ holds (CS_tracker s) m') as Hspec.
  { intros l Hitems. exists m. split; [|done]. by exists l, matches. }
  destruct (T_objects (CS_tracker s) !! F_GVR c) as [objs|] eqn:Hobjs.
  - assert (forallb (λ o, bool_decide (Some (F_Type c) = Some (O_Type o))) (filterByNamespace objs (F_Namespace c)) = true) as ->.
    { apply forallb_forall. intros o Ho%list_elem_of_In. unfold filterByNamespace in Ho.
      rewrite merge_sort_Permutation, elem_of_lfilter, list_elem_of_fmap in Ho. destruct Ho as [([k o'] & -> & Ho) _].
      apply elem_of_map_to_list in Ho. apply bool_decide_eq_true. f_equal. symmetry.
      apply (stored_typed (CS_tracker s) ns c k); [apply Hs|done|]. unfold stored. by rewrite Hobjs. }
    cbn. rewrite String.eqb_refl. cbn. split_and!; [done|done|]. intros out [= <-].
    destruct (Hspec _ (list_items _ m _ _ matches _ (fake_tracker _ _ Hs) Hm Hobjs)) as (m' & Hm1 & Hm2).
    exists m'. split; [exact Hm1|]. split; [exact Hm2|]. apply fake_ok_acted; [done|apply Hs].
  - cbn. rewrite String.eqb_refl. cbn. split_and!; [done|done|]. intros out [= <-].
    destruct (Hspec []) as (m' & Hm1 & Hm2).
    { split; [|constructor|constructor]. intros b. split; [by intros ?%elem_of_nil|]. intros [(k & Hb & _) _].
      rewrite <- Hm in Hb. unfold stored in Hb. by rewrite Hobjs in Hb. }
    exists m'. split; [exact Hm1|]. split; [exact Hm2|]. apply fake_ok_acted; [done|apply Hs].
Qed.

(** No reaction deletes collections. *)
Lemma delete_collection_refined matches : result (FDeleteCollection (Some matches)).
Proof.
  unfold refined. cbn [fake_run]. unfold Fake_DeleteCollection, with_selector, mbind, fk_bind.
  rewrite (Invokes_default patched) by apply Hs. cbn. split_and!; [done|done|]. intros out [= <-]. exists m.
  split; [done|]. split; [done|]. apply fake_ok_acted; [done|apply Hs].
Qed.

Lemma watch_refined matches : result (FWatch (Some matches)).
Proof.
  unfold refined. cbn [fake_run]. unfold Fake_Watch, with_selector, InvokesWatch, on_tracker, mbind, fk_bind.
  rewrite (fake_watch_chain _ _ Hs). cbn [watch_chain]. change (resourceCovers _ _) with true. cbn -[tracker_Watch].
  split_and!; [done|done|]. intros out [= <-]. exists m. split; [by eexists|]. split; [exact Hm|].
  destruct Hs as [Hch Hwc [Hk Ht Hw]]. split; [done|done|]. split; [exact Hk|exact Ht|].
  by apply tracker_Watch_ok.
Qed.
End operations.

(** The operations whose label selector can be parsed, if they have one. *)
Definition selectable (op : fake_op) : Prop :=
  match op with FList sel | FWatch sel | FDeleteCollection sel => is_Some sel | _ => True end.

Lemma op_refined patched ns c op s m :
  (∀ p o w, patched p o ≠ Panic w) → c ∈ fake_clients ns → selectable op → fake_ok patched s → holds (CS_tracker s) m →
  refined patched c op s m (fake_run c op s).1 (fake_run c op s).2.
Proof.
  intros Hp Hc Hsel Hs Hm. destruct op as [n|sel|sel|b|b|b|n|sel|n p subs]; cbn in Hsel; try destruct Hsel as [matches ->].
  - by eapply get_refined.
  - by eapply list_refined.
  - by eapply watch_refined.
  - by apply (put_refined patched ns c Hc s m Hs Hm _ "" false b).
  - by apply (put_refined patched ns c Hc s m Hs Hm _ "" true b); [|left].
  - by apply (put_refined patched ns c Hc s m Hs Hm _ "status" true b); [|right].
  - by eapply delete_refined.
  - by eapply delete_collection_refined.
  - by eapply patch_refined.
Qed.

(** ** The initial objects *)

(** A single object is not of a list type. *)
Definition plain (o : fobject) : Prop := HasSuffix (O_Type o) "List" = false.
Definition members (obj : robject) : list fobject := match obj with RObject o => [o] | RList _ items => items end.

(** The kinds of a type: one, that of its client, or none. *)
Lemma plain_kinds o : plain o →
  ObjectKinds (O_Type o) = [] ∨
  ∃ c gv kind, c ∈ fake_clients (B_Namespace (O_Body o)) ∧ F_Type c = O_Type o ∧ ObjectKinds (O_Type o) = [(gv, kind)] ∧
    UnsafeGuessKindToResource gv kind = F_GVR c.
Proof.
  intros Hp. unfold plain in Hp. destruct (ObjectKinds (O_Type o)) as [|[gv kind] l] eqn:Hk; [by left|right].
  assert ((gv, kind) ∈ ObjectKinds (O_Type o)) as Hin by (rewrite Hk; left).
  unfold ObjectKinds in Hin. apply list_elem_of_fmap in Hin as (e & [= -> ->] & He). apply elem_of_lfilter in He as [He Ht%String.eqb_eq].
  rewrite <- Ht in Hp, Hk |- *. set (ns := B_Namespace (O_Body o)). clearbody ns. clear Ht.
  vm_compute in He.
  assert (∀ c, In c (fake_clients ns) → F_Type c = e.2 → ObjectKinds e.2 = [(parse_gv e.1.1, e.1.2)] →
    UnsafeGuessKindToResource (parse_gv e.1.1) e.1.2 = F_GVR c →
    ∃ c gv kind, c ∈ fake_clients ns ∧ F_Type c = e.2 ∧ ObjectKinds e.2 = [(gv, kind)] ∧
      UnsafeGuessKindToResource gv kind = F_GVR c) as Hgen.
  { intros c Hc%list_elem_of_In H1 H2 H3. by exists c, (parse_gv e.1.1), e.1.2. }
  rewrite <- Hk. fold (fake_clients ns).
  repeat (apply elem_of_cons in He as [->|He]); [..|by apply elem_of_nil in He]; try (by vm_compute in Hp).
  - apply (Hgen (FakeV1alpha1.newFakeVirtualMachineTemplates ns)); [cbn; auto|by vm_compute..].
  - apply (Hgen (FakeV1alpha1.newFakeVirtualMachineTemplateRequests ns)); [cbn; auto|by vm_compute..].
  - apply (Hgen (FakeV1beta1.newFakeVirtualMachineTemplates ns)); [cbn; auto|by vm_compute..].
  - apply (Hgen (FakeV1beta1.newFakeVirtualMachineTemplateRequests ns)); [cbn; auto|by vm_compute..].
Qed.

(** Objects that were there stay. *)
Definition extends (t t' : tracker) : Prop := ∀ g k o, stored t g k = Some o → stored t' g k = Some o.
#[export] Instance extends_preorder : PreOrder extends.
Proof. split; [by intros t g k o|]. intros t1 t2 t3 H1 H2 g k o Ho. by apply H2, H1. Qed.

Lemma add_object_ok o t t' : plain o → tracker_ok t → add_object o t = (Ok tt, t') →
  tracker_ok t' ∧ extends t t' ∧
  ∃ c, c ∈ fake_clients (B_Namespace (O_Body o)) ∧ F_Type c = O_Type o ∧ stored t' (F_GVR c) (body_key (O_Body o)) = Some o.
Proof.
  intros Hp Ht. unfold add_object. destruct (plain_kinds o Hp) as [-> | (c & gv & kind & Hc & Htype & -> & Hg)]; [done|].
  cbn [for_each]. unfold mbind, trk_bind, mret, trk_ret. rewrite Hg. set (ns := B_Namespace (O_Body o)).
  destruct (add (F_GVR c) o ns false t) as [r t1] eqn:Hadd. intros Hr.
  destruct r as [[]|e|w]; [|done|done]. injection Hr as <-.
  destruct (fake_client_facts ns c Hc) as (_ & Hgt & _). rewrite Htype in Hgt.
  assert (placed ns o = o) as Hpl.
  { unfold placed, fill_namespace. destruct o as [ty [n x l d]]. cbn in *. subst ns. by destruct n. }
  pose proof (add_spec _ _ _ _ _ _ _ Hadd) as Hspec. cbv zeta in Hspec. unfold add_result in Hspec.
  destruct (ns =? _); cbn [negb] in Hspec; [|by destruct Hspec].
  destruct (stored t (F_GVR c) (ns, B_Name (O_Body o))) as [old|] eqn:Hold; [by destruct Hspec|].
  destruct Hspec as [[_ Hu]|]; [|done]. rewrite Hpl in Hu. destruct Hu as (Hs & Hw & Hl). split_and!.
  - eapply tracker_ok_updated; [exact Ht|split; [exact Hs|by split]|]. by intros o' [= <-].
  - intros g k o' Ho'. rewrite Hs. case_decide as Hd; [|done]. destruct Hd as [-> ->]. congruence.
  - exists c. split_and!; [done|done|]. rewrite Hs. by rewrite decide_True.
Qed.

Lemma for_each_add l t t' : Forall plain l → tracker_ok t → for_each add_object l t = (Ok tt, t') →
  tracker_ok t' ∧ extends t t' ∧
  ∀ o, o ∈ l → ∃ c, c ∈ fake_clients (B_Namespace (O_Body o)) ∧ F_Type c = O_Type o ∧ stored t' (F_GVR c) (body_key (O_Body o)) = Some o.
Proof.
  intros Hl. revert t. induction Hl as [|o l Ho Hl IH]; intros t Ht; cbn [for_each].
  { intros [= <-]. split_and!; [done|done|]. by intros o ?%elem_of_nil. }
  unfold mbind, trk_bind. destruct (add_object o t) as [[[]|e|w] t1] eqn:Hadd; [|done..]. intros Hrest.
  destruct (add_object_ok o t t1 Ho Ht Hadd) as (Ht1 & He1 & c & Hc & Htype & Hst).
  destruct (IH t1 Ht1 Hrest) as (Ht2 & He2 & Hin). split_and!; [done|by etrans|].
  intros o' [->|Ho']%elem_of_cons; [|by apply Hin]. exists c. split_and!; [done|done|by apply He2].
Qed.

Lemma for_each_app {A} (f : A → trk unit) l1 l2 t :
  for_each f (l1 ++ l2)%list t = (_ ← for_each f l1; for_each f l2) t.
Proof.
  revert t. induction l1 as [|x l1 IH]; intros t; [done|]. cbn [app for_each]. unfold mbind, trk_bind in *.
  destruct (f x t) as [[[]|e|w] t1]; [apply IH|done..].
Qed.

Lemma tracker_Add_members obj t : tracker_Add obj t = for_each add_object (members obj) t.
Proof.
  destruct obj as [o|ty items]; [|done]. cbn. unfold mbind, trk_bind. by destruct (add_object o t) as [[[]|e|w] t1].
Qed.

Lemma for_each_members objs t : for_each tracker_Add objs t = for_each add_object (objs ≫= members) t.
Proof.
  revert t. induction objs as [|obj objs IH]; intros t; [done|]. cbn [for_each mbind list_bind]. rewrite for_each_app.
  unfold mbind, trk_bind in *. rewrite tracker_Add_members. destruct (for_each add_object (members obj) t) as [[[]|e|w] t1]; [apply IH|done..].
Qed.

Lemma tracker_ok_empty : tracker_ok NewObjectTracker.
Proof.
  split; [done|done|]. split.
  - intros gvr ns id Hid. unfold ids_at in Hid. cbn in Hid. change (default ∅ (∅ !! gvr)) with (∅ : gmap string (list nat)) in Hid.
    rewrite lookup_empty in Hid. by apply elem_of_nil in Hid.
  - intros gvr ns. unfold ids_at. change (default ∅ (T_watchers NewObjectTracker !! gvr)) with (∅ : gmap string (list nat)).
    rewrite lookup_empty. constructor.
  - intros gvr ns ns' id Hid. unfold ids_at in Hid. change (default ∅ (T_watchers NewObjectTracker !! gvr)) with (∅ : gmap string (list nat)) in Hid.
    rewrite lookup_empty in Hid. by apply elem_of_nil in Hid.
Qed.

Lemma NewSimpleClientset_run patched objs s : Forall plain (objs ≫= members) → NewSimpleClientset patched objs = Ok s →
  fake_ok patched s ∧ CS_actions s = [] ∧
  ∀ o, o ∈ objs ≫= members → ∃ c, c ∈ fake_clients (B_Namespace (O_Body o)) ∧ F_Type c = O_Type o ∧
    stored (CS_tracker s) (F_GVR c) (body_key (O_Body o)) = Some o.
Proof.
  intros Hplain. unfold NewSimpleClientset. rewrite for_each_members.
  destruct (for_each add_object _ NewObjectTracker) as [[[]|e|w] t] eqn:Hrun; [|done..]. intros [= <-].
  destruct (for_each_add _ _ _ Hplain tracker_ok_empty Hrun) as (Ht & _ & Hin). split_and!; [by split|done|exact Hin].
Qed.

(** ** Reachable clientsets *)

(** Reading an event from the channel of a watcher, and stopping a watcher. *)
Definition with_channel (id : nat) (f : channel → channel) (s : clientset) : clientset :=
  let t := CS_tracker s in
  mkClientset (CS_actions s) (CS_chain s) (CS_watch_chain s) (mkTracker (T_objects t) (T_watchers t) (alter f id (T_channels t))).

(** The expansions of both versions, with their resource, the package of
    their types and the subresource. *)
Definition expansion : Type := fake_client → string → body → fk (option body * option ferror).
Definition fake_expansions : list (GVR * string * string * expansion) :=
  [(FakeV1alpha1.virtualmachinetemplatesResource, "subresourcesv1alpha1", "process", FakeV1alpha1_Process);
   (FakeV1alpha1.virtualmachinetemplatesResource, "subresourcesv1alpha1", "create", FakeV1alpha1_CreateVirtualMachine);
   (FakeV1beta1.virtualmachinetemplatesResource, "subresourcesv1beta1", "process", FakeV1beta1_Process);
   (FakeV1beta1.virtualmachinetemplatesResource, "subresourcesv1beta1", "create", FakeV1beta1_CreateVirtualMachine)].

Inductive fake_step (s : clientset) : clientset → Prop :=
| step_op ns c op out s' : c ∈ fake_clients ns → fake_run c op s = (Ok out, s') → fake_step s s'
| step_expansion ns c e name options r s' :
    c ∈ fake_clients ns → e ∈ fake_expansions → e.2 c name options s = (Ok r, s') → fake_step s s'
| step_read id : fake_step s (with_channel id (λ ch, mkChannel (tail (Ch_Events ch)) (Ch_Stopped ch)) s)
| step_stop id : fake_step s (with_channel id (λ ch, mkChannel (Ch_Events ch) true) s).

(** The store of a tracker. *)
Definition store_of (s : clientset) : fstore := 
  O_Body <$> (map_uncurry (M1 := gmap GVR) (M2 := gmap nsname) (M12 := gmap (GVR * nsname)) (T_objects (CS_tracker s))).

Lemma store_holds s : holds (CS_tracker s) (store_of s).
Proof.
  intros g k. unfold store_of, stored. rewrite lookup_fmap, lookup_map_uncurry. by destruct (T_objects _ !! g).
Qed.
Lemma holds_store s m : holds (CS_tracker s) m → store_of s = m.
Proof. intros Hm. apply map_eq. intros [g k]. by rewrite <- Hm, (store_holds s g k). Qed.

Lemma fake_ok_channel patched s id f : fake_ok patched s → fake_ok patched (with_channel id f s).
Proof.
  intros [Hc Hw [Hk Ht Hok]]. split; [done|done|]. split; [exact Hk|exact Ht|].
  eapply watchers_ok_same; [exact Hok|done|]. apply length_alter.
Qed.

(** Nothing is stored under the resources of the subresources. *)
Lemma no_subresource_objects t gv k : tracker_ok t → gv ∈ [ClientV1alpha1.SubGV; ClientV1beta1.SubGV] →
  stored t (with_resource gv PluralResourceName) k = None.
Proof.
  intros Ht Hgv. destruct (stored t _ k) as [o|] eqn:Ho; [|done]. apply (ok_type _ Ht) in Ho.
  repeat (apply elem_of_cons in Hgv as [->|Hgv]; [by vm_compute in Ho|]). by apply elem_of_nil in Hgv.
Qed.

(** By itself the fake finds no template to process. *)
Definition no_template (options : body) : ferror := FNotFound ("subresources.template.kubevirt.io", PluralResourceName) (B_Name options).

Lemma expansion_is g pkg sub f : (g, pkg, sub, f) ∈ fake_expansions →
  f = fake_subresource g pkg sub ∧ (sub = "process" ∨ sub = "create") ∧
  ∃ gv, gv ∈ [ClientV1alpha1.SubGV; ClientV1beta1.SubGV] ∧ g = with_resource gv PluralResourceName.
Proof.
  intros Hf. unfold fake_expansions in Hf.
  repeat (apply elem_of_cons in Hf as [[= -> -> -> ->]|Hf];
    [split; [done|]; split; [by (left + right)|]; eexists; split; [|done]; (by left) || (by right; left)|]).
  by apply elem_of_nil in Hf.
Qed.

Lemma expansion_default patched s g pkg sub f c name options : fake_ok patched s → (g, pkg, sub, f) ∈ fake_expansions →
  ∃ a, f c name options s = (Ok (None, Some (no_template options)), acted s a (CS_tracker s)).
Proof.
  intros Hs (-> & Hsub & gv & Hgv & ->)%expansion_is.
  assert (str_empty sub = false) as Hne by (by destruct Hsub as [-> | ->]).
  unfold fake_subresource, mbind, fk_bind. rewrite (Invokes_default patched) by apply Hs.
  cbn [ObjectReaction]. unfold handled, react_Create, mbind, trk_bind. cbn [O_Body]. rewrite Hne, tracker_Get_run.
  rewrite no_subresource_objects by (done || apply Hs).
  assert (group_resource (with_resource gv PluralResourceName) = ("subresources.template.kubevirt.io", PluralResourceName)) as ->;
    [|by eexists].
  repeat (apply elem_of_cons in Hgv as [->|Hgv]; [done|]). by apply elem_of_nil in Hgv.
Qed.

Lemma fake_step_ok patched s s' : (∀ p o w, patched p o ≠ Panic w) → fake_ok patched s → fake_step s s' → fake_ok patched s'.
Proof.
  intros Hp Hs Hstep. destruct Hstep as [ns c op out s' Hc Hrun|ns c [[[g pkg] sub] f] name options r s' Hc Hf Hrun|id|id]; [| |by apply fake_ok_channel..].
  - assert (selectable op) as Hsel by (destruct op as [| [] | [] | | | | | [] |]; cbn; first [exact I | discriminate Hrun | by eexists]).
    pose proof (op_refined patched ns c op s _ Hp Hc Hsel Hs (store_holds s)) as (_ & _ & Hout). rewrite Hrun in Hout.
    destruct (Hout out eq_refl) as (m' & _ & _ & Hok). exact Hok.
  - destruct (expansion_default patched s g pkg sub f c name options Hs Hf) as [a Ha]. cbn [snd] in Hrun. rewrite Ha in Hrun. injection Hrun as _ <-.
    apply fake_ok_acted; [done|apply Hs].
Qed.

Lemma fake_reachable_ok patched s s' : (∀ p o w, patched p o ≠ Panic w) → fake_ok patched s → rtc fake_step s s' → fake_ok patched s'.
Proof. intros Hp Hs Hr. induction Hr as [|s s1 s' Hstep _ IH]; [done|]. by apply IH, (fake_step_ok patched s). Qed.

(** C28: The fake clientset is a map of objects.  In every clientset that comes
    from [NewSimpleClientset] by operations of its clients, and as long as no
    watcher is a full channel behind, each operation of each typed client
    returns, with the answer the map gives and the changes it makes: an object is
    created once, under its own namespace (the client's if it has none) and
    name; updates, status updates and patches need it and replace all of it;
    lists are complete, without repetition and in order; deleting a
    collection deletes nothing; and no operation touches an object of another
    resource or version. *)
Theorem fake_client_refines patched objs s0 s ns c op :
  (∀ p o w, patched p o ≠ Panic w) → Forall plain (objs ≫= members) → NewSimpleClientset patched objs = Ok s0 →
  rtc fake_step s0 s → c ∈ fake_clients ns → selectable op → room (CS_tracker s) →
  ∃ out s', fake_run c op s = (Ok out, s') ∧ fake_spec patched c op (store_of s) out (store_of s').
Proof.
  intros Hp Hplain Hnew Hreach Hc Hsel Hroom.
  assert (fake_ok patched s) as Hs by (eapply fake_reachable_ok; [done|by eapply NewSimpleClientset_run|done]).
  pose proof (op_refined patched ns c op s _ Hp Hc Hsel Hs (store_holds s)) as (Hpanic & Herr & Hout).
  destruct (fake_run c op s) as [[out|e|w] s']; [|by destruct (Herr e)|by destruct (Hpanic Hroom w)].
  exists out, s'. split; [done|]. destruct (Hout out eq_refl) as (m' & Hspec & Hm' & _). by rewrite (holds_store s' m' Hm').
Qed.

(** The clientset responds with the objects it was made of: each is found by the
    client of its type in its namespace, and the lists are added item by
    item. *)
Theorem NewSimpleClientset_responds patched objs s o :
  Forall plain (objs ≫= members) → NewSimpleClientset patched objs = Ok s → o ∈ objs ≫= members →
  ∃ c, c ∈ fake_clients (B_Namespace (O_Body o)) ∧ F_Type c = O_Type o ∧
    (Fake_Get c (B_Name (O_Body o)) s).1 = Ok (O_Body o, None).
Proof.
  intros Hplain Hnew Ho. destruct (NewSimpleClientset_run patched objs s Hplain Hnew) as (Hs & _ & Hin).
  destruct (Hin o Ho) as (c & Hc & Htype & Hst). exists c. split_and!; [done|done|].
  destruct (fake_client_facts _ c Hc) as (Hns & _). unfold Fake_Get.
  rewrite (invoke_object_default patched c _ (tracker_Get (F_GVR c) (F_Namespace c) (B_Name (O_Body o)))) by (done || apply Hs).
  rewrite tracker_Get_run, Hns. unfold body_key in Hst. by rewrite Hst, <- Htype, String.eqb_refl.
Qed.

(** The fake's subresources: in every reachable clientset, whatever
    templates it has, [Process] and [CreateVirtualMachine] of both versions
    answer that there is no such template (by the name in the options, in the
    group of the subresources, where nothing can be stored).  A test has to
    bring its own reaction: once one is put in front, its answer is returned,
    and the fake records the call with the name and the options. *)
Theorem fake_subresources patched objs s0 s ns c g pkg sub f name options b :
  (∀ p o w, patched p o ≠ Panic w) → Forall plain (objs ≫= members) → NewSimpleClientset patched objs = Ok s0 →
  rtc fake_step s0 s → c ∈ fake_clients ns → (g, pkg, sub, f) ∈ fake_expansions →
  (f c name options s).1 = Ok (None, Some (no_template options)) ∧ store_of (f c name options s).2 = store_of s ∧
  let processed := mkFObject (pkg +:+ ".ProcessedVirtualMachineTemplate") b in
  let reaction := mkReactor "create" (PluralResourceName +:+ "/" +:+ sub) (λ _, mret (Handled (Some (RObject processed), None))) in
  let '(r, s') := f c name options (PrependReactor reaction s) in
  r = Ok (Some b, None) ∧
  CS_actions s' = (CS_actions s ++ [CreateAction g name sub ns (mkFObject (pkg +:+ ".ProcessOptions") options)])%list.
Proof.
  intros Hp Hplain Hnew Hreach Hc Hf.
  assert (fake_ok patched s) as Hs by (eapply fake_reachable_ok; [done|by eapply NewSimpleClientset_run|done]).
  destruct (expansion_default patched s g pkg sub f c name options Hs Hf) as [a Ha]. rewrite Ha. split; [done|]. split; [done|].
  destruct (fake_client_facts ns c Hc) as (<- & _). destruct (expansion_is _ _ _ _ Hf) as (-> & Hsub & gv & _ & ->). cbv zeta.
  unfold fake_subresource, mbind, fk_bind, Invokes, on_tracker. cbn [CS_chain PrependReactor CS_tracker react_chain].
  assert (∀ x, Handles (mkReactor "create" (PluralResourceName +:+ "/" +:+ sub) x)
    (CreateAction (with_resource gv PluralResourceName) name sub (F_Namespace c) (mkFObject (pkg +:+ ".ProcessOptions") options)) = true) as ->.
  { intros x. unfold Handles, resourceCovers. cbn [R_Verb R_Resource action_verb action_resource action_subresource with_resource snd].
    by destruct Hsub as [-> | ->]. }
  unfold mbind, trk_bind, mret, trk_ret, as_object. cbn -[String.eqb String.append]. rewrite String.eqb_refl. done.
Qed.

(** ** Concrete instances *)

Definition no_patch (p : patch) (o : fobject) : res ferror body := Err (FError "PatchType is not supported").
Definition sample_object : fobject := mkFObject "v1beta1.VirtualMachineTemplate" (mkBody "team-a" "web" ∅ "spec").

Definition sample_clientset : clientset :=
  match NewSimpleClientset no_patch [RObject sample_object] with Ok s => s | _ => mkClientset [] [] [] NewObjectTracker end.

(** A second template with the name of the first is refused in the version of the first,
    and created in the other. *)
Lemma fake_client_refines_witness :
  (∃ out s', fake_run (FakeV1beta1.newFakeVirtualMachineTemplates "team-a") (FCreate (mkBody "" "web" ∅ "other")) sample_clientset = (Ok out, s') ∧
     out = OutObject empty_body (Some (FAlreadyExists ("template.kubevirt.io", "virtualmachinetemplates") "web")) ∧
     store_of s' = store_of sample_clientset) ∧
  (∃ out s', fake_run (FakeV1alpha1.newFakeVirtualMachineTemplates "team-a") (FCreate (mkBody "" "web" ∅ "other")) sample_clientset = (Ok out, s') ∧
     out = OutObject (mkBody "team-a" "web" ∅ "other") None).
Proof.
  split.
  - destruct (fake_client_refines no_patch [RObject sample_object] sample_clientset sample_clientset "team-a"
      (FakeV1beta1.newFakeVirtualMachineTemplates "team-a") (FCreate (mkBody "" "web" ∅ "other"))) as (out & s' & Hrun & Hspec);
      [discriminate|by repeat constructor|reflexivity|constructor|do 2 right; left|exact I|constructor|].
    exists out, s'. split; [exact Hrun|]. exact Hspec.
  - destruct (fake_client_refines no_patch [RObject sample_object] sample_clientset sample_clientset "team-a"
      (FakeV1alpha1.newFakeVirtualMachineTemplates "team-a") (FCreate (mkBody "" "web" ∅ "other"))) as (out & s' & Hrun & Hspec);
      [discriminate|by repeat constructor|reflexivity|constructor|left|exact I|constructor|].
    exists out, s'. split; [exact Hrun|]. exact (proj1 Hspec).
Defined.

Lemma fake_subresources_witness :
  (FakeV1beta1_Process (FakeV1beta1.newFakeVirtualMachineTemplates "team-a") "web" (mkBody "" "web" ∅ "") sample_clientset).1 =
  Ok (None, Some (FNotFound ("subresources.template.kubevirt.io", "virtualmachinetemplates") "web")).
Proof.
  refine (proj1 (fake_subresources no_patch [RObject sample_object] sample_clientset sample_clientset "team-a"
    (FakeV1beta1.newFakeVirtualMachineTemplates "team-a") _ _ _ FakeV1beta1_Process "web" (mkBody "" "web" ∅ "") empty_body _ _ _ _ _ _));
    [discriminate|by repeat constructor|reflexivity|constructor|do 2 right; left|do 2 right; left].
Defined.
